(* ===== verification/_CoqProject ===== *)
-Q . S2P
Prelude.v
CString.v
Protocol.v
Dispatch.v
Platform.v
Script.v
OsUnix.v
Params.v
Stream.v
Writer.v
Format.v
Printing.v
Reader.v
Source.v
Reads.v
NameValue.v
Demux.v
Begin.v
Mgmt.v
Sockets.v
Spawn.v
Win32.v
Win32Spec.v
Request.v
Accept.v
Client.v
Response.v
Session.v
Retry.v
Server.v
Streambuf.v
Stdio.v
StdioSpec.v
Theorems.v
TheoremsServer.v
TheoremsIO.v
TheoremsOS.v
TheoremsCxx.v
TheoremsWin.v
