(* ===== verification/Prelude.v ===== *)
(** * libfcgi: the FastCGI application library

    A verification development for the C part of the Eiffel Web Framework, the
    FastCGI application library under
    [src/library/server/libfcgi/Clib/libfcgi] ("libfcgi" below).  A web server
    sends requests as records on a connection; the library listens, accepts
    connections, takes the records apart into an environment and an input stream,
    gives the application an output and an error stream, and turns what the
    application writes into records again, ended by one END_REQUEST record.
    Eiffel code (EWSGI, WSF and the rest of the framework) reaches it through a
    thin external binding.

    ** The parts and how they interact

    From the bottom up; each arrow is a call.
<<
      libfcgi/os_unix.c     sockets, select, signals, the asynchronous table
      libfcgi/os_win32.c    the same interface over Win32
            ^
      libfcgi/fcgiapp.c     streams, records, parameters, printf, requests
            ^                          ^
      libfcgi/fcgi_stdio.c         libfcgi/fcgio.cpp
      the FCGI_ stdio wrappers     the C++ stream buffer
>>
    A stream ([FCGX_Stream]) owns a buffer and calls back, through
    [fillBuffProc] and [emptyBuffProc], into the code that reads and writes
    records on the request's connection.  The demultiplexer [FillBuffProc] calls
    [ProcessHeader], which for BEGIN_REQUEST and management records reads the
    record's content through the same stream, that is through [FillBuffProc]
    again.

    ** Files

    Shared: this file (the monad [M] of state and faults, its total-correctness
    predicate [wp] with the tactics [wp_step] and [wp_use], machine integers,
    byte lists and memory blocks) and [CString] (the C library's string
    functions).  A C function is a command of type [M S A]; a
    [fault] is an undefined operation, a failed [ASSERT], a call of [exit] or a
    loop out of fuel, so [wp m Q s] says that [m] returns and that nothing of
    that kind happens.

    - [Protocol]: [fastcgi.h] and the record builders of [fcgiapp.c]
      ([MakeHeader] and the body builders), with a reference encoder and decoder
      of the wire ([encode_rec], [decode_rec], [decode_all]).
    - [Platform], [OsUnix], [Sockets], [Spawn]: [os_unix.c].  The state [OS] is
      its static variables, [errno] and the kernel; the system calls are the
      classes [Platform], [Sockets] and [Processes], their documented behaviour
      the classes [PlatformLaws], [Reliable] and [ProcessLaws].  [Script] is a
      kernel that satisfies them, on which the definitions run.
    - [Win32], [Win32Spec]: [os_win32.c].  The state [WOS] is its static
      variables and the live requests; Win32 is the class [Win32Api], about which
      nothing is assumed except where a theorem says so.
    - [Params]: the parameter vector ([NewParams], [PutParam],
      [FreeParams], [FCGX_GetParam]).
    - [Stream]: [FCGX_Stream], its data and the request record, their
      construction and error state.  A stream operation runs on an [SState].
    - [Writer]: output streams, [FCGX_PutChar] to [FCGX_FClose], with
      [EmptyBuffProc], [WriteCloseRecords] and [write_it_all].
    - [Format], [Printing]: [FCGX_VFPrintF]; the definitions, and what they
      print.
    - [Reader]: input streams, [FCGX_GetChar] to [FCGX_StartFilterData],
      [FillBuffProc], [ProcessHeader] and what it calls, [ReadParams].
      [Source] is the interface between the readers and the procedure that
      fills their buffer; [Reads] compares every sequence of reads with a reader
      of a list of bytes.
    - [Dispatch] is the reference for the demultiplexer: [run] says what any
      sequence of bytes from a connection means to a reader of one record type.
      [Demux] and [Begin] show that [FillBuffProc] agrees with it, for streams
      and for single records; [NameValue] and [Mgmt] are the proofs for
      name-value pairs, with their reference parser [parse_pairs], and for
      management records.
    - [Request]: [FCGX_Init] to [FCGX_Free], [FCGX_Accept_r] and
      [FCGX_Finish_r] on a [World]: the request, a heap of streams, the
      library's static variables and the layer below.  [Accept] says what an
      accept makes of any input ([request_of]), [Response] what the server then
      receives, [Session] what an application does whose writes depend on its
      reads ([program], with its meaning [answer] on lists) while the library sends
      records back to the server on the same connection, [Retry] what happens
      to a connection that carries no request and how the next one is accepted,
      and [Client] what a program that sends records ([FCGX_CreateWriter])
      transmits.
    - [Server]: several requests in one process, as [FCGX_Accept_r] is meant for.
      A [Process] has a request per worker, one heap and one operating-system
      layer; [run_events] runs a schedule of the workers' calls.  [spec] is an
      abstract server - a queue of clients, workers in sessions, replies - which
      the process refines ([serves]).
    - [Streambuf]: [fcgio.cpp], on a [BWorld]: the stream buffer and a stream.
    - [Stdio], [StdioSpec]: [fcgi_stdio.c], on an [SWorld]: the three static
      files, the others, and a [World]; the C library's own stdio is the class
      [HostStdio].
    - [Theorems], [TheoremsServer], [TheoremsIO], [TheoremsOS], [TheoremsCxx],
      [TheoremsWin]: the properties, each with a run at a concrete state.

    ** What the theorems show

    - Requests ([Theorems]): a request that is accepted, answered and finished
      yields exactly one complete response, whatever the application does: reading
      its input, writing in any interleaving to its two streams, and choosing what
      to do next by what it read.  A server that multiplexes gets its refusals
      between the records of the response; an input that breaks off makes
      [FCGX_Finish_r] close the connection.  The environment and the input an
      application sees are those the server sent, in whatever pieces the
      connection delivers them.  Whether an input carries a request, and which,
      is a function of its bytes ([request_of]): [FCGX_Accept_r] agrees with it
      on every input without a GET_VALUES record ([no_values]), gives a connection
      without a request up and, on an Internet socket without an address list,
      serves the next one, on the lowest free descriptor.  An environment whose pairs are broken is one of the inputs on
      which the code does what it does not mean to.
    - A server of several workers ([TheoremsServer]): for every interleaving of
      the workers' calls, each call returns what the abstract server says, no
      worker reads or writes another one's streams or connection, and when the
      schedule ends with nothing to do every client was answered exactly once,
      also where a descriptor served several clients.  The exit status is the
      exception: it is carried over to a worker's next client.
    - Output: an open writer refines the list of the bytes it accepted
      ([open_writer] in [Writer]); flushing and closing send all of them, errors
      close the stream and are reported, short writes are completed.
    - Input: every reader is proved once against the interface [Source], so it
      holds for streams of records and for single records.  On every input in which
      no GET_VALUES record comes before the stream's end ([asks_nothing], a
      hypothesis of each of these theorems), reading, pushing back and reading by
      lines agree with the list of bytes the stream stands for, a sequence of reads
      keeps a stream well formed, and [ReadParams] agrees with a parser of lists.
      What a client's writer sends, a reader delivers.
    - GET_VALUES ([TheoremsOS]): the answer of [FillBuffProc] while it fits in its
      array, and the overflow of that array when it does not.
    - Formatted output ([TheoremsIO]): a format of text and plain conversions
      prints its arguments; the specifier fits in its array for every format, except
      that a width given as [INT_MIN] has no [abs]; a width of 100 or more writes
      past the output array.
    - The stdio wrappers: accepting, sequences of line and block operations, and the
      defaults of files without a stream.
    - The operating-system layer ([TheoremsOS]): the client address list, the
      asynchronous table, closing (which reads what the peer still sends), the
      accept loop that a signal leaves with a closed descriptor, spawning, listening
      sockets; each with what happens when a call fails, which is often an exit
      where a comment promises -1.
    - The C++ stream buffer ([TheoremsCxx]): a buffer of any size, or none,
      changes neither what is written nor what is read.
    - Windows ([TheoremsWin]): the descriptor table's invariant over every
      sequence of operations and any behaviour of Win32, and what follows for
      late completions, the address filter, pipes and outgoing connections.
      Several of these theorems state what the code does where that is not what
      its comments or its callers expect.

    ** Bounds, fuel and assumptions

    An [int] is a [Z] that every signed operation checks ([int_op]: overflow is
    undefined) and every conversion wraps ([INT], [UINT], [SHORT], [UCHAR]); a
    pointer into a buffer is an offset, and an access outside its block is
    undefined.  Loops take [fuel], the number of their turns, and recursion of
    [FillBuffProc] a depth of two ([FillBuffProc_depth]): the outer call reads a
    stream and the inner one stops at the end of the record it reads.
    No theorem assumes that a loop ends: each says how much fuel is enough (twice
    the bytes to come and 18 more, for reading; the size of the largest
    buffer, 65536, for writing; one turn per byte the peer may still send, for
    closing) and proves that the call then returns.
    Reads and writes may move any number of bytes from one up to what was asked.
    A listening socket gives the clients that wait in order, each on the lowest
    free descriptor ([ListenSocket]); a process whose descriptors and idle workers
    together do not exceed [FD_SETSIZE] never lacks one.
    Most theorems are under [Reliable], where system calls do not report
    errors; those about [FCGX_PutStr], [write_it_all], listening sockets,
    spawning, the accept loop and Windows are not, and say what an error leads
    to.  The kernel, Win32, the C library's stdio and the text of
    floating-point and pointer conversions are parameters; [Script] and the
    examples of the theorem files are concrete values for them.

    ** Not modelled

    - The Eiffel libraries (EWSGI, WSF, the router, HTTP and URI libraries,
      authentication, cryptography, encoders), the Eiffel binding of libfcgi, the
      examples, drafts, tests and scripts: not C.
    - Messages on [stderr] and [syslog], compile-time configuration
      ([fcgi_config.h] and its Windows variants) and the code it leaves out: the
      model is that of a 64-bit system, with [WSAAccept] on Windows.
    - Interleaving inside a call: workers take turns at the granularity of the
      library's calls; [fcgiapp.c] has no locks of its own.  The
      asynchronous threads of [os_win32.c] and the SIGUSR1 handler are modelled as
      what may happen during a blocking call.
    - A GET_VALUES record while a request is being accepted or read is modelled, as
      every management record, but the theorems on any input exclude it
      ([no_values], [asks_nothing]; [input_of] is then unknown): its answer depends on the pairs that it carries, and
      [Mgmt] treats it for well-formed ones.
    - Scheduling of several processes on one listening socket, beyond the lock
      calls that [OS_Accept] makes.

    ** What could follow

    The composition of [os_win32.c] with the stream layer (the interface is proved
    for [os_unix.c]); GET_VALUES records with broken pairs, and between the records
    of a request; several processes on one listening socket, with the lock as a
    resource. *)

From Stdlib Require Export ZArith Lia.
From stdpp Require Export base list gmap sets.

#[global] Open Scope Z_scope.
#[global] Arguments Z.eqb : simpl never.
#[global] Arguments Z.leb : simpl never.
#[global] Arguments Z.ltb : simpl never.
#[global] Arguments Z.add : simpl never.
#[global] Arguments Z.sub : simpl never.
#[global] Arguments Z.mul : simpl never.
#[global] Arguments Z.land : simpl never.
#[global] Arguments Z.shiftl : simpl never.
#[global] Arguments Z.shiftr : simpl never.
#[global] Arguments Z.modulo : simpl never.
#[global] Arguments Z.of_nat : simpl never.
#[global] Arguments Z.to_nat : simpl never.

(** [lia] with division and remainder by constants *)
Ltac zdiv := Z.to_euclidean_division_equations; lia.

(** ** The monad *)

(** The ways a C function can fail to return: it performs an operation the
    language leaves undefined (a memory access outside an object, a null
    dereference, a signed overflow), an [ASSERT] fails, it calls [exit], or
    the model ran out of loop fuel. *)
Inductive fault :=
  | UndefinedBehaviour
  | AssertionFailed
  | ProcessExit (code : Z)
  | OutOfFuel.

Inductive outcome (S A : Type) :=
  | Ret (a : A) (s : S)
  | Fault (f : fault).
Arguments Ret {S A} a s.
Arguments Fault {S A} f.

Definition M (S A : Type) : Type := S -> outcome S A.

Section Monad.
Context {S : Type}.

Definition ret {A} (a : A) : M S A := fun s => Ret a s.
Definition bind {A B} (m : M S A) (k : A -> M S B) : M S B :=
  fun s => match m s with
           | Ret a s' => k a s'
           | Fault f => Fault f
           end.
Definition fail {A} (f : fault) : M S A := fun _ => Fault f.
Definition undef {A} : M S A := fail UndefinedBehaviour.
Definition get : M S S := fun s => Ret s s.
Definition gets {A} (f : S -> A) : M S A := fun s => Ret (f s) s.
Definition modify (f : S -> S) : M S unit := fun s => Ret tt (f s).
Definition assert (b : bool) : M S unit :=
  if b then ret tt else fail AssertionFailed.
Definition of_option {A} (o : option A) : M S A :=
  match o with Some a => ret a | None => undef end.

(** C's [for (;;)]: the body either goes round again with new values of the
    loop's local variables ([inl]) or leaves the loop ([inr]). *)
Fixpoint loop {L R} (fuel : nat) (body : L -> M S (L + R)) (l : L) : M S R :=
  match fuel with
  | O => fail OutOfFuel
  | Datatypes.S fuel' =>
      bind (body l) (fun r => match r with
                              | inl l' => loop fuel' body l'
                              | inr x => ret x
                              end)
  end.
End Monad.

(** a command on one component of the state *)
Definition zoom {S T A} (get : S -> T) (put : T -> S -> S) (m : M T A) : M S A :=
  fun s => match m (get s) with
           | Ret a t => Ret a (put t s)
           | Fault f => Fault f
           end.

Declare Scope prog_scope.
Delimit Scope prog_scope with prog.
Notation "x <- m ;; k" := (bind m (fun x => k))
  (at level 100, m at next level, right associativity) : prog_scope.
Notation "m ;;; k" := (bind m (fun _ => k))
  (at level 100, right associativity) : prog_scope.
Notation "'when' b 'do' m" := (if b then m else ret tt)
  (at level 95, b at level 90, m at level 94) : prog_scope.
#[global] Open Scope prog_scope.

(** ** Weakest preconditions (total correctness) *)

(** [wp m Q s]: started in [s], [m] returns (no undefined behaviour, no failed
    assertion, no exit, no exhausted fuel) and its result satisfies [Q]. *)
Definition wp {S A} (m : M S A) (Q : A -> S -> Prop) (s : S) : Prop :=
  match m s with
  | Ret a s' => Q a s'
  | Fault _ => False
  end.

Section WpRules.
Context {S : Type}.
Implicit Types s : S.

Lemma wp_ret {A} (a : A) Q s : Q a s -> wp (ret a) Q s.
Proof. done. Qed.

Lemma wp_bind {A B} (m : M S A) (k : A -> M S B) Q s :
  wp m (fun a => wp (k a) Q) s -> wp (bind m k) Q s.
Proof. unfold wp, bind. by destruct (m s). Qed.

Lemma wp_bind_inv {A B} (m : M S A) (k : A -> M S B) Q s :
  wp (bind m k) Q s -> wp m (fun a => wp (k a) Q) s.
Proof. unfold wp, bind. by destruct (m s). Qed.

Lemma wp_mono {A} (m : M S A) (P Q : A -> S -> Prop) s :
  wp m P s -> (forall a s', P a s' -> Q a s') -> wp m Q s.
Proof. unfold wp. destruct (m s); auto. Qed.

(** [bind] of a command whose outcome is known *)
Lemma bind_ret_eq {A B} (m : M S A) (k : A -> M S B) s a s' :
  m s = Ret a s' -> bind m k s = k a s'.
Proof. unfold bind. by intros ->. Qed.

(** any property of the outcome of [bind], faults included *)
Lemma bind_assoc {A B C} (m : M S A) (k : A -> M S B) (k' : B -> M S C) s :
  bind (bind m k) k' s = bind m (fun a => bind (k a) k') s.
Proof. unfold bind. by destruct (m s). Qed.

Lemma bind_outcome {A B} (P : outcome S B -> Prop) (m : M S A) (k : A -> M S B) s :
  wp m (fun a s' => P (k a s')) s -> P (bind m k s).
Proof. unfold wp, bind. by destruct (m s). Qed.

Lemma bind_outcomes {A B} (P : outcome S B -> Prop) (m : M S A) (k : A -> M S B) s :
  match m s with Ret a s' => P (k a s') | Fault f => P (Fault f) end -> P (bind m k s).
Proof. unfold bind. by destruct (m s). Qed.

Lemma wp_self {A} (m : M S A) Q s :
  wp m Q s -> wp m (fun a s' => m s = Ret a s' /\ Q a s') s.
Proof. unfold wp. by destruct (m s). Qed.

Lemma wp_outcome {A} (P : outcome S A -> Prop) (m : M S A) s :
  wp m (fun a s' => P (Ret a s')) s -> P (m s).
Proof. unfold wp. by destruct (m s). Qed.

Lemma bind_fault {A B} (m : M S A) (k : A -> M S B) f s :
  wp m (fun a s' => k a s' = Fault f) s -> bind m k s = Fault f.
Proof. exact (bind_outcome (fun x => x = Fault f) m k s). Qed.

Lemma bind_fault_l {A B} (m : M S A) (k : A -> M S B) f s :
  m s = Fault f -> bind m k s = Fault f.
Proof. unfold bind. by intros ->. Qed.

Lemma wp_get Q s : Q s s -> wp get Q s.
Proof. done. Qed.

Lemma wp_gets {A} (f : S -> A) Q s : Q (f s) s -> wp (gets f) Q s.
Proof. done. Qed.

Lemma wp_modify (f : S -> S) Q s : Q tt (f s) -> wp (modify f) Q s.
Proof. done. Qed.

Lemma wp_assert b Q s : b = true -> Q tt s -> wp (assert b) Q s.
Proof. by intros ->. Qed.

Lemma wp_of_option {A} (o : option A) a Q s :
  o = Some a -> Q a s -> wp (of_option o) Q s.
Proof. by intros ->. Qed.

Lemma wp_Ret {A} (m : M S A) Q s :
  wp m Q s <-> exists a s', m s = Ret a s' /\ Q a s'.
Proof.
  unfold wp. destruct (m s); split; [eauto|by intros (? & ? & [= -> ->] & ?)|done|].
  by intros (? & ? & ? & ?).
Qed.

Lemma wp_zoom {T A} (g : S -> T) (p : T -> S -> S) (m : M T A) Q s :
  wp m (fun a t => Q a (p t s)) (g s) -> wp (zoom g p m) Q s.
Proof. unfold wp, zoom. by destruct (m (g s)). Qed.

(** The rule for loops: an invariant indexed by a strictly decreasing
    natural number, and enough fuel for it. *)
Lemma wp_loop {L R} (I : nat -> L -> S -> Prop) (Q : R -> S -> Prop)
    (body : L -> M S (L + R)) fuel n l s :
  (forall m l s, I m l s ->
     wp (body l) (fun r s' => match r with
                              | inl l' => exists m', (m' < m)%nat /\ I m' l' s'
                              | inr x => Q x s'
                              end) s) ->
  (n < fuel)%nat -> I n l s -> wp (loop fuel body l) Q s.
Proof.
  intros Hbody. revert n l s.
  induction fuel as [|fuel IH]; intros n l s Hn HI; [lia|].
  cbn [loop]. apply wp_bind.
  eapply wp_mono; [by eapply Hbody|].
  intros [l'|x] s'; cbn.
  - intros (m' & Hm & HI'). eapply IH; [|done]. lia.
  - done.
Qed.

Lemma loop_unfold {L R} fuel (body : L -> M S (L + R)) l :
  loop (Datatypes.S fuel) body l =
  bind (body l) (fun r => match r with
                          | inl l' => loop fuel body l'
                          | inr x => ret x
                          end).
Proof. done. Qed.
End WpRules.

#[global] Arguments wp : simpl never.
#[global] Arguments bind : simpl never.
#[global] Arguments loop : simpl never.

Create HintDb wp.
#[export] Hint Resolve wp_ret wp_get wp_gets wp_modify : wp.

(** [wp_step] takes one command of a program in a [wp] goal. *)
Ltac wp_step :=
  lazymatch goal with
  | |- wp (bind _ _) _ _ => apply wp_bind
  | |- wp (ret _) _ _ => apply wp_ret
  | |- wp get _ _ => apply wp_get
  | |- wp (gets _) _ _ => apply wp_gets
  | |- wp (modify _) _ _ => apply wp_modify
  | |- wp (zoom _ _ _) _ _ => apply wp_zoom
  | |- wp (if true then ?a else _) ?Q ?s => change (wp a Q s)
  | |- wp (if false then _ else ?a) ?Q ?s => change (wp a Q s)
  end; cbv beta.
Ltac wp_steps := repeat wp_step.

(** [wp_use H] continues a proof after a call whose specification is [H]. *)
Ltac wp_use H := eapply wp_mono; [eapply H | cbv beta].

(** ** Machine integers *)

Definition INT_MAX : Z := 2147483647.
Definition INT_MIN : Z := -2147483648.
Definition UCHAR (z : Z) : Z := Z.land z 255.
(** conversion of a wider value to a 32-bit [int] and to a 16-bit [short] *)
Definition INT (z : Z) : Z := (z + 2147483648) mod 4294967296 - 2147483648.
Definition SHORT (z : Z) : Z := (z + 32768) mod 65536 - 32768.
Definition int_range (z : Z) : bool := (INT_MIN <=? z) && (z <=? INT_MAX).
(** the result of signed [int] arithmetic, undefined when it overflows *)
Definition int_op {S} (z : Z) : M S Z := if int_range z then ret z else undef.

Definition is_byte (b : Z) : Prop := 0 <= b < 256.
Definition bytes (l : list Z) : Prop := Forall is_byte l.
Definition is_byteb (b : Z) : bool := (0 <=? b) && (b <? 256).

Lemma UCHAR_mod z : UCHAR z = z mod 256.
Proof. unfold UCHAR. change 255 with (Z.ones 8). by rewrite Z.land_ones. Qed.

Lemma UCHAR_id z : is_byte z -> UCHAR z = z.
Proof. rewrite UCHAR_mod. unfold is_byte. intros. by rewrite Z.mod_small. Qed.

Lemma UCHAR_byte z : is_byte (UCHAR z).
Proof. rewrite UCHAR_mod. unfold is_byte. apply Z.mod_pos_bound. lia. Qed.

Lemma INT_id z : INT_MIN <= z <= INT_MAX -> INT z = z.
Proof. unfold INT, INT_MIN, INT_MAX. intros. rewrite Z.mod_small; lia. Qed.

Lemma bytes_app l1 l2 : bytes (l1 ++ l2) <-> bytes l1 /\ bytes l2.
Proof. apply Forall_app. Qed.

Lemma bytes_check l : forallb is_byteb l = true -> bytes l.
Proof.
  intros H. apply List.Forall_forall. intros b Hb.
  rewrite List.forallb_forall in H. specialize (H b Hb).
  unfold is_byteb in H. unfold is_byte. lia.
Qed.

#[export] Hint Resolve UCHAR_byte : core.

(** ** Memory blocks *)

(** A C object of bytes is the list of its bytes; a pointer into it is an
    offset.  An access outside the block is undefined behaviour. *)
Definition len (l : list Z) : Z := Z.of_nat (length l).

Definition slice (m : list Z) (a b : Z) : list Z :=
  take (Z.to_nat (b - a)) (drop (Z.to_nat a) m).

Definition in_block (m : list Z) (off n : Z) : bool :=
  (0 <=? off) && (0 <=? n) && (off + n <=? len m).

(** [memcpy] out of the block: [n] bytes from offset [off] *)
Definition mem_read {S} (m : list Z) (off n : Z) : M S (list Z) :=
  if in_block m off n then ret (slice m off (off + n)) else undef.

(** the block after [memcpy] of [bs] into it at offset [off] *)
Definition splice (m : list Z) (off : Z) (bs : list Z) : list Z :=
  take (Z.to_nat off) m ++ bs ++ drop (Z.to_nat off + length bs) m.

Definition mem_write {S} (m : list Z) (off : Z) (bs : list Z) : M S (list Z) :=
  if in_block m off (len bs) then ret (splice m off bs) else undef.

Lemma len_nonneg l : 0 <= len l.
Proof. unfold len. lia. Qed.

Lemma len_app l1 l2 : len (l1 ++ l2) = len l1 + len l2.
Proof. unfold len. rewrite length_app. lia. Qed.

Lemma len_nil_inv l : len l = 0 -> l = [].
Proof. destruct l; [done|]. unfold len. cbn. lia. Qed.

Lemma len_cons x l : len (x :: l) = 1 + len l.
Proof. unfold len. cbn [length]. lia. Qed.

Lemma slice_len m a b : 0 <= a -> a <= b -> b <= len m -> len (slice m a b) = b - a.
Proof.
  unfold slice, len. intros. rewrite length_take, length_drop. lia.
Qed.

Lemma slice_empty m a b : b <= a -> slice m a b = [].
Proof. unfold slice. intros. by replace (Z.to_nat (b - a)) with O by lia. Qed.

Lemma slice_full m : slice m 0 (len m) = m.
Proof.
  unfold slice, len. replace (Z.to_nat (Z.of_nat (length m) - 0)) with (length m) by lia.
  change (Z.to_nat 0) with O. rewrite drop_0. by apply take_ge.
Qed.

Lemma slice_app m a b c : 0 <= a -> a <= b -> b <= c ->
  slice m a c = slice m a b ++ slice m b c.
Proof.
  unfold slice. intros.
  replace (Z.to_nat (c - a)) with (Z.to_nat (b - a) + Z.to_nat (c - b))%nat by lia.
  replace (Z.to_nat b) with (Z.to_nat a + Z.to_nat (b - a))%nat by lia.
  rewrite <- drop_drop.
  rewrite <- (take_drop (Z.to_nat (b - a)) (take _ (drop (Z.to_nat a) m))).
  rewrite take_take, skipn_firstn_comm. f_equal; f_equal; lia.
Qed.

Lemma slice_cons m a b : 0 <= a -> a < b -> b <= len m ->
  exists x, m !! Z.to_nat a = Some x /\ slice m a b = x :: slice m (a + 1) b.
Proof.
  unfold len. intros.
  destruct (lookup_lt_is_Some_2 m (Z.to_nat a)) as [x Hx]; [lia|].
  exists x. split; [done|]. unfold slice.
  rewrite (drop_S _ _ _ Hx).
  replace (Z.to_nat (b - a)) with (S (Z.to_nat (b - (a + 1)))) by lia.
  replace (Z.to_nat (a + 1)) with (S (Z.to_nat a)) by lia. done.
Qed.

Lemma bytes_slice m a b : bytes m -> bytes (slice m a b).
Proof. intros. unfold slice. by apply Forall_take, Forall_drop. Qed.

Lemma splice_len m off bs : 0 <= off -> off + len bs <= len m ->
  len (splice m off bs) = len m.
Proof.
  unfold splice, len. intros.
  rewrite !length_app, length_take, length_drop. lia.
Qed.

(** reading back what a write put there *)
Lemma slice_splice_same m off e bs : 0 <= off -> e = off + len bs -> e <= len m ->
  slice (splice m off bs) off e = bs.
Proof.
  intros ? -> ?. unfold slice, splice, len in *.
  rewrite drop_app_length' by (rewrite length_take; lia).
  rewrite take_app_length' by lia. done.
Qed.

(** reading a region that lies before the written one *)
Lemma slice_splice_before m off bs a b :
  0 <= a -> b <= off -> off + len bs <= len m ->
  slice (splice m off bs) a b = slice m a b.
Proof.
  unfold slice, splice, len. intros Ha Hb Hm.
  destruct (decide (b <= a)).
  { by replace (Z.to_nat (b - a)) with O by lia. }
  rewrite drop_app_le by (rewrite length_take; lia).
  rewrite take_app_le by (rewrite length_drop, length_take; lia).
  rewrite skipn_firstn_comm, take_take. f_equal. lia.
Qed.

(** reading a region that lies after the written one *)
Lemma slice_splice_after m off bs a b :
  0 <= off -> off + len bs <= a -> off + len bs <= len m ->
  slice (splice m off bs) a b = slice m a b.
Proof.
  unfold slice, splice, len. intros Ho Ha Hm. f_equal.
  rewrite app_assoc.
  rewrite drop_app_ge by (rewrite length_app, length_take; lia).
  rewrite drop_drop. f_equal. rewrite length_app, length_take. lia.
Qed.

Lemma bytes_splice m off bs : bytes m -> bytes bs -> bytes (splice m off bs).
Proof.
  intros. unfold splice. rewrite !bytes_app.
  repeat split; [by apply Forall_take|done|by apply Forall_drop].
Qed.

Lemma wp_mem_read {S} m off n (Q : list Z -> S -> Prop) s :
  0 <= off -> 0 <= n -> off + n <= len m ->
  Q (slice m off (off + n)) s -> wp (mem_read m off n) Q s.
Proof.
  intros. unfold mem_read, in_block.
  replace ((0 <=? off) && (0 <=? n) && (off + n <=? len m)) with true by lia.
  by apply wp_ret.
Qed.

Lemma wp_mem_write {S} m off bs (Q : list Z -> S -> Prop) s :
  0 <= off -> off + len bs <= len m ->
  Q (splice m off bs) s -> wp (mem_write m off bs) Q s.
Proof.
  intros. unfold mem_write, in_block. pose proof (len_nonneg bs).
  replace ((0 <=? off) && (0 <=? len bs) && (off + len bs <=? len m)) with true by lia.
  by apply wp_ret.
Qed.

Create Rewrite HintDb len.
#[export] Hint Rewrite len_app len_cons : len.

(** Case analysis on the boolean test that guards a [wp] goal, with the test's
    outcome in arithmetic form. *)
Ltac case_if H :=
  match goal with
  | |- context [if ?b then _ else _] => destruct b eqn:H
  end.

Lemma wp_if {S A} (b : bool) (m1 m2 : M S A) Q s :
  (b = true -> wp m1 Q s) -> (b = false -> wp m2 Q s) ->
  wp (if b then m1 else m2) Q s.
Proof. destruct b; auto. Qed.
