(* ===== verification/CString.v ===== *)
(** * The string functions of the C library the program calls

    A [char *] is the list of the bytes of its object from the pointer on, the
    terminating NUL included; bytes after a NUL may follow.  A function that
    runs off the end of the object has undefined behaviour and answers [None]. *)

From Stdlib Require Import String Ascii.
From S2P Require Import Prelude.
#[local] Open Scope Z_scope.

(** the characters of a string constant *)
Fixpoint chars (s : string) : list Z :=
  match s with
  | EmptyString => []
  | String a s' => Z.of_N (N_of_ascii a) :: chars s'
  end.

Fixpoint strlen (s : list Z) : option Z :=
  match s with
  | [] => None
  | c :: s' => if c =? 0 then Some 0 else n ← strlen s'; Some (1 + n)
  end.

(** [strchr]: the offset of the first [c], [Some None] when there is none *)
Fixpoint strchr (s : list Z) (c : Z) : option (option Z) :=
  match s with
  | [] => None
  | x :: s' =>
      if x =? c then Some (Some 0)
      else if x =? 0 then Some None
      else match strchr s' c with
           | Some r => Some (option_map (Z.add 1) r)
           | None => None
           end
  end.

Fixpoint strcmp (a b : list Z) : option Z :=
  match a, b with
  | x :: a', y :: b' =>
      if x =? y then if x =? 0 then Some 0 else strcmp a' b'
      else Some (x - y)
  | _, _ => None
  end.

Fixpoint strncmp (n : nat) (a b : list Z) : option Z :=
  match n with
  | O => Some 0
  | S n' =>
      match a, b with
      | x :: a', y :: b' =>
          if x =? y then if x =? 0 then Some 0 else strncmp n' a' b'
          else Some (x - y)
      | _, _ => None
      end
  end.

(** the NUL-terminated object that holds the characters [s] *)
Definition c_str (s : list Z) : list Z := s ++ [0].

(** characters only: a list without NUL *)
Definition no_nul (s : list Z) : Prop := Forall (fun c => c <> 0) s.

Lemma no_nul_nil : no_nul [].
Proof. constructor. Qed.
#[export] Hint Resolve no_nul_nil : core.

Lemma no_nul_cons c s : no_nul (c :: s) <-> c <> 0 /\ no_nul s.
Proof. unfold no_nul. by rewrite Forall_cons. Qed.

Lemma strlen_app s t : no_nul s -> strlen (s ++ 0 :: t) = Some (len s).
Proof.
  induction s as [|c s IH]; [done|].
  rewrite no_nul_cons. intros [Hc Hs]. cbn.
  destruct (Z.eqb_spec c 0); [lia|]. rewrite IH by done. cbn.
  rewrite len_cons. done.
Qed.

Lemma strlen_c_str s : no_nul s -> strlen (c_str s) = Some (len s).
Proof. apply strlen_app. Qed.

Lemma strchr_app s c t : no_nul s -> Forall (fun x => x <> c) s ->
  strchr (s ++ c :: t) c = Some (Some (len s)).
Proof.
  induction s as [|x s IH]; intros Hs Hc; cbn.
  - by rewrite Z.eqb_refl.
  - rewrite no_nul_cons in Hs. rewrite Forall_cons in Hc.
    destruct (Z.eqb_spec x c); [lia|]. destruct (Z.eqb_spec x 0); [lia|].
    rewrite IH by tauto. cbn. rewrite len_cons. done.
Qed.

(** a NUL before the character sought hides it *)
Lemma strchr_nul s c t : no_nul s -> Forall (fun x => x <> c) s -> c <> 0 ->
  strchr (s ++ 0 :: t) c = Some None.
Proof.
  intros Hs Hc H0. induction s as [|x s IH]; cbn.
  - destruct (Z.eqb_spec 0 c); [lia|]. done.
  - rewrite no_nul_cons in Hs. rewrite Forall_cons in Hc.
    destruct (Z.eqb_spec x c); [lia|]. destruct (Z.eqb_spec x 0); [lia|].
    by rewrite IH by tauto.
Qed.

Lemma strcmp_eq a b : no_nul a -> no_nul b ->
  exists d, strcmp (c_str a) (c_str b) = Some d /\ (d = 0 <-> a = b).
Proof.
  unfold c_str. revert b.
  induction a as [|x a IH]; intros [|y b] Ha Hb; cbn.
  - by exists 0.
  - rewrite no_nul_cons in Hb. destruct (Z.eqb_spec 0 y); [lia|].
    exists (0 - y). split; [done|]. split; [lia|done].
  - rewrite no_nul_cons in Ha. destruct (Z.eqb_spec x 0); [lia|].
    exists (x - 0). split; [done|]. split; [lia|done].
  - rewrite no_nul_cons in Ha, Hb. destruct (Z.eqb_spec x y) as [->|Hxy].
    + destruct (Z.eqb_spec y 0); [lia|].
      destruct (IH b) as (d & -> & Hd); [tauto..|].
      exists d. split; [done|]. rewrite Hd. split; [by intros ->|by intros [= ->]].
    + exists (x - y). split; [done|]. split; [lia|]. by intros [= -> ->].
Qed.

Lemma strncmp_prefix_inv a b : no_nul a -> In 0 b ->
  exists d, strncmp (length a) (a ++ [0]) b = Some d /\
            (d = 0 <-> exists t, b = a ++ t).
Proof.
  revert b. induction a as [|x a IH]; intros b Ha Hb; cbn.
  - exists 0. split; [done|]. split; [|done]. intros _. by exists b.
  - rewrite no_nul_cons in Ha. destruct b as [|y b]; [done|].
    destruct (Z.eqb_spec x y) as [->|Hxy].
    + destruct (Z.eqb_spec y 0); [lia|].
      destruct (IH b) as (d & Hd & Hiff); [tauto|by destruct Hb|].
      exists d. split; [done|]. rewrite Hiff.
      split; intros [t Ht]; exists t; cbn in *; congruence.
    + exists (x - y). split; [done|]. split; [lia|]. intros [t [= ]]. congruence.
Qed.
