(* ===== verification/Protocol.v ===== *)
(** * The FastCGI wire format

    [fastcgi.h] (record layouts and constants) and the record builders of
    [fcgiapp.c] ([MakeHeader], [MakeEndRequestBody], [MakeUnknownTypeBody],
    [AlignInt8], [AlignPtr8]), with a reference description of the wire: a
    stream of bytes is a sequence of records, [encode_rec]/[decode_rec]. *)

From S2P Require Import Prelude.

(** ** Constants *)

Definition FCGI_LISTENSOCK_FILENO : Z := 0.
Definition FCGI_MAX_LENGTH : Z := 65535.
Definition FCGI_HEADER_LEN : Z := 8.
Definition FCGI_VERSION_1 : Z := 1.
Definition FCGI_BEGIN_REQUEST : Z := 1.
Definition FCGI_ABORT_REQUEST : Z := 2.
Definition FCGI_END_REQUEST : Z := 3.
Definition FCGI_PARAMS : Z := 4.
Definition FCGI_STDIN : Z := 5.
Definition FCGI_STDOUT : Z := 6.
Definition FCGI_STDERR : Z := 7.
Definition FCGI_DATA : Z := 8.
Definition FCGI_GET_VALUES : Z := 9.
Definition FCGI_GET_VALUES_RESULT : Z := 10.
Definition FCGI_UNKNOWN_TYPE : Z := 11.
Definition FCGI_NULL_REQUEST_ID : Z := 0.
Definition FCGI_KEEP_CONN : Z := 1.
Definition FCGI_RESPONDER : Z := 1.
Definition FCGI_AUTHORIZER : Z := 2.
Definition FCGI_FILTER : Z := 3.
Definition FCGI_REQUEST_COMPLETE : Z := 0.
Definition FCGI_CANT_MPX_CONN : Z := 1.

(** the characters of "FCGI_MAX_CONNS", "FCGI_MAX_REQS", "FCGI_MPXS_CONNS" *)
Definition FCGI_MAX_CONNS : list Z :=
  [70; 67; 71; 73; 95; 77; 65; 88; 95; 67; 79; 78; 78; 83].
Definition FCGI_MAX_REQS : list Z :=
  [70; 67; 71; 73; 95; 77; 65; 88; 95; 82; 69; 81; 83].
Definition FCGI_MPXS_CONNS : list Z :=
  [70; 67; 71; 73; 95; 77; 80; 88; 83; 95; 67; 79; 78; 78; 83].

(** [fcgiapp.h]: error codes, and stdio's [EOF] *)
Definition EOF : Z := -1.
Definition FCGX_UNSUPPORTED_VERSION : Z := -2.
Definition FCGX_PROTOCOL_ERROR : Z := -3.
Definition FCGX_PARAMS_ERROR : Z := -4.
Definition FCGX_CALL_SEQ_ERROR : Z := -5.

(** ** Record structures: one [unsigned char] per field, in memory order *)

Record FCGI_Header := mkHeader {
  h_version : Z;
  h_type : Z;
  requestIdB1 : Z;
  requestIdB0 : Z;
  contentLengthB1 : Z;
  contentLengthB0 : Z;
  h_paddingLength : Z;
  h_reserved : Z
}.

Definition header_bytes (h : FCGI_Header) : list Z :=
  [h_version h; h_type h; requestIdB1 h; requestIdB0 h;
   contentLengthB1 h; contentLengthB0 h; h_paddingLength h; h_reserved h].

(** the header whose memory holds the given eight bytes *)
Definition header_of_bytes (l : list Z) : option FCGI_Header :=
  match l with
  | [v; t; i1; i0; c1; c0; p; r] => Some (mkHeader v t i1 i0 c1 c0 p r)
  | _ => None
  end.

Record FCGI_BeginRequestBody := mkBeginBody {
  roleB1 : Z;
  roleB0 : Z;
  flags_ : Z;
  begin_reserved : list Z
}.

Definition begin_body_of_bytes (l : list Z) : option FCGI_BeginRequestBody :=
  match l with
  | b1 :: b0 :: f :: r => Some (mkBeginBody b1 b0 f r)
  | _ => None
  end.

Definition sizeof_BeginRequestBody : Z := 8.

Record FCGI_EndRequestBody := mkEndBody {
  appStatusB3 : Z;
  appStatusB2 : Z;
  appStatusB1 : Z;
  appStatusB0 : Z;
  protocolStatus : Z;
  end_reserved : list Z
}.

Definition end_body_bytes (b : FCGI_EndRequestBody) : list Z :=
  [appStatusB3 b; appStatusB2 b; appStatusB1 b; appStatusB0 b; protocolStatus b]
  ++ end_reserved b.

Record FCGI_UnknownTypeBody := mkUnknownBody {
  u_type : Z;
  u_reserved : list Z
}.

Definition unknown_body_bytes (b : FCGI_UnknownTypeBody) : list Z :=
  u_type b :: u_reserved b.

(** ** Record builders of [fcgiapp.c] *)

Definition MakeHeader {S} (type requestId contentLength paddingLength : Z)
    : M S FCGI_Header :=
  assert ((0 <=? contentLength) && (contentLength <=? FCGI_MAX_LENGTH)) ;;;
  assert ((0 <=? paddingLength) && (paddingLength <=? 255)) ;;;
  ret {| h_version := FCGI_VERSION_1;
         h_type := UCHAR type;
         requestIdB1 := UCHAR (Z.land (Z.shiftr requestId 8) 255);
         requestIdB0 := UCHAR (Z.land requestId 255);
         contentLengthB1 := UCHAR (Z.land (Z.shiftr contentLength 8) 255);
         contentLengthB0 := UCHAR (Z.land contentLength 255);
         h_paddingLength := UCHAR paddingLength;
         h_reserved := 0 |}.

Definition MakeEndRequestBody (appStatus protocolStatus : Z) : FCGI_EndRequestBody :=
  {| appStatusB3 := UCHAR (Z.land (Z.shiftr appStatus 24) 255);
     appStatusB2 := UCHAR (Z.land (Z.shiftr appStatus 16) 255);
     appStatusB1 := UCHAR (Z.land (Z.shiftr appStatus 8) 255);
     appStatusB0 := UCHAR (Z.land appStatus 255);
     protocolStatus := UCHAR protocolStatus;
     end_reserved := [0; 0; 0] |}.

Definition MakeUnknownTypeBody (type : Z) : FCGI_UnknownTypeBody :=
  {| u_type := UCHAR type; u_reserved := [0; 0; 0; 0; 0; 0; 0] |}.

Definition AlignInt8 (n : Z) : Z := Z.land (n + 7) (Z.lnot 7).

(** a pointer is a 64-bit address *)
Definition AlignPtr8 (p : Z) : Z :=
  Z.land ((p + 7) mod 18446744073709551616) (18446744073709551616 - 8).

(** ** Reference description of the wire *)

Record rec := mkRec {
  r_type : Z;
  r_id : Z;
  r_content : list Z;
  r_padding : list Z
}.

Definition rec_ok (r : rec) : Prop :=
  is_byte (r_type r) /\ 0 <= r_id r < 65536 /\
  len (r_content r) <= FCGI_MAX_LENGTH /\ len (r_padding r) <= 255.

Definition rec_header (r : rec) : list Z :=
  [FCGI_VERSION_1; r_type r;
   r_id r / 256; r_id r mod 256;
   len (r_content r) / 256; len (r_content r) mod 256;
   len (r_padding r); 0].

Definition encode_rec (r : rec) : list Z :=
  rec_header r ++ r_content r ++ r_padding r.

Definition encode_all (rs : list rec) : list Z := concat (map encode_rec rs).

Definition decode_rec (w : list Z) : option (rec * list Z) :=
  match w with
  | v :: t :: i1 :: i0 :: c1 :: c0 :: p :: _ :: w' =>
      let c := c1 * 256 + c0 in
      if (v =? FCGI_VERSION_1) && (c + p <=? len w') then
        Some (mkRec t (i1 * 256 + i0) (slice w' 0 c) (slice w' c (c + p)),
              drop (Z.to_nat (c + p)) w')
      else None
  | _ => None
  end.

Fixpoint decode_fuel (fuel : nat) (w : list Z) : option (list rec) :=
  match w, fuel with
  | [], _ => Some []
  | _, O => None
  | _, S fuel' =>
      match decode_rec w with
      | Some (r, w') =>
          match decode_fuel fuel' w' with
          | Some rs => Some (r :: rs)
          | None => None
          end
      | None => None
      end
  end.

(** every record takes at least its eight header bytes *)
Definition decode_all (w : list Z) : option (list rec) := decode_fuel (length w) w.

(** the data a stream of records carries for type [t] and request [id] *)
Fixpoint content_of (t id : Z) (rs : list rec) : list Z :=
  match rs with
  | [] => []
  | r :: rs' =>
      (if (r_type r =? t) && (r_id r =? id) then r_content r else [])
      ++ content_of t id rs'
  end.

(** ** Lemmas *)

Lemma byte_split z : 0 <= z < 65536 ->
  UCHAR (Z.land (Z.shiftr z 8) 255) = z / 256 /\ UCHAR (Z.land z 255) = z mod 256.
Proof.
  intros. change 255 with (Z.ones 8). rewrite !Z.land_ones by lia.
  rewrite Z.shiftr_div_pow2 by lia. change (2 ^ 8) with 256.
  rewrite (UCHAR_id (z mod 256)) by (unfold is_byte; zdiv).
  rewrite UCHAR_id by (unfold is_byte; zdiv). split; [|done].
  rewrite Z.mod_small; zdiv.
Qed.

Lemma byte_join z : Z.shiftl (z / 256) 8 + z mod 256 = z.
Proof. rewrite Z.shiftl_mul_pow2 by lia. change (2 ^ 8) with 256. zdiv. Qed.

Lemma AlignInt8_eq n : AlignInt8 n = 8 * ((n + 7) / 8).
Proof.
  unfold AlignInt8. change 7 with (Z.ones 3) at 2.
  rewrite <- Z.ldiff_land, Z.ldiff_ones_r by lia.
  rewrite Z.shiftl_mul_pow2, Z.shiftr_div_pow2 by lia.
  change (2 ^ 3) with 8. lia.
Qed.

Lemma AlignInt8_least n : n <= AlignInt8 n < n + 8 /\ AlignInt8 n mod 8 = 0.
Proof. rewrite AlignInt8_eq. zdiv. Qed.

Lemma AlignInt8_minimal n m : n <= m -> m mod 8 = 0 -> AlignInt8 n <= m.
Proof. rewrite AlignInt8_eq. zdiv. Qed.

Lemma AlignPtr8_eq p : 0 <= p < 18446744073709551609 -> AlignPtr8 p = 8 * ((p + 7) / 8).
Proof.
  intros. unfold AlignPtr8. rewrite Z.mod_small by lia.
  change (18446744073709551616 - 8) with (Z.ldiff (Z.ones 64) (Z.ones 3)).
  rewrite Z.ldiff_land, Z.land_assoc, Z.land_ones by lia.
  rewrite Z.mod_small by lia.
  rewrite <- Z.ldiff_land, Z.ldiff_ones_r by lia.
  rewrite Z.shiftl_mul_pow2, Z.shiftr_div_pow2 by lia.
  change (2 ^ 3) with 8. lia.
Qed.

Lemma header_bytes_len h : len (header_bytes h) = 8.
Proof. done. Qed.

Lemma rec_header_len r : len (rec_header r) = 8.
Proof. done. Qed.

Lemma encode_rec_len r :
  len (encode_rec r) = 8 + len (r_content r) + len (r_padding r).
Proof. unfold encode_rec. rewrite !len_app, rec_header_len. lia. Qed.

Lemma encode_all_app rs1 rs2 : encode_all (rs1 ++ rs2) = encode_all rs1 ++ encode_all rs2.
Proof. unfold encode_all. by rewrite map_app, concat_app. Qed.

Lemma encode_all_cons r rs : encode_all (r :: rs) = encode_rec r ++ encode_all rs.
Proof. done. Qed.

Lemma encode_all_one r : encode_all [r] = encode_rec r.
Proof. unfold encode_all. cbn. by rewrite app_nil_r. Qed.

Lemma encode_all_nil rs : encode_all rs = [] <-> rs = [].
Proof.
  split; [|by intros ->]. destruct rs as [|r rs]; [done|].
  intros E. by apply (f_equal length) in E.
Qed.

Lemma content_of_app t id rs1 rs2 :
  content_of t id (rs1 ++ rs2) = content_of t id rs1 ++ content_of t id rs2.
Proof. induction rs1 as [|r rs1 IH]; cbn; [done|]. by rewrite IH, app_assoc. Qed.

(** the header that [MakeHeader] builds is that of the record it announces *)
Lemma wp_MakeHeader {S} (r : rec) t i c p (Q : FCGI_Header -> S -> Prop) s :
  rec_ok r ->
  t = r_type r -> i = r_id r -> c = len (r_content r) -> p = len (r_padding r) ->
  (forall h, header_bytes h = rec_header r -> Q h s) ->
  wp (MakeHeader t i c p) Q s.
Proof.
  intros (Ht & Hi & Hc & Hp) -> -> -> -> HQ. unfold MakeHeader.
  pose proof (len_nonneg (r_content r)). pose proof (len_nonneg (r_padding r)).
  unfold FCGI_MAX_LENGTH in *.
  wp_step. apply wp_assert; [lia|]. wp_step. apply wp_assert; [lia|]. wp_step.
  apply HQ. unfold header_bytes, rec_header. cbn.
  destruct (byte_split (r_id r)) as [-> ->]; [lia|].
  destruct (byte_split (len (r_content r))) as [-> ->]; [lia|].
  rewrite !UCHAR_id by (unfold is_byte in *; lia). done.
Qed.

Lemma decode_encode_rec r w : rec_ok r -> decode_rec (encode_rec r ++ w) = Some (r, w).
Proof.
  intros (Ht & Hi & Hc & Hp). unfold encode_rec. rewrite <- !app_assoc. cbn.
  pose proof (len_nonneg (r_content r)). pose proof (len_nonneg (r_padding r)).
  replace (len (r_content r) / 256 * 256 + len (r_content r) mod 256)
    with (len (r_content r)) by zdiv.
  replace (r_id r / 256 * 256 + r_id r mod 256) with (r_id r) by zdiv.
  rewrite Z.eqb_refl, !len_app. pose proof (len_nonneg w).
  replace (len (r_content r) + len (r_padding r) <=? _) with true by lia.
  cbn. unfold slice, len in *. repeat f_equal.
  - destruct r as [t i c p]; cbn in *. f_equal.
    + change (Z.to_nat 0) with O. rewrite drop_0. by rewrite take_app_length' by lia.
    + rewrite drop_app_length' by lia. by rewrite take_app_length' by lia.
  - rewrite app_assoc. apply drop_app_length'. rewrite length_app. lia.
Qed.

Lemma decode_fuel_encode rs fuel :
  Forall rec_ok rs -> (length rs <= fuel)%nat ->
  decode_fuel fuel (encode_all rs) = Some rs.
Proof.
  revert fuel. induction rs as [|r rs IH]; intros fuel Hok Hf; [by destruct fuel|].
  rewrite Forall_cons in Hok. destruct Hok as [Hr Hrs].
  destruct fuel as [|fuel]; [cbn in Hf; lia|].
  rewrite encode_all_cons. pose proof (decode_encode_rec r (encode_all rs) Hr) as Hd.
  cbn [decode_fuel]. destruct (encode_rec r ++ encode_all rs) eqn:E.
  { by apply (f_equal length) in E. }
  rewrite Hd, IH; [done|done|cbn in Hf; lia].
Qed.

Lemma length_encode_all rs : (length rs <= length (encode_all rs))%nat.
Proof.
  induction rs as [|r rs IH]; [done|].
  rewrite encode_all_cons, length_app. cbn [length].
  pose proof (encode_rec_len r) as H. unfold len in H. lia.
Qed.

Lemma decode_all_encode rs : Forall rec_ok rs -> decode_all (encode_all rs) = Some rs.
Proof.
  intros. apply decode_fuel_encode; [done|apply length_encode_all].
Qed.
