(* ===== verification/Dispatch.v ===== *)
(** * What any input means to a reader

    A reference for the demultiplexer: for every sequence of bytes a connection
    may deliver, well-formed or not, [run] says which content an input stream
    hands out, which replies go back on the connection, and how the reading ends.
    It works byte by byte, with no buffer; [Demux] proves that [FillBuffProc]
    agrees with it whatever the sizes of the reads. *)

From S2P Require Import Prelude Protocol.

(** ** The reference *)

(** where a reader stands: the part of the next header read so far, the content
    and the padding of the current record still to come, and whether that content
    is skipped *)
Record phase := mkPhase {
  ph_header : list Z;
  ph_content : Z;
  ph_padding : Z;
  ph_skip : bool
}.

Definition at_record : phase := mkPhase [] 0 0 false.

(** how reading ends, and what is left of the connection's input then: the
    stream's empty record, the end of the one record that is read, a
    BEGIN_REQUEST or GET_VALUES record whose content is to be read next, or an
    error.  [plen] is the padding of the record. *)
Inductive ending :=
  | EndOfStream (rest : list Z)
  | EndOfRecord (rest : list Z)
  | BeginBody (id plen : Z) (skip : bool) (rest : list Z)
  | ValuesBody (clen plen : Z) (skip : bool) (rest : list Z)
  | Broken (status : Z).

(** the meaning of a complete header: a reply and the record's content, the end
    of the stream, an error, or a record whose content is for the library *)
Inductive action :=
  | Proceed (reply : list Z) (p : phase)
  | StreamEnds
  | Refuse (status : Z)
  | ReadBegin (id plen : Z) (skip : bool)
  | ReadValues (clen plen : Z) (skip : bool).

Record delivery := mkDelivery {
  dl_content : list Z;
  dl_replies : list Z;
  dl_ending : ending
}.

(** [a] is delivered, and [b] is sent, before [d] *)
Definition deliver (a : list Z) (d : delivery) : delivery :=
  mkDelivery (a ++ dl_content d) (dl_replies d) (dl_ending d).
Definition answer (b : list Z) (d : delivery) : delivery :=
  mkDelivery (dl_content d) (b ++ dl_replies d) (dl_ending d).

Definition ending_only (e : ending) : delivery := mkDelivery [] [] e.

(** the numbers a header carries *)
Definition header_id (h : FCGI_Header) : Z := Z.shiftl (requestIdB1 h) 8 + requestIdB0 h.
Definition header_content (h : FCGI_Header) : Z :=
  Z.shiftl (contentLengthB1 h) 8 + contentLengthB0 h.

(** the records sent back: one request at a time, and an unknown management
    record *)
Definition busy_rec (id : Z) : rec :=
  mkRec FCGI_END_REQUEST id (end_body_bytes (MakeEndRequestBody 0 FCGI_CANT_MPX_CONN)) [].
Definition unknown_rec (t : Z) : rec :=
  mkRec FCGI_UNKNOWN_TYPE FCGI_NULL_REQUEST_ID (unknown_body_bytes (MakeUnknownTypeBody t)) [].

Section Run.
(** the stream's record type and request, whether the request has begun, and
    whether the content of one record is being read *)
Variables (t id : Z) (begun eor : bool).

Definition interpret_header (skip : bool) (h : FCGI_Header) : action :=
  let clen := header_content h in
  let plen := h_paddingLength h in
  if negb (h_version h =? FCGI_VERSION_1) then Refuse FCGX_UNSUPPORTED_VERSION
  else if h_type h =? FCGI_BEGIN_REQUEST then
    if (header_id h =? 0) || negb (clen =? sizeof_BeginRequestBody) then
      Refuse FCGX_PROTOCOL_ERROR
    else if begun then
      Proceed (encode_rec (busy_rec (header_id h))) (mkPhase [] clen plen true)
    else ReadBegin (header_id h) plen skip
  else if header_id h =? FCGI_NULL_REQUEST_ID then
    if h_type h =? FCGI_GET_VALUES then ReadValues clen plen skip
    else Proceed (encode_rec (unknown_rec (h_type h))) (mkPhase [] clen plen skip)
  else if negb (header_id h =? id) then Proceed [] (mkPhase [] clen plen true)
  else if negb (h_type h =? t) then Refuse FCGX_PROTOCOL_ERROR
  else if clen =? 0 then StreamEnds
  else Proceed [] (mkPhase [] clen plen skip).

(** what an action makes of the bytes [w] after the header *)
Definition after_action (run : phase -> list Z -> delivery) (a : action) (w : list Z)
    : delivery :=
  match a with
  | Proceed reply p => answer reply (run p w)
  | StreamEnds => ending_only (EndOfStream w)
  | Refuse status => ending_only (Broken status)
  | ReadBegin i plen sk => ending_only (BeginBody i plen sk w)
  | ReadValues clen plen sk => ending_only (ValuesBody clen plen sk w)
  end.

(** [m] bytes of the content, or of the padding, go by *)
Definition eat_content (m : Z) (p : phase) : phase :=
  mkPhase (ph_header p) (ph_content p - m) (ph_padding p)
          (ph_skip p && negb (ph_content p - m =? 0)).
Definition eat_padding (m : Z) (p : phase) : phase :=
  mkPhase (ph_header p) (ph_content p) (ph_padding p - m) (ph_skip p).

(** the end of the record is seen as soon as its last byte has gone by, unless
    that byte was handed out *)
Definition settle (run : phase -> list Z -> delivery) (p : phase) (w : list Z) : delivery :=
  if eor && negb (0 <? ph_content p) && negb (0 <? ph_padding p)
  then ending_only (EndOfRecord w) else run p w.

Fixpoint run (p : phase) (w : list Z) : delivery :=
  match w with
  | [] => ending_only (Broken FCGX_PROTOCOL_ERROR)
  | b :: w' =>
      if 0 <? ph_content p then
        if ph_skip p then settle run (eat_content 1 p) w'
        else deliver [b] (run (eat_content 1 p) w')
      else if 0 <? ph_padding p then settle run (eat_padding 1 p) w'
      else if eor then ending_only (EndOfRecord w)
      else
        let hdr := ph_header p ++ [b] in
        match header_of_bytes hdr with
        | None => run (mkPhase hdr 0 0 (ph_skip p)) w'
        | Some h => after_action run (interpret_header (ph_skip p) h) w'
        end
  end.

(** ** Several bytes at once *)

Lemma deliver_app a b d : deliver (a ++ b) d = deliver a (deliver b d).
Proof. unfold deliver. cbn. by rewrite app_assoc. Qed.

Lemma deliver_nil d : deliver [] d = d.
Proof. by destruct d. Qed.

Lemma answer_nil d : answer [] d = d.
Proof. by destruct d. Qed.

Lemma settle_run p w :
  eor = false \/ 0 < ph_content p \/ 0 < ph_padding p -> settle run p w = run p w.
Proof. unfold settle. by intros [-> | [->%Z.ltb_lt | ->%Z.ltb_lt]]; rewrite ?andb_false_r. Qed.

(** with a byte to come, the end of the record is seen either way *)
Lemma settle_more p w : w <> [] -> settle run p w = run p w.
Proof.
  intros Hw. unfold settle. destruct w as [|b w]; [done|]. cbn [run].
  destruct (0 <? ph_content p), (0 <? ph_padding p), eor; done.
Qed.

Lemma eat_content_add m k p : 0 < k ->
  k <= ph_content p - m -> eat_content k (eat_content m p) = eat_content (m + k) p.
Proof.
  intros Hk Hle. unfold eat_content. cbn. rewrite Z.sub_add_distr. f_equal.
  replace (ph_content p - m =? 0) with false by lia. by rewrite andb_true_r.
Qed.

Lemma run_content a w p : a <> [] -> len a <= ph_content p ->
  run p (a ++ w) = if ph_skip p then settle run (eat_content (len a) p) w
                   else deliver a (run (eat_content (len a) p) w).
Proof.
  revert p. induction a as [|b a IH]; intros p Hne Hle; [done|].
  rewrite len_cons in *. pose proof (len_nonneg a). cbn [app run].
  replace (0 <? ph_content p) with true by lia.
  destruct (decide (a = [])) as [->|Ha]; [by destruct (ph_skip p)|].
  assert (0 < len a) as Hpos by (destruct a; [done|rewrite len_cons; pose proof (len_nonneg a); lia]).
  assert (ph_skip (eat_content 1 p) = ph_skip p) as Hsk.
  { cbn. replace (ph_content p - 1 =? 0) with false by lia. by rewrite andb_true_r. }
  rewrite settle_run by (right; left; cbn; lia).
  rewrite IH, Hsk, eat_content_add by (cbn; done || lia).
  destruct (ph_skip p); [done|]. by rewrite <- deliver_app.
Qed.

Lemma run_padding a w p : a <> [] -> ph_content p <= 0 -> len a <= ph_padding p ->
  run p (a ++ w) = settle run (eat_padding (len a) p) w.
Proof.
  revert p. induction a as [|b a IH]; intros p Hne Hc Hle; [done|].
  rewrite len_cons in *. pose proof (len_nonneg a). cbn [app run].
  replace (0 <? ph_content p) with false by lia. replace (0 <? ph_padding p) with true by lia.
  destruct (decide (a = [])) as [->|Ha]; [done|].
  assert (0 < len a) as Hpos by (destruct a; [done|rewrite len_cons; pose proof (len_nonneg a); lia]).
  rewrite settle_run by (right; right; cbn; lia).
  rewrite IH by (cbn; done || lia). f_equal. unfold eat_padding. cbn. f_equal. lia.
Qed.

Lemma settle_padding a w p : ph_content p <= 0 -> len a <= ph_padding p -> 0 < ph_padding p ->
  settle run p (a ++ w) = settle run (eat_padding (len a) p) w.
Proof.
  intros Hc Hle Hp. destruct (decide (a = [])) as [->|Ha].
  - unfold eat_padding. change (len []) with 0. rewrite Z.sub_0_r. by destruct p.
  - rewrite <- run_padding by done. by rewrite settle_run by auto.
Qed.

Lemma header_of_bytes_len l h : header_of_bytes l = Some h -> len l = 8.
Proof. do 9 (destruct l as [|? l]; [done|]). done. Qed.

Lemma header_of_bytes_short l : len l < 8 -> header_of_bytes l = None.
Proof.
  intros Hl. destruct (header_of_bytes l) as [h|] eqn:E; [|done].
  apply header_of_bytes_len in E. lia.
Qed.

Lemma run_header_part hdr a sk w : eor = false -> len hdr + len a < 8 ->
  run (mkPhase hdr 0 0 sk) (a ++ w) = run (mkPhase (hdr ++ a) 0 0 sk) w.
Proof.
  intros He. revert hdr. induction a as [|b a IH]; intros hdr Hl; [by rewrite app_nil_r|].
  rewrite len_cons in Hl. pose proof (len_nonneg a). cbn [app run].
  change (0 <? 0) with false. cbn match. rewrite He. cbn [ph_header].
  rewrite header_of_bytes_short by (rewrite len_app; change (len [b]) with 1; lia).
  rewrite IH, <- app_assoc; [done|]. rewrite len_app. change (len [b]) with 1. lia.
Qed.

Lemma run_header_full hdr a sk w h : eor = false -> len hdr < 8 ->
  header_of_bytes (hdr ++ a) = Some h ->
  run (mkPhase hdr 0 0 sk) (a ++ w) = after_action run (interpret_header sk h) w.
Proof.
  intros He Hl Hh. destruct a as [|b a] using rev_ind.
  { rewrite app_nil_r, header_of_bytes_short in Hh by done. done. }
  clear IHa. rewrite <- app_assoc. cbn [app].
  pose proof (header_of_bytes_len _ _ Hh) as H8. rewrite !len_app in H8.
  change (len [b]) with 1 in H8. rewrite run_header_part by (done || lia).
  cbn [run]. change (0 <? 0) with false. cbn match. rewrite He. cbn [ph_header ph_skip].
  by rewrite <- app_assoc, Hh.
Qed.
End Run.

Lemma run_bytes t id begun eor w p : bytes w -> bytes (dl_content (run t id begun eor p w)).
Proof.
  revert p. induction w as [|b w IH]; intros p Hb; [constructor|].
  unfold bytes in Hb. rewrite Forall_cons in Hb. destruct Hb as [Hb0 Hb].
  assert (forall p, bytes (dl_content (settle eor (run t id begun eor) p w))) as Hs.
  { intros q. unfold settle. destruct (_ && _); [constructor|by apply IH]. }
  cbn [run]. destruct (0 <? ph_content p); [destruct (ph_skip p); [apply Hs|]|].
  { constructor; [done|by apply IH]. }
  destruct (0 <? ph_padding p); [apply Hs|]. destruct eor; [constructor|].
  destruct (header_of_bytes _) as [h|]; [|by apply IH].
  destruct (interpret_header _ _ _ _ _); cbn [after_action]; try constructor. by apply IH.
Qed.

(** no more is delivered than comes in *)
Lemma run_content_len t id begun eor w p : len (dl_content (run t id begun eor p w)) <= len w.
Proof.
  revert p. induction w as [|b w IH]; intros p; [done|]. pose proof (len_nonneg w).
  rewrite len_cons. assert (forall p, len (dl_content (settle eor (run t id begun eor) p w)) <= len w) as Hs.
  { intros q. unfold settle. destruct (_ && _); [done|apply IH]. }
  cbn [run]. destruct (0 <? ph_content p).
  { destruct (ph_skip p); [specialize (Hs (eat_content 1 p)); lia|].
    specialize (IH (eat_content 1 p)). unfold deliver. cbn [dl_content]. rewrite len_app.
    change (len [b]) with 1. lia. }
  destruct (0 <? ph_padding p); [specialize (Hs (eat_padding 1 p)); lia|].
  destruct eor; [change (len (dl_content _)) with 0; lia|].
  destruct (header_of_bytes _) as [h|]; [|specialize (IH (mkPhase (ph_header p ++ [b]) 0 0 (ph_skip p))); lia].
  destruct (interpret_header _ _ _ _ _); cbn [after_action];
    try (change (len (dl_content (ending_only _))) with 0; lia).
  match goal with |- context [run _ _ _ _ ?q w] => specialize (IH q) end.
  unfold answer. cbn [dl_content]. lia.
Qed.

(** what is left then *)
Definition ending_rest (e : ending) : list Z :=
  match e with
  | EndOfStream rest | EndOfRecord rest | BeginBody _ _ _ rest | ValuesBody _ _ _ rest => rest
  | Broken _ => []
  end.

Lemma run_rest t id begun eor w p :
  ending_rest (dl_ending (run t id begun eor p w)) `suffix_of` w.
Proof.
  revert p. induction w as [|b w IH]; intros p; [done|].
  assert (forall p, ending_rest (dl_ending (settle eor (run t id begun eor) p w)) `suffix_of` w) as Hs.
  { intros q. unfold settle. destruct (_ && _); [done|apply IH]. }
  cbn [run]. destruct (0 <? ph_content p).
  { destruct (ph_skip p); apply suffix_cons_r; [apply Hs|apply IH]. }
  destruct (0 <? ph_padding p); [apply suffix_cons_r, Hs|]. destruct eor; [done|].
  apply suffix_cons_r. destruct (header_of_bytes _) as [h|]; [|apply IH].
  destruct (interpret_header _ _ _ _ _); cbn [after_action]; try done; [apply IH|apply suffix_nil].
Qed.

(** while a request is read, its stream ends or breaks, or variables are asked
    for *)
Lemma run_begun t id w p :
  match dl_ending (run t id true false p w) with
  | BeginBody _ _ _ _ | EndOfRecord _ => False
  | _ => True
  end.
Proof.
  revert p. induction w as [|b w IH]; intros p; [done|]. cbn [run]. unfold settle. cbn [andb].
  destruct (0 <? ph_content p); [destruct (ph_skip p); apply IH|].
  destruct (0 <? ph_padding p); [apply IH|].
  destruct (header_of_bytes _) as [h|]; [|apply IH]. unfold interpret_header.
  repeat case_match; try (by cbn in *); cbn [after_action answer dl_ending] in *; simplify_eq;
    match goal with E : dl_ending (run _ _ _ _ ?q w) = _ |- _ => specialize (IH q); by rewrite E in IH end.
Qed.

(** ** One case per kind of header *)

Section View.
Variables (t id : Z) (begun : bool) (sk : bool) (h : FCGI_Header).

Let version : Prop := h_version h = FCGI_VERSION_1.
Let is_begin : Prop := version /\ h_type h = FCGI_BEGIN_REQUEST.
Let is_mgmt : Prop :=
  version /\ h_type h <> FCGI_BEGIN_REQUEST /\ header_id h = FCGI_NULL_REQUEST_ID.
Let is_app : Prop :=
  version /\ h_type h <> FCGI_BEGIN_REQUEST /\ header_id h <> FCGI_NULL_REQUEST_ID.
Let body (sk' : bool) : phase := mkPhase [] (header_content h) (h_paddingLength h) sk'.

Inductive header_view : action -> Prop :=
  | hv_version : h_version h <> FCGI_VERSION_1 -> header_view (Refuse FCGX_UNSUPPORTED_VERSION)
  | hv_bad_begin : is_begin -> header_id h = 0 \/ header_content h <> sizeof_BeginRequestBody ->
      header_view (Refuse FCGX_PROTOCOL_ERROR)
  | hv_busy : is_begin -> header_id h <> 0 -> header_content h = sizeof_BeginRequestBody ->
      begun = true ->
      header_view (Proceed (encode_rec (busy_rec (header_id h))) (body true))
  | hv_begin : is_begin -> header_id h <> 0 -> header_content h = sizeof_BeginRequestBody ->
      begun = false -> header_view (ReadBegin (header_id h) (h_paddingLength h) sk)
  | hv_values : is_mgmt -> h_type h = FCGI_GET_VALUES ->
      header_view (ReadValues (header_content h) (h_paddingLength h) sk)
  | hv_unknown : is_mgmt -> h_type h <> FCGI_GET_VALUES ->
      header_view (Proceed (encode_rec (unknown_rec (h_type h))) (body sk))
  | hv_foreign : is_app -> header_id h <> id -> header_view (Proceed [] (body true))
  | hv_wrong_type : is_app -> header_id h = id -> h_type h <> t ->
      header_view (Refuse FCGX_PROTOCOL_ERROR)
  | hv_end : is_app -> header_id h = id -> h_type h = t -> header_content h = 0 ->
      header_view StreamEnds
  | hv_content : is_app -> header_id h = id -> h_type h = t -> header_content h <> 0 ->
      header_view (Proceed [] (body sk)).

Lemma header_viewP : header_view (interpret_header t id begun sk h).
Proof.
  unfold interpret_header.
  destruct (Z.eqb_spec (h_version h) FCGI_VERSION_1); cbn [negb]; [|by constructor].
  destruct (Z.eqb_spec (h_type h) FCGI_BEGIN_REQUEST).
  { destruct (Z.eqb_spec (header_id h) 0); cbn [orb]; [by constructor; [|left]|].
    destruct (Z.eqb_spec (header_content h) sizeof_BeginRequestBody); cbn [negb];
      [|by constructor; [|right]].
    destruct begun eqn:?; by constructor. }
  destruct (Z.eqb_spec (header_id h) FCGI_NULL_REQUEST_ID).
  { destruct (Z.eqb_spec (h_type h) FCGI_GET_VALUES); by constructor. }
  destruct (Z.eqb_spec (header_id h) id); cbn [negb]; [|by constructor].
  destruct (Z.eqb_spec (h_type h) t); cbn [negb]; [|by constructor].
  destruct (Z.eqb_spec (header_content h) 0); by constructor.
Qed.
End View.

Lemma header_ranges h : bytes (header_bytes h) ->
  0 <= header_id h < 65536 /\ 0 <= header_content h < 65536 /\ 0 <= h_paddingLength h < 256.
Proof.
  unfold header_id, header_content, bytes, header_bytes, is_byte.
  rewrite !Forall_cons, !Z.shiftl_mul_pow2 by lia. change (2 ^ 8) with 256. lia.
Qed.

Lemma interpret_proceed t id begun sk h reply p : bytes (header_bytes h) ->
  interpret_header t id begun sk h = Proceed reply p ->
  ph_header p = [] /\ 0 <= ph_content p /\ 0 <= ph_padding p.
Proof.
  intros Hb E. destruct (header_ranges h Hb) as (_ & Hc & Hp).
  pose proof (header_viewP t id begun sk h) as Hv. rewrite E in Hv.
  inversion Hv; cbn; lia || (split; [done|lia]).
Qed.

Lemma header_bytes_inv l h : header_of_bytes l = Some h -> header_bytes h = l.
Proof. do 9 (destruct l as [|? l]; try done). by intros [= <-]. Qed.

(** ** The records sent back *)

Definition notice (r : rec) : Prop :=
  (exists i, 0 < i < 65536 /\ r = busy_rec i) \/ (exists ty, r = unknown_rec ty).

Lemma notice_ok r : notice r -> rec_ok r.
Proof. intros [(i & Hi & ->)|(ty & ->)]; split_and!; cbn; done || lia. Qed.

Lemma notice_len r : notice r -> len (encode_rec r) = 16.
Proof. by intros [(i & _ & ->)|(ty & ->)]. Qed.

Lemma interpret_reply t id begun sk h reply p : bytes (header_bytes h) ->
  interpret_header t id begun sk h = Proceed reply p ->
  exists notes, reply = encode_all notes /\ Forall notice notes.
Proof.
  intros Hb E. destruct (header_ranges h Hb) as (Hid & _ & _).
  unfold interpret_header in E. repeat case_match; simplify_eq; try (by exists []).
  - exists [busy_rec (header_id h)]. rewrite encode_all_one. split; [done|].
    constructor; [|constructor]. left. exists (header_id h). split; [lia|done].
  - exists [unknown_rec (h_type h)]. rewrite encode_all_one. split; [done|].
    constructor; [|constructor]. right. by eexists.
Qed.

(** what is sent on the way is such records *)
Lemma run_notices t id begun eor w p : bytes w -> bytes (ph_header p) ->
  exists notes, dl_replies (run t id begun eor p w) = encode_all notes /\ Forall notice notes.
Proof.
  revert p. induction w as [|b w IH]; intros p Hw Hp; [by exists []|].
  unfold bytes in Hw. rewrite Forall_cons in Hw. destruct Hw as [Hb Hw].
  assert (forall q, bytes (ph_header q) -> exists notes,
    dl_replies (settle eor (run t id begun eor) q w) = encode_all notes /\ Forall notice notes) as Hs.
  { intros q Hq. unfold settle. destruct (_ && _); [by exists []|by apply IH]. }
  cbn [run]. destruct (0 <? ph_content p).
  { destruct (ph_skip p); [by apply Hs|]. cbn [deliver dl_replies]. by apply IH. }
  destruct (0 <? ph_padding p); [by apply Hs|]. destruct eor; [by exists []|].
  assert (bytes (ph_header p ++ [b])) as Hhdr by (apply bytes_app; split; [done|by constructor]).
  destruct (header_of_bytes _) as [h|] eqn:Hh; [|by apply IH].
  destruct (interpret_header _ _ _ _ _) as [reply q| | | |] eqn:Ha; cbn [after_action]; try (by exists []).
  rewrite <- (header_bytes_inv _ _ Hh) in Hhdr.
  destruct (interpret_reply _ _ _ _ _ _ _ Hhdr Ha) as (n1 & -> & Hn1).
  destruct (interpret_proceed _ _ _ _ _ _ _ Hhdr Ha) as (Hq & _).
  destruct (IH q Hw) as (n2 & Hr & Hn2); [by rewrite Hq; constructor|].
  exists (n1 ++ n2). cbn [answer dl_replies]. rewrite Hr, encode_all_app. split; [done|by apply Forall_app].
Qed.

Lemma notices_len rs : Forall notice rs -> len (encode_all rs) = 16 * Z.of_nat (length rs).
Proof.
  induction 1 as [|r rs Hr _ IH]; [done|].
  rewrite encode_all_cons, len_app, notice_len, IH by done. cbn [length]. lia.
Qed.

(** bytes before the last of them end with one of them *)
Lemma notices_before rs last x : Forall notice rs -> Forall notice last ->
  encode_all rs = x ++ encode_all last -> exists first, rs = first ++ last /\ x = encode_all first.
Proof.
  intros Hrs Hlast E. pose proof (f_equal len E) as Hl.
  rewrite len_app, !notices_len in Hl by done. pose proof (len_nonneg x).
  set (k := (length rs - length last)%nat). exists (take k rs).
  rewrite <- (take_drop k rs) in E, Hrs. rewrite encode_all_app in E.
  apply Forall_app in Hrs as [Hk Hd].
  apply app_inj_2 in E as [Hx Hr].
  - split; [|done]. rewrite <- (take_drop k rs) at 1. f_equal.
    apply (f_equal decode_all) in Hr. rewrite !decode_all_encode in Hr; [by injection Hr|..];
      (eapply Forall_impl; [|by apply notice_ok]; done).
  - apply (f_equal len) in E. rewrite !len_app in E.
    enough (len (encode_all (drop k rs)) = len (encode_all last)) by (unfold len in *; lia).
    rewrite !notices_len by done. rewrite length_drop. unfold k. lia.
Qed.

(** ** Well-formed input *)

Section Records.
Variables (t id : Z).

(** The records a stream of type [t] of request [id] meets before its end: its
    own, with content, and records with content of other requests. *)
Definition own_rec (r : rec) : Prop := r_type r = t /\ r_id r = id.
Definition foreign_rec (r : rec) : Prop :=
  r_id r <> id /\ r_id r <> FCGI_NULL_REQUEST_ID /\ r_type r <> FCGI_BEGIN_REQUEST.
Definition input_rec (r : rec) : Prop :=
  rec_ok r /\ r_content r <> [] /\ (own_rec r \/ foreign_rec r).
Definition eof_rec (pad : list Z) : rec := mkRec t id [] pad.

Definition rec_decoded (r : rec) : FCGI_Header :=
  mkHeader FCGI_VERSION_1 (r_type r) (r_id r / 256) (r_id r mod 256)
    (len (r_content r) / 256) (len (r_content r) mod 256) (len (r_padding r)) 0.

Lemma rec_decoded_ok r :
  header_of_bytes (rec_header r) = Some (rec_decoded r) /\
  header_id (rec_decoded r) = r_id r /\ header_content (rec_decoded r) = len (r_content r).
Proof. split; [done|]. split; apply byte_join. Qed.

Lemma run_rec_header begun r w :
  run t id begun false at_record (rec_header r ++ w) =
  after_action (run t id begun false) (interpret_header t id begun false (rec_decoded r)) w.
Proof. by apply (run_header_full t id begun false []). Qed.

Lemma run_pad begun pad w :
  run t id begun false (mkPhase [] 0 (len pad) false) (pad ++ w) = run t id begun false at_record w.
Proof.
  destruct (decide (pad = [])) as [->|Hne]; [done|].
  rewrite run_padding by (cbn; done || lia). unfold settle, eat_padding. cbn.
  by rewrite Z.sub_diag.
Qed.

Lemma run_payload begun c pad w sk : c <> [] ->
  run t id begun false (mkPhase [] (len c) (len pad) sk) (c ++ pad ++ w) =
  deliver (if sk then [] else c) (run t id begun false at_record w).
Proof.
  intros Hc. rewrite run_content by (cbn; done || lia). unfold settle, eat_content.
  cbn [ph_skip ph_content ph_padding ph_header andb]. rewrite Z.sub_diag.
  change (0 =? 0) with true. rewrite andb_false_r. destruct sk; rewrite run_pad; [|done].
  by rewrite deliver_nil.
Qed.

(** the records carry the contents of the stream's own, before what follows *)
Lemma run_inputs begun recs w :
  t <> FCGI_BEGIN_REQUEST -> id <> FCGI_NULL_REQUEST_ID -> Forall input_rec recs ->
  run t id begun false at_record (encode_all recs ++ w) =
  deliver (content_of t id recs) (run t id begun false at_record w).
Proof.
  intros Ht Hid. unfold FCGI_NULL_REQUEST_ID in *.
  induction 1 as [|r recs (Hok & Hne & Hr) _ IH]; [by rewrite deliver_nil|].
  rewrite encode_all_cons. unfold encode_rec at 1. rewrite <- !app_assoc, run_rec_header.
  unfold interpret_header. destruct (rec_decoded_ok r) as (_ & -> & ->).
  cbn [h_version h_type h_paddingLength rec_decoded content_of].
  assert (0 < len (r_content r)) as Hpos.
  { destruct (r_content r); [done|]. rewrite len_cons. pose proof (len_nonneg l). lia. }
  rewrite Z.eqb_refl. cbn [negb]. unfold own_rec, foreign_rec, FCGI_NULL_REQUEST_ID in *.
  replace (r_type r =? FCGI_BEGIN_REQUEST) with false by lia.
  replace (r_id r =? 0) with false by lia.
  destruct Hr as [[-> ->] | (Hi & _ & _)].
  - rewrite !Z.eqb_refl. cbn [negb andb]. replace (len (r_content r) =? 0) with false by lia.
    cbn [after_action]. by rewrite run_payload, IH, answer_nil, deliver_app by done.
  - replace (r_id r =? id) with false by lia. rewrite andb_false_r. cbn [negb after_action].
    by rewrite run_payload, IH, answer_nil, deliver_nil by done.
Qed.

(** the stream's empty record ends it *)
Lemma run_eof begun pad rest : t <> FCGI_BEGIN_REQUEST -> id <> FCGI_NULL_REQUEST_ID ->
  run t id begun false at_record (encode_rec (eof_rec pad) ++ rest) =
  ending_only (EndOfStream (pad ++ rest)).
Proof.
  intros Ht Hid. unfold encode_rec. rewrite <- !app_assoc. cbn [app].
  rewrite run_rec_header. unfold interpret_header.
  destruct (rec_decoded_ok (eof_rec pad)) as (_ & -> & ->).
  cbn [h_version h_type rec_decoded eof_rec r_type r_id r_content].
  rewrite (proj2 (Z.eqb_neq t _) Ht), !Z.eqb_refl. by rewrite (proj2 (Z.eqb_neq id _) Hid).
Qed.

(** a management record of unknown type is answered, and its content delivered as
    if it belonged to the stream *)
Lemma run_unknown_content begun ty c pad w :
  ty <> FCGI_BEGIN_REQUEST -> ty <> FCGI_GET_VALUES -> c <> [] ->
  run t id begun false at_record (encode_rec (mkRec ty FCGI_NULL_REQUEST_ID c pad) ++ w) =
  answer (encode_rec (unknown_rec ty)) (deliver c (run t id begun false at_record w)).
Proof.
  intros Hb Hg Hc. unfold encode_rec at 1. rewrite <- !app_assoc, run_rec_header.
  unfold interpret_header.
  destruct (rec_decoded_ok (mkRec ty FCGI_NULL_REQUEST_ID c pad)) as (_ & -> & ->).
  cbn [h_version h_type h_paddingLength rec_decoded r_type r_id r_content r_padding].
  rewrite (proj2 (Z.eqb_neq _ _) Hb), (proj2 (Z.eqb_neq _ _) Hg), !Z.eqb_refl. cbn [negb after_action].
  by rewrite run_payload by done.
Qed.

(** well-formed input carries the contents of its own records, up to the end *)
Lemma run_records begun recs pad rest :
  t <> FCGI_BEGIN_REQUEST -> id <> FCGI_NULL_REQUEST_ID -> Forall input_rec recs ->
  run t id begun false at_record (encode_all recs ++ encode_rec (eof_rec pad) ++ rest) =
  mkDelivery (content_of t id recs) [] (EndOfStream (pad ++ rest)).
Proof.
  intros Ht Hid Hrs. rewrite run_inputs, run_eof by done. unfold deliver. cbn.
  by rewrite app_nil_r.
Qed.
End Records.

(** ** The content of one record *)

Lemma run_record_end t id begun pad tail : tail <> [] ->
  run t id begun true (mkPhase [] 0 (len pad) false) (pad ++ tail) =
  ending_only (EndOfRecord tail).
Proof.
  intros Ht. destruct (decide (pad = [])) as [->|Hne]; [by destruct tail|].
  rewrite run_padding by (cbn; done || lia). unfold settle, eat_padding. cbn.
  by rewrite Z.sub_diag.
Qed.

Lemma run_record t id begun c pad tail : tail <> [] ->
  run t id begun true (mkPhase [] (len c) (len pad) false) (c ++ pad ++ tail) =
  mkDelivery c [] (EndOfRecord tail).
Proof.
  intros Ht. destruct (decide (c = [])) as [->|Hc]; [exact (run_record_end t id begun pad tail Ht)|].
  rewrite run_content by (cbn; done || lia). unfold eat_content. cbn [ph_skip ph_content ph_padding ph_header andb].
  rewrite Z.sub_diag, run_record_end by done. unfold deliver. cbn. by rewrite app_nil_r.
Qed.

(** of a record that may be cut short, or skipped *)
Lemma run_record_cut t id begun clen plen sk w : 0 <= clen -> 0 <= plen ->
  let d := run t id begun true (mkPhase [] clen plen sk) w in
  dl_content d = (if sk then [] else take (Z.to_nat clen) w) /\ dl_replies d = [] /\
  (dl_ending d = Broken FCGX_PROTOCOL_ERROR \/ exists rest, dl_ending d = EndOfRecord rest).
Proof.
  revert clen plen sk. induction w as [|b w IH]; intros clen plen sk Hc Hp.
  { cbn. rewrite take_nil. destruct sk; auto. }
  cbn [run ph_content ph_padding ph_skip]. unfold eat_content, settle, eat_padding.
  cbn [ph_header ph_content ph_padding ph_skip]. destruct (Z.ltb_spec 0 clen) as [Hlt|Hge].
  - destruct sk; cbn [andb].
    + destruct (IH (clen - 1) plen (negb (clen - 1 =? 0))) as (Ha & Hb & He); [lia|done|].
      destruct (Z.ltb_spec 0 (clen - 1)), (0 <? plen); cbn [andb negb]; split_and!; eauto;
        rewrite Ha; destruct (Z.eqb_spec (clen - 1) 0) as [E|]; cbn [negb]; try done; by rewrite E.
    + destruct (IH (clen - 1) plen false) as (Ha & Hb & He); [lia|done|].
      unfold deliver. cbn. rewrite Ha, Hb.
      by replace (Z.to_nat clen) with (S (Z.to_nat (clen - 1))) by lia.
  - replace clen with 0 by lia. change (Z.to_nat 0) with O. rewrite take_0.
    change (0 <? 0) with false. destruct (Z.ltb_spec 0 plen); [|split_and!; eauto; by destruct sk].
    destruct (Z.ltb_spec 0 (plen - 1)); [|split_and!; eauto; by destruct sk].
    cbn [andb negb]. apply (IH 0 (plen - 1) sk); lia.
Qed.

(** ** The beginning of a request *)

(** the role, the flags and what follows the eight bytes of a BEGIN_REQUEST
    record's content, unless they are skipped or cut short *)
Definition begin_body (sk : bool) (w : list Z) : option (Z * Z * list Z) :=
  match sk, w with
  | false, b1 :: b0 :: fl :: _ :: _ :: _ :: _ :: _ :: w' => Some (Z.shiftl b1 8 + b0, fl, w')
  | _, _ => None
  end.

(** the id, role and flags of the request that a connection's input [w] begins,
    and what follows; [stale] is the id of the request before *)
Definition request_head (stale : Z) (w : list Z) : option (Z * Z * Z * list Z) :=
  match run 0 stale false false at_record w with
  | mkDelivery [] _ (BeginBody id _ sk w') =>
      match begin_body sk w' with
      | Some (role, fl, tail) => Some (id, role, fl, tail)
      | None => None
      end
  | _ => None
  end.

(** the bytes that are read for the body *)
Definition begin_read (sk : bool) (w : list Z) : list Z := if sk then [] else take 8 w.

Lemma begin_body_cases sk w :
  match begin_body sk w with
  | Some (role, fl, tail) => exists body, len (begin_read sk w) = 8 /\
      begin_body_of_bytes (begin_read sk w) = Some body /\
      role = Z.shiftl (roleB1 body) 8 + roleB0 body /\ fl = flags_ body /\ drop 8 w = tail
  | None => len (begin_read sk w) <> 8
  end.
Proof.
  destruct sk; cbn [begin_body begin_read]; [done|].
  do 8 (destruct w as [|? w]; [done|]). cbn [begin_body]. by eexists.
Qed.

Lemma request_head_rest stale v id role flags tail :
  request_head stale v = Some (id, role, flags, tail) -> tail `suffix_of` v.
Proof.
  unfold request_head. pose proof (run_rest 0 stale false false v at_record) as Hr.
  destruct (run _ _ _ _ _ v) as [[|? ?] ? [| |i pl sk w|?|?]]; try done. cbn in Hr.
  pose proof (begin_body_cases sk w) as Hc.
  destruct (begin_body sk w) as [[[? ?] ?]|]; [|done]. intros [= -> -> -> ->].
  destruct Hc as (_ & _ & _ & _ & _ & <-). etransitivity; [|exact Hr].
  exists (take 8 w). by rewrite take_drop.
Qed.

Lemma suffix_len (l w : list Z) : l `suffix_of` w -> len l <= len w.
Proof. intros [k ->]. rewrite len_app. pose proof (len_nonneg k). lia. Qed.

Lemma suffix_bytes (l w : list Z) : l `suffix_of` w -> bytes w -> bytes l.
Proof. by intros [k ->] [_ ?]%bytes_app. Qed.
