(* ===== verification/Platform.v ===== *)
(** * The platform and the operating-system layer's state

    [os_unix.c] talks to the kernel through system calls, whose code is not
    part of the repository: the class [Platform] names them, as functions on
    the kernel's state.  [PlatformLaws] states what POSIX documents about the
    ones the library relies on, in terms of two views of a connection: the
    bytes the peer has sent (or will send before it closes) and that are not
    read yet ([incoming]) and the bytes accepted by the kernel for the peer
    ([outgoing]); [may_fail] holds when calls may report errors, and [Reliable]
    says that they do not.  A third view is the table of descriptors with the
    clients that wait on listening sockets ([files]), which only accepting and
    closing change; [ListenSocket] says that accepting takes the first client and
    the lowest free descriptor.  An allocation of less than a terabyte is one that
    [malloc] may satisfy.
    [OS] is the state of [os_unix.c]: its static variables, [errno] and the
    kernel.  [OS_Read] and [OS_Write] are here because every stream uses them;
    the rest of [os_unix.c] is in [OsUnix.v]. *)

From S2P Require Import Prelude.

(** ** System calls *)

Inductive io_result :=
  | IoOk (bs : list Z)
  | IoErr (e : Z).

Inductive sysret :=
  | SysOk (v : Z)
  | SysErr (e : Z).

Definition AF_UNIX : Z := 1.
Definition AF_INET : Z := 2.

Record sockaddr := mkSockaddr { sin_family : Z; s_addr : Z }.

Definition EINTR : Z := 4.
Definition ENOMEM : Z := 12.
Definition ESPIPE : Z := 29.
Definition EPROTO : Z := 71.
Definition ENETUNREACH : Z := 101.
Definition ECONNABORTED : Z := 103.
Definition ECONNRESET : Z := 104.
Definition ENOTCONN : Z := 107.
Definition ETIMEDOUT : Z := 110.
Definition EHOSTUNREACH : Z := 113.

(** The result of [accept] and of the [fcntl] that acquires ([true]) or
    releases ([false]) the lock also tells whether the SIGUSR1 handler ran
    during the call; a [select] returns its status and the ready sets; [malloc]
    returns an address and the (arbitrary) contents of the new block;
    [stack_fill] is the arbitrary contents of a local array. *)
Class Platform := {
  pst : Type;
  sys_read : Z -> Z -> pst -> io_result * pst;
  sys_write : Z -> list Z -> pst -> sysret * pst;
  sys_malloc : Z -> pst -> option (Z * (Z -> Z)) * pst;
  stack_fill : pst -> Z -> Z;
  sys_accept : Z -> pst -> (sysret * sockaddr * bool) * pst;
  sys_close : Z -> pst -> sysret * pst;
  sys_shutdown : Z -> Z -> pst -> sysret * pst;
  sys_select : Z -> gset Z -> gset Z -> option (Z * Z) -> pst ->
               (sysret * gset Z * gset Z) * pst;
  sys_setsockopt : Z -> pst -> sysret * pst;
  sys_setlk : Z -> bool -> pst -> (sysret * bool) * pst;
  sys_getpeername : Z -> pst -> sysret * pst;
  sys_fcntl_getfl : Z -> pst -> sysret * pst;
  sys_fcntl_setfl : Z -> Z -> pst -> sysret * pst;
  sys_sigdefault : Z -> pst -> bool;
  sys_sigaction : Z -> pst -> pst;
  sys_getenv : list Z -> pst -> option (list Z);
  inet_addr : list Z -> Z
}.

(** ** What POSIX documents *)

(** the descriptors that are in use, and for each listening socket the clients
    whose connections wait to be accepted, in order, each known by the bytes it
    will send *)
Record kernel_files := mkFiles {
  opened : gset Z;
  waiting : gmap Z (list (list Z))
}.

Definition forget (fd : Z) (f : kernel_files) : kernel_files :=
  mkFiles (opened f ∖ {[fd]}) (waiting f).

Class PlatformLaws `{Platform} := {
  incoming : Z -> pst -> list Z;
  outgoing : Z -> pst -> list Z;
  files : pst -> kernel_files;
  may_fail : Prop;
  incoming_bytes : forall fd k, bytes (incoming fd k);
  read_law : forall fd n k r k', sys_read fd n k = (r, k') -> 0 < n ->
    (forall fd', outgoing fd' k' = outgoing fd' k) /\
    (forall fd', fd' <> fd -> incoming fd' k' = incoming fd' k) /\
    match r with
    | IoOk bs => incoming fd k = bs ++ incoming fd k' /\ len bs <= n /\
                 bytes bs /\ (bs = [] -> incoming fd k = [])
    | IoErr e => incoming fd k' = incoming fd k /\ 0 < e /\ may_fail
    end;
  write_law : forall fd bs k r k', sys_write fd bs k = (r, k') -> bs <> [] ->
    (forall fd', incoming fd' k' = incoming fd' k) /\
    (forall fd', fd' <> fd -> outgoing fd' k' = outgoing fd' k) /\
    match r with
    | SysOk n => 0 < n <= len bs /\ outgoing fd k' = outgoing fd k ++ slice bs 0 n
    | SysErr e => outgoing fd k' = outgoing fd k /\ 0 < e /\ may_fail
    end;
  malloc_law : forall n k r k', sys_malloc n k = (r, k') -> 0 <= n < 1099511627776 ->
    (forall fd, incoming fd k' = incoming fd k) /\
    (forall fd, outgoing fd k' = outgoing fd k) /\
    match r with
    | Some (a, _) => 0 < a /\ a + n < 18446744073709551609
    | None => may_fail
    end;
  shutdown_law : forall fd how k r k', sys_shutdown fd how k = (r, k') ->
    (forall fd', incoming fd' k' = incoming fd' k) /\
    (forall fd', outgoing fd' k' = outgoing fd' k);
  select_law : forall n R W t k r k', sys_select n R W t k = (r, k') ->
    (forall fd', incoming fd' k' = incoming fd' k) /\
    (forall fd', outgoing fd' k' = outgoing fd' k);
  close_law : forall fd k r k', sys_close fd k = (r, k') ->
    (forall fd', fd' <> fd -> incoming fd' k' = incoming fd' k) /\
    (forall fd', outgoing fd' k' = outgoing fd' k);
  read_files : forall fd n k r k', sys_read fd n k = (r, k') -> files k' = files k;
  write_files : forall fd bs k r k', sys_write fd bs k = (r, k') -> files k' = files k;
  malloc_files : forall n k r k', sys_malloc n k = (r, k') -> files k' = files k;
  shutdown_files : forall fd how k r k', sys_shutdown fd how k = (r, k') -> files k' = files k;
  select_files : forall n R W t k r k', sys_select n R W t k = (r, k') -> files k' = files k;
  close_files : forall fd k r k', sys_close fd k = (r, k') ->
    match r with
    | SysOk _ => files k' = forget fd (files k)
    | SysErr _ => (files k' = files k \/ files k' = forget fd (files k)) /\
                  (fd ∈ opened (files k) -> may_fail)
    end
}.

(** a listening socket whose clients are TCP clients: its lock is granted, an
    accepted client takes the lowest free descriptor, and no call is interrupted.
    [FD_SETSIZE] is the number of descriptors that [select] can wait for. *)
Definition FD_SETSIZE : Z := 1024.
Definition fd_ok (fd : Z) : bool := (0 <=? fd) && (fd <? FD_SETSIZE).

Class ListenSocket `{PlatformLaws} (sock : Z) := {
  ls_lock : forall b k, exists k', sys_setlk sock b k = ((SysOk 0, false), k') /\
    files k' = files k /\
    (forall fd, incoming fd k' = incoming fd k) /\ (forall fd, outgoing fd k' = outgoing fd k);
  ls_accept : forall k wire q fd, waiting (files k) !! sock = Some (wire :: q) ->
    fd_ok fd = true -> fd ∉ opened (files k) -> (forall i, 0 <= i < fd -> i ∈ opened (files k)) ->
    exists a k', sys_accept sock k = ((SysOk fd, mkSockaddr AF_INET a, false), k') /\
      files k' = mkFiles ({[fd]} ∪ opened (files k)) (<[sock := q]> (waiting (files k))) /\
      incoming fd k' = wire /\ (forall fd', fd' <> fd -> incoming fd' k' = incoming fd' k) /\
      (forall fd', outgoing fd' k' = outgoing fd' k);
  ls_option : forall fd k, exists v k', sys_setsockopt fd k = (SysOk v, k') /\
    files k' = files k /\
    (forall fd', incoming fd' k' = incoming fd' k) /\ (forall fd', outgoing fd' k' = outgoing fd' k)
}.

(** a platform whose reads, writes and allocations succeed *)
Class Reliable `{PlatformLaws} := no_fail : ~ may_fail.

(** ** State of [os_unix.c] *)

(** one outstanding asynchronous operation; a callback, a client datum and a
    buffer are known by their addresses *)
Record AioInfo := mkAioInfo {
  procPtr : option Z;
  clientData : Z;
  aio_fd : Z;
  aio_len : Z;
  aio_offset : Z;
  aio_buf : Z;
  inUse : bool
}.

(** one-field updates of [AioInfo] *)
Definition set_procPtr (v : option Z) (x : AioInfo) : AioInfo :=
  mkAioInfo v (clientData x) (aio_fd x) (aio_len x) (aio_offset x) (aio_buf x) (inUse x).
Definition set_inUse (v : bool) (x : AioInfo) : AioInfo :=
    mkAioInfo (procPtr x) (clientData x) (aio_fd x) (aio_len x) (aio_offset x) (aio_buf
    x) v.

Record Aio := mkAio {
  asyncIoInUse : bool;
  asyncIoTableSize : Z;
  asyncIoTable : option (list AioInfo);
  readFdSet : gset Z;
  writeFdSet : gset Z;
  readFdSetPost : gset Z;
  numRdPosted : Z;
  writeFdSetPost : gset Z;
  numWrPosted : Z;
  maxFd : Z;
  aio_mem : gmap Z (list Z)
}.

(** one-field updates of [Aio] *)
Definition set_asyncIoInUse (v : bool) (x : Aio) : Aio :=
    mkAio v (asyncIoTableSize x) (asyncIoTable x) (readFdSet x) (writeFdSet x)
    (readFdSetPost x) (numRdPosted x) (writeFdSetPost x) (numWrPosted x) (maxFd x)
    (aio_mem x).
Definition set_asyncIoTableSize (v : Z) (x : Aio) : Aio :=
    mkAio (asyncIoInUse x) v (asyncIoTable x) (readFdSet x) (writeFdSet x)
    (readFdSetPost x) (numRdPosted x) (writeFdSetPost x) (numWrPosted x) (maxFd x)
    (aio_mem x).
Definition set_asyncIoTable (v : option (list AioInfo)) (x : Aio) : Aio :=
    mkAio (asyncIoInUse x) (asyncIoTableSize x) v (readFdSet x) (writeFdSet x)
    (readFdSetPost x) (numRdPosted x) (writeFdSetPost x) (numWrPosted x) (maxFd x)
    (aio_mem x).
Definition set_readFdSet (v : gset Z) (x : Aio) : Aio :=
    mkAio (asyncIoInUse x) (asyncIoTableSize x) (asyncIoTable x) v (writeFdSet x)
    (readFdSetPost x) (numRdPosted x) (writeFdSetPost x) (numWrPosted x) (maxFd x)
    (aio_mem x).
Definition set_writeFdSet (v : gset Z) (x : Aio) : Aio :=
    mkAio (asyncIoInUse x) (asyncIoTableSize x) (asyncIoTable x) (readFdSet x) v
    (readFdSetPost x) (numRdPosted x) (writeFdSetPost x) (numWrPosted x) (maxFd x)
    (aio_mem x).
Definition set_readFdSetPost (v : gset Z) (x : Aio) : Aio :=
    mkAio (asyncIoInUse x) (asyncIoTableSize x) (asyncIoTable x) (readFdSet x)
    (writeFdSet x) v (numRdPosted x) (writeFdSetPost x) (numWrPosted x) (maxFd x)
    (aio_mem x).
Definition set_numRdPosted (v : Z) (x : Aio) : Aio :=
    mkAio (asyncIoInUse x) (asyncIoTableSize x) (asyncIoTable x) (readFdSet x)
    (writeFdSet x) (readFdSetPost x) v (writeFdSetPost x) (numWrPosted x) (maxFd x)
    (aio_mem x).
Definition set_writeFdSetPost (v : gset Z) (x : Aio) : Aio :=
    mkAio (asyncIoInUse x) (asyncIoTableSize x) (asyncIoTable x) (readFdSet x)
    (writeFdSet x) (readFdSetPost x) (numRdPosted x) v (numWrPosted x) (maxFd x)
    (aio_mem x).
Definition set_numWrPosted (v : Z) (x : Aio) : Aio :=
    mkAio (asyncIoInUse x) (asyncIoTableSize x) (asyncIoTable x) (readFdSet x)
    (writeFdSet x) (readFdSetPost x) (numRdPosted x) (writeFdSetPost x) v (maxFd x)
    (aio_mem x).
Definition set_maxFd (v : Z) (x : Aio) : Aio :=
    mkAio (asyncIoInUse x) (asyncIoTableSize x) (asyncIoTable x) (readFdSet x)
    (writeFdSet x) (readFdSetPost x) (numRdPosted x) (writeFdSetPost x) (numWrPosted x)
    v (aio_mem x).
Definition set_aio_mem (v : gmap Z (list Z)) (x : Aio) : Aio :=
    mkAio (asyncIoInUse x) (asyncIoTableSize x) (asyncIoTable x) (readFdSet x)
    (writeFdSet x) (readFdSetPost x) (numRdPosted x) (writeFdSetPost x) (numWrPosted x)
    (maxFd x) v.


Section OS.
Context `{Platform}.

Record OS := mkOS {
  errno : Z;
  os_libInitialized : bool;
  shutdownPending : bool;
  shutdownNow : bool;
  aio : Aio;
  plat : pst
}.

(** one-field updates of [OS] *)
Definition set_errno (v : Z) (x : OS) : OS :=
  mkOS v (os_libInitialized x) (shutdownPending x) (shutdownNow x) (aio x) (plat x).
Definition set_os_libInitialized (v : bool) (x : OS) : OS :=
  mkOS (errno x) v (shutdownPending x) (shutdownNow x) (aio x) (plat x).
Definition set_shutdownPending (v : bool) (x : OS) : OS :=
  mkOS (errno x) (os_libInitialized x) v (shutdownNow x) (aio x) (plat x).
Definition set_shutdownNow (v : bool) (x : OS) : OS :=
  mkOS (errno x) (os_libInitialized x) (shutdownPending x) v (aio x) (plat x).
Definition set_aio (v : Aio) (x : OS) : OS :=
  mkOS (errno x) (os_libInitialized x) (shutdownPending x) (shutdownNow x) v (plat x).
Definition set_plat (v : pst) (x : OS) : OS :=
  mkOS (errno x) (os_libInitialized x) (shutdownPending x) (shutdownNow x) (aio x) v.

Implicit Types o : OS.

(** ** [OS_Read] and [OS_Write] *)

(** the count as the callers see it, and the bytes stored in the buffer *)
Definition OS_Read (fd n : Z) : M OS (Z * list Z) :=
  o <- get ;;
  if shutdownNow o then ret (-1, [])
  else
    let (r, k) := sys_read fd n (plat o) in
    modify (set_plat k) ;;;
    match r with
    | IoOk bs => ret (INT (len bs), bs)
    | IoErr e => modify (set_errno e) ;;; ret (-1, [])
    end.

Definition OS_Write (fd : Z) (bs : list Z) : M OS Z :=
  o <- get ;;
  if shutdownNow o then ret (-1)
  else
    let (r, k) := sys_write fd bs (plat o) in
    modify (set_plat k) ;;;
    match r with
    | SysOk n => ret (INT n)
    | SysErr e => modify (set_errno e) ;;; ret (-1)
    end.

(** [malloc] with the assertion that it succeeded; the new block's address
    and contents *)
Definition Malloc (size : Z) : M OS (Z * (Z -> Z)) :=
  o <- get ;;
  let (r, k) := sys_malloc size (plat o) in
  modify (set_plat k) ;;;
  match r with
  | Some b => ret b
  | None => if size =? 0 then ret (0, fun _ => 0) else fail AssertionFailed
  end.
End OS.

Section OsLemmas.
Context `{PlatformLaws}.
Implicit Types o : OS.

(** the library's own variables, and the kernel's table of descriptors: reads and
    writes leave both alone *)
Definition os_vars o := (os_libInitialized o, shutdownPending o, shutdownNow o, aio o).
Definition os_files o := files (plat o).
Definition os_static o := (os_vars o, os_files o).

Definition os_in fd o := incoming fd (plat o).
Definition os_out fd o := outgoing fd (plat o).

(** nothing was received or sent between the two states *)
Definition os_quiet o o' : Prop :=
  os_static o' = os_static o /\
  (forall fd, os_in fd o' = os_in fd o) /\ (forall fd, os_out fd o' = os_out fd o).

Lemma os_quiet_plat k o : files k = files (plat o) ->
  (forall fd, incoming fd k = incoming fd (plat o)) ->
  (forall fd, outgoing fd k = outgoing fd (plat o)) -> os_quiet o (set_plat k o).
Proof. intros Hf Hi Ho. unfold os_quiet, os_static, os_files. cbn. by rewrite Hf. Qed.

Lemma os_quiet_refl o : os_quiet o o.
Proof. done. Qed.

Lemma os_quiet_trans o1 o2 o3 : os_quiet o1 o2 -> os_quiet o2 o3 -> os_quiet o1 o3.
Proof.
  intros (H1 & H2 & H3) (H1' & H2' & H3'). split; [congruence|].
  split; intros fd; [by rewrite H2'|by rewrite H3'].
Qed.

#[export] Instance os_quiet_preorder : PreOrder os_quiet.
Proof. split; [exact os_quiet_refl|exact os_quiet_trans]. Qed.

(** [OS_Read] with room for [n] bytes: some of the bytes that are waiting, the
    end of the input when none is left, or an error *)
Definition read_post fd n o (r : Z * list Z) o' : Prop :=
  os_static o' = os_static o /\
  (forall fd', os_out fd' o' = os_out fd' o) /\
  (forall fd', fd' <> fd -> os_in fd' o' = os_in fd' o) /\
  ((exists bs, r = (len bs, bs) /\ bs <> [] /\ len bs <= n /\ bytes bs /\
               os_in fd o = bs ++ os_in fd o') \/
   (r = (0, []) /\ os_in fd o = [] /\ os_in fd o' = []) \/
   (r = (-1, []) /\ os_in fd o' = os_in fd o /\ 0 < errno o' /\ may_fail)).

Lemma wp_OS_Read fd n o : shutdownNow o = false -> 0 < n <= INT_MAX ->
  wp (OS_Read fd n) (read_post fd n o) o.
Proof.
  intros Hs Hn. unfold OS_Read, read_post, os_static, os_files, os_out, os_in.
  wp_steps. rewrite Hs.
  destruct (sys_read fd n (plat o)) as [r k] eqn:E.
  destruct (read_law _ _ _ _ _ E) as (Ho & Hi & Hr); [lia|].
  pose proof (read_files _ _ _ _ _ E) as Hfiles.
  wp_steps. destruct r as [bs|e]; wp_steps; cbn; rewrite ?Hfiles; do 3 (split; [by auto|]).
  - destruct Hr as (Hin & Hl & Hb & He).
    pose proof (len_nonneg bs).
    rewrite INT_id by (unfold INT_MIN, INT_MAX in *; lia).
    destruct bs as [|b bs].
    + right. left. rewrite He by done. rewrite He in Hin by done. auto.
    + left. exists (b :: bs). auto.
  - right. right. tauto.
Qed.

Definition write_post fd bs o (n : Z) o' : Prop :=
  os_static o' = os_static o /\
  (forall fd', os_in fd' o' = os_in fd' o) /\
  (forall fd', fd' <> fd -> os_out fd' o' = os_out fd' o) /\
  ((0 < n <= len bs /\ os_out fd o' = os_out fd o ++ slice bs 0 n) \/
   (n = -1 /\ os_out fd o' = os_out fd o /\ 0 < errno o' /\ may_fail)).

Lemma wp_OS_Write fd bs o : shutdownNow o = false -> bs <> [] -> len bs <= INT_MAX ->
  wp (OS_Write fd bs) (write_post fd bs o) o.
Proof.
  intros Hs Hbs Hl. unfold OS_Write, write_post, os_static, os_files, os_out, os_in.
  wp_steps. rewrite Hs.
  destruct (sys_write fd bs (plat o)) as [r k] eqn:E.
  destruct (write_law _ _ _ _ _ E) as (Hi & Ho & Hr); [done|].
  pose proof (write_files _ _ _ _ _ E) as Hfiles.
  wp_steps. destruct r as [n|e]; wp_steps; cbn; rewrite ?Hfiles; do 3 (split; [by auto|]).
  - left. rewrite INT_id by (unfold INT_MIN, INT_MAX in *; lia). tauto.
  - right. tauto.
Qed.
End OsLemmas.

Section ReliableLemmas.
Context `{Reliable}.
Implicit Types o : OS.

Lemma wp_Malloc n o : 0 <= n < 1099511627776 ->
  wp (Malloc n) (fun b o' => os_quiet o o' /\ 0 < fst b /\
                             fst b + n < 18446744073709551609) o.
Proof.
  intros Hn. unfold Malloc. wp_steps.
  destruct (sys_malloc n (plat o)) as [r k] eqn:E.
  destruct (malloc_law _ _ _ _ E Hn) as (Hi & Ho & Ha).
  wp_steps. destruct r as [[a f]|]; [|by destruct no_fail].
  wp_steps. cbn. split; [|lia]. by apply os_quiet_plat; [apply (malloc_files _ _ _ _ E)|..].
Qed.
End ReliableLemmas.
