(* ===== verification/Script.v ===== *)
(** * A concrete platform

    A kernel that is a script: the bytes each descriptor will deliver, the
    largest number of bytes a read or a write transfers, what has been written,
    the descriptors in use and the clients that wait on listening sockets.  Every
    call succeeds.  It instantiates [Platform], [PlatformLaws], [Reliable] and
    [ListenSocket], so the theorems that assume them hold of it, and the
    definitions can be run on it. *)

From S2P Require Import Prelude Platform.

Record script := mkScript {
  inputs : gmap Z (list Z);
  outputs : gmap Z (list Z);
  chunk : Z;
  clients : gmap Z (list (list Z));
  in_use : gset Z
}.

Definition sc_incoming (fd : Z) (k : script) : list Z := map UCHAR (default [] (inputs k !! fd)).
Definition sc_outgoing (fd : Z) (k : script) : list Z := default [] (outputs k !! fd).

(** at most [chunk] bytes, and at least one when there is something to move *)
Definition sc_count (n : Z) (k : script) : nat := Z.to_nat (Z.min n (Z.max 1 (chunk k))).

Definition sc_read (fd n : Z) (k : script) : io_result * script :=
  let l := sc_incoming fd k in
  (IoOk (take (sc_count n k) l),
   mkScript (<[fd := drop (sc_count n k) l]> (inputs k)) (outputs k) (chunk k)
     (clients k) (in_use k)).

Definition sc_write (fd : Z) (bs : list Z) (k : script) : sysret * script :=
  let n := sc_count (len bs) k in
  (SysOk (Z.of_nat n),
   mkScript (inputs k) (<[fd := sc_outgoing fd k ++ take n bs]> (outputs k)) (chunk k)
     (clients k) (in_use k)).

(** the lowest descriptor that is free *)
Definition sc_free (k : script) : option nat :=
  List.find (fun n => bool_decide (Z.of_nat n ∉ in_use k)) (seq 0 (Z.to_nat FD_SETSIZE)).

Definition sc_accept (sock : Z) (k : script) : (sysret * sockaddr * bool) * script :=
  match clients k !! sock, sc_free k with
  | Some (wire :: q), Some n =>
      let fd := Z.of_nat n in
      ((SysOk fd, mkSockaddr AF_INET 0, false),
       mkScript (<[fd := wire]> (inputs k)) (outputs k) (chunk k)
         (<[sock := q]> (clients k)) ({[fd]} ∪ in_use k))
  | _, _ => ((SysErr 9, mkSockaddr 0 0, false), k)
  end.

Definition sc_close (fd : Z) (k : script) : sysret * script :=
  (SysOk 0, mkScript (inputs k) (outputs k) (chunk k) (clients k) (in_use k ∖ {[fd]})).

Definition sc_files (k : script) : kernel_files :=
  mkFiles (in_use k) (map (map UCHAR) <$> clients k).

#[export] Instance ScriptPlatform : Platform := {
  pst := script;
  sys_read := sc_read;
  sys_write := sc_write;
  sys_malloc n k := (Some (4100, fun _ => 170), k);
  stack_fill k i := 204;
  sys_accept := sc_accept;
  sys_close := sc_close;
  sys_shutdown fd how k := (SysOk 0, k);
  sys_select n R W t k := ((SysOk 1, R, W), k);
  sys_setsockopt fd k := (SysOk 0, k);
  sys_setlk fd lock k := ((SysOk 0, false), k);
  sys_getpeername fd k := (SysErr ENOTCONN, k);
  sys_fcntl_getfl fd k := (SysOk 0, k);
  sys_fcntl_setfl fd v k := (SysOk 0, k);
  sys_sigdefault sig k := true;
  sys_sigaction sig k := k;
  sys_getenv name k := None;
  inet_addr s := 0
}.

Lemma sc_incoming_insert fd fd' l k k' :
  inputs k' = <[fd := l]> (inputs k) -> bytes l ->
  sc_incoming fd' k' = if decide (fd' = fd) then l else sc_incoming fd' k.
Proof.
  intros He Hl. unfold sc_incoming. rewrite He. case_decide as Hd.
  - subst. rewrite lookup_insert_eq. cbn. clear He. induction Hl as [|b l Hb _ IH]; [done|].
    cbn. rewrite IH. by rewrite UCHAR_id.
  - by rewrite lookup_insert_ne.
Qed.

Lemma sc_incoming_bytes fd k : bytes (sc_incoming fd k).
Proof. unfold sc_incoming. apply Forall_fmap, Forall_true. intros. apply UCHAR_byte. Qed.

Lemma sc_count_pos n k : 0 < n -> 0 < Z.of_nat (sc_count n k) <= n.
Proof. unfold sc_count. lia. Qed.

#[export] Program Instance ScriptLaws : PlatformLaws := {
  incoming := sc_incoming;
  incoming_bytes := sc_incoming_bytes;
  outgoing := sc_outgoing;
  files := sc_files;
  may_fail := False
}.
Next Obligation.
  intros fd n k r k' E Hn. injection E as <- <-.
  pose proof (sc_incoming_bytes fd k) as Hby.
  assert (forall fd', sc_incoming fd' (mkScript
    (<[fd := drop (sc_count n k) (sc_incoming fd k)]> (inputs k)) (outputs k) (chunk k)
    (clients k) (in_use k)) = if decide (fd' = fd) then drop (sc_count n k) (sc_incoming fd k)
                       else sc_incoming fd' k) as Hin.
  { intros fd'. apply sc_incoming_insert; [done|by apply Forall_drop]. }
  pose proof (sc_count_pos n k Hn) as Hc.
  split; [done|]. split; [intros fd' Hf; rewrite Hin; by rewrite decide_False|].
  rewrite Hin, decide_True by done. rewrite take_drop. split; [done|].
  split; [unfold len; rewrite length_take; lia|]. split; [by apply Forall_take|].
  intros E. apply (f_equal length) in E. rewrite length_take in E. cbn [length] in E.
  apply length_zero_iff_nil. lia.
Qed.
Next Obligation.
  intros fd bs k r k' E Hbs. injection E as <- <-.
  assert (0 < len bs) as Hl by (destruct bs; [done|]; rewrite len_cons; pose proof (len_nonneg bs); lia).
  pose proof (sc_count_pos (len bs) k Hl) as Hc.
  split; [done|]. unfold sc_outgoing. cbn.
  split; [intros fd' Hf; by rewrite lookup_insert_ne|].
  split; [done|]. rewrite lookup_insert_eq. cbn. f_equal.
  unfold slice. change (Z.to_nat 0) with O. rewrite drop_0. f_equal. lia.
Qed.
Next Obligation. intros n k r k' E Hn. injection E as <- <-. split_and!; try done; lia. Qed.
Next Obligation. intros fd how k r k' E. by injection E as <- <-. Qed.
Next Obligation. intros n R W t k r k' E. by injection E as <- <-. Qed.
Next Obligation. intros fd k r k' E. by injection E as <- <-. Qed.
Next Obligation. intros fd n k r k' E. by injection E as <- <-. Qed.
Next Obligation. intros fd bs k r k' E. by injection E as <- <-. Qed.
Next Obligation. intros n k r k' E. by injection E as <- <-. Qed.
Next Obligation. intros fd how k r k' E. by injection E as <- <-. Qed.
Next Obligation. intros n R W t k r k' E. by injection E as <- <-. Qed.
Next Obligation. intros fd k r k' E. by injection E as <- <-. Qed.

#[export] Instance ScriptReliable : Reliable.
Proof. by intros []. Qed.

Lemma sc_free_lowest fd k : fd_ok fd = true -> fd ∉ in_use k ->
  (forall i, 0 <= i < fd -> i ∈ in_use k) -> sc_free k = Some (Z.to_nat fd).
Proof.
  unfold fd_ok, sc_free, FD_SETSIZE. intros Hfd Hnot Hlow.
  assert (0 <= fd < 1024) as Hr by lia. clear Hfd.
  replace (Z.to_nat 1024) with (Z.to_nat fd + S (1023 - Z.to_nat fd))%nat by lia.
  rewrite seq_app. cbn [seq Nat.add].
  assert (forall l l' : list nat, Forall (fun n => Z.of_nat n ∈ in_use k) l ->
    List.find (fun n => bool_decide (Z.of_nat n ∉ in_use k)) (l ++ l') =
    List.find (fun n => bool_decide (Z.of_nat n ∉ in_use k)) l') as Hskip.
  { intros l l' Hl. induction Hl as [|n l Hn _ IH]; [done|]. cbn.
    rewrite bool_decide_eq_false_2 by tauto. exact IH. }
  rewrite Hskip.
  - cbn. rewrite bool_decide_eq_true_2 by (by rewrite Z2Nat.id by lia). done.
  - apply Forall_forall. intros n Hn%elem_of_seq. apply Hlow. lia.
Qed.

(** clients that send bytes *)
#[export] Instance ScriptListen sock : ListenSocket sock.
Proof.
  split; [by intros b k; exists k| |by intros fd k; exists 0, k].
  intros k wire q fd Hw Hfd Hnot Hlow. pose proof (sc_free_lowest fd k Hfd Hnot Hlow) as Hfree.
  assert (0 <= fd) by (unfold fd_ok in Hfd; lia).
  cbn in Hw. rewrite lookup_fmap in Hw. cbn [sys_accept ScriptPlatform]. unfold sc_accept.
  destruct (clients k !! sock) as [[|wire' q']|]; cbn in Hw; [done| |done].
  injection Hw as Hwire Hq. rewrite Hfree, Z2Nat.id by done. eexists 0, _. split; [done|].
  split; [|split; [|split]].
  - cbn. unfold sc_files. cbn. by rewrite fmap_insert, <- Hq.
  - cbn. unfold sc_incoming. cbn. by rewrite lookup_insert_eq.
  - intros fd' Hne. cbn. unfold sc_incoming. cbn. by rewrite lookup_insert_ne.
  - done.
Qed.

(** the system with a script, at rest *)
Definition script_aio : Aio :=
  mkAio false 16 None ∅ ∅ ∅ 0 ∅ 0 (-1) ∅.

Definition script_os (k : script) : OS := mkOS 0 false false false script_aio k.

(** a script with one descriptor to read from *)
Definition one_input (fd ck : Z) (bs : list Z) : script :=
  mkScript {[fd := bs]} ∅ ck ∅ {[fd]}.

(** fuel for the examples: the longest buffer has 65536 bytes *)
Definition demo_fuel : nat := Z.to_nat 70000.

Lemma demo_fuel_val : Z.of_nat demo_fuel = 70000.
Proof. unfold demo_fuel. by rewrite Z2Nat.id by lia. Qed.
#[global] Opaque demo_fuel.
