(* ===== verification/OsUnix.v ===== *)
(** * The operating-system layer

    [os_unix.c] beyond [OS_Read] and [OS_Write]: start-up and signal handlers,
    the asynchronous I/O table and [OS_DoIo], closing of connections, and
    [OS_Accept] with its lock and its checks of the client.  An [fd_set] is the
    set of its descriptors; using one with a descriptor outside
    [0 <= fd < FD_SETSIZE] is undefined.  The SIGUSR1 handler
    ([OS_Sigusr1Handler]) runs during the calls that block. *)

From S2P Require Import Prelude CString Platform.

(** ** Calls of the kernel *)

Section Calls.
Context `{Platform}.

(** a call that returns -1 and sets [errno] when it fails *)
Definition syscall (f : pst -> sysret * pst) : M OS Z :=
  o <- get ;;
  let (r, k) := f (plat o) in
  modify (set_plat k) ;;;
  match r with
  | SysOk v => ret v
  | SysErr e => modify (set_errno e) ;;; ret (-1)
  end.

Definition get_aio : M OS Aio := gets aio.
Definition upd_aio (f : Aio -> Aio) : M OS unit := modify (fun o => set_aio (f (aio o)) o).
End Calls.

(** ** Descriptor sets *)

Definition FD_SET {S} (fd : Z) (X : gset Z) : M S (gset Z) :=
  if fd_ok fd then ret ({[fd]} ∪ X) else undef.
Definition FD_CLR {S} (fd : Z) (X : gset Z) : M S (gset Z) :=
  if fd_ok fd then ret (X ∖ {[fd]}) else undef.
Definition FD_ISSET {S} (fd : Z) (X : gset Z) : M S bool :=
  if fd_ok fd then ret (bool_decide (fd ∈ X)) else undef.

(** ** Start-up *)

Definition SIGPIPE : Z := 13.
Definition SIGUSR1 : Z := 10.
Definition sizeof_AioInfo : Z := 48.

(** an entry of a table cleared by [memset] *)
Definition aio_zero : AioInfo := mkAioInfo None 0 0 0 0 0 false.

Section Startup.
Context `{Platform}.

Definition OS_ShutdownPending : M OS unit := modify (set_shutdownPending true).

Definition OS_Sigusr1Handler : M OS unit := OS_ShutdownPending.

(** a handler is installed over the default action only, unless forced *)
Definition installSignalHandler (signo : Z) (force : bool) : M OS unit :=
  o <- get ;;
  when force || sys_sigdefault signo (plat o) do
    modify (fun o => set_plat (sys_sigaction signo (plat o)) o).

Definition OS_InstallSignalHandlers (force : bool) : M OS unit :=
  installSignalHandler SIGPIPE force ;;;
  installSignalHandler SIGUSR1 force.

Definition OS_LibInit : M OS Z :=
  o <- get ;;
  if os_libInitialized o then ret 0
  else
    let size := asyncIoTableSize (aio o) in
    let (r, k) := sys_malloc (size * sizeof_AioInfo) (plat o) in
    modify (set_plat k) ;;;
    match r with
    | None =>
        upd_aio (set_asyncIoTable None) ;;;
        modify (set_errno ENOMEM) ;;; ret (-1)
    | Some _ =>
        upd_aio (set_asyncIoTable (Some (replicate (Z.to_nat size) aio_zero))) ;;;
        upd_aio (set_readFdSet ∅) ;;;
        upd_aio (set_writeFdSet ∅) ;;;
        upd_aio (set_readFdSetPost ∅) ;;;
        upd_aio (set_writeFdSetPost ∅) ;;;
        OS_InstallSignalHandlers false ;;;
        modify (set_os_libInitialized true) ;;;
        ret 0
    end.

Definition OS_LibShutdown : M OS unit :=
  o <- get ;;
  when os_libInitialized o do
    (upd_aio (set_asyncIoTable None) ;;; modify (set_os_libInitialized false)).

(** [sun_path] of Linux has 108 bytes; the address is the bytes stored there
    and its length *)
Definition OS_BuildSockAddrUn (bindPath : list Z) : M OS (Z * (list Z * Z)) :=
  n <- of_option (strlen bindPath) ;;
  if 108 <? n then ret (-1, ([], 0))
  else
    let path := take (Z.to_nat n) bindPath in
    ret (0, (path ++ replicate (108 - Z.to_nat n) 0, 2 + n)).
End Startup.

(** ** The asynchronous I/O table *)

Definition AIO_RD_IX (fd : Z) : Z := fd * 2.
Definition AIO_WR_IX (fd : Z) : Z := fd * 2 + 1.

Section AsyncIo.
Context `{Platform}.
Variable fuel : nat.

(** [asyncIoTable[index]], undefined outside the table *)
Definition aio_entry (index : Z) : M OS AioInfo :=
  a <- get_aio ;;
  t <- of_option (asyncIoTable a) ;;
  if 0 <=? index then of_option (t !! Z.to_nat index) else undef.

Definition aio_store (index : Z) (e : AioInfo) : M OS unit :=
  _ <- aio_entry index ;;
  upd_aio (fun a => set_asyncIoTable (<[Z.to_nat index := e]> <$> asyncIoTable a) a).

Definition GrowAsyncTable : M OS unit :=
  a <- get_aio ;;
  size <- int_op (asyncIoTableSize a * 2) ;;
  upd_aio (set_asyncIoTableSize size) ;;;
  o <- get ;;
  let (r, k) := sys_malloc (size * sizeof_AioInfo) (plat o) in
  modify (set_plat k) ;;;
  match r with
  | None => modify (set_errno ENOMEM) ;;; fail (ProcessExit ENOMEM)
  | Some _ =>
      let old := default [] (asyncIoTable a) in
      upd_aio (set_asyncIoTable
        (Some (old ++ replicate (Z.to_nat (asyncIoTableSize a)) aio_zero)))
  end.

(** [while (index >= asyncIoTableSize) GrowAsyncTable()] *)
Definition grow_to (index : Z) : M OS unit :=
  loop fuel (fun _ : unit =>
    a <- get_aio ;;
    if asyncIoTableSize a <=? index then GrowAsyncTable ;;; ret (inl tt)
    else ret (inr tt)) tt.

(** the assignments that queue an operation *)
Definition post_entry (index fd offset buf n : Z) (proc : option Z) (cd : Z) : M OS unit :=
  e <- aio_entry index ;;
  assert (negb (inUse e)) ;;;
  aio_store index (mkAioInfo proc cd fd n offset buf true).

Definition OS_AsyncReadStdin (buf n : Z) (proc : option Z) (cd : Z) : M OS Z :=
  upd_aio (set_asyncIoInUse true) ;;;
  post_entry (AIO_RD_IX 0) 0 0 buf n proc cd ;;;
  a <- get_aio ;;
  X <- FD_SET 0 (readFdSet a) ;;
  upd_aio (set_readFdSet X) ;;;
  (when maxFd a <? 0 do upd_aio (set_maxFd 0)) ;;;
  ret 0.

Definition OS_AsyncRead (fd offset buf n : Z) (proc : option Z) (cd : Z) : M OS Z :=
  a <- get_aio ;;
  assert (bool_decide (is_Some (asyncIoTable a))) ;;;
  upd_aio (set_asyncIoInUse true) ;;;
  (when maxFd a <? fd do upd_aio (set_maxFd fd)) ;;;
  grow_to (AIO_RD_IX fd) ;;;
  post_entry (AIO_RD_IX fd) fd offset buf n proc cd ;;;
  a <- get_aio ;;
  X <- FD_SET fd (readFdSet a) ;;
  upd_aio (set_readFdSet X) ;;;
  ret 0.

Definition OS_AsyncWrite (fd offset buf n : Z) (proc : option Z) (cd : Z) : M OS Z :=
  upd_aio (set_asyncIoInUse true) ;;;
  a <- get_aio ;;
  (when maxFd a <? fd do upd_aio (set_maxFd fd)) ;;;
  grow_to (AIO_WR_IX fd) ;;;
  post_entry (AIO_WR_IX fd) fd offset buf n proc cd ;;;
  a <- get_aio ;;
  X <- FD_SET fd (writeFdSet a) ;;
  upd_aio (set_writeFdSet X) ;;;
  ret 0.

(** ** Closing *)

(** [if (asyncIoTable[index].inUse != 0) asyncIoTable[index].inUse = 0] *)
Definition cancel_entry (index : Z) : M OS bool :=
  e <- aio_entry index ;;
  if inUse e then aio_store index (set_inUse false e) ;;; ret true else ret false.

Definition cancel_fd (fd : Z) : M OS unit :=
  a <- get_aio ;;
  X <- FD_CLR fd (readFdSet a) ;;
  upd_aio (set_readFdSet X) ;;;
  X <- FD_CLR fd (readFdSetPost a) ;;
  upd_aio (set_readFdSetPost X) ;;;
  _ <- cancel_entry (AIO_RD_IX fd) ;;
  X <- FD_CLR fd (writeFdSet a) ;;
  upd_aio (set_writeFdSet X) ;;;
  X <- FD_CLR fd (writeFdSetPost a) ;;
  upd_aio (set_writeFdSetPost X) ;;;
  _ <- cancel_entry (AIO_WR_IX fd) ;;
  a <- get_aio ;;
  when maxFd a =? fd do upd_aio (set_maxFd (fd - 1)).

(** [select] on one descriptor, for reading, with a timeout in seconds *)
Definition select_read (fd seconds : Z) : M OS (Z * gset Z) :=
  X <- FD_SET fd ∅ ;;
  o <- get ;;
  let '((r, X', _), k) := sys_select (fd + 1) X ∅ (Some (seconds, 0)) (plat o) in
  modify (set_plat k) ;;;
  match r with
  | SysOk v => ret (v, X')
  | SysErr e => modify (set_errno e) ;;; ret (-1, X)
  end.

(** [read(fd, buf, len)] itself *)
Definition raw_read (fd n : Z) : M OS (Z * list Z) :=
  o <- get ;;
  let (r, k) := sys_read fd n (plat o) in
  modify (set_plat k) ;;;
  match r with
  | IoOk bs => ret (len bs, bs)
  | IoErr e => modify (set_errno e) ;;; ret (-1, [])
  end.

Definition OS_Close (fd : Z) : M OS Z :=
  if fd =? -1 then ret 0
  else
    a <- get_aio ;;
    (when asyncIoInUse a do cancel_fd fd) ;;;
    rc <- syscall (sys_shutdown fd 1) ;;
    (when rc =? 0 do
       loop fuel (fun _ : unit =>
         rv <- select_read fd 2 ;;
         if 0 <? fst rv then
           r <- raw_read fd 1024 ;;
           if 0 <? fst r then ret (inl tt) else ret (inr tt)
         else ret (inr tt)) tt) ;;;
    syscall (sys_close fd).

Definition OS_CloseRead (fd : Z) : M OS Z :=
  used <- cancel_entry (AIO_RD_IX fd) ;;
  (when used do
     (a <- get_aio ;; X <- FD_CLR fd (readFdSet a) ;; upd_aio (set_readFdSet X))) ;;;
  syscall (sys_shutdown fd 0).

Definition OS_IpcClose (fd : Z) : M OS Z := OS_Close fd.

(** ** Dispatching completed operations *)

(** the completion procedure at an address *)
Variable call : Z -> Z -> Z -> M OS unit.

(** the descriptors of [X] up to [maxFd] *)
Definition copy_set (n : Z) (X : gset Z) : M OS (gset Z) :=
  if (n <? FD_SETSIZE) then ret (filter (fun fd => 0 <= fd <= n) X) else undef.

(** the entries of a completed [select] are moved to the posted sets *)
Definition post_fd (R W : gset Z) (fd : Z) : M OS unit :=
  r <- FD_ISSET fd R ;;
  (when (r : bool) do
     (a <- get_aio ;;
      upd_aio (set_numRdPosted (numRdPosted a + 1)) ;;;
      X <- FD_SET fd (readFdSetPost a) ;;
      upd_aio (set_readFdSetPost X) ;;;
      Y <- FD_CLR fd (readFdSet a) ;;
      upd_aio (set_readFdSet Y))) ;;;
  w <- FD_ISSET fd W ;;
  when (w : bool) do
    (a <- get_aio ;;
     upd_aio (set_numWrPosted (numWrPosted a + 1)) ;;;
     X <- FD_SET fd (writeFdSetPost a) ;;
     upd_aio (set_writeFdSetPost X) ;;;
     Y <- FD_CLR fd (writeFdSet a) ;;
     upd_aio (set_writeFdSet Y)).

(** the entry is released and its procedure called *)
Definition complete_entry (index n : Z) : M OS unit :=
  e <- aio_entry index ;;
  aio_store index (set_inUse false (set_procPtr None e)) ;;;
  p <- of_option (procPtr e) ;;
  call p (clientData e) n.

Definition dispatch_read (fd : Z) : M OS unit :=
  a <- get_aio ;;
  posted <- FD_ISSET fd (readFdSetPost a) ;;
  if negb posted then ret tt
  else
    e <- aio_entry (AIO_RD_IX fd) ;;
    when inUse e do
      (upd_aio (set_numRdPosted (numRdPosted a - 1)) ;;;
       X <- FD_CLR fd (readFdSetPost a) ;;
       upd_aio (set_readFdSetPost X) ;;;
       r <- raw_read (aio_fd e) (aio_len e) ;;
       m <- of_option (aio_mem a !! aio_buf e) ;;
       m' <- mem_write m 0 (snd r) ;;
       upd_aio (fun a => set_aio_mem (<[aio_buf e := m']> (aio_mem a)) a) ;;;
       complete_entry (AIO_RD_IX fd) (INT (fst r))).

Definition dispatch_write (fd : Z) : M OS unit :=
  a <- get_aio ;;
  posted <- FD_ISSET fd (writeFdSetPost a) ;;
  if negb posted then ret tt
  else
    e <- aio_entry (AIO_WR_IX fd) ;;
    when inUse e do
      (upd_aio (set_numWrPosted (numWrPosted a - 1)) ;;;
       X <- FD_CLR fd (writeFdSetPost a) ;;
       upd_aio (set_writeFdSetPost X) ;;;
       m <- of_option (aio_mem a !! aio_buf e) ;;
       bs <- mem_read m 0 (aio_len e) ;;
       n <- syscall (sys_write (aio_fd e) bs) ;;
       complete_entry (AIO_WR_IX fd) (INT n)).

(** [for (fd = 0; fd <= maxFd; fd++)] *)
Definition for_fds (body : Z -> M OS unit) : M OS unit :=
  loop fuel (fun fd =>
    a <- get_aio ;;
    if fd <=? maxFd a then body fd ;;; ret (inl (fd + 1)) else ret (inr tt)) 0.

Definition OS_DoIo (tmo : option (Z * Z)) : M OS Z :=
  upd_aio (set_asyncIoInUse true) ;;;
  a <- get_aio ;;
  R <- copy_set (maxFd a) (readFdSet a) ;;
  W <- copy_set (maxFd a) (writeFdSet a) ;;
  (when (numRdPosted a =? 0) && (numWrPosted a =? 0) do
     (o <- get ;;
      let '((r, R', W'), k) := sys_select (maxFd a + 1) R W tmo (plat o) in
      modify (set_plat k) ;;;
      match r with
      | SysErr e => modify (set_errno e) ;;; fail (ProcessExit e)
      | SysOk _ => for_fds (post_fd R' W')
      end)) ;;;
  a <- get_aio ;;
  if (numRdPosted a =? 0) && (numWrPosted a =? 0) then ret 0
  else for_fds (fun fd => dispatch_read fd ;;; dispatch_write fd) ;;; ret 0.
End AsyncIo.

(** ** Accepting a connection *)

(** [str_dup] of a string whose allocation succeeds; null otherwise *)
Definition str_dup `{Platform} (str : list Z) : M OS (option (list Z)) :=
  n <- of_option (strlen str) ;;
  o <- get ;;
  let (r, k) := sys_malloc (n + 1) (plat o) in
  modify (set_plat k) ;;;
  ret (match r with
       | Some _ => Some (take (S (Z.to_nat n)) str)
       | None => None
       end).

(** the loop over the comma-separated addresses: [strchr] cuts the first one
    off, which becomes a string of its own *)
Fixpoint addr_in_list `{Platform} (fuel : nat) (cur : list Z) (addr : Z) : option bool :=
  match fuel with
  | O => None
  | S fuel' =>
      match strchr cur 44 with
      | None => None
      | Some None => Some (inet_addr cur =? addr)
      | Some (Some i) =>
          if inet_addr (take (Z.to_nat i) cur ++ [0]) =? addr then Some true
          else addr_in_list fuel' (drop (S (Z.to_nat i)) cur) addr
      end
  end.

Definition is_reasonable_accept_errno (error : Z) : bool :=
  (error =? EPROTO) || (error =? ECONNABORTED) || (error =? ECONNRESET)
  || (error =? ETIMEDOUT) || (error =? EHOSTUNREACH) || (error =? ENETUNREACH).

Section Accept.
Context `{Platform}.
Variable fuel : nat.

(** the list is a string; every turn of the loop consumes one of its bytes *)
Definition ClientAddrOK (addr : Z) (clientList : option (list Z)) : M OS bool :=
  match clientList with
  | None => ret true
  | Some l =>
      c <- of_option (head l) ;;
      if c =? 0 then ret true
      else
        copy <- str_dup l ;;
        match copy with
        | None => ret false
        | Some copy => of_option (addr_in_list (S (length copy)) copy addr)
        end
  end.

(** a call during which the SIGUSR1 handler may run *)
Definition blocking_call (f : pst -> (sysret * bool) * pst) : M OS Z :=
  o <- get ;;
  let '((r, usr1), k) := f (plat o) in
  modify (set_plat k) ;;;
  (when usr1 do OS_Sigusr1Handler) ;;;
  match r with
  | SysOk v => ret v
  | SysErr e => modify (set_errno e) ;;; ret (-1)
  end.

Definition AcquireLock (sock : Z) (fail_on_intr : bool) : M OS Z :=
  loop fuel (fun _ : unit =>
    r <- blocking_call (sys_setlk sock true) ;;
    if negb (r =? -1) then ret (inr 0)
    else
      o <- get ;;
      if (errno o =? EINTR) && negb fail_on_intr && negb (shutdownPending o)
      then ret (inl tt) else ret (inr (-1))) tt.

Definition ReleaseLock (sock : Z) : M OS Z :=
  loop fuel (fun _ : unit =>
    r <- blocking_call (sys_setlk sock false) ;;
    if negb (r =? -1) then ret (inr 0)
    else
      o <- get ;;
      if errno o =? EINTR then ret (inl tt) else ret (inr (-1))) tt.

Definition is_af_unix_keeper (fd : Z) : M OS bool :=
  r <- select_read fd 2 ;;
  if 0 <=? fst r then FD_ISSET fd (snd r) else ret false.

(** [socket = accept(listen_sock, &sa, &len)] *)
Definition accept_call (listen_sock : Z) (sa : sockaddr) : M OS (Z * sockaddr) :=
  o <- get ;;
  let '((r, sa', usr1), k) := sys_accept listen_sock (plat o) in
  modify (set_plat k) ;;;
  (when usr1 do OS_Sigusr1Handler) ;;;
  match r with
  | SysOk fd => ret (fd, sa')
  | SysErr e => modify (set_errno e) ;;; ret (-1, sa)
  end.

(** the innermost loop; its variables are [socket] and [sa] *)
Definition accept_retry (listen_sock : Z) (fail_on_intr : bool) (v : Z * sockaddr)
    : M OS (Z * sockaddr) :=
  loop fuel (fun v =>
    o <- get ;;
    if shutdownPending o then ret (inr v)
    else
      v <- accept_call listen_sock (snd v) ;;
      o <- get ;;
      if (fst v <? 0) && (errno o =? EINTR) && negb fail_on_intr
         && negb (shutdownPending o)
      then ret (inl v) else ret (inr v)) v.

(** one turn of the loop that waits for an acceptable client; [None] is
    [return -1] *)
Definition accept_client (listen_sock : Z) (fail_on_intr : bool)
    (addrs : option (list Z)) (v : Z * sockaddr)
    : M OS (Z * sockaddr + option (Z * sockaddr)) :=
  v <- accept_retry listen_sock fail_on_intr v ;;
  let (socket, sa) := (v : Z * sockaddr) in
  if socket <? 0 then
    o <- get ;;
    if shutdownPending o || negb (is_reasonable_accept_errno (errno o)) then
      let errnoSave := errno o in
      _ <- ReleaseLock listen_sock ;;
      o <- get ;;
      (when negb (shutdownPending o) do modify (set_errno errnoSave)) ;;;
      ret (inr None)
    else modify (set_errno 0) ;;; ret (inl v)
  else if negb (sin_family sa =? AF_INET) then ret (inr (Some v))
  else
    _ <- syscall (sys_setsockopt socket) ;;
    ok <- ClientAddrOK (s_addr sa) addrs ;;
    if (ok : bool) then ret (inr (Some v))
    else _ <- syscall (sys_close socket) ;; ret (inl v).

(** one turn of the outer loop *)
Definition accept_turn (listen_sock : Z) (fail_on_intr : bool)
    (addrs : option (list Z)) (v : Z * sockaddr) : M OS (Z * sockaddr + Z) :=
  rc <- AcquireLock listen_sock fail_on_intr ;;
  if negb (rc =? 0) then ret (inr (-1))
  else
    r <- loop fuel (accept_client listen_sock fail_on_intr addrs) v ;;
    match r with
    | None => ret (inr (-1))
    | Some v =>
        rc <- ReleaseLock listen_sock ;;
        if negb (rc =? 0) then ret (inr (-1))
        else if negb (sin_family (snd v) =? AF_UNIX) then ret (inr (fst v))
        else
          keep <- is_af_unix_keeper (fst v) ;;
          if (keep : bool) then ret (inr (fst v))
          else _ <- syscall (sys_close (fst v)) ;; ret (inl v)
    end.

Definition OS_Accept (listen_sock : Z) (fail_on_intr : bool) (addrs : option (list Z))
    : M OS Z :=
  loop fuel (accept_turn listen_sock fail_on_intr addrs) (-1, mkSockaddr 0 0).

(** ** Other calls *)

Definition OS_IsFcgi (sock : Z) : M OS bool :=
  modify (set_errno 0) ;;;
  rc <- syscall (sys_getpeername sock) ;;
  o <- get ;;
  ret (negb (rc =? 0) && (errno o =? ENOTCONN)).

Definition OS_SetFlags (fd flags : Z) : M OS unit :=
  val <- syscall (sys_fcntl_getfl fd) ;;
  o <- get ;;
  if val <? 0 then fail (ProcessExit (errno o))
  else
    rc <- syscall (sys_fcntl_setfl fd (Z.lor val flags)) ;;
    o <- get ;;
    if rc <? 0 then fail (ProcessExit (errno o)) else ret tt.
End Accept.

(** ** Closing a connection *)

Section CloseLemmas.
Context `{PlatformLaws}.
Implicit Types o : OS.

(** nothing was sent; only [fd] may have been read, and it may be in use no more *)
Definition out_kept fd o o' : Prop :=
  (os_vars o' = os_vars o /\
   (os_files o' = os_files o \/ os_files o' = forget fd (os_files o))) /\
  (forall fd', os_out fd' o' = os_out fd' o) /\
  (forall fd', fd' <> fd -> os_in fd' o' = os_in fd' o).

#[export] Instance out_kept_preorder fd : PreOrder (out_kept fd).
Proof.
  split; [split; auto|]. intros o1 o2 o3 ((Ha & Hf) & Hb & Hc) ((Ha' & Hf') & Hb' & Hc').
  split; [|split; intros; [by rewrite Hb'|rewrite Hc'; auto]]. split; [congruence|].
  destruct Hf as [Hf | Hf], Hf' as [-> | ->]; rewrite ?Hf; auto.
  right. unfold forget. cbn. f_equal. by rewrite difference_difference_l_L, union_idemp_L.
Qed.

Lemma out_kept_quiet fd o o' : os_quiet o o' -> out_kept fd o o'.
Proof.
  intros (Hs & Hi & Ho). unfold os_static in Hs. split; [split; [congruence|left; congruence]|].
  by split.
Qed.

Lemma wp_syscall (f : pst -> sysret * pst) o (Q : Z -> OS -> Prop) :
  (forall r k, f (plat o) = (r, k) ->
     match r with
     | SysOk v => Q v (set_plat k o)
     | SysErr e => Q (-1) (set_errno e (set_plat k o))
     end) -> wp (syscall f) Q o.
Proof.
  intros HQ. unfold syscall. wp_steps. destruct (f (plat o)) as [r k].
  specialize (HQ _ _ eq_refl). wp_steps. by destruct r; wp_steps.
Qed.

Lemma wp_select_read fd t o : fd_ok fd = true ->
  wp (select_read fd t) (fun _ o' => os_quiet o o') o.
Proof.
  intros Hfd. unfold select_read, FD_SET. rewrite Hfd. wp_steps.
  destruct (sys_select _ _ _ _ _) as [[[r X] Y] k] eqn:E.
  destruct (select_law _ _ _ _ _ _ _ E) as [Hi Ho].
  pose proof (os_quiet_plat k o (select_files _ _ _ _ _ _ _ E) Hi Ho).
  wp_steps. by destruct r; wp_steps.
Qed.

(** a read of the connection's remaining input *)
Lemma wp_raw_read fd n o : 0 < n ->
  wp (raw_read fd n) (fun r o' => out_kept fd o o' /\
    os_in fd o = snd r ++ os_in fd o' /\
    if 0 <? fst r then snd r <> [] else os_in fd o' = [] \/ may_fail) o.
Proof.
  intros Hn. unfold raw_read. wp_steps.
  destruct (sys_read fd n (plat o)) as [r k] eqn:E.
  destruct (read_law _ _ _ _ _ E Hn) as (Ho & Hi & Hr). wp_steps.
  assert (forall o', os_vars o' = os_vars o -> plat o' = k -> out_kept fd o o') as Hk.
  { intros o' Hv Hp. split; [split; [done|left; unfold os_files; rewrite Hp; by eapply read_files]|].
    unfold os_out, os_in. by rewrite Hp. }
  unfold os_in. destruct r as [bs|e]; wp_steps; (split; [by apply Hk|]); cbn [fst snd plat set_plat set_errno].
  - destruct Hr as (Hin & _ & _ & He). split; [done|]. destruct bs as [|b bs].
    + left. rewrite He in Hin by done. done.
    + pose proof (len_nonneg bs). rewrite len_cons. by replace (0 <? 1 + len bs) with true by lia.
  - destruct Hr as (Hin & _ & Hm). split; [done|]. by right.
Qed.

(** [close] frees the descriptor *)
Lemma wp_sys_close fd o :
  wp (syscall (sys_close fd)) (fun _ o' => out_kept fd o o' /\
    (fd ∈ opened (os_files o') -> may_fail)) o.
Proof.
  apply wp_syscall. intros r k E. destruct (close_law _ _ _ _ E) as [Hi Ho].
  pose proof (close_files _ _ _ _ E) as Hf.
  assert (forall o', os_vars o' = os_vars o -> plat o' = k -> out_kept fd o o') as Hk.
  { intros o' Hv Hp. split; [split; [done|unfold os_files; rewrite Hp; destruct r; tauto]|].
    unfold os_out, os_in. by rewrite Hp. }
  assert (fd ∈ opened (files k) -> may_fail) as Hfree.
  { assert (fd ∉ opened (forget fd (files (plat o)))) as Hgone
      by (cbn; rewrite elem_of_difference, elem_of_singleton; tauto).
    destruct r as [v|e]; [by rewrite Hf|]. by destruct Hf as [[-> | ->] Hf]. }
  by destruct r; (split; [by apply Hk|]).
Qed.

(** nothing came on [fd] for two seconds, or waiting for it failed *)
Definition peer_silent fd o o' : Prop :=
  exists v X, select_read fd 2 o = Ret (v, X) o' /\ v <= 0.

(** from [o], the beginning of what the peer sent was read and discarded: all of it,
    or until the peer fell silent or a read failed *)
Definition input_drained fd o o' : Prop :=
  out_kept fd o o' /\ (exists bs, os_in fd o = bs ++ os_in fd o') /\
  (os_in fd o' = [] \/ (exists o1, out_kept fd o o1 /\ peer_silent fd o1 o') \/ may_fail).

(** the loop of [OS_Close] ends, with the connection drained *)
Lemma wp_drain fuel fd o : fd_ok fd = true -> len (os_in fd o) + 1 < Z.of_nat fuel ->
  wp (loop fuel (fun _ : unit =>
        rv <- select_read fd 2 ;;
        if 0 <? fst rv then
          r <- raw_read fd 1024 ;;
          if 0 <? fst r then ret (inl tt) else ret (inr tt)
        else ret (inr tt)) tt) (fun _ o' => input_drained fd o o') o.
Proof.
  intros Hfd Hf. pose proof (len_nonneg (os_in fd o)).
  apply (wp_loop (fun n (_ : unit) o1 => out_kept fd o o1 /\ n = length (os_in fd o1) /\
    exists bs, os_in fd o = bs ++ os_in fd o1) _ _ _ (length (os_in fd o))).
  2: unfold len in *; lia.
  2: { split; [done|]. split; [done|]. by exists []. }
  intros n [] o1 (Hk1 & -> & bs & Hbs). wp_step. wp_use @wp_self; [by apply wp_select_read|].
  intros [v X] o2 [Esel Hq]. pose proof (out_kept_quiet fd _ _ Hq) as Hk2. cbn [fst].
  assert (out_kept fd o o2) as Hk by (by transitivity o1). destruct Hq as (_ & Hi2 & _).
  apply wp_if; intros Hv.
  - wp_step. wp_use wp_raw_read; [lia|]. intros [m bs2] o3 (Hk3 & Hin & Hr). cbn [fst snd] in *.
    assert (out_kept fd o o3) as Hko3 by (by transitivity o2).
    assert (os_in fd o = (bs ++ bs2) ++ os_in fd o3) as Hall by by rewrite <- app_assoc, <- Hin, Hi2.
    destruct (0 <? m); wp_step.
    + exists (length (os_in fd o3)). rewrite <- Hi2, Hin, length_app.
      destruct bs2; [done|]. split; [cbn; lia|]. split_and!; try done. by eexists.
    + split; [done|]. split; [by eexists|]. tauto.
  - wp_step. split; [done|]. split; [exists bs; by rewrite Hi2|]. right. left.
    exists o1. split; [done|]. exists v, X. split; [done|lia].
Qed.

(** [OS_Close] shuts the sending side down, drains the connection when that
    succeeded, and closes it; nothing that was sent is taken back, and the descriptor
    is free. *)
Lemma wp_OS_Close_drained fuel fd o :
  fd_ok fd = true -> asyncIoInUse (aio o) = false ->
  len (os_in fd o) + 1 < Z.of_nat fuel ->
  wp (OS_Close fuel fd) (fun r o' => (exists rc o1 o2,
      syscall (sys_shutdown fd 1) o = Ret rc o1 /\
      (if rc =? 0 then input_drained fd o1 o2 else o2 = o1) /\
      syscall (sys_close fd) o2 = Ret r o') /\
    out_kept fd o o' /\ (fd ∈ opened (os_files o') -> may_fail)) o.
Proof.
  intros Hfd Hasync Hf. unfold OS_Close, get_aio.
  destruct (Z.eqb_spec fd (-1)) as [->|_]; [done|]. wp_steps. rewrite Hasync. wp_steps.
  assert (wp (syscall (sys_shutdown fd 1)) (fun _ o' => os_quiet o o') o) as Hsh.
  { apply wp_syscall. intros r k E. destruct (shutdown_law _ _ _ _ _ E) as [Hi Ho].
    pose proof (os_quiet_plat k o (shutdown_files _ _ _ _ _ E) Hi Ho). by destruct r. }
  wp_use @wp_self; [exact Hsh|]. intros rc o1 [E1 Hq]. wp_step.
  pose proof (out_kept_quiet fd _ _ Hq) as Hk1.
  apply (wp_mono _ (fun _ o2 => (if rc =? 0 then input_drained fd o1 o2 else o2 = o1) /\ out_kept fd o o2)).
  - destruct Hq as (_ & Hi & _). destruct (rc =? 0); [|by wp_step].
    wp_use wp_drain; [done|by rewrite Hi|]. intros _ o2 Hd. split; [done|].
    transitivity o1; [done|apply Hd].
  - intros _ o2 [Hd Hk2]. wp_use @wp_self; [by apply wp_sys_close|]. intros r o3 (E3 & Hk3 & Hfree).
    split; [by exists rc, o1, o2|]. split; [by transitivity o2|done].
Qed.

Lemma wp_OS_Close fuel fd o :
  fd_ok fd = true -> asyncIoInUse (aio o) = false ->
  len (os_in fd o) + 1 < Z.of_nat fuel ->
  wp (OS_Close fuel fd) (fun _ o' => out_kept fd o o' /\
    (fd ∈ opened (os_files o') -> may_fail)) o.
Proof. intros. wp_use wp_OS_Close_drained; [done..|]. by intros r o1 [_ ?]. Qed.
End CloseLemmas.

(** ** The list of allowed clients *)

(** the addresses of a list, as separated by commas *)
Fixpoint comma_join (parts : list (list Z)) : list Z :=
  match parts with
  | [] => []
  | [a] => a
  | a :: parts' => a ++ 44 :: comma_join parts'
  end.

Definition addr_part (a : list Z) : Prop := no_nul a /\ Forall (fun c => c <> 44) a.

Section ClientLemmas.
Context `{Platform}.

Lemma addr_in_list_spec parts fuel addr :
  Forall addr_part parts -> parts <> [] -> (length parts <= fuel)%nat ->
  addr_in_list fuel (c_str (comma_join parts)) addr =
  Some (existsb (fun a => inet_addr (c_str a) =? addr) parts).
Proof.
  revert fuel. induction parts as [|a parts IH]; intros fuel Hp Hne Hf; [done|].
  rewrite Forall_cons in Hp. destruct Hp as [[Hn Hc] Hp].
  destruct fuel as [|fuel]; [cbn in Hf; lia|]. cbn [addr_in_list].
  destruct parts as [|b parts].
  - cbn [comma_join]. unfold c_str at 1. rewrite strchr_nul by done.
    cbn [existsb]. by rewrite orb_false_r.
  - change (comma_join (a :: b :: parts)) with (a ++ 44 :: comma_join (b :: parts)).
    set (l := comma_join (b :: parts)) in *.
    assert (c_str (a ++ 44 :: l) = a ++ 44 :: c_str l) as -> by (unfold c_str; by rewrite <- app_assoc).
    rewrite strchr_app by done. unfold len. rewrite Nat2Z.id, take_app_length.
    cbn [existsb]. fold (c_str a). destruct (inet_addr (c_str a) =? addr); [done|].
    rewrite cons_middle, app_assoc, drop_app_length' by (rewrite length_app; cbn; lia).
    apply IH; [done|done|]. cbn in Hf |- *. lia.
Qed.

Lemma comma_join_no_nul parts : Forall addr_part parts -> no_nul (comma_join parts).
Proof.
  induction parts as [|a parts IH]; intros Hp; [done|].
  rewrite Forall_cons in Hp. destruct Hp as [[Hn _] Hp].
  destruct parts as [|b parts]; [done|].
  change (comma_join (a :: b :: parts)) with (a ++ 44 :: comma_join (b :: parts)).
  apply Forall_app.
  split; [done|]. apply no_nul_cons. split; [lia|]. by apply IH.
Qed.

Lemma length_parts parts : (length parts <= S (length (comma_join parts)))%nat.
Proof.
  induction parts as [|a parts IH]; [cbn; lia|].
  destruct parts as [|b parts]; [cbn; lia|].
  change (comma_join (a :: b :: parts)) with (a ++ 44 :: comma_join (b :: parts)).
  rewrite length_app. cbn [length] in *. lia.
Qed.
End ClientLemmas.

Section ClientOk.
Context `{Reliable}.

Lemma wp_str_dup s o : no_nul s -> len s < 1073741824 ->
  wp (str_dup (c_str s)) (fun r o' => r = Some (c_str s) /\ os_quiet o o') o.
Proof.
  intros Hn Hl. unfold str_dup. wp_step.
  eapply wp_of_option; [by apply strlen_c_str|]. wp_steps.
  pose proof (len_nonneg s).
  destruct (sys_malloc (len s + 1) (plat o)) as [r k] eqn:E.
  destruct (malloc_law _ _ _ _ E ltac:(lia)) as (Hi & Ho & Ha). wp_steps.
  destruct r as [[a f]|]; [|by destruct no_fail].
  split; [|by apply os_quiet_plat; [apply (malloc_files _ _ _ _ E)|..]].
  f_equal. rewrite take_ge; [done|]. unfold c_str, len. rewrite length_app. cbn. lia.
Qed.

(** A client is allowed when the list is absent or empty, or names it. *)
Lemma wp_ClientAddrOK addr parts o :
  Forall addr_part parts -> parts <> [] -> len (comma_join parts) < 1073741824 ->
  wp (ClientAddrOK addr (Some (c_str (comma_join parts)))) (fun r o' =>
    r = bool_decide (comma_join parts = []) ||
        existsb (fun a => inet_addr (c_str a) =? addr) parts) o.
Proof.
  intros Hp Hne Hl. pose proof (comma_join_no_nul parts Hp) as Hn.
  unfold ClientAddrOK. destruct (comma_join parts) as [|c l] eqn:E; [by wp_step|].
  rewrite bool_decide_eq_false_2 by done. cbn [orb]. wp_step.
  eapply wp_of_option; [done|]. pose proof Hn as Hn'. rewrite no_nul_cons in Hn'.
  replace (c =? 0) with false by lia. wp_step. rewrite <- E in *.
  wp_use wp_str_dup; [done|done|]. intros r o' [-> _].
  eapply wp_of_option; [apply addr_in_list_spec; [done|done|]|done].
  pose proof (length_parts parts). unfold c_str. rewrite length_app. cbn. lia.
Qed.
End ClientOk.

(** ** A shutdown request after a client was dropped *)

(** [Silent] holds of the kernel's states in which [fd] is a Unix connection whose
    peer sends nothing, or is closed: locks are granted, [select] does not report [fd]
    or fails, as on a closed descriptor, and a [close] of [fd], which may fail too,
    changes nothing of that.  Nothing is said about [accept]. *)
Record silent_client `{Platform} (sock fd : Z) (Silent : pst -> Prop) : Prop := {
  silent_lock : forall b k, Silent k ->
    exists k', sys_setlk sock b k = ((SysOk 0, false), k') /\ Silent k';
  silent_select : forall k, Silent k -> exists r R W k',
    sys_select (fd + 1) {[fd]} ∅ (Some (2, 0)) k = ((r, R, W), k') /\ Silent k' /\
    match r with SysOk _ => fd ∉ R | SysErr _ => True end;
  silent_close : forall k r k', Silent k -> sys_close fd k = (r, k') -> Silent k'
}.

(** from [k], the lock is granted and a Unix client is accepted as [fd], silent from
    then on, while SIGUSR1 arrives *)
Definition silent_arrival `{Platform} (sock fd : Z) (Silent : pst -> Prop) (k : pst) : Prop :=
  exists k1 a k2, sys_setlk sock true k = ((SysOk 0, false), k1) /\
    sys_accept sock k1 = ((SysOk fd, mkSockaddr AF_UNIX a, true), k2) /\ Silent k2.

Section StaleSocket.
Context `{Platform}.
Variables (sock fd : Z) (fail_on_intr : bool) (addrs : option (list Z)) (Silent : pst -> Prop).
Hypothesis fd_fine : fd_ok fd = true.
Hypothesis HS : silent_client sock fd Silent.

(** a shutdown is pending and the client silent or closed *)
Definition stale o : Prop := shutdownPending o = true /\ Silent (plat o).

Lemma wp_silent_lock b o : stale o ->
  wp (blocking_call (sys_setlk sock b)) (fun r o' => r = 0 /\ stale o') o.
Proof.
  intros [Hsd Hk]. destruct (silent_lock _ _ _ HS b _ Hk) as (k' & E & Hk').
  unfold blocking_call. wp_steps. rewrite E. wp_steps. done.
Qed.

Lemma wp_silent_acquire fuel o : stale o ->
  wp (AcquireLock (S fuel) sock fail_on_intr) (fun r o' => r = 0 /\ stale o') o.
Proof.
  intros Hst. unfold AcquireLock. rewrite loop_unfold. wp_steps.
  wp_use wp_silent_lock; [done|]. intros r o' [-> Hst']. by wp_steps.
Qed.

Lemma wp_silent_release fuel o : stale o ->
  wp (ReleaseLock (S fuel) sock) (fun r o' => r = 0 /\ stale o') o.
Proof.
  intros Hst. unfold ReleaseLock. rewrite loop_unfold. wp_steps.
  wp_use wp_silent_lock; [done|]. intros r o' [-> Hst']. by wp_steps.
Qed.

Lemma wp_silent_keeper o : stale o ->
  wp (is_af_unix_keeper fd) (fun r o' => r = false /\ stale o') o.
Proof.
  intros [Hsd Hk]. destruct (silent_select _ _ _ HS _ Hk) as (r & R & W & k' & E & Hk' & HR).
  unfold is_af_unix_keeper, select_read, FD_SET, FD_ISSET. rewrite fd_fine. wp_steps.
  rewrite union_empty_r_L, E. wp_steps. destruct r as [v|e]; wp_steps; cbn [fst snd].
  - destruct (0 <=? v); wp_steps; [by rewrite bool_decide_eq_false_2|done].
  - change (0 <=? -1) with false. by wp_steps.
Qed.

Lemma wp_silent_close o : stale o -> wp (syscall (sys_close fd)) (fun _ o' => stale o') o.
Proof.
  intros [Hsd Hk]. apply wp_syscall. intros r k E.
  pose proof (silent_close _ _ _ HS _ _ _ Hk E). by destruct r.
Qed.

(** with a shutdown pending, the innermost loops keep the descriptor they find *)
Lemma wp_stale_client fuel sa o : sin_family sa = AF_UNIX -> stale o ->
  wp (loop (S fuel) (accept_client (S fuel) sock fail_on_intr addrs) (fd, sa))
     (fun r o' => r = Some (fd, sa) /\ stale o') o.
Proof.
  intros Hsa Hst. assert ((fd <? 0) = false) as Hfd by (unfold fd_ok in fd_fine; lia).
  rewrite loop_unfold. unfold accept_client, accept_retry. rewrite loop_unfold. wp_steps.
  rewrite (proj1 Hst). wp_steps. rewrite Hfd, Hsa. change (AF_UNIX =? AF_INET) with false.
  by wp_steps.
Qed.

(** the end of a turn: the client is dropped, and its descriptor kept *)
Lemma wp_drop_silent fuel sa o : sin_family sa = AF_UNIX -> stale o ->
  wp (rc <- ReleaseLock (S fuel) sock ;;
      if negb (rc =? 0) then ret (inr (-1))
      else if negb (sin_family sa =? AF_UNIX) then ret (inr fd)
      else
        keep <- is_af_unix_keeper fd ;;
        if (keep : bool) then ret (inr fd)
        else _ <- syscall (sys_close fd) ;; ret (inl (fd, sa)))
     (fun r o' => r = inl (fd, sa) /\ stale o') o.
Proof.
  intros Hsa Hst. wp_step. wp_use wp_silent_release; [done|]. intros _ o1 [-> Hst1].
  change (negb (0 =? 0)) with false. cbn match. rewrite Hsa, Z.eqb_refl. cbn [negb]. wp_step.
  wp_use wp_silent_keeper; [done|]. intros _ o2 [-> Hst2]. wp_step.
  wp_use wp_silent_close; [done|]. intros _ o3 Hst3. by wp_step.
Qed.

(** with a shutdown pending, the turn keeps the descriptor it has closed *)
Lemma wp_stale_turn fuel sa o : sin_family sa = AF_UNIX -> stale o ->
  wp (accept_turn (S fuel) sock fail_on_intr addrs (fd, sa))
     (fun r o' => r = inl (fd, sa) /\ stale o') o.
Proof.
  intros Hsa Hst. unfold accept_turn. wp_step. wp_use wp_silent_acquire; [done|].
  intros _ o1 [-> Hst1]. change (negb (0 =? 0)) with false. cbn match. wp_step.
  wp_use wp_stale_client; [done|done|]. intros _ o2 [-> Hst2]. by apply wp_drop_silent.
Qed.

Lemma accept_loop_stale fuel n sa o : sin_family sa = AF_UNIX -> stale o ->
  loop n (accept_turn (S fuel) sock fail_on_intr addrs) (fd, sa) o = Fault OutOfFuel.
Proof.
  intros Hsa. revert o. induction n as [|n IH]; intros o Hst; [done|].
  rewrite loop_unfold. apply bind_fault. wp_use wp_stale_turn; [done|done|].
  intros _ o' [-> Hst']. by apply IH.
Qed.

(** the turn in which the client arrives with the signal *)
Lemma wp_arrival_turn fuel v o : shutdownPending o = false -> silent_arrival sock fd Silent (plat o) ->
  wp (accept_turn (S fuel) sock fail_on_intr addrs v)
     (fun r o' => exists a, r = inl (fd, mkSockaddr AF_UNIX a) /\ stale o') o.
Proof.
  intros Hsd (k1 & a & k2 & E1 & E2 & Hk). unfold accept_turn, AcquireLock, blocking_call.
  assert ((fd <? 0) = false) as Hfd by (unfold fd_ok in fd_fine; lia).
  rewrite loop_unfold. wp_steps. rewrite E1. wp_steps.
  change (negb (0 =? -1)) with true. wp_steps. change (negb (0 =? 0)) with false. cbn match.
  rewrite loop_unfold. unfold accept_client at 1, accept_retry. rewrite loop_unfold. wp_steps.
  cbn [shutdownPending set_plat]. rewrite Hsd. unfold accept_call. wp_steps. cbn [plat set_plat].
  rewrite E2. unfold OS_Sigusr1Handler, OS_ShutdownPending. wp_steps. cbn [fst]. rewrite Hfd. cbn [andb].
  wp_steps. rewrite Hfd. change (negb (sin_family _ =? AF_INET)) with true. wp_steps.
  apply wp_bind_inv. eapply wp_mono; [by apply wp_drop_silent|].
  intros r o' [-> Hst]. by exists a.
Qed.

Lemma OS_Accept_stale fuel o :
  shutdownPending o = false -> silent_arrival sock fd Silent (plat o) ->
  OS_Accept fuel sock fail_on_intr addrs o = Fault OutOfFuel.
Proof.
  intros Hsd Harr. unfold OS_Accept. destruct fuel as [|fuel]; [done|].
  rewrite loop_unfold. apply bind_fault. wp_use wp_arrival_turn; [done|done|].
  intros _ o' (a & -> & Hst). by apply accept_loop_stale.
Qed.
End StaleSocket.

(** ** Queuing an operation *)

Section AsyncLemmas.
Context `{Reliable}.
Implicit Types o : OS.

(** the table has the size recorded for it *)
Definition table_ok o (t : list AioInfo) : Prop :=
  asyncIoTable (aio o) = Some t /\ asyncIoTableSize (aio o) = Z.of_nat (length t) /\
  t <> [].

(** only the table changed *)
Definition aio_grown o o' : Prop :=
  readFdSet (aio o') = readFdSet (aio o) /\ writeFdSet (aio o') = writeFdSet (aio o) /\
  maxFd (aio o') = maxFd (aio o).

Lemma wp_GrowAsyncTable t o : table_ok o t -> Z.of_nat (length t) <= 1048576 ->
  wp GrowAsyncTable (fun _ o' =>
    table_ok o' (t ++ replicate (length t) aio_zero) /\ aio_grown o o') o.
Proof.
  intros (Ht & Hs & Hne) Hmax. unfold GrowAsyncTable, get_aio, upd_aio. wp_steps. rewrite Hs.
  unfold int_op, int_range, INT_MIN, INT_MAX.
  replace (_ && _) with true by lia. wp_steps. cbn [plat set_aio].
  unfold sizeof_AioInfo.
  destruct (sys_malloc _ (plat o)) as [r k] eqn:E.
  destruct (malloc_law _ _ _ _ E ltac:(lia)) as (_ & _ & Ha). wp_steps.
  destruct r as [[a f]|]; [|by destruct no_fail]. wp_steps. cbn.
  rewrite Ht, Nat2Z.id. cbn. split; [|done].
  split; [done|]. cbn. rewrite length_app, length_replicate. split; [lia|].
  intros E'. by apply app_eq_nil in E' as [? _].
Qed.

(** [while (index >= asyncIoTableSize) GrowAsyncTable()] ends with a table
    that has the entry and all the old ones *)
Lemma wp_grow_to fuel index t o : table_ok o t -> 0 <= index < 1048576 ->
  index + 1 < Z.of_nat fuel ->
  wp (grow_to fuel index) (fun _ o' => exists n,
    table_ok o' (t ++ replicate n aio_zero) /\ aio_grown o o' /\
    index < Z.of_nat (length t + n)) o.
Proof.
  intros Ht Hi Hf. unfold grow_to.
  apply (wp_loop (fun m (_ : unit) o1 => exists n,
    table_ok o1 (t ++ replicate n aio_zero) /\ aio_grown o o1 /\
    m = Z.to_nat (index + 1 - Z.of_nat (length t + n)))
    _ _ _ (Z.to_nat (index + 1 - Z.of_nat (length t + 0)))).
  - intros m [] o1 (n & Ht1 & Hg1 & ->). unfold get_aio. wp_steps.
    pose proof Ht1 as (_ & Hs1 & Hne). rewrite Hs1, length_app, length_replicate.
    apply wp_if; intros Hb.
    + apply Z.leb_le in Hb. wp_step. wp_use (wp_GrowAsyncTable (t ++ replicate n aio_zero)).
      { done. } { rewrite length_app, length_replicate. lia. }
      intros _ o2 [Ht2 Hg2]. wp_step. rewrite length_app, length_replicate in Ht2.
      rewrite <- app_assoc, <- replicate_add in Ht2.
      assert (0 < length t + n)%nat.
      { destruct t; [destruct n; [done|cbn; lia]|cbn; lia]. }
      exists (Z.to_nat (index + 1 - Z.of_nat (length t + (n + (length t + n))))).
      split; [lia|]. exists (n + (length t + n))%nat. split; [done|]. split; [|done].
      unfold aio_grown in *. intuition congruence.
    + apply Z.leb_gt in Hb. wp_step. exists n. split; [done|]. split; [done|]. lia.
  - lia.
  - exists O. rewrite app_nil_r. split; [done|]. split; [done|]. lia.
Qed.

(** [OS_AsyncRead] queues the operation in an entry of its own, whatever the
    size of the table, and keeps the other entries. *)
Lemma wp_OS_AsyncRead fuel fd offset buf n proc cd t o :
  table_ok o t -> fd_ok fd = true -> fd * 2 + 1 < Z.of_nat fuel ->
  (forall e, t !! Z.to_nat (AIO_RD_IX fd) = Some e -> inUse e = false) ->
  wp (OS_AsyncRead fuel fd offset buf n proc cd) (fun r o' => r = 0 /\ exists t',
    asyncIoTable (aio o') = Some t' /\
    t' !! Z.to_nat (AIO_RD_IX fd) = Some (mkAioInfo proc cd fd n offset buf true) /\
    (forall i e, i <> Z.to_nat (AIO_RD_IX fd) -> t !! i = Some e -> t' !! i = Some e) /\
    readFdSet (aio o') = {[fd]} ∪ readFdSet (aio o) /\
    maxFd (aio o') = Z.max (maxFd (aio o)) fd) o.
Proof.
  intros (Ht & Hs & Hne) Hfd Hf Hfree. unfold fd_ok, FD_SETSIZE, AIO_RD_IX in *.
  pose proof Hfd as Hrange. apply andb_prop in Hrange as [H0fd%Z.leb_le H1fd%Z.ltb_lt].
  unfold OS_AsyncRead, get_aio, upd_aio, AIO_RD_IX. wp_steps.
  apply wp_assert; [by rewrite Ht|]. wp_steps.
  apply (wp_mono _ (fun _ o1 => table_ok o1 t /\ readFdSet (aio o1) = readFdSet (aio o) /\
           maxFd (aio o1) = Z.max (maxFd (aio o)) fd)).
  { apply wp_if; intros Hm; wp_steps; cbn; split_and!; try done; lia. }
  intros _ o1 (Ht1 & Hr1 & Hm1). wp_step.
  wp_use wp_grow_to; [exact Ht1|lia|lia|].
  intros _ o2 (k & (Ht2 & _ & _) & (Hr2 & _ & Hm2) & Hlt). wp_step.
  set (ix := Z.to_nat (fd * 2)) in *.
  destruct (lookup_lt_is_Some_2 (t ++ replicate k aio_zero) ix) as [e He].
  { rewrite length_app, length_replicate. lia. }
  assert (inUse e = false) as Hu.
  { apply lookup_app_Some in He as [He|[_ He]]; [by apply Hfree|].
    by apply lookup_replicate_1 in He as [-> _]. }
  assert (forall Q : AioInfo -> OS -> Prop, Q e o2 -> wp (aio_entry (fd * 2)) Q o2) as Hentry.
  { intros Q HQ. unfold aio_entry, get_aio. wp_steps. rewrite Ht2.
    eapply wp_of_option; [done|]. replace (0 <=? fd * 2) with true by lia.
    by eapply wp_of_option. }
  unfold post_entry. wp_step. apply Hentry. rewrite Hu. wp_step.
  apply wp_assert; [done|]. unfold aio_store, upd_aio. wp_step. apply Hentry. wp_steps.
  unfold FD_SET, fd_ok, FD_SETSIZE. rewrite Hfd. wp_steps. cbn. rewrite Ht2. cbn.
  split; [done|]. eexists. split; [done|]. fold ix.
  split; [by apply list_lookup_insert_eq; apply lookup_lt_Some in He|].
  split; [|split; congruence].
  intros i e' Hi He'. rewrite list_lookup_insert_ne by done. by apply lookup_app_l_Some.
Qed.
End AsyncLemmas.
