(* ===== verification/Params.v ===== *)
(** * The parameter vector of a request

    [Params] of [fcgiapp.c]: a growable vector of pointers to NUL-terminated
    "name=value" strings, itself terminated by a null pointer, and
    [FCGX_GetParam], which searches it the way [getenv] does. *)

From S2P Require Import Prelude CString Protocol Platform.

(** ** Data *)

(** a cell of the vector: never written, the null pointer, or a pointer to the
    given object *)
Inductive cell :=
  | Undef
  | Null
  | Str (s : list Z).

(** [vec] is the allocated vector, [cur] the offset of the current item *)
Record Params := mkParams {
  vec : list cell;
  length_ : Z;
  cur : Z
}.

Definition cell_write {S} (v : list cell) (i : Z) (c : cell) : M S (list cell) :=
  if (0 <=? i) && (i <? Z.of_nat (length v)) then ret (<[Z.to_nat i := c]> v) else undef.

(** ** Operations *)

Section Operations.
Context `{Platform}.

Definition NewParams (n : Z) : M OS Params :=
  _ <- Malloc 24 ;;
  _ <- Malloc (n * 8) ;;
  v <- cell_write (replicate (Z.to_nat n) Undef) 0 Null ;;
  ret (mkParams v n 0).

(** [free] gives back the strings up to [cur], the vector and the structure;
    the caller's pointer becomes null *)
Definition FreeParams (p : option Params) : M OS (option Params) :=
  match p with
  | None => ret None
  | Some p =>
      if forallb (fun c => match c with Undef => false | _ => true end)
           (take (Z.to_nat (cur p)) (vec p))
      then ret None else undef
  end.

(** [realloc] of the vector; a failure would leave a null vector, which the
    next statement writes through *)
Definition realloc_vec (v : list cell) (n : Z) : M OS (list cell) :=
  o <- get ;;
  let (r, k) := sys_malloc (n * 8) (plat o) in
  modify (set_plat k) ;;;
  match r with
  | Some _ => ret (take (Z.to_nat n) v ++ replicate (Z.to_nat n - length v) Undef)
  | None => undef
  end.

Definition PutParam (p : Params) (nameValue : list Z) : M OS Params :=
  v <- cell_write (vec p) (cur p) (Str nameValue) ;;
  let size := cur p + 1 in
  vl <- (if length_ p <=? size then
           l <- int_op (length_ p * 2) ;;
           v' <- realloc_vec v l ;;
           ret (v', l)
         else ret (v, length_ p)) ;;
  v'' <- cell_write (fst vl) size Null ;;
  ret (mkParams v'' (snd vl) size).

End Operations.

(** [FCGX_GetParam] on non-null arguments: the outer option is the absence of
    undefined behaviour, the inner one the pointer returned *)
Fixpoint GetParam_loop (name : list Z) (n : nat) (envp : list cell)
    : option (option (list Z)) :=
  match envp with
  | [] | Undef :: _ => None
  | Null :: _ => Some None
  | Str s :: envp' =>
      match strncmp n name s with
      | None => None
      | Some d =>
          if d =? 0 then
            match s !! n with
            | None => None
            | Some c => if c =? 61 then Some (Some (drop (S n) s))
                        else GetParam_loop name n envp'
            end
          else GetParam_loop name n envp'
      end
  end.

Definition FCGX_GetParam (name : option (list Z)) (envp : option (list cell))
    : option (option (list Z)) :=
  match name, envp with
  | Some name, Some envp =>
      match strlen name with
      | Some n => GetParam_loop name (Z.to_nat n) envp
      | None => None
      end
  | _, _ => Some None
  end.

(** ** Specification: an environment is a list of name/value pairs *)

(** the object [ReadParams] builds for a pair *)
Definition param_string (nv : list Z * list Z) : list Z :=
  fst nv ++ [61] ++ snd nv ++ [0].

(** the vector holds the strings [l], is null-terminated, and has room *)
Definition params_repr (p : Params) (l : list (list Z)) : Prop :=
  exists rest, vec p = map Str l ++ Null :: rest /\
    Z.of_nat (length (vec p)) = length_ p /\ cur p = Z.of_nat (length l).

(** the value of the first pair with the given name *)
Fixpoint env_lookup (name : list Z) (env : list (list Z * list Z)) : option (list Z) :=
  match env with
  | [] => None
  | (k, v) :: env' => if decide (k = name) then Some v else env_lookup name env'
  end.

(** a pair as a web server sends it: no NUL, and no '=' in the name *)
Definition pair_ok (nv : list Z * list Z) : Prop :=
  no_nul (fst nv) /\ Forall (fun c => c <> 61) (fst nv) /\ no_nul (snd nv).

(** ** Lemmas *)

Lemma wp_cell_write {S} v i c (Q : list cell -> S -> Prop) s :
  0 <= i < Z.of_nat (length v) -> Q (<[Z.to_nat i := c]> v) s ->
  wp (cell_write v i c) Q s.
Proof.
  intros. unfold cell_write.
  replace ((0 <=? i) && (i <? Z.of_nat (length v))) with true by lia.
  by apply wp_ret.
Qed.

Lemma insert_middle {A} (l : list A) x y r n :
  n = length l -> <[n := y]> (l ++ x :: r) = l ++ y :: r.
Proof. intros ->. by rewrite insert_app_r_alt, Nat.sub_diag by lia. Qed.

Section Lemmas.
Context `{Reliable}.
Implicit Types o : OS.

(** A new vector is empty. *)
Lemma wp_NewParams n o : 0 < n <= 1073741824 ->
  wp (NewParams n) (fun p o' => params_repr p [] /\ length_ p = n /\ os_quiet o o') o.
Proof.
  intros Hn. unfold NewParams. wp_step. wp_use wp_Malloc; [lia|]. intros _ o1 [Hq1 _].
  wp_step. wp_use wp_Malloc; [lia|]. intros _ o2 [Hq2 _]. wp_step.
  apply wp_cell_write; [rewrite length_replicate; lia|]. wp_steps. cbn.
  split; [|split; [done|by transitivity o1]].
  destruct (Z.to_nat n) as [|m] eqn:E; [lia|].
  exists (replicate m Undef). change (Z.to_nat 0) with O. cbn.
  rewrite length_replicate. split; [done|lia].
Qed.

Lemma wp_realloc_vec v n o : (length v <= Z.to_nat n)%nat -> 0 <= n <= INT_MAX ->
  wp (realloc_vec v n)
     (fun v' o' => v' = v ++ replicate (Z.to_nat n - length v) Undef /\ os_quiet o o') o.
Proof.
  intros Hn Hmax. unfold realloc_vec, INT_MAX in *. wp_steps.
  destruct (sys_malloc (n * 8) (plat o)) as [r k] eqn:E.
  destruct (malloc_law _ _ _ _ E ltac:(lia)) as (Hi & Ho & Ha).
  wp_steps. destruct r as [[a f]|]; [|by destruct no_fail]. wp_steps.
  split; [by rewrite take_ge|].
  by apply os_quiet_plat; [apply (malloc_files _ _ _ _ E)|..].
Qed.

(** [PutParam] appends its string and keeps the vector null-terminated; the
    doubled length must fit an [int]. *)
Lemma wp_PutParam p l s o :
  params_repr p l -> length_ p <= 1073741823 ->
  wp (PutParam p s)
     (fun p' o' => params_repr p' (l ++ [s]) /\ os_quiet o o' /\
        length_ p' = (if length_ p <=? Z.of_nat (length l) + 1
                      then length_ p * 2 else length_ p)) o.
Proof.
  intros (rest & Hv & Hl & Hc) Hmax. unfold PutParam.
  rewrite Hv, length_app, length_map in Hl. cbn [length] in Hl. wp_step.
  apply wp_cell_write; [rewrite Hv, length_app, length_map; cbn [length]; lia|].
  rewrite Hv, insert_middle by (rewrite length_map; lia).
  replace (map Str l ++ Str s :: rest) with (map Str (l ++ [s]) ++ rest)
    by (by rewrite map_app, <- app_assoc).
  rewrite Hc. wp_step. apply wp_if; intros Hb.
  - wp_step. unfold int_op, int_range, INT_MIN, INT_MAX.
    replace (_ && _) with true by lia. wp_steps.
    wp_use wp_realloc_vec.
    { rewrite length_app, length_map, length_app. cbn [length]. lia. }
    { unfold INT_MAX. lia. }
    intros v' o' [-> Hq]. wp_steps. cbn [fst snd].
    assert (rest = []) as -> by (apply length_zero_iff_nil; lia).
    rewrite app_nil_r, length_map, length_app. cbn [length].
    destruct (Z.to_nat (length_ p * 2) - (length l + 1))%nat as [|m] eqn:Em; [lia|].
    apply wp_cell_write.
    { rewrite length_app, length_map, length_app, length_replicate. cbn [length]. lia. }
    wp_steps. cbn [replicate].
    rewrite insert_middle by (rewrite length_map, length_app; cbn [length]; lia).
    split; [|split; [done|]].
    + exists (replicate m Undef). cbn [vec length_ cur].
      rewrite !length_app, length_map, !length_app. cbn [length].
      rewrite length_replicate. split; [done|]. lia.
    + cbn. by replace (length_ p <=? _) with true by lia.
  - wp_steps. cbn [fst snd].
    destruct rest as [|c rest]; [cbn [length] in Hl; lia|]. cbn [length] in Hl.
    apply wp_cell_write.
    { rewrite length_app, length_map, length_app. cbn [length]. lia. }
    wp_steps.
    rewrite insert_middle by (rewrite length_map, length_app; cbn [length]; lia).
    split; [|split; [done|]].
    + exists rest. cbn [vec length_ cur].
      rewrite length_app, length_map, !length_app. cbn [length]. split; [done|]. lia.
    + cbn. by replace (length_ p <=? _) with false by lia.
Qed.

Lemma wp_FreeParams p l o : params_repr p l ->
  wp (FreeParams (Some p)) (fun r o' => r = None /\ o' = o) o.
Proof.
  intros (rest & Hv & _ & Hc). unfold FreeParams. rewrite Hv, Hc, Nat2Z.id.
  rewrite take_app_length' by (by rewrite length_map).
  replace (forallb _ _) with true; [by apply wp_ret|].
  clear Hv Hc. by induction l as [|x l IH].
Qed.
End Lemmas.

Lemma param_string_lookup k v : param_string (k, v) !! length k = Some 61.
Proof. unfold param_string. cbn. by rewrite list_lookup_middle. Qed.

Lemma no_nul_eq name : Forall (fun c => c <> 61) name ->
  forall k v t, no_nul k -> Forall (fun c => c <> 61) k ->
  k ++ 61 :: v = name ++ t -> (exists u, t = 61 :: u) -> k = name.
Proof.
  induction name as [|x name IH]; intros Hx k v t Hk Hk' He [u ->].
  - destruct k as [|y k]; [done|]. rewrite Forall_cons in Hk'. cbn in He.
    injection He as ? ?. lia.
  - rewrite Forall_cons in Hx. destruct k as [|y k].
    + cbn in He. injection He as ? ?. lia.
    + rewrite no_nul_cons in Hk. rewrite Forall_cons in Hk'. cbn in He.
      injection He as -> He. f_equal.
      eapply IH; [tauto| | |exact He|by exists u]; tauto.
Qed.

(** One step of the search: it stops at the pair exactly when the names agree. *)
Lemma GetParam_loop_step name k v envp :
  no_nul name -> Forall (fun c => c <> 61) name -> pair_ok (k, v) ->
  GetParam_loop (c_str name) (length name) (Str (param_string (k, v)) :: envp) =
  if decide (k = name) then Some (Some (v ++ [0]))
  else GetParam_loop (c_str name) (length name) envp.
Proof.
  intros Hn Hne (Hk & Hke & Hv). cbn [GetParam_loop].
  assert (In 0 (param_string (k, v))) as Hin.
  { unfold param_string. rewrite !in_app_iff. cbn. tauto. }
  destruct (strncmp_prefix_inv name (param_string (k, v)) Hn Hin) as (d & He & Hd).
  unfold c_str. rewrite He.
  destruct (decide (k = name)) as [->|Hne'].
  - replace (d =? 0) with true by (symmetry; apply Z.eqb_eq, Hd; by eexists).
    rewrite param_string_lookup, Z.eqb_refl. unfold param_string. cbn.
    do 2 f_equal. rewrite cons_middle, app_assoc.
    apply drop_app_length'. rewrite length_app. cbn. lia.
  - destruct (Z.eqb_spec d 0) as [Hz|]; [|done].
    apply Hd in Hz as [t Ht]. rewrite Ht.
    destruct t as [|c t].
    { exfalso. rewrite app_nil_r in Ht. rewrite Ht in Hin. unfold no_nul in Hn.
      rewrite List.Forall_forall in Hn. by apply (Hn 0). }
    rewrite list_lookup_middle by done.
    destruct (Z.eqb_spec c 61) as [->|]; [|done].
    exfalso. apply Hne'. unfold param_string in Ht. cbn in Ht.
    eapply no_nul_eq; [exact Hne| | |exact Ht|by exists t]; done.
Qed.

(** The search finds the first pair with the name asked for. *)
Lemma GetParam_loop_spec name env rest :
  no_nul name -> Forall (fun c => c <> 61) name -> Forall pair_ok env ->
  GetParam_loop (c_str name) (length name) (map (fun nv => Str (param_string nv)) env ++ Null :: rest) =
  Some ((fun v => v ++ [0]) <$> env_lookup name env).
Proof.
  intros Hn Hne. induction env as [|[k v] env IH]; intros He; [done|].
  rewrite Forall_cons in He. destruct He as [Hkv He].
  cbn [map app]. rewrite GetParam_loop_step by done. cbn [env_lookup].
  destruct (decide (k = name)); [done|by apply IH].
Qed.

(** [FCGX_GetParam] on the vector of an environment *)
Lemma GetParam_env name env p :
  no_nul name -> Forall (fun c => c <> 61) name -> Forall pair_ok env ->
  params_repr p (map param_string env) ->
  FCGX_GetParam (Some (c_str name)) (Some (vec p)) =
  Some ((fun v => v ++ [0]) <$> env_lookup name env).
Proof.
  intros Hn Hne He (rest & -> & _). cbn. rewrite strlen_c_str by done.
  unfold len. rewrite Nat2Z.id, map_map. by apply GetParam_loop_spec.
Qed.
