(* ===== verification/Stream.v ===== *)
(** * Streams and requests

    The structures [FCGX_Stream], [FCGX_Stream_Data] and [FCGX_Request], and
    the operations of [fcgiapp.c] that only look at a stream's status.  A
    stream's buffer is the list of bytes from [data->buff] on, and the stream's
    pointers ([rdNext], [wrNext], [stop], [stopUnget], [buffStop]) are offsets
    into it.  A stream operation runs on an [SState]: the stream, the request
    it belongs to (its [reqDataPtr]) and the operating-system layer. *)

From S2P Require Import Prelude CString Protocol Platform Params.

(** ** Data *)

Record FCGX_Stream_Data := mkData {
  buff : list Z;
  bufflen : Z;
  mBuff : Z;
  buffStop : Z;
  type : Z;
  eorStop : bool;
  skip : bool;
  contentLen : Z;
  paddingLen : Z;
  isAnythingWritten : bool;
  rawWrite : bool
}.

(** one-field updates of [FCGX_Stream_Data] *)
Definition set_buff (v : list Z) (x : FCGX_Stream_Data) : FCGX_Stream_Data :=
    mkData v (bufflen x) (mBuff x) (buffStop x) (type x) (eorStop x) (skip x)
    (contentLen x) (paddingLen x) (isAnythingWritten x) (rawWrite x).
Definition set_bufflen (v : Z) (x : FCGX_Stream_Data) : FCGX_Stream_Data :=
    mkData (buff x) v (mBuff x) (buffStop x) (type x) (eorStop x) (skip x) (contentLen
    x) (paddingLen x) (isAnythingWritten x) (rawWrite x).
Definition set_mBuff (v : Z) (x : FCGX_Stream_Data) : FCGX_Stream_Data :=
    mkData (buff x) (bufflen x) v (buffStop x) (type x) (eorStop x) (skip x) (contentLen
    x) (paddingLen x) (isAnythingWritten x) (rawWrite x).
Definition set_buffStop (v : Z) (x : FCGX_Stream_Data) : FCGX_Stream_Data :=
    mkData (buff x) (bufflen x) (mBuff x) v (type x) (eorStop x) (skip x) (contentLen x)
    (paddingLen x) (isAnythingWritten x) (rawWrite x).
Definition set_type (v : Z) (x : FCGX_Stream_Data) : FCGX_Stream_Data :=
    mkData (buff x) (bufflen x) (mBuff x) (buffStop x) v (eorStop x) (skip x)
    (contentLen x) (paddingLen x) (isAnythingWritten x) (rawWrite x).
Definition set_eorStop (v : bool) (x : FCGX_Stream_Data) : FCGX_Stream_Data :=
    mkData (buff x) (bufflen x) (mBuff x) (buffStop x) (type x) v (skip x) (contentLen
    x) (paddingLen x) (isAnythingWritten x) (rawWrite x).
Definition set_skip (v : bool) (x : FCGX_Stream_Data) : FCGX_Stream_Data :=
    mkData (buff x) (bufflen x) (mBuff x) (buffStop x) (type x) (eorStop x) v
    (contentLen x) (paddingLen x) (isAnythingWritten x) (rawWrite x).
Definition set_contentLen (v : Z) (x : FCGX_Stream_Data) : FCGX_Stream_Data :=
    mkData (buff x) (bufflen x) (mBuff x) (buffStop x) (type x) (eorStop x) (skip x) v
    (paddingLen x) (isAnythingWritten x) (rawWrite x).
Definition set_paddingLen (v : Z) (x : FCGX_Stream_Data) : FCGX_Stream_Data :=
    mkData (buff x) (bufflen x) (mBuff x) (buffStop x) (type x) (eorStop x) (skip x)
    (contentLen x) v (isAnythingWritten x) (rawWrite x).
Definition set_isAnythingWritten (v : bool) (x : FCGX_Stream_Data) : FCGX_Stream_Data :=
    mkData (buff x) (bufflen x) (mBuff x) (buffStop x) (type x) (eorStop x) (skip x)
    (contentLen x) (paddingLen x) v (rawWrite x).
Definition set_rawWrite (v : bool) (x : FCGX_Stream_Data) : FCGX_Stream_Data :=
    mkData (buff x) (bufflen x) (mBuff x) (buffStop x) (type x) (eorStop x) (skip x)
    (contentLen x) (paddingLen x) (isAnythingWritten x) v.


(** the procedures a stream's [fillBuffProc] and [emptyBuffProc] may point to *)
Inductive buff_proc :=
  | NullProc
  | FillBuffProc_ptr
  | EmptyBuffProc_ptr.

Record FCGX_Stream := mkStream {
  rdNext : Z;
  wrNext : Z;
  stop : Z;
  stopUnget : option Z;
  isReader : bool;
  isClosed : bool;
  wasFCloseCalled : bool;
  FCGI_errno : Z;
  fillBuffProc : buff_proc;
  emptyBuffProc : buff_proc;
  data : FCGX_Stream_Data
}.

(** one-field updates of [FCGX_Stream] *)
Definition set_rdNext (v : Z) (x : FCGX_Stream) : FCGX_Stream :=
    mkStream v (wrNext x) (stop x) (stopUnget x) (isReader x) (isClosed x)
    (wasFCloseCalled x) (FCGI_errno x) (fillBuffProc x) (emptyBuffProc x) (data x).
Definition set_wrNext (v : Z) (x : FCGX_Stream) : FCGX_Stream :=
    mkStream (rdNext x) v (stop x) (stopUnget x) (isReader x) (isClosed x)
    (wasFCloseCalled x) (FCGI_errno x) (fillBuffProc x) (emptyBuffProc x) (data x).
Definition set_stop (v : Z) (x : FCGX_Stream) : FCGX_Stream :=
    mkStream (rdNext x) (wrNext x) v (stopUnget x) (isReader x) (isClosed x)
    (wasFCloseCalled x) (FCGI_errno x) (fillBuffProc x) (emptyBuffProc x) (data x).
Definition set_stopUnget (v : option Z) (x : FCGX_Stream) : FCGX_Stream :=
    mkStream (rdNext x) (wrNext x) (stop x) v (isReader x) (isClosed x) (wasFCloseCalled
    x) (FCGI_errno x) (fillBuffProc x) (emptyBuffProc x) (data x).
Definition set_isReader (v : bool) (x : FCGX_Stream) : FCGX_Stream :=
    mkStream (rdNext x) (wrNext x) (stop x) (stopUnget x) v (isClosed x)
    (wasFCloseCalled x) (FCGI_errno x) (fillBuffProc x) (emptyBuffProc x) (data x).
Definition set_isClosed (v : bool) (x : FCGX_Stream) : FCGX_Stream :=
    mkStream (rdNext x) (wrNext x) (stop x) (stopUnget x) (isReader x) v
    (wasFCloseCalled x) (FCGI_errno x) (fillBuffProc x) (emptyBuffProc x) (data x).
Definition set_wasFCloseCalled (v : bool) (x : FCGX_Stream) : FCGX_Stream :=
    mkStream (rdNext x) (wrNext x) (stop x) (stopUnget x) (isReader x) (isClosed x) v
    (FCGI_errno x) (fillBuffProc x) (emptyBuffProc x) (data x).
Definition set_FCGI_errno (v : Z) (x : FCGX_Stream) : FCGX_Stream :=
    mkStream (rdNext x) (wrNext x) (stop x) (stopUnget x) (isReader x) (isClosed x)
    (wasFCloseCalled x) v (fillBuffProc x) (emptyBuffProc x) (data x).
Definition set_fillBuffProc (v : buff_proc) (x : FCGX_Stream) : FCGX_Stream :=
    mkStream (rdNext x) (wrNext x) (stop x) (stopUnget x) (isReader x) (isClosed x)
    (wasFCloseCalled x) (FCGI_errno x) v (emptyBuffProc x) (data x).
Definition set_emptyBuffProc (v : buff_proc) (x : FCGX_Stream) : FCGX_Stream :=
    mkStream (rdNext x) (wrNext x) (stop x) (stopUnget x) (isReader x) (isClosed x)
    (wasFCloseCalled x) (FCGI_errno x) (fillBuffProc x) v (data x).
Definition set_data (v : FCGX_Stream_Data) (x : FCGX_Stream) : FCGX_Stream :=
    mkStream (rdNext x) (wrNext x) (stop x) (stopUnget x) (isReader x) (isClosed x)
    (wasFCloseCalled x) (FCGI_errno x) (fillBuffProc x) (emptyBuffProc x) v.


(** [envp] is null or points to the vector of [paramsPtr] *)
Inductive env_ptr :=
  | EnvNull
  | EnvParams.

(** [in_], [out] and [err] are null or the address of a stream *)
Record FCGX_Request := mkRequest {
  requestId : Z;
  role : Z;
  in_ : option positive;
  out : option positive;
  err : option positive;
  envp : env_ptr;
  paramsPtr : option Params;
  ipcFd : Z;
  isBeginProcessed : bool;
  keepConnection : Z;
  appStatus : Z;
  nWriters : Z;
  flags : Z;
  listen_sock : Z
}.

(** one-field updates of [FCGX_Request] *)
Definition set_requestId (v : Z) (x : FCGX_Request) : FCGX_Request :=
    mkRequest v (role x) (in_ x) (out x) (err x) (envp x) (paramsPtr x) (ipcFd x)
    (isBeginProcessed x) (keepConnection x) (appStatus x) (nWriters x) (flags x)
    (listen_sock x).
Definition set_role (v : Z) (x : FCGX_Request) : FCGX_Request :=
    mkRequest (requestId x) v (in_ x) (out x) (err x) (envp x) (paramsPtr x) (ipcFd x)
    (isBeginProcessed x) (keepConnection x) (appStatus x) (nWriters x) (flags x)
    (listen_sock x).
Definition set_in_ (v : option positive) (x : FCGX_Request) : FCGX_Request :=
    mkRequest (requestId x) (role x) v (out x) (err x) (envp x) (paramsPtr x) (ipcFd x)
    (isBeginProcessed x) (keepConnection x) (appStatus x) (nWriters x) (flags x)
    (listen_sock x).
Definition set_out (v : option positive) (x : FCGX_Request) : FCGX_Request :=
    mkRequest (requestId x) (role x) (in_ x) v (err x) (envp x) (paramsPtr x) (ipcFd x)
    (isBeginProcessed x) (keepConnection x) (appStatus x) (nWriters x) (flags x)
    (listen_sock x).
Definition set_err (v : option positive) (x : FCGX_Request) : FCGX_Request :=
    mkRequest (requestId x) (role x) (in_ x) (out x) v (envp x) (paramsPtr x) (ipcFd x)
    (isBeginProcessed x) (keepConnection x) (appStatus x) (nWriters x) (flags x)
    (listen_sock x).
Definition set_envp (v : env_ptr) (x : FCGX_Request) : FCGX_Request :=
    mkRequest (requestId x) (role x) (in_ x) (out x) (err x) v (paramsPtr x) (ipcFd x)
    (isBeginProcessed x) (keepConnection x) (appStatus x) (nWriters x) (flags x)
    (listen_sock x).
Definition set_paramsPtr (v : option Params) (x : FCGX_Request) : FCGX_Request :=
    mkRequest (requestId x) (role x) (in_ x) (out x) (err x) (envp x) v (ipcFd x)
    (isBeginProcessed x) (keepConnection x) (appStatus x) (nWriters x) (flags x)
    (listen_sock x).
Definition set_ipcFd (v : Z) (x : FCGX_Request) : FCGX_Request :=
    mkRequest (requestId x) (role x) (in_ x) (out x) (err x) (envp x) (paramsPtr x) v
    (isBeginProcessed x) (keepConnection x) (appStatus x) (nWriters x) (flags x)
    (listen_sock x).
Definition set_isBeginProcessed (v : bool) (x : FCGX_Request) : FCGX_Request :=
    mkRequest (requestId x) (role x) (in_ x) (out x) (err x) (envp x) (paramsPtr x)
    (ipcFd x) v (keepConnection x) (appStatus x) (nWriters x) (flags x) (listen_sock x).
Definition set_keepConnection (v : Z) (x : FCGX_Request) : FCGX_Request :=
    mkRequest (requestId x) (role x) (in_ x) (out x) (err x) (envp x) (paramsPtr x)
    (ipcFd x) (isBeginProcessed x) v (appStatus x) (nWriters x) (flags x) (listen_sock
    x).
Definition set_appStatus (v : Z) (x : FCGX_Request) : FCGX_Request :=
    mkRequest (requestId x) (role x) (in_ x) (out x) (err x) (envp x) (paramsPtr x)
    (ipcFd x) (isBeginProcessed x) (keepConnection x) v (nWriters x) (flags x)
    (listen_sock x).
Definition set_nWriters (v : Z) (x : FCGX_Request) : FCGX_Request :=
    mkRequest (requestId x) (role x) (in_ x) (out x) (err x) (envp x) (paramsPtr x)
    (ipcFd x) (isBeginProcessed x) (keepConnection x) (appStatus x) v (flags x)
    (listen_sock x).
Definition set_flags (v : Z) (x : FCGX_Request) : FCGX_Request :=
    mkRequest (requestId x) (role x) (in_ x) (out x) (err x) (envp x) (paramsPtr x)
    (ipcFd x) (isBeginProcessed x) (keepConnection x) (appStatus x) (nWriters x) v
    (listen_sock x).
Definition set_listen_sock (v : Z) (x : FCGX_Request) : FCGX_Request :=
    mkRequest (requestId x) (role x) (in_ x) (out x) (err x) (envp x) (paramsPtr x)
    (ipcFd x) (isBeginProcessed x) (keepConnection x) (appStatus x) (nWriters x) (flags
    x) v.


Section State.
Context `{Platform}.

Record SState := mkSState {
  stm : FCGX_Stream;
  rq : FCGX_Request;
  os : OS
}.

(** one-field updates of [SState] *)
Definition set_stm (v : FCGX_Stream) (x : SState) : SState :=
  mkSState v (rq x) (os x).
Definition set_rq (v : FCGX_Request) (x : SState) : SState :=
  mkSState (stm x) v (os x).
Definition set_os (v : OS) (x : SState) : SState :=
  mkSState (stm x) (rq x) v.


(** ** Access to the parts of the state *)

Definition get_stm : M SState FCGX_Stream := gets stm.
Definition get_data : M SState FCGX_Stream_Data := gets (fun s => data (stm s)).
Definition get_rq : M SState FCGX_Request := gets rq.
Definition upd_stm (f : FCGX_Stream -> FCGX_Stream) : M SState unit :=
  modify (fun s => set_stm (f (stm s)) s).
Definition upd_data (f : FCGX_Stream_Data -> FCGX_Stream_Data) : M SState unit :=
  upd_stm (fun st => set_data (f (data st)) st).
Definition upd_rq (f : FCGX_Request -> FCGX_Request) : M SState unit :=
  modify (fun s => set_rq (f (rq s)) s).
Definition lift_os {A} (m : M OS A) : M SState A := zoom os set_os m.

(** [OS_Errno] *)
Definition get_errno : M SState Z := gets (fun s => errno (os s)).

(** [memcpy] from and to the stream's buffer *)
Definition buff_read (off n : Z) : M SState (list Z) :=
  d <- get_data ;; mem_read (buff d) off n.
Definition buff_write (off : Z) (bs : list Z) : M SState unit :=
  d <- get_data ;;
  b <- mem_write (buff d) off bs ;;
  upd_data (set_buff b).

(** ** Status operations *)

Definition FCGX_HasSeenEOF : M SState Z :=
  st <- get_stm ;; ret (if isClosed st then EOF else 0).

(** only the first error is kept *)
Definition SetError (e : Z) : M SState unit :=
  st <- get_stm ;;
  (when FCGI_errno st =? 0 do upd_stm (set_FCGI_errno e)) ;;;
  upd_stm (set_isClosed true).

Definition FCGX_GetError : M SState Z :=
  st <- get_stm ;; ret (FCGI_errno st).

Definition FCGX_ClearError : M SState unit := upd_stm (set_FCGI_errno 0).

Definition FCGX_SetExitStatus (status : Z) : M SState unit :=
  upd_rq (set_appStatus status).

(** ** Creation *)

(** the buffer's length as asked for, at least 32 and at most the length of
    the largest record, rounded up to a multiple of 8 *)
Definition stream_bufflen (n : Z) : Z :=
  AlignInt8 (Z.min (Z.max n 32) (FCGI_MAX_LENGTH + 1)).

Definition NewStream (n : Z) (reader : bool) (streamType : Z) : M OS FCGX_Stream :=
  _ <- Malloc 88 ;;
  _ <- Malloc 72 ;;
  let bufflen_p := stream_bufflen n in
  assert ((0 <=? bufflen_p) && (bufflen_p <=? INT_MAX)) ;;;
  blk <- Malloc bufflen_p ;;
  let (m, fill) := (blk : Z * (Z -> Z)) in
  let b := AlignPtr8 m in
  let bl := if b =? m then bufflen_p else bufflen_p - 8 in
  let mem := (fun i => UCHAR (fill (Z.of_nat i))) <$> seq 0 (Z.to_nat (bufflen_p - (b - m))) in
  let d := {| buff := mem; bufflen := bl; mBuff := m;
              buffStop := if reader then 0 else bl;
              type := streamType; eorStop := false; skip := false;
              contentLen := 0; paddingLen := 0;
              isAnythingWritten := false; rawWrite := false |} in
  ret (if reader then
         {| rdNext := 0; stop := 0; stopUnget := Some 0; wrNext := 0;
            isReader := true; isClosed := false; wasFCloseCalled := false;
            FCGI_errno := 0; fillBuffProc := FillBuffProc_ptr;
            emptyBuffProc := NullProc; data := d |}
       else
         {| wrNext := 8; stop := bl; stopUnget := None; rdNext := bl;
            isReader := false; isClosed := false; wasFCloseCalled := false;
            FCGI_errno := 0; fillBuffProc := NullProc;
            emptyBuffProc := EmptyBuffProc_ptr; data := d |}).

Definition NewReader (n streamType : Z) : M OS FCGX_Stream := NewStream n true streamType.
Definition NewWriter (n streamType : Z) : M OS FCGX_Stream := NewStream n false streamType.
End State.

(** ** Automation for stream programs *)

(** [sstep] runs the commands that only read or update the state *)
Ltac sstep :=
  repeat first
    [ wp_step
    | progress unfold get_stm, get_data, get_rq, get_errno, upd_data, upd_stm, upd_rq, lift_os ].

(** [sproj] evaluates field projections of updated records *)
Ltac sproj :=
  cbn [stm rq os set_stm set_rq set_os
       rdNext wrNext stop stopUnget isReader isClosed wasFCloseCalled FCGI_errno
       fillBuffProc emptyBuffProc data
       set_rdNext set_wrNext set_stop set_stopUnget set_isReader set_isClosed
       set_wasFCloseCalled set_FCGI_errno set_fillBuffProc set_emptyBuffProc set_data
       buff bufflen mBuff buffStop type eorStop skip contentLen paddingLen
       isAnythingWritten rawWrite
       set_buff set_bufflen set_mBuff set_buffStop set_type set_eorStop set_skip
       set_contentLen set_paddingLen set_isAnythingWritten set_rawWrite
       requestId role in_ out err envp paramsPtr ipcFd isBeginProcessed
       keepConnection appStatus nWriters flags listen_sock
       set_requestId set_role set_in_ set_out set_err set_envp set_paramsPtr set_ipcFd
       set_isBeginProcessed set_keepConnection set_appStatus set_nWriters set_flags
       set_listen_sock
       errno os_libInitialized shutdownPending shutdownNow aio plat
       set_errno set_os_libInitialized set_shutdownPending set_shutdownNow set_aio set_plat
       fst snd negb] in *.

Section BufferLemmas.
Context `{Platform}.
Implicit Types s : SState.

Lemma wp_buff_read off n (Q : list Z -> SState -> Prop) s :
  0 <= off -> 0 <= n -> off + n <= len (buff (data (stm s))) ->
  Q (slice (buff (data (stm s))) off (off + n)) s -> wp (buff_read off n) Q s.
Proof. intros. unfold buff_read. sstep. by apply wp_mem_read. Qed.

(** the state after the bytes [bs] were stored at [off] *)
Definition with_buff off bs s : SState :=
  set_stm (set_data (set_buff (splice (buff (data (stm s))) off bs) (data (stm s)))
             (stm s)) s.

Lemma wp_buff_write off bs (Q : unit -> SState -> Prop) s :
  0 <= off -> off + len bs <= len (buff (data (stm s))) ->
  Q tt (with_buff off bs s) -> wp (buff_write off bs) Q s.
Proof.
  intros. unfold buff_write. sstep. apply wp_mem_write; [done..|]. by sstep.
Qed.

(** the state after an error [e]: the first error is kept *)
Definition refused e s : SState :=
  set_stm (set_isClosed true
    (set_FCGI_errno (if FCGI_errno (stm s) =? 0 then e else FCGI_errno (stm s)) (stm s))) s.

Lemma wp_SetError e (Q : unit -> SState -> Prop) s :
  Q tt (refused e s) -> wp (SetError e) Q s.
Proof.
  intros HQ. unfold SetError. sstep.
  destruct s as [st r o], st. unfold refused in HQ. sproj.
  destruct (_ =? 0); sstep; sproj; exact HQ.
Qed.
End BufferLemmas.

(** ** New streams *)

Section NewStreams.
Context `{Reliable}.

Lemma stream_bufflen_range n :
  32 <= stream_bufflen n <= 65536 /\ stream_bufflen n mod 8 = 0.
Proof.
  unfold stream_bufflen, FCGI_MAX_LENGTH.
  pose proof (AlignInt8_least (Z.min (Z.max n 32) (65535 + 1))).
  pose proof (AlignInt8_minimal (Z.min (Z.max n 32) (65535 + 1)) 65536 ltac:(lia) eq_refl).
  lia.
Qed.

(** the buffer of a new stream: aligned, of 24 to 65536 bytes *)
Definition new_buffer (d : FCGX_Stream_Data) : Prop :=
  24 <= bufflen d <= 65536 /\ bufflen d mod 8 = 0 /\ bufflen d <= len (buff d) /\
  bytes (buff d).

Lemma wp_NewStream n reader t o :
  wp (NewStream n reader t) (fun st o' => os_quiet o o' /\
    new_buffer (data st) /\ isReader st = reader /\ isClosed st = false /\
    wasFCloseCalled st = false /\ FCGI_errno st = 0 /\
    fillBuffProc st = (if reader then FillBuffProc_ptr else NullProc) /\
    emptyBuffProc st = (if reader then NullProc else EmptyBuffProc_ptr) /\
    rdNext st = (if reader then 0 else bufflen (data st)) /\
    stop st = (if reader then 0 else bufflen (data st)) /\
    wrNext st = (if reader then 0 else 8) /\
    buffStop (data st) = (if reader then 0 else bufflen (data st)) /\
    type (data st) = t /\ eorStop (data st) = false /\ skip (data st) = false /\
    contentLen (data st) = 0 /\ paddingLen (data st) = 0 /\
    isAnythingWritten (data st) = false /\ rawWrite (data st) = false) o.
Proof.
  unfold NewStream. wp_step. wp_use wp_Malloc; [lia|]. intros _ o1 [Hq1 _].
  wp_step. wp_use wp_Malloc; [lia|]. intros _ o2 [Hq2 _]. wp_step.
  destruct (stream_bufflen_range n) as [Hb Hm8].
  apply wp_assert; [unfold INT_MAX; lia|]. wp_step.
  wp_use wp_Malloc; [lia|]. intros [m fill] o3 (Hq3 & Ha & Hmax). cbn [fst] in *. wp_step.
  assert (AlignPtr8 m = 8 * ((m + 7) / 8)) as Hal by (apply AlignPtr8_eq; lia).
  assert (m <= AlignPtr8 m < m + 8) as Hbm by (rewrite Hal; zdiv).
  set (mem := (fun i => UCHAR (fill (Z.of_nat i))) <$> seq 0 (Z.to_nat (stream_bufflen n - (AlignPtr8 m - m)))).
  assert (bytes mem) as Hmem by (apply Forall_fmap, Forall_true; intros; apply UCHAR_byte).
  assert (len mem = stream_bufflen n - (AlignPtr8 m - m)) as Hl.
  { unfold len, mem. rewrite length_fmap, length_seq. lia. }
  split; [by transitivity o1; [|transitivity o2]|].
  set (bl := if AlignPtr8 m =? m then _ else _).
  assert (bl mod 8 = 0 /\ 24 <= bl <= 65536 /\ bl <= len mem) as (? & ? & ?).
  { unfold bl. rewrite Hl. destruct (Z.eqb_spec (AlignPtr8 m) m); zdiv. }
  destruct reader; split_and!; try done; lia.
Qed.
End NewStreams.
