(* ===== verification/Writer.v ===== *)
(** * Output streams

    The writing half of [fcgiapp.c]: [FCGX_PutChar], [FCGX_PutStr],
    [FCGX_PutS], [FCGX_FFlush], [FCGX_FClose] and the procedures behind them,
    [EmptyBuffProc], [WriteCloseRecords] and [write_it_all].

    The theorems relate an open writer to an abstract stream, the list of
    bytes it has accepted: what reached the connection decodes to FastCGI
    records whose contents, followed by the bytes still in the buffer, are
    exactly those bytes. *)

From S2P Require Import Prelude CString Protocol Platform Params Stream.

(** ** Operations *)

Section Operations.
Context `{Platform}.

(** fuel for the loops: a buffer holds at most 65536 bytes *)
Variable fuel : nat.

(** [while (len) ...]: the loop's variable is the rest of the buffer *)
Definition write_it_all (fd : Z) (buf : list Z) : M OS Z :=
  loop fuel (fun buf =>
    if len buf =? 0 then ret (inr (len buf))
    else
      wrote <- OS_Write fd buf ;;
      if wrote <? 0 then ret (inr wrote)
      else ret (inl (drop (Z.to_nat wrote) buf))) buf.

(** the part of [EmptyBuffProc] that turns buffered data into a record *)
Definition seal_record : M SState unit :=
  st <- get_stm ;;
  let cLen := wrNext st - FCGI_HEADER_LEN in
  if 0 <? cLen then
    let eLen := AlignInt8 cLen in
    buff_write (wrNext st) (replicate (Z.to_nat (eLen - cLen)) 0) ;;;
    upd_stm (fun st => set_wrNext (wrNext st + (eLen - cLen)) st) ;;;
    assert ((0 <=? cLen) && (cLen <=? INT_MAX)) ;;;
    assert ((0 <=? eLen - cLen) && (eLen - cLen <=? INT_MAX)) ;;;
    d <- get_data ;;
    r <- get_rq ;;
    h <- MakeHeader (type d) (requestId r) (INT cLen) (INT (eLen - cLen)) ;;
    buff_write 0 (header_bytes h)
  else upd_stm (set_wrNext 0).

(** the part that writes the buffer out *)
Definition drain_buffer : M SState unit :=
  st <- get_stm ;;
  let finish :=
    d <- get_data ;;
    when negb (rawWrite d) do
      upd_stm (fun st => set_wrNext (wrNext st + FCGI_HEADER_LEN) st) in
  if wrNext st =? 0 then finish
  else
    upd_data (set_isAnythingWritten true) ;;;
    r <- get_rq ;;
    bs <- buff_read 0 (wrNext st) ;;
    n <- lift_os (write_it_all (ipcFd r) bs) ;;
    if n <? 0 then e <- get_errno ;; SetError e
    else upd_stm (set_wrNext 0) ;;; finish.

Definition EmptyBuffProc_with (WriteCloseRecords : M SState unit) (doClose : bool)
    : M SState unit :=
  d <- get_data ;;
  (when negb (rawWrite d) do seal_record) ;;;
  (when doClose do WriteCloseRecords) ;;;
  drain_buffer.

(** [EmptyBuffProc(stream, FALSE)], which writes no closing records *)
Definition EmptyBuffProc_flush : M SState unit := EmptyBuffProc_with (ret tt) false.

(** [stream->emptyBuffProc(stream, doClose)] *)
Definition call_emptyBuffProc (proc : M SState unit) : M SState unit :=
  st <- get_stm ;;
  match emptyBuffProc st with
  | EmptyBuffProc_ptr => proc
  | _ => undef
  end.

(** [*stream->wrNext++ = (unsigned char) c] *)
Definition put_byte (c : Z) : M SState Z :=
  st <- get_stm ;;
  buff_write (wrNext st) [UCHAR c] ;;;
  upd_stm (fun st => set_wrNext (wrNext st + 1) st) ;;;
  ret (UCHAR c).

Definition FCGX_PutChar (c : Z) : M SState Z :=
  st <- get_stm ;;
  if negb (wrNext st =? stop st) then put_byte c
  else if isClosed st || isReader st then ret EOF
  else
    call_emptyBuffProc EmptyBuffProc_flush ;;;
    st <- get_stm ;;
    if negb (wrNext st =? stop st) then put_byte c
    else assert (isClosed st) ;;; ret EOF.

(** [memcpy(stream->wrNext, str + off, m); stream->wrNext += m] *)
Definition copy_out (str : list Z) (off m : Z) : M SState unit :=
  st <- get_stm ;;
  bs <- mem_read str off m ;;
  buff_write (wrNext st) bs ;;;
  upd_stm (fun st => set_wrNext (wrNext st + m) st).

(** one turn of the general case's loop; its variable is [bytesMoved], which
    is also how far [str] has advanced *)
Definition PutStr_body (str : list Z) (n bytesMoved : Z) : M SState (Z + Z) :=
  st <- get_stm ;;
  r <- (if negb (wrNext st =? stop st) then
          let m := Z.min (n - bytesMoved) (stop st - wrNext st) in
          copy_out str bytesMoved m ;;;
          ret (bytesMoved + m)
        else ret bytesMoved) ;;
  if negb (wrNext st =? stop st) && (r =? n) then
    assert ((INT_MIN <=? r) && (r <=? INT_MAX)) ;;; ret (inr (INT r))
  else
    st <- get_stm ;;
    if isClosed st || isReader st then ret (inr (-1))
    else call_emptyBuffProc EmptyBuffProc_flush ;;; ret (inl r).

Definition FCGX_PutStr (str : list Z) (n : Z) : M SState Z :=
  st <- get_stm ;;
  if n <=? stop st - wrNext st then copy_out str 0 n ;;; ret n
  else loop fuel (PutStr_body str n) 0.

Definition FCGX_PutS (str : list Z) : M SState Z :=
  sz <- of_option (strlen str) ;;
  assert (sz <=? INT_MAX) ;;;
  FCGX_PutStr str (INT sz).

Definition WriteCloseRecords : M SState unit :=
  upd_data (set_rawWrite true) ;;;
  st <- get_stm ;;
  let d := data st in
  (when negb ((type d =? FCGI_STDERR) && (wrNext st =? 0) && negb (isAnythingWritten d)) do
     (r <- get_rq ;;
      h <- MakeHeader (type d) (requestId r) 0 0 ;;
      _ <- FCGX_PutStr (header_bytes h) 8 ;;
      ret tt)) ;;;
  r <- get_rq ;;
  (when nWriters r =? 1 do
     (h <- MakeHeader FCGI_END_REQUEST (requestId r) 8 0 ;;
      let body := MakeEndRequestBody (appStatus r) FCGI_REQUEST_COMPLETE in
      _ <- FCGX_PutStr (header_bytes h ++ end_body_bytes body) 16 ;;
      ret tt)) ;;;
  upd_rq (fun r => set_nWriters (nWriters r - 1) r).

Definition EmptyBuffProc (doClose : bool) : M SState unit :=
  EmptyBuffProc_with WriteCloseRecords doClose.

Definition FCGX_FFlush : M SState Z :=
  st <- get_stm ;;
  if isClosed st || isReader st then ret 0
  else
    call_emptyBuffProc (EmptyBuffProc false) ;;;
    st <- get_stm ;;
    ret (if isClosed st then -1 else 0).

(** on a non-null stream *)
Definition FCGX_FClose : M SState Z :=
  st <- get_stm ;;
  (when negb (wasFCloseCalled st) do
     ((when negb (isReader st) do call_emptyBuffProc (EmptyBuffProc true)) ;;;
      upd_stm (set_wasFCloseCalled true) ;;;
      upd_stm (set_isClosed true) ;;;
      st <- get_stm ;;
      if isReader st then
        upd_stm (fun st => set_wrNext (rdNext st) (set_stop (rdNext st) st))
      else
        upd_stm (fun st => set_rdNext (wrNext st) (set_stop (wrNext st) st)))) ;;;
  st <- get_stm ;;
  ret (if FCGI_errno st =? 0 then 0 else EOF).
End Operations.

(** ** Writing to the connection *)

Section Connection.
Context `{PlatformLaws}.
Implicit Types o : OS.

(** only the output of [fd] changed *)
Definition out_only fd o o' : Prop :=
  os_static o' = os_static o /\
  (forall fd', os_in fd' o' = os_in fd' o) /\
  (forall fd', fd' <> fd -> os_out fd' o' = os_out fd' o).

#[export] Instance out_only_preorder fd : PreOrder (out_only fd).
Proof.
  split; [done|]. intros o1 o2 o3 (Ha & Hb & Hc) (Ha' & Hb' & Hc').
  split; [congruence|]. split; intros; [by rewrite Hb'|rewrite Hc'; auto].
Qed.

Definition write_all_post fd bs o (r : Z) o' : Prop :=
  out_only fd o o' /\
  ((r = 0 /\ os_out fd o' = os_out fd o ++ bs) \/
   (r = -1 /\ 0 < errno o' /\ may_fail /\
    exists k, os_out fd o' = os_out fd o ++ slice bs 0 k)).

(** Short writes are retried until every byte is written, in order, unless
    the kernel reports an error. *)
Lemma wp_write_it_all fuel fd bs o :
  shutdownNow o = false -> len bs <= INT_MAX -> (length bs < fuel)%nat ->
  wp (write_it_all fuel fd bs) (write_all_post fd bs o) o.
Proof.
  intros Hs Hl Hf. unfold write_it_all.
  apply (wp_loop (fun n buf o' =>
    n = length buf /\ out_only fd o o' /\ exists pre, bs = pre ++ buf /\
    os_out fd o' = os_out fd o ++ pre) _ _ _ (length bs)); [|done|].
  2: { split; [done|]. split; [done|]. exists []. by rewrite app_nil_r. }
  clear Hf. intros n buf o1 (-> & Ho & pre & -> & Hout).
  apply wp_if; intros Hb.
  { wp_step. assert (buf = []) as -> by (apply len_nil_inv; lia).
    split; [done|]. left. by rewrite app_nil_r. }
  assert (shutdownNow o1 = false) as Hs1.
  { destruct Ho as [He _]. unfold os_static, os_vars in He. congruence. }
  rewrite len_app in Hl. pose proof (len_nonneg pre).
  wp_step. wp_use wp_OS_Write; [done|by intros ->|lia|].
  intros n o2 (Hst & Hin & Hother & Hn).
  assert (out_only fd o o2) as Ho2 by (transitivity o1; done).
  destruct Hn as [[Hn Hout2] | (-> & Hout2 & He & Hmf)].
  - replace (n <? 0) with false by lia. wp_step.
    exists (length buf - Z.to_nat n)%nat. unfold len in *.
    split; [lia|]. split; [by rewrite length_drop|]. split; [done|].
    exists (pre ++ slice buf 0 n). unfold slice. change (Z.to_nat 0) with O.
    rewrite drop_0, Z.sub_0_r, <- app_assoc, take_drop. split; [done|].
    rewrite Hout2, Hout, <- app_assoc. unfold slice. change (Z.to_nat 0) with O.
    by rewrite drop_0, Z.sub_0_r.
  - change (-1 <? 0) with true. wp_step. split; [done|]. right.
    split; [done|]. split; [done|]. split; [done|]. exists (len pre).
    rewrite Hout2, Hout. f_equal. unfold slice, len. change (Z.to_nat 0) with O.
    rewrite drop_0, take_app_length' by lia. done.
Qed.
End Connection.

(** ** Well-formed writers *)

Record writer_wf (st : FCGX_Stream) : Prop := {
  w_writer : isReader st = false;
  w_proc : emptyBuffProc st = EmptyBuffProc_ptr;
  w_len : 24 <= bufflen (data st) <= 65536;
  w_align : bufflen (data st) mod 8 = 0;
  w_mem : bufflen (data st) <= len (buff (data st));
  w_stop : stop st = bufflen (data st);
  w_next : 0 <= wrNext st <= stop st;
  w_type : is_byte (type (data st));
  w_raw : rawWrite (data st) = false -> 8 <= wrNext st
}.

(** the bytes of the buffer from its start to [wrNext] *)
Definition buffered (st : FCGX_Stream) : list Z := slice (buff (data st)) 0 (wrNext st).

(** the application's bytes among them, when a header is reserved *)
Definition pending (st : FCGX_Stream) : list Z := slice (buff (data st)) 8 (wrNext st).

Section Writers.
Context `{PlatformLaws}.
Implicit Types (s : SState) (o : OS).

(** what a writer operation leaves alone *)
Record wframe s0 s : Prop := {
  wf_rq : rq s = rq s0;
  wf_os : out_only (ipcFd (rq s0)) (os s0) (os s);
  wf_type : type (data (stm s)) = type (data (stm s0));
  wf_bufflen : bufflen (data (stm s)) = bufflen (data (stm s0));
  wf_fclose : wasFCloseCalled (stm s) = wasFCloseCalled (stm s0);
  wf_raw : rawWrite (data (stm s)) = rawWrite (data (stm s0));
  wf_reader : isReader (stm s) = isReader (stm s0);
  wf_proc : emptyBuffProc (stm s) = emptyBuffProc (stm s0);
  wf_stop : stop (stm s) = stop (stm s0);
  wf_mem : len (buff (data (stm s))) = len (buff (data (stm s0)))
}.

#[export] Instance wframe_preorder : PreOrder wframe.
Proof.
  split.
  - intros s. split; done.
  - intros s1 s2 s3 [] []. split; try congruence.
    transitivity (os s2); [done|]. by rewrite <- wf_rq0.
Qed.

Definition request_ok s : Prop :=
  0 <= requestId (rq s) < 65536 /\ shutdownNow (os s) = false.

Lemma request_ok_frame s0 s : wframe s0 s -> request_ok s0 -> request_ok s.
Proof.
  intros [Hr [Hs _]] [H1 H2]. unfold request_ok. rewrite Hr.
  split; [done|]. unfold os_static, os_vars in Hs. congruence.
Qed.

Lemma writer_wf_frame s0 s :
  wframe s0 s -> writer_wf (stm s0) -> 0 <= wrNext (stm s) <= stop (stm s) ->
  (rawWrite (data (stm s)) = false -> 8 <= wrNext (stm s)) -> writer_wf (stm s).
Proof. intros [] [] ? ?. split; try congruence; by rewrite ?wf_type0. Qed.

(** the record that carries [payload]: padded with zeros to a multiple of 8 *)
Definition data_rec t id payload : rec :=
  mkRec t id payload
    (replicate (Z.to_nat (AlignInt8 (len payload) - len payload)) 0).

Definition seal_recs t id payload : list rec :=
  if decide (payload = []) then [] else [data_rec t id payload].

Lemma len_replicate n : len (replicate n 0) = Z.of_nat n.
Proof. unfold len. by rewrite length_replicate. Qed.

Lemma data_rec_ok t id payload :
  is_byte t -> 0 <= id < 65536 -> len payload <= FCGI_MAX_LENGTH ->
  rec_ok (data_rec t id payload).
Proof.
  intros. pose proof (AlignInt8_least (len payload)).
  split; [done|]. split; [done|]. split; [done|]. cbn. rewrite len_replicate. lia.
Qed.

Lemma seal_recs_content t id payload : content_of t id (seal_recs t id payload) = payload.
Proof.
  unfold seal_recs. case_decide; [by subst|]. cbn.
  by rewrite !Z.eqb_refl, app_nil_r.
Qed.

(** padding put behind the content and the header before it make a record *)
Lemma sealed_bytes b wr pad h R :
  8 <= wr -> len (r_padding R) = pad -> wr + pad <= len b ->
  header_bytes h = rec_header R -> r_content R = slice b 8 wr ->
  slice (splice (splice b wr (r_padding R)) 0 (header_bytes h)) 0 (wr + pad) = encode_rec R.
Proof.
  intros H8 Hp Hb Hh Hc. pose proof (header_bytes_len h). pose proof (len_nonneg (r_padding R)).
  unfold encode_rec. rewrite (slice_app _ 0 8) by lia. f_equal.
  { rewrite <- Hh. apply slice_splice_same; rewrite ?splice_len; lia. }
  rewrite slice_splice_after by (rewrite ?splice_len; lia).
  rewrite (slice_app _ 8 wr) by lia. f_equal.
  { rewrite slice_splice_before by lia. done. }
  apply slice_splice_same; lia.
Qed.

(** [EmptyBuffProc]'s first half: afterwards the buffer holds the record that
    carries the pending bytes, or nothing when there were none *)
Lemma wp_seal_record s :
  writer_wf (stm s) -> request_ok s -> 8 <= wrNext (stm s) ->
  wp seal_record (fun _ s' =>
    let st := stm s in let st' := stm s' in
    wframe s s' /\ os s' = os s /\ isClosed st' = isClosed st /\
    FCGI_errno st' = FCGI_errno st /\
    isAnythingWritten (data st') = isAnythingWritten (data st) /\
    0 <= wrNext st' <= stop st' /\
    (wrNext st = stop st -> wrNext st' = stop st') /\
    buffered st' = encode_all (seal_recs (type (data st)) (requestId (rq s)) (pending st))) s.
Proof.
  intros [Hrd Hproc Hlen Hal Hmem Hst Hwr Hty Hraw] [Hid Hsd] H8.
  unfold seal_record. sstep. unfold FCGI_HEADER_LEN.
  destruct s as [[rd wr sp su ir ic wf er fp ep [b bl mb bs ty es sk cl pl aw rw]] r o].
  sproj. subst sp ir ep.
  pose proof (AlignInt8_least (wr - 8)) as Hal8.
  apply wp_if; intros Hc.
  - sstep. unfold pending, buffered. sproj.
    assert (AlignInt8 (wr - 8) <= bl - 8) as Hfit
      by (apply AlignInt8_minimal; zdiv).
    assert (len (slice b 8 wr) = wr - 8) as Hpl by (rewrite slice_len; lia).
    set (pad := AlignInt8 (wr - 8) - (wr - 8)) in *.
    assert (len (replicate (Z.to_nat pad) 0) = pad) as Hrl by (rewrite len_replicate; lia).
    apply wp_buff_write; sproj; [lia|lia|]. sstep.
    apply wp_assert; [unfold INT_MAX; lia|]. sstep.
    apply wp_assert; [unfold INT_MAX; lia|]. sstep. unfold with_buff. sproj.
    rewrite !INT_id by (unfold INT_MIN, INT_MAX; lia).
    set (R := data_rec ty (requestId r) (slice b 8 wr)).
    assert (r_padding R = replicate (Z.to_nat pad) 0) as HRp
      by (unfold R, data_rec; cbn [r_padding]; by rewrite Hpl).
    apply (wp_MakeHeader R); [|done|done|cbn [r_content R data_rec]; lia|rewrite HRp; lia|].
    { apply data_rec_ok; [done|done|]. unfold FCGI_MAX_LENGTH. lia. }
    intros h Hh. apply wp_buff_write; sproj.
    { lia. } { rewrite Hh, rec_header_len, splice_len; lia. }
    unfold with_buff. sproj.
    assert (len (header_bytes h) = 8) as Hhl by apply header_bytes_len.
    split.
    { split; try done. sproj. rewrite !splice_len; rewrite ?splice_len; lia. }
    repeat (split; [done|]). split; [unfold pad; lia|].
    split.
    { intros ->. unfold pad. enough (AlignInt8 (bl - 8) <= bl - 8) by lia.
      apply AlignInt8_minimal; zdiv. }
    unfold seal_recs. rewrite decide_False
      by (intros E; rewrite E in Hpl; unfold len in Hpl; cbn in Hpl; lia).
    fold R. rewrite encode_all_one. rewrite <- HRp.
    apply sealed_bytes; [lia|rewrite HRp; lia|lia|done|done].
  - sstep. unfold pending, buffered. sproj.
    assert (wr = 8) as -> by lia.
    split; [by split|]. repeat (split; [done|]). split; [lia|]. split; [lia|].
    rewrite !slice_empty by lia. done.
Qed.

(** [EmptyBuffProc]'s second half: everything buffered goes out, or a write
    fails and the stream is closed with the error *)
Definition drained s (s' : SState) : Prop :=
  let st := stm s in let st' := stm s' in
  wrNext st' = (if rawWrite (data st) then 0 else 8) /\
  isClosed st' = isClosed st /\ FCGI_errno st' = FCGI_errno st /\
  (isAnythingWritten (data st') = false <->
     isAnythingWritten (data st) = false /\ buffered st = []) /\
  os_out (ipcFd (rq s)) (os s') = os_out (ipcFd (rq s)) (os s) ++ buffered st.

Definition drain_failed s (s' : SState) : Prop :=
  let st := stm s in let st' := stm s' in
  may_fail /\ wrNext st' = wrNext st /\
  isClosed st' = true /\ FCGI_errno st' <> 0 /\
  exists k, os_out (ipcFd (rq s)) (os s') =
            os_out (ipcFd (rq s)) (os s) ++ slice (buffered st) 0 k.

Lemma wp_drain_buffer fuel s :
  shutdownNow (os s) = false -> 65536 < Z.of_nat fuel ->
  0 <= wrNext (stm s) <= len (buff (data (stm s))) -> wrNext (stm s) <= 65536 ->
  wp (drain_buffer fuel) (fun _ s' => wframe s s' /\ (drained s s' \/ drain_failed s s')) s.
Proof.
  intros Hsd Hfuel Hwr Hmax. unfold drain_buffer. sstep. unfold FCGI_HEADER_LEN.
  destruct s as [[rd wr sp su ir ic wf er fp ep [b bl mb bs ty es sk cl pl aw rw]] r o].
  unfold drained, drain_failed, buffered. sproj.
  apply wp_if; intros Hc.
  - assert (wr = 0) as -> by lia. rewrite slice_empty by lia.
    sstep. sproj. destruct rw; sproj; sstep; sproj.
    + split; [by split|]. left. rewrite app_nil_r. split_and!; intuition congruence.
    + split; [by split|]. left. rewrite app_nil_r. split_and!; intuition congruence.
  - sstep. apply wp_buff_read; sproj; [lia..|]. sstep.
    assert (len (slice b 0 wr) = wr) as Hl by (rewrite slice_len; lia).
    assert (slice b 0 wr <> []) as Hne.
    { intros E. rewrite E in Hl. change (len []) with 0 in Hl. lia. }
    rewrite Z.add_0_l.
    wp_use wp_write_it_all; [done|unfold INT_MAX; lia|unfold len in Hl; lia|].
    intros n o' [Ho [[-> Hout] | (-> & He & Hmf & k & Hout)]].
    + change (0 <? 0) with false. sstep. sproj.
      destruct rw; sproj; sstep; sproj; (split; [by split|]); left.
      * split_and!; intuition congruence.
      * split_and!; intuition congruence.
    + change (-1 <? 0) with true. sstep. apply wp_SetError. unfold refused. sproj.
      split; [by split|]. right. repeat (split; [done|]).
      split; [|by exists k]. destruct (Z.eqb_spec er 0); lia.
Qed.

(** ** The abstract stream behind an open writer *)

(** what [EmptyBuffProc] has sent of the bytes accepted: records of the
    stream's type and request, each with data *)
Definition stream_rec t id (r : rec) : Prop :=
  rec_ok r /\ r_type r = t /\ r_id r = id /\ r_content r <> [] /\
  len (encode_rec r) mod 8 = 0.

Lemma seal_recs_stream t id payload :
  is_byte t -> 0 <= id < 65536 -> len payload <= FCGI_MAX_LENGTH ->
  Forall (stream_rec t id) (seal_recs t id payload).
Proof.
  intros. unfold seal_recs. case_decide as Hd; [by constructor|].
  apply Forall_singleton. split; [by apply data_rec_ok|].
  repeat (split; [done|]). rewrite encode_rec_len. cbn.
  rewrite len_replicate. pose proof (AlignInt8_least (len payload)) as [? ?].
  rewrite Z2Nat.id by lia. zdiv.
Qed.

(** [s] continues [s0] and has accepted [acc] since the connection's output
    was [base] and the stream had sent [prev] *)
Record open_writer s0 (prev base acc : list Z) s : Prop := {
  ow_frame : wframe s0 s;
  ow_wf : writer_wf (stm s);
  ow_open : isClosed (stm s) = false;
  ow_err : FCGI_errno (stm s) = 0;
  ow_mode : rawWrite (data (stm s)) = false;
  ow_req : request_ok s;
  ow_wire : exists rs,
    os_out (ipcFd (rq s)) (os s) = base ++ encode_all rs /\
    Forall (stream_rec (type (data (stm s))) (requestId (rq s))) rs /\
    (isAnythingWritten (data (stm s)) = false <-> prev = [] /\ rs = []) /\
    content_of (type (data (stm s))) (requestId (rq s)) rs ++ pending (stm s) = acc
}.

(** a write failed: the stream is closed with an error, and what was sent is
    the beginning of the records of some accepted data *)
Record broken_writer s0 (base acc : list Z) s : Prop := {
  bw_frame : wframe s0 s;
  bw_fail : may_fail;
  bw_closed : isClosed (stm s) = true;
  bw_err : FCGI_errno (stm s) <> 0;
  bw_wire : exists rs k,
    os_out (ipcFd (rq s)) (os s) = base ++ slice (encode_all rs) 0 k /\
    Forall (stream_rec (type (data (stm s))) (requestId (rq s))) rs /\
    content_of (type (data (stm s))) (requestId (rq s)) rs = acc
}.

(** the same in raw mode, where the buffer's bytes are sent as they are *)
Record raw_writer s0 (base wire : list Z) s : Prop := {
  rw_frame : wframe s0 s;
  rw_wf : writer_wf (stm s);
  rw_open : isClosed (stm s) = false;
  rw_err : FCGI_errno (stm s) = 0;
  rw_mode : rawWrite (data (stm s)) = true;
  rw_req : request_ok s;
  rw_wire : os_out (ipcFd (rq s)) (os s) ++ buffered (stm s) = base ++ wire
}.

Record broken_raw s0 (base wire : list Z) s : Prop := {
  br_frame : wframe s0 s;
  br_fail : may_fail;
  br_closed : isClosed (stm s) = true;
  br_err : FCGI_errno (stm s) <> 0;
  br_wire : exists k, os_out (ipcFd (rq s)) (os s) = slice (base ++ wire) 0 k
}.

Lemma slice_prefix (l m : list Z) k :
  exists k', l ++ slice m 0 k = slice (l ++ m) 0 k'.
Proof.
  exists (Z.of_nat (length l + Z.to_nat k)). unfold slice.
  change (Z.to_nat 0) with O. rewrite !drop_0.
  rewrite take_app_ge by lia. f_equal. f_equal. lia.
Qed.

(** the record that sends the pending bytes of an open writer, if any *)
Lemma pending_recs s0 prev base acc s : open_writer s0 prev base acc s ->
  len (pending (stm s)) <= FCGI_MAX_LENGTH /\
  Forall (stream_rec (type (data (stm s))) (requestId (rq s)))
    (seal_recs (type (data (stm s))) (requestId (rq s)) (pending (stm s))).
Proof.
  intros [_ Hwf _ _ Hraw Hreq _]. assert (8 <= wrNext (stm s)) as H8 by (by apply Hwf).
  assert (len (pending (stm s)) <= FCGI_MAX_LENGTH) as Hpl.
  { unfold pending. destruct Hwf as [_ _ ? ? ? ? ? _ _].
    rewrite slice_len by lia. unfold FCGI_MAX_LENGTH. zdiv. }
  split; [done|]. apply seal_recs_stream; [apply Hwf|apply Hreq|done].
Qed.

(** the records are none exactly when nothing was accepted *)
Lemma accepted_nil t id rs payload : Forall (stream_rec t id) rs ->
  (rs ++ seal_recs t id payload = [] <-> content_of t id rs ++ payload = []).
Proof.
  intros Hrs. unfold seal_recs. case_decide as Hd.
  - rewrite Hd, !app_nil_r. split; [by intros ->|]. intros E.
    destruct Hrs as [|r rs' (_ & Ht & Hi & Hne & _) _]; [done|]. exfalso.
    cbn in E. rewrite Ht, Hi, !Z.eqb_refl in E. by apply app_eq_nil in E as [? _].
  - split; intros E; exfalso; by apply app_eq_nil in E as [_ E].
Qed.

(** [EmptyBuffProc(stream, FALSE)] sends the pending bytes as one record,
    and changes nothing in what the stream has accepted. *)
Lemma wp_flush fuel s0 prev base acc s :
  65536 < Z.of_nat fuel -> open_writer s0 prev base acc s ->
  wp (EmptyBuffProc_flush fuel) (fun _ s' =>
    (open_writer s0 prev base acc s' /\ wrNext (stm s') = 8) \/
    (broken_writer s0 base acc s' /\
     (wrNext (stm s) = stop (stm s) -> wrNext (stm s') = stop (stm s')))) s.
Proof.
  intros Hfuel HI. destruct (pending_recs s0 prev base acc s HI) as [Hpl Hnew].
  destruct HI as [Hfr Hwf Hop Her Hraw Hreq (rs & Hout & Hrs & Haw & Hacc)].
  unfold EmptyBuffProc_flush, EmptyBuffProc_with. sstep. rewrite Hraw. cbn [negb].
  assert (8 <= wrNext (stm s)) as H8 by (by apply Hwf).
  wp_use wp_seal_record; [done..|].
  intros _ s1 (Hf1 & Hos & Hc1 & He1 & Ha1 & Hw1 & Hfull & Hbuf). sstep.
  set (new := seal_recs _ _ _) in Hbuf, Hnew.
  wp_use wp_drain_buffer; [rewrite Hos; apply Hreq|done|destruct Hf1, Hwf; lia..|].
  intros _ s2 [Hf2 Hd].
  assert (wframe s0 s2) as Hfr2 by (by transitivity s; [|transitivity s1]).
  assert (wframe s s2) as Hf by (by transitivity s1).
  assert (rq s1 = rq s) as Hrq1 by apply Hf1.
  unfold drained, drain_failed in Hd. rewrite Hos, Hrq1, Hbuf, Hout in Hd.
  destruct Hd as [(Hw2 & Hc2 & He2 & Ha2 & Hout2) | (Hmf & Hw2 & Hc2 & He2 & k & Hout2)].
  - left. rewrite (wf_raw _ _ Hf1), Hraw in Hw2. split; [|done].
    split; try congruence.
    + eapply writer_wf_frame; [exact Hf|done| |lia].
      destruct Hf, Hwf. lia.
    + by rewrite (wf_raw _ _ Hf).
    + by apply (request_ok_frame s).
    + exists (rs ++ new). rewrite (wf_rq _ _ Hf), (wf_type _ _ Hf).
      rewrite encode_all_app, app_assoc. split; [done|].
      split; [by apply Forall_app|]. split.
      * rewrite Ha2, Ha1, Haw.
        rewrite encode_all_nil, app_nil. tauto.
      * unfold pending at 1. rewrite Hw2, slice_empty, app_nil_r by lia.
        rewrite content_of_app. unfold new. by rewrite seal_recs_content.
  - right. split; [|intros; destruct Hf2; rewrite Hw2; rewrite Hfull by done; congruence].
    split; try done. exists (rs ++ new).
    destruct (slice_prefix (encode_all rs) (encode_all new) k) as [k' Hk].
    exists k'. rewrite (wf_rq _ _ Hf), (wf_type _ _ Hf).
    rewrite encode_all_app, <- Hk, app_assoc. split; [done|].
    split; [by apply Forall_app|].
    rewrite content_of_app. unfold new. by rewrite seal_recs_content.
Qed.

Lemma wp_flush_raw fuel s0 base wire s :
  65536 < Z.of_nat fuel -> raw_writer s0 base wire s ->
  wp (EmptyBuffProc_flush fuel) (fun _ s' =>
    (raw_writer s0 base wire s' /\ wrNext (stm s') = 0) \/
    (broken_raw s0 base wire s' /\ wrNext (stm s') = wrNext (stm s))) s.
Proof.
  intros Hfuel [Hfr Hwf Hop Her Hraw Hreq Hout].
  unfold EmptyBuffProc_flush, EmptyBuffProc_with. sstep. rewrite Hraw. cbn [negb]. sstep.
  wp_use wp_drain_buffer.
  { apply Hreq. } { done. } { destruct Hwf. lia. } { destruct Hwf. lia. }
  intros _ s2 [Hf Hd]. assert (wframe s0 s2) as Hfr2 by (by transitivity s).
  unfold drained, drain_failed in Hd.
  destruct Hd as [(Hw2 & Hc2 & He2 & Ha2 & Hout2) | (Hmf & Hw2 & Hc2 & He2 & k & Hout2)].
  - left. rewrite Hraw in Hw2. split; [|done]. split; try congruence.
    + eapply writer_wf_frame; [exact Hf|done| |].
      * destruct Hf, Hwf. lia.
      * rewrite (wf_raw _ _ Hf). by rewrite Hraw.
    + by rewrite (wf_raw _ _ Hf).
    + by apply (request_ok_frame s).
    + unfold buffered at 1. rewrite Hw2, slice_empty, app_nil_r by lia.
      by rewrite (wf_rq _ _ Hf), Hout2.
  - right. split; [|done]. split; try done.
    destruct (slice_prefix (os_out (ipcFd (rq s)) (os s)) (buffered (stm s)) k) as [k' Hk].
    exists k'. by rewrite (wf_rq _ _ Hf), Hout2, Hk, Hout.
Qed.

(** ** [FCGX_PutStr] against an abstract sink *)

(** the state after [bs] was copied to [wrNext] *)
Definition append_buff bs s : SState :=
  let s1 := with_buff (wrNext (stm s)) bs s in
  set_stm (set_wrNext (wrNext (stm s) + len bs) (stm s1)) s1.

Lemma append_buff_frame bs s :
  0 <= wrNext (stm s) -> wrNext (stm s) + len bs <= len (buff (data (stm s))) ->
  wframe s (append_buff bs s).
Proof. intros. split; try done. cbn. by apply splice_len. Qed.

Lemma append_buff_slice bs s a :
  0 <= a <= wrNext (stm s) -> wrNext (stm s) + len bs <= len (buff (data (stm s))) ->
  slice (buff (data (stm (append_buff bs s)))) a (wrNext (stm s) + len bs) =
  slice (buff (data (stm s))) a (wrNext (stm s)) ++ bs.
Proof.
  intros. cbn. pose proof (len_nonneg bs).
  rewrite (slice_app _ a (wrNext (stm s))) by lia.
  rewrite slice_splice_before by lia. f_equal. apply slice_splice_same; lia.
Qed.

(** What [FCGX_PutStr] needs of a stream: it can append what fits in the
    buffer, and emptying the buffer makes room or breaks the stream.  [I acc]
    says that the stream has accepted [acc], [B acc] that it broke. *)
Class Sink (fuel : nat) (I B : list Z -> SState -> Prop) := {
  sink_ready : forall acc s, I acc s -> writer_wf (stm s) /\ isClosed (stm s) = false;
  sink_append : forall acc bs s, I acc s -> wrNext (stm s) + len bs <= stop (stm s) ->
    I (acc ++ bs) (append_buff bs s);
  sink_flush : forall acc s, I acc s ->
    wp (EmptyBuffProc_flush fuel) (fun _ s' =>
      (I acc s' /\ wrNext (stm s') < stop (stm s')) \/
      (B acc s' /\ (wrNext (stm s) = stop (stm s) -> wrNext (stm s') = stop (stm s')))) s;
  sink_broken : forall acc s, B acc s -> isClosed (stm s) = true /\ may_fail
}.

Section PutStr.
Context (fuel : nat) (I B : list Z -> SState -> Prop) {Hsink : Sink fuel I B}.

Lemma wp_copy_out str off m acc s (Q : unit -> SState -> Prop) :
  I acc s -> 0 <= off -> 0 <= m -> off + m <= len str ->
  wrNext (stm s) + m <= stop (stm s) ->
  (forall s', I (acc ++ slice str off (off + m)) s' ->
              wrNext (stm s') = wrNext (stm s) + m ->
              stop (stm s') = stop (stm s) -> Q tt s') ->
  wp (copy_out str off m) Q s.
Proof.
  intros HI Ho Hm Hlen Hfit HQ. destruct (sink_ready _ _ HI) as [[] Hop].
  assert (len (slice str off (off + m)) = m) as Hl by (rewrite slice_len; lia).
  unfold copy_out. sstep. apply wp_mem_read; [lia..|]. sstep.
  apply wp_buff_write; [lia|lia|]. sstep.
  pose proof (sink_append acc (slice str off (off + m)) s HI) as Ha.
  unfold append_buff in Ha. rewrite Hl in Ha. apply HQ; [|done|done].
  apply Ha. lia.
Qed.

(** [PutStr_body]'s invariant: [mv] bytes were moved, or the stream broke; [v]
    bounds the turns left *)
Definition putting str n acc (v : nat) (mv : Z) (s' : SState) : Prop :=
  0 <= mv < n /\
  ((I (acc ++ slice str 0 mv) s' /\
    Z.of_nat v = n - mv + (if wrNext (stm s') =? stop (stm s') then 2 else 1)) \/
   (B (acc ++ slice str 0 mv) s' /\ wrNext (stm s') = stop (stm s') /\ v = O)).

(** a full buffer is emptied, or the stream breaks *)
Lemma wp_putting_flush str n acc mv v s :
  I (acc ++ slice str 0 mv) s -> wrNext (stm s) = stop (stm s) -> 0 <= mv < n ->
  n - mv + 1 < Z.of_nat v ->
  wp (EmptyBuffProc_flush fuel) (fun _ s' => exists m', (m' < v)%nat /\ putting str n acc m' mv s') s.
Proof.
  intros HI Hfull Hmv Hv. wp_use sink_flush; [exact HI|].
  intros _ s2 [[HI2 Hroom] | [HB Hf]].
  - exists (Z.to_nat (n - mv + 1)). split; [lia|]. split; [lia|]. left.
    split; [done|]. replace (_ =? _) with false by lia. lia.
  - exists O. split; [lia|]. split; [lia|]. right. auto.
Qed.

(** one turn of the loop *)
Lemma wp_PutStr_turn str n acc v mv s :
  putting str n acc v mv s -> n <= len str -> n <= INT_MAX ->
  wp (PutStr_body fuel str n mv) (fun r s' =>
    match r with
    | inl mv' => exists v', (v' < v)%nat /\ putting str n acc v' mv' s'
    | inr r => (r = n /\ I (acc ++ slice str 0 n) s') \/
               (r = -1 /\ exists k, 0 <= k <= n /\ B (acc ++ slice str 0 k) s')
    end) s.
Proof.
  intros [Hmv Hcase] Hn Hint. unfold PutStr_body. sstep.
  destruct Hcase as [[HI Hv] | (HB & Hfull & ->)].
  2: { rewrite Hfull, Z.eqb_refl. cbn [negb andb]. sstep.
       rewrite (proj1 (sink_broken _ _ HB)). cbn [orb]. sstep.
       right. split; [done|]. exists mv. split; [lia|done]. }
  destruct (sink_ready _ _ HI) as [[] Hop].
  destruct (Z.eqb_spec (wrNext (stm s)) (stop (stm s))) as [Hfull|Hroom]; cbn [negb andb].
  - sstep. rewrite Hop, w_writer0. cbn [orb]. unfold call_emptyBuffProc. sstep.
    rewrite w_proc0. wp_use (wp_putting_flush str n acc mv v); [exact HI|done|lia|lia|].
    intros _ s2 Hp. by sstep.
  - sstep. set (m := Z.min _ _).
    eapply wp_copy_out; [exact HI|lia..|].
    intros s2 HI2 Hw2 Hs2. sstep. rewrite <- app_assoc, <- slice_app in HI2 by lia.
    destruct (Z.eqb_spec (mv + m) n) as [Hdone|Hmore].
    + sstep. apply wp_assert; [unfold INT_MIN, INT_MAX in *; lia|]. sstep.
      rewrite INT_id by (unfold INT_MIN, INT_MAX in *; lia). rewrite Hdone in HI2. left. auto.
    + sstep. destruct (sink_ready _ _ HI2) as [[] Hop2].
      rewrite Hop2, w_writer1. cbn [orb]. unfold call_emptyBuffProc. sstep.
      rewrite w_proc1. wp_use (wp_putting_flush str n acc (mv + m) v); [exact HI2|lia|lia|lia|].
      intros _ s3 Hp. by sstep.
Qed.

(** [FCGX_PutStr(str, n)] accepts the [n] bytes and returns [n], or returns
    EOF on a stream that broke after accepting some of them. *)
Lemma wp_PutStr str n acc s :
  I acc s -> 0 <= n <= len str -> n <= INT_MAX -> n + 2 < Z.of_nat fuel ->
  wp (FCGX_PutStr fuel str n) (fun r s' =>
    (r = n /\ I (acc ++ slice str 0 n) s') \/
    (r = -1 /\ exists k, 0 <= k <= n /\ B (acc ++ slice str 0 k) s')) s.
Proof.
  intros HI Hn Hint Hfuel. unfold FCGX_PutStr. sstep.
  apply wp_if; intros Hfast.
  { sstep. eapply wp_copy_out; [exact HI|lia..|].
    intros s' HI' _ _. sstep. left. by rewrite Z.add_0_l in HI'. }
  destruct (sink_ready _ _ HI) as [[] _].
  apply (wp_loop (putting str n acc)
    _ _ _ (Z.to_nat (n - 0 + (if wrNext (stm s) =? stop (stm s) then 2 else 1)))).
  - intros v mv s1 Hp. apply wp_PutStr_turn; [done|lia|done].
  - destruct (_ =? _); lia.
  - split; [lia|]. left. rewrite slice_empty, app_nil_r by lia.
    split; [done|]. destruct (_ =? _); lia.
Qed.
End PutStr.
End Writers.

(** ** The two modes of a writer are sinks *)

Section Sinks.
Context `{PlatformLaws}.
Implicit Types (s : SState) (o : OS).

Lemma append_buff_wf bs s :
  writer_wf (stm s) -> wrNext (stm s) + len bs <= stop (stm s) ->
  writer_wf (stm (append_buff bs s)).
Proof.
  intros Hwf Hfit. pose proof (len_nonneg bs).
  eapply writer_wf_frame; [apply append_buff_frame| exact Hwf| |]; destruct Hwf; try lia.
  - cbn. lia.
  - cbn. intros Hr. specialize (w_raw0 Hr). lia.
Qed.

#[export] Instance open_writer_sink fuel s0 prev base (Hfuel : 65536 < Z.of_nat fuel) :
  Sink fuel (open_writer s0 prev base) (broken_writer s0 base).
Proof.
  split.
  - by intros acc s [].
  - intros acc bs s [Hfr Hwf Hop Her Hraw Hreq (rs & Hout & Hrs & Haw & Hacc)] Hfit.
    assert (wframe s (append_buff bs s)) as Hf.
    { apply append_buff_frame; destruct Hwf; lia. }
    split; try done.
    + by transitivity s.
    + by apply append_buff_wf.
    + exists rs. split; [done|]. split; [done|]. split; [done|].
      rewrite <- Hacc, <- app_assoc. f_equal. unfold pending.
      change (wrNext (stm (append_buff bs s))) with (wrNext (stm s) + len bs).
      apply append_buff_slice; [split; [lia|by apply Hwf]|destruct Hwf; lia].
  - intros acc s HI. wp_use wp_flush; [exact Hfuel|exact HI|].
    intros _ s' [[HI' Hw] | HB]; [left|by right].
    split; [done|]. destruct HI' as [_ []]. lia.
  - by intros acc s [].
Qed.

#[export] Instance raw_writer_sink fuel s0 base (Hfuel : 65536 < Z.of_nat fuel) :
  Sink fuel (raw_writer s0 base) (broken_raw s0 base).
Proof.
  split.
  - by intros acc s [].
  - intros acc bs s [Hfr Hwf Hop Her Hraw Hreq Hout] Hfit.
    assert (wframe s (append_buff bs s)) as Hf.
    { apply append_buff_frame; destruct Hwf; lia. }
    split; try done.
    + by transitivity s.
    + by apply append_buff_wf.
    + rewrite app_assoc, <- Hout, <- app_assoc. f_equal. unfold buffered.
      change (wrNext (stm (append_buff bs s))) with (wrNext (stm s) + len bs).
      apply append_buff_slice; destruct Hwf; lia.
  - intros acc s HI. wp_use wp_flush_raw; [exact Hfuel|exact HI|].
    intros _ s' [[HI' Hw] | [HB Hw]]; [left|right].
    + split; [done|]. destruct HI' as [_ []]. lia.
    + split; [done|]. intros Hf. rewrite Hw, Hf.
      destruct HB as [Hfr' _ _ _ _], HI as [Hfr _ _ _ _ _ _].
      by rewrite (wf_stop _ _ Hfr), (wf_stop _ _ Hfr').
  - by intros acc s [].
Qed.

(** [FCGX_PutChar] through the same interface *)
Lemma wp_put_byte fuel I B `{!Sink fuel I B} c acc s :
  I acc s -> wrNext (stm s) < stop (stm s) ->
  wp (put_byte c) (fun r s' => r = UCHAR c /\ I (acc ++ [UCHAR c]) s') s.
Proof.
  intros HI Hroom. destruct (sink_ready _ _ HI) as [[] _].
  assert (len [UCHAR c] = 1) as Hl by done.
  unfold put_byte. sstep. apply wp_buff_write; [lia|lia|]. sstep.
  split; [done|]. pose proof (sink_append acc [UCHAR c] s HI) as Ha.
  unfold append_buff in Ha. rewrite Hl in Ha. apply Ha. lia.
Qed.

Lemma wp_PutChar fuel I B `{!Sink fuel I B} c acc s :
  I acc s ->
  wp (FCGX_PutChar fuel c) (fun r s' =>
    (r = UCHAR c /\ I (acc ++ [UCHAR c]) s') \/ (r = EOF /\ B acc s')) s.
Proof.
  intros HI. unfold FCGX_PutChar. sstep.
  destruct (sink_ready _ _ HI) as [[] Hop].
  destruct (Z.eqb_spec (wrNext (stm s)) (stop (stm s))) as [Hfull|Hroom]; cbn [negb].
  - rewrite Hop, w_writer0. cbn [orb]. sstep. unfold call_emptyBuffProc. sstep.
    rewrite w_proc0. wp_use sink_flush; [exact HI|].
    intros _ s' [[HI' Hroom] | [HB Hf]]; sstep.
    + replace (_ =? _) with false by lia. cbn [negb].
      wp_use (wp_put_byte fuel I B); [exact HI'|done|]. auto.
    + rewrite Hf, Z.eqb_refl by done. cbn [negb]. sstep.
      destruct (sink_broken _ _ HB) as [Hc _].
      apply wp_assert; [done|]. sstep. auto.
  - wp_use (wp_put_byte fuel I B); [exact HI|lia|]. auto.
Qed.
End Sinks.

Section ReliableWriters.
Context `{Reliable}.
Implicit Types (s : SState) (o : OS).

Lemma wp_PutStr_ok fuel I B `{!Sink fuel I B} str n acc s :
  I acc s -> 0 <= n <= len str -> n <= INT_MAX -> n + 2 < Z.of_nat fuel ->
  wp (FCGX_PutStr fuel str n) (fun r s' => r = n /\ I (acc ++ slice str 0 n) s') s.
Proof.
  intros. wp_use (wp_PutStr fuel I B); [done..|].
  intros r s' [|(_ & k & _ & HB)]; [done|].
  by destruct (no_fail (proj2 (sink_broken _ _ HB))).
Qed.

(** ** Closing *)

(** the records written when a stream of type [t] closes: its end-of-stream
    record, omitted for an error stream that was never used, and the end of
    the request when it is the last writer *)
Definition eof_recs t id (acc : list Z) : list rec :=
  if bool_decide (t = FCGI_STDERR /\ acc = []) then [] else [mkRec t id [] []].

Definition end_rec id status : rec :=
  mkRec FCGI_END_REQUEST id
    (end_body_bytes (MakeEndRequestBody status FCGI_REQUEST_COMPLETE)) [].

Definition end_recs id status writers : list rec :=
  if writers =? 1 then [end_rec id status] else [].

Lemma end_rec_ok id status : 0 <= id < 65536 -> rec_ok (end_rec id status).
Proof. intros. split; [by vm_compute|]. split; [done|]. by vm_compute. Qed.

Lemma eof_rec_ok t id : is_byte t -> 0 <= id < 65536 -> rec_ok (mkRec t id [] []).
Proof. done. Qed.

Lemma header_rec r h : header_bytes h = rec_header r -> r_padding r = [] ->
  header_bytes h ++ r_content r = encode_rec r.
Proof. intros -> Hp. unfold encode_rec. by rewrite Hp, app_nil_r. Qed.

(** The closing records are appended to a raw writer's output. *)
Lemma wp_put_record fuel s0 base wire r hdr s (Q : unit -> SState -> Prop) :
  65536 < Z.of_nat fuel -> raw_writer s0 base wire s -> rec_ok r -> r_padding r = [] ->
  hdr = len (encode_rec r) -> hdr <= 64 ->
  (forall s', raw_writer s0 base (wire ++ encode_rec r) s' -> Q tt s') ->
  wp (_ <- FCGX_PutStr fuel (encode_rec r) hdr ;; ret tt) Q s.
Proof.
  intros Hfuel HI Hr Hp -> H64 HQ. sstep. pose proof (len_nonneg (encode_rec r)).
  pose proof (raw_writer_sink fuel s0 base Hfuel) as Hsink.
  wp_use (wp_PutStr_ok fuel (raw_writer s0 base) (broken_raw s0 base)).
  { exact HI. } { lia. } { unfold INT_MAX. lia. } { lia. }
  intros n s' [_ HI']. sstep. rewrite slice_full in HI'. by apply HQ.
Qed.

(** the state in which [WriteCloseRecords] adds its records *)
Definition raw_mode s : SState :=
  set_stm (set_data (set_rawWrite true (data (stm s))) (stm s)) s.

Lemma raw_mode_wf s0 s :
  wframe s0 s -> writer_wf (stm s0) -> 0 <= wrNext (stm s) <= stop (stm s) ->
  writer_wf (stm (raw_mode s)).
Proof. intros [] [] ?. split; cbn; try (congruence || lia); by rewrite ?wf_type0. Qed.

Lemma buffered_nil st : 0 <= wrNext st <= len (buff (data st)) ->
  (buffered st = [] <-> wrNext st = 0).
Proof.
  intros Hw. unfold buffered. split; [|by intros ->].
  intros E. apply (f_equal len) in E. rewrite slice_len in E by lia.
  change (len []) with 0 in E. lia.
Qed.

(** the end-of-stream record, unless it is left out *)
Lemma wp_put_eof fuel s0 base s t id (acc : list Z) (wr : Z) (aw : bool) :
  65536 < Z.of_nat fuel -> raw_writer s0 base [] s -> is_byte t -> requestId (rq s) = id ->
  (acc = [] <-> wr = 0 /\ aw = false) ->
  wp (when negb ((t =? FCGI_STDERR) && (wr =? 0) && negb aw) do
     (r <- get_rq ;;
      h <- MakeHeader t (requestId r) 0 0 ;;
      _ <- FCGX_PutStr fuel (header_bytes h) 8 ;;
      ret tt))
     (fun _ => raw_writer s0 base (encode_all (eof_recs t id acc))) s.
Proof.
  intros Hfuel HI Ht <- Hacc. unfold eof_recs. case_bool_decide as Hd.
  - destruct Hd as [-> Ha]. apply Hacc in Ha as [-> ->]. by apply (wp_ret tt).
  - replace (_ && _ && _) with false.
    2: { symmetry. apply not_true_iff_false. rewrite !andb_true_iff, negb_true_iff.
         intros [[Ht' Hw] Ha]. apply Hd. split; [lia|]. apply Hacc. split; [lia|done]. }
    cbn [negb]. sstep. set (R := mkRec t (requestId (rq s)) [] []).
    assert (rec_ok R) as HR by (apply eof_rec_ok; [done|apply (rw_req _ _ _ _ HI)]).
    apply (wp_MakeHeader R); [done..|]. intros h Hh.
    replace (header_bytes h) with (encode_rec R) by (by rewrite Hh).
    eapply wp_put_record; [done|exact HI|done|done|done|done|].
    intros s' HI'. by rewrite encode_all_one.
Qed.

(** [WriteCloseRecords] adds the closing records to what is buffered; [acc]
    is what the stream has accepted *)
Lemma wp_WriteCloseRecords fuel s (acc : list Z) :
  65536 < Z.of_nat fuel -> writer_wf (stm (raw_mode s)) ->
  request_ok s -> isClosed (stm s) = false -> FCGI_errno (stm s) = 0 ->
  (acc = [] <-> wrNext (stm s) = 0 /\ isAnythingWritten (data (stm s)) = false) ->
  let closing := eof_recs (type (data (stm s))) (requestId (rq s)) acc ++
                 end_recs (requestId (rq s)) (appStatus (rq s)) (nWriters (rq s)) in
  wp (WriteCloseRecords fuel) (fun _ s' => exists s1,
    s' = set_rq (set_nWriters (nWriters (rq s1) - 1) (rq s1)) s1 /\
    raw_writer (raw_mode s) (os_out (ipcFd (rq s)) (os s) ++ buffered (stm s))
      (encode_all closing) s1) s.
Proof.
  intros Hfuel Hwf Hreq Hop Her Hacc closing.
  unfold WriteCloseRecords. sstep. fold (raw_mode s). set (s0 := raw_mode s) in *.
  set (base := os_out _ _ ++ buffered _).
  assert (raw_writer s0 base [] s0) as HI.
  { split; try done. cbn. by rewrite app_nil_r. }
  wp_use (wp_put_eof fuel s0 base s0 (type (data (stm s))) (requestId (rq s)) acc);
    [done|done|apply Hwf|done|done|].
  intros _ s1 HI1. sstep.
  assert (rq s1 = rq s) as Hrq by apply (wf_rq _ _ (rw_frame _ _ _ _ HI1)).
  rewrite Hrq. unfold closing, end_recs. clear closing.
  apply wp_if; intros Hn; rewrite Hn.
  - sstep. pose proof (end_rec_ok (requestId (rq s)) (appStatus (rq s)) (proj1 Hreq)) as HR.
    apply (wp_MakeHeader (end_rec (requestId (rq s)) (appStatus (rq s)))); [done..|].
    intros h Hh. change (end_body_bytes _) with (r_content (end_rec (requestId (rq s)) (appStatus (rq s)))).
    rewrite header_rec by done.
    eapply wp_put_record; [done|exact HI1|done|done|done|done|].
    intros s2 HI2. sstep. exists s2. split; [done|].
    by rewrite encode_all_app, encode_all_one.
  - sstep. exists s1. rewrite app_nil_r. done.
Qed.

(** the state a writer is left in when it is closed *)
Definition closed_writer s (wire : list Z) s' : Prop :=
  isClosed (stm s') = true /\ wasFCloseCalled (stm s') = true /\
  FCGI_errno (stm s') = 0 /\ stop (stm s') = wrNext (stm s') /\
  rq s' = set_nWriters (nWriters (rq s) - 1) (rq s) /\
  out_only (ipcFd (rq s)) (os s) (os s') /\
  os_out (ipcFd (rq s)) (os s') = wire.

(** [FCGX_FClose] sends what is pending and the closing records. *)
Lemma wp_FClose fuel s0 prev base acc s :
  65536 < Z.of_nat fuel -> open_writer s0 prev base acc s ->
  wasFCloseCalled (stm s) = false ->
  wp (FCGX_FClose fuel) (fun r s' => r = 0 /\
    exists rs, Forall (stream_rec (type (data (stm s))) (requestId (rq s))) rs /\
      content_of (type (data (stm s))) (requestId (rq s)) rs = acc /\
      closed_writer s (base ++ encode_all (rs ++
        eof_recs (type (data (stm s))) (requestId (rq s)) (prev ++ acc) ++
        end_recs (requestId (rq s)) (appStatus (rq s)) (nWriters (rq s)))) s') s.
Proof.
  intros Hfuel HI Hfc. destruct (pending_recs s0 prev base acc s HI) as [_ Hnew].
  destruct HI as [Hfr Hwf Hop Her Hraw Hreq (rs & Hout & Hrs & Haw & Hacc)].
  unfold FCGX_FClose. sstep. rewrite Hfc. cbn [negb]. sstep.
  pose proof (w_writer _ Hwf) as Hrd. rewrite Hrd. cbn [negb]. sstep.
  unfold call_emptyBuffProc. sstep. rewrite (w_proc _ Hwf).
  unfold EmptyBuffProc, EmptyBuffProc_with. sstep. rewrite Hraw. cbn [negb].
  assert (8 <= wrNext (stm s)) as H8 by (by apply Hwf).
  wp_use wp_seal_record; [done..|].
  intros _ s1 (Hf1 & Hos & Hc1 & He1 & Ha1 & Hw1 & Hfull & Hbuf). sstep.
  set (t := type (data (stm s))) in *. set (id := requestId (rq s)) in *.
  pose proof (accepted_nil t id rs (pending (stm s)) Hrs) as Hnil. rewrite Hacc in Hnil.
  set (new := seal_recs t id (pending (stm s))) in *.
  assert (rq s1 = rq s) as Hrq1 by apply Hf1.
  wp_use (wp_WriteCloseRecords fuel s1 (prev ++ acc)).
  1-5: first [done|by apply (raw_mode_wf s)|by apply (request_ok_frame s)|by rewrite Hc1|by rewrite He1].
  { rewrite app_nil, <- Hnil, Ha1, Haw, <- buffered_nil, Hbuf, encode_all_nil
      by (destruct Hf1, Hwf; lia).
    rewrite app_nil. tauto. }
  intros _ s2 (s3 & -> & HI). destruct HI as [Hf3 Hwf3 Hop3 Her3 Hraw3 Hreq3 Hout3].
  cbn [rq set_rq]. sstep.
  wp_use wp_drain_buffer; [apply Hreq3|done|destruct Hwf3; cbn; lia..|].
  intros _ s4 [Hf4 [(Hw4 & Hc4 & He4 & _ & Hout4) | (Hmf & _)]]; [|by destruct no_fail].
  cbn in Hw4, Hc4, He4, Hout4. rewrite Hraw3 in Hw4. sstep.
  assert (rq s3 = rq s) as Hrq3 by (rewrite (wf_rq _ _ Hf3); apply Hf1).
  assert (type (data (stm s1)) = t /\ requestId (rq s1) = id) as [Ht1 Hi1].
  { destruct Hf1. by rewrite wf_type0, wf_rq0. }
  destruct Hf4 as [Hrq4 Hos4 _ _ _ _ Hrd4 _ _ _]. cbn in Hrq4, Hos4, Hrd4.
  sproj. rewrite Hrd4, (wf_reader _ _ Hf3). unfold raw_mode. sproj. rewrite (wf_reader _ _ Hf1), Hrd. sstep.
  sproj. rewrite He4, Her3, Z.eqb_refl. split; [done|].
  exists (rs ++ new). split; [by apply Forall_app|].
  split; [rewrite content_of_app; unfold new; by rewrite seal_recs_content|].
  unfold closed_writer. cbn. rewrite Hrq4, Hrq3.
  split_and!; try done; [congruence| |].
  - transitivity (os s3); [|by rewrite <- Hrq3].
    transitivity (os s1); [apply Hf1|]. rewrite <- Hrq1. apply Hf3.
  - rewrite Hrq3 in Hout4, Hout3. rewrite Hout4.
    change (buffered _) with (buffered (stm s3)). rewrite Hout3, Hi1, Ht1, Hrq1, Hos, Hbuf, Hout.
    rewrite (encode_all_app (rs ++ new)), (encode_all_app rs).
    by rewrite !app_assoc.
Qed.
End ReliableWriters.
