(* ===== verification/Format.v ===== *)
(** * Formatted output

    [FCGX_VFPrintF] and its helper [CopyAndAdvance].  A conversion is first
    tried on the fast path, with the 100-byte array [buff]; a specifier with
    flags, a width or a precision is copied to [fmtBuff] by the slow path, which
    also bounds the room [sprintf] needs.  [sprintf] is modelled for the integer,
    character and string conversions; the text of floating-point and pointer
    conversions is a parameter ([Floats]).  A [sprintf] that writes past its
    buffer is undefined behaviour. *)

From Stdlib Require Import String.
From S2P Require Import Prelude CString Platform Stream Writer.
#[local] Open Scope Z_scope.

(** ** The C library's side *)

(** the floating-point types, [frexp]'s exponent, and the texts of their
    conversions and of [%p] for a specification *)
Class Floats := {
  double : Type;
  long_double : Type;
  frexp_exp : double -> Z;
  to_double : long_double -> double;
  text_double : list Z -> double -> list Z;
  text_long_double : list Z -> long_double -> list Z;
  text_pointer : list Z -> Z -> list Z
}.

(** an argument of the variable argument list, as the caller passed it: an [int]
    or a [long] is what conversion to its width leaves of the number, a string is
    its object, [VPtr] an address, the last three are the addresses of an object of
    the named type *)
Inductive varg `{Floats} :=
  | VInt (z : Z)
  | VLong (z : Z)
  | VStr (s : option (list Z))
  | VPtr (a : Z)
  | VDouble (d : double)
  | VLDouble (d : long_double)
  | VIntPtr (a : Z)
  | VLongPtr (a : Z)
  | VShortPtr (a : Z).

Definition PRINTF_BUFFLEN : Z := 100.
Definition FMT_BUFFLEN : Z := 25.
Definition LONG_MAX : Z := 9223372036854775807.

(** conversions of the integer types *)
Definition USHORT (z : Z) : Z := z mod 65536.
Definition UINT (z : Z) : Z := z mod 4294967296.
Definition ULONG (z : Z) : Z := z mod 18446744073709551616.
Definition LONG (z : Z) : Z :=
  (z + 9223372036854775808) mod 18446744073709551616 - 9223372036854775808.

(** [abs] of an [int]: undefined when the result is not one, that is on [INT_MIN] *)
Definition ABS {S} (a : Z) : M S Z := int_op (Z.abs a).

(** membership of a character in a string constant *)
Definition among (c : Z) (s : string) : bool := existsb (Z.eqb c) (chars s).

Definition is_digit (c : Z) : bool := (48 <=? c) && (c <=? 57).

(** [strspn]: the length of the prefix of [s] made of characters of [set]; [s]
    runs off its object when no other character follows *)
Fixpoint strspn (s : list Z) (set : Z -> bool) : option Z :=
  match s with
  | [] => None
  | c :: s' => if set c then n ← strspn s' set; Some (1 + n) else Some 0
  end.

(** the value of a string of digits *)
Definition digits_value (ds : list Z) : Z := fold_left (fun v c => v * 10 + (c - 48)) ds 0.

(** [memchr] among the first [n] bytes *)
Fixpoint memchr (s : list Z) (c : Z) (n : nat) : option (option Z) :=
  match n, s with
  | O, _ => Some None
  | S _, [] => None
  | S n', x :: s' =>
      if x =? c then Some (Some 0)
      else match memchr s' c n' with
           | Some r => Some (option_map (Z.add 1) r)
           | None => None
           end
  end.

(** ** [sprintf] *)

(** the digits of [n >= 0] in a base, most significant first, none for 0 *)
Fixpoint digits_from (fuel : nat) (upper : bool) (base n : Z) (acc : list Z) : list Z :=
  match fuel with
  | O => acc
  | S fuel' =>
      if n <=? 0 then acc
      else
        let d := n mod base in
        let c := if d <? 10 then 48 + d else (if upper then 55 else 87) + d in
        digits_from fuel' upper base (n / base) (c :: acc)
  end.

(** 64 digits are enough for a 64-bit number in any base *)
Definition digits (upper : bool) (base n : Z) : list Z := digits_from 64 upper base n [].

(** the text of an integer, as ["%lld"] prints it *)
Definition decimal (z : Z) : list Z :=
  if z <? 0 then 45 :: digits false 10 (- z)
  else if z =? 0 then [48] else digits false 10 z.

(** a parsed conversion specification: flags, width, precision, size, op *)
Record cspec := mkCspec {
  c_flags : list Z;
  c_width : Z;
  c_prec : option Z;
  c_op : Z
}.

(** the longest prefix made of characters of [set], and the rest *)
Fixpoint span (set : Z -> bool) (s : list Z) : list Z * list Z :=
  match s with
  | [] => ([], [])
  | c :: s' => if set c then (let (a, b) := span set s' in (c :: a, b)) else ([], s)
  end.

(** how [sprintf] reads a specification ["%..."] with nothing after it *)
Definition parse_spec (fmt : list Z) : cspec :=
  let (flags, s) := span (fun c => among c "-0+ #") (tail fmt) in
  let (width, s) := span is_digit s in
  let '(prec, s) := match s with
                    | 46 :: s' => let (p, s'') := span is_digit s' in
                                  (Some (digits_value p), s'')
                    | _ => (None, s)
                    end in
  let (_, s) := span (fun c => among c "lLh") s in
  mkCspec flags (digits_value width) prec (default 0 (head s)).

Definition has_flag (f : cspec) (c : Z) : bool := existsb (Z.eqb c) (c_flags f).

Definition zeros (n : Z) : list Z := replicate (Z.to_nat n) 48.
Definition blanks (n : Z) : list Z := replicate (Z.to_nat n) 32.

(** a sign or prefix and a body, padded to the field width *)
Definition pad (f : cspec) (zero_ok : bool) (prefix body : list Z) : list Z :=
  let room := c_width f - len prefix - len body in
  if has_flag f 45 then prefix ++ body ++ blanks room
  else if has_flag f 48 && zero_ok then prefix ++ zeros room ++ body
  else blanks room ++ prefix ++ body.

(** at least [prec] digits, by default one *)
Definition min_digits (prec : option Z) (ds : list Z) : list Z :=
  zeros (default 1 prec - len ds) ++ ds.

Definition no_prec (f : cspec) : bool := match c_prec f with None => true | Some _ => false end.

Definition text_signed (f : cspec) (z : Z) : list Z :=
  pad f (no_prec f)
    (if z <? 0 then [45] else if has_flag f 43 then [43]
     else if has_flag f 32 then [32] else [])
    (min_digits (c_prec f) (digits false 10 (Z.abs z))).

Definition text_unsigned (f : cspec) (z : Z) : list Z :=
  let op := c_op f in
  let base := if among op "xX" then 16 else if among op "o" then 8 else 10 in
  let body := min_digits (c_prec f) (digits (among op "X") base z) in
  let body := if among op "o" && has_flag f 35
                 && negb (match body with 48 :: _ => true | _ => false end)
              then 48 :: body else body in
  pad f (no_prec f)
    (if among op "xX" && has_flag f 35 && negb (z =? 0) then [48; op] else []) body.

(** the characters of a string object, cut at the precision *)
Definition text_string (f : cspec) (s : list Z) : option (list Z) :=
  n ← match c_prec f with
      | None => strlen s
      | Some p => r ← memchr s 0 (Z.to_nat p); Some (default p r)
      end;
  Some (pad f false [] (take (Z.to_nat n) s)).

(** ** The function's variables *)

Section State.
Context `{Platform} `{Floats}.

(** [f_args] is [arg], [f_aux] the size of the block at [auxBuffPtr],
    [f_stores] the stores through the pointers of ["%n"] *)
Record FState := mkFState {
  f_out : SState;
  f_args : list varg;
  f_aux : option Z;
  f_stores : list (Z * Z);
  streamCount : Z
}.

Definition set_f_out (v : SState) (x : FState) : FState :=
  mkFState v (f_args x) (f_aux x) (f_stores x) (streamCount x).
Definition set_f_args (v : list varg) (x : FState) : FState :=
  mkFState (f_out x) v (f_aux x) (f_stores x) (streamCount x).
Definition set_f_aux (v : option Z) (x : FState) : FState :=
  mkFState (f_out x) (f_args x) v (f_stores x) (streamCount x).
Definition set_f_stores (v : list (Z * Z)) (x : FState) : FState :=
  mkFState (f_out x) (f_args x) (f_aux x) v (streamCount x).
Definition set_streamCount (v : Z) (x : FState) : FState :=
  mkFState (f_out x) (f_args x) (f_aux x) (f_stores x) v.

Definition on_out {A} (m : M SState A) : M FState A := zoom f_out set_f_out m.

(** [va_arg]: the next argument, which must have the type asked for *)
Definition va_next {A} (take : varg -> option A) : M FState A :=
  s <- get ;;
  match f_args s with
  | [] => undef
  | v :: rest => modify (set_f_args rest) ;;; of_option (take v)
  end.

Definition va_int : M FState Z :=
  va_next (fun v => match v with VInt z => Some (INT z) | _ => None end).
Definition va_long : M FState Z :=
  va_next (fun v => match v with VLong z => Some (LONG z) | _ => None end).
Definition va_str : M FState (option (list Z)) :=
  va_next (fun v => match v with VStr s => Some s | _ => None end).
Definition va_ptr : M FState Z := va_next (fun v => match v with VPtr a => Some a | _ => None end).
Definition va_double : M FState double :=
  va_next (fun v => match v with VDouble d => Some d | _ => None end).
Definition va_long_double : M FState long_double :=
  va_next (fun v => match v with VLDouble d => Some d | _ => None end).
Definition va_intptr : M FState Z :=
  va_next (fun v => match v with VIntPtr a => Some a | _ => None end).
Definition va_longptr : M FState Z :=
  va_next (fun v => match v with VLongPtr a => Some a | _ => None end).
Definition va_shortptr : M FState Z :=
  va_next (fun v => match v with VShortPtr a => Some a | _ => None end).
End State.

(** [goto ErrorReturn] is [None] *)
Definition bind_err {S A B} (m : M S (option A)) (k : A -> M S (option B)) : M S (option B) :=
  r <- m ;; match r with Some a => k a | None => ret None end.
Notation "x <~ m ;; k" := (bind_err m (fun x => k))
  (at level 100, m at next level, right associativity) : prog_scope.
Definition ok {S A} (a : A) : M S (option A) := ret (Some a).
Definition error_return {S A} : M S (option A) := ret None.

(** ** [FCGX_VFPrintF] *)

Section Operations.
Context `{Platform} `{Floats}.
Variable fuel : nat.
(** the object of [format], the terminating NUL included; [f], [percentPtr]
    and [p] are offsets in it *)
Variable fmt : list Z.

Definition char_at (p : Z) : M FState Z :=
  if 0 <=? p then of_option (fmt !! Z.to_nat p) else undef.

Definition span_at (p : Z) (set : Z -> bool) : M FState Z :=
  of_option (strspn (drop (Z.to_nat p) fmt) set).

(** stores of characters at [fmtBuffPtr], inside [fmtBuff] *)
Definition store_fmt (b cs : list Z) : M FState (list Z) :=
  if len b + len cs <=? FMT_BUFFLEN then ret (b ++ cs) else undef.

(** [CopyAndAdvance(&fmtBuffPtr, &p, n)]: the buffer's contents up to the
    pointer, and [p] *)
Definition CopyAndAdvance (b : list Z) (p n : Z) : M FState (list Z * Z) :=
  cs <- mem_read fmt p n ;;
  b' <- store_fmt b cs ;;
  ret (b', p + n).

(** [sprintf(fmtBuffPtr, "%lld", v); fmtBuffPtr += strlen(fmtBuffPtr)] *)
Definition print_fmt (b : list Z) (v : Z) : M FState (list Z) :=
  b' <- store_fmt b (decimal v) ;;
  _ <- store_fmt b' [0] ;;
  ret b'.

Definition scan_flags (b : list Z) (p : Z) : M FState (option (list Z * Z)) :=
  n <- span_at p (fun c => among c "-0+ #") ;;
  if 5 <? n then error_return
  else r <- CopyAndAdvance b p n ;; ok r.

Definition scan_width (b : list Z) (p : Z) : M FState (option (list Z * Z * Z)) :=
  n <- span_at p is_digit ;;
  if n =? 0 then
    c <- char_at p ;;
    if c =? 42 then
      minWidth <- va_int ;;
      a <- ABS minWidth ;;
      if 999999 <? a then error_return
      else
        b <- print_fmt b minWidth ;;
        ok (b, p + 1, minWidth)
    else ok (b, p, 0)
  else if n <=? 6 then
    ds <- mem_read fmt p n ;;
    r <- CopyAndAdvance b p n ;;
    ok (r, digits_value ds)
  else error_return.

Definition scan_precision (b : list Z) (p : Z) : M FState (option (list Z * Z * Z)) :=
  c <- char_at p ;;
  if c =? 46 then
    r <- CopyAndAdvance b p 1 ;;
    let '(b, p) := r in
    n <- span_at p is_digit ;;
    if n =? 0 then
      c <- char_at p ;;
      if c =? 42 then
        v <- va_int ;;
        let precision := if v <? 0 then 0 else v in
        if 999999 <? precision then error_return
        else
          b <- print_fmt b precision ;;
          ok (b, p + 1, precision)
      else ok (b, p, 0)
    else if n <=? 6 then
      ds <- mem_read fmt p n ;;
      r <- CopyAndAdvance b p n ;;
      ok (r, digits_value ds)
    else error_return
  else ok (b, p, -1).

(** the size modifier (a blank for none) and the operation; [p] is past them *)
Definition scan_op (b : list Z) (p : Z) : M FState (list Z * Z * Z * Z) :=
  c <- char_at p ;;
  r <- (if among c "lLh" then r <- CopyAndAdvance b p 1 ;; ret (r, c)
        else ret (b, p, 32)) ;;
  let '(b, p, sizeModifier) := r in
  op <- char_at p ;;
  r <- CopyAndAdvance b p 1 ;;
  let '(b, p) := r in
  assert (len b <? FMT_BUFFLEN) ;;;
  _ <- store_fmt b [0] ;;
  ret (b, p, sizeModifier, op).

(** the argument that the slow path reads early *)
Inductive early :=
  | NoArg
  | CharPtrArg (s : list Z)
  | DoubleArg (d : double)
  | LDoubleArg (d : long_double).

(** the bound on the buffering that [sprintf] requires *)
Definition buffer_bound (op sizeModifier precision : Z) : M FState (option (Z * early)) :=
  if among op "diuoxXcp" then ok (Z.max precision 46, NoArg)
  else if among op "s" then
    s <- va_str ;;
    let charPtrArg := default (c_str (chars "(null)")) s in
    n <- (if precision =? -1 then of_option (strlen charPtrArg)
          else
            r <- of_option (memchr charPtrArg 0 (Z.to_nat precision)) ;;
            ret (default precision r)) ;;
    ok (n, CharPtrArg charPtrArg)
  else if among op "f" then
    r <~ (if sizeModifier =? 32 then
            d <- va_double ;; ok (DoubleArg d, frexp_exp d)
          else if among sizeModifier "L" then
            d <- va_long_double ;; ok (LDoubleArg d, frexp_exp (to_double d))
          else error_return) ;;
    let exp := snd r in
    let precision := if precision =? -1 then 6 else precision in
    ok (precision + 3 + (if 0 <? exp then Z.quot exp 3 else 0), fst r)
  else if among op "eEgG" then
    ok ((if precision =? -1 then 6 else precision) + 8, NoArg)
  else error_return.

(** the buffer: its length; the auxiliary one grows when it is too small *)
Definition choose_buffer (buffReqd : Z) : M FState Z :=
  if buffReqd <=? PRINTF_BUFFLEN then ret PRINTF_BUFFLEN
  else
    s <- get ;;
    if match f_aux s with None => true | Some l => l <? buffReqd end then
      _ <- on_out (lift_os (Malloc buffReqd)) ;;
      modify (set_f_aux (Some buffReqd)) ;;;
      ret buffReqd
    else ret (default 0 (f_aux s)).

(** what the conversion needs to know *)
Record conv := mkConv {
  op : Z;
  sizeModifier : Z;
  fmtBuff : list Z;
  specifierLength : Z;
  buffLen : Z;
  fastPath : bool;
  earlyArg : early
}.

Definition scan_fast (percentPtr : Z) : M FState conv :=
  c <- char_at (percentPtr + 1) ;;
  if among c "lLh" then
    o <- char_at (percentPtr + 2) ;;
    ret (mkConv o c [37; c; o] 3 PRINTF_BUFFLEN true NoArg)
  else ret (mkConv c 32 [37; c] 2 PRINTF_BUFFLEN true NoArg).

(** the slow path up to the end of the specifier: [fmtBuff], [p],
    [minWidth], [precision], [sizeModifier] and [op] *)
Definition scan_spec (percentPtr : Z)
    : M FState (option (list Z * Z * Z * Z * Z * Z)) :=
  r <~ scan_flags [37] (percentPtr + 1) ;;
  let '(b, p) := r in
  r <~ scan_width b p ;;
  let '(b, p, minWidth) := r in
  r <~ scan_precision b p ;;
  let '(b, p, precision) := r in
  r <- scan_op b p ;;
  let '(b, p, sizeModifier, op) := r in
  ok (b, p, minWidth, precision, sizeModifier, op).

Definition scan_slow (percentPtr : Z) : M FState (option conv) :=
  r <~ scan_spec percentPtr ;;
  let '(b, p, minWidth, precision, sizeModifier, op) := r in
  r <~ buffer_bound op sizeModifier precision ;;
  let '(buffReqd, arg) := r in
  let buffReqd := Z.max (buffReqd + 10) minWidth in
  l <- choose_buffer buffReqd ;;
  ok (mkConv op sizeModifier b (p - percentPtr) l false arg).

(** [sprintf(buffPtr, ...); buffCount = strlen(buffPtr)]: the characters at
    [buffPtr] up to the first NUL *)
Definition sprintf (k : conv) (text : list Z) : M FState (option (option (list Z * Z))) :=
  if len text + 1 <=? buffLen k then
    n <- of_option (strlen (c_str text)) ;;
    ok (Some (take (Z.to_nat n) text, buffLen k))
  else undef.

Definition signed_op (k : conv) : M FState (option (option (list Z * Z))) :=
  let f := parse_spec (fmtBuff k) in
  if sizeModifier k =? 32 then v <- va_int ;; sprintf k (text_signed f v)
  else if among (sizeModifier k) "l" then v <- va_long ;; sprintf k (text_signed f v)
  else if among (sizeModifier k) "h" then v <- va_int ;; sprintf k (text_signed f (SHORT v))
  else error_return.

Definition unsigned_op (k : conv) : M FState (option (option (list Z * Z))) :=
  let f := parse_spec (fmtBuff k) in
  if sizeModifier k =? 32 then v <- va_int ;; sprintf k (text_unsigned f (UINT v))
  else if among (sizeModifier k) "l" then v <- va_long ;; sprintf k (text_unsigned f (ULONG v))
  else if among (sizeModifier k) "h" then v <- va_int ;; sprintf k (text_unsigned f (USHORT v))
  else error_return.

Definition char_op (k : conv) : M FState (option (option (list Z * Z))) :=
  if sizeModifier k =? 32 then
    v <- va_int ;; sprintf k (pad (parse_spec (fmtBuff k)) false [] [UCHAR v])
  else error_return.

Definition string_op (k : conv) : M FState (option (option (list Z * Z))) :=
  if sizeModifier k =? 32 then
    if fastPath k then
      s <- va_str ;;
      str <- of_option s ;;
      n <- of_option (strlen str) ;;
      ok (Some (take (Z.to_nat n) str, n + 1))
    else
      match earlyArg k with
      | CharPtrArg str => t <- of_option (text_string (parse_spec (fmtBuff k)) str) ;;
                          sprintf k t
      | _ => undef
      end
  else error_return.

Definition pointer_op (k : conv) : M FState (option (option (list Z * Z))) :=
  if negb (sizeModifier k =? 32) then error_return
  else v <- va_ptr ;; sprintf k (text_pointer (fmtBuff k) v).

(** [*ptr = streamCount] *)
Definition store_count (k : conv) : M FState (option (option (list Z * Z))) :=
  s <- get ;;
  let n := streamCount s in
  let done (a v : Z) := modify (set_f_stores (f_stores s ++ [(a, v)])) ;;;
                        ok (Some ([], buffLen k)) in
  if sizeModifier k =? 32 then
    a <- va_intptr ;;
    assert ((INT_MIN <=? n) && (n <=? INT_MAX)) ;;; done a n
  else if among (sizeModifier k) "l" then
    a <- va_longptr ;;
    assert ((- LONG_MAX - 1 <=? n) && (n <=? LONG_MAX)) ;;; done a n
  else if among (sizeModifier k) "h" then
    a <- va_shortptr ;; done a (SHORT n)
  else error_return.

Definition float_op (k : conv) : M FState (option (option (list Z * Z))) :=
  if fastPath k then ok None
  else if sizeModifier k =? 32 then
    match earlyArg k with
    | DoubleArg d => sprintf k (text_double (fmtBuff k) d)
    | _ => undef
    end
  else if among (sizeModifier k) "L" then
    match earlyArg k with
    | LDoubleArg d => sprintf k (text_long_double (fmtBuff k) d)
    | _ => undef
    end
  else error_return.

Definition exponent_op (k : conv) : M FState (option (option (list Z * Z))) :=
  if sizeModifier k =? 32 then d <- va_double ;; sprintf k (text_double (fmtBuff k) d)
  else if among (sizeModifier k) "L" then
    d <- va_long_double ;; sprintf k (text_long_double (fmtBuff k) d)
  else error_return.

(** the giant switch: [Some None] is [performedOp == FALSE]; otherwise the
    characters at [buffPtr], [buffCount] of them, and [buffLen] *)
Definition convert (k : conv) : M FState (option (option (list Z * Z))) :=
  if among (op k) "di" then signed_op k
  else if among (op k) "uoxX" then unsigned_op k
  else if among (op k) "c" then char_op k
  else if among (op k) "s" then string_op k
  else if among (op k) "p" then pointer_op k
  else if among (op k) "n" then store_count k
  else if among (op k) "f" then float_op k
  else if among (op k) "eEgG" then exponent_op k
  else if among (op k) "%" then
    if negb (sizeModifier k =? 32) then error_return
    else ok (Some ([37], buffLen k))
  else if op k =? 0 then error_return
  else ok None.

(** the [for (;;)] loop, which tries the fast path, then the slow one: the
    characters, [buffLen] and [specifierLength] *)
Definition conversion (percentPtr : Z) : M FState (option (list Z * Z * Z)) :=
  k <- scan_fast percentPtr ;;
  r <~ convert k ;;
  match r with
  | Some (cs, l) => ok (cs, l, specifierLength k)
  | None =>
      k <~ scan_slow percentPtr ;;
      r <~ convert k ;;
      match r with
      | Some (cs, l) => ok (cs, l, specifierLength k)
      | None => error_return
      end
  end.

Definition add_count (n : Z) : M FState unit :=
  modify (fun s => set_streamCount (streamCount s + n) s).

(** the text up to the next ['%'] *)
Definition copy_text (f percentPtr : Z) : M FState (option unit) :=
  if percentPtr =? f then ok tt
  else
    assert ((0 <=? percentPtr - f) && (percentPtr - f <? INT_MAX)) ;;;
    n <- on_out (FCGX_PutStr fuel (drop (Z.to_nat f) fmt) (INT (percentPtr - f))) ;;
    if n <? 0 then error_return
    else add_count (INT (percentPtr - f)) ;;; ok tt.

(** one turn of the outer loop, whose variable is [f]; [Some None] ends it *)
Definition format_turn (fStop f : Z) : M FState (option (option Z)) :=
  r <- of_option (memchr (drop (Z.to_nat f) fmt) 37 (Z.to_nat (fStop - f))) ;;
  let percentPtr := match r with Some i => f + i | None => fStop end in
  _ <~ copy_text f percentPtr ;;
  if percentPtr =? fStop then ok None
  else
    r <~ conversion percentPtr ;;
    let '(cs, l, specLen) := r in
    let buffCount := len cs in
    assert (buffCount <? l) ;;;
    _ <~ (if 0 <? buffCount then
            assert ((0 <=? buffCount) && (buffCount <=? INT_MAX)) ;;;
            n <- on_out (FCGX_PutStr fuel cs (INT buffCount)) ;;
            if n <? 0 then error_return else add_count buffCount ;;; ok tt
          else ok tt) ;;
    ok (Some (percentPtr + specLen)).

(** from the initialized variables on; [None] is [ErrorReturn] *)
Definition format_loop (fStop : Z) : M FState (option unit) :=
  loop fuel (fun f =>
    if f =? fStop then ret (inr (Some tt))
    else
      r <- format_turn fStop f ;;
      match r with
      | None => ret (inr None)
      | Some None => ret (inr (Some tt))
      | Some (Some f') => ret (inl f')
      end) 0.

Definition format_all : M FState Z :=
  fStop <- of_option (strlen fmt) ;;
  r <- format_loop fStop ;;
  (match r with
   | None => modify (set_streamCount (-1))
   | Some _ => ret tt
   end) ;;;
  s <- get ;;
  assert ((INT_MIN <=? streamCount s) && (streamCount s <=? INT_MAX)) ;;;
  ret (streamCount s).

(** the result and the stores of ["%n"] *)
Definition FCGX_VFPrintF (arg : list varg) : M SState (Z * list (Z * Z)) :=
  fun s => match format_all (mkFState s arg None [] 0) with
           | Ret n s' => Ret (n, f_stores s') (f_out s')
           | Fault e => Fault e
           end.

Definition FCGX_FPrintF (arg : list varg) : M SState (Z * list (Z * Z)) :=
  FCGX_VFPrintF arg.
End Operations.
