(* ===== verification/Printing.v ===== *)
(** * What [FCGX_VFPrintF] prints

    The decimal digits of a number read back as the number; a format built of
    literal text and plain conversions prints the texts of its arguments in
    order; a specifier always fits in [fmtBuff]. *)

From Stdlib Require Import String.
From S2P Require Import Prelude CString Platform Stream Writer Format.
#[local] Open Scope Z_scope.

(** ** Digits *)

Section Digits.
Implicit Types (fuel : nat) (base n : Z) (acc ds : list Z).

Lemma digits_from_len fuel up base n acc :
  len (digits_from fuel up base n acc) <= Z.of_nat fuel + len acc.
Proof.
  revert n acc. induction fuel as [|fuel IH]; intros n acc; cbn [digits_from]; [lia|].
  destruct (n <=? 0); [lia|]. etrans; [apply IH|]. rewrite len_cons. lia.
Qed.

Lemma digits_from_grow fuel up base n acc : len acc <= len (digits_from fuel up base n acc).
Proof.
  revert n acc. induction fuel as [|fuel IH]; intros n acc; cbn [digits_from]; [lia|].
  destruct (n <=? 0); [lia|]. etrans; [|apply IH]. rewrite len_cons. lia.
Qed.

Lemma digits_len up base n : len (digits up base n) <= 64.
Proof. unfold digits. etrans; [apply digits_from_len|]. unfold len. cbn. lia. Qed.

(** what a digit string followed by another is worth *)
Lemma digits_from_value fuel n acc : 0 <= n < 10 ^ Z.of_nat fuel ->
  forall v, fold_left (fun v c => v * 10 + (c - 48)) (digits_from fuel false 10 n acc) v =
  fold_left (fun v c => v * 10 + (c - 48)) acc
    (v * 10 ^ (len (digits_from fuel false 10 n acc) - len acc) + n).
Proof.
  revert n acc. induction fuel as [|fuel IH]; intros n acc Hn v; cbn [digits_from].
  - replace n with 0 by (cbn in Hn; lia). f_equal. rewrite Z.sub_diag. lia.
  - destruct (Z.leb_spec n 0) as [H0|H0].
    { rewrite Z.sub_diag. f_equal. lia. }
    set (c := if n mod 10 <? 10 then 48 + n mod 10 else 87 + n mod 10).
    assert (c = 48 + n mod 10) as Hc.
    { unfold c. destruct (Z.ltb_spec (n mod 10) 10); [done|zdiv]. }
    rewrite IH.
    + cbn [fold_left]. f_equal. rewrite len_cons.
      set (k := len (digits_from fuel false 10 (n / 10) (c :: acc))).
      assert (1 + len acc <= k) as Hk.
      { rewrite <- (len_cons c acc). apply digits_from_grow. }
      replace (k - len acc) with (Z.succ (k - (1 + len acc))) by lia.
      rewrite Z.pow_succ_r, Hc by lia. zdiv.
    + rewrite Nat2Z.inj_succ, Z.pow_succ_r in Hn by lia. split; [zdiv|].
      apply Z.div_lt_upper_bound; lia.
Qed.

Lemma digits_value_digits n : 0 <= n < 2 ^ 64 -> digits_value (digits false 10 n) = n.
Proof.
  intros Hn. unfold digits_value, digits. rewrite digits_from_value.
  - cbn [fold_left]. lia.
  - split; [lia|]. etrans; [apply Hn|]. by vm_compute.
Qed.

Lemma digits_from_chars fuel base n acc (P : Z -> Prop) :
  0 < base <= 16 -> (forall d, 0 <= d < 10 -> P (48 + d)) ->
  (10 < base -> forall d, 10 <= d < 16 -> P (87 + d)) ->
  Forall P acc -> Forall P (digits_from fuel false base n acc).
Proof.
  intros Hb Hd Hx. revert n acc. induction fuel as [|fuel IH]; intros n acc Ha;
    cbn [digits_from]; [done|].
  destruct (Z.leb_spec n 0); [done|]. apply IH. apply Forall_cons. split; [|done].
  assert (0 <= n mod base < base) by (apply Z.mod_pos_bound; lia).
  destruct (Z.ltb_spec (n mod base) 10); [apply Hd; lia|apply Hx; lia].
Qed.

Lemma digits_no_nul base n : 0 < base <= 16 -> no_nul (digits false base n).
Proof.
  intros Hb. apply (digits_from_chars _ _ _ _ (fun c => c <> 0)); [done| | |constructor]; lia.
Qed.
End Digits.

Lemma blanks_neg n : n <= 0 -> blanks n = [].
Proof. intros. unfold blanks. by replace (Z.to_nat n) with O by lia. Qed.

Lemma zeros_neg n : n <= 0 -> zeros n = [].
Proof. intros. unfold zeros. by replace (Z.to_nat n) with O by lia. Qed.

Lemma digits_nonempty up base n : 1 < base -> 0 < n -> 1 <= len (digits up base n).
Proof.
  intros Hb Hn. unfold digits. change 64%nat with (S 63). generalize 63%nat. intros k.
  cbn [digits_from]. destruct (Z.leb_spec n 0); [lia|].
  etrans; [|apply digits_from_grow]. by rewrite len_cons.
Qed.

(** ** Plain conversions *)

(** a plain specification has no flags, width or precision *)
Definition plain (op : Z) : cspec := mkCspec [] 0 None op.

Lemma pad_plain op z prefix body : pad (plain op) z prefix body = prefix ++ body.
Proof.
  unfold pad. cbn [c_width plain]. cbn. rewrite blanks_neg; [done|].
  pose proof (len_nonneg prefix). pose proof (len_nonneg body). lia.
Qed.

Lemma text_signed_plain op z : text_signed (plain op) z = decimal z.
Proof.
  unfold text_signed, decimal. rewrite pad_plain. cbn [c_prec plain]. cbn [has_flag c_flags existsb].
  unfold min_digits. cbn [default].
  destruct (Z.ltb_spec z 0) as [Hneg|Hpos].
  - rewrite Z.abs_neq by lia. cbn [app]. f_equal.
    rewrite zeros_neg; [done|]. pose proof (digits_nonempty false 10 (- z)). unfold default. lia.
  - rewrite Z.abs_eq by lia. change (has_flag (plain op) 43) with false.
    change (has_flag (plain op) 32) with false. cbn [app].
    destruct (Z.eqb_spec z 0) as [->|Hz]; [done|].
    rewrite zeros_neg; [done|]. pose proof (digits_nonempty false 10 z). unfold default. lia.
Qed.

Lemma decimal_len z : 1 <= len (decimal z) <= 65.
Proof.
  unfold decimal. destruct (Z.ltb_spec z 0); [|destruct (Z.eqb_spec z 0)].
  - rewrite len_cons. pose proof (digits_len false 10 (-z)). pose proof (len_nonneg (digits false 10 (-z))). lia.
  - unfold len. cbn. lia.
  - pose proof (digits_len false 10 z). pose proof (digits_nonempty false 10 z). lia.
Qed.

Lemma decimal_no_nul z : no_nul (decimal z).
Proof.
  unfold decimal. destruct (z <? 0); [|destruct (z =? 0)].
  - apply no_nul_cons. split; [lia|]. by apply digits_no_nul.
  - apply no_nul_cons. split; [lia|done].
  - by apply digits_no_nul.
Qed.

(** the formats of the plain conversions *)
Inductive directive :=
  | DStr (s : list Z)
  | DInt (z : Z)
  | DLong (z : Z)
  | DUnsigned (z : Z)
  | DChar (c : Z)
  | DPercent.

Section Directives.
Context `{Platform} `{Floats}.

Definition dir_fmt (d : directive) : list Z :=
  match d with
  | DStr _ => chars "%s"
  | DInt _ => chars "%d"
  | DLong _ => chars "%ld"
  | DUnsigned _ => chars "%u"
  | DChar _ => chars "%c"
  | DPercent => chars "%%"
  end.

(** what the caller passes for a conversion *)
Definition dir_args (d : directive) : list varg :=
  match d with
  | DStr s => [VStr (Some (c_str s))]
  | DInt z => [VInt z]
  | DLong z => [VLong z]
  | DUnsigned z => [VInt z]
  | DChar c => [VInt c]
  | DPercent => []
  end.

(** what it prints *)
Definition dir_text (d : directive) : list Z :=
  match d with
  | DStr s => s
  | DInt z => decimal (INT z)
  | DLong z => decimal (LONG z)
  | DUnsigned z => decimal (UINT z)
  | DChar c => [UCHAR c]
  | DPercent => [37]
  end.

Definition dir_ok (d : directive) : Prop :=
  match d with
  | DStr s => no_nul s
  | DChar c => UCHAR c <> 0
  | _ => True
  end.

(** what a turn of the loop prints: literal text, then a conversion *)
Definition piece : Type := list Z * directive.
Definition lit_ok (l : list Z) : Prop := no_nul l /\ Forall (fun c => c <> 37) l.
Definition piece_ok (p : piece) : Prop := lit_ok (fst p) /\ dir_ok (snd p).

(** a format, its arguments and its text: pieces and a last literal text *)
Definition pieces_fmt (ps : list piece) (last : list Z) : list Z :=
  concat (map (fun p => fst p ++ dir_fmt (snd p)) ps) ++ last.
Definition pieces_args (ps : list piece) : list varg :=
  concat (map (fun p => dir_args (snd p)) ps).
Definition pieces_text (ps : list piece) (last : list Z) : list Z :=
  concat (map (fun p => fst p ++ dir_text (snd p)) ps) ++ last.
End Directives.

Lemma char_at_app `{Platform} `{Floats} pre c post p (Q : Z -> FState -> Prop) s :
  p = len pre -> Q c s -> wp (char_at (pre ++ c :: post) p) Q s.
Proof.
  intros -> HQ. unfold char_at. pose proof (len_nonneg pre).
  replace (0 <=? len pre) with true by lia. eapply wp_of_option; [|exact HQ].
  unfold len. rewrite Nat2Z.id. by apply list_lookup_middle.
Qed.

(** names the case of the switch that a conversion takes *)
Ltac use_op f :=
  match goal with |- context [convert ?k] => change (convert k) with (f k) end.

(** evaluates the tests of a constant size modifier *)
Ltac size_case :=
  repeat match goal with
  | |- context [Z.eqb (Zpos ?a) (Zpos ?b)] =>
      let v := eval vm_compute in (Z.eqb (Zpos a) (Zpos b)) in
      change (Z.eqb (Zpos a) (Zpos b)) with v
  | |- context [among (Zpos ?a) ?s] =>
      let v := eval vm_compute in (among (Zpos a) s) in change (among (Zpos a) s) with v
  end; cbn match.

Section Conversions.
Context `{Platform} `{Floats}.

Lemma wp_va_next {A} (tk : varg -> option A) v a rest (Q : A -> FState -> Prop) s :
  f_args s = v :: rest -> tk v = Some a -> Q a (set_f_args rest s) ->
  wp (va_next tk) Q s.
Proof.
  intros Ha Ht HQ. unfold va_next. wp_steps. rewrite Ha. wp_steps. by eapply wp_of_option.
Qed.

Lemma wp_sprintf k text (Q : option (option (list Z * Z)) -> FState -> Prop) s :
  no_nul text -> len text + 1 <= buffLen k ->
  Q (Some (Some (text, buffLen k))) s -> wp (sprintf k text) Q s.
Proof.
  intros Hn Hl HQ. unfold sprintf. replace (_ <=? _) with true by lia. wp_step.
  eapply wp_of_option; [by apply strlen_c_str|]. unfold ok. wp_steps.
  unfold len. rewrite Nat2Z.id, take_ge by done. done.
Qed.

Lemma wp_scan_fast_plain pre c post p Q s :
  p = len pre -> among c "lLh" = false ->
  Q (mkConv c 32 [37; c] 2 PRINTF_BUFFLEN true NoArg) s ->
  wp (scan_fast (pre ++ 37 :: c :: post) p) Q s.
Proof.
  intros Hp Hc HQ. unfold scan_fast.
  replace (pre ++ 37 :: c :: post) with ((pre ++ [37]) ++ c :: post) by by rewrite <- app_assoc.
  wp_step. apply char_at_app; [rewrite len_app, Hp; unfold len; cbn; lia|].
  rewrite Hc. by wp_step.
Qed.

Lemma wp_scan_fast_sized pre c o post p Q s :
  p = len pre -> among c "lLh" = true ->
  Q (mkConv o c [37; c; o] 3 PRINTF_BUFFLEN true NoArg) s ->
  wp (scan_fast (pre ++ 37 :: c :: o :: post) p) Q s.
Proof.
  intros Hp Hc HQ. unfold scan_fast.
  replace (pre ++ 37 :: c :: o :: post) with ((pre ++ [37]) ++ c :: o :: post)
    by by rewrite <- app_assoc.
  wp_step. apply char_at_app; [rewrite len_app, Hp; unfold len; cbn; lia|].
  rewrite Hc.
  replace ((pre ++ [37]) ++ c :: o :: post) with ((pre ++ [37; c]) ++ o :: post)
    by by rewrite <- !app_assoc.
  wp_step. apply char_at_app; [rewrite len_app, Hp; unfold len; cbn; lia|]. by wp_step.
Qed.

(** the text of a plain integer conversion fits in [buff] *)
Lemma wp_sprintf_int k z Q s :
  buffLen k = PRINTF_BUFFLEN -> Q (Some (Some (decimal z, PRINTF_BUFFLEN))) s ->
  wp (sprintf k (decimal z)) Q s.
Proof.
  intros Hk HQ. pose proof (decimal_len z). apply wp_sprintf.
  - apply decimal_no_nul.
  - rewrite Hk. unfold PRINTF_BUFFLEN. lia.
  - by rewrite Hk.
Qed.

(** the conversion to [int] does not change the conversions to narrower and to
    unsigned types *)
Lemma UINT_INT z : UINT (INT z) = UINT z.
Proof. unfold UINT, INT. zdiv. Qed.

Lemma UCHAR_INT z : UCHAR (INT z) = UCHAR z.
Proof. rewrite !UCHAR_mod. unfold INT. zdiv. Qed.

Lemma text_unsigned_plain z : 0 <= z -> text_unsigned (plain 117) z = decimal z.
Proof.
  intros Hz. unfold text_unsigned. cbn [c_op plain].
  change (among 117 "xX") with false. change (among 117 "o") with false.
  cbn [andb]. rewrite pad_plain. unfold min_digits, decimal. cbn [c_prec plain app].
  change (among 117 "X") with false.
  destruct (Z.ltb_spec z 0); [lia|]. destruct (Z.eqb_spec z 0) as [->|]; [done|].
  rewrite zeros_neg; [done|]. pose proof (digits_nonempty false 10 z). unfold default. lia.
Qed.

(** a plain conversion takes the fast path, consumes its argument and yields
    its text *)
Lemma wp_conversion_plain d pre post p rest (Q : option (list Z * Z * Z) -> FState -> Prop) s :
  dir_ok d -> p = len pre -> f_args s = dir_args d ++ rest ->
  (forall l, len (dir_text d) < l ->
     Q (Some (dir_text d, l, len (dir_fmt d))) (set_f_args rest s)) ->
  wp (conversion (pre ++ dir_fmt d ++ post) p) Q s.
Proof.
  intros Hd Hp Ha HQ. unfold conversion, bind_err.
  assert (forall z, len (decimal z) < PRINTF_BUFFLEN) as Hlen.
  { intros z. pose proof (decimal_len z). unfold PRINTF_BUFFLEN. lia. }
  destruct d as [str|z|z|z|c|]; cbn [dir_args dir_text dir_ok app] in *; wp_step.
  - apply (wp_scan_fast_plain pre 115 post); [done|done|]. wp_step.
    use_op string_op. unfold string_op. cbn [sizeModifier fastPath]. size_case. wp_step.
    eapply wp_va_next; [done..|]. wp_step. eapply wp_of_option; [done|]. wp_step.
    eapply wp_of_option; [by apply strlen_c_str|]. unfold ok. wp_steps.
    replace (take _ (c_str str)) with str; [apply HQ; lia|].
    unfold len, c_str. rewrite Nat2Z.id. by rewrite take_app_length.
  - apply (wp_scan_fast_plain pre 100 post); [done|done|]. wp_step.
    use_op signed_op. unfold signed_op. cbn [sizeModifier]. size_case. wp_step.
    eapply wp_va_next; [done..|]. change (parse_spec _) with (plain 100).
    rewrite text_signed_plain. apply wp_sprintf_int; [done|]. unfold ok. wp_step. by apply HQ.
  - apply (wp_scan_fast_sized pre 108 100 post); [done|done|]. wp_step.
    use_op signed_op. unfold signed_op. cbn [sizeModifier]. size_case. wp_step.
    eapply wp_va_next; [done..|]. change (parse_spec _) with (plain 100).
    rewrite text_signed_plain. apply wp_sprintf_int; [done|]. unfold ok. wp_step. by apply HQ.
  - apply (wp_scan_fast_plain pre 117 post); [done|done|]. wp_step.
    use_op unsigned_op. unfold unsigned_op. cbn [sizeModifier]. size_case. wp_step.
    eapply wp_va_next; [done..|]. change (parse_spec _) with (plain 117). rewrite UINT_INT.
    rewrite text_unsigned_plain by (apply Z.mod_pos_bound; lia).
    apply wp_sprintf_int; [done|]. unfold ok. wp_step. by apply HQ.
  - apply (wp_scan_fast_plain pre 99 post); [done|done|]. wp_step.
    use_op char_op. unfold char_op. cbn [sizeModifier]. size_case. wp_step.
    eapply wp_va_next; [done..|]. change (parse_spec _) with (plain 99). rewrite UCHAR_INT.
    rewrite pad_plain. apply wp_sprintf; [by apply no_nul_cons|done|]. unfold ok. wp_step. by apply HQ.
  - apply (wp_scan_fast_plain pre 37 post); [done|done|]. wp_step.
    change (convert (mkConv 37 32 [37; 37] 2 PRINTF_BUFFLEN true NoArg))
      with (ok (S := FState) (Some ([37], PRINTF_BUFFLEN))). unfold ok. wp_steps.
    replace s with (set_f_args rest s) by (rewrite <- Ha; by destruct s). by apply HQ.
Qed.
End Conversions.

(** ** Formats of plain conversions *)

Lemma memchr_found l c x n : Forall (fun y => y <> c) l -> (length l < n)%nat ->
  memchr (l ++ c :: x) c n = Some (Some (len l)).
Proof.
  revert n. induction l as [|y l IH]; intros [|n] Hl Hn; cbn [length] in Hn; try lia; cbn.
  - by rewrite Z.eqb_refl.
  - apply Forall_cons in Hl as [Hy Hl]. destruct (Z.eqb_spec y c); [done|].
    rewrite IH by (done || lia). cbn. rewrite len_cons. done.
Qed.

Lemma memchr_absent l c x : Forall (fun y => y <> c) l ->
  memchr (l ++ x) c (length l) = Some None.
Proof.
  induction l as [|y l IH]; intros Hl; cbn; [by destruct x|].
  apply Forall_cons in Hl as [Hy Hl]. destruct (Z.eqb_spec y c); [done|]. by rewrite IH.
Qed.

Section Formats.
Context `{PlatformLaws} `{Floats}.
Context (fuel : nat) (I B : list Z -> SState -> Prop) {Hsink : Sink fuel I B}.
Implicit Types (s : FState) (acc : list Z).

(** the stream broke after accepting a prefix of [text] *)
Definition cut acc text (o : SState) : Prop := exists t u, text = t ++ u /\ B (acc ++ t) o.

Lemma cut_app_l acc t1 t2 o : cut acc t1 o -> cut acc (t1 ++ t2) o.
Proof. intros (t & u & -> & HB). exists t, (u ++ t2). by rewrite <- app_assoc. Qed.

Lemma cut_app_r acc t1 t2 o : cut (acc ++ t1) t2 o -> cut acc (t1 ++ t2) o.
Proof. intros (t & u & -> & HB). exists (t1 ++ t), u. by rewrite <- !app_assoc in *. Qed.

(** [FCGX_PutStr(str, n)] for the [n] bytes of [text] *)
Lemma wp_put_text str text acc s (Q : Z -> FState -> Prop) :
  I acc (f_out s) -> (exists x, str = text ++ x) -> len text <= INT_MAX ->
  len text + 2 < Z.of_nat fuel ->
  (forall o', I (acc ++ text) o' -> Q (len text) (set_f_out o' s)) ->
  (forall o', cut acc text o' -> Q (-1) (set_f_out o' s)) ->
  wp (on_out (FCGX_PutStr fuel str (INT (len text)))) Q s.
Proof.
  intros HI [x ->] Hmax Hfuel Hok Hcut. pose proof (len_nonneg text).
  rewrite INT_id by (unfold INT_MIN, INT_MAX in *; lia).
  apply wp_zoom. pose proof (len_nonneg x).
  wp_use (wp_PutStr fuel I B); [exact HI|rewrite len_app; lia|done..|].
  assert (forall k, 0 <= k <= len text -> slice (text ++ x) 0 k = take (Z.to_nat k) text) as Hs.
  { intros k Hk. unfold slice. rewrite Z.sub_0_r. change (Z.to_nat 0) with O.
    rewrite drop_0, take_app_le by (unfold len in *; lia). done. }
  intros r o' [[-> HI'] | (-> & k & Hk & HB)].
  - rewrite Hs, take_ge in HI' by (unfold len in *; lia). by apply Hok.
  - rewrite Hs in HB by lia. apply Hcut.
    exists (take (Z.to_nat k) text), (drop (Z.to_nat k) text). by rewrite take_drop.
Qed.

(** after [text] *)
Definition printed acc text rest s s' : Prop :=
  f_args s' = rest /\ f_stores s' = f_stores s /\
  streamCount s' = streamCount s + len text /\ I (acc ++ text) (f_out s').

Definition broke acc text s s' : Prop :=
  f_stores s' = f_stores s /\ cut acc text (f_out s').

Lemma wp_copy_text fmt pre lit post percentPtr acc s :
  fmt = pre ++ lit ++ post -> percentPtr = len pre + len lit ->
  I acc (f_out s) -> len lit < INT_MAX -> len lit + 2 < Z.of_nat fuel ->
  wp (copy_text fuel fmt (len pre) percentPtr) (fun r s' =>
    (r = Some tt /\ printed acc lit (f_args s) s s') \/ (r = None /\ broke acc lit s s')) s.
Proof.
  intros -> -> HI Hmax Hfuel. unfold copy_text. pose proof (len_nonneg lit).
  apply wp_if; intros Hb.
  - apply Z.eqb_eq in Hb. replace lit with (@nil Z) by (symmetry; apply len_nil_inv; lia).
    unfold ok. wp_step. left. split; [done|]. repeat split; [unfold len; cbn; lia|].
    by rewrite app_nil_r.
  - replace (len pre + len lit - len pre) with (len lit) by lia.
    wp_step. apply wp_assert; [lia|]. wp_step.
    apply (wp_put_text _ lit acc); [done| |lia|done|..].
    { exists post. unfold len. by rewrite Nat2Z.id, drop_app_length. }
    + intros o' HI'. replace (len lit <? 0) with false by lia.
      unfold add_count, ok. wp_steps. left. split; [done|]. split; [done|]. split; [done|].
      split; [|done]. cbn. rewrite INT_id by (unfold INT_MIN, INT_MAX in *; lia). done.
    + intros o' Hc. change (-1 <? 0) with true. unfold error_return. wp_step. by right.
Qed.

Lemma printed_trans acc t1 t2 r s1 s2 s3 :
  printed acc t1 (f_args s2) s1 s2 -> printed (acc ++ t1) t2 r s2 s3 ->
  printed acc (t1 ++ t2) r s1 s3.
Proof.
  intros (Ha & Hs & Hc & HI) (Ha' & Hs' & Hc' & HI'). unfold printed.
  rewrite <- app_assoc in HI'. rewrite len_app. split_and!; [done|congruence|lia|done].
Qed.

Lemma broke_after acc t1 t2 r s1 s2 s3 :
  printed acc t1 r s1 s2 -> broke (acc ++ t1) t2 s2 s3 -> broke acc (t1 ++ t2) s1 s3.
Proof.
  intros (_ & Hs & _) [Hs' Hc]. split; [congruence|]. by apply cut_app_r.
Qed.

(** the text of a conversion, put on the stream *)
Lemma wp_put_conversion cs l acc s :
  I acc (f_out s) -> len cs < l -> len cs < INT_MAX -> len cs + 2 < Z.of_nat fuel ->
  forall k : Z, wp (assert (len cs <? l) ;;;
      _ <~ (if 0 <? len cs then
              assert ((0 <=? len cs) && (len cs <=? INT_MAX)) ;;;
              n <- on_out (FCGX_PutStr fuel cs (INT (len cs))) ;;
              if n <? 0 then error_return else add_count (len cs) ;;; ok tt
            else ok tt) ;;
      ok (Some k)) (fun r s' =>
    (r = Some (Some k) /\ printed acc cs (f_args s) s s') \/
    (r = None /\ broke acc cs s s')) s.
Proof.
  intros HI Hl Hmax Hfuel k. pose proof (len_nonneg cs). wp_step.
  apply wp_assert; [lia|]. unfold bind_err. wp_steps. apply wp_if; intros Hb.
  - wp_step. apply wp_assert; [lia|]. wp_step.
    apply (wp_put_text _ cs acc); [done|by exists []; rewrite app_nil_r|lia|done|..].
    + intros o' HI'. replace (len cs <? 0) with false by lia.
      unfold add_count, ok. wp_steps. left. by repeat split.
    + intros o' Hc. change (-1 <? 0) with true. unfold error_return. wp_steps. by right.
  - unfold ok. wp_steps. left. split; [done|].
    assert (cs = []) as -> by (apply len_nil_inv; lia). repeat split; [unfold len; cbn; lia|].
    by rewrite app_nil_r.
Qed.

(** one turn on literal text and a conversion *)
Lemma wp_turn_piece pre lit d post rest acc s :
  lit_ok lit -> dir_ok d -> f_args s = dir_args d ++ rest -> I acc (f_out s) ->
  len (lit ++ dir_text d) < INT_MAX -> len (lit ++ dir_text d) + 2 < Z.of_nat fuel ->
  wp (format_turn fuel (pre ++ lit ++ dir_fmt d ++ c_str post)
        (len pre + len lit + len (dir_fmt d) + len post) (len pre)) (fun r s' =>
    (r = Some (Some (len pre + len lit + len (dir_fmt d))) /\
     printed acc (lit ++ dir_text d) rest s s') \/
    (r = None /\ broke acc (lit ++ dir_text d) s s')) s.
Proof.
  intros Hlit Hd Ha HI Hmax Hfuel. unfold format_turn.
  pose proof (len_nonneg lit). pose proof (len_nonneg (dir_text d)). pose proof (len_nonneg post).
  rewrite len_app in Hmax, Hfuel.
  assert (exists c, dir_fmt d = 37 :: c /\ 0 < len (dir_fmt d)) as (c & Hc & Hdl).
  { destruct d; by eexists. }
  wp_step. eapply wp_of_option with (a := Some (len lit)).
  { unfold len at 1. rewrite Nat2Z.id, drop_app_length, Hc. cbn [app].
    apply memchr_found; [apply Hlit|]. unfold len in *. rewrite Hc in *. cbn [length] in *. lia. }
  unfold bind_err at 1. wp_step.
  wp_use (wp_copy_text (pre ++ lit ++ dir_fmt d ++ c_str post) pre lit (dir_fmt d ++ c_str post) (len pre + len lit) acc);
    [done..|lia|lia|].
  intros r1 s1 [[-> Hp1] | [-> Hb]].
  2: { wp_step. right. split; [done|]. destruct Hb as [? Hb]. split; [done|].
       by apply cut_app_l. }
  replace (_ =? _) with false by lia. unfold bind_err at 1. wp_step.
  pose proof Hp1 as (Ha1 & Hs1 & Hc1 & HI1). rewrite app_assoc.
  eapply wp_conversion_plain; [done|by rewrite len_app|by rewrite Ha1|].
  intros l Hl. wp_use (wp_put_conversion (dir_text d) l (acc ++ lit)); [exact HI1|done|lia|lia|].
  intros r2 s2 [[-> Hp2] | [-> Hb]].
  - left. split; [done|]. by eapply printed_trans.
  - right. split; [done|]. destruct Hb as [Hst Hb]. split; [by rewrite Hst, <- Hs1|].
    by apply cut_app_r.
Qed.

(** the last turn, on literal text only *)
Lemma wp_turn_last pre lit acc s :
  lit_ok lit -> lit <> [] -> I acc (f_out s) ->
  len lit < INT_MAX -> len lit + 2 < Z.of_nat fuel ->
  wp (format_turn fuel (pre ++ c_str lit) (len pre + len lit) (len pre)) (fun r s' =>
    (r = Some None /\ printed acc lit (f_args s) s s') \/
    (r = None /\ broke acc lit s s')) s.
Proof.
  intros Hlit Hne HI Hmax Hfuel. unfold format_turn.
  wp_step. eapply wp_of_option with (a := None).
  { unfold len. rewrite Nat2Z.id, drop_app_length.
    replace (Z.to_nat _) with (length lit) by lia. by apply memchr_absent, Hlit. }
  unfold bind_err at 1. wp_step.
  wp_use (wp_copy_text (pre ++ c_str lit) pre lit [0] (len pre + len lit) acc); [done..|].
  intros r1 s1 [[-> Hp1] | [-> Hb]]; [|wp_step; by right].
  rewrite Z.eqb_refl. unfold ok. wp_step. by left.
Qed.

Lemma dir_fmt_nonempty d : 0 < len (dir_fmt d).
Proof. by destruct d. Qed.

Lemma pieces_fmt_cons p ps last :
  pieces_fmt (p :: ps) last = fst p ++ dir_fmt (snd p) ++ pieces_fmt ps last.
Proof. unfold pieces_fmt. cbn. by rewrite <- !app_assoc. Qed.

Lemma pieces_text_cons p ps last :
  pieces_text (p :: ps) last = (fst p ++ dir_text (snd p)) ++ pieces_text ps last.
Proof. unfold pieces_text. cbn. by rewrite <- !app_assoc. Qed.

Lemma pieces_no_nul ps last : Forall piece_ok ps -> lit_ok last -> no_nul (pieces_fmt ps last).
Proof.
  intros Hps Hl. induction Hps as [|p ps [Hp Hd] _ IH]; [apply Hl|].
  rewrite pieces_fmt_cons. apply Forall_app. split; [apply Hp|].
  apply Forall_app. split; [|done].
  destruct (snd p); repeat (apply Forall_cons; split; [done|]); constructor.
Qed.

(** only the empty list of pieces has an empty format *)
Lemma pieces_fmt_nil qs last : pieces_fmt qs last = [] -> qs = [] /\ pieces_text qs last = [].
Proof.
  destruct qs as [|q qs]; [done|]. rewrite pieces_fmt_cons. intros Hnil.
  apply (f_equal len) in Hnil. rewrite !len_app in Hnil. pose proof (dir_fmt_nonempty (snd q)).
  pose proof (len_nonneg (fst q)). pose proof (len_nonneg (pieces_fmt qs last)).
  change (len []) with 0 in Hnil. lia.
Qed.

(** the turn for the first of several pieces *)
Lemma wp_next_piece pre q qs last acc s :
  piece_ok q -> f_args s = pieces_args (q :: qs) -> I acc (f_out s) ->
  len (pieces_text (q :: qs) last) < INT_MAX ->
  len (pieces_text (q :: qs) last) + 2 < Z.of_nat fuel ->
  let pre' := pre ++ fst q ++ dir_fmt (snd q) in
  wp (format_turn fuel (pre ++ c_str (pieces_fmt (q :: qs) last))
        (len pre + len (pieces_fmt (q :: qs) last)) (len pre)) (fun r s' =>
    (r = Some (Some (len pre')) /\
     printed acc (fst q ++ dir_text (snd q)) (pieces_args qs) s s') \/
    (r = None /\ broke acc (pieces_text (q :: qs) last) s s')) s.
Proof.
  intros [Hq Hd] Ha HI Hmax Hfuel pre'. rewrite pieces_fmt_cons, pieces_text_cons in *.
  rewrite !len_app in *. pose proof (len_nonneg (pieces_text qs last)).
  replace (pre ++ c_str (fst q ++ dir_fmt (snd q) ++ pieces_fmt qs last))
    with (pre ++ fst q ++ dir_fmt (snd q) ++ c_str (pieces_fmt qs last))
    by (unfold c_str; by rewrite <- !app_assoc).
  replace (len pre + (len (fst q) + (len (dir_fmt (snd q)) + len (pieces_fmt qs last))))
    with (len pre + len (fst q) + len (dir_fmt (snd q)) + len (pieces_fmt qs last)) by lia.
  wp_use (wp_turn_piece pre (fst q) (snd q) (pieces_fmt qs last) (pieces_args qs) acc);
    [done|done|done|done|rewrite len_app; lia|rewrite len_app; lia|].
  intros r s' [[-> Hp] | [-> [? Hc]]]; [left|right]; (split; [|try done]).
  - unfold pre'. rewrite !len_app. do 2 f_equal. lia.
  - done.
  - split; [done|]. by apply cut_app_l.
Qed.

Lemma wp_format_loop ps last acc s :
  Forall piece_ok ps -> lit_ok last -> f_args s = pieces_args ps -> I acc (f_out s) ->
  len (pieces_text ps last) < INT_MAX ->
  len (pieces_text ps last) + Z.of_nat (length ps) + 2 < Z.of_nat fuel ->
  wp (format_loop fuel (c_str (pieces_fmt ps last)) (len (pieces_fmt ps last))) (fun r s' =>
    (r = Some tt /\ printed acc (pieces_text ps last) [] s s') \/
    (r = None /\ broke acc (pieces_text ps last) s s')) s.
Proof.
  intros Hps Hlast Ha HI Hmax Hfuel. unfold format_loop.
  pose proof (len_nonneg (pieces_text ps last)).
  apply (wp_loop (fun m f s1 => exists qs done pre,
    Forall piece_ok qs /\ m = S (length qs) /\
    c_str (pieces_fmt ps last) = pre ++ c_str (pieces_fmt qs last) /\ f = len pre /\
    pieces_text ps last = done ++ pieces_text qs last /\
    printed acc done (pieces_args qs) s s1) _ _ _ (S (length ps))).
  2: lia.
  2: { exists ps, [], []. split_and!; try done. repeat split; [done|unfold len; cbn; lia|].
       by rewrite app_nil_r. }
  intros m f s1 (qs & done' & pre & Hqs & -> & Hfmt & -> & Htext & Hp).
  assert (len (pieces_fmt ps last) = len pre + len (pieces_fmt qs last)) as Hlen.
  { apply (f_equal len) in Hfmt. unfold c_str in Hfmt. rewrite !len_app in Hfmt. lia. }
  assert (len (pieces_text ps last) = len done' + len (pieces_text qs last)) as Htl.
  { by rewrite Htext, len_app. }
  pose proof (len_nonneg done').
  pose proof Hp as (Ha1 & Hst1 & Hc1 & HI1).
  rewrite Hfmt, Hlen. apply wp_if; intros Hb.
  { assert (pieces_fmt qs last = []) as Hnil by (apply len_nil_inv; lia).
    wp_step. left. split; [done|].
    destruct (pieces_fmt_nil qs last Hnil) as [-> Hnt].
    rewrite Hnt, app_nil_r in Htext. by rewrite Htext. }
  wp_step. destruct qs as [|q qs].
  - change (pieces_fmt [] last) with last in *. change (pieces_text [] last) with last in *.
    wp_use (wp_turn_last pre last (acc ++ done')); [done| |done|lia|cbn [length] in *; lia|].
    { intros ->. change (len []) with 0 in Hb. lia. }
    intros r2 s2 [[-> Hp2] | [-> Hb2]]; wp_step; rewrite Htext.
    + left. split; [done|]. eapply printed_trans; [by rewrite Ha1|].
      by rewrite Ha1 in Hp2.
    + right. split; [done|]. by eapply broke_after.
  - apply Forall_cons in Hqs as [Hq Hqs]. cbn [length] in *.
    wp_use (wp_next_piece pre q qs last (acc ++ done')); [done|done|done|lia|lia|].
    intros r2 s2 [[-> Hp2] | [-> Hb2]]; wp_step.
    + exists (S (length qs)). split; [lia|].
      exists qs, (done' ++ fst q ++ dir_text (snd q)), (pre ++ fst q ++ dir_fmt (snd q)).
      rewrite pieces_text_cons in Htext. split; [done|]. split; [done|]. split.
      { rewrite pieces_fmt_cons. unfold c_str. by rewrite <- !app_assoc. }
      split; [done|]. split; [rewrite Htext; by rewrite <- !app_assoc|].
      eapply printed_trans; [by rewrite Ha1|done].
    + right. split; [done|]. rewrite Htext. by eapply broke_after.
Qed.

(** [FCGX_VFPrintF] puts the texts of the pieces on the stream and returns
    their length, or EOF on a stream that broke. *)
Lemma wp_VFPrintF ps last acc o :
  Forall piece_ok ps -> lit_ok last -> I acc o ->
  len (pieces_text ps last) < INT_MAX ->
  len (pieces_text ps last) + Z.of_nat (length ps) + 2 < Z.of_nat fuel ->
  wp (FCGX_VFPrintF fuel (c_str (pieces_fmt ps last)) (pieces_args ps)) (fun r o' =>
    (r = (len (pieces_text ps last), []) /\ I (acc ++ pieces_text ps last) o') \/
    (r = (-1, []) /\ cut acc (pieces_text ps last) o')) o.
Proof.
  intros Hps Hlast HI Hmax Hfuel. set (text := pieces_text ps last) in *.
  pose proof (len_nonneg text).
  assert (wp (format_all fuel (c_str (pieces_fmt ps last))) (fun r s' =>
    f_stores s' = [] /\ ((r = len text /\ I (acc ++ text) (f_out s')) \/
                         (r = -1 /\ cut acc text (f_out s'))))
    (mkFState o (pieces_args ps) None [] 0)) as Hall.
  { unfold format_all. wp_step.
    eapply wp_of_option; [by apply strlen_c_str, pieces_no_nul|]. wp_step.
    wp_use wp_format_loop; [done|done|done|exact HI|done|done|].
    intros r s' [[-> (_ & Hs & Hc & HI')] | [-> [Hs Hc]]]; wp_steps; cbn in *.
    - fold text in Hc, HI'. apply wp_assert; [unfold INT_MIN, INT_MAX in *; lia|]. wp_step. split; [done|]. left. split; [lia|done].
    - apply wp_assert; [done|]. wp_step. split; [done|]. by right. }
  unfold wp, FCGX_VFPrintF in *. destruct (format_all _ _ _) as [r s'|]; [|done].
  destruct Hall as [-> [[-> HI'] | [-> Hc]]]; [by left|by right].
Qed.
End Formats.

(** ** Every specifier fits in [fmtBuff] *)

Lemma digits_from_len_le k fuel up base n acc :
  1 < base -> 0 <= n < base ^ Z.of_nat k ->
  len (digits_from fuel up base n acc) <= Z.of_nat k + len acc.
Proof.
  intros Hb. revert k n acc. induction fuel as [|fuel IH]; intros k n acc Hn;
    cbn [digits_from]; [lia|].
  destruct (Z.leb_spec n 0); [lia|]. destruct k as [|k]; [cbn in Hn; lia|].
  rewrite Nat2Z.inj_succ, Z.pow_succ_r in Hn by lia.
  etrans; [apply (IH k)|rewrite len_cons; lia].
  split; [apply Z.div_pos; lia|]. apply Z.div_lt_upper_bound; lia.
Qed.

Lemma decimal_len_width v : Z.abs v <= 999999 -> len (decimal v) <= 7.
Proof.
  intros Hv. unfold decimal, digits. destruct (Z.ltb_spec v 0).
  - rewrite len_cons. pose proof (digits_from_len_le 6 64 false 10 (- v) []).
    change (10 ^ Z.of_nat 6) with 1000000 in *. change (len []) with 0 in *. lia.
  - destruct (v =? 0); [done|]. pose proof (digits_from_len_le 6 64 false 10 v []).
    change (10 ^ Z.of_nat 6) with 1000000 in *. change (len []) with 0 in *. lia.
Qed.

Section Specifiers.
Context `{Platform} `{Floats}.
Context (body : list Z) (Hbody : no_nul body).
Implicit Types (s : FState) (b : list Z).

(** the next [k] arguments are integers *)
Definition ints_left (k : nat) s : Prop :=
  exists zs rest, f_args s = map VInt zs ++ rest /\ (k <= length zs)%nat.

Lemma ints_left_S k s : ints_left (S k) s -> ints_left k s.
Proof. intros (zs & rest & Hs & Hk). exists zs, rest. split; [done|lia]. Qed.

Lemma wp_span_at p set Q s :
  0 <= p <= len body -> set 0 = false ->
  (forall n, 0 <= n <= len body - p -> Q n s) -> wp (span_at (c_str body) p set) Q s.
Proof.
  intros Hp Hz HQ. unfold span_at, c_str.
  rewrite drop_app_le by (unfold len in *; lia).
  assert (forall t, exists n, strspn (t ++ [0]) set = Some n /\ 0 <= n <= len t) as Hspan.
  { induction t as [|c t (n & Hn & Hr)]; cbn [app strspn].
    - exists 0. by rewrite Hz.
    - destruct (set c); [|exists 0; pose proof (len_nonneg t); rewrite len_cons; split; [done|lia]].
      exists (1 + n). rewrite Hn, len_cons. split; [done|lia]. }
  destruct (Hspan (drop (Z.to_nat p) body)) as (n & Hn & Hr).
  eapply wp_of_option; [done|]. apply HQ. unfold len in *. rewrite length_drop in Hr. lia.
Qed.

Lemma wp_char_at p Q s :
  0 <= p <= len body ->
  (forall c, (c <> 0 -> p < len body /\ body !! Z.to_nat p = Some c) -> Q c s) ->
  wp (char_at (c_str body) p) Q s.
Proof.
  intros Hp HQ. unfold char_at, c_str. replace (0 <=? p) with true by lia.
  destruct (decide (p = len body)) as [->|Hne].
  - eapply wp_of_option; [|by apply (HQ 0)].
    unfold len. rewrite Nat2Z.id. by apply list_lookup_middle.
  - destruct (lookup_lt_is_Some_2 body (Z.to_nat p)) as [c Hc]; [unfold len in *; lia|].
    eapply wp_of_option; [by apply lookup_app_l_Some|]. apply HQ. intros _. split; [lia|done].
Qed.

Lemma wp_store_fmt b cs Q s :
  len b + len cs <= FMT_BUFFLEN -> Q (b ++ cs) s -> wp (store_fmt b cs) Q s.
Proof. intros Hl HQ. unfold store_fmt. replace (_ <=? _) with true by lia. done. Qed.

Lemma wp_CopyAndAdvance b p n (Q : list Z * Z -> FState -> Prop) s :
  0 <= p -> 0 <= n -> p + n <= len body + 1 -> len b + n <= FMT_BUFFLEN ->
  (forall b', len b' = len b + n -> Q (b', p + n) s) ->
  wp (CopyAndAdvance (c_str body) b p n) Q s.
Proof.
  intros Hp Hn Hfit Hl HQ. unfold CopyAndAdvance.
  assert (len (c_str body) = len body + 1) as Hc by (unfold c_str; by rewrite len_app).
  assert (len (slice (c_str body) p (p + n)) = n) as Hsl by (rewrite slice_len; lia).
  wp_step. apply wp_mem_read; [lia..|]. wp_step. apply wp_store_fmt; [lia|]. wp_step.
  apply HQ. rewrite len_app. lia.
Qed.

Lemma wp_va_int k Q s :
  ints_left (S k) s -> (forall v s', ints_left k s' -> Q v s') -> wp va_int Q s.
Proof.
  intros (zs & rest & Ha & Hk) HQ. destruct zs as [|z zs]; [cbn in Hk; lia|].
  eapply wp_va_next; [exact Ha|done|]. apply HQ. exists zs, rest. split; [done|cbn in Hk; lia].
Qed.

Lemma wp_print_fmt b v (Q : list Z -> FState -> Prop) s :
  Z.abs v <= 999999 -> len b + 8 <= FMT_BUFFLEN ->
  (forall b', len b' <= len b + 7 -> Q b' s) -> wp (print_fmt b v) Q s.
Proof.
  intros Hv Hb HQ. unfold print_fmt. pose proof (decimal_len_width v Hv).
  wp_step. apply wp_store_fmt; [lia|]. wp_step.
  apply wp_store_fmt; [rewrite len_app; change (len [0]) with 1; lia|]. wp_step.
  apply HQ. rewrite len_app. lia.
Qed.

(** a scanner started at [lo] ends inside the format and leaves at most [m] characters in
    [fmtBuff] *)
Definition scanned (lo m : Z) b p : Prop := len b <= m /\ lo <= p <= len body.

Lemma wp_scan_flags b p s :
  len b <= 1 -> 0 <= p <= len body ->
  wp (scan_flags (c_str body) b p) (fun r s' => s' = s /\
    match r with Some (b', p') => scanned p 6 b' p' | None => True end) s.
Proof.
  intros Hb Hp. unfold scan_flags. wp_step. apply wp_span_at; [done|done|].
  intros n Hn. apply wp_if; intros H5; [unfold error_return; by wp_step|].
  wp_step. apply wp_CopyAndAdvance; [lia|lia|lia|unfold FMT_BUFFLEN; lia|].
  intros b' Hb'. unfold ok. wp_step. split; [done|]. split; lia.
Qed.

(** a width ['*'] at [p] whose argument is [INT_MIN]: [abs] is undefined on it *)
Definition star_min p s : Prop :=
  body !! Z.to_nat p = Some 42 /\ exists z rest, f_args s = VInt z :: rest /\ INT z = INT_MIN.

(** the argument of a width ['*'] is in the range, or refused, or [INT_MIN] *)
Lemma star_width_outcome k b p s (Hb : len b <= 6) (Hp : 0 <= p <= len body) :
  ints_left (S k) s -> body !! Z.to_nat p = Some 42 -> p < len body ->
  match (minWidth <- va_int ;; a <- ABS minWidth ;;
         if 999999 <? a then error_return
         else b <- print_fmt b minWidth ;; ok (b, p + 1, minWidth)) s with
  | Ret r s' => ints_left k s' /\ match r with Some (b', p', _) => scanned p 13 b' p' | None => True end
  | Fault f => f = UndefinedBehaviour /\ star_min p s
  end.
Proof.
  intros (zs & rest & Ha & Hk) H42 Hlt. destruct zs as [|z zs]; [cbn in Hk; lia|].
  apply bind_outcome. eapply wp_va_next; [exact Ha|done|].
  assert (ints_left k (set_f_args (map VInt zs ++ rest) s)) as Hs'.
  { exists zs, rest. split; [done|cbn in Hk; lia]. }
  unfold ABS, int_op. destruct (int_range (Z.abs (INT z))) eqn:Hr.
  - apply bind_outcome, wp_ret. apply wp_outcome.
    apply wp_if; intros Hv; [unfold error_return; by wp_step|].
    wp_step. apply wp_print_fmt; [lia|unfold FMT_BUFFLEN; lia|].
    intros b' Hb'. unfold ok. wp_step. split; [done|]. split; lia.
  - split; [done|]. split; [done|]. exists z, (map VInt zs ++ rest). split; [exact Ha|].
    unfold int_range, INT_MIN, INT_MAX, INT in *. zdiv.
Qed.

Lemma scan_width_outcome k b p s :
  len b <= 6 -> 0 <= p <= len body -> ints_left (S k) s ->
  match scan_width (c_str body) b p s with
  | Ret r s' => ints_left k s' /\ match r with Some (b', p', _) => scanned p 13 b' p' | None => True end
  | Fault f => f = UndefinedBehaviour /\ star_min p s
  end.
Proof.
  intros Hb Hp Ha. pose proof (ints_left_S k s Ha) as Hk.
  unfold scan_width. apply bind_outcome, wp_span_at; [done|done|].
  intros n Hn. destruct (Z.eqb_spec n 0) as [->|Hn0].
  - apply bind_outcome, wp_char_at; [done|]. intros c Hc.
    destruct (Z.eqb_spec c 42) as [->|]; [by destruct Hc; [|apply star_width_outcome]|].
    unfold ok. cbn. split; [done|]. split; lia.
  - apply wp_outcome. apply wp_if; intros H6; [|unfold error_return; by wp_step].
    assert (len (c_str body) = len body + 1) by (unfold c_str; by rewrite len_app).
    wp_step. apply wp_mem_read; [lia..|]. wp_step.
    apply wp_CopyAndAdvance; [lia|lia|lia|unfold FMT_BUFFLEN; lia|].
    intros b' Hb'. unfold ok. wp_step. split; [done|]. split; lia.
Qed.

Lemma wp_scan_precision k b p s :
  len b <= 13 -> 0 <= p <= len body -> ints_left (S k) s ->
  wp (scan_precision (c_str body) b p) (fun r s' =>
    ints_left k s' /\ match r with Some (b', p', _) => scanned p 21 b' p' | None => True end) s.
Proof.
  intros Hb Hp Ha. pose proof (ints_left_S k s Ha) as Hk.
  unfold scan_precision. wp_step. apply wp_char_at; [done|]. intros c Hc.
  apply wp_if; intros Hdot; [|unfold ok; wp_step; split; [done|]; split; lia].
  wp_step. apply wp_CopyAndAdvance; [lia|lia|lia|unfold FMT_BUFFLEN; lia|].
  intros b1 Hb1. wp_step. apply wp_span_at; [lia|done|].
  intros n Hn. apply wp_if; intros Hn0.
  - wp_step. apply wp_char_at; [lia|]. intros c' Hc'. apply wp_if; intros Hstar.
    + wp_step. eapply wp_va_int; [done|]. intros v s' Ha'. cbv zeta.
      apply wp_if; intros Hv; [unfold error_return; by wp_step|].
      wp_step. apply wp_print_fmt; [case_if E; lia|unfold FMT_BUFFLEN; lia|].
      intros b' Hb'. unfold ok. wp_step. split; [done|]. split; lia.
    + unfold ok. wp_step. split; [done|]. split; lia.
  - apply wp_if; intros H6; [|unfold error_return; by wp_step].
    assert (len (c_str body) = len body + 1) by (unfold c_str; by rewrite len_app).
    wp_step. apply wp_mem_read; [lia..|]. wp_step.
    apply wp_CopyAndAdvance; [lia|lia|lia|unfold FMT_BUFFLEN; lia|].
    intros b' Hb'. unfold ok. wp_step. split; [done|]. split; lia.
Qed.

Lemma wp_scan_op b p s :
  len b <= 21 -> 0 <= p <= len body ->
  wp (scan_op (c_str body) b p) (fun r s' => s' = s /\ let '(b', p', _, _) := r in
    len b' <= 23 /\ p < p' <= len body + 1) s.
Proof.
  intros Hb Hp. unfold scan_op. wp_step. apply wp_char_at; [done|]. intros c Hc. wp_step.
  eapply (wp_mono _ (fun r s' => s' = s /\ let '(b', p', _) := r in
    len b' <= 22 /\ p <= p' <= len body)).
  { apply wp_if; intros Hm; [|wp_step; split; [done|]; lia].
    wp_step. apply wp_CopyAndAdvance; [lia|lia| |unfold FMT_BUFFLEN; lia|].
    - lia.
    - intros b' Hb'. wp_step. split; [done|]. split; [lia|].
      destruct (decide (c = 0)) as [->|]; [done|]. lia. }
  intros [[b1 p1] z] s' (-> & Hb1 & Hp1). wp_step. apply wp_char_at; [lia|].
  intros c' Hc'. wp_step. apply wp_CopyAndAdvance; [lia|lia|lia|unfold FMT_BUFFLEN; lia|].
  intros b2 Hb2. wp_step. apply wp_assert; [unfold FMT_BUFFLEN; lia|]. wp_step.
  apply wp_store_fmt; [unfold FMT_BUFFLEN; change (len [0]) with 1; lia|]. wp_step.
  split; [done|]. lia.
Qed.

(** the slow path scans every specifier without overflowing [fmtBuff] or
    failing its assertion, unless [abs] is asked for that of [INT_MIN] *)
Lemma scan_spec_outcome percentPtr s :
  0 <= percentPtr < len body -> ints_left 2 s ->
  match scan_spec (c_str body) percentPtr s with
  | Ret (Some (b, p, _, _, _, _)) _ => len b < FMT_BUFFLEN /\ percentPtr < p <= len body + 1
  | Ret None _ => True
  | Fault f => f = UndefinedBehaviour /\ exists p, percentPtr < p /\ star_min p s
  end.
Proof.
  intros Hp Ha. unfold scan_spec, bind_err. apply bind_outcome.
  wp_use wp_scan_flags; [done|lia|]. intros [[b p]|] s' [-> Hr]; [|done].
  destruct Hr. pose proof (scan_width_outcome 1 b p s) as Hw. apply bind_outcomes.
  destruct (scan_width _ _ _ _) as [r s1|f].
  2: { destruct Hw as [-> Hw]; [done|lia|done|]. split; [done|]. exists p. split; [lia|done]. }
  destruct Hw as [Ha1 Hr1]; [done|lia|done|]. destruct r as [[[b1 p1] w]|]; [|done]. destruct Hr1.
  apply (wp_outcome (fun x => match x with
    | Ret (Some (b, p, _, _, _, _)) _ => len b < FMT_BUFFLEN /\ percentPtr < p <= len body + 1
    | Ret None _ => True | Fault _ => _ end)).
  wp_step. wp_use (wp_scan_precision 0); [done|lia|done|].
  intros [[[b2 p2] pr]|] s2 [Ha2 Hr2]; [|by wp_step].
  destruct Hr2. wp_step. wp_use wp_scan_op; [done|lia|].
  intros [[[b3 p3] z] o] s3 (-> & Hb3 & Hp3). unfold ok. wp_step.
  unfold FMT_BUFFLEN. lia.
Qed.
End Specifiers.

(** ** A wide field overflows the buffer *)

Lemma pad_len f z prefix body : c_width f <= len (pad f z prefix body).
Proof.
  unfold pad. set (room := c_width f - len prefix - len body).
  assert (room <= len (blanks room) /\ room <= len (zeros room)) as [Hb Hz].
  { unfold blanks, zeros, len. rewrite !length_replicate. lia. }
  destruct (has_flag f 45); [|destruct (has_flag f 48 && z)]; rewrite !len_app; lia.
Qed.

Lemma text_signed_len f z : c_width f <= len (text_signed f z).
Proof. apply pad_len. Qed.

Lemma digits_from_head fuel n acc : 0 < n < 10 ^ Z.of_nat fuel ->
  exists c t, digits_from fuel false 10 n acc = c :: t /\ 49 <= c <= 57.
Proof.
  revert n acc. induction fuel as [|fuel IH]; intros n acc Hn; cbn [digits_from]; [cbn in Hn; lia|].
  destruct (Z.leb_spec n 0); [lia|].
  replace (n mod 10 <? 10) with true by zdiv.
  destruct (decide (n < 10)) as [Hlt|Hge].
  - rewrite Z.div_small, Z.mod_small by lia. exists (48 + n), acc.
    split; [by destruct fuel|lia].
  - apply IH. rewrite Nat2Z.inj_succ, Z.pow_succ_r in Hn by lia. split; [zdiv|].
    apply Z.div_lt_upper_bound; lia.
Qed.

Lemma span_app set l c r : Forall (fun x => set x = true) l -> set c = false ->
  span set (l ++ c :: r) = (l, c :: r).
Proof.
  intros Hl Hc. induction Hl as [|x l Hx _ IH]; cbn; [by rewrite Hc|]. by rewrite Hx, IH.
Qed.

Lemma strspn_app set l c r : Forall (fun x => set x = true) l -> set c = false ->
  strspn (l ++ c :: r) set = Some (len l).
Proof.
  intros Hl Hc. induction Hl as [|x l Hx _ IH]; cbn; [by rewrite Hc|].
  rewrite Hx, IH. cbn. by rewrite len_cons.
Qed.

(** the format ["%<w>d"] *)
Definition wide_fmt (w : Z) : list Z := 37 :: digits false 10 w ++ [100].

Lemma digits_are_digits n : Forall (fun c => is_digit c = true) (digits false 10 n).
Proof.
  apply digits_from_chars; [done| |lia|constructor].
  intros d Hd. unfold is_digit. lia.
Qed.

(** a conversion that starts with a digit from 1 to 9 is not a fast one *)
Lemma digit_slow `{Platform} `{Floats} c l : 49 <= c <= 57 ->
  among c "-0+ #" = false /\ among c "lLh" = false /\
  convert (mkConv c 32 [37; c] 2 l true NoArg) = ok None.
Proof.
  intros Hc.
  assert (c = 49 \/ c = 50 \/ c = 51 \/ c = 52 \/ c = 53 \/ c = 54 \/ c = 55 \/ c = 56 \/ c = 57)
    as Hcases by lia.
  decompose [or] Hcases; subst c; done.
Qed.

Lemma slice_middle a b c i j : i = len a -> j = len a + len b -> slice (a ++ b ++ c) i j = b.
Proof.
  intros -> ->. unfold slice, len. rewrite Nat2Z.id, drop_app_length.
  replace (Z.to_nat _) with (length b) by lia. by rewrite take_app_length.
Qed.

(** lengths of concrete pieces of [fmtBuff] *)
Ltac lens := repeat (rewrite len_app || rewrite len_cons); change (len []) with 0; unfold FMT_BUFFLEN; lia.

Section Wide.
Context `{Reliable} `{Floats}.
Context (w : Z) (Hw : 100 <= w <= 999999).
Implicit Types s : FState.

Let D := digits false 10 w.

Lemma wide_digits : exists c t, D = c :: t /\ 49 <= c <= 57.
Proof. apply digits_from_head. split; [lia|]. eapply Z.le_lt_trans; [apply Hw|by vm_compute]. Qed.

Lemma wide_len : 1 <= len D <= 6.
Proof.
  split; [apply digits_nonempty; lia|]. unfold D, digits.
  pose proof (digits_from_len_le 6 64 false 10 w []).
  change (10 ^ Z.of_nat 6) with 1000000 in *. change (len []) with 0 in *. lia.
Qed.

Lemma wide_fmt_split : c_str (wide_fmt w) = [37] ++ D ++ [100; 0].
Proof. unfold c_str, wide_fmt. cbn. by rewrite <- app_assoc. Qed.

Lemma wp_copy_digits b n (Q : list Z * Z -> FState -> Prop) s :
  0 <= n <= len D -> len b + n <= FMT_BUFFLEN ->
  Q (b ++ take (Z.to_nat n) D, 1 + n) s ->
  wp (CopyAndAdvance (c_str (wide_fmt w)) b 1 n) Q s.
Proof.
  intros Hn Hb HQ. unfold CopyAndAdvance. rewrite wide_fmt_split.
  pose proof (len_nonneg b).
  wp_step. apply wp_mem_read; [lia|lia|rewrite !len_app; change (len [37]) with 1; change (len [100; 0]) with 2; lia|].
  assert (slice ([37] ++ D ++ [100; 0]) 1 (1 + n) = take (Z.to_nat n) D) as ->.
  { unfold slice. change (drop (Z.to_nat 1) ([37] ++ D ++ [100; 0])) with (D ++ [100; 0]).
    replace (1 + n - 1) with n by lia. apply take_app_le. unfold len in *. lia. }
  wp_step. apply wp_store_fmt.
  - unfold len in *. rewrite length_take. lia.
  - by wp_step.
Qed.

Lemma wp_scan_width_wide b (Q : option (list Z * Z * Z) -> FState -> Prop) s :
  len b + len D <= FMT_BUFFLEN -> Q (Some (b ++ D, 1 + len D, w)) s ->
  wp (scan_width (c_str (wide_fmt w)) b 1) Q s.
Proof.
  intros Hb HQ. pose proof wide_len as Hl. unfold scan_width, span_at.
  wp_step. eapply wp_of_option.
  { rewrite wide_fmt_split. change (drop _ _) with (D ++ [100; 0]).
    apply strspn_app; [apply digits_are_digits|done]. }
  replace (len D =? 0) with false by lia. replace (len D <=? 6) with true by lia.
  wp_step. apply wp_mem_read; [lia|lia|rewrite wide_fmt_split; lens|].
  replace (slice (c_str (wide_fmt w)) 1 (1 + len D)) with D
    by (rewrite wide_fmt_split; symmetry; by apply slice_middle).
  wp_step. apply wp_copy_digits; [lia|done|].
  replace (take _ D) with D by (unfold len; rewrite Nat2Z.id; by rewrite take_ge).
  replace (digits_value D) with w; [unfold ok; by wp_step|].
  symmetry. apply digits_value_digits. split; [lia|].
  eapply Z.le_lt_trans; [apply Hw|by vm_compute].
Qed.

Lemma wp_char_at_op (Q : Z -> FState -> Prop) s :
  Q 100 s -> wp (char_at (c_str (wide_fmt w)) (1 + len D)) Q s.
Proof.
  intros HQ. rewrite wide_fmt_split, app_assoc. apply char_at_app; [|done].
  by rewrite len_app.
Qed.

Lemma wp_scan_op_wide b (Q : list Z * Z * Z * Z -> FState -> Prop) s :
  len b + 1 < FMT_BUFFLEN -> Q (b ++ [100], len D + 2, 32, 100) s ->
  wp (scan_op (c_str (wide_fmt w)) b (1 + len D)) Q s.
Proof.
  intros Hb HQ. pose proof (len_nonneg D).
  unfold scan_op. wp_step. apply wp_char_at_op. change (among 100 "lLh") with false. wp_steps.
  apply wp_char_at_op. wp_step. unfold CopyAndAdvance. rewrite wide_fmt_split. wp_step.
  apply wp_mem_read; [lia|lia|lens|].
  rewrite (app_assoc [37]), (slice_middle ([37] ++ D) [100] [0]) by lens.
  unfold FMT_BUFFLEN in Hb.
  wp_step. apply wp_store_fmt; [lens|].
  wp_steps. apply wp_assert; [lens|]. wp_step. apply wp_store_fmt; [lens|].
  wp_step. by replace (1 + len D + 1) with (len D + 2) by lia.
Qed.

Lemma wp_scan_spec_wide s :
  wp (scan_spec (c_str (wide_fmt w)) 0) (fun r s' =>
    r = Some (37 :: D ++ [100], len D + 2, w, -1, 32, 100) /\ s' = s) s.
Proof.
  destruct wide_digits as (c & t & HD & Hc). pose proof wide_len as Hl.
  destruct (digit_slow c 0 Hc) as (Hfl & _ & _).
  unfold scan_spec, bind_err. wp_step. unfold scan_flags, span_at. wp_step.
  eapply wp_of_option.
  { rewrite wide_fmt_split, HD. change (drop _ _) with (c :: t ++ [100; 0]).
    cbn [strspn]. by rewrite Hfl. }
  change (5 <? 0) with false. wp_steps. apply wp_copy_digits; [lia|done|].
  change ([37] ++ take (Z.to_nat 0) D) with [37]. unfold ok. wp_steps.
  change (1 + 0) with 1. apply wp_scan_width_wide; [lens|]. wp_step.
  unfold scan_precision. wp_step. apply wp_char_at_op. change (100 =? 46) with false.
  unfold ok. wp_steps. apply wp_scan_op_wide; [lens|]. by wp_step.
Qed.

(** the buffer is exactly as long as the field, so there is no room for the
    terminating NUL *)
Lemma wp_scan_slow_wide v s : f_args s = v :: [] -> f_aux s = None ->
  wp (scan_slow (c_str (wide_fmt w)) 0) (fun r s' => f_args s' = [v] /\
    r = Some (mkConv 100 32 (37 :: D ++ [100]) (len D + 2) w false NoArg)) s.
Proof.
  intros Ha Hx. unfold scan_slow, bind_err. wp_step. wp_use wp_scan_spec_wide.
  intros r s' [-> ->]. change (buffer_bound 100 32 (-1)) with (ok (S := FState) (46, NoArg)).
  unfold ok. wp_steps. replace (Z.max (46 + 10) w) with w by lia.
  rewrite Z.sub_0_r. unfold choose_buffer, PRINTF_BUFFLEN. apply wp_if; intros Hb.
  - wp_steps. replace w with 100 by lia. done.
  - wp_steps. rewrite Hx. wp_steps. apply wp_zoom. unfold lift_os. apply wp_zoom.
    wp_use wp_Malloc; [lia|]. intros a o' _. wp_steps. done.
Qed.

Lemma wide_parse : parse_spec (37 :: D ++ [100]) = mkCspec [] w None 100.
Proof.
  destruct wide_digits as (c & t & HD & Hc).
  destruct (digit_slow c 0 Hc) as (Hfl & _ & _). unfold parse_spec. cbn [tail].
  rewrite HD at 1. cbn [app span]. rewrite Hfl.
  change (c :: t ++ [100]) with ((c :: t) ++ [100]). rewrite <- HD, span_app.
  - cbn. f_equal. apply digits_value_digits. split; [lia|].
    eapply Z.le_lt_trans; [apply Hw|by vm_compute].
  - apply digits_are_digits.
  - done.
Qed.

Lemma conversion_wide z s : f_args s = [VInt z] -> f_aux s = None ->
  conversion (c_str (wide_fmt w)) 0 s = Fault UndefinedBehaviour.
Proof.
  intros Ha Hx. destruct wide_digits as (c & t & HD & Hc).
  destruct (digit_slow c PRINTF_BUFFLEN Hc) as (_ & Hm & Hconv).
  assert (scan_fast (c_str (wide_fmt w)) 0 s =
          Ret (mkConv c 32 [37; c] 2 PRINTF_BUFFLEN true NoArg) s) as Hfast.
  { assert (wp (scan_fast (c_str (wide_fmt w)) 0) (fun k s' =>
      k = mkConv c 32 [37; c] 2 PRINTF_BUFFLEN true NoArg /\ s' = s) s) as Hwp.
    { rewrite wide_fmt_split, HD. by apply (wp_scan_fast_plain [] c (t ++ [100; 0])). }
    apply wp_Ret in Hwp as (k & s' & Hf & -> & ->). done. }
  destruct (proj1 (wp_Ret _ _ _) (wp_scan_slow_wide (VInt z) s Ha Hx)) as (r & s' & Hslow & Ha' & ->).
  unfold conversion, bind_err, bind. rewrite Hfast, Hconv. unfold ok, ret. rewrite Hslow.
  match goal with |- context [convert ?k] => change (convert k) with (signed_op k) end.
  unfold signed_op, bind. cbn [sizeModifier fmtBuff]. size_case.
  unfold va_int, va_next, bind, get, modify, of_option, ret. rewrite Ha'.
  unfold sprintf. rewrite wide_parse. cbn [buffLen].
  pose proof (text_signed_len (mkCspec [] w None 100) (INT z)) as Hp. cbn [c_width] in Hp.
  by replace (_ <=? w) with false by lia.
Qed.

(** a field of 100 characters or more overflows the buffer *)
Lemma VFPrintF_wide_field fuel z o :
  FCGX_VFPrintF (S fuel) (c_str (wide_fmt w)) [VInt z] o = Fault UndefinedBehaviour.
Proof.
  unfold FCGX_VFPrintF. set (s := mkFState _ _ _ _ _).
  assert (strlen (c_str (wide_fmt w)) = Some (len D + 2)) as Hlen.
  { unfold wide_fmt. rewrite strlen_c_str.
    - f_equal. fold D. lens.
    - apply no_nul_cons. split; [lia|]. apply Forall_app.
      split; [by apply digits_no_nul|]. by repeat constructor. }
  pose proof wide_len as Hl.
  unfold format_all, format_loop, bind. rewrite Hlen. unfold of_option, ret.
  rewrite loop_unfold. unfold bind. replace (0 =? len D + 2) with false by lia.
  unfold format_turn, bind.
  replace (memchr _ 37 _) with (Some (Some 0)).
  2: { change (drop _ _) with (c_str (wide_fmt w)). rewrite wide_fmt_split.
       replace (Z.to_nat _) with (S (Z.to_nat (len D + 1))) by lia. done. }
  unfold of_option, ret, copy_text. rewrite Z.eqb_refl. unfold bind_err, bind, ok, ret.
  replace (0 + 0 =? len D + 2) with false by lia.
  change (0 + 0) with 0. by rewrite (conversion_wide z).
Qed.
End Wide.
