(* ===== verification/Reader.v ===== *)
(** * Input streams

    The reading half of [fcgiapp.c]: [FCGX_GetChar], [FCGX_GetStr],
    [FCGX_GetLine], [FCGX_UnGetChar], the parser of name-value pairs
    ([ReadParams]) and the record demultiplexer behind an input stream:
    [FillBuffProc], [ProcessHeader], [ProcessBeginRecord],
    [ProcessManagementRecord], with [SetReaderType] and
    [FCGX_StartFilterData].

    The demultiplexer calls itself once: while [ProcessHeader] reads the
    content of a record through the stream, [eorStop] makes the inner call
    stop at the end of that record.  The stream's procedure is therefore an
    argument ([fill]) of everything that reads through it, and
    [FillBuffProc_depth] ties the knot. *)

From S2P Require Import Prelude CString Protocol Platform Params Stream Writer.

(** return codes of the [Process*] functions *)
Definition STREAM_RECORD : Z := 0.
Definition SKIP : Z := 1.
Definition BEGIN_RECORD : Z := 2.
Definition MGMT_RECORD : Z := 3.

Section Operations.
Context `{Platform}.

(** fuel of the loops *)
Variable fuel : nat.

(** ** Reading through [fillBuffProc] *)

Section WithFill.
Variable fill : M SState unit.

(** [stream->fillBuffProc(stream)] *)
Definition call_fillBuffProc : M SState unit :=
  st <- get_stm ;;
  match fillBuffProc st with
  | FillBuffProc_ptr => fill
  | _ => undef
  end.

(** [memcpy] of [m] bytes from [rdNext], which advances *)
Definition take_bytes (m : Z) : M SState (list Z) :=
  st <- get_stm ;;
  bs <- buff_read (rdNext st) m ;;
  upd_stm (fun st => set_rdNext (rdNext st + m) st) ;;;
  ret bs.

(** [*stream->rdNext++] *)
Definition next_byte : M SState Z :=
  bs <- take_bytes 1 ;; of_option (head bs).

Definition FCGX_GetChar : M SState Z :=
  st <- get_stm ;;
  if isClosed st || negb (isReader st) then ret EOF
  else if negb (rdNext st =? stop st) then next_byte
  else
    call_fillBuffProc ;;;
    st <- get_stm ;;
    if isClosed st then ret EOF
    else
      upd_stm (fun st => set_stopUnget (Some (rdNext st)) st) ;;;
      if negb (rdNext st =? stop st) then next_byte
      else assert (isClosed st) ;;; ret EOF.

(** The bytes stored in [str] are the result; their number is what the C
    function returns.  The loop's variable is what was stored so far. *)
Definition GetStr_body (n : Z) (acc : list Z) : M SState (list Z + list Z) :=
  st <- get_stm ;;
  acc' <- (if negb (rdNext st =? stop st) then
             bs <- take_bytes (Z.min (n - len acc) (stop st - rdNext st)) ;;
             ret (acc ++ bs)
           else ret acc) ;;
  let moved := len acc' in
  let done := assert ((INT_MIN <=? moved) && (moved <=? INT_MAX)) ;;; ret (inr acc') in
  if negb (rdNext st =? stop st) && (moved =? n) then done
  else
    st <- get_stm ;;
    if isClosed st || negb (isReader st) then done
    else
      call_fillBuffProc ;;;
      st <- get_stm ;;
      if isClosed st then done
      else
        upd_stm (fun st => set_stopUnget (Some (rdNext st)) st) ;;;
        ret (inl acc').

Definition FCGX_GetStr (n : Z) : M SState (list Z) :=
  st <- get_stm ;;
  if isClosed st || negb (isReader st) || (n <=? 0) then ret []
  else if n <=? stop st - rdNext st then take_bytes n
  else loop fuel (GetStr_body n) [].

(** The line stored in [str], without its terminating NUL, or [None] for a
    null result.  The loop's variable is [n] and what was stored. *)
Definition FCGX_GetLine (n : Z) : M SState (option (list Z)) :=
  loop fuel (fun '(n, p) =>
    if 0 <? n then
      c <- FCGX_GetChar ;;
      if c =? EOF then
        ret (inr (if bool_decide (p = []) then None else Some p))
      else
        let p' := p ++ [UCHAR c] in
        if c =? 10 then ret (inr (Some p')) else ret (inl (n - 1, p'))
    else ret (inr (Some p))) (n - 1, []).

(** ** Name-value pairs *)

(** a length of one byte, or of four when the high bit of the first is set *)
Definition read_length (first : Z) : M SState (option Z) :=
  if negb (Z.land first 128 =? 0) then
    lenBuff <- FCGX_GetStr 3 ;;
    match lenBuff with
    | [b0; b1; b2] =>
        ret (Some (Z.shiftl (Z.land first 127) 24 + Z.shiftl b0 16
                   + Z.shiftl b1 8 + b2))
    | _ => SetError FCGX_PARAMS_ERROR ;;; ret None
    end
  else ret (Some first).

(** the name and the value, once their lengths are known *)
Definition read_pair (p : Params) (nameLen valueLen : Z) : M SState (Params + Z * Params) :=
  let failed := SetError FCGX_PARAMS_ERROR ;;; ret (inr (-1, p)) in
  size <- int_op (nameLen + valueLen) ;;
  size <- int_op (size + 2) ;;
  _ <- lift_os (Malloc size) ;;
  name <- FCGX_GetStr nameLen ;;
  if negb (len name =? nameLen) then failed
  else
    value <- FCGX_GetStr valueLen ;;
    if negb (len value =? valueLen) then failed
    else
      p' <- lift_os (PutParam p (param_string (name, value))) ;;
      ret (inl p').

(** one turn of the loop: a pair is read and added to the vector *)
Definition ReadParams_body (p : Params) : M SState (Params + Z * Params) :=
  let failed := SetError FCGX_PARAMS_ERROR ;;; ret (inr (-1, p)) in
  c <- FCGX_GetChar ;;
  if c =? EOF then ret (inr (0, p))
  else
    nl <- read_length c ;;
    match nl with
    | None => ret (inr (-1, p))
    | Some nameLen =>
        c <- FCGX_GetChar ;;
        if c =? EOF then failed
        else
          vl <- read_length c ;;
          match vl with
          | None => ret (inr (-1, p))
          | Some valueLen => read_pair p nameLen valueLen
          end
    end.

Definition ReadParams (p : Params) : M SState (Z * Params) :=
  loop fuel ReadParams_body p.

(** ** Records that are not stream data *)

(** [*(strchr(name, '=')) = '\0']: undefined when there is no '=' before
    the first NUL *)
Definition cut_name (s : list Z) : option (list Z) :=
  match strchr s 61 with
  | Some (Some i) => Some (<[Z.to_nat i := 0]> s)
  | _ => None
  end.

(** the value this library answers for a variable *)
Definition mgmt_value (name : list Z) : option (option Z) :=
  match strcmp name (c_str FCGI_MAX_CONNS) with
  | None => None
  | Some d =>
      if d =? 0 then Some (Some 49)
      else match strcmp name (c_str FCGI_MAX_REQS) with
           | None => None
           | Some d =>
               if d =? 0 then Some (Some 49)
               else match strcmp name (c_str FCGI_MPXS_CONNS) with
                    | None => None
                    | Some d => if d =? 0 then Some (Some 48) else Some None
                    end
           end
  end.

(** the loop over the variables asked for: [response] is the local array,
    [rp] the offset of [responseP]; [sprintf] stores a NUL after what it
    prints *)
Fixpoint answer_values (vars : list cell) (response : list Z) (rp : Z)
    : M SState (list Z * Z) :=
  match vars with
  | [] => ret (response, rp)
  | Str s :: vars' =>
      name <- of_option (cut_name s) ;;
      v <- of_option (mgmt_value name) ;;
      match v with
      | Some value =>
          n <- of_option (strlen name) ;;
          response' <- mem_write response rp
            ([UCHAR n; 1] ++ take (Z.to_nat n) name ++ [value; 0]) ;;
          answer_values vars' response' (rp + (n + 3))
      | None => answer_values vars' response rp
      end
  | _ => undef
  end.

(** the variables asked for; [None] when the record is not well-formed *)
Definition read_values (p : Params) : M SState (option Params) :=
  rp <- ReadParams p ;;
  let p := snd rp in
  e <- FCGX_GetError ;;
  d <- get_data ;;
  if negb (e =? 0) || negb (contentLen d =? 0) then
    _ <- lift_os (FreeParams (Some p)) ;;
    ret None
  else ret (Some p).

(** the answer to GET_VALUES in [response], and its padded length *)
Definition values_reply (p : Params) (response : list Z) : M SState (list Z * Z) :=
  r <- answer_values (take (Z.to_nat (cur p)) (vec p)) response FCGI_HEADER_LEN ;;
  let n := snd r - FCGI_HEADER_LEN in
  let paddedLen := AlignInt8 n in
  assert ((0 <=? n) && (n <=? INT_MAX)) ;;;
  assert ((0 <=? paddedLen - n) && (paddedLen - n <=? INT_MAX)) ;;;
  h <- MakeHeader FCGI_GET_VALUES_RESULT FCGI_NULL_REQUEST_ID n (paddedLen - n) ;;
  response <- mem_write (fst r) 0 (header_bytes h) ;;
  _ <- lift_os (FreeParams (Some p)) ;;
  ret (response, paddedLen).

Definition unknown_reply (ty : Z) (response : list Z) : M SState (list Z * Z) :=
  h <- MakeHeader FCGI_UNKNOWN_TYPE FCGI_NULL_REQUEST_ID 8 0 ;;
  response <- mem_write response 0
    (header_bytes h ++ unknown_body_bytes (MakeUnknownTypeBody ty)) ;;
  ret (response, 8).

Definition send_reply (response : list Z) (paddedLen : Z) : M SState Z :=
  r <- get_rq ;;
  bs <- mem_read response 0 (FCGI_HEADER_LEN + paddedLen) ;;
  n <- lift_os (write_it_all fuel (ipcFd r) bs) ;;
  if n <? 0 then e <- get_errno ;; SetError e ;;; ret (-1)
  else ret MGMT_RECORD.

Definition ProcessManagementRecord (ty : Z) : M SState Z :=
  p <- lift_os (NewParams 3) ;;
  response <- gets (fun s => (fun i => UCHAR (stack_fill (plat (os s)) (Z.of_nat i)))
                               <$> seq 0 64) ;;
  if ty =? FCGI_GET_VALUES then
    asked <- read_values p ;;
    match asked with
    | None => ret FCGX_PROTOCOL_ERROR
    | Some p => r <- values_reply p response ;; send_reply (fst r) (snd r)
    end
  else r <- unknown_reply ty response ;; send_reply (fst r) (snd r).

Definition ProcessBeginRecord (id : Z) : M SState Z :=
  d <- get_data ;;
  r <- get_rq ;;
  if (id =? 0) || negb (contentLen d =? sizeof_BeginRequestBody) then
    ret FCGX_PROTOCOL_ERROR
  else if isBeginProcessed r then
    h <- MakeHeader FCGI_END_REQUEST id 8 0 ;;
    n <- lift_os (write_it_all fuel (ipcFd r)
           (header_bytes h ++ end_body_bytes (MakeEndRequestBody 0 FCGI_CANT_MPX_CONN))) ;;
    if n <? 0 then e <- get_errno ;; SetError e ;;; ret (-1)
    else ret SKIP
  else
    upd_rq (set_requestId id) ;;;
    bs <- FCGX_GetStr sizeof_BeginRequestBody ;;
    if negb (len bs =? sizeof_BeginRequestBody) then ret FCGX_PROTOCOL_ERROR
    else
      body <- of_option (begin_body_of_bytes bs) ;;
      upd_rq (set_keepConnection (Z.land (flags_ body) FCGI_KEEP_CONN)) ;;;
      upd_rq (set_role (Z.shiftl (roleB1 body) 8 + roleB0 body)) ;;;
      upd_rq (set_isBeginProcessed true) ;;;
      ret BEGIN_RECORD.

Definition ProcessHeader (header : FCGI_Header) : M SState Z :=
  if negb (h_version header =? FCGI_VERSION_1) then ret FCGX_UNSUPPORTED_VERSION
  else
    let id := Z.shiftl (requestIdB1 header) 8 + requestIdB0 header in
    upd_data (set_contentLen
      (Z.shiftl (contentLengthB1 header) 8 + contentLengthB0 header)) ;;;
    upd_data (set_paddingLen (h_paddingLength header)) ;;;
    if h_type header =? FCGI_BEGIN_REQUEST then ProcessBeginRecord id
    else if id =? FCGI_NULL_REQUEST_ID then ProcessManagementRecord (h_type header)
    else
      r <- get_rq ;;
      if negb (id =? requestId r) then ret SKIP
      else
        d <- get_data ;;
        if negb (h_type header =? type d) then ret FCGX_PROTOCOL_ERROR
        else ret STREAM_RECORD.

(** ** The demultiplexer, one turn of its loop

    The loop's variable is the part of the next header read so far. *)

(** what the status of [ProcessHeader] leads to *)
Definition after_header (status : Z) : M SState (list Z + unit) :=
  if status =? STREAM_RECORD then
    d <- get_data ;;
    if contentLen d =? 0 then
      upd_stm (fun st => set_wrNext (rdNext st) (set_stop (rdNext st) st)) ;;;
      upd_stm (set_isClosed true) ;;;
      ret (inr tt)
    else ret (inl [])
  else if status =? SKIP then upd_data (set_skip true) ;;; ret (inl [])
  else if status =? BEGIN_RECORD then ret (inr tt)
  else if status =? MGMT_RECORD then ret (inl [])
  else assert (status <? 0) ;;; SetError status ;;; ret (inr tt).

(** fill the header from the buffer and interpret it *)
Definition fill_header (header : list Z) : M SState (list Z + unit) :=
  st <- get_stm ;;
  let ptrDiff := buffStop (data st) - rdNext st in
  assert ((0 <=? ptrDiff) && (ptrDiff <=? INT_MAX)) ;;;
  bs <- take_bytes (Z.min (FCGI_HEADER_LEN - len header) ptrDiff) ;;
  let header := header ++ bs in
  if len header <? FCGI_HEADER_LEN then ret (inl header)
  else
    upd_data (set_eorStop true) ;;;
    upd_stm (fun st => set_stop (rdNext st) st) ;;;
    h <- of_option (header_of_bytes header) ;;
    status <- ProcessHeader h ;;
    upd_data (set_eorStop false) ;;;
    upd_stm (set_isClosed false) ;;;
    after_header status.

(** the end of the current record, where a nested call delivers EOF *)
Definition end_of_record (header : list Z) : M SState (list Z + unit) :=
  d <- get_data ;;
  if eorStop d then
    upd_stm (fun st => set_stop (rdNext st) st) ;;;
    upd_stm (set_isClosed true) ;;;
    ret (inr tt)
  else fill_header header.

Definition skip_padding (header : list Z) : M SState (list Z + unit) :=
  st <- get_stm ;;
  let d := data st in
  if 0 <? paddingLen d then
    let ptrDiff := buffStop d - rdNext st in
    assert ((0 <=? ptrDiff) && (ptrDiff <=? INT_MAX)) ;;;
    let count := Z.min (paddingLen d) ptrDiff in
    upd_data (fun d => set_paddingLen (paddingLen d - count) d) ;;;
    upd_stm (fun st => set_rdNext (rdNext st + count) st) ;;;
    d <- get_data ;;
    if 0 <? paddingLen d then ret (inl header) else end_of_record header
  else end_of_record header.

Definition deliver_content (header : list Z) : M SState (list Z + unit) :=
  st <- get_stm ;;
  let d := data st in
  if 0 <? contentLen d then
    let ptrDiff := buffStop d - rdNext st in
    assert ((0 <=? ptrDiff) && (ptrDiff <=? INT_MAX)) ;;;
    let count := Z.min (contentLen d) ptrDiff in
    upd_data (fun d => set_contentLen (contentLen d - count) d) ;;;
    if negb (skip d) then
      upd_stm (fun st => set_wrNext (rdNext st + count) (set_stop (rdNext st + count) st)) ;;;
      ret (inr tt)
    else
      upd_stm (fun st => set_rdNext (rdNext st + count) st) ;;;
      d <- get_data ;;
      if 0 <? contentLen d then ret (inl header)
      else upd_data (set_skip false) ;;; skip_padding header
  else skip_padding header.

(** a read when the buffer is empty; [false] when it failed *)
Definition refill : M SState bool :=
  st <- get_stm ;;
  if rdNext st =? buffStop (data st) then
    r <- get_rq ;;
    res <- lift_os (OS_Read (ipcFd r) (bufflen (data st))) ;;
    let (count, bs) := (res : Z * list Z) in
    if count <=? 0 then
      e <- get_errno ;;
      SetError (if count =? 0 then FCGX_PROTOCOL_ERROR else e) ;;;
      ret false
    else
      buff_write 0 bs ;;;
      upd_stm (set_rdNext 0) ;;;
      upd_data (set_buffStop count) ;;;
      ret true
  else ret true.

Definition FillBuffProc_body (header : list Z) : M SState (list Z + unit) :=
  ok <- refill ;;
  if (ok : bool) then deliver_content header else ret (inr tt).
End WithFill.

Fixpoint FillBuffProc_depth (depth : nat) : M SState unit :=
  match depth with
  | O => fail OutOfFuel
  | S depth' => loop fuel (FillBuffProc_body (FillBuffProc_depth depth')) []
  end.

(** the outer call and the one nested in [ProcessHeader] *)
Definition FillBuffProc : M SState unit := FillBuffProc_depth 2.

(** ** Operations that do not read *)

Definition FCGX_UnGetChar (c : Z) : M SState Z :=
  st <- get_stm ;;
  if (c =? EOF) || isClosed st || negb (isReader st)
     || bool_decide (stopUnget st = Some (rdNext st)) then ret EOF
  else
    upd_stm (fun st => set_rdNext (rdNext st - 1) st) ;;;
    st <- get_stm ;;
    buff_write (rdNext st) [UCHAR c] ;;;
    ret c.

Definition SetReaderType (streamType : Z) : M SState unit :=
  st <- get_stm ;;
  assert (isReader st) ;;;
  upd_data (set_type streamType) ;;;
  upd_data (set_eorStop false) ;;;
  upd_data (set_skip false) ;;;
  upd_data (set_contentLen 0) ;;;
  upd_data (set_paddingLen 0) ;;;
  upd_stm (fun st => set_wrNext (rdNext st) (set_stop (rdNext st) st)) ;;;
  upd_stm (set_isClosed false).

Definition FCGX_StartFilterData : M SState Z :=
  r <- get_rq ;;
  st <- get_stm ;;
  if negb (role r =? FCGI_FILTER) || negb (isReader st) || negb (isClosed st)
     || negb (type (data st) =? FCGI_STDIN) then
    SetError FCGX_CALL_SEQ_ERROR ;;; ret (-1)
  else SetReaderType FCGI_DATA ;;; ret 0.
End Operations.
