(* ===== verification/Source.v ===== *)
(** * Reading through an interface

    [Source] is what the readers of [fcgiapp.c] need of the procedure behind
    [fillBuffProc]: an abstract input [c] of bytes still to come, the first of
    which are in the stream's buffer.  [FCGX_GetChar], [FCGX_GetStr],
    [FCGX_GetLine], [FCGX_UnGetChar] and [ReadParams] are verified against it;
    [Demux.v] shows that [FillBuffProc] provides it. *)

From S2P Require Import Prelude CString Protocol Platform Params Stream Reader.

(** ** The interface *)

Section Interface.
Context `{Platform}.
Implicit Types s : SState.

Record reader_ok s : Prop := {
  rd_reader : isReader (stm s) = true;
  rd_open : isClosed (stm s) = false;
  rd_proc : fillBuffProc (stm s) = FillBuffProc_ptr;
  rd_range : 0 <= rdNext (stm s) <= stop (stm s);
  rd_mem : stop (stm s) <= len (buff (data (stm s)));
  rd_bytes : bytes (buff (data (stm s)))
}.

Definition advance m s : SState :=
  set_stm (set_rdNext (rdNext (stm s) + m) (stm s)) s.

Definition mark_unget s : SState :=
  set_stm (set_stopUnget (Some (rdNext (stm s))) (stm s)) s.

Definition ungot b s : SState :=
  set_stm (set_data (set_buff (splice (buff (data (stm s))) (rdNext (stm s) - 1) [b])
    (data (stm s))) (set_rdNext (rdNext (stm s) - 1) (stm s))) s.

(** the limit of [FCGX_UnGetChar] is set, and not reached *)
Definition unget_ok s : Prop :=
  exists u, stopUnget (stm s) = Some u /\ 0 <= u <= rdNext (stm s).
Definition can_unget s : Prop :=
  exists u, stopUnget (stm s) = Some u /\ 0 <= u < rdNext (stm s).

(** the bytes between [rdNext] and [stop] *)
Definition ahead s : list Z :=
  slice (buff (data (stm s))) (rdNext (stm s)) (stop (stm s)).
End Interface.

(** [I c s]: in [s] the stream still has [c] to deliver; [E s]: its end was
    delivered. *)
Class Source `{PlatformLaws} (fill : M SState unit)
    (I : list Z -> SState -> Prop) (E : SState -> Prop) := {
  src_ready c s : I c s -> reader_ok s;
  src_ahead c s : I c s -> exists c', c = ahead s ++ c';
  src_advance c s m : I c s -> 0 <= m -> rdNext (stm s) + m <= stop (stm s) ->
    I (drop (Z.to_nat m) c) (advance m s);
  src_fill c s : I c s -> rdNext (stm s) = stop (stm s) ->
    wp fill (fun _ s' =>
      (isClosed (stm s') = true /\ c = [] /\ E s') \/
      (isClosed (stm s') = false /\ I c (mark_unget s') /\
       rdNext (stm s') < stop (stm s'))) s;
  src_mark c s : I c s -> rdNext (stm s) < stop (stm s) -> unget_ok s;
  src_unget c s b : I c s -> can_unget s -> is_byte b -> I (b :: c) (ungot b s);
  src_quiet c s o : I c s -> os_quiet (os s) o -> I c (set_os o s);
  src_end s : E s -> isClosed (stm s) = true
}.

(** the first line of [c], its newline included, cut at [k] bytes *)
Fixpoint line_of (k : nat) (c : list Z) : list Z :=
  match k, c with
  | S k', x :: c' => if x =? 10 then [x] else x :: line_of k' c'
  | _, _ => []
  end.

(** the line stops before the end of the input is seen *)
Definition line_complete (k : nat) (c : list Z) : Prop :=
  length (line_of k c) = k \/ last (line_of k c) = Some 10.

(** ** The readers *)

Section Readers.
Context `{PlatformLaws}.
Context (fuel : nat) (fill : M SState unit) (I : list Z -> SState -> Prop)
  (E : SState -> Prop) `{!Source fill I E}.
Implicit Types s : SState.

Lemma wp_take_bytes m s (Q : list Z -> SState -> Prop) :
  0 <= rdNext (stm s) -> 0 <= m -> rdNext (stm s) + m <= len (buff (data (stm s))) ->
  Q (slice (buff (data (stm s))) (rdNext (stm s)) (rdNext (stm s) + m)) (advance m s) ->
  wp (take_bytes m) Q s.
Proof. intros. unfold take_bytes. sstep. apply wp_buff_read; [done..|]. by sstep. Qed.

Lemma ahead_len s : reader_ok s -> len (ahead s) = stop (stm s) - rdNext (stm s).
Proof. intros []. unfold ahead. apply slice_len; lia. Qed.

Lemma src_room c s : I c s -> stop (stm s) - rdNext (stm s) <= len c.
Proof.
  intros HI. rewrite <- ahead_len by by eapply src_ready.
  destruct (src_ahead _ _ HI) as [c' ->]. rewrite len_app. pose proof (len_nonneg c'). lia.
Qed.

(** what [take_bytes] delivers *)
Lemma wp_take_src c m s (Q : list Z -> SState -> Prop) :
  I c s -> 0 <= m -> rdNext (stm s) + m <= stop (stm s) ->
  (I (drop (Z.to_nat m) c) (advance m s) -> Q (take (Z.to_nat m) c) (advance m s)) ->
  wp (take_bytes m) Q s.
Proof.
  intros HI Hm Hle HQ. destruct (src_ready _ _ HI) as [_ _ _ Hr Hmem _].
  apply wp_take_bytes; [lia..|].
  replace (slice _ _ _) with (take (Z.to_nat m) c); [by apply HQ, src_advance|].
  destruct (src_ahead _ _ HI) as [c' ->]. unfold ahead, slice.
  rewrite take_app_le, take_take by (rewrite length_take, length_drop; unfold len in *; lia).
  f_equal. lia.
Qed.

(** the next byte, when one is in the buffer *)
Lemma wp_next_byte c s (Q : Z -> SState -> Prop) :
  I c s -> rdNext (stm s) < stop (stm s) ->
  (forall x c', c = x :: c' -> is_byte x -> I c' (advance 1 s) -> Q x (advance 1 s)) ->
  wp next_byte Q s.
Proof.
  intros HI Hlt HQ. destruct (src_ready _ _ HI) as [_ _ _ Hr Hmem Hby].
  unfold next_byte. sstep. apply (wp_take_src c); [done|lia|lia|].
  destruct (src_ahead _ _ HI) as [c' Hc].
  destruct (slice_cons (buff (data (stm s))) (rdNext (stm s)) (stop (stm s)))
    as (x & Hx & Hs); [lia..|].
  unfold ahead in Hc. rewrite Hs in Hc. cbn in Hc. subst c.
  intros HI'. eapply wp_of_option; [done|]. eapply HQ; [done| |exact HI'].
  eapply Forall_lookup_1; [exact Hby|exact Hx].
Qed.

Lemma advance_mark c s : I c s -> rdNext (stm s) < stop (stm s) ->
  can_unget (advance 1 s).
Proof.
  intros HI Hlt. destruct (src_mark _ _ HI Hlt) as (u & Hu & Hle).
  exists u. cbn. split; [done|lia].
Qed.

Lemma wp_call_fill Q s : reader_ok s -> wp fill Q s -> wp (call_fillBuffProc fill) Q s.
Proof. intros [_ _ Hp _ _ _] HQ. unfold call_fillBuffProc. sstep. by rewrite Hp. Qed.

(** [FCGX_GetChar] delivers the next byte, which can be pushed back, or [EOF]. *)
Lemma wp_GetChar c s :
  I c s ->
  wp (FCGX_GetChar fill) (fun r s' =>
    (exists x c', c = x :: c' /\ r = x /\ is_byte x /\ I c' s' /\
       can_unget s') \/
    (c = [] /\ r = EOF /\ E s')) s.
Proof.
  intros HI. pose proof (src_ready _ _ HI) as [Hrd Hop Hpr Hr Hmem Hby].
  unfold FCGX_GetChar. sstep. rewrite Hrd, Hop. cbn [negb orb].
  destruct (Z.eqb_spec (rdNext (stm s)) (stop (stm s))) as [He|Hne]; cbn [negb].
  - sstep. apply wp_call_fill; [done|]. wp_use src_fill; [exact HI|done|].
    intros _ s' [(Hc & -> & HE) | (Hc & HI' & Hlt)]; sstep; rewrite Hc; sstep; [by right|].
    replace (_ =? _) with false by lia. cbn [negb].
    apply (wp_next_byte c (mark_unget s')); [done|done|].
    intros x c' -> Hx Hadv. left. exists x, c'.
    pose proof (advance_mark _ _ HI' Hlt). done.
  - apply (wp_next_byte c); [done|lia|]. intros x c' -> Hx HI'. left.
    exists x, c'. pose proof (advance_mark _ _ HI ltac:(lia)). done.
Qed.

(** what [FCGX_GetStr] is asked for, and what is left *)
Definition got_str (n : Z) (c : list Z) (r : list Z) s : Prop :=
  r = take (Z.to_nat n) c /\
  if n <=? len c then I (drop (Z.to_nat n) c) s else E s.

(** the copying half of a turn of the loop *)
Lemma wp_GetStr_copy n acc c s (Q : list Z -> SState -> Prop) :
  I c s -> 0 <= len acc < n ->
  (forall m, m = Z.min (n - len acc) (stop (stm s) - rdNext (stm s)) ->
     I (drop (Z.to_nat m) c) (advance m s) -> 0 <= m <= len c ->
     Q (acc ++ take (Z.to_nat m) c) (advance m s)) ->
  wp (if negb (rdNext (stm s) =? stop (stm s)) then
        bs <- take_bytes (Z.min (n - len acc) (stop (stm s) - rdNext (stm s))) ;;
        ret (acc ++ bs)
      else ret acc) Q s.
Proof.
  intros HI Hacc HQ. pose proof (src_ready _ _ HI) as [_ _ _ Hr _ _].
  pose proof (src_room _ _ HI) as Hroom.
  destruct (Z.eqb_spec (rdNext (stm s)) (stop (stm s))) as [He|Hne]; cbn [negb]; sstep.
  - specialize (HQ 0). change (Z.to_nat 0) with O in HQ. rewrite drop_0, take_0, app_nil_r in HQ.
    assert (advance 0 s = s) as Hs.
    { unfold advance. rewrite Z.add_0_r. by destruct s as [[] ? ?]. }
    rewrite Hs in HQ. apply HQ; [lia|done|lia].
  - apply (wp_take_src c); [done|lia|lia|]. intros HI'. sstep. by apply HQ; [| |lia].
Qed.

Definition str_measure (c : list Z) s : nat :=
  Z.to_nat (2 * len c + (if rdNext (stm s) =? stop (stm s) then 1 else 0)).

Lemma drop_len m (c : list Z) : 0 <= m <= len c -> len (drop (Z.to_nat m) c) = len c - m.
Proof. unfold len. intros. rewrite length_drop. lia. Qed.

(** one turn: it ends with the bytes asked for or at the end of the stream,
    or gets nearer to them *)
Lemma wp_GetStr_turn n acc c s :
  I c s -> len acc < n -> n <= INT_MAX ->
  wp (GetStr_body fill n acc) (fun r s' =>
    match r with
    | inl acc' => exists c', acc' ++ c' = acc ++ c /\ I c' s' /\ len acc' < n /\
                    (str_measure c' s' < str_measure c s)%nat
    | inr bs => got_str n (acc ++ c) bs s'
    end) s.
Proof.
  intros HI Hacc Hmax. pose proof (src_ready _ _ HI) as [_ _ _ Hr _ _].
  pose proof (len_nonneg acc). unfold GetStr_body. sstep.
  apply (wp_GetStr_copy n acc c); [done|lia|]. intros m Hm HI1 Hmc.
  pose proof (src_ready _ _ HI1) as Hok1. pose proof Hok1 as [Hrd1 Hop1 _ _ _ _].
  pose proof (drop_len m c Hmc) as Hdl. set (c1 := drop (Z.to_nat m) c) in *.
  assert (c = take (Z.to_nat m) c ++ c1) as Hsplit by (symmetry; apply take_drop).
  assert (len (acc ++ take (Z.to_nat m) c) = len acc + m) as Hl1.
  { rewrite len_app. unfold len in *. rewrite length_take. lia. }
  assert (acc ++ c = (acc ++ take (Z.to_nat m) c) ++ c1) as Hall
    by (rewrite <- app_assoc, <- Hsplit; done).
  set (acc1 := acc ++ take (Z.to_nat m) c) in *.
  assert (len (acc ++ c) = len acc + len c) as Hlc by apply len_app.
  rewrite Hl1. unfold got_str. apply wp_if; intros Hd.
  { sstep. apply wp_assert; [unfold INT_MIN, INT_MAX in *; lia|]. sstep.
    rewrite Hall. replace (Z.to_nat n) with (length acc1) by (unfold len in *; lia).
    rewrite take_app_length, drop_app_length, <- Hall.
    by replace (n <=? _) with true by lia. }
  sstep. rewrite Hop1, Hrd1. cbn [negb orb].
  assert (rdNext (stm (advance m s)) = stop (stm (advance m s))) as Hend.
  { cbn. destruct (Z.eqb_spec (rdNext (stm s)) (stop (stm s))); [lia|]. cbn [negb andb] in Hd. lia. }
  assert (len acc1 < n) as Hlt.
  { destruct (Z.eqb_spec (rdNext (stm s)) (stop (stm s))); cbn [negb andb] in Hd; lia. }
  sstep. apply wp_call_fill; [done|]. wp_use src_fill; [exact HI1|done|].
  intros _ s' [(Hc & Hnil & HE) | (Hc & HI' & Hlt')]; sstep; rewrite Hc.
  - sstep. apply wp_assert; [unfold INT_MIN, INT_MAX in *; lia|]. sstep.
    rewrite Hall, Hnil, app_nil_r.
    replace (n <=? len acc1) with false by lia.
    split; [|done]. rewrite take_ge; [done|unfold len in *; lia].
  - sstep. exists c1. split; [done|]. split; [done|]. split; [lia|].
    unfold str_measure. cbn. replace (rdNext (stm s') =? stop (stm s')) with false by lia.
    pose proof (len_nonneg c1).
    destruct (Z.eqb_spec (rdNext (stm s)) (stop (stm s))); lia.
Qed.

(** [FCGX_GetStr] delivers the next [n] bytes, or all that is left. *)
Lemma wp_GetStr n c s :
  I c s -> n <= INT_MAX -> 2 * len c + 2 < Z.of_nat fuel ->
  wp (FCGX_GetStr fuel fill n) (fun r s' =>
    if n <=? 0 then r = [] /\ s' = s else got_str n c r s') s.
Proof.
  intros HI Hmax Hf. pose proof (src_ready _ _ HI) as [Hrd Hop _ Hr _ _].
  unfold FCGX_GetStr. sstep. rewrite Hop, Hrd. cbn [negb orb].
  destruct (Z.leb_spec n 0); [by sstep|].
  apply wp_if; intros Hfast.
  - pose proof (src_room _ _ HI). apply (wp_take_src c); [done|lia|lia|].
    intros HI'. split; [done|]. by replace (n <=? len c) with true by lia.
  - apply (wp_loop (fun k acc s1 => exists c', acc ++ c' = c /\ I c' s1 /\ len acc < n /\
             (str_measure c' s1 <= k)%nat) _ _ _ (str_measure c s)).
    + intros k acc s1 (c' & <- & HI1 & Hacc & Hk).
      wp_use wp_GetStr_turn; [exact HI1|done|done|].
      intros [acc'|bs] s2; [|done]. intros (c2 & He & HI2 & Ha2 & Hm).
      exists (str_measure c2 s2). split; [lia|]. exists c2. done.
    + unfold str_measure. pose proof (len_nonneg c). destruct (_ =? _); lia.
    + exists c. split; [done|]. split; [done|]. split; [|done]. change (len []) with 0. lia.
Qed.

(** what the loop of [FCGX_GetLine] returns, with [p] stored and room for [k]
    more bytes *)
Definition got_line (k : nat) (p c : list Z) (r : option (list Z)) s : Prop :=
  r = (if bool_decide (p ++ line_of k c = [] /\ k <> O) then None
       else Some (p ++ line_of k c)) /\
  if bool_decide (line_complete k c) then I (drop (length (line_of k c)) c) s else E s.

Lemma got_line_cons k p x c r s : x <> 10 ->
  got_line k (p ++ [x]) c r s -> got_line (S k) p (x :: c) r s.
Proof.
  intros Hx [-> HI]. unfold got_line, line_complete in *. cbn [line_of].
  destruct (Z.eqb_spec x 10); [done|]. rewrite <- app_assoc in *. cbn [app length drop] in *.
  split.
  - rewrite !bool_decide_eq_false_2; [done|..];
      intros [Hn _]; by apply app_eq_nil in Hn as [_ ?].
  - erewrite bool_decide_ext; [exact HI|].
    rewrite (Nat.succ_inj_wd (length _)). destruct (line_of k c) as [|y l]; [|done].
    cbn. split; intros [?|[= ?]]; try done; by left.
Qed.

(** [FCGX_GetLine] delivers the next line, cut at [n - 1] bytes. *)
Lemma wp_GetLine n c s :
  I c s -> 1 <= n -> len c + 1 < Z.of_nat fuel ->
  wp (FCGX_GetLine fuel fill n) (got_line (Z.to_nat (n - 1)) [] c) s.
Proof.
  intros HI Hn Hf. unfold FCGX_GetLine.
  apply (wp_loop (fun m '(k, p) s1 => exists c', 0 <= k /\ I c' s1 /\ m = length c' /\
           forall r s2, got_line (Z.to_nat k) p c' r s2 ->
                        got_line (Z.to_nat (n - 1)) [] c r s2) _ _ _ (length c)).
  2: unfold len in *; lia.
  2: { exists c. split; [lia|]. done. }
  intros m [k p] s1 (c1 & Hk & HI1 & -> & Hgot). apply wp_if; intros Hk0.
  - wp_step. wp_use wp_GetChar; [exact HI1|].
    intros r s2 [(x & c2 & -> & -> & Hx & HI2 & _) | (-> & -> & HE)].
    + unfold is_byte in Hx. unfold EOF. replace (x =? -1) with false by lia.
      rewrite UCHAR_id by done. replace (Z.to_nat k) with (S (Z.to_nat (k - 1))) in Hgot by lia.
      apply wp_if; intros Hnl; wp_step.
      * apply Hgot. unfold got_line, line_complete. cbn [line_of]. rewrite Hnl.
        rewrite bool_decide_eq_false_2, bool_decide_eq_true_2; [done| |].
        { right. cbn. f_equal. lia. }
        { intros [Ha _]. by apply app_eq_nil in Ha as [_ ?]. }
      * exists (length c2). split; [cbn; lia|]. exists c2. split; [lia|].
        split; [done|]. split; [done|]. intros r s3 Hg. apply Hgot.
        apply got_line_cons; [lia|done].
    + rewrite Z.eqb_refl. wp_step. apply Hgot. unfold got_line, line_complete.
      replace (Z.to_nat k) with (S (Z.to_nat (k - 1))) by lia. cbn [line_of length].
      rewrite app_nil_r. rewrite (bool_decide_eq_false_2 (0%nat = _ \/ _));
        [|by intros [?|?]]. split; [|done].
      by destruct p.
  - wp_step. apply Hgot. replace (Z.to_nat k) with O by lia. unfold got_line, line_complete.
    cbn [line_of length]. rewrite app_nil_r, bool_decide_eq_false_2 by tauto.
    rewrite bool_decide_eq_true_2 by tauto. done.
Qed.

(** [FCGX_UnGetChar] puts a byte back in front of the input. *)
Lemma wp_UnGetChar b c s :
  I c s -> is_byte b -> can_unget s ->
  wp (FCGX_UnGetChar b) (fun r s' => r = b /\ I (b :: c) s') s.
Proof.
  intros HI Hb Hcan. pose proof (src_ready _ _ HI) as [Hrd Hop _ Hr Hmem _].
  pose proof Hcan as (u & Hu & Hle).
  unfold FCGX_UnGetChar. sstep. rewrite Hrd, Hop.
  unfold is_byte, EOF in *. replace (b =? -1) with false by lia.
  rewrite bool_decide_eq_false_2 by (rewrite Hu; intros [= ->]; lia). cbn [negb orb]. sstep.
  rewrite UCHAR_id by done. apply wp_buff_write; cbn; [lia|change (len [b]) with 1; lia|].
  sstep. split; [done|]. by apply (src_unget c s b).
Qed.
End Readers.
