(* ===== verification/Reads.v ===== *)
(** * Sequences of reads

    What an application sees of an input stream: a list of bytes still to come,
    from which each read takes its part, until a read meets the end.  Every
    sequence of reads of a [Source] gives the results of this list reader, however
    the bytes reach the stream's buffer. *)

From S2P Require Import Prelude Protocol Platform Params Stream Reader Source.

(** ** What an application does *)

Inductive read_op :=
  | ReadChar
  | PeekChar
  | ReadStr (n : Z)
  | ReadLine (n : Z)
  | SeenEOF.

Inductive read_result :=
  | GotChar (c : Z)
  | GotStr (str : list Z)
  | GotLine (line : option (list Z))
  | GotEOF (e : Z).

Section Reads.
Context `{Platform}.
Variables (fuel : nat) (fill : M SState unit).

(** a byte that is looked at is pushed back *)
Definition run_read (op : read_op) : M SState read_result :=
  match op with
  | ReadChar => c <- FCGX_GetChar fill ;; ret (GotChar c)
  | PeekChar => c <- FCGX_GetChar fill ;; _ <- FCGX_UnGetChar c ;; ret (GotChar c)
  | ReadStr n => str <- FCGX_GetStr fuel fill n ;; ret (GotStr str)
  | ReadLine n => line <- FCGX_GetLine fuel fill n ;; ret (GotLine line)
  | SeenEOF => e <- FCGX_HasSeenEOF ;; ret (GotEOF e)
  end.

Fixpoint run_reads (ops : list read_op) : M SState (list read_result) :=
  match ops with
  | [] => ret []
  | op :: ops => r <- run_read op ;; rs <- run_reads ops ;; ret (r :: rs)
  end.
End Reads.

(** a count is an [int], and a line has room for its terminator *)
Definition read_ok (op : read_op) : Prop :=
  match op with
  | ReadStr n => n <= INT_MAX
  | ReadLine n => 1 <= n
  | _ => True
  end.

(** ** The list reader *)

(** the bytes to come, or [None] when the end was seen *)
Definition list_reader : Type := option (list Z).

Definition list_read (op : read_op) (st : list_reader) : read_result * list_reader :=
  match op, st with
  | ReadChar, Some (x :: c) => (GotChar x, Some c)
  | PeekChar, Some (x :: c) => (GotChar x, Some (x :: c))
  | ReadChar, _ | PeekChar, _ => (GotChar EOF, None)
  | ReadStr n, Some c =>
      (GotStr (take (Z.to_nat n) c),
       if (n <=? 0) || (n <=? len c) then Some (drop (Z.to_nat n) c) else None)
  | ReadStr n, None => (GotStr [], None)
  | ReadLine n, Some c =>
      let k := Z.to_nat (n - 1) in
      let line := line_of k c in
      (GotLine (if bool_decide (line = [] /\ k <> O) then None else Some line),
       if bool_decide (line_complete k c) then Some (drop (length line) c) else None)
  | ReadLine n, None => (GotLine (if n - 1 <=? 0 then Some [] else None), None)
  | SeenEOF, Some c => (GotEOF 0, Some c)
  | SeenEOF, None => (GotEOF EOF, None)
  end.

Fixpoint list_reads (ops : list read_op) (st : list_reader) : list read_result * list_reader :=
  match ops with
  | [] => ([], st)
  | op :: ops =>
      let (r, st) := list_read op st in
      let (rs, st) := list_reads ops st in (r :: rs, st)
  end.

(** ** Refinement *)

Section Refinement.
Context `{PlatformLaws}.
Context (fuel : nat) (fill : M SState unit) (I : list Z -> SState -> Prop)
  (E : SState -> Prop) `{!Source fill I E}.
Implicit Types s : SState.

(** the stream stands where the list reader stands *)
Definition reads_at (st : list_reader) s : Prop :=
  match st with Some c => I c s | None => E s end.

(** the fuel covers what is still to come *)
Definition reads_fuel (st : list_reader) : Prop :=
  match st with Some c => 2 * len c + 2 < Z.of_nat fuel | None => 0 < Z.of_nat fuel end.

Lemma wp_GetChar_closed s (Q : Z -> SState -> Prop) :
  isClosed (stm s) = true -> Q EOF s -> wp (FCGX_GetChar fill) Q s.
Proof. intros Hc HQ. unfold FCGX_GetChar. sstep. rewrite Hc. cbn [orb]. by sstep. Qed.

Lemma wp_UnGetChar_EOF s (Q : Z -> SState -> Prop) : Q EOF s -> wp (FCGX_UnGetChar EOF) Q s.
Proof. intros HQ. unfold FCGX_UnGetChar. sstep. rewrite Z.eqb_refl. cbn [orb]. by sstep. Qed.

(** after the end every read finds the end *)
Lemma wp_read_ended op s : read_ok op -> (0 < fuel)%nat -> isClosed (stm s) = true ->
  wp (run_read fuel fill op) (fun r s' => r = fst (list_read op None) /\ s' = s) s.
Proof.
  intros Hok Hf Hc. destruct op as [| |n|n|]; cbn [run_read list_read fst]; wp_step.
  - apply wp_GetChar_closed; [done|]. by wp_step.
  - apply wp_GetChar_closed; [done|]. wp_step. apply wp_UnGetChar_EOF. by wp_step.
  - unfold FCGX_GetStr. sstep. rewrite Hc. cbn [orb]. by sstep.
  - unfold FCGX_GetLine. destruct fuel as [|fuel']; [lia|]. rewrite loop_unfold.
    destruct (Z.ltb_spec 0 (n - 1)).
    + replace (n - 1 <=? 0) with false by lia. wp_steps. apply wp_GetChar_closed; [done|].
      rewrite Z.eqb_refl. rewrite bool_decide_eq_true_2 by done. by wp_steps.
    + replace (n - 1 <=? 0) with true by lia. by wp_steps.
  - unfold FCGX_HasSeenEOF. sstep. rewrite Hc. by sstep.
Qed.

(** one read gives the list reader's result *)
Lemma wp_run_read op st s : read_ok op -> reads_fuel st -> reads_at st s ->
  wp (run_read fuel fill op) (fun r s' => r = fst (list_read op st) /\
    reads_at (snd (list_read op st)) s' /\ reads_fuel (snd (list_read op st))) s.
Proof.
  intros Hok Hf Hat. destruct st as [c|].
  2: { wp_use (wp_read_ended op); [done|cbn in Hf; lia|by apply (src_end s)|].
       intros r s' [-> ->]. by destruct op. }
  cbn [reads_fuel reads_at] in Hf, Hat. pose proof (len_nonneg c).
  destruct op as [| |n|n|]; cbn [run_read list_read]; wp_step.
  - wp_use (wp_GetChar fill I E); [exact Hat|].
    intros r s' [(x & c' & -> & -> & _ & HI & _) | (-> & -> & HE)]; wp_step; cbn; [|by split_and!; lia || done].
    rewrite len_cons in Hf. split_and!; done || lia.
  - wp_use (wp_GetChar fill I E); [exact Hat|].
    intros r s' [(x & c' & -> & -> & Hx & HI & Hun) | (-> & -> & HE)]; wp_step.
    + wp_use (wp_UnGetChar fill I E x c'); [exact HI|done|done|]. intros u s2 [-> HI2]. by wp_step.
    + apply wp_UnGetChar_EOF. wp_step. cbn. split_and!; done || lia.
  - wp_use (wp_GetStr fuel fill I E); [exact Hat|done|lia|]. intros str s'.
    destruct (Z.leb_spec n 0).
    + intros [-> ->]. wp_step. cbn [orb fst snd reads_at reads_fuel].
      replace (Z.to_nat n) with O by lia. by rewrite take_0, drop_0.
    + intros [-> Hs']. wp_step. cbn [orb fst snd]. split; [done|].
      destruct (Z.leb_spec n (len c)); cbn; [|split; [done|lia]].
      split; [done|]. rewrite drop_len by lia. lia.
  - wp_use (wp_GetLine fuel fill I E n); [exact Hat|done|lia|]. intros line s' [-> Hs'].
    wp_step. cbn [app fst snd]. split; [done|].
    destruct (bool_decide _); cbn; [|split; [done|lia]]. split; [done|].
    unfold len in *. rewrite length_drop. lia.
  - pose proof (src_ready _ _ Hat) as Hrd. unfold FCGX_HasSeenEOF. sstep.
    rewrite (rd_open _ Hrd). by sstep.
Qed.

(** A sequence of reads gives the list reader's results. *)
Lemma wp_run_reads ops st s : Forall read_ok ops -> reads_fuel st -> reads_at st s ->
  wp (run_reads fuel fill ops) (fun rs s' => rs = fst (list_reads ops st) /\
    reads_at (snd (list_reads ops st)) s') s.
Proof.
  intros Hops. revert st s. induction Hops as [|op ops Hop _ IH]; intros st s Hf Hat; [by apply wp_ret|].
  cbn [run_reads list_reads]. wp_step. wp_use wp_run_read; [exact Hop|exact Hf|exact Hat|].
  intros r s1. destruct (list_read op st) as [r' st']. cbn [fst snd]. intros (-> & Hat1 & Hf1).
  wp_step. wp_use IH; [exact Hf1|exact Hat1|]. intros rs s2.
  destruct (list_reads ops st') as [rs' st'']. cbn [fst snd]. intros [-> Hat2]. by wp_step.
Qed.
End Refinement.
