(* ===== verification/NameValue.v ===== *)
(** * Name-value pairs

    The wire form of a list of name-value pairs, a reference parser for it that
    says what any sequence of bytes means, and [ReadParams], which agrees with
    that parser on every source: it builds the vector of the pairs that are
    complete, and reports a pair that is cut short; lengths whose sum does not
    fit in an [int] are undefined behaviour. *)

From S2P Require Import Prelude CString Protocol Platform Params Stream Reader Source.

(** ** The wire form *)

(** a length takes one byte, or four with the high bit of the first set *)
Inductive length_wire : Z -> list Z -> Prop :=
  | lw_short n : 0 <= n < 128 -> length_wire n [n]
  | lw_long b3 b2 b1 b0 : 128 <= b3 < 256 -> is_byte b2 -> is_byte b1 -> is_byte b0 ->
      length_wire ((b3 - 128) * 16777216 + b2 * 65536 + b1 * 256 + b0) [b3; b2; b1; b0].

(** the two lengths, the name and the value *)
Inductive pairs_wire : list (list Z * list Z) -> list Z -> Prop :=
  | pw_nil : pairs_wire [] []
  | pw_cons name value nl vl ps w :
      length_wire (len name) nl -> length_wire (len value) vl ->
      len name + len value + 2 <= INT_MAX -> pairs_wire ps w ->
      pairs_wire ((name, value) :: ps) (nl ++ vl ++ name ++ value ++ w).

(** a sender: short lengths when they fit *)
Definition encode_length (n : Z) : list Z :=
  if n <? 128 then [n]
  else [n / 16777216 + 128; n / 65536 mod 256; n / 256 mod 256; n mod 256].

Fixpoint encode_pairs (ps : list (list Z * list Z)) : list Z :=
  match ps with
  | [] => []
  | (k, v) :: ps' => encode_length (len k) ++ encode_length (len v) ++ k ++ v ++ encode_pairs ps'
  end.

Lemma encode_length_wire n : 0 <= n <= INT_MAX -> length_wire n (encode_length n).
Proof.
  unfold INT_MAX, encode_length. intros Hn. destruct (Z.ltb_spec n 128); [apply lw_short; lia|].
  replace n with ((n / 16777216 + 128 - 128) * 16777216 + (n / 65536 mod 256) * 65536
                  + (n / 256 mod 256) * 256 + n mod 256) at 1 by zdiv.
  constructor; unfold is_byte; zdiv.
Qed.

Lemma encode_pairs_wire ps :
  Forall (fun kv => len (fst kv) + len (snd kv) + 2 <= INT_MAX) ps ->
  pairs_wire ps (encode_pairs ps).
Proof.
  induction 1 as [|[k v] ps H _ IH]; [constructor|]. cbn in *.
  pose proof (len_nonneg k). pose proof (len_nonneg v).
  constructor; [apply encode_length_wire; lia..|done|done].
Qed.

(** ** The reference parser *)

(** a length, and what follows it *)
Definition parse_length (w : list Z) : option (Z * list Z) :=
  match w with
  | [] => None
  | b3 :: w' =>
      if b3 <? 128 then Some (b3, w')
      else match w' with
           | b2 :: b1 :: b0 :: w'' =>
               Some ((b3 - 128) * 16777216 + b2 * 65536 + b1 * 256 + b0, w'')
           | _ => None
           end
  end.

(** the first pair of [w]: there is none, it is cut short, its lengths do not
    fit in an [int], or it is there *)
Inductive pair_read :=
  | NoPair
  | PairShort
  | PairTooLong
  | Pair (name value rest : list Z).

Definition parse_pair (w : list Z) : pair_read :=
  match w with
  | [] => NoPair
  | _ =>
      match parse_length w with
      | None => PairShort
      | Some (n, w1) =>
          match parse_length w1 with
          | None => PairShort
          | Some (v, w2) =>
              if INT_MAX <? n + v + 2 then PairTooLong
              else if len w2 <? n + v then PairShort
              else Pair (take (Z.to_nat n) w2) (slice w2 n (n + v)) (drop (Z.to_nat (n + v)) w2)
          end
      end
  end.

Inductive parse_end := Complete | Truncated | TooLong.

(** every pair takes at least two bytes *)
Fixpoint parse_pairs_fuel (fuel : nat) (w : list Z) : list (list Z * list Z) * parse_end :=
  match fuel with
  | O => ([], Truncated)
  | S fuel' =>
      match parse_pair w with
      | NoPair => ([], Complete)
      | PairShort => ([], Truncated)
      | PairTooLong => ([], TooLong)
      | Pair name value w' =>
          let (ps, e) := parse_pairs_fuel fuel' w' in ((name, value) :: ps, e)
      end
  end.

Definition parse_pairs (w : list Z) : list (list Z * list Z) * parse_end :=
  parse_pairs_fuel (S (length w)) w.

Lemma parse_length_bytes w n w' : bytes w -> parse_length w = Some (n, w') ->
  0 <= n <= INT_MAX /\ exists a, w = a ++ w' /\ a <> [] /\ length_wire n a.
Proof.
  unfold parse_length, INT_MAX. destruct w as [|b3 w1]; [done|]. intros Hb.
  unfold bytes in Hb. rewrite Forall_cons in Hb. destruct Hb as [H3 Hb].
  destruct (Z.ltb_spec b3 128) as [Hlt|Hge].
  - intros [= -> ->]. unfold is_byte in H3. split; [lia|]. exists [n]. split; [done|].
    split; [done|]. by constructor; lia.
  - destruct w1 as [|b2 [|b1 [|b0 w1]]]; try done. intros [= <- ->].
    rewrite !Forall_cons in Hb. destruct Hb as (H2 & H1 & H0 & _).
    split; [unfold is_byte in *; lia|]. exists [b3; b2; b1; b0].
    split; [done|]. split; [done|]. constructor; try done. unfold is_byte in H3. lia.
Qed.

Lemma parse_length_wire n a w : length_wire n a -> parse_length (a ++ w) = Some (n, w).
Proof.
  destruct 1; cbn.
  - by replace (n <? 128) with true by lia.
  - by replace (b3 <? 128) with false by lia.
Qed.

(** a pair that is there is the first of the wire form *)
Lemma parse_pair_wire w name value w' : bytes w -> parse_pair w = Pair name value w' ->
  bytes w' /\ len w' + 2 <= len w /\ len name + len value + 2 <= INT_MAX /\
  exists nl vl, length_wire (len name) nl /\ length_wire (len value) vl /\
    w = nl ++ vl ++ name ++ value ++ w'.
Proof.
  intros Hb. unfold parse_pair. destruct w as [|b0 w0]; [done|]. set (w := b0 :: w0) in *.
  destruct (parse_length w) as [[n w1]|] eqn:En; [|done].
  destruct (parse_length_bytes _ _ _ Hb En) as (Hn & nl & Ew & Hnl & Hwn).
  rewrite Ew in Hb. apply bytes_app in Hb as [_ Hb1].
  destruct (parse_length w1) as [[v w2]|] eqn:Ev; [|done].
  destruct (parse_length_bytes _ _ _ Hb1 Ev) as (Hv & vl & Ew1 & Hvl & Hwv).
  rewrite Ew1 in Hb1. apply bytes_app in Hb1 as [_ Hb2].
  destruct (Z.ltb_spec INT_MAX (n + v + 2)); [done|].
  destruct (Z.ltb_spec (len w2) (n + v)); [done|]. intros [= <- <- <-].
  assert (len (take (Z.to_nat n) w2) = n) as Hln by (unfold len in *; rewrite length_take; lia).
  assert (len (slice w2 n (n + v)) = v) as Hlv by (rewrite slice_len; lia).
  assert (w2 = take (Z.to_nat n) w2 ++ slice w2 n (n + v) ++ drop (Z.to_nat (n + v)) w2) as Hs.
  { rewrite <- (take_drop (Z.to_nat n) w2) at 1. f_equal. unfold slice.
    replace (n + v - n) with v by lia.
    replace (Z.to_nat (n + v)) with (Z.to_nat n + Z.to_nat v)%nat by lia.
    by rewrite <- drop_drop, take_drop. }
  rewrite Hln, Hlv. split; [by apply Forall_drop|].
  assert (0 < len nl /\ 0 < len vl) as [? ?].
  { by destruct nl, vl. }
  split.
  { rewrite Ew, Ew1, !len_app. rewrite Hs at 2. rewrite !len_app, Hln, Hlv. lia. }
  split; [done|]. exists nl, vl. split; [done|]. split; [done|].
  rewrite Ew, Ew1. by rewrite <- Hs.
Qed.

Lemma parse_pair_cons name value nl vl w :
  length_wire (len name) nl -> length_wire (len value) vl -> len name + len value + 2 <= INT_MAX ->
  parse_pair (nl ++ vl ++ name ++ value ++ w) = Pair name value w.
Proof.
  intros Hnl Hvl Hsz. unfold parse_pair.
  destruct (nl ++ vl ++ name ++ value ++ w) as [|b w0] eqn:E.
  { apply app_eq_nil in E as [-> _]. by inversion Hnl. }
  rewrite <- E, (parse_length_wire _ _ _ Hnl), (parse_length_wire _ _ _ Hvl).
  replace (INT_MAX <? _) with false by lia. rewrite !len_app. pose proof (len_nonneg w).
  replace (_ <? _) with false by lia. clear. unfold slice, len. f_equal.
  - by rewrite take_app_length' by lia.
  - rewrite drop_app_length' by lia. by rewrite take_app_length' by lia.
  - rewrite app_assoc. rewrite drop_app_length'; [done|]. rewrite length_app. lia.
Qed.

(** enough fuel *)
Lemma parse_pairs_fuel_enough fuel fuel' w :
  bytes w -> (length w < fuel)%nat -> (length w < fuel')%nat ->
  parse_pairs_fuel fuel w = parse_pairs_fuel fuel' w.
Proof.
  revert fuel' w. induction fuel as [|fuel IH]; intros fuel' w Hb Hf Hf'; [lia|].
  destruct fuel' as [|fuel']; [lia|]. cbn [parse_pairs_fuel].
  destruct (parse_pair w) as [| | |name value w'] eqn:E; try done.
  destruct (parse_pair_wire _ _ _ _ Hb E) as (Hb' & Hl & _).
  unfold len in Hl. rewrite (IH fuel' w'); [done|done|lia|lia].
Qed.

(** the reference parser on a whole input, by its first pair *)
Lemma parse_pairs_step w : bytes w ->
  parse_pairs w = match parse_pair w with
    | NoPair => ([], Complete)
    | PairShort => ([], Truncated)
    | PairTooLong => ([], TooLong)
    | Pair name value w' => let (ps, e) := parse_pairs w' in ((name, value) :: ps, e)
    end.
Proof.
  intros Hb. unfold parse_pairs at 1. cbn [parse_pairs_fuel].
  destruct (parse_pair w) as [| | |name value w'] eqn:E; try done.
  destruct (parse_pair_wire _ _ _ _ Hb E) as (Hb' & Hl & _). unfold len in Hl.
  unfold parse_pairs. by rewrite (parse_pairs_fuel_enough (length w) (S (length w'))) by (done || lia).
Qed.

Lemma parse_pairs_count w : bytes w -> 2 * Z.of_nat (length (fst (parse_pairs w))) <= len w.
Proof.
  remember (length w) as n eqn:En. revert w En.
  induction (lt_wf n) as [n _ IH]. intros w -> Hb. rewrite parse_pairs_step by done.
  pose proof (len_nonneg w).
  destruct (parse_pair w) as [| | |name value w'] eqn:E; cbn [fst length]; try lia.
  destruct (parse_pair_wire _ _ _ _ Hb E) as (Hb' & Hl & _). unfold len in *.
  specialize (IH (length w') ltac:(lia) w' eq_refl Hb').
  destruct (parse_pairs w') as [ps e]. cbn [fst length] in *. lia.
Qed.

(** the parser completes exactly on the wire forms *)
Lemma parse_pairs_complete w ps : bytes w ->
  parse_pairs w = (ps, Complete) <-> pairs_wire ps w.
Proof.
  intros Hb. split.
  - remember (length w) as n eqn:En. revert w ps En Hb.
    induction (lt_wf n) as [n _ IH]. intros w ps -> Hb. rewrite parse_pairs_step by done.
    destruct (parse_pair w) as [| | |name value w'] eqn:E; try done.
    + intros [= <-]. destruct w; [constructor|]. unfold parse_pair in E.
      repeat (case_match; try done).
    + destruct (parse_pair_wire _ _ _ _ Hb E) as (Hb' & Hl & Hsz & nl & vl & Hnl & Hvl & ->).
      destruct (parse_pairs w') as [ps' e'] eqn:Eps. intros [= <- ->].
      constructor; try done. eapply IH; [|done|done|done]. unfold len in Hl. lia.
  - intros Hw. induction Hw as [|name value nl vl ps w Hnl Hvl Hsz Hw IH]; [done|].
    rewrite parse_pairs_step by done. rewrite parse_pair_cons by done.
    rewrite !bytes_app in Hb. rewrite IH by tauto. done.
Qed.

(** ** Decoding a length *)

Lemma byte_cases (P : Z -> bool) :
  forallb (fun n => P (Z.of_nat n)) (seq 0 256) = true -> forall b, is_byte b -> P b = true.
Proof.
  intros HP b Hb. rewrite List.forallb_forall in HP. unfold is_byte in Hb.
  rewrite <- (Z2Nat.id b) by lia. apply HP, List.in_seq. lia.
Qed.

Lemma high_bit b : is_byte b ->
  (Z.land b 128 =? 0) = (b <? 128) /\ Z.land b 127 = (if b <? 128 then b else b - 128).
Proof.
  intros Hb. split.
  - apply eqb_prop. by apply (byte_cases (fun b => eqb (Z.land b 128 =? 0) (b <? 128))).
  - apply Z.eqb_eq.
    by apply (byte_cases (fun b => Z.land b 127 =? if b <? 128 then b else b - 128)).
Qed.

Section ReadParams.
Context `{Reliable}.
Context (fuel : nat) (fill : M SState unit) (I : list Z -> SState -> Prop)
  (E : SState -> Prop) `{!Source fill I E}.
Implicit Types s : SState.

(** ** Reading, whatever comes *)

(** reading [n] bytes: all of them, or the end was seen *)
Lemma wp_GetStr_any n c s (Q : list Z -> SState -> Prop) :
  I c s -> 0 <= n <= INT_MAX -> 2 * len c + 2 < Z.of_nat fuel ->
  (n <= len c -> forall s', I (drop (Z.to_nat n) c) s' -> Q (take (Z.to_nat n) c) s') ->
  (len c < n -> forall s' bs, E s' -> len bs < n -> Q bs s') ->
  wp (FCGX_GetStr fuel fill n) Q s.
Proof.
  intros HI Hn Hf HQ HE. wp_use (wp_GetStr fuel fill I E); [exact HI|lia|done|].
  pose proof (len_nonneg c). intros r s'. destruct (Z.leb_spec n 0) as [Ha|Ha].
  - intros [-> ->]. replace n with 0 in * by lia. by apply HQ; [lia|].
  - intros [-> Hs']. destruct (Z.leb_spec n (len c)) as [Hle|Hgt]; [by apply HQ|].
    apply HE; [done|done|]. unfold len in *. rewrite length_take. lia.
Qed.

(** the next byte, or the end *)
Lemma wp_GetChar_any c s (Q : Z -> SState -> Prop) :
  I c s -> (forall x c' s', c = x :: c' -> is_byte x -> I c' s' -> Q x s') ->
  (c = [] -> forall s', E s' -> Q EOF s') -> wp (FCGX_GetChar fill) Q s.
Proof.
  intros HI HQ HE. wp_use (wp_GetChar fill I E); [exact HI|].
  intros r s' [(x & c' & -> & -> & Hx & HI' & _) | (-> & -> & Hs')]; [by eapply HQ|by apply HE].
Qed.

(** a length, whose first byte was read *)
Lemma wp_read_length b c s (Q : option Z -> SState -> Prop) :
  I c s -> is_byte b -> 2 * len c + 2 < Z.of_nat fuel ->
  match parse_length (b :: c) with
  | Some (n, c') => forall s', I c' s' -> Q (Some n) s'
  | None => forall s', E s' -> Q None (refused FCGX_PARAMS_ERROR s')
  end -> wp (read_length fuel fill b) Q s.
Proof.
  intros HI Hb Hf HQ. unfold read_length, parse_length in *. destruct (high_bit b Hb) as [-> ->].
  destruct (b <? 128); cbn [negb]; wp_step; [by apply HQ|].
  apply (wp_GetStr_any 3 c); [done|unfold INT_MAX; lia|done|..].
  - intros Hl s' HI'. change (Z.to_nat 3) with 3%nat in *.
    destruct c as [|b2 [|b1 [|b0 c]]]; try (unfold len in Hl; cbn in Hl; lia).
    cbn [take drop] in *. rewrite take_0. wp_step. rewrite !Z.shiftl_mul_pow2 by lia. by apply HQ.
  - intros Hl s' bs HE Hbs.
    destruct c as [|b2 [|b1 [|b0 c]]]; try (unfold len in Hl; cbn in Hl; lia).
    all: destruct bs as [|c2 [|c1 [|c0 bs]]]; try (unfold len in Hbs; cbn in Hbs; lia).
    all: wp_step; apply wp_SetError; wp_step; by apply HQ.
Qed.

Lemma wp_lift_quiet {A} (m : M OS A) (P : A -> Prop) c s (Q : A -> SState -> Prop) :
  I c s -> wp m (fun a o => P a /\ os_quiet (os s) o) (os s) ->
  (forall a s', P a -> I c s' -> Q a s') -> wp (lift_os m) Q s.
Proof.
  intros HI Hm HQ. unfold lift_os. apply wp_zoom. wp_use Hm.
  intros a o [Ha Hq]. apply HQ; [done|]. by apply src_quiet.
Qed.

Lemma byte_not_eof x : is_byte x -> (x =? EOF) = false.
Proof. unfold is_byte, EOF. lia. Qed.

Lemma parse_length_len w n w' : bytes w -> parse_length w = Some (n, w') ->
  0 <= n /\ bytes w' /\ len w' < len w.
Proof.
  intros Hb Ew. destruct (parse_length_bytes _ _ _ Hb Ew) as (Hn & a & -> & Ha & _).
  apply bytes_app in Hb as [_ Hb]. split; [lia|]. split; [done|].
  rewrite len_app. destruct a; [done|]. rewrite len_cons. pose proof (len_nonneg a). lia.
Qed.

(** a vector of [l] strings, grown from an allocation of [n] cells *)
Definition vec_ok (n : Z) (p : Params) (l : list (list Z)) : Prop :=
  params_repr p l /\ length_ p <= Z.max n (2 * Z.of_nat (length l)).

Lemma wp_PutParam_vec n p l str o :
  vec_ok n p l -> n <= 1073741823 -> Z.of_nat (length l) < 536870911 ->
  wp (PutParam p str) (fun p' o' => vec_ok n p' (l ++ [str]) /\ os_quiet o o') o.
Proof.
  intros [Hr Hle] Hn Hl. wp_use wp_PutParam; [done|lia|].
  intros p' o' (Hr' & Hq & Hlen). split; [|done]. split; [done|].
  rewrite Hlen, length_app. cbn [length].
  destruct (Z.leb_spec (length_ p) (Z.of_nat (length l) + 1)); lia.
Qed.

Lemma read_pair_overflow p nl vl s : 0 <= nl -> 0 <= vl -> INT_MAX < nl + vl + 2 ->
  read_pair fuel fill p nl vl s = Fault UndefinedBehaviour.
Proof.
  intros Hn Hv Hbig. unfold read_pair, int_op, int_range, INT_MIN, INT_MAX in *.
  destruct (Z.leb_spec (nl + vl) 2147483647).
  - replace (_ && _) with true by lia. apply bind_fault, wp_ret.
    by replace (_ && _) with false by lia.
  - by replace (_ && _) with false by lia.
Qed.

Lemma wp_read_pair n p l nl vl c s (Q : Params + Z * Params -> SState -> Prop) :
  I c s -> 0 <= nl -> 0 <= vl -> nl + vl + 2 <= INT_MAX -> 2 * len c + 2 < Z.of_nat fuel ->
  vec_ok n p l -> n <= 1073741823 -> Z.of_nat (length l) < 536870911 ->
  (nl + vl <= len c -> forall p' s',
     vec_ok n p' (l ++ [param_string (take (Z.to_nat nl) c, slice c nl (nl + vl))]) ->
     I (drop (Z.to_nat (nl + vl)) c) s' -> Q (inl p') s') ->
  (len c < nl + vl -> forall s', E s' -> Q (inr (-1, p)) (refused FCGX_PARAMS_ERROR s')) ->
  wp (read_pair fuel fill p nl vl) Q s.
Proof.
  intros HI Hn Hv Hsz Hf Hvec Hn0 Hl HQ HE. unfold read_pair, int_op, int_range, INT_MIN, INT_MAX in *.
  wp_step. replace (_ && _) with true by lia. wp_steps.
  replace (_ && _) with true by lia. wp_steps.
  eapply (wp_lift_quiet _ (fun _ => True)); [exact HI| |].
  { wp_use wp_Malloc; [lia|]. by intros ? ? [? _]. }
  intros _ s1 _ HI1. wp_step.
  apply (wp_GetStr_any nl c); [done|unfold INT_MAX; lia|done|..].
  2: { intros Hlt s2 bs HE2 Hbs. replace (len bs =? nl) with false by lia. cbn [negb].
       wp_step. apply wp_SetError. wp_step. by apply HE; [lia|]. }
  intros Hle s2 HI2. set (name := take (Z.to_nat nl) c) in *.
  assert (len name = nl) as Hname by (unfold name, len in *; rewrite length_take; lia).
  rewrite Hname, Z.eqb_refl. cbn [negb]. wp_step.
  pose proof (drop_len nl c ltac:(lia)) as Hdl.
  apply (wp_GetStr_any vl (drop (Z.to_nat nl) c)); [done|unfold INT_MAX; lia|lia|..].
  2: { intros Hlt s3 bs HE3 Hbs. replace (len bs =? vl) with false by lia. cbn [negb].
       wp_step. apply wp_SetError. wp_step. by apply HE; [lia|]. }
  intros Hle' s3 HI3. rewrite drop_drop in HI3.
  replace (Z.to_nat nl + Z.to_nat vl)%nat with (Z.to_nat (nl + vl)) in HI3 by lia.
  assert (take (Z.to_nat vl) (drop (Z.to_nat nl) c) = slice c nl (nl + vl)) as ->.
  { unfold slice. by replace (nl + vl - nl) with vl by lia. }
  rewrite slice_len by lia. replace (nl + vl - nl =? vl) with true by lia. cbn [negb]. wp_step.
  eapply wp_lift_quiet; [exact HI3|by apply (wp_PutParam_vec n)|].
  intros p' s4 Hp HI4. wp_step. apply HQ; [lia|done|done].
Qed.

(** One turn of [ReadParams] agrees with [parse_pair]: [P] is any property of
    its outcome. *)
Lemma ReadParams_body_any (P : outcome SState (Params + Z * Params) -> Prop) n p l w s :
  I w s -> bytes w -> 2 * len w + 2 < Z.of_nat fuel ->
  vec_ok n p l -> n <= 1073741823 -> Z.of_nat (length l) < 536870911 ->
  match parse_pair w with
  | NoPair => forall s', E s' -> P (Ret (inr (0, p)) s')
  | PairShort => forall s', E s' -> P (Ret (inr (-1, p)) (refused FCGX_PARAMS_ERROR s'))
  | PairTooLong => P (Fault UndefinedBehaviour)
  | Pair name value w' => forall p' s', vec_ok n p' (l ++ [param_string (name, value)]) ->
      I w' s' -> P (Ret (inl p') s')
  end ->
  P (ReadParams_body fuel fill p s).
Proof.
  intros HI Hb Hf Hv Hn Hl HP. unfold ReadParams_body.
  apply bind_outcome, (wp_GetChar_any w); [done| |].
  2: { intros -> s' HE. rewrite Z.eqb_refl. by apply HP. }
  intros x w1 s1 -> Hx HI1. rewrite byte_not_eof by done.
  pose proof Hb as Hb'. unfold bytes in Hb'. rewrite Forall_cons in Hb'. destruct Hb' as [_ Hb1].
  rewrite len_cons in Hf. unfold parse_pair in HP.
  apply bind_outcome, (wp_read_length x w1); [done|done|lia|].
  destruct (parse_length (x :: w1)) as [[nl w2]|] eqn:Enl; [|done].
  destruct (parse_length_len _ _ _ Hb Enl) as (Hnl & Hb2 & Hl2). rewrite len_cons in Hl2.
  intros s2 HI2. apply bind_outcome, (wp_GetChar_any w2); [done| |].
  2: { intros -> s' HE. rewrite Z.eqb_refl. apply bind_outcome, wp_SetError. by apply HP. }
  intros y w3 s3 -> Hy HI3. rewrite byte_not_eof by done. rewrite len_cons in Hl2.
  apply bind_outcome, (wp_read_length y w3); [done|done|lia|].
  destruct (parse_length (y :: w3)) as [[vl w4]|] eqn:Evl; [|done].
  destruct (parse_length_len _ _ _ Hb2 Evl) as (Hvl & _ & Hl4). rewrite len_cons in Hl4.
  intros s4 HI4.
  destruct (Z.ltb_spec INT_MAX (nl + vl + 2)) as [Hbig|Hsmall].
  - by rewrite read_pair_overflow.
  - apply wp_outcome, (wp_read_pair n p l nl vl w4); try done; [lia|..].
    + intros Hle p' s' Hv' HI'. replace (len w4 <? nl + vl) with false in HP by lia. by apply HP.
    + intros Hlt s' HE. replace (len w4 <? nl + vl) with true in HP by lia. by apply HP.
Qed.

(** what the parser's outcome means for that of [ReadParams] *)
Definition parsed_ok (P : outcome SState (Z * Params) -> Prop) (n : Z) (l : list (list Z))
    (r : list (list Z * list Z) * parse_end) : Prop :=
  let strings := l ++ map param_string (fst r) in
  match snd r with
  | Complete => forall p s, vec_ok n p strings -> E s -> P (Ret (0, p) s)
  | Truncated => forall p s, vec_ok n p strings -> E s ->
      P (Ret (-1, p) (refused FCGX_PARAMS_ERROR s))
  | TooLong => P (Fault UndefinedBehaviour)
  end.

(** [ReadParams] agrees with [parse_pairs]. *)
Lemma ReadParams_any (P : outcome SState (Z * Params) -> Prop) n p l w s :
  I w s -> bytes w -> 2 * len w + 2 < Z.of_nat fuel ->
  vec_ok n p l -> n <= 1073741823 ->
  Z.of_nat (length l + length (fst (parse_pairs w))) < 536870911 ->
  parsed_ok P n l (parse_pairs w) -> P (ReadParams fuel fill p s).
Proof.
  intros HI Hb Hf Hv Hn Hl HP. unfold ReadParams.
  assert (forall k, (length w < k)%nat -> P (loop k (ReadParams_body fuel fill) p s)) as Hall;
    [|apply Hall; unfold len in Hf; lia].
  intros k. revert p l w s HI Hb Hf Hv Hl HP.
  induction k as [|k IH]; intros p l w s HI Hb Hf Hv Hl HP Hk; [lia|]. rewrite loop_unfold.
  apply (ReadParams_body_any (fun o => P (match o with
    | Ret r s' => match r with inl p' => loop k (ReadParams_body fuel fill) p' | inr x => ret x end s'
    | Fault f => Fault f end)) n p l w); try done; [lia|].
  rewrite parse_pairs_step in HP, Hl by done. unfold parsed_ok in HP.
  destruct (parse_pair w) as [| | |name value w'] eqn:Ew; cbn [fst snd map] in HP.
  - intros s' HE. rewrite app_nil_r in HP. by apply HP.
  - intros s' HE. rewrite app_nil_r in HP. by apply HP.
  - exact HP.
  - intros p' s' Hv' HI'. destruct (parse_pair_wire _ _ _ _ Hb Ew) as (Hb' & Hlw & _).
    apply (IH p' (l ++ [param_string (name, value)]) w'); [done|done|lia|done|..].
    + rewrite length_app. cbn [length]. destruct (parse_pairs w') as [ps e].
      cbn [fst length] in *. lia.
    + unfold parsed_ok. destruct (parse_pairs w') as [ps e]. cbn [fst snd map] in HP |- *. rewrite <- app_assoc. exact HP.
    + unfold len in Hlw. lia.
Qed.

(** [ReadParams] reads every pair of a wire form, up to the end of the source. *)
Lemma wp_ReadParams n p l ps w s :
  pairs_wire ps w -> bytes w -> I w s -> 2 * len w + 2 < Z.of_nat fuel ->
  vec_ok n p l -> n <= 1073741823 -> Z.of_nat (length l + length ps) < 536870911 ->
  wp (ReadParams fuel fill p) (fun r s' =>
    fst r = 0 /\ vec_ok n (snd r) (l ++ map param_string ps) /\ E s') s.
Proof.
  intros Hw Hb HI Hf Hv Hn Hl. apply parse_pairs_complete in Hw; [|done].
  apply (ReadParams_any (fun o => match o with Ret r s' => _ r s' | Fault _ => False end) n p l w);
    try done; [by rewrite Hw|].
  rewrite Hw. intros p' s' Hv' HE. done.
Qed.
End ReadParams.
