(* ===== verification/Demux.v ===== *)
(** * The demultiplexer behind an input stream

    The window of an input stream is what is left of its buffer and of the
    connection's input.  [FillBuffProc] is correct when, on any input, it hands
    out the content, sends the replies and ends in the way that [Dispatch.run]
    says, whatever the sizes of the reads.  It is a source in the sense of
    [Source.v], both for a demultiplexed stream and for the content of a single
    record, which [ProcessHeader] reads through the same procedure. *)

From S2P Require Import Prelude CString Protocol Platform Dispatch Params Stream Writer Reader.
From S2P Require Import Source.

Section Window.
Context `{PlatformLaws}.
Implicit Types (s : SState) (o : OS).

(** the buffer's part of a reader's invariant *)
Record window_ok s : Prop := {
  win_len : 0 < bufflen (data (stm s)) <= 65536;
  win_mem : bufflen (data (stm s)) <= len (buff (data (stm s)));
  win_rd : 0 <= rdNext (stm s) <= buffStop (data (stm s));
  win_stop : buffStop (data (stm s)) <= bufflen (data (stm s));
  win_bytes : bytes (buff (data (stm s)));
  win_sys : shutdownNow (os s) = false
}.

(** the bytes of the connection this reader has not consumed *)
Definition rview s : list Z :=
  slice (buff (data (stm s))) (rdNext (stm s)) (buffStop (data (stm s)))
  ++ os_in (ipcFd (rq s)) (os s).

(** a change of the window only *)
Definition window b rd bs o s : SState :=
  set_os o (set_stm (set_rdNext rd
    (set_data (set_buff b (set_buffStop bs (data (stm s)))) (stm s))) s).

(** only the input of [fd] was consumed *)
Definition in_only fd o o' : Prop :=
  os_static o' = os_static o /\
  (forall fd', os_out fd' o' = os_out fd' o) /\
  (forall fd', fd' <> fd -> os_in fd' o' = os_in fd' o).

#[export] Instance in_only_preorder fd : PreOrder (in_only fd).
Proof.
  split; [done|]. intros o1 o2 o3 (Ha & Hb & Hc) (Ha' & Hb' & Hc').
  split; [congruence|]. split; intros; [by rewrite Hb'|rewrite Hc'; auto].
Qed.

(** only the connection [fd] was used, and what was sent on it stays *)
Definition link fd o o' : Prop :=
  os_static o' = os_static o /\
  (forall fd', fd' <> fd -> os_in fd' o' = os_in fd' o /\ os_out fd' o' = os_out fd' o) /\
  os_out fd o `prefix_of` os_out fd o'.

#[export] Instance link_preorder fd : PreOrder (link fd).
Proof.
  split; [done|]. intros o1 o2 o3 (Ha & Hb & Hc) (Ha' & Hb' & Hc'). split; [congruence|].
  split; [|by transitivity (os_out fd o2)].
  intros fd' Hne. destruct (Hb fd' Hne), (Hb' fd' Hne). split; congruence.
Qed.

Lemma in_only_link fd o o' : in_only fd o o' <-> link fd o o' /\ os_out fd o' = os_out fd o.
Proof.
  split; [intros (Hs & Ho & Hi)|intros [(Hs & Hio & _) Ho]]; split_and!; auto.
  - split_and!; auto. by rewrite Ho.
  - intros fd'. destruct (decide (fd' = fd)) as [->|]; [done|]. by apply Hio.
  - intros fd' Hne. by apply Hio.
Qed.

Lemma quiet_link fd o o' : os_quiet o o' -> link fd o o'.
Proof. intros (Hs & Hi & Ho). split; [done|]. by rewrite Ho. Qed.

Lemma in_only_sys fd o o' : in_only fd o o' -> shutdownNow o = false -> shutdownNow o' = false.
Proof. intros (Hs & _) ?. unfold os_static, os_vars in Hs. congruence. Qed.

Lemma rview_bytes s : bytes (buff (data (stm s))) -> bytes (rview s).
Proof.
  intros Hb. apply bytes_app. split; [by apply bytes_slice|]. apply incoming_bytes.
Qed.

(** the window after [m] of its bytes were consumed *)
Lemma rview_advance m s :
  0 <= rdNext (stm s) -> 0 <= m -> rdNext (stm s) + m <= buffStop (data (stm s)) ->
  buffStop (data (stm s)) <= len (buff (data (stm s))) ->
  rview s = slice (buff (data (stm s))) (rdNext (stm s)) (rdNext (stm s) + m)
            ++ rview (advance m s).
Proof.
  intros. unfold rview. cbn.
  rewrite (slice_app _ (rdNext (stm s)) (rdNext (stm s) + m)) by lia.
  by rewrite app_assoc.
Qed.
End Window.

Section Refill.
Context `{Reliable}.
Implicit Types (s : SState) (o : OS).

(** A refill keeps the window and leaves its first byte in the buffer; at the
    end of the connection's input it records a protocol error. *)
Lemma wp_refill s (Q : bool -> SState -> Prop) :
  window_ok s ->
  (rview s <> [] -> forall b rd bs o,
     let s' := window b rd bs o s in
     window_ok s' -> rd < bs -> rview s' = rview s ->
     in_only (ipcFd (rq s)) (os s) o -> Q true s') ->
  (rview s = [] -> forall o,
     in_only (ipcFd (rq s)) (os s) o -> os_in (ipcFd (rq s)) o = [] ->
     wp (SetError FCGX_PROTOCOL_ERROR ;;; ret false) Q (set_os o s)) ->
  wp refill Q s.
Proof.
  intros [Hl Hm Hr Hst Hb Hs] Hok Hend. unfold refill. sstep.
  destruct (Z.eqb_spec (rdNext (stm s)) (buffStop (data (stm s)))) as [He|Hne].
  - assert (rview s = os_in (ipcFd (rq s)) (os s)) as Hv.
    { unfold rview. by rewrite He, slice_empty by lia. }
    sstep. wp_use wp_OS_Read; [done|unfold INT_MAX; lia|].
    intros [count bs] o' (Hstat & Hout & Hin & Hcase).
    assert (in_only (ipcFd (rq s)) (os s) o') as Ho by done.
    pose proof (in_only_sys _ _ _ Ho Hs) as Hs'.
    destruct Hcase as [(bs' & [= -> ->] & Hbs & Hlen & Hby & Hi) |
                       [([= -> ->] & Hi & Hi') | (_ & _ & _ & Hmf)]];
      [| |by destruct no_fail].
    + assert (0 < len bs') as Hpos.
      { pose proof (len_nonneg bs'). destruct (Z.eq_dec (len bs') 0) as [E|]; [|lia].
        by apply len_nil_inv in E. }
      replace (len bs' <=? 0) with false by lia. sstep.
      apply wp_buff_write; cbn; [lia|lia|]. sstep.
      assert (len (splice (buff (data (stm s))) 0 bs') = len (buff (data (stm s)))) as Hsl
        by (apply splice_len; lia).
      assert (bytes (splice (buff (data (stm s))) 0 bs')) by by apply bytes_splice.
      refine (Hok _ (splice (buff (data (stm s))) 0 bs') 0 (len bs') o' _ _ _ Ho).
      * rewrite Hv, Hi. intros E. by apply app_eq_nil in E as [? _].
      * split; cbn; try done; lia.
      * lia.
      * rewrite Hv, Hi. unfold rview. cbn. f_equal. apply slice_splice_same; lia.
    + cbn. sstep. apply Hend; [congruence|done|done].
  - sstep. destruct s as [[rd wr sp su ir ic wf er fp ep [b bl mb bs ty es sk cl pl aw rw]] r o].
    apply (Hok) with (b := b) (rd := rd) (bs := bs) (o := o); cbn in *; try done; [|lia].
    unfold rview. cbn. intros E. apply app_eq_nil in E as [E _].
    apply (f_equal len) in E. rewrite slice_len in E by lia.
    change (len []) with 0 in E. lia.
Qed.
End Refill.

(** ** Sources that hand out their input through the buffer *)

Section Frame.
Context `{PlatformLaws}.
Implicit Types (s : SState) (o : OS).

(** what reading leaves alone *)
Record rframe s0 s : Prop := {
  rf_rq : rq s = rq s0;
  rf_os : link (ipcFd (rq s0)) (os s0) (os s);
  rf_reader : isReader (stm s) = isReader (stm s0);
  rf_proc : fillBuffProc (stm s) = fillBuffProc (stm s0);
  rf_fclose : wasFCloseCalled (stm s) = wasFCloseCalled (stm s0);
  rf_type : type (data (stm s)) = type (data (stm s0));
  rf_eor : eorStop (data (stm s)) = eorStop (data (stm s0));
  rf_bufflen : bufflen (data (stm s)) = bufflen (data (stm s0))
}.

#[export] Instance rframe_preorder : PreOrder rframe.
Proof.
  split.
  - intros s. split; done.
  - intros s1 s2 s3 [] []. split; try congruence.
    transitivity (os s2); [done|]. by rewrite <- rf_rq0.
Qed.

Lemma window_quiet s o : window_ok s -> os_quiet (os s) o -> window_ok (set_os o s).
Proof. intros [] (Hs & _). split; try done. unfold os_static, os_vars in Hs. cbn. congruence. Qed.

Lemma rframe_quiet s0 s o : rframe s0 s -> os_quiet (os s) o -> rframe s0 (set_os o s).
Proof. intros Hfr Hq. transitivity s; [done|]. by split; try apply quiet_link. Qed.

(** what the procedure may still look at, beyond the bytes it handed out *)
Definition beyond s : list Z :=
  slice (buff (data (stm s))) (stop (stm s)) (buffStop (data (stm s)))
  ++ os_in (ipcFd (rq s)) (os s).

(** [V sent w clen plen c]: after [sent] on the connection's output, the bytes
    [w], in a record with [clen] bytes of content and [plen] of padding to come,
    carry [c] *)
Context (V : list Z -> list Z -> Z -> Z -> list Z -> Prop).

(** between calls of the procedure: [c] is still to be delivered, its first
    bytes are in the buffer *)
Record buffered_src s0 (c : list Z) s : Prop := {
  bs_win : window_ok s;
  bs_frame : rframe s0 s;
  bs_open : isClosed (stm s) = false;
  bs_errno : FCGI_errno (stm s) = FCGI_errno (stm s0);
  bs_skip : skip (data (stm s)) = false;
  bs_stop : rdNext (stm s) <= stop (stm s) <= buffStop (data (stm s));
  bs_unget : rdNext (stm s) < stop (stm s) -> unget_ok s;
  bs_view : exists more,
    V (os_out (ipcFd (rq s)) (os s)) (beyond s) (contentLen (data (stm s)))
      (paddingLen (data (stm s))) more /\
    c = ahead s ++ more
}.

Lemma buffered_ready s0 c s :
  isReader (stm s0) = true -> fillBuffProc (stm s0) = FillBuffProc_ptr ->
  buffered_src s0 c s -> reader_ok s.
Proof.
  intros Hrd Hpr [[? ? ? ? ? _] [_ _ Hrd' Hpr' _ _ _ _] Hop _ _ Hst _ _].
  split; [congruence|done|congruence|lia|lia|done].
Qed.

Lemma buffered_advance s0 c s m : buffered_src s0 c s -> 0 <= m ->
  rdNext (stm s) + m <= stop (stm s) ->
  buffered_src s0 (drop (Z.to_nat m) c) (advance m s).
Proof.
  intros [[] Hfr Hop Her Hsk Hst Hu (more & HV & ->)] Hm Hle.
  split; [split; cbn; done || lia|by destruct Hfr|done|done|done|cbn; lia| |].
  { cbn. intros. destruct Hu as (u & Hu & ?); [lia|]. exists u. cbn. split; [done|lia]. }
  exists more. split; [exact HV|]. unfold ahead. cbn.
  rewrite (slice_app _ (rdNext (stm s)) (rdNext (stm s) + m)) by lia.
  rewrite <- app_assoc, drop_app_length'; [done|].
  assert (len (slice (buff (data (stm s))) (rdNext (stm s)) (rdNext (stm s) + m)) = m) as Hl
    by (rewrite slice_len; lia).
  unfold len in Hl. lia.
Qed.

Lemma beyond_ungot s0 c s b : buffered_src s0 c s -> can_unget s ->
  beyond (ungot b s) = beyond s.
Proof.
  intros [[] _ _ _ _ Hst _ _] (u & Hu & Hul).
  unfold beyond. cbn. rewrite slice_splice_after; [done|lia|..];
    change (len [b]) with 1; lia.
Qed.

Lemma buffered_unget s0 c s b :
  buffered_src s0 c s -> can_unget s -> is_byte b -> buffered_src s0 (b :: c) (ungot b s).
Proof.
  intros HI Hcan Hb. pose proof (beyond_ungot s0 c s b HI Hcan) as Hbey.
  destruct HI as [[] Hfr Hop Her Hsk Hst _ (more & HV & ->)]. destruct Hcan as (u & Hu & Hul).
  assert (len (splice (buff (data (stm s))) (rdNext (stm s) - 1) [b]) =
          len (buff (data (stm s)))) as Hl.
  { apply splice_len; change (len [b]) with 1; lia. }
  assert (rdNext (stm s) - 1 + len [b] = rdNext (stm s)) as Hr by (change (len [b]) with 1; lia).
  split; [|by destruct Hfr|done|done|done|cbn; lia|intros _; exists u; cbn; split; [done|lia]|].
  - split; cbn; try done; try lia. apply bytes_splice; [done|]. by constructor.
  - exists more. rewrite Hbey. split; [exact HV|]. unfold ahead. cbn.
    rewrite (slice_app _ (rdNext (stm s) - 1) (rdNext (stm s))) by lia.
    rewrite slice_splice_same, slice_splice_after by lia. done.
Qed.

Lemma buffered_quiet s0 c s o :
  buffered_src s0 c s -> os_quiet (os s) o -> buffered_src s0 c (set_os o s).
Proof.
  intros [Hwin Hfr Hop Her Hsk Hst Hu (more & HV & ->)] Hq.
  split; [by apply window_quiet|by apply rframe_quiet|done..|].
  exists more. split; [|done]. unfold beyond. cbn. destruct Hq as (_ & Hi & Ho).
  rewrite Hi, Ho. exact HV.
Qed.

Lemma beyond_le s0 c s : buffered_src s0 c s -> len (beyond s) <= len (rview s).
Proof.
  intros [[] _ _ _ _ Hst _ _]. unfold beyond, rview.
  rewrite !len_app, !slice_len by lia. lia.
Qed.

(** What makes a buffered source is the behaviour of its procedure when the
    buffer is used up. *)
Lemma buffered_source fill s0 bound (E : SState -> Prop) :
  isReader (stm s0) = true -> fillBuffProc (stm s0) = FillBuffProc_ptr ->
  (forall c s, buffered_src s0 c s /\ len (beyond s) <= bound ->
     rdNext (stm s) = stop (stm s) ->
     wp fill (fun _ s' =>
       (isClosed (stm s') = true /\ c = [] /\ E s') \/
       (isClosed (stm s') = false /\
        (buffered_src s0 c (mark_unget s') /\ len (beyond (mark_unget s')) <= bound) /\
        rdNext (stm s') < stop (stm s'))) s) ->
  (forall s, E s -> isClosed (stm s) = true) ->
  Source fill (fun c s => buffered_src s0 c s /\ len (beyond s) <= bound) E.
Proof.
  intros Hrd Hpr Hfill HE. split; [| | |exact Hfill| | | |exact HE].
  - intros c s [HI _]. by eapply buffered_ready.
  - intros c s [[_ _ _ _ _ _ _ (more & _ & ->)] _]. by eexists.
  - intros c s m [HI Hl] Hm Hle. split; [by apply buffered_advance|done].
  - intros c s [HI _]. apply HI.
  - intros c s b [HI Hl] Hcan Hb. split; [by apply buffered_unget|].
    by erewrite beyond_ungot.
  - intros c s o [HI Hl] Hq. split; [by apply buffered_quiet|].
    unfold beyond in *. cbn. destruct Hq as (_ & Hi & _). by rewrite Hi.
Qed.
End Frame.

(** ** Reading a header *)

Section Header.
Context `{Reliable}.
Implicit Types (s : SState) (o : OS).

(** the state in which a complete header is interpreted *)
Definition at_header s : SState :=
  set_stm (set_stop (rdNext (stm s)) (set_data (set_eorStop true (data (stm s))) (stm s))) s.

Definition interpret fuel fill h : M SState (list Z + unit) :=
  status <- ProcessHeader fuel fill h ;;
  upd_data (set_eorStop false) ;;;
  upd_stm (set_isClosed false) ;;;
  after_header status.

Lemma rview_take m s : window_ok s -> 0 <= m ->
  rdNext (stm s) + m <= buffStop (data (stm s)) ->
  let s' := advance m s in
  window_ok s' /\
  rview s = slice (buff (data (stm s))) (rdNext (stm s)) (rdNext (stm s) + m) ++ rview s' /\
  len (slice (buff (data (stm s))) (rdNext (stm s)) (rdNext (stm s) + m)) = m.
Proof.
  intros [] Hm Hle s'. split; [split; cbn; done || lia|].
  split; [apply rview_advance; lia|]. rewrite slice_len; lia.
Qed.

(** eight bytes are a header *)
Lemma header_of_eight l : len l = 8 -> exists h, header_of_bytes l = Some h.
Proof.
  intros Hl. unfold len in Hl. do 8 (destruct l as [|? l]; [cbn in Hl; lia|]).
  destruct l; [|cbn in Hl; lia]. by eexists.
Qed.

(** The header of the next record is read from the buffer, as far as it goes. *)
Lemma wp_read_header fuel fill hdr s (Q : list Z + unit -> SState -> Prop) :
  window_ok s -> len hdr < 8 ->
  (forall bs, bytes bs -> rview s = bs ++ rview (advance (len bs) s) ->
     window_ok (advance (len bs) s) ->
     (rdNext (stm s) < buffStop (data (stm s)) -> bs <> []) ->
     if len (hdr ++ bs) <? 8 then Q (inl (hdr ++ bs)) (advance (len bs) s)
     else bs <> [] -> len (hdr ++ bs) = 8 ->
       forall h, header_of_bytes (hdr ++ bs) = Some h ->
       wp (interpret fuel fill h) Q (at_header (advance (len bs) s))) ->
  wp (fill_header fuel fill hdr) Q s.
Proof.
  intros Hwin Hh HQ. pose proof Hwin as [Hbl Hmem Hrd Hst Hby Hsys]. pose proof (len_nonneg hdr).
  unfold fill_header. sstep. set (diff := buffStop (data (stm s)) - rdNext (stm s)).
  apply wp_assert; [unfold INT_MAX; lia|]. sstep.
  unfold FCGI_HEADER_LEN. set (m := Z.min (8 - len hdr) diff).
  destruct (rview_take m s) as (Hwin1 & Hv & Hm); [done|lia|lia|].
  apply wp_take_bytes; [lia|lia|lia|]. sstep.
  set (bs := slice _ _ _) in *. specialize (HQ bs). rewrite Hm in HQ.
  specialize (HQ (bytes_slice _ _ _ Hby) Hv Hwin1).
  assert (len (hdr ++ bs) = len hdr + m) as Hlen by (rewrite len_app; lia).
  assert (0 < m -> bs <> []) as Hne.
  { intros Hpos E. rewrite E in Hm. change (len []) with 0 in Hm. lia. }
  specialize (HQ ltac:(intros; apply Hne; lia)).
  rewrite Hlen in *. destruct (Z.ltb_spec (len hdr + m) 8) as [Hlt|Hge]; sstep; [done|].
  destruct (header_of_eight (hdr ++ bs)) as (h & Hdec); [lia|].
  eapply wp_of_option; [exact Hdec|]. apply HQ; [apply Hne; lia|lia|done].
Qed.

(** ** Interpreting a header *)

(** the stream between the header of a record and its content *)
Definition headed (p : phase) o s : SState :=
  set_os o (set_stm (set_isClosed false (set_stop (rdNext (stm s))
    (set_data (set_skip (ph_skip p) (set_paddingLen (ph_padding p)
      (set_contentLen (ph_content p) (set_eorStop false (data (stm s)))))) (stm s)))) s).

Definition closed_here s : SState :=
  set_stm (set_isClosed true (set_wrNext (rdNext (stm s)) (stm s))) s.

(** [bs] was sent on the connection *)
Definition sent (bs : list Z) fd o o' : Prop :=
  link fd o o' /\ os_in fd o' = os_in fd o /\ os_out fd o' = os_out fd o ++ bs.

Lemma sent_nil fd o : sent [] fd o o.
Proof. by split_and!; rewrite ?app_nil_r. Qed.

Lemma quiet_sent bs fd o1 o2 o3 : os_quiet o1 o2 -> sent bs fd o2 o3 -> sent bs fd o1 o3.
Proof.
  intros Hq (Hl & Hi & Ho). pose proof Hq as (_ & Hi' & Ho'). split_and!.
  - transitivity o2; [by apply quiet_link|done].
  - by rewrite Hi, Hi'.
  - by rewrite Ho, Ho'.
Qed.

(** a whole reply is written *)
Lemma wp_send fuel fd bs o (Q : Z -> OS -> Prop) :
  shutdownNow o = false -> len bs <= 16 -> 16 < Z.of_nat fuel ->
  (forall o', sent bs fd o o' -> Q 0 o') -> wp (write_it_all fuel fd bs) Q o.
Proof.
  intros Hs Hl Hf HQ.
  wp_use wp_write_it_all; [done|unfold INT_MAX; lia|unfold len in Hl; lia|].
  intros r o' [(Hst & Hi & Hoth) [[-> Ho] | (_ & _ & Hf' & _)]]; [|by destruct no_fail].
  apply HQ. split_and!; [|by rewrite Hi|done]. split_and!; [done| |by eexists].
  intros fd' Hne. by rewrite Hi, Hoth.
Qed.

Lemma busy_rec_ok id : 0 <= id < 65536 -> rec_ok (busy_rec id).
Proof. intros. split_and!; cbn; done || lia. Qed.

Lemma unknown_rec_ok ty : rec_ok (unknown_rec ty).
Proof. split_and!; done. Qed.

(** an unknown management record is answered, and its content left *)
Lemma wp_unknown_record fuel fill ty s (Q : Z -> SState -> Prop) :
  ty <> FCGI_GET_VALUES -> shutdownNow (os s) = false -> 16 < Z.of_nat fuel ->
  (forall o, sent (encode_rec (unknown_rec ty)) (ipcFd (rq s)) (os s) o ->
     Q MGMT_RECORD (set_os o s)) ->
  wp (ProcessManagementRecord fuel fill ty) Q s.
Proof.
  intros Hty Hs Hf HQ. unfold ProcessManagementRecord. wp_step. unfold lift_os at 1.
  apply wp_zoom. wp_use wp_NewParams; [lia|]. intros p o1 (_ & _ & Hq). wp_steps.
  set (response := _ <$> seq 0 64).
  assert (len response = 64) as Hl by (unfold response, len; by rewrite length_fmap, length_seq).
  rewrite (proj2 (Z.eqb_neq _ _) Hty). wp_step. unfold unknown_reply. wp_step.
  apply (wp_MakeHeader (unknown_rec ty)); [apply unknown_rec_ok|done..|]. intros h Hh. wp_step.
  set (bs := header_bytes h ++ _).
  assert (bs = encode_rec (unknown_rec ty)) as Hbs.
  { unfold bs. rewrite Hh. unfold encode_rec. by rewrite app_nil_r. }
  assert (len bs = 16) as Hb16 by by rewrite Hbs.
  apply wp_mem_write; [lia|lia|]. wp_steps. unfold send_reply, get_rq. wp_steps. cbn [fst snd].
  change (FCGI_HEADER_LEN + 8) with 16.
  apply wp_mem_read; [lia|lia|rewrite splice_len; lia|]. rewrite slice_splice_same by lia.
  wp_step. apply wp_zoom. apply wp_send; [|lia|done|].
  { destruct Hq as [Hst _]. unfold os_static, os_vars in Hst. cbn. congruence. }
  intros o Ho. change (0 <? 0) with false. wp_steps. apply HQ. rewrite Hbs in Ho.
  by eapply quiet_sent.
Qed.

(** a second BEGIN_REQUEST is answered, and its content skipped *)
Lemma wp_busy_record fuel fill id s (Q : Z -> SState -> Prop) :
  0 < id < 65536 -> contentLen (data (stm s)) = sizeof_BeginRequestBody ->
  isBeginProcessed (rq s) = true -> shutdownNow (os s) = false -> 16 < Z.of_nat fuel ->
  (forall o, sent (encode_rec (busy_rec id)) (ipcFd (rq s)) (os s) o -> Q SKIP (set_os o s)) ->
  wp (ProcessBeginRecord fuel fill id) Q s.
Proof.
  intros Hid Hc Hb Hs Hf HQ. unfold ProcessBeginRecord. sstep. rewrite Hc, Hb, Z.eqb_refl.
  replace (id =? 0) with false by lia. cbn [negb orb]. sstep.
  apply (wp_MakeHeader (busy_rec id)); [apply busy_rec_ok; lia|done..|]. intros h Hh. sstep.
  change (end_body_bytes _) with (r_content (busy_rec id)).
  replace (header_bytes h ++ _) with (encode_rec (busy_rec id)).
  2: { rewrite Hh. unfold encode_rec. by rewrite app_nil_r. }
  apply wp_send; [done|done|done|]. intros o Ho. change (0 <? 0) with false. sstep. by apply HQ.
Qed.

Lemma wp_refuse status s (Q : list Z + unit -> SState -> Prop) :
  status < 0 -> Q (inr tt) (refused status s) -> wp (after_header status) Q s.
Proof.
  intros Hs HQ. unfold after_header, STREAM_RECORD, SKIP, BEGIN_RECORD, MGMT_RECORD.
  replace (status =? 0) with false by lia. replace (status =? 1) with false by lia.
  replace (status =? 2) with false by lia. replace (status =? 3) with false by lia.
  sstep. apply wp_assert; [lia|]. sstep. apply wp_SetError. by sstep.
Qed.

(** What interpreting a header leads to, in the terms of [interpret_header]; a
    record whose content is read at once is left to the caller. *)
Lemma wp_interpret fuel fill h s (Q : list Z + unit -> SState -> Prop) :
  bytes (header_bytes h) -> shutdownNow (os s) = false -> 16 < Z.of_nat fuel ->
  match interpret_header (type (data (stm s))) (requestId (rq s)) (isBeginProcessed (rq s))
          (skip (data (stm s))) h with
  | Proceed reply p => forall o, sent reply (ipcFd (rq s)) (os s) o -> Q (inl []) (headed p o s)
  | StreamEnds => forall plen,
      Q (inr tt) (closed_here (headed (mkPhase [] 0 plen (skip (data (stm s)))) (os s) s))
  | Refuse status => forall p, Q (inr tt) (refused status (headed p (os s) s))
  | _ => wp (interpret fuel fill h) Q (at_header s)
  end ->
  wp (interpret fuel fill h) Q (at_header s).
Proof.
  intros Hb Hs Hf.
  destruct (header_ranges h Hb) as [Hid _].
  destruct s as [[rd wr sp su ir ic wf er fp ep [b bl mb bs ty es sk cl pl aw rw]] rr o].
  sproj. cbn in Hs.
  pose proof (header_viewP ty (requestId rr) (isBeginProcessed rr) sk h) as Hview.
  destruct Hview as [Hv|[Hv Hty] Hbad|[Hv Hty] Hi Hc Hbg|[Hv Hty] Hi Hc Hbg|(Hv & Hty & Hi) Hgv
    |(Hv & Hty & Hi) Hgv|(Hv & Hty & Hi) Hne|(Hv & Hty & Hi) He Hne|(Hv & Hty & Hi) He Ht Hc
    |(Hv & Hty & Hi) He Ht Hc]; intros HQ; try exact HQ;
    unfold interpret, ProcessHeader, at_header; fold (header_id h) (header_content h);
    rewrite ?(proj2 (Z.eqb_eq _ _) Hv), ?(proj2 (Z.eqb_neq _ _) Hv),
      ?(proj2 (Z.eqb_eq _ _) Hty), ?(proj2 (Z.eqb_neq _ _) Hty), ?(proj2 (Z.eqb_eq _ _) Hi),
      ?(proj2 (Z.eqb_neq _ _) Hi); cbn [negb]; sstep; sproj.
  - apply wp_refuse; [done|]. exact (HQ (mkPhase [] cl pl sk)).
  - unfold ProcessBeginRecord. sstep. sproj. unfold sizeof_BeginRequestBody in *.
    replace (_ || _) with true by lia. sstep. apply wp_refuse; [done|].
    exact (HQ (mkPhase [] (header_content h) (h_paddingLength h) sk)).
  - apply wp_busy_record; [lia|exact Hc|exact Hbg|exact Hs|done|]. intros o' Ho. sstep.
    unfold after_header. change (SKIP =? STREAM_RECORD) with false. sstep. exact (HQ o' Ho).
  - apply wp_unknown_record; [done|exact Hs|done|]. intros o' Ho. sstep.
    unfold after_header. change (MGMT_RECORD =? STREAM_RECORD) with false.
    change (MGMT_RECORD =? SKIP) with false. change (MGMT_RECORD =? BEGIN_RECORD) with false. sstep.
    exact (HQ o' Ho).
  - rewrite (proj2 (Z.eqb_neq _ _) Hne). cbn [negb]. sstep.
    unfold after_header. change (SKIP =? STREAM_RECORD) with false. sstep. exact (HQ o (sent_nil _ _)).
  - rewrite (proj2 (Z.eqb_eq _ _) He). cbn [negb]. sstep. sproj.
    rewrite (proj2 (Z.eqb_neq _ _) Hne). cbn [negb]. sstep. apply wp_refuse; [done|].
    exact (HQ (mkPhase [] (header_content h) (h_paddingLength h) sk)).
  - rewrite (proj2 (Z.eqb_eq _ _) He). cbn [negb]. sstep. sproj.
    rewrite (proj2 (Z.eqb_eq _ _) Ht). cbn [negb]. sstep.
    unfold after_header. rewrite Z.eqb_refl. sstep. sproj. rewrite Hc, Z.eqb_refl. sstep.
    exact (HQ (h_paddingLength h)).
  - rewrite (proj2 (Z.eqb_eq _ _) He). cbn [negb]. sstep. sproj.
    rewrite (proj2 (Z.eqb_eq _ _) Ht). cbn [negb]. sstep.
    unfold after_header. rewrite Z.eqb_refl. sstep. sproj. rewrite (proj2 (Z.eqb_neq _ _) Hc). sstep.
    exact (HQ o (sent_nil _ _)).
Qed.
End Header.

(** ** The demultiplexer *)

Section Demux.
Context `{Reliable}.
Implicit Types (s : SState) (o : OS).

(** the stream's record type and request, whether the request has begun, and
    whether one record's content is read *)
Variables (t id : Z) (begun eor : bool).
(** all that is sent on the connection up to the end, and the end *)
Variables (out : list Z) (e : ending).
(** what follows the content of the one record that is read *)
Variable after : list Z.
(** the state reading starts from *)
Variable s0 : SState.
(** the fuel and the procedure of the calls, and a bound on the window *)
Variables (fuel : nat) (fill : M SState unit) (bound : Z).
(** what reading the content of a header's record at once leads to *)
Variable Inner : SState -> Prop.

Record demux_base : Prop := {
  db_type : type (data (stm s0)) = t;
  db_id : requestId (rq s0) = id;
  db_begun : isBeginProcessed (rq s0) = begun;
  db_eor : eorStop (data (stm s0)) = eor;
  db_reader : isReader (stm s0) = true;
  db_proc : fillBuffProc (stm s0) = FillBuffProc_ptr
}.

Let runs := run t id begun eor.

(** [run f p w] delivers [c], after which everything is sent and the end is [e] *)
Definition carries (f : phase -> list Z -> delivery) (sent : list Z) (w : list Z) (p : phase)
    (c : list Z) : Prop :=
  exists replies, f p w = mkDelivery c replies e /\ sent ++ replies = out.

Definition tail_at (clen : Z) (w : list Z) : Prop :=
  eor = true -> drop (Z.to_nat clen) w = after.

(** the bytes [w] carry the content [c] *)
Definition stream_view (sent w : list Z) (clen plen : Z) (c : list Z) : Prop :=
  0 <= clen /\ 0 <= plen /\ carries runs sent w (mkPhase [] clen plen false) c /\
  tail_at clen w.

(** between calls: [c] is still to be delivered, its first bytes are in the
    buffer *)
Definition stream_src : list Z -> SState -> Prop := buffered_src stream_view s0.

Definition phase_of (hdr : list Z) s : phase :=
  mkPhase hdr (contentLen (data (stm s))) (paddingLen (data (stm s))) (skip (data (stm s))).

(** inside [FillBuffProc], with the part [hdr] of a header read: [c] is still
    to be delivered *)
Record fill_inv (f : phase -> list Z -> delivery) c hdr s : Prop := {
  fi_win : window_ok s;
  fi_frame : rframe s0 s;
  fi_open : isClosed (stm s) = false;
  fi_errno : FCGI_errno (stm s) = FCGI_errno (stm s0);
  fi_hdr : len hdr < 8 /\ bytes hdr;
  fi_range : 0 <= contentLen (data (stm s)) /\ 0 <= paddingLen (data (stm s));
  fi_mid : hdr <> [] -> contentLen (data (stm s)) = 0 /\ paddingLen (data (stm s)) = 0;
  fi_carries : carries f (os_out (ipcFd (rq s)) (os s)) (rview s) (phase_of hdr s) c;
  fi_tail : 0 < contentLen (data (stm s)) -> tail_at (contentLen (data (stm s))) (rview s)
}.

(** the end was delivered *)
Record stream_end s : Prop := {
  se_win : window_ok s;
  se_frame : rframe s0 s;
  se_closed : isClosed (stm s) = true;
  se_sent : os_out (ipcFd (rq s)) (os s) = out;
  se_how : match e with
    | EndOfStream rest | EndOfRecord rest =>
        FCGI_errno (stm s) = FCGI_errno (stm s0) /\ rview s = rest /\
        stop (stm s) = rdNext (stm s) /\ contentLen (data (stm s)) = 0
    | Broken status => FCGI_errno (stm s) =
        (if FCGI_errno (stm s0) =? 0 then status else FCGI_errno (stm s0))
    | _ => False
    end
}.

Definition fill_done c s : Prop :=
  (c = [] /\ stream_end s) \/
  (isClosed (stm s) = false /\ stream_src c (mark_unget s) /\ rdNext (stm s) < stop (stm s)) \/
  (c = [] /\ Inner s).

(** one turn of the loop consumes part of the window *)
Definition turn_post c n (r : list Z + unit) s : Prop :=
  match r with
  | inl hdr => fill_inv runs c hdr s /\ len (rview s) < n
  | inr _ => fill_done c s /\ len (rview s) <= n
  end.

(** [n] bounds the window, strictly when part of it was already consumed *)
Definition progress n s : Prop :=
  len (rview s) < n \/
  (rdNext (stm s) < buffStop (data (stm s)) /\ len (rview s) <= n).

Hypothesis base : demux_base.
Hypothesis fuel_ok : 16 < Z.of_nat fuel.

(** a record whose content is read as soon as its header is seen *)
Hypothesis inner_ok : forall h s,
  match interpret_header t id begun (skip (data (stm s))) h with
  | ReadBegin i plen sk => e = BeginBody i plen sk (rview s)
  | ReadValues clen plen sk => e = ValuesBody clen plen sk (rview s)
  | _ => False
  end ->
  bytes (header_bytes h) -> window_ok s -> rframe s0 s -> isClosed (stm s) = false ->
  FCGI_errno (stm s) = FCGI_errno (stm s0) -> os_out (ipcFd (rq s)) (os s) = out ->
  len (rview s) <= bound ->
  wp (interpret fuel fill h) (fun r s' =>
    r = inr tt /\ Inner s' /\ len (rview s') <= len (rview s)) (at_header s).

Lemma headed_frame p o s : rframe s0 s -> eor = false -> link (ipcFd (rq s)) (os s) o ->
  rframe s0 (headed p o s).
Proof.
  intros [] He Hl. destruct base. rewrite rf_rq0 in Hl.
  split; try (cbn; congruence). cbn. by transitivity (os s).
Qed.

Lemma headed_window p o s : window_ok s -> os_static o = os_static (os s) ->
  window_ok (headed p o s).
Proof. intros [] Hs. split; try done. unfold os_static, os_vars in Hs. cbn. congruence. Qed.

(** the outcome of a header that is complete in [s] *)
Lemma wp_header_done c n h s :
  eor = false -> bytes (header_bytes h) -> window_ok s -> rframe s0 s ->
  isClosed (stm s) = false -> FCGI_errno (stm s) = FCGI_errno (stm s0) ->
  len (rview s) < n -> n <= bound ->
  (exists replies, after_action runs (interpret_header t id begun (skip (data (stm s))) h) (rview s)
     = mkDelivery c replies e /\ os_out (ipcFd (rq s)) (os s) ++ replies = out) ->
  wp (interpret fuel fill h) (turn_post c n) (at_header s).
Proof.
  intros Heor Hb Hwin Hfr Hop Her Hn Hbd (replies & Hrun & Hout).
  pose proof Hwin as [_ _ _ _ _ Hsys]. pose proof base as [Hty Hid Hbg _ _ _].
  pose proof Hfr as [Hrq Hos _ _ _ Hty' _ _].
  apply wp_interpret; [done..|].
  assert (type (data (stm s)) = t) as -> by congruence.
  assert (requestId (rq s) = id) as -> by congruence.
  assert (isBeginProcessed (rq s) = begun) as -> by congruence.
  pose proof (inner_ok h s) as Hinner.
  destruct (interpret_header t id begun _ h) as [reply p| |status|i plen sk|clen plen sk] eqn:Ha;
    cbn [after_action] in Hrun.
  - intros o (Hl & Hi & Ho). destruct (interpret_proceed _ _ _ _ _ _ _ Hb Ha) as (Hph & Hc & Hp).
    assert (rview (headed p o s) = rview s) as Hv by (unfold rview; cbn; by rewrite Hi).
    split; [|by rewrite Hv].
    destruct (runs p (rview s)) as [c' r' e'] eqn:Hr. injection Hrun as -> <- ->.
    split; [apply headed_window; [done|apply Hl]|by apply headed_frame|done|exact Her
          |by split; [|constructor]|done|done| |intros _ E; congruence].
    exists r'. rewrite Hv. destruct p. cbn in Hph. subst. split; [exact Hr|].
    cbn. by rewrite Ho, <- app_assoc.
  - intros plen. injection Hrun as <- <- He. rewrite app_nil_r in Hout.
    split; [left|apply Z.lt_le_incl, Hn]. split; [done|].
    split; [by destruct Hwin| |done|done|rewrite <- He; by split_and!].
    destruct (headed_frame (mkPhase [] 0 plen (skip (data (stm s)))) (os s) s); done.
  - intros p. injection Hrun as <- <- He. rewrite app_nil_r in Hout.
    split; [left|apply Z.lt_le_incl, Hn]. split; [done|].
    split; [by destruct Hwin| |done|done|rewrite <- He; cbn; by rewrite Her].
    destruct (headed_frame p (os s) s); done.
  - injection Hrun as <- <- He. rewrite app_nil_r in Hout.
    wp_use Hinner; try done; [lia|]. intros r s' (-> & Hs' & Hle). split; [by do 2 right|lia].
  - injection Hrun as <- <- He. rewrite app_nil_r in Hout.
    wp_use Hinner; try done; [lia|]. intros r s' (-> & Hs' & Hle). split; [by do 2 right|lia].
Qed.

(** reading a header, in one or several pieces, and acting on it *)
Lemma wp_fill_header c hdr n s :
  eor = false -> fill_inv runs c hdr s -> contentLen (data (stm s)) = 0 ->
  paddingLen (data (stm s)) = 0 -> progress n s -> n <= bound ->
  wp (fill_header fuel fill hdr) (turn_post c n) s.
Proof.
  intros Heor [Hwin Hfr Hop Her [Hh Hhb] Hrg _ (replies & Hrun & Hout) Htl] Hc0 Hp0 Hn Hbd.
  apply wp_read_header; [done|done|]. intros bs Hbs Hv Hwin1 Hne.
  set (s1 := advance (len bs) s) in *.
  assert (len (rview s) = len bs + len (rview s1)) as Hl by by rewrite Hv, len_app.
  assert (len (rview s1) < n) as Hn1.
  { destruct Hn as [Hn|[Hlt Hn]]; [pose proof (len_nonneg bs); lia|].
    specialize (Hne Hlt). destruct bs as [|b bs]; [done|].
    rewrite len_cons in Hl. pose proof (len_nonneg bs). lia. }
  unfold phase_of in Hrun. rewrite Hc0, Hp0, Hv in Hrun.
  destruct (Z.ltb_spec (len (hdr ++ bs)) 8) as [Hlt|Hge].
  - split; [|done]. unfold runs in Hrun. rewrite len_app in Hlt.
    rewrite run_header_part in Hrun by done.
    split; [done|by destruct Hfr|done|done| |done|done| |by intros _; congruence].
    + split; [by rewrite len_app|]. by apply Forall_app.
    + exists replies. split; [|done]. unfold phase_of. cbn. by rewrite Hc0, Hp0.
  - intros _ _ h Hh8. unfold runs in Hrun.
    rewrite run_header_full with (h := h) in Hrun by done.
    apply wp_header_done; try done; [|by destruct Hfr|by exists replies].
    rewrite (header_bytes_inv _ _ Hh8). by apply Forall_app.
Qed.

Lemma wp_end_of_record c hdr n s :
  fill_inv (settle eor runs) c hdr s -> contentLen (data (stm s)) = 0 ->
  paddingLen (data (stm s)) = 0 -> progress n s -> n <= bound ->
  wp (end_of_record fuel fill hdr) (turn_post c n) s.
Proof.
  intros [Hwin Hfr Hop Her Hh Hrg Hmid Hcar Htl] Hc0 Hp0 Hn Hbd. unfold end_of_record. sstep.
  rewrite (rf_eor _ _ Hfr), (db_eor base). unfold settle in Hcar.
  destruct (Bool.bool_dec eor true) as [Heor|Heor%Bool.not_true_is_false]; rewrite Heor in *;
    [|by apply wp_fill_header].
  destruct Hcar as (replies & Hrun & Hout). cbn in Hrun. rewrite Hc0, Hp0 in Hrun.
  injection Hrun as <- <- He. rewrite app_nil_r in Hout. sstep.
  assert (len (rview s) <= n) by (destruct Hn; lia). split; [left|done]. split; [done|].
  split; [by destruct Hwin|by destruct Hfr|done|done|rewrite <- He; by split_and!].
Qed.

(** [m] bytes of the window go by *)
Definition consume m clen plen sk s : SState :=
  set_stm (set_rdNext (rdNext (stm s) + m) (set_data
    (set_skip sk (set_paddingLen plen (set_contentLen clen (data (stm s))))) (stm s))) s.

Lemma fill_inv_consume f g c m clen plen sk s :
  fill_inv f c [] s -> 0 <= m -> rdNext (stm s) + m <= buffStop (data (stm s)) ->
  0 <= clen -> 0 <= plen -> clen = 0 \/ clen = contentLen (data (stm s)) - m ->
  (forall bs w, len bs = m -> f (phase_of [] s) (bs ++ w) = g (mkPhase [] clen plen sk) w) ->
  fill_inv g c [] (consume m clen plen sk s) /\
  len (rview (consume m clen plen sk s)) = len (rview s) - m.
Proof.
  intros [Hwin Hfr Hop Her Hh Hrg Hmid (replies & Hrun & Hout) Htl] Hm Hle Hcl Hpl Hcm Hfg.
  destruct (rview_take m s) as (Hwin1 & Hv & Hlm); [done..|].
  set (s1 := consume m clen plen sk s).
  assert (rview s1 = rview (advance m s)) as Hv1 by done.
  split; [|rewrite Hv1, Hv, len_app; lia].
  split; [by destruct Hwin1|by destruct Hfr|done|done|done|done|done| |].
  - exists replies. split; [|done]. rewrite Hv, (Hfg _ _ Hlm) in Hrun. by rewrite Hv1.
  - rewrite Hv1. cbn. intros Hpos. destruct Hcm as [->|Hcm]; [lia|]. unfold tail_at in *.
    intros He. rewrite <- (Htl ltac:(lia) He), Hv, Hcm. set (bs := slice _ _ _) in *.
    replace (Z.to_nat (contentLen (data (stm s)))) with (length bs + Z.to_nat (contentLen (data (stm s)) - m))%nat
      by (unfold len in Hlm; lia).
    by rewrite drop_app_add.
Qed.

Lemma wp_skip_padding c hdr n s :
  fill_inv (settle eor runs) c hdr s -> contentLen (data (stm s)) = 0 ->
  progress n s -> n <= bound ->
  wp (skip_padding fuel fill hdr) (turn_post c n) s.
Proof.
  intros HI Hc0 Hn Hbd. pose proof HI as [Hwin _ _ _ _ [_ Hp0] Hmid _ _].
  unfold skip_padding. sstep.
  apply wp_if; intros Hp; [|apply wp_end_of_record; done || lia].
  assert (hdr = []) as -> by (destruct hdr; [done|]; destruct Hmid; [done|lia]).
  pose proof Hwin as [Hbl Hmem Hrd Hst _ _].
  sstep. apply wp_assert; [unfold INT_MAX; lia|]. sstep. set (m := Z.min _ _).
  destruct (fill_inv_consume (settle eor runs) (settle eor runs) c m 0
    (paddingLen (data (stm s)) - m) (skip (data (stm s))) s) as [HI' Hl]; [done|lia|lia|lia|lia|by left| |].
  { intros bs w Hbs. unfold runs, phase_of. rewrite settle_padding by (cbn; lia).
    unfold eat_padding. cbn. by rewrite Hbs, Hc0. }
  replace (set_stm _ _) with (consume m 0 (paddingLen (data (stm s)) - m) (skip (data (stm s))) s).
  2: { rewrite <- Hc0. by destruct s as [[? ? ? ? ? ? ? ? ? ? []] ? ?]. }
  set (s1 := consume _ _ _ _ s) in *.
  assert (progress n s1) as Hn' by (destruct Hn as [Hn|Hn]; left; lia).
  apply wp_if; intros Hp'.
  - sstep. split; [|destruct Hn; lia]. destruct HI' as [? ? ? ? ? ? ? Hcar ?]. split; try done.
    unfold runs. destruct Hcar as (r & Hr & Ho). exists r. split; [|done].
    rewrite <- Hr. symmetry. apply settle_run. right. right. cbn in Hp' |- *. lia.
  - apply wp_end_of_record; try done. cbn in Hp' |- *. lia.
Qed.

(** content that is wanted goes to the caller *)
Lemma deliver_done c m s :
  fill_inv runs c [] s -> skip (data (stm s)) = false ->
  0 < m <= contentLen (data (stm s)) -> rdNext (stm s) + m <= buffStop (data (stm s)) ->
  fill_done c (set_stm (set_wrNext (rdNext (stm s) + m) (set_stop (rdNext (stm s) + m)
    (set_data (set_contentLen (contentLen (data (stm s)) - m) (data (stm s))) (stm s)))) s).
Proof.
  intros [Hwin Hfr Hop Her _ [Hc0 Hp0] _ (replies & Hrun & Hout) Htl] Hsk Hm Hle. right. left.
  split; [done|]. split; [|cbn; lia].
  destruct (rview_take m s) as (_ & Hv & Hlm); [done|lia|lia|].
  set (bs := slice _ _ _) in *. rewrite Hv in Hrun. unfold runs, phase_of in Hrun.
  assert (bs <> []) as Hne by (intros E; rewrite E in Hlm; change (len []) with 0 in Hlm; lia).
  rewrite Hsk, run_content in Hrun by (cbn; done || lia).
  cbn [ph_skip] in Hrun. unfold eat_content in Hrun. cbn in Hrun. rewrite Hlm in Hrun.
  destruct (run t id begun eor (mkPhase [] _ _ false) (rview (advance m s))) as [c' r' e'] eqn:Hr.
  injection Hrun as <- -> ->.
  destruct Hwin, Hfr.
  split; [done|done|done|done|done|cbn; lia|intros _; eexists; split; [done|cbn; lia]|].
  exists c'. split; [|done]. split; [cbn; lia|]. split; [done|].
  split; [exists replies; split; [exact Hr|exact Hout]|].
  intros He. rewrite <- (Htl ltac:(lia) He), Hv. cbn.
  replace (Z.to_nat (contentLen (data (stm s)))) with (length bs + Z.to_nat (contentLen (data (stm s)) - m))%nat
    by (unfold len in Hlm; lia).
  by rewrite drop_app_add.
Qed.

Lemma wp_deliver_content c hdr n s :
  fill_inv runs c hdr s -> len (rview s) <= n -> n <= bound ->
  rdNext (stm s) < buffStop (data (stm s)) ->
  wp (deliver_content fuel fill hdr) (turn_post c n) s.
Proof.
  intros HI Hn Hbd Hlt. pose proof HI as [Hwin Hfr Hop Her Hh [Hc0 Hp0] Hmid Hcar _].
  pose proof Hwin as [Hbl Hmem Hrd Hst _ _].
  unfold deliver_content. sstep. apply wp_if; intros Hc.
  2: { apply wp_skip_padding; [|lia|by right|done]. destruct HI. split; try done.
       destruct Hcar as (r & Hr & Ho). exists r. split; [|done]. rewrite <- Hr.
       apply settle_more. intros E. apply (f_equal len) in E. unfold rview in E.
       rewrite len_app, slice_len in E by lia. change (len []) with 0 in E.
       pose proof (len_nonneg (os_in (ipcFd (rq s)) (os s))). lia. }
  assert (hdr = []) as -> by (destruct hdr; [done|]; destruct Hmid; [done|lia]).
  sstep. apply wp_assert; [unfold INT_MAX; lia|]. sstep. set (m := Z.min _ _).
  destruct (skip (data (stm s))) eqn:Hsk; cbn [negb]; sstep.
  2: { split; [|done]. by apply (deliver_done c m s); [..|lia|lia]. }
  set (clen := contentLen (data (stm s)) - m).
  destruct (fill_inv_consume runs (settle eor runs) c m clen (paddingLen (data (stm s)))
    (negb (clen =? 0)) s) as [HI' Hl]; [done|lia|lia|lia|lia|by right| |].
  { intros bs w Hbs. unfold runs, phase_of. rewrite Hsk, run_content; [|intros ->; change (len []) with 0 in Hbs; lia|cbn; lia].
    cbn [ph_skip]. unfold eat_content. cbn. by rewrite Hbs. }
  apply wp_if; intros Hc'; sstep.
  - replace (set_stm _ _) with (consume m clen (paddingLen (data (stm s))) (negb (clen =? 0)) s).
    2: { cbn in Hc'. replace (clen =? 0) with false by (unfold clen; lia). unfold consume, clen. cbn [negb]. rewrite <- Hsk.
         by destruct s as [[? ? ? ? ? ? ? ? ? ? []] ? ?]. }
    split; [|lia]. destruct HI' as [? ? ? ? ? ? ? (r & Hr & Ho) ?]. split; try done.
    exists r. split; [|done]. rewrite <- Hr. symmetry. apply settle_run. right. left.
    cbn in Hc' |- *. lia.
  - replace (set_stm _ _) with (consume m clen (paddingLen (data (stm s))) (negb (clen =? 0)) s).
    2: { cbn in Hc'. replace (clen =? 0) with true by (unfold clen; lia). unfold consume, clen. cbn [negb].
         by destruct s as [[? ? ? ? ? ? ? ? ? ? []] ? ?]. }
    apply wp_skip_padding; [done|cbn in Hc' |- *; unfold clen; lia|left; lia|done].
Qed.

Lemma fill_inv_window f c hdr s b rd bs o :
  fill_inv f c hdr s -> window_ok (window b rd bs o s) ->
  rview (window b rd bs o s) = rview s -> in_only (ipcFd (rq s)) (os s) o ->
  fill_inv f c hdr (window b rd bs o s).
Proof.
  intros [_ Hfr Hop Her Hh Hrg Hmid Hcar Htl] Hwin Hv Ho. apply in_only_link in Ho as [Hl Ho].
  split; try done.
  - transitivity s; [done|]. by split.
  - rewrite Hv. cbn. by rewrite Ho.
  - by rewrite Hv.
Qed.

Lemma wp_FillBuffProc_body c hdr s :
  fill_inv runs c hdr s -> len (rview s) <= bound ->
  wp (FillBuffProc_body fuel fill hdr) (turn_post c (len (rview s))) s.
Proof.
  intros HI Hbd. unfold FillBuffProc_body. sstep.
  apply wp_refill; [by destruct HI| |].
  - intros _ b rd bs o s' Hwin Hlt Hv Ho. sstep.
    pose proof (fill_inv_window _ _ _ _ _ _ _ _ HI Hwin Hv Ho) as HI'.
    apply wp_deliver_content; [exact HI'| |done|exact Hlt].
    change (len (rview s') <= len (rview s)). by rewrite Hv.
  - intros Hv o Ho Hin. destruct HI as [Hwin Hfr Hop Her Hh Hrg Hmid (replies & Hrun & Hout) _].
    apply in_only_link in Ho as [Hl Ho].
    rewrite Hv in Hrun. injection Hrun as <- <- He. rewrite app_nil_r in Hout.
    wp_step. apply wp_SetError. wp_step.
    assert (rview (set_os o s) = []) as Hv'.
    { apply app_eq_nil in Hv as [Hb _]. unfold rview. cbn. by rewrite Hb, Hin. }
    split; [left|change (len (rview (set_os o s)) <= len (rview s)); rewrite Hv', Hv; done].
    split; [done|]. split; [| |done|cbn; by rewrite Ho|rewrite <- He; cbn; by rewrite Her].
    + destruct Hwin. split; try done. destruct Hl as [Hs _]. unfold os_static, os_vars in Hs. cbn. congruence.
    + transitivity s; [done|]. by split.
Qed.

(** [FillBuffProc] returns, with the next part of the stream's content or at
    its end. *)
Lemma wp_FillBuffProc_loop c s :
  fill_inv runs c [] s -> len (rview s) <= bound -> len (rview s) < Z.of_nat fuel ->
  wp (loop fuel (FillBuffProc_body fuel fill) []) (fun _ s' =>
    fill_done c s' /\ len (rview s') <= len (rview s)) s.
Proof.
  intros HI Hbd Hf.
  apply (wp_loop (fun n hdr s' => fill_inv runs c hdr s' /\ n = Z.to_nat (len (rview s')) /\
                                  len (rview s') <= len (rview s))
           _ _ _ (Z.to_nat (len (rview s)))); [|pose proof (len_nonneg (rview s)); lia|done].
  intros n hdr s1 (HI1 & -> & Hle). wp_use wp_FillBuffProc_body; [exact HI1|lia|].
  intros [hdr'|u] s2; intros [HI2 Hlt]; [|split; [done|lia]].
  exists (Z.to_nat (len (rview s2))).
  pose proof (len_nonneg (rview s2)). split; [lia|]. split; [done|]. split; [done|lia].
Qed.

Lemma stream_src_fill c s : stream_src c s -> rdNext (stm s) = stop (stm s) ->
  fill_inv runs c [] s.
Proof.
  intros [Hwin Hfr Hop Her Hsk Hst Hu (more & (Hc & Hp & Hcar & Htl) & ->)] Hrd.
  split; [done|done|done|done|by split; [|constructor]|done|done| |].
  - unfold ahead. rewrite slice_empty by lia. unfold phase_of, rview. by rewrite Hsk, Hrd.
  - intros _. unfold rview. by rewrite Hrd.
Qed.
End Demux.

(** ** The stream as a source *)

(** the endings that the reader of a stream sees *)
Definition ends_plainly (e : ending) : Prop :=
  match e with BeginBody _ _ _ _ | ValuesBody _ _ _ _ => False | _ => True end.

Section StreamSource.
Context `{Reliable}.
Implicit Types (s : SState).

Lemma no_inner t id begun out e s0 fuel fill bound : ends_plainly e -> forall h s,
  match interpret_header t id begun (skip (data (stm s))) h with
  | ReadBegin i plen sk => e = BeginBody i plen sk (rview s)
  | ReadValues clen plen sk => e = ValuesBody clen plen sk (rview s)
  | _ => False
  end ->
  bytes (header_bytes h) -> window_ok s -> rframe s0 s -> isClosed (stm s) = false ->
  FCGI_errno (stm s) = FCGI_errno (stm s0) -> os_out (ipcFd (rq s)) (os s) = out ->
  len (rview s) <= bound ->
  wp (interpret fuel fill h) (fun r s' =>
    r = inr tt /\ False /\ len (rview s') <= len (rview s)) (at_header s).
Proof. intros He h s. by destruct (interpret_header _ _ _ _ _); [..|intros -> | intros ->]. Qed.

#[export] Instance stream_source t id begun eor out e after s0 fuel depth bound
    (Hb : demux_base t id begun eor s0) (He : ends_plainly e) (Hf16 : 16 < Z.of_nat fuel)
    (Hf : bound < Z.of_nat fuel) :
  Source (FillBuffProc_depth fuel (S depth))
    (fun c s => stream_src t id begun eor out e after s0 c s /\ len (beyond s) <= bound)
    (fun s => stream_end out e s0 s /\ len (rview s) <= bound).
Proof.
  apply buffered_source; [apply Hb..| |by intros s [[] _]].
  intros c s [HI Hl] Hrd.
  assert (rview s = beyond s) as Hv by (unfold rview, beyond; by rewrite Hrd).
  pose proof (wp_FillBuffProc_loop t id begun eor out e after s0 fuel
    (FillBuffProc_depth fuel depth) bound (fun _ => False) Hb Hf16
    (no_inner t id begun out e s0 fuel _ bound He) c s) as Hloop.
  wp_use Hloop; [by apply stream_src_fill|by rewrite Hv|rewrite Hv; lia|].
  rewrite Hv. intros _ s' [[(-> & HE) | [(Hc & HI' & Hlt) | [_ []]]] Hle]; [left|right].
  - split; [apply HE|]. split; [done|]. split; [done|lia].
  - split; [done|]. split; [split; [done|]|done].
    pose proof (beyond_le _ _ _ _ HI') as Hb'.
    change (beyond (mark_unget s')) with (beyond s') in *.
    change (rview (mark_unget s')) with (rview s') in Hb'. lia.
Qed.

(** a reader with nothing in its buffer, [clen] bytes of content and [plen] of
    padding to come *)
Lemma stream_src_start t id begun eor s clen plen :
  window_ok s -> isClosed (stm s) = false -> skip (data (stm s)) = false ->
  stop (stm s) = rdNext (stm s) -> contentLen (data (stm s)) = clen -> 0 <= clen ->
  paddingLen (data (stm s)) = plen -> 0 <= plen ->
  let d := run t id begun eor (mkPhase [] clen plen false) (rview s) in
  stream_src t id begun eor (os_out (ipcFd (rq s)) (os s) ++ dl_replies d) (dl_ending d)
    (drop (Z.to_nat clen) (rview s)) s (dl_content d) s /\ len (beyond s) = len (rview s).
Proof.
  intros Hwin Hop Hsk Hst Hcl Hc Hpl Hp d.
  assert (beyond s = rview s) as Hv by (unfold beyond, rview; by rewrite Hst).
  split; [|by rewrite Hv].
  split; [done|done|done|done|done|destruct Hwin; lia|intros; exfalso; lia|].
  exists (dl_content d). unfold ahead. rewrite slice_empty by lia. split; [|done].
  rewrite Hcl, Hpl, Hv. split; [done|]. split; [done|]. split; [|done].
  exists (dl_replies d). split; [|done]. unfold d. by destruct (run _ _ _ _ _ _).
Qed.

(** ** Readers between records *)

(** a reader of type [t] at the start of a record, with [v] still to come *)
Record reader_at (t : Z) (v : list Z) s : Prop := {
  ra_win : window_ok s;
  ra_reader : isReader (stm s) = true;
  ra_proc : fillBuffProc (stm s) = FillBuffProc_ptr;
  ra_open : isClosed (stm s) = false;
  ra_fclose : wasFCloseCalled (stm s) = false;
  ra_type : type (data (stm s)) = t;
  ra_eor : eorStop (data (stm s)) = false;
  ra_skip : skip (data (stm s)) = false;
  ra_content : contentLen (data (stm s)) = 0;
  ra_padding : paddingLen (data (stm s)) = 0;
  ra_stop : stop (stm s) = rdNext (stm s);
  ra_view : rview s = v
}.

Lemma reader_at_quiet t v s r o : reader_at t v s -> os_quiet (os s) o ->
  ipcFd r = ipcFd (rq s) -> reader_at t v (mkSState (stm s) r o).
Proof.
  intros [[] ? ? ? ? ? ? ? ? ? ? Hv] (Hs & Hi & _) Hfd. split; try done.
  - split; try done. unfold os_static, os_vars in Hs. cbn. cbn in *. congruence.
  - rewrite <- Hv. unfold rview. cbn. by rewrite Hfd, Hi.
Qed.

(** such a reader is a source of what its input delivers *)
Lemma reader_at_src t v s : reader_at t v s ->
  let id := requestId (rq s) in
  let begun := isBeginProcessed (rq s) in
  let d := run t id begun false at_record v in
  demux_base t id begun false s /\
  stream_src t id begun false (os_out (ipcFd (rq s)) (os s) ++ dl_replies d) (dl_ending d) v s
    (dl_content d) s /\ len (beyond s) = len v.
Proof.
  intros [Hwin Hrd Hpr Hop Hfc Hty Heor Hsk Hc Hp Hst Hv] id begun d.
  split; [done|]. rewrite <- Hv. subst d. rewrite <- Hv.
  by apply (stream_src_start t id begun false s 0 0).
Qed.

(** what the input [v] of the reader [s] of type [t] delivers *)
Definition delivered (t : Z) (v : list Z) s : delivery :=
  run t (requestId (rq s)) (isBeginProcessed (rq s)) false at_record v.

(** [c] is all that [s] delivers, of the input [v], before the stream ends or comes
    to a record whose content the reader has to read itself *)
Definition delivers (t : Z) (v c : list Z) s : Prop :=
  reader_at t v s /\ dl_content (delivered t v s) = c.

(** there is no such record before the stream ends: no GET_VALUES, whose answer can
    overflow a buffer ([Mgmt]), and no BEGIN_REQUEST when no request has begun *)
Definition asks_nothing (t : Z) (v : list Z) s : Prop :=
  ends_plainly (dl_ending (delivered t v s)).

(** the end of the stream was seen *)
Definition all_delivered (t : Z) (v : list Z) s s' : Prop :=
  let d := delivered t v s in
  stream_end (os_out (ipcFd (rq s)) (os s) ++ dl_replies d) (dl_ending d) s s' /\
  len (rview s') <= len v.

Lemma delivers_len t v c s : delivers t v c s -> len c <= len v.
Proof. intros (_ & <-). apply run_content_len. Qed.

Lemma delivers_bytes t v c s : delivers t v c s -> bytes c.
Proof.
  intros ([[] _ _ _ _ _ _ _ _ _ _ Hv] & <-). apply run_bytes. rewrite <- Hv.
  by apply rview_bytes.
Qed.

(** such a reader as a source for the generic readers, and where they leave it *)
Lemma delivers_Source fuel t v c s :
  delivers t v c s -> asks_nothing t v s -> len v < Z.of_nat fuel -> 16 < Z.of_nat fuel ->
  exists I, Source (FillBuffProc fuel) I (all_delivered t v s) /\ I c s /\
    forall c' s', I c' s' -> isClosed (stm s') = false /\ window_ok s' /\ rframe s s'.
Proof.
  intros (Hat & <-) Hpl Hf Hf16. destruct (reader_at_src t v s Hat) as (Hb & HI & Hl).
  pose proof (len_nonneg v). eexists. split; [|split].
  - apply (stream_source _ _ _ _ _ _ v s fuel 1 (len v) Hb Hpl); lia.
  - split; [exact HI|lia].
  - by intros c' s' [[] _].
Qed.
End StreamSource.
