(* ===== verification/Begin.v ===== *)
(** * The record that begins a request

    [FillBuffProc] on a fresh input stream and any input: up to the header of a
    BEGIN_REQUEST record, whose body is read through the nested call of
    [FillBuffProc] and sets the request's role, id and flags, or up to whatever
    else comes, with the request not begun. *)

From S2P Require Import Prelude CString Protocol Platform Dispatch Params Stream Reader Source.
From S2P Require Import Demux.

(** the body of a BEGIN_REQUEST record *)
Definition begin_content (role flags : Z) : list Z :=
  [role / 256; role mod 256; flags; 0; 0; 0; 0; 0].

Definition begin_rec (id role flags : Z) : rec :=
  mkRec FCGI_BEGIN_REQUEST id (begin_content role flags) [].

(** the request it leads to *)
Definition begun (id role flags : Z) (r : FCGX_Request) : FCGX_Request :=
  set_isBeginProcessed true (set_role role
    (set_keepConnection (Z.land flags FCGI_KEEP_CONN) (set_requestId id r))).

(** Reading at a stream's end *)

Section Ended.
Context `{Platform}.
Implicit Types s : SState.

Lemma wp_GetStr_ended fuel fill n s (Q : list Z -> SState -> Prop) :
  isReader (stm s) = true -> isClosed (stm s) = false ->
  fillBuffProc (stm s) = FillBuffProc_ptr -> rdNext (stm s) = stop (stm s) ->
  0 < n -> (0 < fuel)%nat ->
  wp fill (fun _ s' => isClosed (stm s') = true /\ Q [] s') s ->
  wp (FCGX_GetStr fuel fill n) Q s.
Proof.
  intros Hrd Hop Hpr Hst Hn Hf HQ. destruct fuel as [|fuel]; [lia|].
  unfold FCGX_GetStr. sstep. rewrite Hop, Hrd. cbn [negb orb].
  replace (n <=? 0) with false by lia. replace (n <=? _) with false by lia.
  rewrite loop_unfold. wp_step. unfold GetStr_body. sstep. rewrite Hst, Z.eqb_refl.
  cbn [negb andb]. sstep. rewrite Hop, Hrd. cbn [negb orb]. sstep.
  unfold call_fillBuffProc. sstep. rewrite Hpr. wp_use HQ. intros _ s' [Hc HQ']. sstep.
  rewrite Hc. sstep. apply wp_assert; [done|]. by sstep.
Qed.
End Ended.

Section Begin.
Context `{Reliable}.
Implicit Types s : SState.

(** a reader inside a record of [n] bytes, none of which was read *)
Record in_record (n : Z) s : Prop := {
  ir_win : window_ok s;
  ir_reader : isReader (stm s) = true;
  ir_proc : fillBuffProc (stm s) = FillBuffProc_ptr;
  ir_open : isClosed (stm s) = false;
  ir_eor : eorStop (data (stm s)) = true;
  ir_content : contentLen (data (stm s)) = n;
  ir_padding : 0 <= paddingLen (data (stm s));
  ir_stop : stop (stm s) = rdNext (stm s)
}.

(** [bs] was read of the content of the record that [s0] is in *)
Record record_read (n : Z) (bs : list Z) s0 s : Prop := {
  rr_win : window_ok s;
  rr_frame : rframe s0 s;
  rr_sent : os_out (ipcFd (rq s)) (os s) = os_out (ipcFd (rq s0)) (os s0);
  rr_view : len (rview s) <= len (rview s0);
  rr_all : len bs = n -> rview s = drop (Z.to_nat n) (rview s0) /\
           FCGI_errno (stm s) = FCGI_errno (stm s0)
}.

(** with the content of a record read, what follows it is next *)
Lemma record_finished t id begun out e after s0 s :
  stream_src t id begun true out e after s0 [] s ->
  stop (stm s) = rdNext (stm s) /\ rview s = after /\ os_out (ipcFd (rq s)) (os s) = out.
Proof.
  intros [Hwin _ _ _ _ Hst _ (more & (Hc & Hp & (r & Hr & Ho) & Htl) & Hnil)].
  symmetry in Hnil. apply app_eq_nil in Hnil as [Ha ->].
  assert (stop (stm s) = rdNext (stm s)) as Hstop.
  { apply (f_equal len) in Ha. unfold ahead in Ha. change (len []) with 0 in Ha.
    destruct Hwin. rewrite slice_len in Ha by lia. lia. }
  assert (beyond s = rview s) as Hbv by (unfold beyond, rview; by rewrite Hstop).
  destruct (run_record_cut t id begun (contentLen (data (stm s))) (paddingLen (data (stm s)))
    false (beyond s)) as (Hcont & Hrep & _); [done|done|].
  rewrite Hr in Hcont, Hrep. cbn in Hcont, Hrep. subst r. rewrite app_nil_r in Ho.
  split; [done|]. split; [|done]. rewrite <- (Htl eq_refl), Hbv in *.
  rewrite <- (take_drop (Z.to_nat (contentLen (data (stm s)))) (rview s)) at 1.
  by rewrite <- Hcont.
Qed.

(** the content of a record that is read whole *)
Lemma wp_read_record fuel depth n s :
  in_record n s -> 0 < n <= INT_MAX -> skip (data (stm s)) = false ->
  2 * len (rview s) + 18 < Z.of_nat fuel ->
  wp (FCGX_GetStr fuel (FillBuffProc_depth fuel (S depth)) n) (fun bs s' =>
    bs = take (Z.to_nat n) (rview s) /\ record_read n bs s s') s.
Proof.
  intros [Hwin Hrd Hpr Hop Heor Hc Hp Hst] Hn Hsk Hf. pose proof (len_nonneg (rview s)).
  set (t := type (data (stm s))). set (id := requestId (rq s)). set (begun := isBeginProcessed (rq s)).
  assert (demux_base t id begun true s) as Hb by done.
  destruct (stream_src_start t id begun true s n (paddingLen (data (stm s)))) as [HI Hbey];
    try done; [lia|].
  destruct (run_record_cut t id begun n (paddingLen (data (stm s))) false (rview s))
    as (Hcont & Hrep & He); [lia|done|].
  set (d := run t id begun true _ (rview s)) in *. rewrite Hcont, Hrep, app_nil_r in HI.
  assert (ends_plainly (dl_ending d)) as Hpl by (destruct He as [->|[? ->]]; done).
  pose proof (stream_source t id begun true (os_out (ipcFd (rq s)) (os s)) (dl_ending d)
    (drop (Z.to_nat n) (rview s)) s fuel depth (len (rview s)) Hb Hpl) as Hsrc.
  specialize (Hsrc ltac:(lia) ltac:(lia)).
  set (c := take (Z.to_nat n) (rview s)) in *.
  assert (len c <= len (rview s) /\ len c <= n) as [Hlc Hcn]
    by (unfold c, len; rewrite length_take; lia).
  wp_use (wp_GetStr fuel (FillBuffProc_depth fuel (S depth)) _ _ (Source0 := Hsrc) n c);
    [split; [exact HI|lia]|lia|lia|].
  intros bs s'. replace (n <=? 0) with false by lia. intros [-> Hs'].
  assert (take (Z.to_nat n) c = c) as Htc by (unfold c; rewrite take_take; f_equal; lia).
  rewrite Htc. split; [done|]. destruct (Z.leb_spec n (len c)) as [Hle|Hgt].
  - destruct Hs' as [HI' Hbd]. rewrite (drop_ge c) in HI' by (unfold len in *; lia).
    destruct (record_finished _ _ _ _ _ _ _ _ HI') as (Hstop & Hv & Ho).
    destruct HI' as [Hwin' Hfr' _ Her' _ _ _ _].
    assert (beyond s' = rview s') as Hbv by (unfold beyond, rview; by rewrite Hstop).
    rewrite Hbv in Hbd. by split.
  - destruct Hs' as [[Hwin' Hfr' _ Ho' _] Hle']. split; try done. lia.
Qed.

(** the content of a record that is skipped *)
Lemma wp_skip_record fuel depth n s :
  in_record n s -> 0 < n <= INT_MAX -> skip (data (stm s)) = true ->
  len (rview s) + 18 < Z.of_nat fuel ->
  wp (FCGX_GetStr fuel (FillBuffProc_depth fuel (S depth)) n) (fun bs s' =>
    bs = [] /\ record_read n bs s s') s.
Proof.
  intros [Hwin Hrd Hpr Hop Heor Hc Hp Hst] Hn Hsk Hf. pose proof (len_nonneg (rview s)).
  set (t := type (data (stm s))). set (id := requestId (rq s)). set (begun := isBeginProcessed (rq s)).
  assert (demux_base t id begun true s) as Hb by done.
  destruct (run_record_cut t id begun n (paddingLen (data (stm s))) true (rview s))
    as (Hcont & Hrep & He); [lia|done|].
  set (d := run t id begun true _ (rview s)) in *.
  assert (ends_plainly (dl_ending d)) as Hpl by (destruct He as [->|[? ->]]; done).
  apply wp_GetStr_ended; [done..|lia|lia|].
  pose proof (wp_FillBuffProc_loop t id begun true (os_out (ipcFd (rq s)) (os s)) (dl_ending d)
    (drop (Z.to_nat n) (rview s)) s fuel (FillBuffProc_depth fuel depth) (len (rview s))
    (fun _ => False) Hb ltac:(lia) (no_inner t id begun _ _ s fuel _ _ Hpl) [] s) as Hloop.
  wp_use Hloop; [|done|lia|].
  - split; [done|done|done|done|by split; [|constructor]|by rewrite Hc; split; [lia|]|done| |].
    + exists []. rewrite app_nil_r. split; [|done]. unfold phase_of. rewrite Hc, Hsk. fold d.
      destruct d. cbn in *. by subst.
    + rewrite Hc. done.
  - intros _ s' [[[_ [Hwin' Hfr' Hcl Ho' _]] | [(_ & HI & Hlt) | [_ []]]] Hle].
    + split; [done|]. split; [done|]. split; try done. intros E. change (len []) with 0 in E. lia.
    + exfalso. destruct HI as [[] _ _ _ _ Hst' _ (more & _ & Hnil)]. symmetry in Hnil.
      apply app_eq_nil in Hnil as [Ha _]. apply (f_equal len) in Ha. unfold ahead in Ha.
      change (len []) with 0 in Ha. cbn in *. rewrite slice_len in Ha by lia. lia.
Qed.

(** ** Up to the beginning of a request *)

(** the request was begun: what the stream looks like *)
Record has_begun id role flags (tail out : list Z) s0 s : Prop := {
  hb_win : window_ok s;
  hb_rq : rq s = begun id role flags (rq s0);
  hb_os : link (ipcFd (rq s0)) (os s0) (os s);
  hb_stream : isReader (stm s) = isReader (stm s0) /\
              fillBuffProc (stm s) = fillBuffProc (stm s0) /\
              wasFCloseCalled (stm s) = wasFCloseCalled (stm s0) /\
              FCGI_errno (stm s) = FCGI_errno (stm s0);
  hb_sent : os_out (ipcFd (rq s0)) (os s) = out;
  hb_view : rview s = tail
}.

(** no request was begun *)
Record not_begun (out : list Z) s0 s : Prop := {
  nb_rq : rq s = rq s0 \/ exists id, rq s = set_requestId id (rq s0);
  nb_os : link (ipcFd (rq s0)) (os s0) (os s);
  nb_sent : os_out (ipcFd (rq s0)) (os s) `prefix_of` out;
  nb_in : len (os_in (ipcFd (rq s0)) (os s)) <= len (rview s)
}.

Definition begin_outcome id (sk : bool) (w out : list Z) s0 s : Prop :=
  match begin_body sk w with
  | Some (role, flags, tail) => has_begun id role flags tail out s0 s
  | None => not_begun out s0 s
  end.

(** what is left on the connection is in the window *)
Lemma rview_in s : len (os_in (ipcFd (rq s)) (os s)) <= len (rview s).
Proof.
  unfold rview. rewrite len_app.
  pose proof (len_nonneg (slice (buff (data (stm s))) (rdNext (stm s)) (buffStop (data (stm s))))). lia.
Qed.

Lemma frame_not_begun out s0 s : rframe s0 s ->
  os_out (ipcFd (rq s)) (os s) `prefix_of` out -> not_begun out s0 s.
Proof.
  intros [Hrq Hos _ _ _ _ _ _] Ho. pose proof (rview_in s) as Hin. rewrite Hrq in *.
  split; [by left|done..].
Qed.

(** a BEGIN_REQUEST header, with the body still to be read *)
Definition body_next id plen s : SState :=
  set_rq (set_requestId id (rq s)) (set_stm (set_data (set_paddingLen plen
    (set_contentLen 8 (data (stm (at_header s))))) (stm (at_header s))) s).

Lemma wp_begin_read fuel depth i plen s (Q : list Z -> SState -> Prop) :
  window_ok s -> isReader (stm s) = true -> fillBuffProc (stm s) = FillBuffProc_ptr ->
  isClosed (stm s) = false -> 0 <= plen -> 2 * len (rview s) + 18 < Z.of_nat fuel ->
  (forall bs s', bs = begin_read (skip (data (stm s))) (rview s) ->
     record_read 8 bs (body_next i plen s) s' -> Q bs s') ->
  wp (FCGX_GetStr fuel (FillBuffProc_depth fuel (S depth)) 8) Q (body_next i plen s).
Proof.
  intros Hwin Hrd Hpr Hop Hp Hf HQ. pose proof (len_nonneg (rview s)).
  assert (in_record 8 (body_next i plen s)) as Hin by (split; try done; by destruct Hwin).
  destruct (skip (data (stm s))) eqn:Hsk.
  - wp_use (wp_skip_record fuel depth 8); [done|by vm_compute|done| |].
    { change (rview (body_next i plen s)) with (rview s). lia. }
    intros bs s' [-> Hr]. by apply HQ.
  - wp_use (wp_read_record fuel depth 8); [done|by vm_compute|done|done|].
    intros bs s' [-> Hr]. by apply HQ.
Qed.

Lemma wp_begin_inner fuel depth stale out s0 h s i plen sk :
  demux_base 0 stale false false s0 ->
  interpret_header 0 stale false (skip (data (stm s))) h = ReadBegin i plen sk ->
  bytes (header_bytes h) -> window_ok s -> rframe s0 s -> isClosed (stm s) = false ->
  FCGI_errno (stm s) = FCGI_errno (stm s0) -> os_out (ipcFd (rq s)) (os s) = out ->
  2 * len (rview s) + 18 < Z.of_nat fuel ->
  wp (interpret fuel (FillBuffProc_depth fuel (S depth)) h) (fun r s' =>
    r = inr tt /\ begin_outcome i sk (rview s) out s0 s' /\ len (rview s') <= len (rview s))
    (at_header s).
Proof.
  intros [_ _ Hbg _ Hrd Hpr] Ha Hb Hwin Hfr Hop Her Hout Hf.
  pose proof (header_viewP 0 stale false (skip (data (stm s))) h) as Hv. rewrite Ha in Hv.
  inversion Hv as [| | |[Hver Hty] Hi Hc _| | | | | |]; subst i plen sk. clear Hv Ha.
  pose proof Hfr as [Hrq Hos Hrd' Hpr' Hfc' _ _ _].
  destruct (header_ranges h Hb) as (_ & _ & Hpl).
  unfold interpret, ProcessHeader. fold (header_id h) (header_content h).
  rewrite (proj2 (Z.eqb_eq _ _) Hver), (proj2 (Z.eqb_eq _ _) Hty). cbn [negb]. sstep.
  unfold ProcessBeginRecord. sstep. sproj.
  rewrite (proj2 (Z.eqb_neq _ _) Hi), Hc. change (rq (at_header s)) with (rq s). rewrite Hrq, Hbg.
  change (sizeof_BeginRequestBody =? sizeof_BeginRequestBody) with true. cbn [negb orb]. sstep.
  match goal with |- wp _ _ ?st =>
    change st with (body_next (header_id h) (h_paddingLength h) s) end.
  apply wp_begin_read; [done|congruence|congruence|done|lia|done|].
  intros bs s' -> [Hwin' [Hrq' Hos' Hrd2 Hpr2 Hfc2 _ _ _] Hsent' Hview' Hall].
  change (ipcFd (rq (body_next _ _ _))) with (ipcFd (rq s)) in *.
  change (os (body_next _ _ _)) with (os s) in *.
  change (rview (body_next _ _ _)) with (rview s) in *.
  assert (link (ipcFd (rq s0)) (os s0) (os s')) as Hl.
  { rewrite <- Hrq in Hos |- *. by transitivity (os s). }
  assert (ipcFd (rq s') = ipcFd (rq s0)) as Hfd by (rewrite Hrq'; cbn; by rewrite Hrq).
  assert (os_out (ipcFd (rq s0)) (os s') = out) as Hout' by (rewrite <- Hfd; congruence).
  sstep. unfold begin_outcome.
  pose proof (begin_body_cases (skip (data (stm s))) (rview s)) as Hcase.
  destruct (begin_body _ (rview s)) as [[[role fl] tail]|].
  - destruct Hcase as (body & H8 & Hbody & -> & -> & Htail).
    rewrite H8. change (8 =? sizeof_BeginRequestBody) with true. cbn [negb]. sstep.
    eapply wp_of_option; [exact Hbody|]. sstep. unfold after_header.
    change (BEGIN_RECORD =? STREAM_RECORD) with false. change (BEGIN_RECORD =? SKIP) with false.
    rewrite Z.eqb_refl. sstep. destruct (Hall H8) as [Hv8 He8].
    split; [done|]. split; [|done]. split; [by destruct Hwin'| |exact Hl| |exact Hout'|by rewrite <- Htail].
    + cbn. rewrite Hrq'. cbn. by rewrite Hrq.
    + cbn. cbn in *. split_and!; congruence.
  - replace (len _ =? _) with false by (unfold sizeof_BeginRequestBody; lia). cbn [negb]. sstep.
    apply wp_refuse; [done|]. split; [done|]. split; [|exact Hview'].
    split; [right; exists (header_id h); cbn; rewrite Hrq'; cbn; by rewrite Hrq|exact Hl| |].
    + cbn. by rewrite Hout'.
    + pose proof (rview_in s') as Hin. rewrite Hfd in Hin. exact Hin.
Qed.

(** the request that a new connection begins, if it begins one *)
Definition head_outcome (v out : list Z) s0 s : Prop :=
  match request_head (requestId (rq s0)) v with
  | Some (id, role, flags, tail) => has_begun id role flags tail out s0 s
  | None => not_begun out s0 s
  end.

(** a new reader, before the request begins *)
Definition fresh_reader (v : list Z) s : Prop :=
  reader_at 0 v s /\ isBeginProcessed (rq s) = false.

(** [v] asks for no variables before its request begins *)
Definition no_values_head (stale : Z) (v : list Z) : Prop :=
  match dl_ending (run 0 stale false false at_record v) with
  | ValuesBody _ _ _ _ => False
  | _ => True
  end.

(** a stream that delivers content before the request begins *)
Lemma source_not_begun t id begun eor out e after s0 c s :
  stream_src t id begun eor out e after s0 c (mark_unget s) -> rdNext (stm s) < stop (stm s) ->
  c <> [] /\ not_begun out s0 s.
Proof.
  intros [[] Hfr _ _ _ Hst _ (more & (_ & _ & (r & _ & Ho) & _) & ->)] Hlt. cbn in *. split.
  - intros E. apply app_eq_nil in E as [Ha _]. apply (f_equal len) in Ha. unfold ahead in Ha.
    change (len []) with 0 in Ha. cbn in Ha. rewrite slice_len in Ha by lia. lia.
  - apply frame_not_begun; [by destruct Hfr|]. by exists r.
Qed.

(** [FillBuffProc] on a new reader returns, whatever the input, with the request
    begun when the input begins one, and else without. *)
Lemma wp_FillBuffProc_begin fuel v s :
  fresh_reader v s -> no_values_head (requestId (rq s)) v -> 2 * len v + 18 < Z.of_nat fuel ->
  wp (FillBuffProc fuel) (fun _ s' => len (rview s') <= len v /\
    head_outcome v (os_out (ipcFd (rq s)) (os s) ++
      dl_replies (run 0 (requestId (rq s)) false false at_record v)) s s') s.
Proof.
  intros [Hat Hbg] Hno Hf. pose proof (len_nonneg v).
  destruct (reader_at_src 0 v s Hat) as (Hb & HI & _). rewrite Hbg in Hb, HI.
  set (stale := requestId (rq s)) in *. set (d := run 0 stale false false at_record v) in *.
  set (out := os_out _ _ ++ dl_replies d) in *.
  destruct Hat as [Hwin _ _ _ _ _ _ _ _ _ Hst Hv].
  set (Inner := fun s' => match dl_ending d with
    | BeginBody i _ sk w => begin_outcome i sk w out s s' | _ => False end).
  pose proof (wp_FillBuffProc_loop 0 stale false false out (dl_ending d) v s fuel
    (FillBuffProc_depth fuel 1) (len v) Inner Hb ltac:(lia)) as Hloop.
  unfold FillBuffProc. cbn [FillBuffProc_depth]. wp_use Hloop.
  - intros h s1 Hh Hhb Hwin1 Hfr1 Hop1 Her1 Hout1 Hl1.
    destruct (interpret_header 0 stale false (skip (data (stm s1))) h) eqn:Ha; try done.
    + wp_use (wp_begin_inner fuel 0 stale out s h s1); [done|exact Ha|done..|lia|].
      intros r s' (-> & Hs' & Hle). split; [done|]. split; [|done]. unfold Inner. by rewrite Hh.
    + unfold no_values_head in Hno. fold d in Hno. by rewrite Hh in Hno.
  - eapply (stream_src_fill _ _ _ _ _ _ _ _ fuel); [exact HI|done].
  - by rewrite Hv.
  - rewrite Hv. lia.
  - rewrite Hv. intros _ s' [Hdone Hle]. split; [done|].
    unfold head_outcome, request_head. fold stale. fold d.
    destruct Hdone as [[Hnil [_ Hfr _ Ho Hhow]] | [(_ & HI' & Hlt) | [Hnil Hs']]].
    + assert (not_begun out s s') by (apply frame_not_begun; [done|by rewrite Ho]).
      destruct d as [c r e]. cbn in *. subst c. by destruct e.
    + destruct (source_not_begun _ _ _ _ _ _ _ _ _ _ HI') as [Hne Hnot].
      { exact Hlt. }
      destruct d as [[|x c] r e]; [done|]. exact Hnot.
    + unfold Inner in Hs'. destruct d as [c r e]. cbn in *. subst c. destruct e; try done.
      unfold begin_outcome in Hs'. by destruct (begin_body _ _) as [[[? ?] ?]|].
Qed.
End Begin.
