(* ===== verification/Mgmt.v ===== *)
(** * Management records

    [ProcessManagementRecord] on a GET_VALUES record: the answer names, in the
    order asked, the variables this library knows, each with a one-character
    value.  The local array [response] has 64 bytes: answers of more than 55
    bytes run off it. *)

From S2P Require Import Prelude CString Protocol Platform Dispatch Params Stream Writer Reader.
From S2P Require Import Source NameValue Demux Begin.

(** ** The specification *)

Definition known_value (k : list Z) : option Z :=
  if decide (k = FCGI_MAX_CONNS) then Some 49
  else if decide (k = FCGI_MAX_REQS) then Some 49
  else if decide (k = FCGI_MPXS_CONNS) then Some 48
  else None.

(** the pairs of the answer *)
Definition answers (ps : list (list Z * list Z)) : list (list Z * list Z) :=
  omap (fun kv => v ← known_value (fst kv); Some (fst kv, [v])) ps.

Lemma answers_cons k v ps : answers ((k, v) :: ps) =
  match known_value k with Some x => (k, [x]) :: answers ps | None => answers ps end.
Proof. unfold answers. cbn. by destruct (known_value k). Qed.

Lemma strcmp_app a b t : no_nul a -> strcmp (a ++ 0 :: t) (c_str b) = strcmp (c_str a) (c_str b).
Proof.
  unfold c_str. revert b. induction a as [|x a IH]; intros [|y b] Ha; cbn.
  - done.
  - by destruct (0 =? y).
  - rewrite no_nul_cons in Ha. by destruct (Z.eqb_spec x 0); [lia|].
  - rewrite no_nul_cons in Ha. destruct (x =? y); [|done]. destruct (x =? 0); [done|].
    apply IH. tauto.
Qed.

Lemma cut_name_param k v : pair_ok (k, v) -> cut_name (param_string (k, v)) = Some (k ++ 0 :: v ++ [0]).
Proof.
  intros (Hk & He & _). unfold cut_name, param_string. cbn [fst snd] in *.
  change ([61] ++ v ++ [0]) with (61 :: v ++ [0]). rewrite strchr_app by done.
  f_equal. unfold len. rewrite Nat2Z.id.
  rewrite insert_app_r_alt by lia. by rewrite Nat.sub_diag.
Qed.

Lemma mgmt_value_known k t : no_nul k -> mgmt_value (k ++ 0 :: t) = Some (known_value k).
Proof.
  intros Hk. unfold mgmt_value, known_value.
  assert (forall b, no_nul b -> exists d, strcmp (k ++ 0 :: t) (c_str b) = Some d /\
    (d =? 0) = bool_decide (k = b)) as Hcmp.
  { intros b Hb. rewrite strcmp_app by done.
    destruct (strcmp_eq k b Hk Hb) as (d & -> & Hd). exists d. split; [done|].
    case_bool_decide as E; [apply Z.eqb_eq; tauto|apply Z.eqb_neq; tauto]. }
  destruct (Hcmp FCGI_MAX_CONNS) as (d1 & -> & H1); [by repeat constructor|].
  destruct (Hcmp FCGI_MAX_REQS) as (d2 & -> & H2); [by repeat constructor|].
  destruct (Hcmp FCGI_MPXS_CONNS) as (d3 & -> & H3); [by repeat constructor|].
  rewrite H1, H2, H3. repeat case_bool_decide; repeat case_decide; done.
Qed.

Lemma known_len k v : known_value k = Some v -> 0 < len k < 128.
Proof. unfold known_value. repeat case_decide; subst; done. Qed.

(** an answer on the wire *)
Lemma encode_answer k v ps : 0 < len k < 128 ->
  encode_pairs ((k, [v]) :: ps) = ([UCHAR (len k); 1] ++ k ++ [v]) ++ encode_pairs ps.
Proof.
  intros Hk. cbn [encode_pairs]. unfold encode_length. replace (len k <? 128) with true by lia.
  change (len [v]) with 1. change (1 <? 128) with true. cbn [app]. rewrite UCHAR_id by (unfold is_byte; lia).
  by rewrite <- app_assoc.
Qed.

Section Answers.
Context `{PlatformLaws}.
Implicit Types s : SState.

Definition asked (ps : list (list Z * list Z)) : list cell :=
  map (fun kv => Str (param_string kv)) ps.

(** the part of [response] that was filled *)
Lemma answer_values_ok ps response rp s :
  Forall pair_ok ps -> 0 <= rp -> len response = 64 ->
  rp + len (encode_pairs (answers ps)) <= 63 ->
  exists response', answer_values (asked ps) response rp s =
      Ret (response', rp + len (encode_pairs (answers ps))) s /\ len response' = 64 /\
    (forall a b, 0 <= a -> b <= rp -> slice response' a b = slice response a b) /\
    slice response' rp (rp + len (encode_pairs (answers ps))) = encode_pairs (answers ps).
Proof.
  intros Hps. revert response rp.
  induction Hps as [|[k v] ps Hp Hps IH]; intros response rp Hrp Hlen Hfit.
  { exists response. cbn. change (len []) with 0. rewrite Z.add_0_r, slice_empty by lia.
    split_and!; done. }
  cbn [asked map answer_values]. unfold bind at 1. rewrite cut_name_param by done.
  unfold of_option at 1, ret at 1. unfold bind at 1.
  rewrite mgmt_value_known by apply Hp. unfold of_option at 1, ret at 1.
  rewrite answers_cons in *. destruct (known_value k) as [x|] eqn:Ek; [|by apply IH].
  pose proof (known_len k x Ek) as Hk. rewrite encode_answer in Hfit |- * by done.
  set (one := [UCHAR (len k); 1] ++ k ++ [x]) in *.
  assert (len one = len k + 3) as Hone.
  { unfold one. rewrite !len_app. change (len [UCHAR (len k); 1]) with 2. change (len [x]) with 1. lia. }
  rewrite len_app in Hfit. pose proof (len_nonneg (encode_pairs (answers ps))).
  unfold bind at 1. rewrite strlen_app by apply Hp. unfold of_option, ret at 1.
  unfold bind at 1, mem_write at 1, in_block.
  replace (take _ (k ++ 0 :: v ++ [0])) with k.
  2: { unfold len. rewrite Nat2Z.id. by rewrite take_app_length. }
  set (bs := [UCHAR (len k); 1] ++ k ++ [x; 0]).
  assert (bs = one ++ [0]) as Hbs by (unfold bs, one; by rewrite <- !app_assoc).
  assert (len bs = len k + 4) as Hlb.
  { rewrite Hbs, len_app, Hone. change (len [0]) with 1. lia. }
  replace ((0 <=? rp) && (0 <=? len bs) && (rp + len bs <=? len response)) with true by lia.
  unfold ret at 1. fold (asked ps).
  destruct (IH (splice response rp bs) (rp + (len k + 3))) as (r' & -> & Hl' & Hkeep & Hs');
    [lia|rewrite splice_len; lia|lia|].
  exists r'. rewrite len_app, Hone. split; [do 2 f_equal; lia|]. split; [done|].
  split; [intros a b Ha Hb; rewrite Hkeep by lia; apply slice_splice_before; lia|].
  rewrite (slice_app r' rp (rp + (len k + 3))) by lia. f_equal.
  - rewrite Hkeep by lia.
    assert (slice (splice response rp bs) rp (rp + len bs) = bs) as Hsame
      by (apply slice_splice_same; lia).
    rewrite (slice_app _ rp (rp + (len k + 3))) in Hsame by lia.
    rewrite Hbs in Hsame at 4. apply app_inj_1 in Hsame; [by destruct Hsame|].
    enough (len (slice (splice response rp bs) rp (rp + (len k + 3))) = len one) by (unfold len in *; lia).
    rewrite slice_len; [lia|lia|lia|]. rewrite splice_len; lia.
  - by replace (rp + (len k + 3 + len (encode_pairs (answers ps))))
      with (rp + (len k + 3) + len (encode_pairs (answers ps))) by lia.
Qed.

(** answers of more than 55 bytes are stored outside the array *)
Lemma answer_values_overflow ps response rp s :
  Forall pair_ok ps -> 0 <= rp <= 63 -> len response = 64 ->
  63 < rp + len (encode_pairs (answers ps)) ->
  answer_values (asked ps) response rp s = Fault UndefinedBehaviour.
Proof.
  intros Hps. revert response rp.
  induction Hps as [|[k v] ps Hp Hps IH]; intros response rp Hrp Hlen Hbig.
  { cbn in Hbig. change (len []) with 0 in Hbig. lia. }
  cbn [asked map answer_values]. unfold bind at 1. rewrite cut_name_param by done.
  unfold of_option at 1, ret at 1. unfold bind at 1.
  rewrite mgmt_value_known by apply Hp. unfold of_option at 1, ret at 1.
  rewrite answers_cons in *. destruct (known_value k) as [x|] eqn:Ek; [|by apply IH].
  pose proof (known_len k x Ek) as Hk. rewrite encode_answer in Hbig by done.
  unfold bind at 1. rewrite strlen_app by apply Hp. unfold of_option, ret at 1.
  unfold bind at 1, mem_write at 1, in_block.
  replace (take _ (k ++ 0 :: v ++ [0])) with k.
  2: { unfold len. rewrite Nat2Z.id. by rewrite take_app_length. }
  set (bs := [UCHAR (len k); 1] ++ k ++ [x; 0]).
  assert (len bs = len k + 4) as Hlb.
  { unfold bs. rewrite !len_app. change (len [UCHAR (len k); 1]) with 2.
    change (len [x; 0]) with 2. lia. }
  rewrite !len_app in Hbig. change (len [UCHAR (len k); 1]) with 2 in Hbig.
  change (len [x]) with 1 in Hbig.
  destruct (Z.leb_spec (rp + len bs) (len response)) as [Hfit|Hno].
  - replace (0 <=? rp) with true by lia. replace (0 <=? len bs) with true by lia.
    cbn [andb]. unfold ret at 1. fold (asked ps). apply IH; [lia| |lia].
    rewrite splice_len; lia.
  - by rewrite andb_false_r.
Qed.
End Answers.

(** ** The whole procedure *)

Section Management.
Context `{Reliable}.
Implicit Types s : SState.
Context (tail : list Z) (tail_more : tail <> []).

(** a reader inside the content of a GET_VALUES record that carries [ps] *)
Record at_values (fuel : nat) (ps : list (list Z * list Z)) s : Prop := {
  av_in : in_record (contentLen (data (stm s))) s;
  av_skip : skip (data (stm s)) = false;
  av_wire : exists w pad, pairs_wire ps w /\ rview s = w ++ pad ++ tail /\
            len w = contentLen (data (stm s)) /\ len pad = paddingLen (data (stm s));
  av_fuel : 2 * len (rview s) + 18 < Z.of_nat fuel;
  av_pairs : Forall pair_ok ps;
  av_count : Z.of_nat (length ps) < 536870911;
  av_errno : FCGI_errno (stm s) = 0
}.

(** the stream after its record *)
Definition record_done s0 s : Prop :=
  stream_end (os_out (ipcFd (rq s0)) (os s0)) (EndOfRecord tail) s0 s.

Lemma wp_values_read fuel depth ps s p :
  at_values fuel ps s -> vec_ok 3 p [] ->
  wp (ReadParams fuel (FillBuffProc_depth fuel (S depth)) p) (fun r s' =>
    fst r = 0 /\ vec_ok 3 (snd r) (map param_string ps) /\ record_done s s') s.
Proof.
  intros [[Hwin Hrd Hpr Hop Heor _ Hpad Hst] Hsk (w & pad & Hw & Hv & Hlw & Hlp) Hf Hps Hc He] Hp.
  set (t := type (data (stm s))). set (id := requestId (rq s)). set (begun := isBeginProcessed (rq s)).
  assert (demux_base t id begun true s) as Hb by done.
  pose proof (len_nonneg (rview s)).
  destruct (stream_src_start t id begun true s (len w) (len pad)) as [HI Hbey];
    try done; [apply len_nonneg..|].
  rewrite Hv, run_record in HI by done. cbn [dl_content dl_replies dl_ending] in HI.
  rewrite app_nil_r in HI.
  pose proof (stream_source t id begun true (os_out (ipcFd (rq s)) (os s)) (EndOfRecord tail)
    (drop (Z.to_nat (len w)) (w ++ pad ++ tail)) s fuel depth (len (rview s)) Hb I) as Hsrc.
  specialize (Hsrc ltac:(lia) ltac:(lia)).
  pose proof (rview_bytes s (win_bytes _ Hwin)) as Hby. rewrite Hv in Hby. apply bytes_app in Hby as [Hby _].
  assert (len w <= len (rview s)) as Hle.
  { rewrite Hv, len_app. pose proof (len_nonneg (pad ++ tail)). lia. }
  wp_use (wp_ReadParams fuel (FillBuffProc_depth fuel (S depth)) _ _ (Source0 := Hsrc) 3 p [] ps w);
    [done|done|split; [exact HI|lia]|lia|done|lia|cbn; lia|].
  intros r s' (Hr & Hv' & HE & _). done.
Qed.

Lemma at_values_quiet fuel ps s o :
  at_values fuel ps s -> os_quiet (os s) o -> at_values fuel ps (set_os o s).
Proof.
  intros [[] Hsk Hw Hf ? ? ?] Hq.
  assert (rview (set_os o s) = rview s) as Hv.
  { unfold rview. destruct Hq as (_ & Hi & _). cbn. by rewrite Hi. }
  split; try done; [|by rewrite Hv|by rewrite Hv].
  split; try done. by apply window_quiet.
Qed.

(** the record of the answer *)
Definition values_result (ps : list (list Z * list Z)) (pad : list Z) : rec :=
  mkRec FCGI_GET_VALUES_RESULT FCGI_NULL_REQUEST_ID (encode_pairs (answers ps)) pad.

(** the padding of the answer is what [response] held there *)
Definition result_pad ps response : list Z :=
  let n := len (encode_pairs (answers ps)) in slice response (8 + n) (8 + AlignInt8 n).

Lemma result_ok ps response :
  let n := len (encode_pairs (answers ps)) in
  len response = 64 -> n <= 55 ->
  rec_ok (values_result ps (result_pad ps response)) /\ AlignInt8 n <= 56 /\
  n <= AlignInt8 n < n + 8 /\ len (result_pad ps response) = AlignInt8 n - n.
Proof.
  intros n Hl Hn. assert (0 <= n) by apply len_nonneg.
  pose proof (AlignInt8_least n) as [Hal _].
  pose proof (AlignInt8_minimal n 56 ltac:(lia) eq_refl) as Hmax.
  assert (len (result_pad ps response) = AlignInt8 n - n) as Hpad.
  { unfold result_pad. fold n. rewrite slice_len; lia. }
  split; [|split_and!; lia]. split; [by vm_compute|]. split; [by vm_compute|].
  split; [change (n <= FCGI_MAX_LENGTH); unfold FCGI_MAX_LENGTH; lia|].
  cbn [r_padding values_result]. lia.
Qed.

(** what is stored in [response] becomes the record *)
Lemma seal_response ps response h :
  let n := len (encode_pairs (answers ps)) in
  len response = 64 -> n <= 55 -> slice response 8 (8 + n) = encode_pairs (answers ps) ->
  header_bytes h = rec_header (values_result ps (result_pad ps response)) ->
  slice (splice response 0 (header_bytes h)) 0 (8 + AlignInt8 n) =
  encode_rec (values_result ps (result_pad ps response)).
Proof.
  intros n Hl Hn Hs Hh. destruct (result_ok ps response Hl Hn) as (_ & Hmax & Hal & Hpad).
  assert (0 <= n) by apply len_nonneg. fold n in Hmax, Hal, Hpad.
  pose proof (header_bytes_len h) as Hhl.
  rewrite (slice_app _ 0 8) by lia. unfold encode_rec. rewrite <- Hh.
  rewrite (slice_splice_same response 0 8 (header_bytes h)) by lia.
  rewrite slice_splice_after by lia. by rewrite (slice_app _ 8 (8 + n)), Hs by lia.
Qed.

Lemma stack_array s : len ((fun i => UCHAR (stack_fill (plat (os s)) (Z.of_nat i))) <$> seq 0 64) = 64.
Proof. unfold len. by rewrite length_fmap, length_seq. Qed.

(** the variables asked for are read *)
Lemma wp_read_values fuel depth ps s p :
  at_values fuel ps s -> vec_ok 3 p [] ->
  wp (read_values fuel (FillBuffProc_depth fuel (S depth)) p) (fun r s' =>
    exists p', r = Some p' /\ params_repr p' (map param_string ps) /\ record_done s s') s.
Proof.
  intros Hat Hp. unfold read_values. wp_step. wp_use (wp_values_read fuel depth ps); [done|done|].
  intros rp s' (_ & [Hrp _] & Hdone). pose proof Hdone as [_ _ _ _ (He & _ & _ & Hc)].
  unfold FCGX_GetError. sstep. rewrite He, (av_errno _ _ _ Hat), Hc, Z.eqb_refl.
  cbn [negb orb]. sstep. by eexists.
Qed.

(** the strings of [p] are those asked for *)
Lemma asked_vec p ps : params_repr p (map param_string ps) ->
  take (Z.to_nat (cur p)) (vec p) = asked ps.
Proof.
  intros (rest & Hvec & _ & Hcur).
  rewrite Hcur, Hvec, Nat2Z.id, take_app_length' by (by rewrite !length_map).
  by rewrite map_map.
Qed.

(** what is sent is the record of the answer *)
Lemma wp_values_reply p ps response s :
  Forall pair_ok ps -> params_repr p (map param_string ps) -> len response = 64 ->
  len (encode_pairs (answers ps)) <= 55 ->
  wp (values_reply p response) (fun r s' => s' = s /\ len (fst r) = 64 /\ 0 <= snd r <= 56 /\
    exists pad, len pad <= 7 /\
      slice (fst r) 0 (8 + snd r) = encode_rec (values_result ps pad)) s.
Proof.
  intros Hps Hp Hl Hn. pose proof (len_nonneg (encode_pairs (answers ps))).
  unfold values_reply. rewrite (asked_vec p ps Hp).
  destruct (answer_values_ok ps response 8 s) as (r' & Hans & Hl' & _ & Hs'); [done|lia|done|lia|].
  set (n := len (encode_pairs (answers ps))) in *.
  destruct (result_ok ps r' Hl' Hn) as (Hok & Hmax & Hal & Hpad).
  fold n in Hmax, Hal, Hpad.
  wp_steps. apply wp_Ret. do 2 eexists. split; [exact Hans|].
  cbn [fst snd]. replace (8 + n - FCGI_HEADER_LEN) with n by (unfold FCGI_HEADER_LEN; lia).
  wp_step. apply wp_assert; [unfold INT_MAX; lia|]. wp_step.
  apply wp_assert; [unfold INT_MAX; lia|]. wp_step.
  apply (wp_MakeHeader (values_result ps (result_pad ps r'))); [done..|].
  intros h Hh. pose proof (header_bytes_len h) as Hhl. wp_step.
  apply wp_mem_write; [lia|lia|]. wp_step. unfold lift_os. apply wp_zoom.
  wp_use wp_FreeParams; [exact Hp|]. intros _ o3 [_ ->]. wp_steps. cbn [fst snd].
  split; [by destruct s|]. split; [rewrite splice_len; lia|]. split; [lia|].
  exists (result_pad ps r'). split; [lia|]. by apply seal_response.
Qed.

(** too many known variables run off [response] *)
Lemma values_reply_overflow p ps response s :
  Forall pair_ok ps -> params_repr p (map param_string ps) -> len response = 64 ->
  55 < len (encode_pairs (answers ps)) -> values_reply p response s = Fault UndefinedBehaviour.
Proof.
  intros Hps Hp Hl Hn. unfold values_reply. rewrite (asked_vec p ps Hp). apply bind_fault_l.
  apply answer_values_overflow; unfold FCGI_HEADER_LEN; done || lia.
Qed.

(** The outcome of the procedure is that of the answer it forms. *)
Lemma GetValues_outcome (P : outcome SState Z -> Prop) fuel depth ps s :
  at_values fuel ps s ->
  (forall p response o s1, os_quiet (os s) o -> len response = 64 ->
     params_repr p (map param_string ps) -> record_done (set_os o s) s1 ->
     P (bind (values_reply p response) (fun r => send_reply fuel (fst r) (snd r)) s1)) ->
  P (ProcessManagementRecord fuel (FillBuffProc_depth fuel (S depth)) FCGI_GET_VALUES s).
Proof.
  intros Hat HP. unfold ProcessManagementRecord.
  apply bind_outcome. unfold lift_os. apply wp_zoom. wp_use wp_NewParams; [lia|].
  intros p o1 (Hrep & Hplen & Hq1). apply bind_outcome, wp_gets.
  rewrite Z.eqb_refl. apply bind_outcome.
  wp_use (wp_read_values fuel depth ps); [by apply at_values_quiet|split; [exact Hrep|rewrite Hplen; lia]|].
  intros asked s1 (p' & -> & Hp' & Hdone). by eapply HP, Hdone; [|apply stack_array|].
Qed.

(** the answer to a GET_VALUES record *)
Lemma wp_GetValues fuel depth ps s :
  at_values fuel ps s -> len (encode_pairs (answers ps)) <= 55 -> (72 < fuel)%nat ->
  wp (ProcessManagementRecord fuel (FillBuffProc_depth fuel (S depth)) FCGI_GET_VALUES)
    (fun r s' => r = MGMT_RECORD /\ rview s' = tail /\ exists pad, len pad <= 7 /\
      os_out (ipcFd (rq s)) (os s') =
        os_out (ipcFd (rq s)) (os s) ++ encode_rec (values_result ps pad)) s.
Proof.
  intros Hat Hn Hfuel. apply (GetValues_outcome (fun o => match o with
    Ret r s' => _ r s' | Fault _ => False end) fuel depth ps); [done|].
  intros p response o s1 Hq Hl Hp [Hwin Hfr _ Hsent (_ & Hview & _)].
  pose proof (rf_rq _ _ Hfr) as Hrq. cbn [rq set_os] in Hrq.
  eapply wp_bind. wp_use wp_values_reply; [apply Hat|exact Hp|done|done|].
  intros [resp plen] s2 (-> & Hlr & Hmax & pad & Hpad & Hrec). cbn [fst snd] in *.
  unfold send_reply. sstep. change (FCGI_HEADER_LEN + plen) with (8 + plen).
  apply wp_mem_read; [lia|lia|lia|]. rewrite Z.add_0_l, Hrec.
  set (bs := encode_rec _) in *.
  assert (len bs <= 64) as Hbs by (rewrite <- Hrec, slice_len; lia).
  sstep. wp_use wp_write_it_all; [apply Hwin|unfold INT_MAX; lia|unfold len in Hbs; lia|].
  intros r o4 [Honly [[-> Hout] | (_ & _ & Hf & _)]]; [|by destruct no_fail].
  change (0 <? 0) with false. cbn match. wp_step. split; [done|]. split.
  - rewrite <- Hview. unfold rview. cbn. by destruct Honly as (_ & -> & _).
  - exists pad. split; [done|]. destruct Hq as (_ & _ & Ho).
    change (os_out (ipcFd (rq s)) o4 = os_out (ipcFd (rq s)) (os s) ++ bs).
    rewrite Hrq in *. by rewrite Hout, Hsent, Ho.
Qed.

(** too many known variables: the answer overflows [response] *)
Lemma GetValues_overflow fuel depth ps s :
  at_values fuel ps s -> 55 < len (encode_pairs (answers ps)) ->
  ProcessManagementRecord fuel (FillBuffProc_depth fuel (S depth)) FCGI_GET_VALUES s =
  Fault UndefinedBehaviour.
Proof.
  intros Hat Hn. apply (GetValues_outcome (fun o => o = _) fuel depth ps); [done|].
  intros p response o s1 _ Hl Hp _. apply bind_fault_l. by eapply values_reply_overflow; [apply Hat|..].
Qed.
End Management.
