(* ===== verification/Sockets.v ===== *)
(** * Listening and connecting sockets

    [OS_CreateLocalIpcFd] and [OS_FcgiConnect] of [os_unix.c].  A bind path
    ["host:port"] names a TCP address, any other string a Unix socket.  The
    kernel calls and the name service are a parameter ([Sockets]). *)

From Stdlib Require Import String.
From S2P Require Import Prelude CString Protocol Platform OsUnix Stream Writer Format Printing.
#[local] Open Scope Z_scope.

Definition MAXPATHLEN : Z := 1024.
Definition INADDR_NONE : Z := 4294967295.
Definition INADDR_ANY : Z := 0.

(** a [sockaddr]: the address and the port in network byte order, or the path
    of a Unix socket with the length of the address *)
Inductive sock_address :=
  | InetVariant (s_addr : Z) (sin_port : list Z)
  | UnixVariant (sun_path : list Z) (servLen : Z).

Record hostent := mkHostent { h_addrtype : Z; h_addr_list : list Z }.

Class Sockets `{Platform} := {
  sys_socket : Z -> pst -> sysret * pst;
  sys_bind : Z -> sock_address -> pst -> sysret * pst;
  sys_listen : Z -> Z -> pst -> sysret * pst;
  sys_connect : Z -> sock_address -> pst -> sysret * pst;
  sys_unlink : list Z -> pst -> sysret * pst;
  gethostbyname : list Z -> pst -> option hostent * pst
}.

Definition is_space (c : Z) : bool := (c =? 32) || ((9 <=? c) && (c <=? 13)).

(** the number a string starts with: white space, a sign, digits *)
Definition scan_number (s : list Z) : option Z :=
  let (_, s) := span is_space s in
  let '(sign, s) := match s with
                    | 45 :: s' => (-1, s')
                    | 43 :: s' => (1, s')
                    | _ => (1, s)
                    end in
  let (ds, rest) := span is_digit s in
  match rest with
  | [] => None
  | _ => Some (sign * digits_value ds)
  end.

(** [atoi]: undefined when the value is not an [int] *)
Definition atoi (s : list Z) : option Z :=
  v ← scan_number s; if int_range v then Some v else None.

Section Operations.
Context `{Sockets}.

(** the common beginning: the host's characters and the port when the path is
    ["host:port"] with a port that is not 0 as a [short] *)
Definition parse_address (bindPath : list Z) : M OS (option (list Z * Z)) :=
  n <- of_option (strlen bindPath) ;;
  if MAXPATHLEN <=? n then undef
  else
    let host := take (Z.to_nat (n + 1)) bindPath in
    tp <- of_option (strchr host 58) ;;
    match tp with
    | None => ret None
    | Some i =>
        v <- of_option (atoi (drop (Z.to_nat (i + 1)) host)) ;;
        let port := SHORT v in
        if port =? 0 then ret None else ret (Some (take (Z.to_nat i) host, port))
    end.

(** [htons(port)] as stored: the two bytes, high byte first *)
Definition htons (port : Z) : list Z := [USHORT port / 256; USHORT port mod 256].

Definition resolve (host : list Z) : M OS (option hostent) :=
  o <- get ;;
  let (h, k) := gethostbyname (c_str host) (plat o) in
  modify (set_plat k) ;;; ret h.

(** the Internet address to listen on *)
Definition listen_address (host : list Z) : M OS Z :=
  if bool_decide (host = []) || bool_decide (host = chars "*") then ret INADDR_ANY
  else
    let tcp_ia := inet_addr (c_str host) in
    if tcp_ia =? INADDR_NONE then
      h <- resolve host ;;
      match h with
      | None => fail (ProcessExit 1)
      | Some hep =>
          if negb (h_addrtype hep =? AF_INET) then fail (ProcessExit 1)
          else
            match h_addr_list hep with
            | [] => fail (ProcessExit 1)
            | [a] => ret a
            | _ :: _ :: _ => fail (ProcessExit 1)
            end
      end
    else ret tcp_ia.

Definition unix_address (bindPath : list Z) : M OS sock_address :=
  r <- OS_BuildSockAddrUn bindPath ;;
  if negb (fst r =? 0) then fail (ProcessExit 1000)
  else ret (UnixVariant (fst (snd r)) (snd (snd r))).

(** the socket becomes a listener, or the process ends *)
Definition bind_and_listen (listenSock : Z) (sa : sock_address) (backlog : Z) : M OS Z :=
  rc <- syscall (sys_bind listenSock sa) ;;
  rc <- (if rc <? 0 then ret rc else syscall (sys_listen listenSock backlog)) ;;
  if rc <? 0 then o <- get ;; fail (ProcessExit (errno o))
  else ret listenSock.

Definition OS_CreateLocalIpcFd (bindPath : list Z) (backlog : Z) : M OS Z :=
  parsed <- parse_address bindPath ;;
  tcp_ia <- (match parsed with
             | Some (host, _) => listen_address host
             | None => ret 0
             end) ;;
  listenSock <- (match parsed with
                 | Some _ =>
                     s <- syscall (sys_socket AF_INET) ;;
                     (when 0 <=? s do
                        (rc <- syscall (sys_setsockopt s) ;;
                         when rc <? 0 do fail (ProcessExit 1001))) ;;;
                     ret s
                 | None => syscall (sys_socket AF_UNIX)
                 end) ;;
  if listenSock <? 0 then ret (-1)
  else
    sa <- (match parsed with
           | Some (_, port) => ret (InetVariant tcp_ia (htons port))
           | None => _ <- syscall (sys_unlink bindPath) ;; unix_address bindPath
           end) ;;
    bind_and_listen listenSock sa backlog.

Definition OS_FcgiConnect (bindPath : list Z) : M OS Z :=
  parsed <- parse_address bindPath ;;
  r <- (match parsed with
        | Some (host, port) =>
            hp <- resolve (if bool_decide (host = []) then chars "localhost" else host) ;;
            match hp with
            | None => fail (ProcessExit 1000)
            | Some hp =>
                a <- of_option (head (h_addr_list hp)) ;;
                s <- syscall (sys_socket AF_INET) ;;
                ret (InetVariant a (htons port), s)
            end
        | None =>
            sa <- unix_address bindPath ;;
            s <- syscall (sys_socket AF_UNIX) ;;
            ret (sa, s)
        end) ;;
  let (sa, resultSock) := (r : sock_address * Z) in
  assert (0 <=? resultSock) ;;;
  connectStatus <- syscall (sys_connect resultSock sa) ;;
  if 0 <=? connectStatus then ret resultSock
  else _ <- syscall (sys_close resultSock) ;; ret (-1).
End Operations.

(** ** What a path names *)

Section Addresses.
Context `{Sockets}.

Lemma scan_number_digits p t : 0 < p <= INT_MAX ->
  scan_number (digits false 10 p ++ 0 :: t) = Some p.
Proof.
  intros Hp. unfold INT_MAX in *.
  assert (0 < p < 10 ^ Z.of_nat 64) as Hr.
  { split; [lia|]. eapply Z.le_lt_trans; [apply Hp|by vm_compute]. }
  destruct (digits_from_head 64 p [] Hr) as (c & ds & HD & Hc).
  fold (digits false 10 p) in HD. unfold scan_number. rewrite HD at 1. cbn [app span].
  unfold is_space. replace (c =? 32) with false by lia.
  replace ((9 <=? c) && (c <=? 13)) with false by lia. cbn [orb].
  assert (match c with
          | 45 => (-1, ds ++ 0 :: t) | 43 => (1, ds ++ 0 :: t) | _ => (1, (c :: ds) ++ 0 :: t)
          end = (1, (c :: ds) ++ 0 :: t)) as Hsign.
  { assert (c = 49 \/ c = 50 \/ c = 51 \/ c = 52 \/ c = 53 \/ c = 54 \/ c = 55
         \/ c = 56 \/ c = 57) as Hcases by lia.
    decompose [or] Hcases; by subst c. }
  change (c :: ds ++ 0 :: t) with ((c :: ds) ++ 0 :: t). cbn match. rewrite Hsign.
  cbv beta iota. rewrite <- HD, span_app.
  - rewrite digits_value_digits by (split; [lia|]; eapply Z.le_lt_trans; [apply Hp|by vm_compute]).
    by rewrite Z.mul_1_l.
  - apply digits_are_digits.
  - done.
Qed.

Lemma atoi_digits p t : 0 < p <= INT_MAX -> atoi (digits false 10 p ++ 0 :: t) = Some p.
Proof.
  intros Hp. unfold atoi. rewrite scan_number_digits by done. cbn.
  unfold int_range, INT_MIN, INT_MAX in *.
  by replace ((-2147483648 <=? p) && (p <=? 2147483647)) with true by lia.
Qed.

(** ["host:port"] with a port in decimal: the host and the port modulo 2^16,
    unless that is 0 *)
Lemma parse_address_tcp host p o :
  no_nul host -> Forall (fun c => c <> 58) host -> 0 < p <= INT_MAX -> len host < 900 ->
  parse_address (c_str (host ++ 58 :: digits false 10 p)) o =
  Ret (if SHORT p =? 0 then None else Some (host, SHORT p)) o.
Proof.
  intros Hn Hc Hp Hl. unfold parse_address, bind.
  pose proof (digits_len false 10 p). pose proof (len_nonneg host).
  assert (no_nul (host ++ 58 :: digits false 10 p)) as Hnn.
  { apply Forall_app. split; [done|]. apply no_nul_cons. split; [lia|]. by apply digits_no_nul. }
  rewrite strlen_c_str by done. unfold of_option, ret.
  replace (MAXPATHLEN <=? _) with false by (rewrite len_app, len_cons; unfold MAXPATHLEN; lia).
  set (D := digits false 10 p) in *.
  replace (take _ (c_str (host ++ 58 :: D))) with (host ++ 58 :: D ++ [0]).
  2: { unfold c_str. rewrite take_ge; [by rewrite <- app_assoc|].
       unfold len. rewrite !length_app. cbn [length]. lia. }
  rewrite strchr_app by done.
  replace (drop _ (host ++ 58 :: D ++ [0])) with (D ++ [0]).
  2: { change (host ++ 58 :: D ++ [0]) with (host ++ [58] ++ (D ++ [0])). rewrite app_assoc.
       replace (Z.to_nat (len host + 1)) with (length (host ++ [58])); [by rewrite drop_app_length|].
       rewrite length_app. unfold len. cbn [length]. lia. }
  assert (atoi (D ++ [0]) = Some p) as -> by (apply atoi_digits; lia).
  replace (take _ (host ++ 58 :: D ++ [0])) with host.
  2: { unfold len. rewrite Nat2Z.id. by rewrite take_app_length. }
  by destruct (SHORT p =? 0).
Qed.

Lemma htons_SHORT p : htons (SHORT p) = [p mod 65536 / 256; p mod 256].
Proof.
  unfold htons, USHORT, SHORT.
  assert (((p + 32768) mod 65536 - 32768) mod 65536 = p mod 65536) as -> by zdiv.
  f_equal. f_equal. zdiv.
Qed.
End Addresses.

(** ** Listening *)

(** what the kernel keeps of a socket: the address it is bound to, and its backlog
    when it listens; [bind] and [listen] answer 0 when they succeed *)
Class SocketLaws `{Sockets} := {
  bound : pst -> Z -> option sock_address;
  listening : pst -> Z -> option Z;
  bind_law : forall s sa k r k', sys_bind s sa k = (SysOk r, k') -> r = 0 /\ bound k' s = Some sa;
  listen_law : forall s n k r k', sys_listen s n k = (SysOk r, k') ->
    r = 0 /\ listening k' s = Some n /\ bound k' s = bound k s
}.

(** the address that a bind path names: ["host:port"] with a numeric, empty or
    ["*"] host, or a Unix socket's path *)
Inductive path_names `{Platform} : list Z -> sock_address -> Prop :=
  | names_tcp host p a :
      no_nul host -> Forall (fun c => c <> 58) host -> len host < 900 -> 0 < p < 65536 ->
      (if bool_decide (host = []) || bool_decide (host = chars "*") then a = INADDR_ANY
       else a = inet_addr (c_str host) /\ a <> INADDR_NONE) ->
      path_names (host ++ 58 :: digits false 10 p) (InetVariant a [p / 256; p mod 256])
  | names_unix path :
      no_nul path -> Forall (fun c => c <> 58) path -> len path <= 108 ->
      path_names path (UnixVariant (path ++ replicate (108 - length path) 0) (2 + len path)).

Section Listening.
Context `{SocketLaws}.

Definition listens_at (sa : sock_address) (backlog fd : Z) (o : OS) : Prop :=
  0 <= fd /\ bound (plat o) fd = Some sa /\ listening (plat o) fd = Some backlog.

(** the socket that the kernel makes for an address of this family, if it does *)
Definition new_socket sa (k : pst) : option Z :=
  match fst (sys_socket (match sa with InetVariant _ _ => AF_INET | UnixVariant _ _ => AF_UNIX end) k) with
  | SysOk s => if 0 <=? s then Some s else None
  | SysErr _ => None
  end.

(** a call that failed on the socket, and the code the process exits with *)
Definition open_failure s sa backlog (code : Z) : Prop :=
  (code = 1001 /\ (exists a port, sa = InetVariant a port) /\
   exists k, match fst (sys_setsockopt s k) with SysOk v => v < 0 | SysErr _ => True end) \/
  exists k, fst (sys_bind s sa k) = SysErr code \/ fst (sys_listen s backlog k) = SysErr code.

(** without a socket, -1; with one, it listens, or a call failed and the process
    ends *)
Definition listen_outcome sa backlog (socket : option Z) (r : outcome OS Z) : Prop :=
  match socket, r with
  | None, Ret fd _ => fd = -1
  | Some s, Ret fd o' => fd = s /\ listens_at sa backlog s o'
  | Some s, Fault (ProcessExit code) => open_failure s sa backlog code
  | _, _ => False
  end.

Lemma bind_and_listen_outcome s sa backlog o : 0 <= s ->
  listen_outcome sa backlog (Some s) (bind_and_listen s sa backlog o).
Proof.
  intros Hs. unfold bind_and_listen. apply bind_outcome, wp_syscall. intros r1 k1 E1.
  destruct r1 as [v1|e1].
  2: { change (-1 <? 0) with true. apply bind_outcome. wp_step.
       change (-1 <? 0) with true. apply bind_outcome. wp_step. right. exists (plat o).
       left. by rewrite E1. }
  destruct (bind_law _ _ _ _ _ E1) as [-> Hb]. apply bind_outcome. change (0 <? 0) with false.
  apply wp_syscall. cbn [plat set_plat]. intros r2 k2 E2. destruct r2 as [v2|e2].
  2: { change (-1 <? 0) with true. apply bind_outcome. wp_step. right. exists k1.
       right. by rewrite E2. }
  destruct (listen_law _ _ _ _ _ E2) as (-> & Hl & Hb2). change (0 <? 0) with false.
  split; [done|]. split; [done|]. cbn in *. by rewrite Hb2.
Qed.

(** making the socket, with its option when it is an Internet one *)
Lemma CreateLocalIpcFd_tcp host port a path backlog o :
  let sa := InetVariant a (htons port) in
  parse_address path o = Ret (Some (host, port)) o -> listen_address host o = Ret a o ->
  listen_outcome sa backlog (new_socket sa (plat o)) (OS_CreateLocalIpcFd path backlog o).
Proof.
  intros sa Hp Ha. unfold OS_CreateLocalIpcFd. rewrite (bind_ret_eq _ _ _ _ _ Hp). cbv beta iota.
  rewrite (bind_ret_eq _ _ _ _ _ Ha), bind_assoc.
  apply bind_outcome, wp_syscall. intros r k E. unfold new_socket, sa. rewrite E. cbn [fst].
  assert (forall s o1, 0 <= s -> listen_outcome sa backlog (Some s) ((listenSock <-
      ((rc <- syscall (sys_setsockopt s) ;; when rc <? 0 do fail (ProcessExit 1001)) ;;; ret s) ;;
    if listenSock <? 0 then ret (-1) else sa0 <- ret sa ;; bind_and_listen listenSock sa0 backlog) o1))
    as Hok.
  { intros s o1 Hs. rewrite !bind_assoc.
    apply bind_outcome, wp_syscall. intros r2 k2 E2.
    assert (forall rc o2, (rc < 0 -> open_failure s sa backlog 1001) ->
      listen_outcome sa backlog (Some s) (((when rc <? 0 do fail (ProcessExit 1001)) ;;;
        (listenSock <- ret s ;; if listenSock <? 0 then ret (-1)
         else sa0 <- ret sa ;; bind_and_listen listenSock sa0 backlog)) o2)) as Hrc.
    { intros rc o2 Hrc. destruct (Z.ltb_spec rc 0); [by apply Hrc|].
      rewrite (bind_ret_eq _ _ o2 tt o2), (bind_ret_eq _ _ o2 s o2) by done.
      replace (s <? 0) with false by lia. rewrite (bind_ret_eq _ _ o2 sa o2) by done.
      by apply bind_and_listen_outcome. }
    destruct r2 as [v|e]; apply Hrc; intros Hlt; left; (split; [done|]);
      (split; [by exists a, (htons port)|]); exists (plat o1); by rewrite E2. }
  destruct r as [s|e]; [destruct (Z.leb_spec 0 s)|].
  - by apply Hok.
  - replace (0 <=? s) with false by lia. unfold bind, ret. by replace (s <? 0) with true by lia.
  - done.
Qed.

Lemma CreateLocalIpcFd_unix p n path backlog o :
  let sa := UnixVariant p n in
  parse_address path o = Ret None o -> (forall o', unix_address path o' = Ret sa o') ->
  listen_outcome sa backlog (new_socket sa (plat o)) (OS_CreateLocalIpcFd path backlog o).
Proof.
  intros sa Hp Ha. unfold OS_CreateLocalIpcFd. rewrite (bind_ret_eq _ _ _ _ _ Hp).
  apply bind_outcome. wp_step. apply bind_outcome, wp_syscall. intros r k E.
  unfold new_socket, sa. rewrite E. cbn [fst].
  assert (forall s o1, 0 <= s -> listen_outcome sa backlog (Some s)
    ((sa0 <- (_ <- syscall (sys_unlink path) ;; unix_address path) ;;
      bind_and_listen s sa0 backlog) o1)) as Hrest.
  { intros s o1 Hs. apply bind_outcome. wp_step.
    assert (forall o2, wp (unix_address path) (fun a s' => listen_outcome sa backlog (Some s)
      (bind_and_listen s a backlog s')) o2) as Hw.
    { intros o2. unfold wp. rewrite Ha. by apply bind_and_listen_outcome. }
    apply wp_syscall. intros [v|e] k2 E2; apply Hw. }
  destruct r as [s|e]; [destruct (Z.leb_spec 0 s)|].
  - replace (s <? 0) with false by lia. by apply Hrest.
  - by replace (s <? 0) with true by lia.
  - done.
Qed.

Lemma OS_CreateLocalIpcFd_outcome path sa backlog o : path_names path sa ->
  listen_outcome sa backlog (new_socket sa (plat o)) (OS_CreateLocalIpcFd (c_str path) backlog o).
Proof.
  intros [host p a Hn Hc Hl Hp Ha|path' Hn Hc Hl].
  - pose proof (parse_address_tcp host p o Hn Hc ltac:(unfold INT_MAX; lia) Hl) as E.
    assert ((SHORT p =? 0) = false) as Hz by (unfold SHORT; zdiv). rewrite Hz in E.
    pose proof (htons_SHORT p) as Hh. rewrite (Z.mod_small p 65536) in Hh by lia. rewrite <- Hh.
    apply (CreateLocalIpcFd_tcp host (SHORT p) a); [done|]. unfold listen_address.
    destruct (_ || _); [by subst a|]. destruct Ha as [-> Ha].
    by rewrite (proj2 (Z.eqb_neq _ _) Ha).
  - pose proof (len_nonneg path').
    apply CreateLocalIpcFd_unix.
    + unfold parse_address, bind. rewrite strlen_c_str by done. unfold of_option, ret.
      replace (MAXPATHLEN <=? _) with false by (unfold MAXPATHLEN; lia).
      rewrite take_ge by (unfold c_str, len; rewrite length_app; cbn; lia).
      unfold c_str. by rewrite strchr_nul by done.
    + intros o'. unfold unix_address, OS_BuildSockAddrUn, bind.
      rewrite strlen_c_str by done. unfold of_option, ret.
      replace (108 <? _) with false by lia. cbn. unfold len, c_str.
      rewrite Nat2Z.id, take_app_length. done.
Qed.
End Listening.
