(* ===== verification/Spawn.v ===== *)
(** * Starting a server process

    [OS_SpawnChild] of [os_unix.c]: the process forks, and the child arranges
    its descriptors and becomes the application.  [fork], [dup2] and [execl] are
    a parameter ([Processes]); [ProcessLaws] states what they and [close] do to
    the table of open descriptors. *)

From S2P Require Import Prelude Protocol Platform OsUnix.

(** [fork] answers 0 in the child; [execl] answers nothing when it succeeds,
    and the error when it returns *)
Class Processes `{Platform} := {
  sys_fork : pst -> sysret * pst;
  sys_dup2 : Z -> Z -> pst -> sysret * pst;
  sys_execl : list Z -> pst -> option Z * pst
}.

(** the open descriptors with what they refer to; [fork] answers no negative number
    and a child has its parent's descriptors, a [close] releases the descriptor even
    when it reports an error, a failed [dup2] changes nothing, and [execl] keeps the
    descriptors, none of which is marked close-on-exec *)
Class ProcessLaws `{Processes} := {
  descriptors : pst -> gmap Z Z;
  fork_descriptors : forall k r k', sys_fork k = (r, k') -> descriptors k' = descriptors k;
  fork_answer : forall k v k', sys_fork k = (SysOk v, k') -> 0 <= v;
  close_descriptors : forall fd k r k', sys_close fd k = (r, k') ->
    descriptors k' = delete fd (descriptors k);
  dup2_descriptors : forall old new d k r k', sys_dup2 old new k = (r, k') ->
    descriptors k !! old = Some d ->
    descriptors k' = match r with
                     | SysOk _ => <[new := d]> (descriptors k)
                     | SysErr _ => descriptors k
                     end;
  execl_descriptors : forall p k r k', sys_execl p k = (r, k') -> descriptors k' = descriptors k
}.

(** what a process does after the call: it is the caller, which gets the
    result, or it runs a program from its beginning *)
Inductive process := Caller (result : Z) | Program (path : list Z).

Section Spawn.
Context `{Processes}.

Definition execl (p : list Z) : M OS process :=
  o <- get ;;
  let (r, k) := sys_execl p (plat o) in
  modify (set_plat k) ;;;
  match r with
  | None => ret (Program p)
  | Some e => modify (set_errno e) ;;; fail (ProcessExit e)
  end.

(** the descriptors of the child, before it becomes the application *)
Definition child_descriptors (listenFd : Z) : M OS unit :=
  _ <- syscall (sys_close 0) ;;
  (when negb (listenFd =? FCGI_LISTENSOCK_FILENO) do
     (_ <- syscall (sys_dup2 listenFd FCGI_LISTENSOCK_FILENO) ;;
      _ <- syscall (sys_close listenFd) ;; ret tt)) ;;;
  _ <- syscall (sys_close 1) ;;
  _ <- syscall (sys_close 2) ;;
  ret tt.

Definition OS_SpawnChild (appPath : list Z) (listenFd : Z) : M OS process :=
  forkResult <- syscall sys_fork ;;
  o <- get ;;
  if forkResult <? 0 then fail (ProcessExit (errno o))
  else if forkResult =? 0 then child_descriptors listenFd ;;; execl appPath
  else ret (Caller 0).
End Spawn.

(** ** The child's descriptors *)

Section Laws.
Context `{ProcessLaws}.

Definition fds (o : OS) : gmap Z Z := descriptors (plat o).

Lemma wp_close_fds fd o : wp (syscall (sys_close fd)) (fun _ o' => fds o' = delete fd (fds o)) o.
Proof.
  apply wp_syscall. intros r k E. pose proof (close_descriptors _ _ _ _ E). by destruct r.
Qed.

(** the table the application finds: [moved] tells whether the listener is on
    descriptor 0 now *)
Definition spawned_fds (moved : bool) (listenFd d : Z) (D : gmap Z Z) : gmap Z Z :=
  let D' := delete 2 (delete 1 (delete 0 (delete listenFd D))) in
  if negb (listenFd =? 0) && moved then <[0 := d]> D' else D'.

Lemma spawned_fds_lookup moved listenFd d D i :
  spawned_fds moved listenFd d D !! i =
  if decide (i = 0) then if negb (listenFd =? 0) && moved then Some d else None
  else if decide (i = 1 \/ i = 2 \/ i = listenFd) then None else D !! i.
Proof.
  unfold spawned_fds. destruct (negb _ && _);
    rewrite ?lookup_insert, !lookup_delete; repeat case_decide; lia || done.
Qed.

(** does the child's [dup2] succeed, after [fork] and [close(0)]? *)
Definition listener_moved (listenFd : Z) (k : pst) : bool :=
  match fst (sys_dup2 listenFd 0 (snd (sys_close 0 k))) with SysOk _ => true | SysErr _ => false end.

Lemma wp_child_descriptors listenFd d o : fds o !! listenFd = Some d ->
  wp (child_descriptors listenFd) (fun _ o' =>
    fds o' = spawned_fds (listener_moved listenFd (plat o)) listenFd d (fds o)) o.
Proof.
  intros Hd. unfold child_descriptors, spawned_fds, FCGI_LISTENSOCK_FILENO.
  set (moved := listener_moved listenFd (plat o)).
  apply wp_bind. apply wp_mono with (P := fun (_ : Z) o1 => plat o1 = snd (sys_close 0 (plat o))).
  { apply wp_syscall. intros r k E. rewrite E. by destruct r. }
  intros _ o1 Hk1.
  assert (fds o1 = delete 0 (fds o)) as Hf1.
  { unfold fds. rewrite Hk1. destruct (sys_close 0 (plat o)) as [r k] eqn:E. by eapply close_descriptors. }
  apply wp_bind. apply wp_mono with (P := fun (_ : unit) o2 => fds o2 =
    if negb (listenFd =? 0) && moved then <[0 := d]> (delete 0 (delete listenFd (fds o)))
    else delete 0 (delete listenFd (fds o))).
  - destruct (Z.eqb_spec listenFd 0) as [->|Hne]; cbn [negb andb].
    { apply wp_ret. by rewrite Hf1, delete_delete_eq. }
    apply wp_bind, wp_syscall. rewrite Hk1. intros r k E.
    assert (moved = match r with SysOk _ => true | SysErr _ => false end) as Hm
      by (unfold moved, listener_moved; by rewrite E).
    pose proof (dup2_descriptors _ _ d _ _ _ E) as Hdup. rewrite <- Hk1 in Hdup.
    fold (fds o1) in Hdup. rewrite Hf1 in Hdup.
    specialize (Hdup ltac:(by rewrite lookup_delete_ne)).
    assert (forall o2, plat o2 = k -> wp (_ <- syscall (sys_close listenFd) ;; ret tt)
      (fun _ o3 => fds o3 = if moved then <[0 := d]> (delete 0 (delete listenFd (fds o)))
                            else delete 0 (delete listenFd (fds o))) o2) as Hrest.
    { intros o2 Hk2. apply wp_bind. wp_use wp_close_fds. intros _ o3 Hf3. apply wp_ret.
      rewrite Hf3. unfold fds at 1. rewrite Hk2, Hdup, Hm. rewrite (delete_delete (fds o) 0 listenFd).
      destruct r; [by rewrite delete_insert_ne|done]. }
    destruct r; by apply Hrest.
  - intros _ o2 Hf2. apply wp_bind. wp_use wp_close_fds. intros _ o3 Hf3.
    apply wp_bind. wp_use wp_close_fds. intros _ o4 Hf4. apply wp_ret.
    rewrite Hf4, Hf3, Hf2. destruct (negb _ && _); [|done]. by rewrite !delete_insert_ne.
Qed.

(** every outcome: without a new process the caller ends; the caller gets 0; the
    child becomes the application with these descriptors, or ends as well *)
Lemma OS_SpawnChild_outcome appPath listenFd d o : fds o !! listenFd = Some d ->
  let forked := sys_fork (plat o) in
  match fst forked, OS_SpawnChild appPath listenFd o with
  | SysErr e, Fault f => f = ProcessExit e
  | SysOk pid, Ret (Caller r) o' => 0 < pid /\ r = 0 /\ fds o' = fds o
  | SysOk pid, Ret (Program p) o' => pid = 0 /\ p = appPath /\
      fds o' = spawned_fds (listener_moved listenFd (snd forked)) listenFd d (fds o)
  | SysOk pid, Fault f => pid = 0 /\ exists e k, f = ProcessExit e /\ fst (sys_execl appPath k) = Some e
  | _, _ => False
  end.
Proof.
  intros Hd forked. subst forked. unfold OS_SpawnChild.
  assert (syscall sys_fork o = let (r, k) := sys_fork (plat o) in
    match r with
    | SysOk v => Ret v (set_plat k o)
    | SysErr e => Ret (-1) (set_errno e (set_plat k o))
    end) as Hs by (unfold syscall, bind, get; by destruct (sys_fork (plat o)) as [[] ?]).
  unfold bind, get, ret. rewrite Hs.
  destruct (sys_fork (plat o)) as [[pid|e] k1] eqn:E; cbn [fst snd]; [|done].
  pose proof (fork_answer _ _ _ E) as Hpid. pose proof (fork_descriptors _ _ _ E) as Hf.
  replace (pid <? 0) with false by lia. destruct (Z.eqb_spec pid 0) as [->|Hne].
  - pose proof (wp_child_descriptors listenFd d (set_plat k1 o)) as Hc. unfold fds in Hc, Hd.
    cbn [plat set_plat] in Hc. rewrite Hf in Hc. specialize (Hc Hd). apply wp_Ret in Hc as ([] & o2 & E2 & Hf2).
    rewrite E2. unfold execl, bind, get, modify, ret, fail.
    destruct (sys_execl appPath (plat o2)) as [x k] eqn:Ex.
    pose proof (execl_descriptors _ _ _ _ Ex) as Hx. destruct x as [e|].
    + split; [done|]. exists e, (plat o2). by rewrite Ex.
    + split; [done|]. split; [done|]. unfold fds. cbn. by rewrite Hx.
  - split; [lia|]. done.
Qed.
End Laws.
