(* ===== verification/Win32.v ===== *)
(** * The operating-system layer for Windows

    [os_win32.c]: the same interface as [os_unix.c] over Win32.  A table maps
    small integers to handles and sockets; asynchronous operations are
    [OVERLAPPED_REQUEST]s that come back through an I/O completion port.  The
    Win32 calls are a parameter ([Win32Api]); a handle or a socket is its
    [intptr_t] value.  The thread that waits for the shutdown event
    ([ShutdownRequestThread]) can run during any call, which therefore also says
    whether the event was signalled; critical sections make the operations on the
    table atomic.  What is printed on [stderr] is left out. *)

From Stdlib Require Import String.
From S2P Require Import Prelude CString Protocol Platform OsUnix Stream Writer Format Printing Sockets.
#[local] Open Scope Z_scope.

(** ** The Win32 interface *)

Inductive thread := StdinThread_start | ShutdownRequestThread_start (event : Z).

(** the calls that answer a number, a handle or a [BOOL] *)
Inductive win_call :=
  | WSAStartup | WSACleanup
  | CreateIoCompletionPort (file existing key : Z)
  | PostQueuedCompletionStatus (port bytes key : Z) (ov : positive)
  | GetStdHandle (n : Z) | SetStdHandle (n h : Z)
  | SetNamedPipeHandleState (h mode : Z) | SetHandleInformation (h mask flags : Z)
  | CloseHandle (h : Z) | CancelIo (h : Z)
  | beginthread (t : thread)
  | CreateMutex | ReleaseMutex (h : Z) | WaitForSingleObject (h : Z)
  | CreateNamedPipe (path : list Z) | CreateFile (path : list Z)
  | ConnectNamedPipe (h : Z) | DisconnectNamedPipe (h : Z) | FlushFileBuffers (h : Z)
  | CreateProcess (execPath : list Z) (hStdInput : Z)
  | ReadFileOv (h buf n off : Z) (ov : positive)
  | WriteFileOv (h buf n offHigh off : Z) (ov : positive)
  | Socket | Bind (s addr : Z) (port : list Z) | Listen (s backlog : Z)
  | Connect (s addr : Z) (port : list Z) | Closesocket (s : Z) | Shutdown (s how : Z)
  | Select (s seconds : Z) | Send (s : Z) (bs : list Z) | Ioctlsocket (s : Z).

(** [win] also answers whether the shutdown event was signalled during the
    call; [WSAAccept] asks the condition function whether to accept the caller;
    [ReadFile] and [recv] answer the bytes read, [None] on failure. *)
Class Win32Api := {
  wst : Type;
  win : win_call -> wst -> (Z * bool) * wst;
  ReadFile : Z -> Z -> wst -> option (list Z) * wst;
  WriteFile : Z -> list Z -> wst -> option Z * wst;
  recv : Z -> Z -> wst -> option (list Z) * wst;
  GetQueuedCompletionStatus : Z -> Z -> wst -> (bool * Z * Z * option positive) * wst;
  WSAAccept : Z -> (sockaddr -> bool) -> wst -> Z * wst;
  DuplicateHandle : Z -> wst -> option Z * wst;
  win_gethostbyname : list Z -> wst -> option hostent * wst;
  win_malloc : Z -> wst -> option positive * wst;
  win_getenv : list Z -> wst -> option (list Z);
  GetLastError : wst -> Z;
  ftime : wst -> Z * wst;
  inet_ntoa : Z -> list Z
}.

Definition INVALID_HANDLE_VALUE : Z := -1.
Definition INVALID_SOCKET : Z := -1.
Definition SOCKET_ERROR : Z := -1.
Definition STD_INPUT_HANDLE : Z := -10.
Definition STD_OUTPUT_HANDLE : Z := -11.
Definition STD_ERROR_HANDLE : Z := -12.
Definition NO_ERROR : Z := 0.
Definition ERROR_NO_DATA : Z := 232.
Definition ERROR_PIPE_NOT_CONNECTED : Z := 233.
Definition ERROR_IO_PENDING : Z := 997.
Definition WSAECONNREFUSED : Z := 10061.
Definition WAIT_FAILED : Z := 4294967295.
Definition INFINITE : Z := 4294967295.
Definition HANDLE_FLAG_INHERIT : Z := 1.
Definition ULONG_MAX : Z := 4294967295.

(** ** The state *)

Definition WIN32_OPEN_MAX : Z := 128.
Definition STDIN_FILENO : Z := 0.
Definition STDOUT_FILENO : Z := 1.
Definition STDERR_FILENO : Z := 2.

Inductive FILE_TYPE :=
  | FD_UNUSED
  | FD_FILE_SYNC
  | FD_FILE_ASYNC
  | FD_SOCKET_SYNC
  | FD_SOCKET_ASYNC
  | FD_PIPE_SYNC
  | FD_PIPE_ASYNC.

#[export] Instance FILE_TYPE_eq_dec : EqDecision FILE_TYPE.
Proof. solve_decision. Defined.

(** [fid] is the union's 32-bit member [value]; the handle and the socket that
    share its storage have zeros above it *)
Record FD_TABLE := mkFd {
  fid : Z;
  type : FILE_TYPE;
  path : option (list Z);
  Errno : Z;
  instance : Z;
  status : Z;
  offset : Z;
  offsetHighPtr : option positive;
  offsetLowPtr : option positive;
  hMapMutex : Z;
  ovList : Z
}.

(** one-field updates of [FD_TABLE] *)
Definition set_fd_type (v : FILE_TYPE) (x : FD_TABLE) : FD_TABLE :=
  mkFd (fid x) v (path x) (Errno x) (instance x) (status x) (offset x) (offsetHighPtr x) (offsetLowPtr x) (hMapMutex x) (ovList x).
Definition set_fd_path (v : option (list Z)) (x : FD_TABLE) : FD_TABLE :=
  mkFd (fid x) (type x) v (Errno x) (instance x) (status x) (offset x) (offsetHighPtr x) (offsetLowPtr x) (hMapMutex x) (ovList x).
Definition set_fd_Errno (v : Z) (x : FD_TABLE) : FD_TABLE :=
  mkFd (fid x) (type x) (path x) v (instance x) (status x) (offset x) (offsetHighPtr x) (offsetLowPtr x) (hMapMutex x) (ovList x).
Definition set_fd_offset (v : Z) (x : FD_TABLE) : FD_TABLE :=
  mkFd (fid x) (type x) (path x) (Errno x) (instance x) (status x) v (offsetHighPtr x) (offsetLowPtr x) (hMapMutex x) (ovList x).
Definition set_fd_offsetHighPtr (v : option positive) (x : FD_TABLE) : FD_TABLE :=
  mkFd (fid x) (type x) (path x) (Errno x) (instance x) (status x) (offset x) v (offsetLowPtr x) (hMapMutex x) (ovList x).
Definition set_fd_offsetLowPtr (v : option positive) (x : FD_TABLE) : FD_TABLE :=
  mkFd (fid x) (type x) (path x) (Errno x) (instance x) (status x) (offset x) (offsetHighPtr x) v (hMapMutex x) (ovList x).
Definition set_fd_hMapMutex (v : Z) (x : FD_TABLE) : FD_TABLE :=
  mkFd (fid x) (type x) (path x) (Errno x) (instance x) (status x) (offset x) (offsetHighPtr x) (offsetLowPtr x) v (ovList x).

Record OVERLAPPED_REQUEST := mkReq {
  Offset : Z;
  OffsetHigh : Z;
  ov_instance : Z;
  ov_procPtr : Z;
  ov_clientData : Z;
  ov_clientData1 : Z
}.

Definition bindPathPrefix : list Z := chars "\\.\pipe\FastCGI" ++ [92].

Section State.
Context `{Win32Api}.

(** [requests] are the allocated requests, [dwords] the cells the offset
    pointers may point to, [buffers] the arrays of asynchronous operations *)
Record WOS := mkWOS {
  hIoCompPort : Z;
  hStdinCompPort : Z;
  hStdinThread : Z;
  stdioHandles : list Z;
  acceptMutex : Z;
  shutdownPending : bool;
  shutdownNow : bool;
  fdTable : list FD_TABLE;
  requests : gmap positive OVERLAPPED_REQUEST;
  dwords : gmap positive Z;
  buffers : gmap Z (list Z);
  listenType : FILE_TYPE;
  hListen : Z;
  libInitialized : bool;
  wplat : wst
}.

(** one-field updates of [WOS] *)
Definition set_hIoCompPort (v : Z) (x : WOS) : WOS :=
  mkWOS v (hStdinCompPort x) (hStdinThread x) (stdioHandles x) (acceptMutex x) (shutdownPending x) (shutdownNow x) (fdTable x) (requests x) (dwords x) (buffers x) (listenType x) (hListen x) (libInitialized x) (wplat x).
Definition set_hStdinCompPort (v : Z) (x : WOS) : WOS :=
  mkWOS (hIoCompPort x) v (hStdinThread x) (stdioHandles x) (acceptMutex x) (shutdownPending x) (shutdownNow x) (fdTable x) (requests x) (dwords x) (buffers x) (listenType x) (hListen x) (libInitialized x) (wplat x).
Definition set_hStdinThread (v : Z) (x : WOS) : WOS :=
  mkWOS (hIoCompPort x) (hStdinCompPort x) v (stdioHandles x) (acceptMutex x) (shutdownPending x) (shutdownNow x) (fdTable x) (requests x) (dwords x) (buffers x) (listenType x) (hListen x) (libInitialized x) (wplat x).
Definition set_stdioHandles (v : list Z) (x : WOS) : WOS :=
  mkWOS (hIoCompPort x) (hStdinCompPort x) (hStdinThread x) v (acceptMutex x) (shutdownPending x) (shutdownNow x) (fdTable x) (requests x) (dwords x) (buffers x) (listenType x) (hListen x) (libInitialized x) (wplat x).
Definition set_acceptMutex (v : Z) (x : WOS) : WOS :=
  mkWOS (hIoCompPort x) (hStdinCompPort x) (hStdinThread x) (stdioHandles x) v (shutdownPending x) (shutdownNow x) (fdTable x) (requests x) (dwords x) (buffers x) (listenType x) (hListen x) (libInitialized x) (wplat x).
Definition set_shutdownPending (v : bool) (x : WOS) : WOS :=
  mkWOS (hIoCompPort x) (hStdinCompPort x) (hStdinThread x) (stdioHandles x) (acceptMutex x) v (shutdownNow x) (fdTable x) (requests x) (dwords x) (buffers x) (listenType x) (hListen x) (libInitialized x) (wplat x).
Definition set_shutdownNow (v : bool) (x : WOS) : WOS :=
  mkWOS (hIoCompPort x) (hStdinCompPort x) (hStdinThread x) (stdioHandles x) (acceptMutex x) (shutdownPending x) v (fdTable x) (requests x) (dwords x) (buffers x) (listenType x) (hListen x) (libInitialized x) (wplat x).
Definition set_fdTable (v : list FD_TABLE) (x : WOS) : WOS :=
  mkWOS (hIoCompPort x) (hStdinCompPort x) (hStdinThread x) (stdioHandles x) (acceptMutex x) (shutdownPending x) (shutdownNow x) v (requests x) (dwords x) (buffers x) (listenType x) (hListen x) (libInitialized x) (wplat x).
Definition set_requests (v : gmap positive OVERLAPPED_REQUEST) (x : WOS) : WOS :=
  mkWOS (hIoCompPort x) (hStdinCompPort x) (hStdinThread x) (stdioHandles x) (acceptMutex x) (shutdownPending x) (shutdownNow x) (fdTable x) v (dwords x) (buffers x) (listenType x) (hListen x) (libInitialized x) (wplat x).
Definition set_dwords (v : gmap positive Z) (x : WOS) : WOS :=
  mkWOS (hIoCompPort x) (hStdinCompPort x) (hStdinThread x) (stdioHandles x) (acceptMutex x) (shutdownPending x) (shutdownNow x) (fdTable x) (requests x) v (buffers x) (listenType x) (hListen x) (libInitialized x) (wplat x).
Definition set_buffers (v : gmap Z (list Z)) (x : WOS) : WOS :=
  mkWOS (hIoCompPort x) (hStdinCompPort x) (hStdinThread x) (stdioHandles x) (acceptMutex x) (shutdownPending x) (shutdownNow x) (fdTable x) (requests x) (dwords x) v (listenType x) (hListen x) (libInitialized x) (wplat x).
Definition set_listenType (v : FILE_TYPE) (x : WOS) : WOS :=
  mkWOS (hIoCompPort x) (hStdinCompPort x) (hStdinThread x) (stdioHandles x) (acceptMutex x) (shutdownPending x) (shutdownNow x) (fdTable x) (requests x) (dwords x) (buffers x) v (hListen x) (libInitialized x) (wplat x).
Definition set_hListen (v : Z) (x : WOS) : WOS :=
  mkWOS (hIoCompPort x) (hStdinCompPort x) (hStdinThread x) (stdioHandles x) (acceptMutex x) (shutdownPending x) (shutdownNow x) (fdTable x) (requests x) (dwords x) (buffers x) (listenType x) v (libInitialized x) (wplat x).
Definition set_libInitialized (v : bool) (x : WOS) : WOS :=
  mkWOS (hIoCompPort x) (hStdinCompPort x) (hStdinThread x) (stdioHandles x) (acceptMutex x) (shutdownPending x) (shutdownNow x) (fdTable x) (requests x) (dwords x) (buffers x) (listenType x) (hListen x) v (wplat x).
Definition set_wplat (v : wst) (x : WOS) : WOS :=
  mkWOS (hIoCompPort x) (hStdinCompPort x) (hStdinThread x) (stdioHandles x) (acceptMutex x) (shutdownPending x) (shutdownNow x) (fdTable x) (requests x) (dwords x) (buffers x) (listenType x) (hListen x) (libInitialized x) v.

(** what [ShutdownRequestThread] does when the event is signalled *)
Definition ShutdownRequest : M WOS unit :=
  modify (set_shutdownPending true) ;;;
  o <- get ;;
  when bool_decide (listenType o = FD_PIPE_SYNC) do fail (ProcessExit 0).

Definition wcall (c : win_call) : M WOS Z :=
  o <- get ;;
  let '((r, signalled), k) := win c (wplat o) in
  modify (set_wplat k) ;;;
  (when (signalled : bool) do ShutdownRequest) ;;;
  ret r.

Definition api {A} (f : wst -> A * wst) : M WOS A :=
  o <- get ;;
  let (r, k) := f (wplat o) in
  modify (set_wplat k) ;;; ret r.

Definition last_error : M WOS Z := gets (fun o => GetLastError (wplat o)).

(** [fdTable[fd]]: an index outside the array is undefined *)
Definition fd_entry (fd : Z) : M WOS FD_TABLE :=
  t <- gets fdTable ;;
  if 0 <=? fd then of_option (t !! Z.to_nat fd) else undef.
Definition fd_update (fd : Z) (f : FD_TABLE -> FD_TABLE) : M WOS unit :=
  e <- fd_entry fd ;;
  modify (fun o => set_fdTable (<[Z.to_nat fd := f e]> (fdTable o)) o).
End State.

(** ** The descriptor table *)

Section Descriptors.
Context `{Win32Api}.

Definition is_unused (t : list FD_TABLE) (i : Z) : bool :=
  match t !! Z.to_nat i with
  | Some e => bool_decide (type e = FD_UNUSED)
  | None => false
  end.

(** the loop over the slots from 1 *)
Definition first_unused (t : list FD_TABLE) : Z :=
  match List.find (fun i => is_unused t (Z.of_nat i)) (seq 1 127) with
  | Some i => Z.of_nat i
  | None => -1
  end.

(** the slot [Win32NewDescriptor] chooses *)
Definition new_index (t : list FD_TABLE) (fd desiredFd : Z) : Z :=
  if (0 <=? desiredFd) && (desiredFd <? WIN32_OPEN_MAX) then
    if is_unused t desiredFd then desiredFd else -1
  else if 0 <? fd then
    if (fd <? WIN32_OPEN_MAX) && is_unused t fd then fd else first_unused t
  else -1.

Definition Win32NewDescriptor (ty : FILE_TYPE) (fd desiredFd : Z) : M WOS Z :=
  t <- gets fdTable ;;
  let index := new_index t fd desiredFd in
  (when negb (index =? -1) do
     fd_update index (fun e =>
       mkFd (UINT fd) ty None NO_ERROR (instance e) 0 (-1) None None 0 0)) ;;;
  ret index.

Definition fd_valid (fd : Z) : bool := (0 <=? fd) && (fd <? WIN32_OPEN_MAX).

Definition Win32FreeDescriptor (fd : Z) : M WOS unit :=
  assert (fd_valid fd) ;;;
  e <- fd_entry fd ;;
  when negb (bool_decide (type e = FD_UNUSED)) do
    ((when bool_decide (type e = FD_FILE_SYNC) || bool_decide (type e = FD_FILE_ASYNC) do
        (assert (bool_decide (path e <> None)) ;;;
         fd_update fd (set_fd_path None))) ;;;
     e <- fd_entry fd ;;
     assert (bool_decide (path e = None)) ;;;
     fd_update fd (fun e => set_fd_offsetHighPtr None (set_fd_offsetLowPtr None
       (set_fd_Errno NO_ERROR (set_fd_path None (set_fd_type FD_UNUSED e))))) ;;;
     e <- fd_entry fd ;;
     when negb (hMapMutex e =? 0) do
       (_ <- wcall (CloseHandle (hMapMutex e)) ;;
        fd_update fd (set_fd_hMapMutex 0))).
End Descriptors.

(** ** Start-up *)

Section Startup.
Context `{Win32Api}.
Variable fuel : nat.

(** [return x] unless the condition holds *)
Definition unless_return {A} (b : bool) (x : A) (k : M WOS A) : M WOS A :=
  if b then k else ret x.

Definition OS_ShutdownPending : M WOS unit := modify (set_shutdownPending true).

(** the wait, then what the thread does *)
Definition ShutdownRequestThread (event : Z) : M WOS unit :=
  _ <- wcall (WaitForSingleObject event) ;; ShutdownRequest.

(** one request for standard input; [true] to go on *)
Definition stdin_turn : M WOS bool :=
  o <- get ;;
  r <- api (GetQueuedCompletionStatus (hStdinCompPort o) INFINITE) ;;
  let '(((ok, bytesRead), fd), pOv) := (r : bool * Z * Z * option positive) in
  if negb ok && bool_decide (pOv = None) then ret false
  else
    assert ((fd =? STDIN_FILENO) || (fd =? -1)) ;;;
    if fd =? -1 then ret false
    else
      p <- of_option pOv ;;
      req <- of_option (requests o !! p) ;;
      assert (negb (ov_clientData1 req =? 0)) ;;;
      h <- of_option (stdioHandles o !! 0%nat) ;;
      bs <- api (ReadFile h bytesRead) ;;
      match bs with
      | None => ret false
      | Some bs =>
          m <- of_option (buffers o !! ov_clientData1 req) ;;
          m' <- mem_write m 0 bs ;;
          modify (fun o => set_buffers (<[ov_clientData1 req := m']> (buffers o)) o) ;;;
          _ <- wcall (PostQueuedCompletionStatus (hIoCompPort o) (len bs) STDIN_FILENO p) ;;
          ret true
      end.

(** [while(doIo)], then [ExitThread] *)
Definition StdinThread : M WOS unit :=
  loop fuel (fun _ : unit => go <- stdin_turn ;; ret (if (go : bool) then inl tt else inr tt)) tt.

(** [_atoi64], which saturates *)
Definition strToHandle (s : list Z) : M WOS Z :=
  v <- of_option (scan_number s) ;;
  ret (Z.max (-9223372036854775808) (Z.min v 9223372036854775807)).

(** an I/O completion port, created once *)
Definition create_port (get_port : WOS -> Z) (set_port : Z -> WOS -> WOS) : M WOS bool :=
  o <- get ;;
  if get_port o =? INVALID_HANDLE_VALUE then
    h <- wcall (CreateIoCompletionPort INVALID_HANDLE_VALUE 0 0) ;;
    modify (set_port h) ;;;
    ret (negb (h =? INVALID_HANDLE_VALUE))
  else ret true.

(** the handle to listen on is standard input, when the others are closed *)
Definition is_listener : M WOS bool :=
  h <- wcall (GetStdHandle STD_OUTPUT_HANDLE) ;;
  if negb (h =? INVALID_HANDLE_VALUE) then ret false
  else
    h <- wcall (GetStdHandle STD_ERROR_HANDLE) ;;
    if negb (h =? INVALID_HANDLE_VALUE) then ret false
    else
      h <- wcall (GetStdHandle STD_INPUT_HANDLE) ;;
      ret (negb (h =? INVALID_HANDLE_VALUE)).

Definition init_listener : M WOS bool :=
  l <- is_listener ;;
  if negb l then ret true
  else
    oldStdIn <- wcall (GetStdHandle STD_INPUT_HANDLE) ;;
    d <- api (DuplicateHandle oldStdIn) ;;
    match d with
    | None => ret false
    | Some h =>
        modify (set_hListen h) ;;;
        r <- wcall (SetStdHandle STD_INPUT_HANDLE h) ;;
        unless_return (negb (r =? 0)) false (
          _ <- wcall (CloseHandle oldStdIn) ;;
          r <- wcall (SetNamedPipeHandleState h 0) ;;
          modify (set_listenType (if negb (r =? 0) then FD_PIPE_SYNC else FD_SOCKET_SYNC)) ;;;
          ret true)
    end.

(** a standard handle is kept, made private to the process and given a pseudo
    descriptor; the failure to make it private ends the process, except for
    standard input; -1 when there is no descriptor *)
Definition map_stdio (n handle : Z) : M WOS Z :=
  h <- wcall (GetStdHandle handle) ;;
  modify (fun o => set_stdioHandles (<[Z.to_nat n := h]> (stdioHandles o)) o) ;;;
  r <- wcall (SetHandleInformation h HANDLE_FLAG_INHERIT 0) ;;
  (when (r =? 0) && negb (n =? STDIN_FILENO) do fail (ProcessExit 99)) ;;;
  assert (int_range h) ;;;
  Win32NewDescriptor FD_PIPE_SYNC h n.

(** the thread that reads standard input, for a request with a body *)
Definition start_stdin_thread : M WOS bool :=
  o <- get ;;
  match win_getenv (chars "CONTENT_LENGTH") (wplat o) with
  | None => ret true
  | Some s =>
      n <- of_option (atoi s) ;;
      if 0 <? n then
        h <- wcall (beginthread StdinThread_start) ;;
        modify (set_hStdinThread h) ;;;
        ret (negb (h =? -1))
      else ret true
  end.

(** the environment: the shutdown event and the accept mutex *)
Definition init_environment : M WOS bool :=
  o <- get ;;
  ok <- (match win_getenv (chars "_FCGI_SHUTDOWN_EVENT_") (wplat o) with
         | None => ret true
         | Some s =>
             h <- strToHandle s ;;
             r <- wcall (beginthread (ShutdownRequestThread_start h)) ;;
             ret (negb (r =? -1))
         end) ;;
  unless_return ok false (
    o <- get ;;
    (when acceptMutex o =? INVALID_HANDLE_VALUE do
       match win_getenv (chars "_FCGI_MUTEX_") (wplat o) with
       | None => ret tt
       | Some s => h <- strToHandle s ;; modify (set_acceptMutex h)
       end) ;;;
    ret true).

(** the three standard handles; the result is the status and the descriptors *)
Definition init_stdio (stdioFds : list Z) : M WOS (Z * list Z) :=
  fd0 <- map_stdio STDIN_FILENO STD_INPUT_HANDLE ;;
  unless_return (negb (fd0 =? -1)) (-1, stdioFds) (
    let fds := <[0%nat := fd0]> stdioFds in
    ok <- create_port hStdinCompPort set_hStdinCompPort ;;
    unless_return ok (-1, fds) (
      ok <- start_stdin_thread ;;
      unless_return ok (-1, fds) (
        fd1 <- map_stdio STDOUT_FILENO STD_OUTPUT_HANDLE ;;
        unless_return (negb (fd1 =? -1)) (-1, fds) (
          let fds := <[1%nat := fd1]> fds in
          fd2 <- map_stdio STDERR_FILENO STD_ERROR_HANDLE ;;
          unless_return (negb (fd2 =? -1)) (-1, fds) (
            ret (0, <[2%nat := fd2]> fds)))))).

(** the result is the status and [stdioFds] as it is then *)
Definition OS_LibInit (stdioFds : option (list Z)) : M WOS (Z * option (list Z)) :=
  o <- get ;;
  if libInitialized o then ret (0, stdioFds)
  else
    err <- wcall WSAStartup ;;
    (when negb (err =? 0) do fail (ProcessExit 111)) ;;;
    ok <- create_port hIoCompPort set_hIoCompPort ;;
    unless_return ok (-1, stdioFds) (
      ok <- init_environment ;;
      unless_return ok (-1, stdioFds) (
        ok <- init_listener ;;
        unless_return ok (-1, stdioFds) (
          match stdioFds with
          | None => modify (set_libInitialized true) ;;; ret (0, None)
          | Some fds => r <- init_stdio fds ;; ret (fst r, Some (snd r))
          end))).

Definition OS_LibShutdown : M WOS unit :=
  o <- get ;;
  (when negb (hIoCompPort o =? INVALID_HANDLE_VALUE) do
     (_ <- wcall (CloseHandle (hIoCompPort o)) ;;
      modify (set_hIoCompPort INVALID_HANDLE_VALUE))) ;;;
  (when negb (hStdinCompPort o =? INVALID_HANDLE_VALUE) do
     (_ <- wcall (CloseHandle (hStdinCompPort o)) ;;
      modify (set_hStdinCompPort INVALID_HANDLE_VALUE))) ;;;
  (when negb (acceptMutex o =? INVALID_HANDLE_VALUE) do
     (_ <- wcall (ReleaseMutex (acceptMutex o)) ;; ret tt)) ;;;
  _ <- wcall (DisconnectNamedPipe (hListen o)) ;;
  _ <- wcall (CancelIo (hListen o)) ;;
  _ <- wcall WSACleanup ;;
  ret tt.
End Startup.

(** ** Listening and connecting *)

Section Connections.
Context `{Win32Api}.
Variable fuel : nat.

(** at most five characters after the first colon, as a [short] *)
Definition getPort (bindPath : list Z) : M WOS Z :=
  tp <- of_option (strchr bindPath 58) ;;
  match tp with
  | None => ret 0
  | Some i =>
      let p := drop (Z.to_nat (i + 1)) bindPath in
      c <- of_option (head p) ;;
      if c =? 0 then ret 0
      else
        n <- of_option (strlen p) ;;
        v <- of_option (atoi (take (Z.to_nat (Z.min n 5)) p ++ [0])) ;;
        ret (SHORT v)
  end.

(** [malloc(strlen(bindPathPrefix) + strlen(bindPath) + 1)] and the two
    strings; [None] when the allocation fails *)
Definition pipe_path (bindPath : list Z) : M WOS (option (list Z)) :=
  n <- of_option (strlen bindPath) ;;
  p <- api (win_malloc (len bindPathPrefix + n + 1)) ;;
  match p with
  | None => ret None
  | Some _ => ret (Some (bindPathPrefix ++ take (Z.to_nat (n + 1)) bindPath))
  end.

(** a new descriptor for [h], which [discard] closes when there is none *)
Definition adopt (ty : FILE_TYPE) (h : Z) (discard : win_call) (failed : Z) (k : Z -> M WOS Z)
    : M WOS Z :=
  assert (int_range h) ;;;
  fd <- Win32NewDescriptor ty h (-1) ;;
  if fd =? -1 then _ <- wcall discard ;; ret failed else k fd.

Definition listen_socket (port backlog : Z) : M WOS Z :=
  s <- wcall Socket ;;
  unless_return (negb (s =? INVALID_SOCKET)) (-4) (
    r <- wcall (Bind s INADDR_ANY (htons port)) ;;
    unless_return (r =? 0) (-12) (
      r <- wcall (Listen s backlog) ;;
      unless_return (r =? 0) (-5) (
        o <- get ;;
        adopt (listenType o) s (Closesocket s) (-6) (fun fd =>
          modify (set_hListen s) ;;; ret fd)))).

Definition listen_pipe (bindPath : list Z) : M WOS Z :=
  p <- pipe_path bindPath ;;
  match p with
  | None => ret (-7)
  | Some pipePath =>
      h <- wcall (CreateNamedPipe pipePath) ;;
      unless_return (negb (h =? INVALID_HANDLE_VALUE)) (-8) (
        r <- wcall (SetHandleInformation h HANDLE_FLAG_INHERIT 1) ;;
        unless_return (negb (r =? 0)) (-9) (
          o <- get ;;
          adopt (listenType o) h (CloseHandle h) (-10) (fun fd =>
            modify (set_hListen h) ;;; ret fd)))
  end.

(** the mutex for accepting, created once; 0 or the error *)
Definition create_mutex : M WOS Z :=
  o <- get ;;
  if acceptMutex o =? INVALID_HANDLE_VALUE then
    h <- wcall CreateMutex ;;
    modify (set_acceptMutex h) ;;;
    unless_return (negb (h =? 0)) (-2) (
      r <- wcall (SetHandleInformation h HANDLE_FLAG_INHERIT 1) ;;
      unless_return (negb (r =? 0)) (-3) (ret 0))
  else ret 0.

Definition LOCALHOST : list Z := chars "localhost".

Definition OS_CreateLocalIpcFd (bindPath : list Z) (backlog : Z) : M WOS Z :=
  port <- getPort bindPath ;;
  r <- create_mutex ;;
  unless_return (r =? 0) r (
    c <- of_option (head bindPath) ;;
    local <- (if negb (port =? 0) && negb (c =? 58) then
                d <- of_option (strncmp (length LOCALHOST) bindPath (c_str LOCALHOST)) ;;
                ret (d =? 0)
              else ret true) ;;
    (when negb local do fail (ProcessExit 1)) ;;;
    modify (set_listenType (if negb (port =? 0) then FD_SOCKET_SYNC else FD_PIPE_ASYNC)) ;;;
    if negb (port =? 0) then listen_socket port backlog else listen_pipe bindPath).

(** the host's name: the block has [len] bytes and the terminating NUL is
    stored behind it *)
Definition copy_host (bindPath : list Z) : M WOS (option (list Z)) :=
  c <- of_option (head bindPath) ;;
  if c =? 58 then ret None
  else
    tp <- of_option (strchr bindPath 58) ;;
    i <- of_option tp ;;
    let n := i + 1 in
    p <- api (win_malloc n) ;;
    _ <- of_option p ;;
    host <- mem_write (replicate (Z.to_nat n) 0) 0 (take (Z.to_nat n) bindPath) ;;
    host <- mem_write host n [0] ;;
    ret (Some host).

Definition connect_socket (bindPath : list Z) (port : Z) : M WOS Z :=
  host <- copy_host bindPath ;;
  hp <- api (win_gethostbyname (match host with Some h => h | None => c_str LOCALHOST end)) ;;
  match hp with
  | None => ret (-1)
  | Some hp =>
      a <- of_option (head (h_addr_list hp)) ;;
      s <- wcall Socket ;;
      unless_return (negb (s =? INVALID_SOCKET)) (-1) (
        r <- wcall (Connect s a (htons port)) ;;
        if r =? 0 then _ <- wcall (Closesocket s) ;; ret (-1)
        else adopt FD_SOCKET_SYNC s (Closesocket s) (-1) ret)
  end.

Definition connect_pipe (bindPath : list Z) : M WOS Z :=
  p <- pipe_path bindPath ;;
  match p with
  | None => ret (-1)
  | Some pipePath =>
      h <- wcall (CreateFile pipePath) ;;
      unless_return (negb (h =? INVALID_HANDLE_VALUE)) (-1) (
        adopt FD_PIPE_ASYNC h (CloseHandle h) (-1) (fun fd =>
          o <- get ;;
          r <- wcall (CreateIoCompletionPort h (hIoCompPort o) fd) ;;
          if r =? 0 then
            Win32FreeDescriptor fd ;;;
            _ <- wcall (CloseHandle h) ;;
            ret (-1)
          else ret fd))
  end.

Definition OS_FcgiConnect (bindPath : list Z) : M WOS Z :=
  port <- getPort bindPath ;;
  if negb (port =? 0) then connect_socket bindPath port else connect_pipe bindPath.

(** ** Reading and writing *)

Definition is_stream_type (ty : FILE_TYPE) : bool :=
  match ty with FD_FILE_SYNC | FD_FILE_ASYNC | FD_PIPE_SYNC | FD_PIPE_ASYNC => true | _ => false end.
Definition is_socket_type (ty : FILE_TYPE) : bool :=
  match ty with FD_SOCKET_SYNC | FD_SOCKET_ASYNC => true | _ => false end.

(** the failure of a call on [fd] *)
Definition io_failed (fd : Z) : M WOS unit := e <- last_error ;; fd_update fd (set_fd_Errno e).

(** the result and the bytes stored in [buf] *)
Definition OS_Read (fd n : Z) : M WOS (Z * list Z) :=
  assert (fd_valid fd) ;;;
  o <- get ;;
  if shutdownNow o then ret (-1, [])
  else
    e <- fd_entry fd ;;
    if is_stream_type (type e) then
      assert ((0 <=? n) && (n <=? ULONG_MAX)) ;;;
      r <- api (ReadFile (fid e) n) ;;
      match r with
      | Some bs => ret (INT (len bs), bs)
      | None => io_failed fd ;;; ret (-1, [])
      end
    else if is_socket_type (type e) then
      assert ((0 <=? n) && (n <=? INT_MAX)) ;;;
      r <- api (recv (fid e) n) ;;
      match r with
      | Some bs => ret (len bs, bs)
      | None => io_failed fd ;;; ret (-1, [])
      end
    else assert false ;;; ret (-1, []).

Definition OS_Write (fd : Z) (bs : list Z) : M WOS Z :=
  assert (fd_valid fd) ;;;
  o <- get ;;
  if shutdownNow o then ret (-1)
  else
    e <- fd_entry fd ;;
    if is_stream_type (type e) then
      assert (len bs <=? ULONG_MAX) ;;;
      r <- api (WriteFile (fid e) bs) ;;
      match r with
      | Some n => ret (INT n)
      | None => io_failed fd ;;; ret (-1)
      end
    else if is_socket_type (type e) then
      assert (len bs <=? INT_MAX) ;;;
      r <- wcall (Send (fid e) bs) ;;
      if r =? SOCKET_ERROR then io_failed fd ;;; ret (-1) else ret r
    else assert false ;;; ret (-1).

Definition OS_SpawnChild (execPath : list Z) (listenFd : Z) : M WOS Z :=
  e <- fd_entry listenFd ;;
  success <- wcall (SetHandleInformation (fid e) HANDLE_FLAG_INHERIT 1) ;;
  (when success =? 0 do fail (ProcessExit 99)) ;;;
  success <- wcall (CreateProcess execPath (fid e)) ;;
  ret (if negb (success =? 0) then 0 else -1).
End Connections.

(** ** Asynchronous operations *)

Section AsyncIo.
Context `{Win32Api}.
Variable fuel : nat.
(** [( *procPtr)(clientData, len)] *)
Variable call : Z -> Z -> Z -> M WOS unit.

(** [malloc] and [memset] of a request, then its fields *)
Definition new_request (off offHigh inst proc cd cd1 : Z) : M WOS positive :=
  p <- api (win_malloc 64) ;;
  assert (bool_decide (p <> None)) ;;;
  pOv <- of_option p ;;
  modify (fun o => set_requests (<[pOv := mkReq off offHigh inst proc cd cd1]> (requests o)) o) ;;;
  ret pOv.

Definition post (port bytes key : Z) (pOv : positive) : M WOS unit :=
  _ <- wcall (PostQueuedCompletionStatus port bytes key pOv) ;; ret tt.

Definition OS_AsyncReadStdin (buf n proc cd : Z) : M WOS Z :=
  e <- fd_entry STDIN_FILENO ;;
  assert (negb (bool_decide (type e = FD_UNUSED))) ;;;
  pOv <- new_request 0 0 (instance e) proc cd buf ;;
  o <- get ;;
  post (hStdinCompPort o) (UINT n) STDIN_FILENO pOv ;;;
  ret 0.

(** the four assertions on the descriptor's type *)
Definition is_async_type (ty : FILE_TYPE) : bool :=
  match ty with FD_FILE_ASYNC | FD_SOCKET_ASYNC | FD_PIPE_ASYNC => true | _ => false end.

Definition OS_AsyncRead (fd off buf n proc cd : Z) : M WOS Z :=
  assert (fd_valid fd) ;;;
  e <- fd_entry fd ;;
  assert (is_async_type (type e)) ;;;
  let Off := if bool_decide (type e = FD_FILE_ASYNC)
             then UINT (if 0 <=? offset e then offset e else off) else 0 in
  pOv <- new_request Off 0 (instance e) proc cd 0 ;;
  r <- wcall (ReadFileOv (fid e) buf (UINT n) Off pOv) ;;
  if negb (r =? 0) then ret 0
  else
    err <- last_error ;;
    fd_update fd (set_fd_Errno err) ;;;
    o <- get ;;
    if (err =? ERROR_NO_DATA) || (err =? ERROR_PIPE_NOT_CONNECTED) then
      post (hIoCompPort o) 0 fd pOv ;;; ret 0
    else if negb (err =? ERROR_IO_PENDING) then
      post (hIoCompPort o) 0 fd pOv ;;; ret (-1)
    else fd_update fd (set_fd_Errno 0) ;;; ret 0.

(** the offsets of a write to a file: shared between processes, the
    descriptor's own, or the caller's *)
Definition write_offsets (e : FD_TABLE) (off n : Z) : M WOS (Z * Z) :=
  if negb (bool_decide (type e = FD_FILE_ASYNC)) then ret (0, 0)
  else if 0 <=? offset e then
    if negb (hMapMutex e =? 0) then
      _ <- wcall (WaitForSingleObject (hMapMutex e)) ;;
      o <- get ;;
      hp <- of_option (offsetHighPtr e) ;;
      lp <- of_option (offsetLowPtr e) ;;
      high <- of_option (dwords o !! hp) ;;
      low <- of_option (dwords o !! lp) ;;
      modify (fun o => set_dwords (<[lp := UINT (low + n)]> (dwords o)) o) ;;;
      _ <- wcall (ReleaseMutex (hMapMutex e)) ;;
      ret (high, low)
    else ret (0, UINT (offset e))
  else ret (0, UINT off).

Definition OS_AsyncWrite (fd off buf n proc cd : Z) : M WOS Z :=
  assert (fd_valid fd) ;;;
  e <- fd_entry fd ;;
  assert (is_async_type (type e)) ;;;
  p <- new_request 0 0 0 0 0 0 ;;
  offs <- write_offsets e off n ;;
  let '(OffHigh, Off) := (offs : Z * Z) in
  modify (fun o => set_requests
    (<[p := mkReq Off OffHigh (instance e) proc cd 0]> (requests o)) o) ;;;
  r <- wcall (WriteFileOv (fid e) buf (UINT n) OffHigh Off p) ;;
  ok <- (if negb (r =? 0) then ret true
         else
           err <- last_error ;;
           fd_update fd (set_fd_Errno err) ;;;
           o <- get ;;
           if negb (err =? ERROR_IO_PENDING) then
             post (hIoCompPort o) 0 fd p ;;; ret false
           else fd_update fd (set_fd_Errno 0) ;;; ret true) ;;
  if negb ok then ret (-1)
  else
    (when 0 <=? offset e do
       (v <- int_op (offset e + n) ;; fd_update fd (set_fd_offset v))) ;;;
    ret 0.

(** ** Closing *)

(** what the peer still sends is read, as long as it does *)
Definition drain_socket (s : Z) : M WOS unit :=
  loop fuel (fun _ : unit =>
    rv <- wcall (Select s 2) ;;
    if 0 <? rv then
      r <- api (recv s 1024) ;;
      match r with
      | Some (_ :: _) => ret (inl tt)
      | _ => ret (inr tt)
      end
    else ret (inr tt)) tt.

Definition OS_Close (fd : Z) : M WOS Z :=
  assert (fd_valid fd) ;;;
  e <- fd_entry fd ;;
  assert (negb (bool_decide (type e = FD_UNUSED))) ;;;
  (when is_socket_type (type e) do
     (r <- wcall (Shutdown (fid e) 1) ;;
      (when r =? 0 do drain_socket (fid e)) ;;;
      _ <- wcall (Closesocket (fid e)) ;;
      ret tt)) ;;;
  Win32FreeDescriptor fd ;;;
  ret 0.

Definition OS_CloseRead (fd : Z) : M WOS Z :=
  assert (fd_valid fd) ;;;
  e <- fd_entry fd ;;
  assert (is_socket_type (type e)) ;;;
  r <- wcall (Shutdown (fid e) 0) ;;
  ret (if r =? SOCKET_ERROR then -1 else 0).

(** ** Dispatching completions *)

(** the milliseconds of a [struct timeval] *)
Definition tmo_ms (tmo : Z * Z) : Z := fst tmo * 1000 + Z.quot (snd tmo) 1000.

(** one turn: the loop's variables are [ms] and [ms_last] *)
Definition DoIo_turn (tmo : option (Z * Z)) (v : Z * Z) : M WOS (Z * Z + Z) :=
  let (ms, ms_last) := v in
  if negb (0 <=? ms) then ret (inr 0)
  else
    let ms := match tmo with
              | Some t => if 100 <? tmo_ms t then 100 else tmo_ms t
              | None => ms
              end in
    assert ((0 <=? ms) && (ms <? 4294967295)) ;;;
    o <- get ;;
    r <- api (GetQueuedCompletionStatus (hIoCompPort o) ms) ;;
    let '(((ok, bytes), fd), pOv) := (r : bool * Z * Z * option positive) in
    if negb ok && bool_decide (pOv = None) then ret (inr 0)
    else
      assert (fd_valid fd) ;;;
      assert (bool_decide (pOv <> None)) ;;;
      p <- of_option pOv ;;
      o <- get ;;
      req <- of_option (requests o !! p) ;;
      e <- fd_entry fd ;;
      (when ov_instance req =? instance e do
         call (ov_procPtr req) (ov_clientData req) (INT bytes)) ;;;
      modify (fun o => set_requests (delete p (requests o)) o) ;;;
      now <- api ftime ;;
      ret (inl (ms - (now - ms_last), now)).

Definition OS_DoIo (tmo : option (Z * Z)) : M WOS Z :=
  let ms := match tmo with Some t => Z.quot (tmo_ms t) 2 | None => 1000 end in
  ms_last <- api ftime ;;
  loop fuel (DoIo_turn tmo) (ms, ms_last).
End AsyncIo.

(** ** Accepting *)

(** [strstr] with a needle that has no NUL: the offset of its first occurrence *)
Fixpoint strstr (s needle : list Z) : option (option Z) :=
  if bool_decide (take (length needle) s = needle) then Some (Some 0)
  else match s with
       | [] => None
       | x :: s' =>
           if x =? 0 then Some None
           else option_map (option_map (Z.add 1)) (strstr s' needle)
       end.

(** a separator, or the terminating NUL, which [strchr] finds as well *)
Definition is_token (c : Z) : bool := bool_decide (c ∈ chars " ,;:" ++ [9; 0]).

(** [ip] are the characters of the address; undefined when the list has no NUL *)
Definition addr_listed (ip okAddrs : list Z) : option bool :=
  match strstr okAddrs ip with
  | None => None
  | Some None => Some false
  | Some (Some i) =>
      let after := okAddrs !! Z.to_nat (i + len ip) in
      if i =? 0 then option_map is_token after
      else
        c ← okAddrs !! Z.to_nat (i - 1);
        if is_token c then option_map is_token after else Some false
  end.

Section Accept.
Context `{Win32Api}.
Variable fuel : nat.

Definition isAddrOK (addr : Z) (okAddrs : option (list Z)) : option bool :=
  match okAddrs with
  | None => Some true
  | Some l => n ← strlen (inet_ntoa addr); addr_listed (take (Z.to_nat n) (inet_ntoa addr)) l
  end.

(** the condition function; [true] is [CF_ACCEPT] *)
Definition isAddrOKCallback (okAddrs : option (list Z)) (caller : sockaddr) : option bool :=
  match okAddrs with
  | None => Some true
  | Some _ =>
      if negb (sin_family caller =? AF_INET) then Some true
      else isAddrOK (s_addr caller) okAddrs
  end.

Definition acceptNamedPipe : M WOS Z :=
  o <- get ;;
  _ <- wcall (ConnectNamedPipe (hListen o)) ;;
  assert (int_range (hListen o)) ;;;
  ipcFd <- Win32NewDescriptor FD_PIPE_SYNC (hListen o) (-1) ;;
  (when ipcFd =? -1 do (_ <- wcall (DisconnectNamedPipe (hListen o)) ;; ret tt)) ;;;
  ret ipcFd.

(** the inner loop: [false] when the shutdown flag was found set *)
Definition wait_for_client : M WOS bool :=
  loop fuel (fun _ : unit =>
    o <- get ;;
    r <- wcall (Select (hListen o) 1) ;;
    if r =? 0 then
      o <- get ;;
      if shutdownPending o then OS_LibShutdown ;;; ret (inr false) else ret (inl tt)
    else ret (inr true)) tt.

(** one turn of the outer loop: the socket, or [None] for the shutdown.  The
    list of addresses is a string, for which the condition function is
    defined. *)
Definition accept_turn (webServerAddrs : option (list Z)) (_ : unit)
    : M WOS (unit + option Z) :=
  go <- wait_for_client ;;
  if negb go then ret (inr None)
  else
    o <- get ;;
    hSock <- api (WSAAccept (hListen o) (fun caller =>
               default false (isAddrOKCallback webServerAddrs caller))) ;;
    if negb (hSock =? INVALID_SOCKET) then ret (inr (Some hSock))
    else
      e <- last_error ;;
      if negb (e =? WSAECONNREFUSED) then ret (inr (Some hSock)) else ret (inl tt).

Definition acceptSocket (webServerAddrs : option (list Z)) : M WOS Z :=
  r <- loop fuel (accept_turn webServerAddrs) tt ;;
  match r with
  | None => ret (-1)
  | Some hSock =>
      if hSock =? INVALID_SOCKET then ret (-1)
      else
        assert (int_range hSock) ;;;
        ipcFd <- Win32NewDescriptor FD_SOCKET_SYNC hSock (-1) ;;
        (when ipcFd =? -1 do (_ <- wcall (Closesocket hSock) ;; ret tt)) ;;;
        ret ipcFd
  end.

Definition OS_Accept (listen_sock : Z) (fail_on_intr : bool) (webServerAddrs : option (list Z))
    : M WOS Z :=
  o <- get ;;
  if shutdownPending o then OS_LibShutdown ;;; ret (-1)
  else
    failed <- (if negb (acceptMutex o =? INVALID_HANDLE_VALUE) then
                 r <- wcall (WaitForSingleObject (acceptMutex o)) ;; ret (r =? WAIT_FAILED)
               else ret false) ;;
    if (failed : bool) then ret (-1)
    else
      o <- get ;;
      ipcFd <- (if shutdownPending o then OS_LibShutdown ;;; ret (-1)
                else match listenType o with
                     | FD_PIPE_SYNC => acceptNamedPipe
                     | FD_SOCKET_SYNC => acceptSocket webServerAddrs
                     | _ => ret (-1)
                     end) ;;
      o <- get ;;
      (when negb (acceptMutex o =? INVALID_HANDLE_VALUE) do
         (_ <- wcall (ReleaseMutex (acceptMutex o)) ;; ret tt)) ;;;
      ret ipcFd.

Definition OS_IpcClose (ipcFd : Z) : M WOS Z :=
  if ipcFd =? -1 then ret 0
  else
    assert (fd_valid ipcFd) ;;;
    e <- fd_entry ipcFd ;;
    assert (negb (bool_decide (type e = FD_UNUSED))) ;;;
    o <- get ;;
    match listenType o with
    | FD_PIPE_SYNC =>
        r <- wcall (FlushFileBuffers (fid e)) ;;
        unless_return (negb (r =? 0)) (-1) (
          r <- wcall (DisconnectNamedPipe (fid e)) ;;
          unless_return (negb (r =? 0)) (-1) (
            _ <- OS_Close fuel ipcFd ;; ret 0))
    | FD_SOCKET_SYNC => _ <- OS_Close fuel ipcFd ;; ret 0
    | _ => fail (ProcessExit 106)
    end.

Definition OS_IsFcgi (sock : Z) : M WOS bool :=
  gets (fun o => negb (bool_decide (listenType o = FD_UNUSED))).

Definition O_NONBLOCK : Z := 4.

Definition OS_SetFlags (fd flags : Z) : M WOS unit :=
  e <- fd_entry fd ;;
  when bool_decide (type e = FD_SOCKET_SYNC) && (flags =? O_NONBLOCK) do
    (r <- wcall (Ioctlsocket (fid e)) ;;
     (when r =? SOCKET_ERROR do (err <- last_error ;; fail (ProcessExit err))) ;;;
     o <- get ;;
     r <- wcall (CreateIoCompletionPort (fid e) (hIoCompPort o) fd) ;;
     (when r =? 0 do (err <- last_error ;; fail (ProcessExit err))) ;;;
     fd_update fd (set_fd_type FD_SOCKET_ASYNC)).
End Accept.
