(* ===== verification/Win32Spec.v ===== *)
(** * What the Windows layer guarantees

    A small logic of what every terminating run of a command keeps
    ([keeps]), the invariant of the descriptor table over all the operations of
    [os_win32.c], the address filter, and what becomes of listening and
    connecting. *)

From Stdlib Require Import String.
From S2P Require Import Prelude CString Platform Format Printing Sockets Win32.
#[local] Open Scope Z_scope.

(** ** What a command keeps *)

Section Keeps.
Context {S : Type} (P : S -> Prop).

(** whatever [m] returns, it leaves [P] true *)
Definition keeps {A} (m : M S A) : Prop := forall s, P s ->
  match m s with Ret _ s' => P s' | Fault _ => True end.

Lemma keeps_ret {A} (a : A) : keeps (ret a).
Proof. by intros s Hs. Qed.
Lemma keeps_fail {A} f : keeps (@fail S A f).
Proof. by intros s Hs. Qed.
Lemma keeps_undef {A} : keeps (@undef S A).
Proof. by intros s Hs. Qed.
Lemma keeps_get : keeps get.
Proof. by intros s Hs. Qed.
Lemma keeps_gets {A} (f : S -> A) : keeps (gets f).
Proof. by intros s Hs. Qed.
Lemma keeps_modify f : (forall s, P s -> P (f s)) -> keeps (modify f).
Proof. intros Hf s Hs. by apply Hf. Qed.
Lemma keeps_assert b : keeps (assert b).
Proof. intros s Hs. unfold assert. by destruct b. Qed.
Lemma keeps_of_option {A} (x : option A) : keeps (of_option x).
Proof. intros s Hs. by destruct x. Qed.

Lemma keeps_bind {A B} (m : M S A) (k : A -> M S B) :
  keeps m -> (forall a, keeps (k a)) -> keeps (bind m k).
Proof.
  intros Hm Hk s Hs. unfold bind. specialize (Hm s Hs). destruct (m s) as [a s'|]; [|done].
  by apply Hk.
Qed.

Lemma keeps_loop {L R} fuel (body : L -> M S (L + R)) l :
  (forall l, keeps (body l)) -> keeps (loop fuel body l).
Proof.
  intros Hb. revert l. induction fuel as [|fuel IH]; intros l; [by intros s Hs|].
  rewrite loop_unfold. apply keeps_bind; [apply Hb|].
  intros [l'|x]; [apply IH|apply keeps_ret].
Qed.

(** a command that starts by looking at the state *)
Lemma keeps_look {A} (k : S -> M S A) :
  (forall s, P s -> match k s s with Ret _ s' => P s' | Fault _ => True end) ->
  keeps (bind get k).
Proof. intros Hk s Hs. by apply Hk. Qed.

Lemma keeps_get_bind {A} (k : S -> M S A) :
  (forall s, P s -> keeps (k s)) -> keeps (bind get k).
Proof. intros Hk s Hs. by apply Hk. Qed.

(** the weakest liberal precondition: [Q] after every run that returns *)
Definition wlp {A} (m : M S A) (Q : A -> S -> Prop) (s : S) : Prop :=
  match m s with Ret a s' => Q a s' | Fault _ => True end.

Lemma wlp_ret {A} (a : A) (Q : A -> S -> Prop) s : Q a s -> wlp (ret a) Q s.
Proof. done. Qed.

Lemma wlp_bind {A B} (m : M S A) (k : A -> M S B) Q s :
  wlp m (fun a => wlp (k a) Q) s -> wlp (bind m k) Q s.
Proof. unfold wlp, bind. by destruct (m s). Qed.

Lemma wlp_mono {A} (m : M S A) (Q R : A -> S -> Prop) s :
  wlp m Q s -> (forall a s', Q a s' -> R a s') -> wlp m R s.
Proof. unfold wlp. destruct (m s); auto. Qed.

Lemma wlp_keeps {A} (m : M S A) (Q : A -> S -> Prop) s :
  keeps m -> P s -> (forall a s', P s' -> Q a s') -> wlp m Q s.
Proof. intros Hm Hs HQ. specialize (Hm s Hs). unfold wlp. destruct (m s); auto. Qed.
End Keeps.

Create HintDb keeps.
#[export] Hint Resolve keeps_ret keeps_fail keeps_undef keeps_get keeps_gets keeps_assert
  keeps_of_option : keeps.

(** [keeps_steps] walks through a command's structure *)
Ltac keeps_step :=
  first
    [ solve [eauto with keeps]
    | lazymatch goal with
      | |- keeps _ (bind _ _) => apply keeps_bind; [|intros ?]
      | |- keeps _ (loop _ _ _) => apply keeps_loop; intros ?
      | |- keeps _ (unless_return _ _ _) => unfold unless_return
      | |- keeps _ (match ?x with _ => _ end) => destruct x
      | |- keeps _ (modify _) => apply keeps_modify; intros ? ?; try done
      end ].
Ltac keeps_steps := repeat keeps_step.

(** ** Calls *)

(** what neither the platform nor the shutdown thread can change *)
Section Stable.
Context `{Win32Api}.
Context (P : WOS -> Prop).
Context (P_plat : forall k o, P o -> P (set_wplat k o)).
Context (P_shutdown : forall o, P o -> P (set_shutdownPending true o)).

Lemma stable_ShutdownRequest : keeps P ShutdownRequest.
Proof. unfold ShutdownRequest. by keeps_steps. Qed.

Lemma stable_wcall c : keeps P (wcall c).
Proof.
  unfold wcall. apply keeps_look. intros o Ho. destruct (win c (wplat o)) as [[r sg] k].
  revert o Ho. change (keeps P (modify (set_wplat k) ;;;
    (when sg do ShutdownRequest) ;;; ret r)).
  keeps_steps; apply stable_ShutdownRequest.
Qed.

Lemma stable_api {A} (f : wst -> A * wst) : keeps P (api f).
Proof.
  unfold api. apply keeps_look. intros o Ho. destruct (f (wplat o)) as [r k].
  revert o Ho. change (keeps P (modify (set_wplat k) ;;; ret r)). by keeps_steps.
Qed.
End Stable.

(** ** The descriptor table *)

Section Table.
Context `{Win32Api}.
Implicit Types (o : WOS) (e : FD_TABLE) (t : list FD_TABLE).

(** no descriptor of a file is ever made, no offset is shared, and the
    instance number is never changed *)
Record entry_ok e : Prop := {
  eo_path : path e = None;
  eo_mutex : hMapMutex e = 0;
  eo_high : offsetHighPtr e = None;
  eo_low : offsetLowPtr e = None;
  eo_instance : instance e = 0;
  eo_type : type e <> FD_FILE_SYNC /\ type e <> FD_FILE_ASYNC;
  eo_fid : 0 <= fid e < 4294967296
}.

Definition table_ok o : Prop :=
  (length (fdTable o) = 128%nat /\ Forall entry_ok (fdTable o)) /\
  map_Forall (fun _ r => ov_instance r = 0) (requests o) /\
  (listenType o <> FD_FILE_SYNC /\ listenType o <> FD_FILE_ASYNC).

Lemma table_ok_update o i e : table_ok o -> entry_ok e ->
  table_ok (set_fdTable (<[i := e]> (fdTable o)) o).
Proof.
  intros ((Hl & He) & Hr & Ht1 & Ht2) Hok. split_and!; cbn; try done; first [by rewrite length_insert|by apply Forall_insert].
Qed.

Lemma keeps_wcall c : keeps table_ok (wcall c).
Proof. by apply stable_wcall. Qed.

Lemma keeps_api {A} (f : wst -> A * wst) : keeps table_ok (api f).
Proof. by apply stable_api. Qed.
#[local] Hint Resolve keeps_wcall keeps_api : keeps.

Lemma keeps_last_error : keeps table_ok last_error.
Proof. unfold last_error. by keeps_steps. Qed.

(** an entry of the table is one that satisfies the invariant *)
Lemma keeps_fd_entry {A} fd (k : FD_TABLE -> M WOS A) :
  (forall e, entry_ok e -> keeps table_ok (k e)) -> keeps table_ok (bind (fd_entry fd) k).
Proof.
  intros Hk o Ho. unfold fd_entry, bind, gets.
  destruct (0 <=? fd); [|done]. unfold of_option.
  destruct (fdTable o !! Z.to_nat fd) as [e|] eqn:E; [|done]. cbn.
  apply Hk; [|done]. eapply Forall_lookup_1; [apply Ho|done].
Qed.

Lemma keeps_fd_update fd f : (forall e, entry_ok e -> entry_ok (f e)) ->
  keeps table_ok (fd_update fd f).
Proof.
  intros Hf. unfold fd_update. apply keeps_fd_entry. intros e He. apply keeps_modify.
  intros o Ho. apply table_ok_update; [done|by apply Hf].
Qed.

Lemma keeps_fd_entry_only fd : keeps table_ok (fd_entry fd).
Proof. unfold fd_entry. by keeps_steps. Qed.
#[local] Hint Resolve keeps_last_error keeps_fd_entry_only : keeps.

Lemma table_ok_request o p r : table_ok o -> ov_instance r = 0 ->
  table_ok (set_requests (<[p := r]> (requests o)) o).
Proof.
  intros ((Hl & He) & Hr & Ht1 & Ht2) Hi. split_and!; cbn; try done. by apply map_Forall_insert_2.
Qed.

Lemma table_ok_listen o (b : bool) x y : table_ok o ->
  x <> FD_FILE_SYNC /\ x <> FD_FILE_ASYNC -> y <> FD_FILE_SYNC /\ y <> FD_FILE_ASYNC ->
  table_ok (set_listenType (if b then x else y) o).
Proof. intros (Hl & Hr & _) Hx Hy. split_and!; try apply Hl; try done; cbn; destruct b; tauto. Qed.

Lemma table_ok_free o p : table_ok o -> table_ok (set_requests (delete p (requests o)) o).
Proof. intros ((Hl & He) & Hr & Ht1 & Ht2). split_and!; cbn; try done. by apply map_Forall_delete. Qed.

Ltac win_step :=
  first
    [ lazymatch goal with
      | |- keeps _ (bind (fd_entry _) _) => apply keeps_fd_entry; intros ? ?
      | |- keeps _ (bind get _) => apply keeps_get_bind; intros ? ?
      | |- keeps _ (fd_update _ _) => apply keeps_fd_update; intros ? []; by split
      end
    | keeps_step ].
Ltac win_steps := repeat win_step.

Lemma keeps_Win32NewDescriptor ty fd want :
  ty <> FD_FILE_SYNC -> ty <> FD_FILE_ASYNC -> keeps table_ok (Win32NewDescriptor ty fd want).
Proof.
  intros H1 H2. unfold Win32NewDescriptor. win_steps.
  apply keeps_fd_update. intros e []. split; cbn; try done. unfold UINT. by apply Z.mod_pos_bound.
Qed.

Lemma keeps_Win32FreeDescriptor fd : keeps table_ok (Win32FreeDescriptor fd).
Proof. unfold Win32FreeDescriptor. win_steps. Qed.
#[local] Hint Resolve keeps_Win32NewDescriptor keeps_Win32FreeDescriptor : keeps.

(** ** Every operation keeps the invariant *)

Lemma keeps_create_port g f :
  (forall v o, table_ok o -> table_ok (f v o)) -> keeps table_ok (create_port g f).
Proof. intros Hf. unfold create_port. win_steps; by apply Hf. Qed.

Lemma keeps_strToHandle str : keeps table_ok (strToHandle str).
Proof. unfold strToHandle. win_steps. Qed.
#[local] Hint Resolve keeps_strToHandle : keeps.

Lemma keeps_init_environment : keeps table_ok init_environment.
Proof. unfold init_environment. win_steps. Qed.

Lemma keeps_init_listener : keeps table_ok init_listener.
Proof. unfold init_listener, is_listener. win_steps; by apply table_ok_listen. Qed.

Lemma keeps_map_stdio n h : keeps table_ok (map_stdio n h).
Proof. unfold map_stdio. win_steps. Qed.
#[local] Hint Resolve keeps_init_environment keeps_init_listener keeps_map_stdio : keeps.

Lemma keeps_start_stdin_thread : keeps table_ok start_stdin_thread.
Proof. unfold start_stdin_thread. win_steps. Qed.
#[local] Hint Resolve keeps_start_stdin_thread : keeps.

Lemma keeps_OS_LibInit fds : keeps table_ok (OS_LibInit fds).
Proof.
  unfold OS_LibInit, init_stdio. win_steps; by apply keeps_create_port.
Qed.

Lemma keeps_OS_LibShutdown : keeps table_ok OS_LibShutdown.
Proof. unfold OS_LibShutdown. win_steps. Qed.
#[local] Hint Resolve keeps_OS_LibInit keeps_OS_LibShutdown : keeps.

Lemma keeps_adopt ty h d failed k : ty <> FD_FILE_SYNC -> ty <> FD_FILE_ASYNC ->
  (forall fd, keeps table_ok (k fd)) -> keeps table_ok (adopt ty h d failed k).
Proof. intros H1 H2 Hk. unfold adopt. win_steps; apply Hk. Qed.

Lemma keeps_pipe_path p : keeps table_ok (pipe_path p).
Proof. unfold pipe_path. win_steps. Qed.

Lemma keeps_getPort p : keeps table_ok (getPort p).
Proof. unfold getPort. win_steps. Qed.
#[local] Hint Resolve keeps_pipe_path keeps_getPort : keeps.

Lemma keeps_create_mutex : keeps table_ok create_mutex.
Proof. unfold create_mutex. win_steps. Qed.

Lemma keeps_mem_write m off bs : keeps table_ok (mem_write m off bs).
Proof. unfold mem_write. win_steps. Qed.
#[local] Hint Resolve keeps_create_mutex keeps_mem_write : keeps.

Lemma keeps_OS_CreateLocalIpcFd p backlog : keeps table_ok (OS_CreateLocalIpcFd p backlog).
Proof.
  unfold OS_CreateLocalIpcFd, listen_socket, listen_pipe. win_steps; try by apply table_ok_listen.
  all: apply keeps_adopt; intros; win_steps; unfold table_ok in *; tauto.
Qed.

Lemma keeps_OS_FcgiConnect p : keeps table_ok (OS_FcgiConnect p).
Proof.
  unfold OS_FcgiConnect, connect_socket, connect_pipe, copy_host.
  win_steps; apply keeps_adopt; try done; intros ?; win_steps.
Qed.

Lemma keeps_OS_Read fd n : keeps table_ok (OS_Read fd n).
Proof. unfold OS_Read, io_failed. win_steps. Qed.

Lemma keeps_OS_Write fd bs : keeps table_ok (OS_Write fd bs).
Proof. unfold OS_Write, io_failed. win_steps. Qed.

Lemma keeps_OS_SpawnChild p fd : keeps table_ok (OS_SpawnChild p fd).
Proof. unfold OS_SpawnChild. win_steps. Qed.

Lemma keeps_new_request off offHigh inst proc cd cd1 : inst = 0 ->
  keeps table_ok (new_request off offHigh inst proc cd cd1).
Proof. intros ->. unfold new_request. win_steps; by apply table_ok_request. Qed.

Lemma keeps_post port n key p : keeps table_ok (post port n key p).
Proof. unfold post. win_steps. Qed.
#[local] Hint Resolve keeps_new_request keeps_post eo_instance : keeps.

Lemma keeps_OS_AsyncReadStdin buf n proc cd : keeps table_ok (OS_AsyncReadStdin buf n proc cd).
Proof. unfold OS_AsyncReadStdin. win_steps. Qed.

Lemma keeps_OS_AsyncRead fd off buf n proc cd : keeps table_ok (OS_AsyncRead fd off buf n proc cd).
Proof. unfold OS_AsyncRead. win_steps. Qed.

Lemma keeps_OS_AsyncWrite fd off buf n proc cd :
  keeps table_ok (OS_AsyncWrite fd off buf n proc cd).
Proof.
  unfold OS_AsyncWrite, write_offsets, int_op. win_steps.
  all: try (apply table_ok_request; [done|by apply eo_instance]).
Qed.

Lemma keeps_OS_Close fuel fd : keeps table_ok (OS_Close fuel fd).
Proof. unfold OS_Close, drain_socket. win_steps. Qed.

Lemma keeps_OS_CloseRead fd : keeps table_ok (OS_CloseRead fd).
Proof. unfold OS_CloseRead. win_steps. Qed.
#[local] Hint Resolve keeps_OS_Close : keeps.

Lemma keeps_OS_DoIo fuel call tmo : (forall p cd n, keeps table_ok (call p cd n)) ->
  keeps table_ok (OS_DoIo fuel call tmo).
Proof.
  intros Hc. unfold OS_DoIo, DoIo_turn. win_steps; by apply table_ok_free.
Qed.

Lemma keeps_StdinThread fuel : keeps table_ok (StdinThread fuel).
Proof. unfold StdinThread, stdin_turn. win_steps. Qed.

Lemma keeps_OS_Accept fuel sock intr addrs : keeps table_ok (OS_Accept fuel sock intr addrs).
Proof.
  unfold OS_Accept, acceptNamedPipe, acceptSocket, accept_turn, wait_for_client. win_steps.
Qed.

Lemma keeps_OS_IpcClose fuel fd : keeps table_ok (OS_IpcClose fuel fd).
Proof. unfold OS_IpcClose. win_steps. Qed.

Lemma keeps_OS_SetFlags fd flags : keeps table_ok (OS_SetFlags fd flags).
Proof. unfold OS_SetFlags. win_steps. Qed.
End Table.

(** ** The program as a transition system *)

Inductive win_op :=
  | LibInit (stdioFds : option (list Z))
  | LibShutdown
  | ShutdownPending
  | CreateLocalIpcFd (bindPath : list Z) (backlog : Z)
  | FcgiConnect (bindPath : list Z)
  | Read (fd n : Z)
  | Write (fd : Z) (bs : list Z)
  | SpawnChild (execPath : list Z) (listenFd : Z)
  | AsyncReadStdin (buf n proc cd : Z)
  | AsyncRead (fd off buf n proc cd : Z)
  | AsyncWrite (fd off buf n proc cd : Z)
  | Close (fd : Z)
  | CloseRead (fd : Z)
  | DoIo (tmo : option (Z * Z))
  | Stdin
  | Accept (webServerAddrs : option (list Z))
  | IpcClose (fd : Z)
  | SetFlags (fd flags : Z).

Section Reachable.
Context `{Win32Api}.
Variable fuel : nat.
Variable call : Z -> Z -> Z -> M WOS unit.

Definition run_win_op (op : win_op) : M WOS unit :=
  match op with
  | LibInit fds => _ <- OS_LibInit fds ;; ret tt
  | LibShutdown => OS_LibShutdown
  | ShutdownPending => OS_ShutdownPending
  | CreateLocalIpcFd p b => _ <- OS_CreateLocalIpcFd p b ;; ret tt
  | FcgiConnect p => _ <- OS_FcgiConnect p ;; ret tt
  | Read fd n => _ <- OS_Read fd n ;; ret tt
  | Write fd bs => _ <- OS_Write fd bs ;; ret tt
  | SpawnChild p fd => _ <- OS_SpawnChild p fd ;; ret tt
  | AsyncReadStdin b n p c => _ <- OS_AsyncReadStdin b n p c ;; ret tt
  | AsyncRead fd off b n p c => _ <- OS_AsyncRead fd off b n p c ;; ret tt
  | AsyncWrite fd off b n p c => _ <- OS_AsyncWrite fd off b n p c ;; ret tt
  | Close fd => _ <- OS_Close fuel fd ;; ret tt
  | CloseRead fd => _ <- OS_CloseRead fd ;; ret tt
  | DoIo tmo => _ <- OS_DoIo fuel call tmo ;; ret tt
  | Stdin => StdinThread fuel
  | Accept addrs => _ <- OS_Accept fuel 0 false addrs ;; ret tt
  | IpcClose fd => _ <- OS_IpcClose fuel fd ;; ret tt
  | SetFlags fd fl => OS_SetFlags fd fl
  end.

(** one operation that returns *)
Inductive win_step (o o' : WOS) : Prop :=
  win_step_op op : run_win_op op o = Ret tt o' -> win_step o o'.

Definition fd_zero : FD_TABLE := mkFd 0 FD_UNUSED None 0 0 0 0 None None 0 0.

(** the static variables as the program starts *)
Definition win_init (bufs : gmap Z (list Z)) (k : wst) : WOS :=
  mkWOS (-1) (-1) (-1) [-1; -1; -1] (-1) false false (replicate 128 fd_zero) ∅ ∅ bufs
    FD_UNUSED (-1) false k.

Definition reachable (o : WOS) : Prop := exists bufs k, rtc win_step (win_init bufs k) o.

Lemma table_ok_init bufs k : table_ok (win_init bufs k).
Proof.
  split; [split; [done|]|split; [apply map_Forall_empty|done]].
  apply Forall_replicate. by split.
Qed.

Context (call_keeps : forall p cd n, keeps table_ok (call p cd n)).

Lemma keeps_run_win_op op : keeps table_ok (run_win_op op).
Proof.
  destruct op; cbn; try lazymatch goal with
    | |- keeps _ (bind _ _) => apply keeps_bind; [|intros ?; apply keeps_ret] end.
  - apply keeps_OS_LibInit.
  - apply keeps_OS_LibShutdown.
  - by apply keeps_modify.
  - apply keeps_OS_CreateLocalIpcFd.
  - apply keeps_OS_FcgiConnect.
  - apply keeps_OS_Read.
  - apply keeps_OS_Write.
  - apply keeps_OS_SpawnChild.
  - apply keeps_OS_AsyncReadStdin.
  - apply keeps_OS_AsyncRead.
  - apply keeps_OS_AsyncWrite.
  - apply keeps_OS_Close.
  - apply keeps_OS_CloseRead.
  - by apply keeps_OS_DoIo.
  - apply keeps_StdinThread.
  - apply keeps_OS_Accept.
  - apply keeps_OS_IpcClose.
  - apply keeps_OS_SetFlags.
Qed.

Lemma reachable_table_ok o : reachable o -> table_ok o.
Proof.
  intros (bufs & k & Hs). pose proof (table_ok_init bufs k) as Hok. revert Hok.
  induction Hs as [|o1 o2 o3 [op Hop] _ IH]; [done|]. intros Hok. apply IH.
  pose proof (keeps_run_win_op op o1 Hok) as Hk. by rewrite Hop in Hk.
Qed.
End Reachable.

(** ** Choosing a slot *)

Lemma new_index_unused t fd want :
  new_index t fd want = -1 \/ (0 <= new_index t fd want < 128 /\
    is_unused t (new_index t fd want) = true).
Proof.
  unfold new_index, first_unused, WIN32_OPEN_MAX.
  destruct (_ && _) eqn:E1.
  { destruct (is_unused t want) eqn:E; [right; split; [lia|done]|by left]. }
  destruct (0 <? fd) eqn:E2; [|by left].
  destruct (_ && is_unused t fd) eqn:E3.
  { apply andb_true_iff in E3 as [? ->]. right. split; [lia|done]. }
  destruct (List.find _ _) eqn:E4; [|by left].
  apply List.find_some in E4 as [Hin Hu]. apply List.in_seq in Hin.
  right. split; [lia|done].
Qed.

Lemma new_index_full t fd : 0 < fd -> new_index t fd (-1) = -1 ->
  forall i, 0 < i < 128 -> is_unused t i = false.
Proof.
  unfold new_index, first_unused, WIN32_OPEN_MAX. intros Hfd E i Hi.
  replace ((0 <=? -1) && _) with false in E by done. replace (0 <? fd) with true in E by lia.
  destruct (_ && _); [lia|]. destruct (List.find _ _) eqn:E4; [lia|].
  rewrite <- (Z2Nat.id i) by lia.
  apply (List.find_none (fun i => is_unused t (Z.of_nat i)) _ E4), List.in_seq. lia.
Qed.

Lemma is_unused_entry t i : is_unused t i = true ->
  exists e, t !! Z.to_nat i = Some e /\ type e = FD_UNUSED.
Proof.
  unfold is_unused. destruct (t !! Z.to_nat i) as [e|]; [|done].
  intros Hu. apply bool_decide_eq_true in Hu. by exists e.
Qed.

(** ** The address filter *)

Lemma strstr_found s needle i : strstr s needle = Some (Some i) ->
  exists pre post, s = pre ++ needle ++ post /\ i = len pre.
Proof.
  revert i. induction s as [|x s IH]; intros i; cbn [strstr].
  - case_bool_decide as E; [|done]. intros [= <-]. rewrite take_nil in E. subst. by exists [], [].
  - case_bool_decide as E.
    + intros [= <-]. exists [], (drop (length needle) (x :: s)). split; [|done].
      cbn [app]. rewrite <- E at 1. by rewrite take_drop.
    + destruct (x =? 0); [done|]. destruct (strstr s needle) as [[j|]|]; [|done..].
      cbn. intros [= <-]. destruct (IH j eq_refl) as (pre & post & -> & ->).
      exists (x :: pre), post. split; [done|]. rewrite len_cons. lia.
Qed.

Lemma strstr_defined l needle : no_nul l -> needle <> [] -> exists r, strstr (c_str l) needle = Some r.
Proof.
  intros Hl Hne. induction Hl as [|x l Hx _ IH]; unfold c_str in *; cbn.
  - case_bool_decide; [by eexists|]. by eexists.
  - case_bool_decide; [by eexists|]. replace (x =? 0) with false by lia.
    destruct IH as [r ->]. by eexists.
Qed.

Definition separated (c : option Z) : Prop :=
  match c with None => True | Some x => is_token x = true end.

Lemma lookup_app_len (l r : list Z) : (l ++ r) !! Z.to_nat (len l) = head r.
Proof.
  unfold len. rewrite Nat2Z.id, lookup_app_r by lia. rewrite Nat.sub_diag. by destruct r.
Qed.

(** what follows the needle in the string's characters *)
Lemma c_str_split l pre needle post : no_nul needle -> needle <> [] ->
  c_str l = pre ++ needle ++ post -> exists post', post = post' ++ [0] /\ l = pre ++ needle ++ post'.
Proof.
  unfold c_str. intros Hn Hne E. destruct post as [|z post _] using rev_ind.
  - destruct needle as [|x needle _] using rev_ind; [done|].
    rewrite app_nil_r, app_assoc in E. apply app_inj_tail in E as [_ <-].
    apply Forall_app in Hn as [_ Hn]. by inversion Hn.
  - rewrite !app_assoc in E. apply app_inj_tail in E as [-> <-].
    exists post. by rewrite app_assoc.
Qed.

(** what is accepted is an element of the list: it is delimited on both sides *)
Lemma addr_listed_sound ip l : no_nul ip -> ip <> [] -> addr_listed ip (c_str l) = Some true ->
  exists pre post, l = pre ++ ip ++ post /\ separated (last pre) /\ separated (head post).
Proof.
  unfold addr_listed. intros Hip Hne.
  destruct (strstr (c_str l) ip) as [[i|]|] eqn:E; [|done..].
  apply strstr_found in E as (pre & post & El & ->). pose proof (len_nonneg pre) as Hp.
  destruct (c_str_split l pre ip post Hip Hne El) as (post' & -> & ->).
  assert ((pre ++ ip ++ post' ++ [0]) !! Z.to_nat (len pre + len ip) = head (post' ++ [0])) as Ha
    by (rewrite <- len_app, app_assoc; apply lookup_app_len).
  rewrite El. cbv zeta. rewrite Ha.
  assert (option_map is_token (head (post' ++ [0])) = Some true -> separated (head post')) as Hpost
    by (destruct post'; cbn; [done|by intros [= ->]]).
  intros Hr. exists pre, post'. split; [done|].
  destruct (Z.eqb_spec (len pre) 0) as [E0|E0].
  - apply len_nil_inv in E0 as ->. split; [done|by apply Hpost].
  - destruct pre as [|c pre _] using rev_ind; [by change (len []) with 0 in E0|].
    replace (len (pre ++ [c]) - 1) with (len pre) in Hr
      by (rewrite len_app; change (len [c]) with 1; lia).
    rewrite <- !app_assoc, lookup_app_len in Hr. cbn in Hr.
    rewrite last_snoc. destruct (is_token c) eqn:Ec; [|done].
    split; [exact Ec|by apply Hpost].
Qed.

Lemma addr_listed_defined ip l : no_nul l -> no_nul ip -> ip <> [] ->
  exists b, addr_listed ip (c_str l) = Some b.
Proof.
  intros Hl Hip Hne. unfold addr_listed. destruct (strstr_defined l ip Hl Hne) as [[i|] E].
  2: { rewrite E. by exists false. }
  rewrite E. apply strstr_found in E as (pre & post & El & ->). pose proof (len_nonneg pre).
  destruct (c_str_split l pre ip post Hip Hne El) as (post' & -> & ->).
  assert ((pre ++ ip ++ post' ++ [0]) !! Z.to_nat (len pre + len ip) = head (post' ++ [0])) as Ha
    by (rewrite <- len_app, app_assoc; apply lookup_app_len).
  rewrite El. cbv zeta. rewrite Ha.
  destruct (len pre =? 0) eqn:E0; [destruct post'; cbn; eauto|].
  destruct pre as [|c pre _] using rev_ind; [by change (len []) with 0 in E0|].
  replace (len (pre ++ [c]) - 1) with (len pre) by (rewrite len_app; change (len [c]) with 1; lia).
  rewrite <- !app_assoc, lookup_app_len. cbn.
  destruct (is_token c); [destruct post'; cbn; eauto|eauto].
Qed.

(** an address whose first occurrence is inside a longer one is refused *)
Lemma addr_listed_incomplete :
  addr_listed (chars "1.2.3.4") (c_str (chars "11.2.3.4,1.2.3.4")) = Some false.
Proof. by vm_compute. Qed.

(** ** Listening on a pipe *)

Section Listening.
Context `{Win32Api}.
Implicit Types o : WOS.

Definition pipe_listener o : Prop := listenType o = FD_PIPE_ASYNC.

Lemma pipe_wcall c : keeps pipe_listener (wcall c).
Proof. by apply stable_wcall. Qed.
Lemma pipe_api {A} (f : wst -> A * wst) : keeps pipe_listener (api f).
Proof. by apply stable_api. Qed.
#[local] Hint Resolve pipe_wcall pipe_api : keeps.

Lemma pipe_listen_pipe p : keeps pipe_listener (listen_pipe p).
Proof.
  unfold listen_pipe, pipe_path, adopt, Win32NewDescriptor, fd_update, fd_entry. keeps_steps.
Qed.

Lemma wlp_create_mutex o : wlp create_mutex (fun r _ => r <= 0) o.
Proof.
  unfold create_mutex. apply wlp_bind. unfold wlp at 1, get. destruct (acceptMutex o =? _); [|done].
  apply wlp_bind. unfold wlp at 1. destruct (wcall CreateMutex o) as [h o1|]; [|done].
  apply wlp_bind. unfold wlp at 1, modify. unfold unless_return.
  destruct (negb (h =? 0)); [|done].
  apply wlp_bind. unfold wlp at 1. destruct (wcall _ _) as [r o2|]; [|done].
  by destruct (negb (r =? 0)).
Qed.

(** a listener on a pipe has a type [OS_Accept] does not know *)
Lemma wlp_create_pipe p backlog o : strchr p 58 = Some None ->
  wlp (OS_CreateLocalIpcFd p backlog) (fun fd o' => 0 <= fd -> pipe_listener o') o.
Proof.
  intros Hp. unfold OS_CreateLocalIpcFd, getPort. rewrite Hp.
  apply wlp_bind, wlp_ret, wlp_bind. eapply wlp_mono; [apply wlp_create_mutex|]. cbv beta.
  intros r o1 Hr. unfold unless_return. destruct (Z.eqb_spec r 0) as [->|Hne].
  2: { apply wlp_ret. lia. }
  destruct p as [|c p]; [done|]. apply wlp_bind. cbn [head of_option]. apply wlp_ret.
  change (negb (0 =? 0)) with false. cbn [andb]. apply wlp_bind, wlp_ret. cbn [negb].
  apply wlp_bind, wlp_ret, wlp_bind. unfold wlp at 1, modify.
  apply (wlp_keeps pipe_listener); [apply pipe_listen_pipe|done|by intros].
Qed.

(** the shutdown thread does not end the process of such a listener *)
Lemma wp_pipe_wcall c (Q : Z -> WOS -> Prop) o : pipe_listener o ->
  (forall r o', pipe_listener o' -> Q r o') -> wp (wcall c) Q o.
Proof.
  intros Ho HQ. unfold wcall, ShutdownRequest. wp_steps.
  destruct (win c (wplat o)) as [[r []] k]; wp_steps; [|by apply HQ].
  rewrite bool_decide_eq_false_2 by (cbn; by rewrite Ho). wp_steps. by apply HQ.
Qed.

(** runs the calls of such a process *)
Ltac pipe_steps :=
  repeat first
    [ progress wp_steps
    | apply wp_pipe_wcall; [assumption|intros ? ? ?]
    | match goal with
      | |- wp (bind _ _) _ _ => apply wp_bind
      | |- wp (if ?b then _ else _) _ _ => destruct b
      end ].

Lemma wp_pipe_LibShutdown o (Q : unit -> WOS -> Prop) : pipe_listener o ->
  (forall o', pipe_listener o' -> Q tt o') -> wp OS_LibShutdown Q o.
Proof. intros Ho HQ. unfold OS_LibShutdown. pipe_steps; by apply HQ. Qed.

Lemma wp_accept_pipe fuel sock intr addrs o : pipe_listener o ->
  wp (OS_Accept fuel sock intr addrs) (fun r _ => r = -1) o.
Proof.
  intros Ho. unfold OS_Accept. pipe_steps.
  all: match goal with
       | |- wp OS_LibShutdown _ _ => apply wp_pipe_LibShutdown; [assumption|intros ? ?]
       | H : pipe_listener ?o |- context [listenType ?o] => rewrite H
       | _ => done
       end; pipe_steps; done.
Qed.
End Listening.

(** ** Connecting *)

Section Connecting.
Context `{Win32Api}.
Implicit Types o : WOS.

(** a call that answers [v] in every state, undisturbed *)
Definition returns (c : win_call) (v : Z) : Prop := forall k, exists k', win c k = ((v, false), k').

Lemma wp_wcall c v (Q : Z -> WOS -> Prop) o :
  returns c v -> (forall k, Q v (set_wplat k o)) -> wp (wcall c) Q o.
Proof.
  intros Hc HQ. unfold wcall. wp_step. wp_step. destruct (Hc (wplat o)) as [k' ->].
  wp_steps. apply HQ.
Qed.

Lemma wp_api {A} (f : wst -> A * wst) (R : A -> Prop) (Q : A -> WOS -> Prop) o :
  (forall k, R (fst (f k))) -> (forall a k, R a -> Q a (set_wplat k o)) -> wp (api f) Q o.
Proof.
  intros Hf HQ. unfold api. wp_step. wp_step. specialize (Hf (wplat o)).
  destruct (f (wplat o)) as [a k]. wp_steps. by apply HQ.
Qed.

Lemma port_digits p : 0 < p < 65536 -> len (digits false 10 p) <= 5.
Proof.
  intros Hp. unfold digits. pose proof (digits_from_len_le 5 64 false 10 p []) as Hl.
  change (10 ^ Z.of_nat 5) with 100000 in Hl. change (len []) with 0 in Hl. lia.
Qed.

Lemma getPort_run host p o : no_nul host -> Forall (fun c => c <> 58) host -> 0 < p < 65536 ->
  getPort (c_str (host ++ 58 :: digits false 10 p)) o = Ret (SHORT p) o.
Proof.
  intros Hn Hc Hp. unfold getPort, bind. set (D := digits false 10 p).
  assert (c_str (host ++ 58 :: D) = host ++ 58 :: (D ++ [0])) as ->
    by (unfold c_str; by rewrite <- app_assoc).
  rewrite strchr_app by done. cbn [of_option ret].
  replace (drop _ (host ++ 58 :: (D ++ [0]))) with (D ++ [0]).
  2: { change (host ++ 58 :: (D ++ [0])) with (host ++ [58] ++ (D ++ [0])). rewrite app_assoc.
       replace (Z.to_nat (len host + 1)) with (length (host ++ [58])); [by rewrite drop_app_length|].
       rewrite length_app. unfold len. cbn [length]. lia. }
  pose proof (port_digits p Hp) as Hl. fold D in Hl. pose proof (len_nonneg D).
  assert (no_nul D) as HD by (by apply digits_no_nul).
  destruct (digits_from_head 64 p []) as (c & ds & HDe & Hcd).
  { split; [lia|]. apply Z.lt_trans with 65536; [lia|by vm_compute]. }
  change (digits_from 64 false 10 p []) with D in HDe. rewrite HDe at 1. cbn [app head of_option ret].
  replace (c =? 0) with false by lia. fold (c_str D). rewrite strlen_c_str by done.
  cbn [of_option ret]. rewrite Z.min_l by lia.
  replace (take _ (c_str D)) with D.
  2: { unfold len, c_str. rewrite Nat2Z.id. by rewrite take_app_length. }
  fold D. by rewrite (atoi_digits p [] ltac:(unfold INT_MAX; lia) : atoi (D ++ [0]) = Some p).
Qed.

Lemma SHORT_port p : 0 < p < 65536 -> (SHORT p =? 0) = false.
Proof. intros Hp. apply Z.eqb_neq. unfold SHORT. zdiv. Qed.

(** the NUL of the host's name is stored behind its block *)
Lemma copy_host_overflows host rest o :
  host <> [] -> Forall (fun c => c <> 58) host -> no_nul host ->
  copy_host (host ++ 58 :: rest) o = Fault UndefinedBehaviour.
Proof.
  intros Hne Hc Hn. unfold copy_host, bind at 1.
  destruct host as [|c host']; [done|]. set (host := c :: host') in *.
  change (head (host ++ 58 :: rest)) with (Some c). cbn [of_option ret].
  replace (c =? 58) with false by (inversion Hc; lia).
  unfold bind at 1 2. rewrite strchr_app by done. cbn [of_option ret].
  pose proof (len_nonneg host) as Hl. set (n := len host + 1).
  set (bs := take (Z.to_nat n) (host ++ 58 :: rest)).
  assert (len bs <= n) as Hbs by (unfold bs, len; rewrite length_take; lia).
  assert (len (replicate (Z.to_nat n) 0) = n) as Hr by (unfold len; rewrite length_replicate; lia).
  unfold bind at 1, api, bind at 1, get. destruct (win_malloc n (wplat o)) as [[a|] k]; [|done].
  unfold bind at 1, modify, ret at 1, bind at 1. cbn [of_option ret]. unfold bind at 1.
  unfold mem_write at 1, in_block. pose proof (len_nonneg bs).
  replace ((0 <=? 0) && (0 <=? len bs) && (0 + len bs <=? len (replicate (Z.to_nat n) 0)))
    with true by lia.
  unfold ret at 1, bind at 1, mem_write, in_block. change (len [0]) with 1.
  rewrite splice_len by lia. rewrite Hr. by replace ((0 <=? n) && (0 <=? 1) && (n + 1 <=? n)) with false by lia.
Qed.

Lemma connect_host_overflows host p o :
  host <> [] -> no_nul host -> Forall (fun c => c <> 58) host -> 0 < p < 65536 ->
  OS_FcgiConnect (c_str (host ++ 58 :: digits false 10 p)) o = Fault UndefinedBehaviour.
Proof.
  intros Hne Hn Hc Hp. unfold OS_FcgiConnect, bind at 1. rewrite getPort_run by done.
  rewrite SHORT_port by done. cbn [negb]. unfold connect_socket, bind at 1.
  unfold c_str. rewrite <- app_assoc. cbn [app]. by rewrite copy_host_overflows.
Qed.

(** a new descriptor for a socket *)
Lemma wp_adopt_socket s d failed o : returns d 0 -> 0 < s <= INT_MAX ->
  length (fdTable o) = 128%nat ->
  wp (adopt FD_SOCKET_SYNC s d failed ret) (fun fd o' =>
    if new_index (fdTable o) s (-1) =? -1 then fd = failed /\ fdTable o' = fdTable o
    else fd = new_index (fdTable o) s (-1) /\ exists e,
      fdTable o' !! Z.to_nat fd = Some e /\ type e = FD_SOCKET_SYNC /\ fid e = s /\
      forall i, i <> Z.to_nat fd -> fdTable o' !! i = fdTable o !! i) o.
Proof.
  intros Hd Hs Hlen. unfold adopt. wp_step. apply wp_assert.
  { unfold int_range, INT_MIN. lia. }
  unfold Win32NewDescriptor. wp_steps.
  destruct (new_index_unused (fdTable o) s (-1)) as [E|[Hi Hu]].
  - rewrite E, Z.eqb_refl. cbn [negb]. wp_steps. rewrite Z.eqb_refl. wp_step.
    eapply wp_wcall; [exact Hd|]. intros k. by wp_step.
  - set (i := new_index (fdTable o) s (-1)) in *. replace (i =? -1) with false by lia. cbn [negb].
    destruct (is_unused_entry _ _ Hu) as (e & He & _). unfold fd_update, fd_entry. wp_steps.
    replace (0 <=? i) with true by lia. eapply wp_of_option; [exact He|]. wp_steps.
    replace (i =? -1) with false by lia. wp_step. split; [done|]. eexists.
    cbn. rewrite list_lookup_insert_eq by (rewrite Hlen; lia). split; [done|].
    cbn. split; [done|]. split; [unfold UINT; apply Z.mod_small; unfold INT_MAX in *; lia|].
    intros j Hj. by rewrite list_lookup_insert_ne by done.
Qed.

(** the result of [connect] is taken the wrong way round *)
Lemma wp_connect_port p s rc o :
  0 < p < 65536 -> returns Socket s -> 0 < s <= INT_MAX ->
  (forall a q, returns (Connect s a q) rc) -> returns (Closesocket s) 0 ->
  (forall h k, exists hp, fst (win_gethostbyname h k) = Some hp /\ h_addr_list hp <> []) ->
  length (fdTable o) = 128%nat ->
  wp (OS_FcgiConnect (c_str (58 :: digits false 10 p))) (fun fd o' =>
    if (rc =? 0) || (new_index (fdTable o) s (-1) =? -1) then fd = -1 /\ fdTable o' = fdTable o
    else 0 <= fd /\ exists e,
      fdTable o' !! Z.to_nat fd = Some e /\ type e = FD_SOCKET_SYNC /\ fid e = s) o.
Proof.
  intros Hp Hsock Hs Hconn Hclose Hhost Hlen. unfold OS_FcgiConnect. wp_step.
  apply wp_Ret. exists (SHORT p), o. split; [apply (getPort_run []); [done|done|lia]|].
  rewrite SHORT_port by done. cbn [negb]. unfold connect_socket, copy_host. wp_steps.
  eapply wp_of_option; [reflexivity|]. rewrite Z.eqb_refl. wp_steps.
  apply (wp_api _ (fun r => exists hp, r = Some hp /\ h_addr_list hp <> [])).
  { intros k. destruct (Hhost (c_str LOCALHOST) k) as (hp & E & Hne). by exists hp. }
  intros r k1 (hp & -> & Hne). destruct (h_addr_list hp) as [|a l] eqn:Ehp; [done|]. wp_step.
  eapply wp_of_option; [reflexivity|]. wp_step. eapply wp_wcall; [exact Hsock|]. intros k2.
  unfold unless_return. replace (s =? INVALID_SOCKET) with false by (unfold INVALID_SOCKET; lia).
  cbn [negb]. wp_step. eapply wp_wcall; [apply Hconn|]. intros k3.
  destruct (Z.eqb_spec rc 0) as [->|Hrc]; cbn [orb].
  - wp_step. eapply wp_wcall; [exact Hclose|]. intros k4. by wp_step.
  - eapply wp_mono; [apply wp_adopt_socket; done|]. cbv beta. intros fd o'. cbn.
    pose proof (new_index_unused (fdTable o) s (-1)).
    destruct (Z.eqb_spec (new_index (fdTable o) s (-1)) (-1)); [done|].
    intros (-> & e & ? & ? & ? & _). split; [lia|]. by exists e.
Qed.
End Connecting.
