(* ===== verification/Request.v ===== *)
(** * Requests

    The control part of [fcgiapp.c]: a request owns three streams, its
    parameters and a connection; [FCGX_Accept_r] builds them from the records
    the web server sends, [FCGX_Finish_r] closes and frees them.  Streams live
    in a heap, so that a null, dangling or twice freed pointer is undefined
    behaviour.  A [World] is what these functions see when they are given one
    request; [Server] has several. *)

From Stdlib Require Import String Ascii.
From S2P Require Import Prelude CString Protocol Platform OsUnix Params Stream Writer Reader Sockets.
#[local] Open Scope Z_scope.

Definition FCGI_FAIL_ACCEPT_ON_INTR : Z := 1.

Section State.
Context `{Platform}.

Record World := mkWorld {
  heap : gmap positive FCGX_Stream;
  req : FCGX_Request;
  wos : OS;
  isFastCGI : Z;
  libInitialized : bool;
  webServerAddressList : option (list Z)
}.

(** one-field updates of [World] *)
Definition set_heap (v : gmap positive FCGX_Stream) (w : World) : World :=
  mkWorld v (req w) (wos w) (isFastCGI w) (libInitialized w) (webServerAddressList w).
Definition set_req (v : FCGX_Request) (w : World) : World :=
  mkWorld (heap w) v (wos w) (isFastCGI w) (libInitialized w) (webServerAddressList w).
Definition set_wos (v : OS) (w : World) : World :=
  mkWorld (heap w) (req w) v (isFastCGI w) (libInitialized w) (webServerAddressList w).
Definition set_isFastCGI (v : Z) (w : World) : World :=
  mkWorld (heap w) (req w) (wos w) v (libInitialized w) (webServerAddressList w).
Definition set_libInitialized (v : bool) (w : World) : World :=
  mkWorld (heap w) (req w) (wos w) (isFastCGI w) v (webServerAddressList w).
Definition set_webServerAddressList (v : option (list Z)) (w : World) : World :=
  mkWorld (heap w) (req w) (wos w) (isFastCGI w) (libInitialized w) v.

Definition get_req : M World FCGX_Request := gets req.
Definition upd_req (f : FCGX_Request -> FCGX_Request) : M World unit :=
  modify (fun w => set_req (f (req w)) w).
Definition with_os {A} (m : M OS A) : M World A := zoom wos set_wos m.

(** an operation on the stream at an address *)
Definition on_stream {A} (p : option positive) (m : M SState A) : M World A :=
  w <- get ;;
  a <- of_option p ;;
  st <- of_option (heap w !! a) ;;
  zoom (fun w => mkSState st (req w) (wos w))
       (fun s w => set_heap (<[a := stm s]> (heap w)) (set_req (rq s) (set_wos (os s) w))) m.

(** a new stream's address *)
Definition alloc_stream (st : FCGX_Stream) : M World positive :=
  w <- get ;;
  let a := fresh (dom (heap w)) in
  modify (set_heap (<[a := st]> (heap w))) ;;; ret a.
End State.

Section Operations.
Context `{Platform}.
Variable fuel : nat.

Definition FCGX_ShutdownPending : M World unit := with_os OS_ShutdownPending.

Definition StringCopy (str : list Z) : M OS (list Z) :=
  n <- of_option (strlen str) ;;
  _ <- Malloc (n + 1) ;;
  ret (take (Z.to_nat n) str ++ [0]).

(** [FCGX_FreeStream(&p)]: the pointer becomes null *)
Definition FCGX_FreeStream (p : option positive) : M World (option positive) :=
  match p with
  | None => ret None
  | Some a =>
      w <- get ;;
      _ <- of_option (heap w !! a) ;;
      modify (set_heap (delete a (heap w))) ;;; ret None
  end.

Definition FCGX_Free (close : bool) : M World unit :=
  r <- get_req ;;
  p <- FCGX_FreeStream (in_ r) ;; upd_req (set_in_ p) ;;;
  p <- FCGX_FreeStream (out r) ;; upd_req (set_out p) ;;;
  p <- FCGX_FreeStream (err r) ;; upd_req (set_err p) ;;;
  ps <- with_os (FreeParams (paramsPtr r)) ;; upd_req (set_paramsPtr ps) ;;;
  when close do
    (_ <- with_os (OS_IpcClose fuel (ipcFd r)) ;;
     upd_req (set_ipcFd (-1))).

(** [FCGX_FClose] of a pointer that may be null *)
Definition FClose_ptr (p : option positive) : M World Z :=
  match p with
  | None => ret 0
  | Some _ => on_stream p (FCGX_FClose fuel)
  end.

Definition FCGX_Finish_r : M World unit :=
  r <- get_req ;;
  let close := keepConnection r =? 0 in
  close <- (match in_ r with
            | None => ret close
            | Some _ =>
                e1 <- FClose_ptr (err r) ;;
                e2 <- FClose_ptr (out r) ;;
                e3 <- on_stream (in_ r) FCGX_GetError ;;
                ret (close || negb (e1 =? 0) || negb (e2 =? 0) || negb (e3 =? 0))
            end) ;;
  FCGX_Free close.

Definition FCGX_Finish : M World unit := FCGX_Finish_r.

(** the request after [memset] and the three assignments *)
Definition FCGX_InitRequest (sock fl : Z) : M World Z :=
  upd_req (fun _ => mkRequest 0 0 None None None EnvNull None (-1) false 0 0 0 fl sock) ;;;
  ret 0.

Definition FCGX_Init : M World Z :=
  w <- get ;;
  if libInitialized w then ret 0
  else
    _ <- FCGX_InitRequest FCGI_LISTENSOCK_FILENO 0 ;;
    rc <- with_os OS_LibInit ;;
    if rc =? -1 then
      o <- gets wos ;;
      ret (if errno o =? 0 then -9997 else errno o)
    else
      o <- gets wos ;;
      p <- (match sys_getenv (chars "FCGI_WEB_SERVER_ADDRS") (plat o) with
            | Some p => c <- with_os (StringCopy p) ;; ret (Some c)
            | None => ret None
            end) ;;
      modify (set_webServerAddressList p) ;;;
      modify (set_libInitialized true) ;;;
      ret 0.

Definition FCGX_IsCGI : M World bool :=
  w <- get ;;
  if negb (isFastCGI w =? -1) then ret (isFastCGI w =? 0)
  else
    (when negb (libInitialized w) do
       (rc <- FCGX_Init ;;
        when negb (rc =? 0) do fail (ProcessExit (if rc <? 0 then rc else - rc)))) ;;;
    b <- with_os (OS_IsFcgi FCGI_LISTENSOCK_FILENO) ;;
    modify (set_isFastCGI (if (b : bool) then 1 else 0)) ;;;
    ret (negb b).

(** the environment entry that tells the role *)
Definition role_string (role : Z) : option (list Z) :=
  if role =? FCGI_RESPONDER then Some (chars "FCGI_ROLE=RESPONDER")
  else if role =? FCGI_AUTHORIZER then Some (chars "FCGI_ROLE=AUTHORIZER")
  else if role =? FCGI_FILTER then Some (chars "FCGI_ROLE=FILTER")
  else None.

(** the connection, accepted when none is open; [Some] is a return *)
Definition accept_connection : M World (option Z) :=
  r <- get_req ;;
  if ipcFd r <? 0 then
    w <- get ;;
    fd <- with_os (OS_Accept fuel (listen_sock r)
            (negb (Z.land (flags r) FCGI_FAIL_ACCEPT_ON_INTR =? 0))
            (webServerAddressList w)) ;;
    upd_req (set_ipcFd fd) ;;;
    o <- gets wos ;;
    ret (if fd <? 0 then Some (if 0 <? errno o then 0 - errno o else -9999) else None)
  else ret None.

(** a new input stream reads up to the beginning of the request *)
Definition read_begin : M World positive :=
  upd_req (set_isBeginProcessed false) ;;;
  st <- with_os (NewReader 8192 0) ;;
  a <- alloc_stream st ;;
  upd_req (set_in_ (Some a)) ;;;
  on_stream (Some a) (FillBuffProc fuel) ;;;
  ret a.

(** the environment: the role, then the parameters *)
Definition read_environment (a : positive) (roleStr : list Z) : M World bool :=
  p <- with_os (NewParams 30) ;;
  upd_req (set_paramsPtr (Some p)) ;;;
  str <- with_os (StringCopy (roleStr ++ [0])) ;;
  p <- with_os (PutParam p str) ;;
  upd_req (set_paramsPtr (Some p)) ;;;
  on_stream (Some a) (SetReaderType FCGI_PARAMS) ;;;
  res <- on_stream (Some a) (ReadParams fuel (FillBuffProc fuel) p) ;;
  upd_req (set_paramsPtr (Some (snd res))) ;;;
  ret (0 <=? fst res).

(** [true] when the request's beginning and environment are complete *)
Definition read_request : M World bool :=
  a <- read_begin ;;
  r <- get_req ;;
  if negb (isBeginProcessed r) then ret false
  else
    match role_string (role r) with
    | None => ret false
    | Some roleStr => read_environment a roleStr
    end.

(** the streams of the request that was read *)
Definition open_streams : M World (unit + Z) :=
  r <- get_req ;;
  on_stream (in_ r) (SetReaderType FCGI_STDIN) ;;;
  st <- with_os (NewWriter 8192 FCGI_STDOUT) ;;
  a <- alloc_stream st ;;
  upd_req (set_out (Some a)) ;;;
  st <- with_os (NewWriter 512 FCGI_STDERR) ;;
  a <- alloc_stream st ;;
  upd_req (set_err (Some a)) ;;;
  upd_req (set_nWriters 2) ;;;
  upd_req (set_envp EnvParams) ;;;
  ret (inr 0).

Definition Accept_body : M World (unit + Z) :=
  rc <- accept_connection ;;
  match rc with
  | Some e => ret (inr e)
  | None =>
      ok <- read_request ;;
      if (ok : bool) then open_streams else FCGX_Free true ;;; ret (inl tt)
  end.

Definition FCGX_Accept_r : M World Z :=
  w <- get ;;
  if negb (libInitialized w) then ret (-9998)
  else
    FCGX_Finish_r ;;;
    loop fuel (fun _ : unit => Accept_body) tt.

(** the code and the pointers stored in the caller's variables *)
Definition FCGX_Accept
    : M World (Z * option (option positive * option positive * option positive * env_ptr)) :=
  w <- get ;;
  rc <- (if libInitialized w then ret 0 else FCGX_Init) ;;
  if negb (rc =? 0) then ret (rc, None)
  else
    rc <- FCGX_Accept_r ;;
    r <- get_req ;;
    ret (rc, Some (in_ r, out r, err r, envp r)).

(** a writer with a request of its own, whose other fields are what [malloc]
    returned *)
Definition FCGX_CreateWriter (fd id bufflen streamType : Z) (garbage : FCGX_Request)
    : M OS (FCGX_Stream * FCGX_Request) :=
  _ <- Malloc 96 ;;
  let r := set_nWriters 2 (set_requestId id (set_ipcFd fd garbage)) in
  st <- NewWriter bufflen streamType ;;
  ret (st, r).
End Operations.

(** ** The listening socket *)

Section OpenSocket.
Context `{Sockets}.

(** listening on descriptor 0 makes a CGI program a FastCGI server *)
Definition FCGX_OpenSocket (path : list Z) (backlog : Z) : M World Z :=
  rc <- with_os (OS_CreateLocalIpcFd path backlog) ;;
  w <- get ;;
  (when (rc =? FCGI_LISTENSOCK_FILENO) && (isFastCGI w =? 0) do modify (set_isFastCGI 1)) ;;;
  ret rc.
End OpenSocket.

Section OpenSocketLaws.
Context `{SocketLaws}.

Lemma FCGX_OpenSocket_outcome path sa backlog w : path_names path sa ->
  match new_socket sa (plat (wos w)), FCGX_OpenSocket (c_str path) backlog w with
  | None, Ret fd w' => fd = -1 /\ w' = set_wos (wos w') w
  | Some s, Ret fd w' => fd = s /\ listens_at sa backlog s (wos w') /\
      w' = set_isFastCGI (if (s =? 0) && (isFastCGI w =? 0) then 1 else isFastCGI w)
             (set_wos (wos w') w)
  | Some s, Fault (ProcessExit code) => open_failure s sa backlog code
  | _, _ => False
  end.
Proof.
  intros Hp. pose proof (OS_CreateLocalIpcFd_outcome path sa backlog (wos w) Hp) as Ho.
  unfold FCGX_OpenSocket, with_os, zoom, bind, get, listen_outcome in *.
  destruct (OS_CreateLocalIpcFd _ _ _) as [fd o'|f], (new_socket _ _) as [s|]; try done;
    destruct w as [h r o i l a]; cbn in *; unfold FCGI_LISTENSOCK_FILENO.
  - destruct Ho as [-> Ho]. by destruct ((s =? 0) && (i =? 0)) eqn:E.
  - subst fd. done.
Qed.
End OpenSocketLaws.
