(* ===== verification/Accept.v ===== *)
(** * Accepting a request

    What [FCGX_Accept_r] makes of the input of an open connection, whatever it
    is: [request_of] says which request the bytes carry, with which role, flags
    and environment, or that they carry none.  [Accept_body] agrees with it: it
    returns the request with its environment, an input stream positioned after
    the parameters and two fresh output streams, or closes the connection.  A
    well-formed input, [request_wire], is the case that web servers send. *)

From Stdlib Require Import String.
From S2P Require Import Prelude CString Protocol Platform Dispatch OsUnix Params Stream Writer.
From S2P Require Import Reader Source NameValue Demux Begin Request.
#[local] Open Scope Z_scope.

(** ** The request an input carries *)

Inductive request_read :=
  | NoRequest
  | RequestRead (id role flags : Z) (ps : list (list Z * list Z)) (how : ending)
  | PairOverflow.

(** the parameter stream of request [id] *)
Definition parameters (id : Z) (tail : list Z) : delivery :=
  run FCGI_PARAMS id true false at_record tail.

(** the request in [v], after a request [stale]; a broken parameter stream is
    accepted when it breaks between two pairs *)
Definition request_of (stale : Z) (v : list Z) : request_read :=
  match request_head stale v with
  | None => NoRequest
  | Some (id, role, flags, tail) =>
      match role_string role with
      | None => NoRequest
      | Some _ =>
          let d := parameters id tail in
          match parse_pairs (dl_content d) with
          | (ps, Complete) => RequestRead id role flags ps (dl_ending d)
          | (_, Truncated) => NoRequest
          | (_, TooLong) => PairOverflow
          end
      end
  end.

(** what is sent back meanwhile *)
Definition head_replies (stale : Z) (v : list Z) : list Z :=
  dl_replies (run 0 stale false false at_record v).
Definition replies_of (stale : Z) (v : list Z) : list Z :=
  head_replies stale v ++
  match request_head stale v with
  | Some (id, role, _, tail) =>
      if role_string role is Some _ then dl_replies (parameters id tail) else []
  | None => []
  end.

(** [v] asks for no variables *)
Definition no_values (stale : Z) (v : list Z) : Prop :=
  no_values_head stale v /\
  match request_head stale v with
  | Some (id, _, _, tail) => ends_plainly (dl_ending (parameters id tail))
  | None => True
  end.

(** the parameter vector is large enough for the pairs of [v] *)
Definition few_pairs (stale : Z) (v : list Z) : Prop :=
  match request_head stale v with
  | Some (id, _, _, tail) =>
      Z.of_nat (length (fst (parse_pairs (dl_content (parameters id tail))))) < 536870910
  | None => True
  end.

Lemma few_pairs_short stale v : bytes v -> len v < 1073741820 -> few_pairs stale v.
Proof.
  intros Hb Hl. unfold few_pairs.
  destruct (request_head stale v) as [[[[id role] flags] tail]|] eqn:E; [|done].
  apply request_head_rest in E. pose proof (suffix_len _ _ E).
  pose proof (run_content_len FCGI_PARAMS id true false tail at_record).
  pose proof (parse_pairs_count _ (run_bytes FCGI_PARAMS id true false tail at_record
    (suffix_bytes _ _ E Hb))). unfold parameters. lia.
Qed.

Lemma role_string_ok role str :
  role_string role = Some str -> no_nul str /\ len str <= INT_MAX.
Proof.
  assert (forall l, forallb (fun c => negb (c =? 0)) l = true -> no_nul l) as Hn.
  { intros l Hl. apply List.Forall_forall. intros c Hc.
    rewrite List.forallb_forall in Hl. specialize (Hl c Hc). lia. }
  unfold role_string. repeat case_match; intros [= <-]; (split; [by apply Hn|by vm_compute]).
Qed.

(** the role as an entry of the environment *)
Definition role_name (role : Z) : list Z :=
  if role =? FCGI_RESPONDER then chars "RESPONDER"
  else if role =? FCGI_AUTHORIZER then chars "AUTHORIZER" else chars "FILTER".

Lemma role_string_pair role str : role_string role = Some str ->
  str ++ [0] = param_string (chars "FCGI_ROLE", role_name role) /\
  pair_ok (chars "FCGI_ROLE", role_name role).
Proof.
  assert (forall l, forallb (fun c => negb (c =? 0)) l = true -> no_nul l) as Hn.
  { intros l Hl. apply List.Forall_forall. intros c Hc.
    rewrite List.forallb_forall in Hl. specialize (Hl c Hc). lia. }
  unfold role_string, role_name.
  repeat case_match; intros [= <-]; (split; [done|]); (split; [|split]); cbn [fst snd];
    try (by apply Hn); by repeat constructor.
Qed.

Section Accept.
Context `{Reliable}.
Implicit Types (s : SState) (w : World).

(** ** Operations on a stream of the heap *)

Definition sstate w (st : FCGX_Stream) : SState := mkSState st (req w) (wos w).
Definition put_stream (a : positive) s w : World :=
  set_heap (<[a := stm s]> (heap w)) (set_req (rq s) (set_wos (os s) w)).

Lemma on_stream_outcome {A} (P : outcome World A -> Prop) a st (m : M SState A) w :
  heap w !! a = Some st ->
  P (match m (sstate w st) with Ret x s => Ret x (put_stream a s w) | Fault f => Fault f end) ->
  P (on_stream (Some a) m w).
Proof. intros Ha HP. unfold on_stream, bind, get. cbn. by rewrite Ha. Qed.

Lemma wp_on_stream {A} a st (m : M SState A) (Q : A -> World -> Prop) w :
  heap w !! a = Some st -> wp m (fun x s => Q x (put_stream a s w)) (sstate w st) ->
  wp (on_stream (Some a) m) Q w.
Proof.
  intros Ha Hm. unfold wp. apply (on_stream_outcome (fun o => match o with
    Ret x w' => Q x w' | Fault _ => False end) a st); [done|].
  unfold wp in Hm. by destruct (m _).
Qed.

Lemma wp_alloc_stream st (Q : positive -> World -> Prop) w :
  (forall a, heap w !! a = None -> Q a (set_heap (<[a := st]> (heap w)) w)) ->
  wp (alloc_stream st) Q w.
Proof.
  intros HQ. unfold alloc_stream. wp_steps. apply HQ.
  apply not_elem_of_dom, is_fresh.
Qed.

(** [with_os] of something that neither reads nor writes the connection *)
Lemma wp_with_os {A} (m : M OS A) (Q : A -> World -> Prop) w :
  wp m (fun a o => Q a (set_wos o w)) (wos w) -> wp (with_os m) Q w.
Proof. intros Hm. unfold with_os. by apply wp_zoom. Qed.

(** ** Readers and writers *)

(** a reader whose stream may have ended, with [v] on its connection *)
Record idle_reader (v : list Z) s : Prop := {
  ir_win : window_ok s;
  ir_reader : isReader (stm s) = true;
  ir_proc : fillBuffProc (stm s) = FillBuffProc_ptr;
  ir_fclose : wasFCloseCalled (stm s) = false;
  ir_view : rview s = v
}.

Lemma idle_reader_quiet v s r o :
  idle_reader v s -> os_quiet (os s) o -> ipcFd r = ipcFd (rq s) ->
  idle_reader v (mkSState (stm s) r o).
Proof.
  intros [[] Hrd Hpr Hfc Hv] (Hs & Hi & _) Hfd. split; try done.
  - split; try done. unfold os_static, os_vars in Hs. cbn. cbn in *. congruence.
  - rewrite <- Hv. unfold rview. cbn. by rewrite Hfd, Hi.
Qed.

(** [SetReaderType] turns a reader to another stream *)
Lemma wp_SetReaderType t v s :
  idle_reader v s ->
  wp (SetReaderType t) (fun _ s' => reader_at t v s' /\ rq s' = rq s /\ os s' = os s /\
    FCGI_errno (stm s') = FCGI_errno (stm s)) s.
Proof.
  intros [Hwin Hrd Hpr Hfc Hv]. unfold SetReaderType. sstep.
  apply wp_assert; [done|]. sstep. split; [|done]. destruct Hwin. by split.
Qed.

(** a new reader has seen nothing of the connection *)
Lemma wp_NewReader_at n t o :
  shutdownNow o = false ->
  wp (NewReader n t) (fun st o' => os_quiet o o' /\ FCGI_errno st = 0 /\
    forall r, reader_at t (os_in (ipcFd r) o') (mkSState st r o')) o.
Proof.
  intros Hs. wp_use wp_NewStream.
  intros st o' (Hq & (Hl & _ & Hm & Hb) & Hrd & Hop & Hfc & Her & Hpr & _ & Hrn & Hst & _ &
                Hbs & Hty & Heor & Hsk & Hc & Hp & _).
  split; [done|]. split; [done|]. intros r.
  assert (shutdownNow o' = false) by (destruct Hq as [He _]; unfold os_static, os_vars in He; congruence).
  split; cbn; try done; try congruence.
  - split; cbn; try done; rewrite ?Hrn, ?Hbs; lia.
  - unfold rview. cbn. by rewrite Hrn, Hbs, slice_empty by lia.
Qed.

(** a new writer *)
Definition new_writer t (st : FCGX_Stream) : Prop :=
  writer_wf st /\ isClosed st = false /\ wasFCloseCalled st = false /\ FCGI_errno st = 0 /\
  rawWrite (data st) = false /\ isAnythingWritten (data st) = false /\
  type (data st) = t /\ pending st = [].

Lemma wp_NewWriter_ok n t o :
  is_byte t ->
  wp (NewWriter n t) (fun st o' => os_quiet o o' /\ new_writer t st) o.
Proof.
  intros Ht. wp_use wp_NewStream.
  intros st o' (Hq & (Hl & Hm8 & Hm & Hb) & Hrd & Hop & Hfc & Her & _ & Hpr & _ & Hst & Hwn &
                _ & Hty & _ & _ & _ & _ & Haw & Hraw).
  split; [done|]. split.
  - split; try done; [by rewrite Hwn, Hst; lia|by rewrite Hty|by rewrite Hwn].
  - split_and!; try done. unfold pending. rewrite Hwn. by apply slice_empty.
Qed.

Lemma wp_StringCopy str o : no_nul str -> len str <= INT_MAX ->
  wp (StringCopy (str ++ [0])) (fun r o' => r = str ++ [0] /\ os_quiet o o') o.
Proof.
  intros Hn Hl. unfold StringCopy, INT_MAX in *. wp_step.
  eapply wp_of_option; [by apply strlen_c_str|]. wp_step.
  wp_use wp_Malloc; [pose proof (len_nonneg str); lia|].
  intros _ o' [Hq _]. wp_step. split; [|done].
  unfold len. by rewrite Nat2Z.id, take_app_length.
Qed.


(** ** The beginning of the request *)

(** the request is begun: what its stream looks like *)
Definition begun_req w id role flags a : FCGX_Request :=
  begun id role flags (set_in_ (Some a) (set_isBeginProcessed false (req w))).

(** the first reader of [w]'s connection, at [a], has read up to the beginning of
    a request, if its input [v] has one *)
Definition head_read v w a s : Prop :=
  let fd := ipcFd (req w) in
  let stale := requestId (req w) in
  link fd (wos w) (os s) /\ len (os_in fd (os s)) <= len v /\
  match request_head stale v with
  | Some (id, role, flags, tail) =>
      rq s = begun_req w id role flags a /\ idle_reader tail s /\ FCGI_errno (stm s) = 0 /\
      os_out fd (os s) = os_out fd (wos w) ++ head_replies stale v
  | None =>
      (exists id, rq s = set_requestId id (set_in_ (Some a) (set_isBeginProcessed false (req w)))) /\
      os_out fd (os s) `prefix_of` os_out fd (wos w) ++ head_replies stale v
  end.

Lemma head_outcome_read v w a o s0 s :
  os_quiet (wos w) o -> rq s0 = set_in_ (Some a) (set_isBeginProcessed false (req w)) ->
  os s0 = o -> isReader (stm s0) = true -> fillBuffProc (stm s0) = FillBuffProc_ptr ->
  wasFCloseCalled (stm s0) = false -> FCGI_errno (stm s0) = 0 -> len (rview s) <= len v ->
  head_outcome v (os_out (ipcFd (req w)) o ++ head_replies (requestId (req w)) v) s0 s ->
  head_read v w a s.
Proof.
  intros Hq Hrq <- Hrd Hpr Hfc Her Hle. pose proof Hq as (_ & Hqi & Hqo).
  unfold head_outcome, head_read. rewrite Hrq, Hqo. cbn [requestId ipcFd set_in_ set_isBeginProcessed].
  destruct (request_head _ v) as [[[[id role] flags] tail]|].
  - intros [Hwin Hrq' Hl (Hrd' & Hpr' & Hfc' & Her') Hsent Hv]. rewrite Hrq in *.
    pose proof (rview_in s) as Hin. rewrite Hrq' in Hin. cbn in Hin, Hsent, Hl.
    split; [by transitivity (os s0); [apply quiet_link|]|]. split; [lia|].
    split; [done|]. split; [split; congruence|]. split; congruence.
  - intros [Hrq' Hl Hsent Hin]. rewrite Hrq in *. cbn in Hin, Hsent, Hl.
    split; [by transitivity (os s0); [apply quiet_link|]|]. split; [lia|]. split; [|done].
    destruct Hrq' as [->|[id ->]]; [|by exists id]. exists (requestId (req w)).
    by destruct (req w).
Qed.

Lemma wp_read_begin fuel v w (Q : positive -> World -> Prop) :
  os_in (ipcFd (req w)) (wos w) = v -> shutdownNow (wos w) = false ->
  no_values_head (requestId (req w)) v -> 2 * len v + 18 < Z.of_nat fuel ->
  (forall a s, heap w !! a = None -> head_read v w a s -> Q a (put_stream a s w)) ->
  wp (read_begin fuel) Q w.
Proof.
  intros Hin Hs Hno Hf HQ. unfold read_begin, upd_req.
  wp_steps. apply wp_with_os. wp_use wp_NewReader_at; [exact Hs|].
  intros st o (Hq & Her & Hat). wp_step. apply wp_alloc_stream. intros a Ha. wp_steps.
  eapply wp_on_stream; [cbn; by rewrite lookup_insert_eq|].
  set (s := sstate _ st).
  assert (reader_at 0 v s) as Hs0.
  { rewrite <- Hin. destruct Hq as (_ & Hqi & _). rewrite <- Hqi. exact (Hat (rq s)). }
  wp_use (wp_FillBuffProc_begin fuel v s); [by split|exact Hno|exact Hf|].
  intros _ s' [Hle Hhead]. wp_step.
  assert (head_read v w a s') as Hr.
  { destruct Hs0. by apply (head_outcome_read v w a o s). }
  specialize (HQ a s' Ha Hr). unfold put_stream in *. cbn. by rewrite insert_insert_eq.
Qed.

(** ** The environment *)

(** From [o], a parameter stream that delivers [d] was read to its end; [n] bounds
    what may be left. *)
Record params_read (o : OS) (n : Z) (d : delivery) s : Prop := {
  pr_link : link (ipcFd (rq s)) o (os s);
  pr_sent : os_out (ipcFd (rq s)) (os s) = os_out (ipcFd (rq s)) o ++ dl_replies d;
  pr_stream : exists v, idle_reader v s /\ len v <= n /\
    match dl_ending d with
    | EndOfStream rest => v = rest /\ FCGI_errno (stm s) = 0
    | Broken status => FCGI_errno (stm s) = status
    | _ => False
    end
}.

Lemma stream_end_read o n d s0 s :
  match dl_ending d with EndOfRecord _ => False | _ => True end ->
  os_quiet o (os s0) -> isReader (stm s0) = true ->
  fillBuffProc (stm s0) = FillBuffProc_ptr -> wasFCloseCalled (stm s0) = false ->
  FCGI_errno (stm s0) = 0 ->
  stream_end (os_out (ipcFd (rq s0)) (os s0) ++ dl_replies d) (dl_ending d) s0 s /\
    len (rview s) <= n -> params_read o n d s.
Proof.
  intros Hend Hq Hrd Hpr Hfc Her [[Hwin [Hrq Hl Hrd' Hpr' Hfc' _ _ _] _ Hsent Hhow] Hle].
  pose proof Hq as (_ & _ & Hqo). rewrite Hqo in Hsent. rewrite Her in Hhow.
  split; [rewrite Hrq; by transitivity (os s0); [apply quiet_link|]|by rewrite Hrq in *|].
  exists (rview s). split; [split; congruence|].
  split; [lia|]. destruct (dl_ending d); try done. tauto.
Qed.

Lemma params_read_request o n d s r : ipcFd r = ipcFd (rq s) -> params_read o n d s ->
  params_read o n d (mkSState (stm s) r (os s)).
Proof.
  intros Hfd [Hl Hs (v & [[] Hrd Hpr Hfc Hv] & Hn & He)]. split; cbn; rewrite ?Hfd; try done.
  exists v. split; [|done]. split; try done. rewrite <- Hv. unfold rview. cbn. by rewrite Hfd.
Qed.

Lemma params_read_in o n d s : params_read o n d s -> len (os_in (ipcFd (rq s)) (os s)) <= n.
Proof. intros [_ _ (v & [_ _ _ _ <-] & Hn & _)]. pose proof (rview_in s). lia. Qed.

(** where [read_environment] leaves the request and its stream *)
Definition with_params p a st o w : World :=
  put_stream a (mkSState st (set_paramsPtr (Some p) (req w)) o) w.

(** the start of the environment: the role, with the stream turned to the
    parameters *)
Lemma read_environment_start (P : outcome World bool -> Prop) fuel roleStr a st w tail :
  heap w !! a = Some st -> no_nul roleStr -> len roleStr <= INT_MAX ->
  idle_reader tail (sstate w st) ->
  (forall p s, vec_ok 30 p [roleStr ++ [0]] -> reader_at FCGI_PARAMS tail s ->
     rq s = set_paramsPtr (Some p) (req w) -> os_quiet (wos w) (os s) ->
     FCGI_errno (stm s) = FCGI_errno st ->
     P (bind (on_stream (Some a) (ReadParams fuel (FillBuffProc fuel) p)) (fun res =>
          upd_req (set_paramsPtr (Some (snd res))) ;;; ret (0 <=? fst res)) (put_stream a s w))) ->
  P (read_environment fuel a roleStr w).
Proof.
  intros Ha Hnn Hln Hidle HP. unfold read_environment, upd_req.
  apply bind_outcome, wp_with_os. wp_use wp_NewParams; [lia|].
  intros p0 o1 (Hp0 & Hl0 & Hq1). apply bind_outcome. wp_step.
  apply bind_outcome, wp_with_os. wp_use wp_StringCopy; [done|done|]. intros str o2 [-> Hq2].
  apply bind_outcome, wp_with_os.
  wp_use (wp_PutParam_vec 30 p0 []); [split; [done|lia]|lia|by vm_compute|].
  intros p o3 [Hvec Hq3]. apply bind_outcome. wp_step. apply bind_outcome.
  eapply wp_on_stream; [exact Ha|].
  assert (os_quiet (wos w) o3) as Hq by (by transitivity o1; [|transitivity o2]).
  set (w3 := set_req _ _).
  wp_use wp_SetReaderType;
    [exact (idle_reader_quiet _ _ (set_paramsPtr (Some p) (req w)) o3 Hidle Hq eq_refl)|].
  intros _ s4 (Hat & Hrq4 & Hos4 & Her4). specialize (HP p s4 Hvec Hat Hrq4).
  rewrite Hos4 in HP. exact (HP Hq Her4).
Qed.

(** storing the vector that was read *)
Lemma params_stored p r a s s' w : rq s' = set_paramsPtr (Some p) (req w) ->
  (upd_req (set_paramsPtr (Some (snd r))) ;;; ret (0 <=? fst r))
    (put_stream a s' (put_stream a s w)) =
  Ret (0 <=? fst r) (with_params (snd r) a (stm s') (os s') w).
Proof.
  intros Hrq. unfold upd_req, modify, bind, ret, with_params, put_stream. cbn.
  by rewrite insert_insert_eq, Hrq.
Qed.

Lemma read_environment_any (P : outcome World bool -> Prop) fuel roleStr a st w tail :
  let d := parameters (requestId (req w)) tail in
  heap w !! a = Some st -> isBeginProcessed (req w) = true ->
  no_nul roleStr -> len roleStr <= INT_MAX -> idle_reader tail (sstate w st) ->
  FCGI_errno st = 0 -> ends_plainly (dl_ending d) -> 2 * len tail + 18 < Z.of_nat fuel ->
  Z.of_nat (length (fst (parse_pairs (dl_content d)))) < 536870910 ->
  let ended p l st' o := params_repr p l /\ params_read (wos w) (len tail) d (mkSState st' (req w) o) in
  match parse_pairs (dl_content d) with
  | (ps, Complete) => forall p st' o,
      ended p ((roleStr ++ [0]) :: map param_string ps) st' o ->
      P (Ret true (with_params p a st' o w))
  | (_, Truncated) => forall p l st' st0 o, ended p l st0 o ->
      P (Ret false (with_params p a st' o w))
  | (_, TooLong) => P (Fault UndefinedBehaviour)
  end ->
  P (read_environment fuel a roleStr w).
Proof.
  intros d Ha Hbg Hnn Hln Hidle Her Hpl Hf Hcount ended HP.
  apply (read_environment_start P fuel roleStr a st w tail); [done..|].
  intros p s Hvec Hat Hrq Hq Her'. pose proof (len_nonneg tail).
  assert (bytes (dl_content d)) as Hb.
  { apply run_bytes. rewrite <- (ra_view _ _ _ Hat). apply rview_bytes, Hat. }
  assert (delivered FCGI_PARAMS tail s = d) as Hd.
  { unfold delivered. rewrite Hrq. cbn. by rewrite Hbg. }
  destruct (delivers_Source fuel FCGI_PARAMS tail (dl_content d) s) as (I & Hsrc & HI & _);
    [split; [done|by rewrite Hd]|unfold asks_nothing; by rewrite Hd|lia|lia|].
  assert (forall s', all_delivered FCGI_PARAMS tail s s' -> rq s' = rq s /\
    params_read (wos w) (len tail) d (mkSState (stm s') (req w) (os s'))) as Hend.
  { intros s' HE. unfold all_delivered in HE. rewrite Hd in HE.
    pose proof HE as [[_ Hfr _ _ _] _]. pose proof (rf_rq _ _ Hfr) as Hrq'.
    split; [done|]. apply params_read_request; [by rewrite Hrq', Hrq|]. destruct Hat.
    apply (stream_end_read _ _ d s); try done; [|congruence].
    pose proof (run_begun FCGI_PARAMS (requestId (req w)) tail at_record) as Hx.
    unfold d, parameters. by destruct (dl_ending _). }
  set (k := fun res => _).
  set (G := fun o : outcome World (Z * Params) =>
    P match o with Ret x w' => k x w' | Fault f => Fault f end).
  change (G (on_stream (Some a) (ReadParams fuel (FillBuffProc fuel) p) (put_stream a s w))).
  apply (on_stream_outcome G a (stm s)); [cbn; by rewrite lookup_insert_eq|].
  replace (sstate (put_stream a s w) (stm s)) with s by (by destruct s).
  apply (ReadParams_any fuel (FillBuffProc fuel) I _ (fun o => G match o with
    Ret x s' => Ret x (put_stream a s' (put_stream a s w)) | Fault f => Fault f end) 30 p
    [roleStr ++ [0]] (dl_content d)); try done.
  { pose proof (run_content_len FCGI_PARAMS (requestId (req w)) true false tail at_record).
    unfold d, parameters in *. lia. }
  { cbn [length]. lia. }
  assert (forall r s', rq s' = rq s -> G (Ret r (put_stream a s' (put_stream a s w))) =
    P (Ret (0 <=? fst r) (with_params (snd r) a (stm s') (os s') w))) as HG.
  { intros r s' Hr. unfold G. f_equal. apply (params_stored p). by rewrite Hr, Hrq. }
  unfold parsed_ok. destruct (parse_pairs (dl_content d)) as [ps []]; cbn [fst snd].
  - intros p' s' [Hp' _] HE. destruct (Hend s' HE) as [Hr Hpr]. rewrite HG by done.
    by apply HP.
  - intros p' s' [Hp' _] HE. destruct (Hend s' HE) as [Hr Hpr]. rewrite HG by done.
    by eapply HP.
  - exact HP.
Qed.

(** ** The request *)

(** No request was read: the request's streams and parameters are still to be
    freed. *)
Record read_failed (v : list Z) w (a : positive) (r : FCGX_Request) (o : OS) : Prop := {
  fl_new : heap w !! a = None;
  fl_os : link (ipcFd (req w)) (wos w) o;
  fl_sent : os_out (ipcFd (req w)) o `prefix_of`
            os_out (ipcFd (req w)) (wos w) ++ replies_of (requestId (req w)) v;
  fl_rest : len (os_in (ipcFd (req w)) o) <= len v;
  fl_streams : in_ r = Some a /\ out r = out (req w) /\ err r = err (req w);
  fl_params : paramsPtr r = paramsPtr (req w) \/
              exists p l, paramsPtr r = Some p /\ params_repr p l;
  fl_request : ipcFd r = ipcFd (req w) /\ listen_sock r = listen_sock (req w) /\
               flags r = flags (req w) /\ appStatus r = appStatus (req w)
}.

(** The request was read: its stream, [st], has gone past the parameters, which
    ended as [how] says. *)
Record read_done v w id role flags ps how a p st o : Prop := {
  rd_new : heap w !! a = None;
  rd_env : exists roleStr, role_string role = Some roleStr /\
           params_repr p ((roleStr ++ [0]) :: map param_string ps);
  rd_stream : params_read (wos w) (len v) (mkDelivery [] (replies_of (requestId (req w)) v) how)
                (mkSState st (set_paramsPtr (Some p) (begun_req w id role flags a)) o)
}.

Lemma no_request_read v w a s : heap w !! a = None -> head_read v w a s ->
  match request_head (requestId (req w)) v with
  | None => True
  | Some (_, role, _, _) => role_string role = None
  end -> read_failed v w a (rq s) (os s).
Proof.
  intros Ha (Hl & Hle & Hh) Hr. unfold replies_of in *.
  destruct (request_head _ v) as [[[[id role] flags] tail]|] eqn:Eh.
  - destruct Hh as (Hrq & Hidle & Her & Ho). rewrite Hrq.
    split; try done; [|by left]. unfold replies_of. rewrite Eh, Hr, app_nil_r. by rewrite Ho.
  - destruct Hh as ((id & Hrq) & Ho). rewrite Hrq.
    split; try done; [|by left]. unfold replies_of. by rewrite Eh, app_nil_r.
Qed.

(** both phases sent what they had to *)
Lemma params_read_on o o' bs n m d r s :
  link (ipcFd (rq s)) o o' -> os_out (ipcFd (rq s)) o' = os_out (ipcFd (rq s)) o ++ bs ->
  dl_replies r = bs ++ dl_replies d -> dl_ending r = dl_ending d -> n <= m ->
  params_read o' n d s -> params_read o m r s.
Proof.
  intros Hl Ho Hr He Hn [Hl' Hs (v & Hi & Hv & Hh)].
  split; [by transitivity o'|by rewrite Hs, Ho, Hr, app_assoc|].
  exists v. rewrite He. split; [done|]. split; [lia|done].
Qed.

Lemma read_request_any (P : outcome World bool -> Prop) fuel v w :
  let stale := requestId (req w) in
  os_in (ipcFd (req w)) (wos w) = v -> shutdownNow (wos w) = false ->
  no_values stale v -> few_pairs stale v -> 2 * len v + 18 < Z.of_nat fuel ->
  match request_of stale v with
  | RequestRead id role flags ps how => forall a p st o,
      read_done v w id role flags ps how a p st o ->
      P (Ret true (put_stream a
           (mkSState st (set_paramsPtr (Some p) (begun_req w id role flags a)) o) w))
  | NoRequest => forall a st r o, read_failed v w a r o ->
      P (Ret false (put_stream a (mkSState st r o) w))
  | PairOverflow => P (Fault UndefinedBehaviour)
  end ->
  P (read_request fuel w).
Proof.
  intros stale Hin Hs [Hno Hpl] Hfew Hf HP. unfold read_request.
  apply bind_outcome, (wp_read_begin fuel v); [done..|].
  intros a s Ha Hread. pose proof Hread as (Hl & Hle & Hh).
  pose proof (no_request_read v w a s Ha Hread) as Hfail.
  apply bind_outcome, wp_gets. change (req (put_stream a s w)) with (rq s).
  unfold request_of, few_pairs in *. fold stale in Hh, Hfail.
  destruct (request_head stale v) as [[[[id role] flags] tail]|] eqn:Ehead.
  2: { destruct Hh as ((id & Hrq) & _). rewrite Hrq. destruct s. by apply HP, Hfail. }
  destruct Hh as (Hrq & Hidle & Her & Hsent). rewrite Hrq.
  change (isBeginProcessed _) with true. change (Stream.role _) with role. cbn [negb].
  destruct (role_string role) as [roleStr|] eqn:Erole.
  2: { destruct s. by apply HP, Hfail. }
  pose proof (suffix_len _ _ (request_head_rest _ _ _ _ _ _ Ehead)) as Htl.
  set (w1 := put_stream a s w).
  assert (sstate w1 (stm s) = s) as Hw1 by (by destruct s).
  assert (forall p st o, with_params p a st o w1 = put_stream a
    (mkSState st (set_paramsPtr (Some p) (begun_req w id role flags a)) o) w) as Hend.
  { intros p st o. unfold with_params, put_stream. cbn. by rewrite insert_insert_eq, Hrq. }
  assert (replies_of stale v = head_replies stale v ++ dl_replies (parameters id tail)) as Hrep.
  { unfold replies_of. by rewrite Ehead, Erole. }
  assert (requestId (req w1) = id) as Hid by (cbn; by rewrite Hrq).
  destruct (role_string_ok _ _ Erole) as [Hnn Hln].
  apply (read_environment_any P fuel roleStr a (stm s) w1 tail); try done.
  { cbn. by rewrite lookup_insert_eq. } { cbn. by rewrite Hrq. } { by rewrite Hw1. }
  { by rewrite Hid. } { lia. } { by rewrite Hid. }
  rewrite Hid. cbv zeta in HP.
  assert (forall p st o how, dl_ending (parameters id tail) = how ->
    params_read (wos w1) (len tail) (parameters id tail) (mkSState st (req w1) o) ->
    params_read (wos w) (len v) (mkDelivery [] (replies_of stale v) how)
      (mkSState st (set_paramsPtr (Some p) (begun_req w id role flags a)) o)) as Hread'.
  { intros p st o how <- Hpr. apply (params_read_request _ _ _ (mkSState st (req w1) o)).
    { cbn. by rewrite Hrq. }
    eapply params_read_on; [| |exact Hrep|done|exact Htl|exact Hpr]; cbn; rewrite Hrq; done. }
  destruct (parse_pairs (dl_content (parameters id tail))) as [ps []]; [| |exact HP].
  - intros p st o [Hp Hpr]. rewrite Hend. apply HP. split; [done|by exists roleStr|].
    by apply Hread'.
  - intros p l st st0 o [Hp Hpr]. rewrite Hend. apply HP.
    pose proof (Hread' p st0 o _ eq_refl Hpr) as Hr. pose proof (params_read_in _ _ _ _ Hr) as Hin'.
    destruct Hr as [Hl' Hs' _]. cbn in Hl', Hs', Hin'.
    split; try done; [by rewrite Hs'|right; by exists p, l].
Qed.

(** ** What an operation on a request leaves alone *)

(** the connection [fd] was used, and then closed *)
Definition hung_up fd o o' : Prop :=
  exists o1, link fd o o1 /\ out_kept fd o1 o' /\ fd ∉ opened (os_files o').

Lemma hung_up_vars fd o o' : hung_up fd o o' -> os_vars o' = os_vars o /\
  os_files o' = forget fd (os_files o) /\
  (forall fd', fd' <> fd -> os_in fd' o' = os_in fd' o /\ os_out fd' o' = os_out fd' o).
Proof.
  intros (o1 & (Hs & Hoth & _) & ((Hv & Hf) & Ho & Hi) & Hgone).
  pose proof (f_equal fst Hs) as Hs1. pose proof (f_equal snd Hs) as Hs2. cbn [fst snd os_static] in Hs1, Hs2.
  split; [congruence|]. split.
  - rewrite <- Hs2. destruct Hf as [Hf | Hf]; [|done]. rewrite Hf in *. unfold forget.
    destruct (os_files o1) as [X W]. cbn in *. f_equal. symmetry.
    apply difference_disjoint_L. intros x Hx Hy%elem_of_singleton. by subst.
  - intros fd' Hne. rewrite Ho, Hi by done. by apply Hoth.
Qed.

(** the streams of a request *)
Definition owns (r : FCGX_Request) (a : positive) : Prop :=
  in_ r = Some a \/ out r = Some a \/ err r = Some a.

(** the library's static variables *)
Definition lib_kept w w' : Prop :=
  isFastCGI w' = isFastCGI w /\ libInitialized w' = libInitialized w /\
  webServerAddressList w' = webServerAddressList w.

(** the connections other than [fd], and the variables of [os_unix.c] *)
Definition others_kept fd o o' : Prop :=
  os_vars o' = os_vars o /\
  forall fd', fd' <> fd -> os_in fd' o' = os_in fd' o /\ os_out fd' o' = os_out fd' o.

(** Only the request's own streams, new ones and its connection [fd] were used. *)
Record elsewhere fd w w' : Prop := {
  ew_heap : forall a st, heap w !! a = Some st -> ~ owns (req w) a -> heap w' !! a = Some st;
  ew_owns : forall a, owns (req w') a -> owns (req w) a \/ heap w !! a = None;
  ew_lib : lib_kept w w';
  ew_os : others_kept fd (wos w) (wos w')
}.

#[export] Instance others_kept_preorder fd : PreOrder (others_kept fd).
Proof.
  split; [done|]. intros o1 o2 o3 [Ha Hb] [Ha' Hb']. split; [congruence|].
  intros fd' Hne. destruct (Hb fd' Hne), (Hb' fd' Hne). split; congruence.
Qed.

Lemma elsewhere_trans fd w1 w2 w3 :
  elsewhere fd w1 w2 -> elsewhere fd w2 w3 -> elsewhere fd w1 w3.
Proof.
  intros [Hh Ho (Hf & Hi & Hw) Hos] [Hh' Ho' (Hf' & Hi' & Hw') Hos']. split.
  - intros a st Ha Hn. assert (heap w2 !! a = Some st) as Ha2 by (by apply Hh).
    apply Hh'; [done|]. intros [?|E]%Ho; [done|congruence].
  - intros a [Ha|Ha]%Ho'; [by apply Ho|]. destruct (heap w1 !! a) as [st|] eqn:E; [|by right].
    left. destruct (decide (in_ (req w1) = Some a)); [by left|].
    destruct (decide (out (req w1) = Some a)); [by right; left|].
    destruct (decide (err (req w1) = Some a)); [by right; right|].
    rewrite (Hh a st E) in Ha; [done|]. by intros [?|[?|?]].
  - split_and!; congruence.
  - by transitivity (wos w2).
Qed.

Lemma hung_up_others fd o o' : hung_up fd o o' -> others_kept fd o o'.
Proof. intros (Hv & _ & Hoth)%hung_up_vars. by split. Qed.

(** ** Giving the connection up *)

(** the request has no streams and no parameters *)
Definition vacant (r : FCGX_Request) : Prop :=
  in_ r = None /\ out r = None /\ err r = None /\ paramsPtr r = None.

(** a connection with input [v] was closed, and the request freed *)
Record dropped (v : list Z) w w' : Prop := {
  dp_heap : heap w' = heap w;
  dp_vacant : vacant (req w') /\ ipcFd (req w') = -1;
  dp_request : listen_sock (req w') = listen_sock (req w) /\ flags (req w') = flags (req w) /\
               appStatus (req w') = appStatus (req w);
  dp_lib : lib_kept w w';
  dp_os : hung_up (ipcFd (req w)) (wos w) (wos w');
  dp_sent : os_out (ipcFd (req w)) (wos w') `prefix_of`
            os_out (ipcFd (req w)) (wos w) ++ replies_of (requestId (req w)) v
}.

Lemma wp_FreeStream a st (Q : option positive -> World -> Prop) w :
  heap w !! a = Some st -> Q None (set_heap (delete a (heap w)) w) ->
  wp (FCGX_FreeStream (Some a)) Q w.
Proof.
  intros Ha HQ. unfold FCGX_FreeStream. wp_steps.
  eapply wp_of_option; [exact Ha|]. by wp_steps.
Qed.

Lemma wp_FreeParams_any ps o (Q : option Params -> OS -> Prop) :
  ps = None \/ (exists p l, ps = Some p /\ params_repr p l) -> Q None o ->
  wp (FreeParams ps) Q o.
Proof.
  intros [->|(p & l & -> & Hp)] HQ; [by unfold FreeParams; wp_steps|].
  wp_use wp_FreeParams; [exact Hp|]. by intros r o' [-> ->].
Qed.

Lemma wp_Free_failed fuel v w a st r o :
  read_failed v w a r o -> vacant (req w) -> fd_ok (ipcFd (req w)) = true ->
  asyncIoInUse (aio (wos w)) = false -> len v + 1 < Z.of_nat fuel ->
  wp (FCGX_Free fuel true) (fun _ w' => dropped v w w') (put_stream a (mkSState st r o) w).
Proof.
  intros [Ha Hl Hsent Hrest (Hin & Hout & Herr) Hps (Hfd & Hsock & Hflags & Hst)]
    (_ & Ho & He & Hp) Hok Has Hf.
  rewrite Ho in Hout. rewrite He in Herr. rewrite Hp in Hps.
  unfold FCGX_Free, get_req, upd_req. wp_steps. cbn. rewrite Hin.
  eapply wp_FreeStream; [cbn; by rewrite lookup_insert_eq|]. wp_steps. cbn.
  rewrite Hout, Herr. unfold FCGX_FreeStream. wp_steps. apply wp_with_os.
  apply wp_FreeParams_any; [exact Hps|]. wp_steps. apply wp_with_os. unfold OS_IpcClose. cbn.
  rewrite Hfd. wp_use wp_OS_Close; [done| |lia|].
  { destruct Hl as [Hs _]. unfold os_static, os_vars in Hs. congruence. }
  intros rc o2 [Hk Hgone]. wp_steps. split; cbn; try done.
  - by rewrite delete_insert_eq, delete_id.
  - exists o. split; [done|]. split; [done|]. by intros ?%Hgone%no_fail.
  - destruct Hk as (_ & -> & _). exact Hsent.
Qed.

(** ** The accepted request *)

(** a fresh output stream at address [p] *)
Definition writer_at w (p : option positive) t (a : positive) : Prop :=
  p = Some a /\ exists st, heap w !! a = Some st /\ new_writer t st.

(** what [FCGX_Accept_r] promises when it returns 0: the request as sent, its
    environment, an input stream after the parameters, fresh output streams; [how]
    the parameters ended, and the [replies] that were sent meanwhile *)
Record accepted_with w0 id role flags ps how replies w : Prop := {
  ac_req : requestId (req w) = id /\ Stream.role (req w) = role /\
           keepConnection (req w) = Z.land flags FCGI_KEEP_CONN /\
           ipcFd (req w) = ipcFd (req w0) /\ appStatus (req w) = appStatus (req w0) /\
           nWriters (req w) = 2 /\
           listen_sock (req w) = listen_sock (req w0) /\ Stream.flags (req w) = Stream.flags (req w0) /\
           isBeginProcessed (req w) = true;
  ac_env : exists p roleStr, paramsPtr (req w) = Some p /\ envp (req w) = EnvParams /\
           role_string role = Some roleStr /\
           params_repr p ((roleStr ++ [0]) :: map param_string ps);
  ac_in : exists a st v, in_ (req w) = Some a /\ heap w !! a = Some st /\
          reader_at FCGI_STDIN v (sstate w st) /\
          match how with
          | EndOfStream rest => v = rest /\ FCGI_errno st = 0
          | Broken status => FCGI_errno st = status
          | _ => False
          end;
  ac_out : exists a b, a <> b /\ in_ (req w) <> Some a /\ in_ (req w) <> Some b /\
           writer_at w (out (req w)) FCGI_STDOUT a /\ writer_at w (err (req w)) FCGI_STDERR b;
  ac_os : link (ipcFd (req w)) (wos w0) (wos w) /\
          os_out (ipcFd (req w)) (wos w) = os_out (ipcFd (req w)) (wos w0) ++ replies;
  ac_heap : heap w0 ⊆ heap w /\ (forall a, owns (req w) a -> heap w0 !! a = None) /\
            lib_kept w0 w
}.

(** the parameters were complete, and nothing was sent *)
Definition accepted w0 id role flags ps rest w : Prop :=
  accepted_with w0 id role flags ps (EndOfStream rest) [] w.

Lemma accepted_in_only w0 id role flags ps rest w :
  accepted w0 id role flags ps rest w -> in_only (ipcFd (req w)) (wos w0) (wos w).
Proof. intros [_ _ _ _ [Hl Ho]]. apply in_only_link. by rewrite app_nil_r in Ho. Qed.

Lemma accepted_reader w0 id role flags ps rest w :
  accepted w0 id role flags ps rest w -> exists a st, in_ (req w) = Some a /\
    heap w !! a = Some st /\ FCGI_errno st = 0 /\ reader_at FCGI_STDIN rest (sstate w st).
Proof. intros [_ _ (a & st & v & Ha & Hst & Hat & -> & He) _ _]. by exists a, st. Qed.

Lemma wp_open_streams v w id role flags ps how a p st o :
  read_done v w id role flags ps how a p st o ->
  wp open_streams (fun r w' => r = inr 0 /\
    accepted_with w id role flags ps how (replies_of (requestId (req w)) v) w')
    (put_stream a (mkSState st (set_paramsPtr (Some p) (begun_req w id role flags a)) o) w).
Proof.
  intros [Ha (roleStr & Hstr & Hp) [Hl Hs (u & Hidle & _ & Hhow)]]. cbn in Hl, Hs, Hhow.
  unfold open_streams, get_req, upd_req. wp_steps.
  eapply wp_on_stream; [cbn; by rewrite lookup_insert_eq|].
  wp_use wp_SetReaderType; [exact Hidle|].
  intros _ [st2 r2 o2] (Hat & Hrq & Hos & Her). cbn in Hrq, Hos, Her. subst r2 o2.
  wp_step. apply wp_with_os. cbn.
  wp_use wp_NewWriter_ok; [done|]. intros st_out o3 (Hq3 & Hout). wp_step.
  apply wp_alloc_stream. intros b Hb. wp_steps. apply wp_with_os.
  wp_use wp_NewWriter_ok; [done|]. intros st_err o4 (Hq4 & Herr). wp_step.
  apply wp_alloc_stream. intros c Hc. wp_steps. split; [done|].
  cbn in Hb, Hc. rewrite insert_insert_eq in Hb, Hc. rewrite lookup_insert_None in Hb.
  rewrite !lookup_insert_None in Hc. destruct Hb as [Hb Hab], Hc as ((Hc & Hac) & Hbc).
  assert (os_quiet o o4) as Hq by (by transitivity o3). split.
  - by split_and!.
  - exists p, roleStr. by split_and!.
  - exists a, st2, u. split; [done|]. cbn.
    rewrite !lookup_insert_ne, lookup_insert_eq by done. split; [done|].
    split; [by refine (reader_at_quiet _ _ (mkSState st2 _ o) _ o4 Hat Hq _)|].
    destruct how; try done; congruence.
  - exists b, c. cbn. split_and!; try done; [by intros [= ->]..| |].
    + split; [done|]. exists st_out. cbn. rewrite lookup_insert_ne, lookup_insert_eq by done. done.
    + split; [done|]. exists st_err. cbn. by rewrite lookup_insert_eq.
  - cbn. split; [transitivity o; [exact Hl|by apply quiet_link]|].
    destruct Hq as (_ & _ & ->). exact Hs.
  - cbn. split; [|split; [|done]].
    + rewrite insert_insert_eq.
      transitivity (<[a := st2]> (heap w)); [by apply insert_subseteq|].
      transitivity (<[b := st_out]> (<[a := st2]> (heap w))); apply insert_subseteq;
        rewrite ?lookup_insert_None; done.
    + intros x [Hx|[Hx|Hx]]; cbn in Hx; congruence.
Qed.

(** One turn of [FCGX_Accept_r] on an open connection agrees with [request_of]. *)
Lemma Accept_body_any (P : outcome World (unit + Z) -> Prop) fuel v w :
  let stale := requestId (req w) in
  os_in (ipcFd (req w)) (wos w) = v -> shutdownNow (wos w) = false -> 0 <= ipcFd (req w) ->
  no_values stale v -> few_pairs stale v -> 2 * len v + 18 < Z.of_nat fuel ->
  match request_of stale v with
  | RequestRead id role flags ps how => forall w',
      accepted_with w id role flags ps how (replies_of stale v) w' -> P (Ret (inr 0) w')
  | NoRequest =>
      (vacant (req w) /\ fd_ok (ipcFd (req w)) = true /\ asyncIoInUse (aio (wos w)) = false) /\
      forall w', dropped v w w' -> P (Ret (inl tt) w')
  | PairOverflow => P (Fault UndefinedBehaviour)
  end ->
  P (Accept_body fuel w).
Proof.
  intros stale Hin Hs Hfd Hno Hfew Hf HP. unfold Accept_body. apply bind_outcome.
  unfold accept_connection, get_req. wp_steps. replace (ipcFd (req w) <? 0) with false by lia.
  wp_steps.
  set (k := fun ok : bool => _).
  apply (read_request_any (fun o => P match o with Ret x w' => k x w' | Fault f => Fault f end)
    fuel v w Hin Hs Hno Hfew Hf). fold stale.
  destruct (request_of stale v) as [|id role flags ps how|]; [| |exact HP].
  - destruct HP as [(Hv & Hok & Has) HP]. intros a st r o Hfail. unfold k.
    apply bind_outcome. wp_use wp_Free_failed; [exact Hfail|done|done|done|lia|].
    intros _ w' Hd. by apply HP.
  - intros a p st o Hd. cbv beta iota.
    apply (wp_outcome P open_streams). wp_use wp_open_streams; [exact Hd|]. intros r w' [-> Hacc]. by apply HP.
Qed.

(** ** Well-formed input *)

(** what the server sends for a request, followed by [rest] *)
Definition request_wire id role flags (precs : list rec) (rest : list Z) : list Z :=
  encode_rec (begin_rec id role flags) ++
  encode_all precs ++ encode_rec (eof_rec FCGI_PARAMS id []) ++ rest.

Lemma request_wire_rest id role flags precs rest :
  len rest <= len (request_wire id role flags precs rest).
Proof.
  unfold request_wire. rewrite !len_app.
  pose proof (len_nonneg (encode_rec (begin_rec id role flags))). pose proof (len_nonneg (encode_all precs)).
  pose proof (len_nonneg (encode_rec (eof_rec FCGI_PARAMS id []))). lia.
Qed.

Record request_ok_wire id role flags precs ps : Prop := {
  rw_id : 0 < id < 65536;
  rw_role : role_string role <> None;
  rw_flags : is_byte flags;
  rw_recs : Forall (input_rec FCGI_PARAMS id) precs;
  rw_pairs : pairs_wire ps (content_of FCGI_PARAMS id precs);
  rw_count : Z.of_nat (length ps) < 536870910
}.

Lemma run_begin stale id role flags tail :
  0 < id ->
  run 0 stale false false at_record (encode_rec (begin_rec id role flags) ++ tail) =
  ending_only (BeginBody id 0 false (begin_content role flags ++ tail)).
Proof.
  intros Hid. unfold encode_rec. rewrite <- !app_assoc, run_rec_header. unfold interpret_header.
  destruct (rec_decoded_ok (begin_rec id role flags)) as (_ & -> & ->).
  change (r_id (begin_rec id role flags)) with id. cbn [h_version h_type rec_decoded begin_rec r_type].
  rewrite !Z.eqb_refl. cbn [negb]. replace (id =? 0) with false by lia. done.
Qed.

Lemma request_head_wire stale id role flags tail :
  0 < id ->
  request_head stale (encode_rec (begin_rec id role flags) ++ tail) = Some (id, role, flags, tail).
Proof.
  intros Hid. unfold request_head. rewrite run_begin by done. cbn. by rewrite byte_join.
Qed.

Section Wire.
Variables (stale id role flags : Z) (precs : list rec) (ps : list (list Z * list Z)).
Hypothesis ok : request_ok_wire id role flags precs ps.
Let content := content_of FCGI_PARAMS id precs.

(** the parameters' records, with and without the empty one *)
Lemma parameters_wire rest :
  parameters id (encode_all precs ++ encode_rec (eof_rec FCGI_PARAMS id []) ++ rest) =
  mkDelivery content [] (EndOfStream rest).
Proof.
  destruct ok as [Hid _ _ Hrecs _ _]. unfold parameters.
  by rewrite run_records by (done || unfold FCGI_NULL_REQUEST_ID; lia).
Qed.

Lemma parameters_cut :
  parameters id (encode_all precs) = mkDelivery content [] (Broken FCGX_PROTOCOL_ERROR).
Proof.
  destruct ok as [Hid _ _ Hrecs _ _]. unfold parameters. rewrite <- (app_nil_r (encode_all precs)).
  rewrite run_inputs by (done || unfold FCGI_NULL_REQUEST_ID; lia). unfold deliver. cbn.
  by rewrite app_nil_r.
Qed.

(** an input that delivers them carries the request *)
Lemma request_of_params tail how :
  let v := encode_rec (begin_rec id role flags) ++ tail in
  bytes v -> parameters id tail = mkDelivery content [] how -> ends_plainly how ->
  request_of stale v = RequestRead id role flags ps how /\
  replies_of stale v = [] /\ no_values stale v /\ few_pairs stale v.
Proof.
  intros v Hb Hpar Hhow. pose proof ok as [Hid Hrole _ _ Hps Hcount].
  assert (parse_pairs content = (ps, Complete)) as Hparse.
  { apply parse_pairs_complete; [|done]. apply (f_equal dl_content) in Hpar. cbn in Hpar.
    rewrite <- Hpar. apply run_bytes. by apply bytes_app in Hb as [_ ?]. }
  unfold request_of, replies_of, no_values, no_values_head, few_pairs, head_replies.
  unfold v. rewrite request_head_wire, run_begin, Hpar by lia.
  cbn [dl_content dl_replies dl_ending ending_only]. rewrite Hparse.
  by destruct (role_string role).
Qed.

Lemma request_of_wire rest :
  let v := request_wire id role flags precs rest in
  bytes v -> request_of stale v = RequestRead id role flags ps (EndOfStream rest) /\
  replies_of stale v = [] /\ no_values stale v /\ few_pairs stale v.
Proof. intros v Hb. apply request_of_params; [done|apply parameters_wire|done]. Qed.
End Wire.

Lemma wp_Accept_body fuel id role flags precs ps rest w :
  request_ok_wire id role flags precs ps -> shutdownNow (wos w) = false ->
  0 <= ipcFd (req w) ->
  os_in (ipcFd (req w)) (wos w) = request_wire id role flags precs rest ->
  2 * len (request_wire id role flags precs rest) + 18 < Z.of_nat fuel ->
  wp (Accept_body fuel) (fun r w' => r = inr 0 /\ accepted w id role flags ps rest w') w.
Proof.
  intros Hok Hs Hfd Hin Hf.
  assert (bytes (request_wire id role flags precs rest)) as Hb by (rewrite <- Hin; apply incoming_bytes).
  destruct (request_of_wire (requestId (req w)) id role flags precs ps Hok rest Hb) as (E & Er & Hno & Hfew).
  apply (Accept_body_any (fun o => match o with Ret r w' => _ r w' | Fault _ => False end)
    fuel _ w Hin Hs Hfd Hno Hfew Hf).
  rewrite E, Er. by intros w' Hacc.
Qed.

(** ** Reading a well-formed stream *)

(** a reader of well-formed records delivers their content, and then what follows
    the empty record *)
Lemma delivered_records t id recs pad rest s :
  requestId (rq s) = id -> t <> FCGI_BEGIN_REQUEST -> 0 < id < 65536 ->
  Forall (input_rec t id) recs ->
  delivered t (encode_all recs ++ encode_rec (eof_rec t id pad) ++ rest) s =
  mkDelivery (content_of t id recs) [] (EndOfStream (pad ++ rest)).
Proof.
  intros Hid Hnb Hidr Hrs. unfold delivered. rewrite Hid.
  apply run_records; try done. unfold FCGI_NULL_REQUEST_ID. lia.
Qed.

Lemma delivers_records t id recs pad rest s :
  let v := encode_all recs ++ encode_rec (eof_rec t id pad) ++ rest in
  reader_at t v s -> requestId (rq s) = id -> t <> FCGI_BEGIN_REQUEST -> 0 < id < 65536 ->
  Forall (input_rec t id) recs ->
  delivers t v (content_of t id recs) s /\ asks_nothing t v s.
Proof.
  intros v Hat Hid Hnb Hidr Hrs. unfold delivers, asks_nothing, v. by rewrite delivered_records.
Qed.

(** reading what a stream delivers *)
Lemma wp_GetStr_delivers fuel t v c n s :
  delivers t v c s -> asks_nothing t v s -> 0 < n <= INT_MAX -> 2 * len v + 18 < Z.of_nat fuel ->
  wp (FCGX_GetStr fuel (FillBuffProc fuel) n) (fun r s' => r = take (Z.to_nat n) c /\
    (len c < n -> all_delivered t v s s')) s.
Proof.
  intros Hd Hpl Hn Hf. pose proof (delivers_len _ _ _ _ Hd). pose proof (len_nonneg c).
  destruct (delivers_Source fuel t v c s Hd Hpl) as (I & Hsrc & HI & _); [lia|lia|].
  wp_use (wp_GetStr fuel (FillBuffProc fuel) I _ n c); [exact HI|lia|lia|].
  intros r s'. replace (n <=? 0) with false by lia. intros [-> Hs']. split; [done|].
  intros Hlt. by replace (n <=? len c) with false in Hs' by lia.
Qed.
End Accept.
