(* ===== verification/Client.v ===== *)
(** * What a client sends

    [FCGX_CreateWriter] gives a client of a FastCGI server, or a program that
    forwards a request, a stream of any record type on an open connection.  What
    it writes is what a reader of that type delivers. *)

From S2P Require Import Prelude Protocol Dispatch Platform OsUnix Params Stream Writer Reader.
From S2P Require Import Source Demux Request Accept.

Section Client.
Context `{Platform}.

(** an operation on a stream with a request of its own *)
Definition on_own_stream {A} (p : FCGX_Stream * FCGX_Request) (m : M SState A) : M OS A :=
  fun o => match m (mkSState (fst p) (snd p) o) with
           | Ret a s => Ret a (os s)
           | Fault f => Fault f
           end.

(** one stream, from beginning to end *)
Definition send_stream fuel (fd id bufflen t : Z) (garbage : FCGX_Request) (str : list Z)
    : M OS (Z * Z) :=
  p <- FCGX_CreateWriter fd id bufflen t garbage ;;
  on_own_stream p (n <- FCGX_PutStr fuel str (len str) ;; rc <- FCGX_FClose fuel ;; ret (n, rc)).
End Client.

(** the records of a writer are those of a reader *)
Lemma stream_recs_input t id rs : t <> FCGI_BEGIN_REQUEST ->
  Forall (stream_rec t id) rs -> Forall (input_rec t id) rs.
Proof.
  intros Ht Hrs. eapply Forall_impl; [exact Hrs|]. intros r (Hok & Hty & Hid & Hne & _).
  split; [done|]. split; [done|]. by left.
Qed.

Lemma run_stream_recs t id begun rs : t <> FCGI_BEGIN_REQUEST -> id <> FCGI_NULL_REQUEST_ID ->
  Forall (stream_rec t id) rs ->
  run t id begun false at_record (encode_all (rs ++ [mkRec t id [] []])) =
  mkDelivery (content_of t id rs) [] (EndOfStream []).
Proof.
  intros Ht Hid Hrs. pose proof (stream_recs_input t id rs Ht Hrs) as Hin.
  pose proof (run_records t id begun rs [] [] Ht Hid Hin) as E. rewrite app_nil_r in E.
  by rewrite encode_all_app, encode_all_cons, app_nil_r.
Qed.

Section Sending.
Context `{Reliable}.
Implicit Types o : OS.

Lemma wp_on_own_stream {A} p (m : M SState A) (Q : A -> OS -> Prop) o :
  wp m (fun a s => Q a (os s)) (mkSState (fst p) (snd p) o) -> wp (on_own_stream p m) Q o.
Proof. unfold wp, on_own_stream. by destruct (m _). Qed.

Lemma wp_CreateWriter fd id n t garbage o (Q : FCGX_Stream * FCGX_Request -> OS -> Prop) :
  is_byte t ->
  (forall st o', os_quiet o o' -> new_writer t st ->
     Q (st, set_nWriters 2 (set_requestId id (set_ipcFd fd garbage))) o') ->
  wp (FCGX_CreateWriter fd id n t garbage) Q o.
Proof.
  intros Ht HQ. unfold FCGX_CreateWriter. wp_step. wp_use wp_Malloc; [lia|].
  intros _ o1 [Hq1 _]. wp_step. wp_use wp_NewWriter_ok; [done|]. intros st o2 [Hq2 Hw].
  wp_step. apply HQ; [by transitivity o1|done].
Qed.

Lemma new_writer_open t st r o : new_writer t st -> 0 <= requestId r < 65536 ->
  shutdownNow o = false ->
  open_writer (mkSState st r o) [] (os_out (ipcFd r) o) [] (mkSState st r o).
Proof.
  intros (Hwf & Hop & Hfc & Her & Hraw & Haw & Hty & Hpend) Hid Hs. split; try done.
  exists []. cbn. rewrite app_nil_r. split; [done|]. split; [constructor|].
  rewrite Haw, Hpend. done.
Qed.

(** What is sent is one stream that carries [str]. *)
Lemma wp_send_stream fuel fd id n t garbage str o :
  is_byte t -> t <> FCGI_BEGIN_REQUEST -> 0 < id < 65536 -> (t = FCGI_STDERR -> str <> []) ->
  shutdownNow o = false -> len str <= INT_MAX -> len str + 2 < Z.of_nat fuel ->
  65536 < Z.of_nat fuel ->
  wp (send_stream fuel fd id n t garbage str) (fun r o' => r = (len str, 0) /\
    out_only fd o o' /\ exists wire, os_out fd o' = os_out fd o ++ wire /\
    forall begun, run t id begun false at_record wire = mkDelivery str [] (EndOfStream [])) o.
Proof.
  intros Ht Hnb Hid Herr Hs Hlen Hf1 Hf2. pose proof (len_nonneg str).
  unfold send_stream. wp_step. apply wp_CreateWriter; [done|]. intros st o1 Hq Hnew.
  apply wp_on_own_stream. cbn [fst snd]. set (r := set_nWriters _ _). set (s1 := mkSState st r o1).
  assert (shutdownNow o1 = false) as Hs1 by (destruct Hq as [Hst _]; unfold os_static, os_vars in Hst; congruence).
  pose proof (new_writer_open t st r o1 Hnew ltac:(cbn; lia) Hs1) as HI. fold s1 in HI.
  pose proof (open_writer_sink fuel s1 [] (os_out fd o1) Hf2) as Hsink.
  wp_step. wp_use (wp_PutStr_ok fuel _ _ str (len str) []); [exact HI|lia|lia|lia|].
  intros n' s2 [-> HI2]. rewrite app_nil_l, slice_full in HI2. wp_step.
  pose proof HI2 as [[Hrq2 Ho2 Hty2 _ Hfc2 _ _ _ _ _] _ _ _ _ _ _].
  destruct Hnew as (_ & _ & Hfc & _ & _ & _ & Hty & _).
  wp_use (wp_FClose fuel s1); [done|exact HI2|by rewrite Hfc2|].
  rewrite Hty2, Hrq2. change (type (data (stm s1))) with (type (data st)). rewrite Hty.
  change (requestId (rq s1)) with id. change (nWriters (rq s1)) with 2.
  intros rc s3 (-> & rs & Hrs & Hc & (_ & _ & _ & _ & Hrq3 & Ho3 & Hout)).
  rewrite Hrq2 in Ho3, Hout. cbn [ipcFd rq s1 r set_nWriters set_requestId set_ipcFd] in *.
  wp_step. split; [done|]. split.
  { transitivity o1; [|by transitivity (os s2)]. destruct Hq as (Ha & Hb & Hd). split_and!; auto. }
  assert (eof_recs t id str = [mkRec t id [] []]) as Heof.
  { unfold eof_recs. rewrite bool_decide_eq_false_2; [done|]. intros [-> ->]. by apply Herr. }
  eexists. split.
  { rewrite Hout. destruct Hq as (_ & _ & Hd). by rewrite Hd. }
  intros begun. cbn [app]. change (end_recs id _ 2) with (@nil rec).
  rewrite app_nil_r, Heof, run_stream_recs; [by rewrite Hc|done| |done].
  unfold FCGI_NULL_REQUEST_ID. lia.
Qed.
End Sending.
