(* ===== verification/Response.v ===== *)
(** * Answering a request

    Between [FCGX_Accept_r] and [FCGX_Finish_r] the application writes to its
    two output streams, in any order and in pieces of any size, flushes them and
    sets its exit status.  Whatever the interleaving, what reaches the
    connection decodes to records that carry each stream's bytes in order, and
    after [FCGX_Finish_r] to a complete response ended by exactly one
    END_REQUEST record with the exit status.  Each step uses the request's own
    streams and connection only ([elsewhere]). *)

From S2P Require Import Prelude CString Protocol Dispatch Platform OsUnix Params Stream Writer Reader.
From S2P Require Import Source Demux Request Accept.

(** ** What an application does *)

Inductive which := Out | Err.

Inductive app_op :=
  | PutStr (s : which) (str : list Z)
  | PutChar (s : which) (c : Z)
  | Flush (s : which)
  | SetExitStatus (status : Z).

Definition stream_type (s : which) : Z :=
  match s with Out => FCGI_STDOUT | Err => FCGI_STDERR end.

#[export] Instance which_eq_dec : EqDecision which.
Proof. solve_decision. Defined.

(** the bytes an operation adds to a stream *)
Definition op_bytes (s : which) (op : app_op) : list Z :=
  match op with
  | PutStr s' str => if decide (s = s') then str else []
  | PutChar s' c => if decide (s = s') then [UCHAR c] else []
  | _ => []
  end.

Definition ops_bytes (s : which) (ops : list app_op) : list Z := concat (map (op_bytes s) ops).

Definition op_status (st : Z) (op : app_op) : Z :=
  match op with SetExitStatus n => n | _ => st end.

(** a string's length is an [int], and the fuel covers it *)
Definition op_ok (fuel : nat) (op : app_op) : Prop :=
  match op with
  | PutStr _ str => len str <= INT_MAX /\ len str + 2 < Z.of_nat fuel
  | _ => True
  end.

Section Application.
Context `{Platform}.
Variable fuel : nat.

Definition stream_ptr (s : which) (r : FCGX_Request) : option positive :=
  match s with Out => out r | Err => err r end.

Definition run_op (op : app_op) : M World unit :=
  r <- get_req ;;
  match op with
  | PutStr s str => _ <- on_stream (stream_ptr s r) (FCGX_PutStr fuel str (len str)) ;; ret tt
  | PutChar s c => _ <- on_stream (stream_ptr s r) (FCGX_PutChar fuel c) ;; ret tt
  | Flush s => _ <- on_stream (stream_ptr s r) (FCGX_FFlush fuel) ;; ret tt
  | SetExitStatus n => on_stream (out r) (FCGX_SetExitStatus n)
  end.

Fixpoint run_ops (ops : list app_op) : M World unit :=
  match ops with
  | [] => ret tt
  | op :: ops' => run_op op ;;; run_ops ops'
  end.
End Application.

(** ** The state of a response *)

Section Response.
Context `{Reliable}.
Implicit Types (s : SState) (w : World).

(** a writer of type [t] that has accepted [acc], of which the records [recs]
    of the connection carry a part *)
Record open_at id t (recs : list rec) (acc : list Z) (st : FCGX_Stream) : Prop := {
  oa_wf : writer_wf st;
  oa_open : isClosed st = false;
  oa_err : FCGI_errno st = 0;
  oa_fclose : wasFCloseCalled st = false;
  oa_raw : rawWrite (data st) = false;
  oa_type : type (data st) = t;
  oa_any : isAnythingWritten (data st) = false <-> content_of t id recs = [];
  oa_acc : content_of t id recs ++ pending st = acc
}.

(** a record of a response: of one of the streams, or one that the library sent
    back while the application read *)
Definition resp_rec id (r : rec) : Prop :=
  stream_rec FCGI_STDOUT id r \/ stream_rec FCGI_STDERR id r \/ notice r.

(** the records that belong to neither stream *)
Definition asides (recs : list rec) : list rec :=
  List.filter (fun r => negb (r_type r =? FCGI_STDOUT) && negb (r_type r =? FCGI_STDERR)) recs.

Lemma asides_app recs new : asides (recs ++ new) = asides recs ++ asides new.
Proof. apply List.filter_app. Qed.

Lemma asides_notices notes : Forall notice notes -> asides notes = notes.
Proof.
  unfold asides. induction 1 as [|r notes [(i & _ & ->)|(ty & ->)] _ IH]; [done|..]; cbn; by rewrite IH.
Qed.

Lemma asides_stream x id recs : Forall (stream_rec (stream_type x) id) recs -> asides recs = [].
Proof.
  unfold asides. induction 1 as [|r recs (_ & Ht & _) _ IH]; [done|]. cbn. rewrite Ht. by destruct x.
Qed.

Lemma notices_content x id notes : Forall notice notes -> content_of (stream_type x) id notes = [].
Proof.
  induction 1 as [|r notes [(i & _ & ->)|(ty & ->)] _ IH]; [done|..]; cbn; rewrite IH; by destruct x.
Qed.

Definition world_ok w : Prop :=
  0 <= requestId (req w) < 65536 /\ shutdownNow (wos w) = false.

Lemma open_at_writer id t recs acc w st base :
  open_at id t recs acc st -> world_ok w -> requestId (req w) = id ->
  os_out (ipcFd (req w)) (wos w) = base ++ encode_all recs ->
  open_writer (sstate w st) (content_of t id recs) (base ++ encode_all recs) (pending st)
    (sstate w st).
Proof.
  intros [Hwf Hop Her Hfc Hraw Hty Hany Hacc] Hok Hid Hout.
  split; try done. exists []. cbn. rewrite app_nil_r. split; [done|].
  split; [constructor|]. rewrite Hany. split; [tauto|done].
Qed.

Lemma content_of_other t u id recs : t <> u ->
  Forall (fun r => r_type r = t) recs -> content_of u id recs = [].
Proof.
  intros Hne. induction 1 as [|r recs Hr _ IH]; [done|]. cbn. rewrite IH, Hr.
  by replace (t =? u) with false by lia.
Qed.

Lemma stream_rec_type t id recs :
  Forall (stream_rec t id) recs -> Forall (fun r => r_type r = t) recs.
Proof. intros Hrs. eapply Forall_impl; [exact Hrs|]. by intros r (_ & ? & _). Qed.

(** another stream's records do not concern a writer *)
Lemma open_at_other id t recs new acc st :
  content_of t id new = [] -> open_at id t recs acc st -> open_at id t (recs ++ new) acc st.
Proof.
  intros Hnew [? ? ? ? ? ? Hany Hacc].
  assert (content_of t id (recs ++ new) = content_of t id recs) as He
    by by rewrite content_of_app, Hnew, app_nil_r.
  split; rewrite ?He; done.
Qed.

(** the world after an operation on the stream at [a] *)
Record stream_step a w (st' : FCGX_Stream) w' : Prop := {
  sp_heap : heap w' = <[a := st']> (heap w);
  sp_req : req w' = req w;
  sp_os : out_only (ipcFd (req w)) (wos w) (wos w');
  sp_lib : lib_kept w w'
}.

Lemma out_only_others fd o o' : out_only fd o o' -> others_kept fd o o'.
Proof.
  intros (Hs & Hi & Ho). split; [exact (f_equal fst Hs)|]. intros fd' Hne. by rewrite Hi, Ho.
Qed.

(** a step of one of the request's streams leaves the rest alone *)
Lemma stream_step_elsewhere a w st' w' :
  owns (req w) a -> stream_step a w st' w' -> elsewhere (ipcFd (req w)) w w'.
Proof.
  intros Ha [Hh Hr Ho Hl]. split; [|rewrite Hr; auto|done|by apply out_only_others].
  intros b st Hb Hn. rewrite Hh, lookup_insert_ne; [done|]. by intros ->.
Qed.

(** A writer operation that accepts [bs] *)
Lemma wp_on_writer {A} (m : M SState A) id t recs acc bs base a st w :
  heap w !! a = Some st -> open_at id t recs acc st -> world_ok w ->
  requestId (req w) = id -> os_out (ipcFd (req w)) (wos w) = base ++ encode_all recs ->
  (forall prev base', open_writer (sstate w st) prev base' (pending st) (sstate w st) ->
     wp m (fun _ s' => open_writer (sstate w st) prev base' (pending st ++ bs) s')
       (sstate w st)) ->
  wp (on_stream (Some a) m) (fun _ w' => exists st' new,
    stream_step a w st' w' /\ Forall (stream_rec t id) new /\
    open_at id t (recs ++ new) (acc ++ bs) st' /\
    os_out (ipcFd (req w)) (wos w') = base ++ encode_all (recs ++ new)) w.
Proof.
  intros Ha Hoa Hok Hid Hout Hm. eapply wp_on_stream; [exact Ha|].
  wp_use Hm; [eapply open_at_writer; [exact Hoa|done|exact Hid|exact Hout]|].
  intros x s' [Hfr Hwf Hop Her Hraw Hreq (rs & Hos & Hrs & Hany & Hacc)].
  destruct Hfr as [Hrq Hoo Hty _ Hfc _ _ _ _ _]. cbn in *.
  destruct Hoa as [_ _ _ Hfc0 _ Hty0 Hany0 Hacc0].
  rewrite Hrq, Hty, Hty0, Hid in *.
  exists (stm s'), rs. split; [split; cbn; [done|by rewrite Hrq|done|done]|].
  split; [done|]. split; [|by rewrite encode_all_app, app_assoc].
  split; try done; [congruence| |].
  - rewrite Hany, content_of_app, app_nil. split; [by intros [-> ->]|].
    intros [-> E]. split; [done|]. destruct Hrs as [|r rs' (_ & Ht & Hi & Hne & _) _]; [done|].
    cbn in E. rewrite Ht, Hi, !Z.eqb_refl in E. by apply app_eq_nil in E as [? _].
  - by rewrite content_of_app, <- app_assoc, Hacc, app_assoc, Hacc0.
Qed.

(** The request [w] is being answered: its streams are at [addr], have
    accepted [acc], and the connection carries [base] and the records [recs]. *)
Record responding base recs (acc : which -> list Z) (addr : which -> positive) w : Prop := {
  rp_ok : world_ok w;
  rp_ptr x : stream_ptr x (req w) = Some (addr x);
  rp_addr : addr Out <> addr Err;
  rp_stream x : exists st, heap w !! addr x = Some st /\
    open_at (requestId (req w)) (stream_type x) recs (acc x) st;
  rp_in : exists c st, in_ (req w) = Some c /\ (forall x, c <> addr x) /\
    heap w !! c = Some st;
  rp_params : exists p l, paramsPtr (req w) = Some p /\ params_repr p l;
  rp_writers : nWriters (req w) = 2;
  rp_wire : os_out (ipcFd (req w)) (wos w) = base ++ encode_all recs;
  rp_recs : Forall (resp_rec (requestId (req w))) recs
}.

Lemma stream_type_inj x y : x <> y -> stream_type x <> stream_type y.
Proof. by destruct x, y. Qed.

Lemma resp_rec_stream id x recs :
  Forall (stream_rec (stream_type x) id) recs -> Forall (resp_rec id) recs.
Proof.
  intros Hrs. eapply Forall_impl; [exact Hrs|]. intros r Hr. unfold resp_rec.
  destruct x; [by left|by right; left].
Qed.

Lemma addr_inj {addr : which -> positive} : addr Out <> addr Err ->
  forall x y, x <> y -> addr x <> addr y.
Proof. intros Ha [] [] ?; congruence. Qed.

(** A step of one stream preserves the response. *)
Lemma responding_step base recs acc addr x bs st' new w w' :
  responding base recs acc addr w -> stream_step (addr x) w st' w' ->
  Forall (stream_rec (stream_type x) (requestId (req w))) new ->
  open_at (requestId (req w)) (stream_type x) (recs ++ new) (acc x ++ bs) st' ->
  os_out (ipcFd (req w)) (wos w') = base ++ encode_all (recs ++ new) ->
  responding base (recs ++ new)
    (fun y => acc y ++ if decide (y = x) then bs else []) addr w'.
Proof.
  intros [[Hid Hs] Hptr Hne Hst (c & sc & Hc & Hca & Hhc) Hp Hnw Hw Hrs]
    [Hheap Hreq (Hstat & Hio & Hoo) _] Hnew Hoa Hout.
  assert (shutdownNow (wos w') = false) by (unfold os_static, os_vars in Hstat; congruence).
  split; rewrite ?Hreq; try done.
  - split; [by rewrite Hreq|done].
  - intros y. rewrite Hheap. destruct (decide (y = x)) as [->|Hyx].
    + exists st'. by rewrite lookup_insert_eq.
    + destruct (Hst y) as (sy & Hy & Hoy). exists sy.
      rewrite lookup_insert_ne by (by apply not_eq_sym, addr_inj). split; [done|].
      rewrite app_nil_r. apply open_at_other; [|done].
      eapply content_of_other; [by apply stream_type_inj, not_eq_sym, Hyx|by eapply stream_rec_type].
  - exists c, sc. rewrite Hheap, lookup_insert_ne by done. done.
  - apply Forall_app. split; [done|]. by eapply resp_rec_stream.
Qed.

Lemma responding_ext base recs acc acc' addr w :
  responding base recs acc addr w -> (forall x, acc' x = acc x) ->
  responding base recs acc' addr w.
Proof. intros [] He. split; try done. intros x. by rewrite He. Qed.

(** What an operation leaves of the request *)
Definition after_op op (r : FCGX_Request) : FCGX_Request :=
  set_appStatus (op_status (appStatus r) op) r.

Lemma set_appStatus_id r : set_appStatus (appStatus r) r = r.
Proof. by destruct r. Qed.

(** the streams that are not written to *)
Definition streams_kept (addr : which -> positive) w w' : Prop :=
  forall a, (forall x, a <> addr x) -> heap w' !! a = heap w !! a.

Lemma wp_stream_op {A} fuel (m : M SState A) base recs acc addr x bs w :
  65536 < Z.of_nat fuel -> responding base recs acc addr w ->
  (forall s0 prev base' pend s, open_writer s0 prev base' pend s ->
     wp m (fun _ s' => open_writer s0 prev base' (pend ++ bs) s') s) ->
  wp (_ <- on_stream (stream_ptr x (req w)) m ;; ret tt) (fun _ w' => exists new,
    asides new = [] /\ req w' = req w /\ elsewhere (ipcFd (req w)) w w' /\ streams_kept addr w w' /\
    out_only (ipcFd (req w)) (wos w) (wos w') /\ responding base (recs ++ new)
      (fun y => acc y ++ if decide (y = x) then bs else []) addr w') w.
Proof.
  intros Hf HR Hm. pose proof HR as [Hok Hptr Hne Hst _ _ _ Hw _].
  destruct (Hst x) as (st & Hx & Hoa). rewrite Hptr. wp_step.
  wp_use (wp_on_writer m); [exact Hx|exact Hoa|done|done|exact Hw|auto|].
  intros a w' (st' & new & Hstep & Hnew & Hoa' & Hout). wp_step. exists new.
  split; [by eapply asides_stream|].
  split; [apply Hstep|]. split; [|split; [|split; [by apply Hstep|by eapply responding_step]]].
  - eapply stream_step_elsewhere; [|exact Hstep]. unfold owns. pose proof (Hptr x). destruct x; tauto.
  - intros b Hb. rewrite (sp_heap _ _ _ _ Hstep). by apply lookup_insert_ne, not_eq_sym.
Qed.

Lemma wp_FFlush_sent fuel s0 prev base acc s : 65536 < Z.of_nat fuel ->
  open_writer s0 prev base acc s ->
  wp (FCGX_FFlush fuel) (fun r s' => r = 0 /\ open_writer s0 prev base acc s' /\
    pending (stm s') = []) s.
Proof.
  intros Hf HI. pose proof HI as [_ Hwf Hop _ _ _ _]. unfold FCGX_FFlush. sstep.
  rewrite Hop, (w_writer _ Hwf). cbn [orb]. sstep. unfold call_emptyBuffProc. sstep.
  rewrite (w_proc _ Hwf). change (EmptyBuffProc fuel false) with (EmptyBuffProc_flush fuel).
  wp_use wp_flush; [exact Hf|exact HI|].
  intros _ s' [[HI' Hw] | [[_ Hmf _ _ _] _]]; [|by destruct no_fail].
  sstep. rewrite (ow_open _ _ _ _ _ HI'). split; [done|]. split; [exact HI'|].
  unfold pending. rewrite Hw. by apply slice_empty.
Qed.

Lemma wp_FFlush fuel s0 prev base acc s : 65536 < Z.of_nat fuel ->
  open_writer s0 prev base acc s ->
  wp (FCGX_FFlush fuel) (fun r s' => r = 0 /\ open_writer s0 prev base acc s') s.
Proof. intros Hf HI. wp_use wp_FFlush_sent; [done|done|]. cbv beta. tauto. Qed.

(** Every operation keeps the response and adds its bytes. *)
Lemma wp_run_op fuel op base recs acc addr w :
  65536 < Z.of_nat fuel -> op_ok fuel op -> responding base recs acc addr w ->
  wp (run_op fuel op) (fun _ w' => exists new,
    asides new = [] /\ req w' = after_op op (req w) /\ elsewhere (ipcFd (req w)) w w' /\
    streams_kept addr w w' /\
    out_only (ipcFd (req w)) (wos w) (wos w') /\
    responding base (recs ++ new) (fun x => acc x ++ op_bytes x op) addr w') w.
Proof.
  intros Hf Hop HR. unfold run_op, get_req. wp_steps. unfold after_op.
  destruct op as [x str|x c|x|n]; cbn [op_status op_bytes]; rewrite ?set_appStatus_id.
  - apply (wp_stream_op fuel); [done|done|]. intros s0 prev base' pend s HI.
    pose proof (open_writer_sink fuel s0 prev base' Hf). destruct Hop.
    wp_use (wp_PutStr_ok fuel (open_writer s0 prev base') (broken_writer s0 base'));
      [exact HI|pose proof (len_nonneg str); lia|done|done|].
    intros r s' [_ HI']. by rewrite slice_full in HI'.
  - apply (wp_stream_op fuel); [done|done|]. intros s0 prev base' pend s HI.
    pose proof (open_writer_sink fuel s0 prev base' Hf).
    wp_use (wp_PutChar fuel (open_writer s0 prev base') (broken_writer s0 base'));
      [exact HI|].
    intros r s' [[_ HI'] | [_ HB]]; [exact HI'|].
    by destruct (no_fail (bw_fail _ _ _ _ HB)).
  - wp_use (wp_stream_op fuel (FCGX_FFlush fuel) base recs acc addr x []); [done|done| |].
    + intros s0 prev base' pend s HI. wp_use wp_FFlush; [done|exact HI|].
      intros r s' [_ HI']. by rewrite app_nil_r.
    + intros _ w' (new & Has & Hreq & Hew & Hkp & Hst & HR'). exists new. do 5 (split; [done|]).
      eapply responding_ext; [exact HR'|]. intros y. cbn beta. by case_decide.
  - destruct (rp_stream _ _ _ _ _ HR Out) as (st & Hst & Hoa).
    rewrite (rp_ptr _ _ _ _ _ HR Out : out (req w) = _).
    eapply wp_on_stream; [exact Hst|]. unfold FCGX_SetExitStatus. sstep.
    exists []. rewrite app_nil_r. split; [done|]. split; [done|]. split; [|split; [|split; [done|]]].
    { split; try done; [intros b sb Hb _; cbn; by rewrite insert_id|auto]. }
    { intros b Hb. cbn. by rewrite insert_id. }
    eapply (responding_ext _ _ acc); [|intros; by rewrite app_nil_r].
    destruct HR as [Hok Hptr Hne Hs Hi Hp Hnw Hw Hrs].
    assert (heap (put_stream (addr Out) (set_rq (set_appStatus n (rq (sstate w st))) (sstate w st)) w)
            = heap w) as Hh by (cbn; by apply insert_id).
    split; rewrite ?Hh; try done.
Qed.

Definition after_ops ops (r : FCGX_Request) : FCGX_Request :=
  set_appStatus (fold_left op_status ops (appStatus r)) r.

Lemma wp_run_ops fuel ops base recs acc addr w :
  65536 < Z.of_nat fuel -> Forall (op_ok fuel) ops -> responding base recs acc addr w ->
  wp (run_ops fuel ops) (fun _ w' => exists new,
    req w' = after_ops ops (req w) /\ elsewhere (ipcFd (req w)) w w' /\
    out_only (ipcFd (req w)) (wos w) (wos w') /\
    responding base (recs ++ new) (fun x => acc x ++ ops_bytes x ops) addr w') w.
Proof.
  intros Hf. revert recs acc w.
  induction ops as [|op ops IH]; intros recs acc w Hok HR; cbn [run_ops].
  - wp_step. exists []. unfold after_ops, ops_bytes. cbn.
    rewrite set_appStatus_id, app_nil_r. split; [done|]. split; [by split; auto|]. split; [done|].
    eapply responding_ext; [exact HR|]. intros x. by rewrite app_nil_r.
  - rewrite Forall_cons in Hok. destruct Hok as [Hop Hops]. wp_step.
    wp_use (wp_run_op fuel op); [done|done|exact HR|].
    intros _ w1 (new1 & _ & Hreq1 & Hew1 & _ & Hst1 & HR1).
    wp_use IH; [exact Hops|exact HR1|]. intros _ w2 (new2 & Hreq2 & Hew2 & Hst2 & HR2).
    exists (new1 ++ new2). rewrite app_assoc. split.
    + rewrite Hreq2, Hreq1. done.
    + rewrite Hreq1 in Hew2. split; [by eapply elsewhere_trans|].
      rewrite Hreq1 in Hst2. split; [by transitivity (wos w1)|].
      eapply responding_ext; [exact HR2|]. intros x. unfold ops_bytes. cbn [map concat].
      by rewrite app_assoc.
Qed.

(** ** Finishing the request *)

(** closing the writer at [a] *)
Lemma wp_FClose_ptr fuel id t recs acc base a st w :
  65536 < Z.of_nat fuel -> heap w !! a = Some st -> open_at id t recs acc st -> world_ok w ->
  requestId (req w) = id -> os_out (ipcFd (req w)) (wos w) = base ++ encode_all recs ->
  wp (FClose_ptr fuel (Some a)) (fun r w' => r = 0 /\ exists st' rs,
    heap w' = <[a := st']> (heap w) /\
    req w' = set_nWriters (nWriters (req w) - 1) (req w) /\ lib_kept w w' /\
    out_only (ipcFd (req w)) (wos w) (wos w') /\
    Forall (stream_rec t id) rs /\ content_of t id (recs ++ rs) = acc /\
    os_out (ipcFd (req w)) (wos w') = base ++ encode_all (recs ++ rs ++
      eof_recs t id acc ++ end_recs id (appStatus (req w)) (nWriters (req w)))) w.
Proof.
  intros Hf Ha Hoa Hok Hid Hout. unfold FClose_ptr. eapply wp_on_stream; [exact Ha|].
  pose proof (open_at_writer id t recs acc w st base Hoa Hok Hid Hout) as HI.
  wp_use (wp_FClose fuel); [done|exact HI|by destruct Hoa|].
  intros r s' (-> & rs & Hrs & Hc & (_ & _ & _ & _ & Hrq & Hoo & Hwire)). split; [done|].
  destruct Hoa as [_ _ _ _ _ Hty _ Hacc]. cbn in *. rewrite Hty, Hid in *.
  exists (stm s'), rs. do 5 (split; [done|]).
  rewrite content_of_app, Hc, Hacc in *. split; [done|].
  by rewrite Hwire, !encode_all_app, !app_assoc.
Qed.

(** the state after [FCGX_Free] *)
Definition freed (close : bool) (r : FCGX_Request) : FCGX_Request :=
  let r := set_paramsPtr None (set_err None (set_out None (set_in_ None r))) in
  if close then set_ipcFd (-1) r else r.

(** the connection [fd] is closed, or not *)
Definition closes (close : bool) fd o o' : Prop :=
  if close then out_kept fd o o' /\ fd ∉ opened (os_files o') else o' = o.

Lemma wp_FCGX_Free fuel close w c a b sc sa sb p l :
  in_ (req w) = Some c -> out (req w) = Some a -> err (req w) = Some b ->
  c <> a -> c <> b -> a <> b ->
  heap w !! c = Some sc -> heap w !! a = Some sa -> heap w !! b = Some sb ->
  paramsPtr (req w) = Some p -> params_repr p l ->
  (close = true -> fd_ok (ipcFd (req w)) = true /\ asyncIoInUse (aio (wos w)) = false /\
                   len (os_in (ipcFd (req w)) (wos w)) + 1 < Z.of_nat fuel) ->
  wp (FCGX_Free fuel close) (fun _ w' =>
    heap w' = delete b (delete a (delete c (heap w))) /\ req w' = freed close (req w) /\
    lib_kept w w' /\ closes close (ipcFd (req w)) (wos w) (wos w')) w.
Proof.
  intros Hi Ho He Hca Hcb Hab Hc Ha Hb Hp Hpr Hclose.
  unfold FCGX_Free, get_req, upd_req. wp_steps. rewrite Hi, Ho, He, Hp.
  eapply wp_FreeStream; [exact Hc|]. wp_steps.
  eapply wp_FreeStream; [cbn; by rewrite lookup_delete_ne|]. wp_steps.
  eapply wp_FreeStream; [cbn; by rewrite !lookup_delete_ne|]. wp_steps.
  apply wp_with_os. wp_use wp_FreeParams; [exact Hpr|].
  intros ps o [-> ->]. wp_steps. destruct close; wp_steps.
  - destruct (Hclose eq_refl) as (Hfd & Has & Hf). apply wp_with_os.
    unfold OS_IpcClose. wp_use wp_OS_Close; [exact Hfd|exact Has|exact Hf|].
    intros rc o [Hk Hgone]. wp_steps. cbn. do 3 (split; [done|]). split; [exact Hk|].
    by intros ?%Hgone%no_fail.
  - by cbn.
Qed.

(** A complete response: both streams' bytes in order, each stream ended, the
    error stream only when it was used, and the end of the request, with the
    records [notes] for the server in between. *)
Definition complete_response id status (wout werr : list Z) (notes rs : list rec) : Prop :=
  exists d1 d2,
    rs = d1 ++ eof_recs FCGI_STDERR id werr ++ d2 ++
         [mkRec FCGI_STDOUT id [] []; end_rec id status] /\
    Forall (resp_rec id) d1 /\ Forall (stream_rec FCGI_STDOUT id) d2 /\
    content_of FCGI_STDOUT id (d1 ++ d2) = wout /\ content_of FCGI_STDERR id d1 = werr /\
    asides d1 = notes.

Lemma eof_recs_type t id acc : Forall (fun r => r_type r = t) (eof_recs t id acc).
Proof. unfold eof_recs. case_bool_decide; repeat constructor. Qed.

Lemma eof_recs_out id acc : eof_recs FCGI_STDOUT id acc = [mkRec FCGI_STDOUT id [] []].
Proof. unfold eof_recs. by rewrite bool_decide_eq_false_2 by by intros [? _]. Qed.

Lemma eof_recs_content t id u acc : content_of u id (eof_recs t id acc) = [].
Proof. unfold eof_recs. case_bool_decide; [done|]. cbn. by destruct (_ && _). Qed.

(** closing both streams, as [FCGX_Finish_r] does *)
Lemma wp_close_both fuel base recs acc addr w :
  65536 < Z.of_nat fuel -> responding base recs acc addr w ->
  wp (e1 <- FClose_ptr fuel (err (req w)) ;;
      e2 <- FClose_ptr fuel (out (req w)) ;; ret (e1, e2)) (fun r w' =>
    r = (0, 0) /\ exists ste sto rs,
      heap w' = <[addr Out := sto]> (<[addr Err := ste]> (heap w)) /\
      req w' = set_nWriters 0 (req w) /\ lib_kept w w' /\ out_only (ipcFd (req w)) (wos w) (wos w') /\
      complete_response (requestId (req w)) (appStatus (req w)) (acc Out) (acc Err) (asides recs)
        (recs ++ rs) /\
      os_out (ipcFd (req w)) (wos w') = base ++ encode_all (recs ++ rs)) w.
Proof.
  intros Hf [Hok Hptr Hne Hst _ _ Hnw Hw Hrs].
  change (err (req w)) with (stream_ptr Err (req w)).
  change (out (req w)) with (stream_ptr Out (req w)). rewrite !Hptr.
  destruct (Hst Err) as (se & He & Hoe), (Hst Out) as (so & Ho & Hoo).
  set (id := requestId (req w)) in *. wp_step.
  wp_use (wp_FClose_ptr fuel id FCGI_STDERR recs (acc Err) base); [done|exact He|exact Hoe|done|done|exact Hw|].
  intros e1 w1 (-> & se' & rs1 & Hh1 & Hr1 & (Hl1 & Hl1' & Hl1'') & Hos1 & Hrs1 & Hc1 & Hw1). wp_step.
  rewrite Hnw in Hr1, Hw1. unfold end_recs in Hw1. cbn match in Hw1. rewrite app_nil_r in Hw1.
  set (new1 := rs1 ++ eof_recs FCGI_STDERR id (acc Err)) in *.
  assert (Forall (fun r => r_type r = FCGI_STDERR) new1) as Hnew1.
  { apply Forall_app. split; [by eapply stream_rec_type|apply eof_recs_type]. }
  wp_use (wp_FClose_ptr fuel id FCGI_STDOUT (recs ++ new1) (acc Out) base).
  { done. }
  { rewrite Hh1, lookup_insert_ne by congruence. exact Ho. }
  { apply open_at_other; [|exact Hoo]. by apply (content_of_other FCGI_STDERR FCGI_STDOUT). }
  { destruct Hok as [Hi Hs], Hos1 as [Hq _]. split; [by rewrite Hr1|].
    unfold os_static, os_vars in Hq. congruence. }
  { by rewrite Hr1. }
  { by rewrite Hr1. }
  intros e2 w2 (-> & so' & rs2 & Hh2 & Hr2 & (Hl2 & Hl2' & Hl2'') & Hos2 & Hrs2 & Hc2 & Hw2). wp_step.
  split; [done|]. rewrite Hr1 in Hr2, Hos2, Hw2. cbn in Hr2, Hos2, Hw2.
  exists se', so', (new1 ++ rs2 ++ eof_recs FCGI_STDOUT id (acc Out) ++
    [end_rec id (appStatus (req w))]).
  split; [by rewrite Hh2, Hh1|]. split; [by rewrite Hr2|]. split; [split_and!; congruence|].
  split; [by transitivity (wos w1)|]. split; [|by rewrite Hw2, <- !app_assoc].
  exists (recs ++ rs1), rs2. unfold new1. rewrite eof_recs_out, <- !app_assoc.
  split; [done|]. split; [apply Forall_app; split; [done|]; by apply (resp_rec_stream id Err)|].
  split; [done|]. split; [|split; [done|]].
  - rewrite <- Hc2. unfold new1. by rewrite !content_of_app, eof_recs_content, app_nil_r, <- !app_assoc.
  - by rewrite asides_app, (asides_stream Err id rs1), app_nil_r.
Qed.

(** the input stream has recorded an error *)
Definition in_failed w : bool :=
  match in_ (req w) ≫= (heap w !!.) with
  | Some st => negb (FCGI_errno st =? 0)
  | None => false
  end.

(** [FCGX_Finish_r] closes the connection *)
Definition hangs_up w : bool := (keepConnection (req w) =? 0) || in_failed w.

(** The conditions under which the connection can be closed *)
Definition closable fuel w : Prop :=
  fd_ok (ipcFd (req w)) = true /\ asyncIoInUse (aio (wos w)) = false /\
  len (os_in (ipcFd (req w)) (wos w)) + 1 < Z.of_nat fuel.

Lemma put_stream_same a st w : heap w !! a = Some st -> put_stream a (sstate w st) w = w.
Proof. intros Ha. unfold put_stream. cbn. rewrite insert_id by done. by destruct w. Qed.

Lemma closes_out close fd o o' : closes close fd o o' -> os_out fd o' = os_out fd o.
Proof. destruct close; cbn; [by intros [(_ & -> & _) _]|by intros ->]. Qed.

(** writing to a connection and then closing it, or not *)
Lemma out_only_closes close fd o o1 o2 :
  out_only fd o o1 -> os_out fd o `prefix_of` os_out fd o1 -> closes close fd o1 o2 ->
  others_kept fd o o2 /\ os_files o2 = if close then forget fd (os_files o) else os_files o.
Proof.
  intros Ho Hp Hc. pose proof (out_only_others _ _ _ Ho) as Hk. destruct Ho as (Hs & Hi & Ho).
  destruct close; cbn in Hc.
  - assert (hung_up fd o o2) as Hh.
    { exists o1. split; [split; [done|split; [by apply Hk|done]]|done]. }
    split; [by apply hung_up_others|by apply hung_up_vars].
  - subst o2. split; [done|exact (f_equal snd Hs)].
Qed.

(** freeing the streams at [c], [a] and [b] leaves other requests alone *)
Lemma freed_elsewhere fd close r c a b w w' :
  in_ (req w) = Some c -> out (req w) = Some a -> err (req w) = Some b ->
  heap w' = delete b (delete a (delete c (heap w))) -> req w' = freed close r ->
  lib_kept w w' -> others_kept fd (wos w) (wos w') -> elsewhere fd w w'.
Proof.
  intros Hi Ho He Hh Hr Hlib Hos. split; [| |done|done].
  - intros x st Hx Hn. rewrite Hh. rewrite !lookup_delete_ne; [done|..];
      intros <-; apply Hn; unfold owns; tauto.
  - intros x. rewrite Hr. unfold owns. destruct close; cbn; by intros [|[|]].
Qed.

Lemma delete_closed c a b sa sb (m : gmap positive FCGX_Stream) :
  delete b (delete a (delete c (<[a := sa]> (<[b := sb]> m)))) = delete b (delete a (delete c m)).
Proof.
  apply map_eq. intros i. rewrite !lookup_delete, !lookup_insert. repeat case_decide; congruence.
Qed.

(** [FCGX_Finish_r] completes the response and frees everything. *)
Lemma wp_Finish_r fuel base recs acc addr w :
  65536 < Z.of_nat fuel -> responding base recs acc addr w ->
  (hangs_up w = true -> closable fuel w) ->
  wp (FCGX_Finish_r fuel) (fun _ w' => exists c rs,
    in_ (req w) = Some c /\
    heap w' = delete (addr Err) (delete (addr Out) (delete c (heap w))) /\
    req w' = freed (hangs_up w) (set_nWriters 0 (req w)) /\
    complete_response (requestId (req w)) (appStatus (req w)) (acc Out) (acc Err) (asides recs) rs /\
    os_out (ipcFd (req w)) (wos w') = base ++ encode_all rs /\
    elsewhere (ipcFd (req w)) w w' /\
    os_files (wos w') = if hangs_up w then forget (ipcFd (req w)) (os_files (wos w))
                        else os_files (wos w)) w.
Proof.
  intros Hf HR Hcl. pose proof HR as [_ Hptr Hne _ (c & sc & Hin & Hca & Hhc) (p & l & Hp & Hpr) _ Hw0 _].
  assert (hangs_up w = (keepConnection (req w) =? 0) || negb (FCGI_errno sc =? 0)) as Hcut.
  { unfold hangs_up, in_failed. rewrite Hin. cbn. by rewrite Hhc. }
  pose proof (wp_close_both fuel base recs acc addr w Hf HR) as Hboth.
  unfold FCGX_Finish_r, get_req. wp_steps. rewrite Hin.
  apply wp_bind_inv in Hboth. wp_step. wp_use Hboth. clear Hboth. intros e1 w1 Hboth.
  apply wp_bind_inv in Hboth. wp_step. wp_use Hboth. clear Hboth. intros e2 w2 Hboth.
  destruct Hboth as ([= -> ->] & ste & sto & rs & Hh & Hr & Hlib & Hos & Hresp & Hw).
  assert (forall x, stream_ptr x (req w2) = Some (addr x)) as Hptr2.
  { intros x. rewrite Hr. rewrite <- (Hptr x). by destruct x. }
  assert (heap w2 !! c = Some sc) as Hc2.
  { by rewrite Hh, !lookup_insert_ne by (by apply not_eq_sym, Hca). }
  wp_step. eapply wp_on_stream; [exact Hc2|].
  unfold FCGX_GetError. sstep. cbn.
  rewrite (put_stream_same c sc w2 Hc2). change (negb (0 =? 0)) with false.
  rewrite !orb_false_r, <- Hcut.
  wp_use (wp_FCGX_Free fuel (hangs_up w) w2 c (addr Out) (addr Err) sc sto ste p l).
  - rewrite Hr. exact Hin.
  - exact (Hptr2 Out).
  - exact (Hptr2 Err).
  - apply Hca. - apply Hca. - exact Hne.
  - exact Hc2.
  - by rewrite Hh, lookup_insert_eq.
  - by rewrite Hh, lookup_insert_ne, lookup_insert_eq.
  - rewrite Hr. exact Hp.
  - exact Hpr.
  - intros Hk. rewrite Hr. cbn. destruct (Hcl Hk) as (Hfd & Has & Hl).
    destruct Hos as (Hs & Hi & _). unfold os_static, os_vars in Hs.
    split; [done|]. split; [congruence|by rewrite Hi].
  - intros _ w3 (Hh3 & Hr3 & Hlib3 & Hk3). exists c, (recs ++ rs). split; [done|].
    rewrite Hr in Hr3, Hk3. cbn [ipcFd set_nWriters] in Hk3.
    rewrite Hh, delete_closed in Hh3.
    split; [done|]. split; [done|]. split; [done|].
    split; [by rewrite (closes_out _ _ _ _ Hk3)|].
    assert (os_out (ipcFd (req w)) (wos w) `prefix_of` os_out (ipcFd (req w)) (wos w2)) as Hpre
      by (rewrite Hw, Hw0, encode_all_app, app_assoc; by apply prefix_app_r).
    destruct (out_only_closes _ _ _ _ _ Hos Hpre Hk3) as [Hot Hfl].
    split; [|exact Hfl].
    eapply freed_elsewhere; [exact Hin|exact (Hptr Out)|exact (Hptr Err)|done|exact Hr3| |done].
    destruct Hlib as (? & ? & ?), Hlib3 as (? & ? & ?). split_and!; congruence.
Qed.

Lemma complete_response_ok id status wout werr notes rs :
  0 <= id < 65536 -> complete_response id status wout werr notes rs -> Forall rec_ok rs.
Proof.
  intros Hid (d1 & d2 & -> & Hd1 & Hd2 & _). rewrite !Forall_app. split_and!.
  - eapply Forall_impl; [exact Hd1|]. by intros r [(? & _)|[(? & _)|?%notice_ok]].
  - unfold eof_recs. case_bool_decide; repeat constructor; cbn; done || lia.
  - eapply Forall_impl; [exact Hd2|]. by intros r (? & _).
  - repeat constructor; cbn; try done; lia.
Qed.

(** an accepted request is ready to be answered *)
Lemma accepted_responding w0 id role flags ps rest w :
  accepted w0 id role flags ps rest w -> 0 < id < 65536 -> shutdownNow (wos w0) = false ->
  exists addr, responding (os_out (ipcFd (req w)) (wos w)) [] (fun _ => []) addr w.
Proof.
  intros Hacc Hidr Hsd.
  destruct (accepted_reader _ _ _ _ _ _ _ Hacc) as (c & sc & Hc & Hhc & Her & Hat).
  destruct Hacc as [(Hid & Hrole & Hk & Hfd & Hst & Hnw & _) (p & str & Hp & _ & _ & Hpr) _
    (a & b & Hab & Hca & Hcb & (Ho & so & Hho & Hso) & (He & se & Hhe & Hse)) [(Hs & _) _]].
  exists (fun x => match x with Out => a | Err => b end).
  assert (shutdownNow (wos w) = false) by (unfold os_static, os_vars in Hs; congruence).
  split; try done.
  - split; [lia|done].
  - by intros [].
  - intros []; eexists; (split; [eassumption|]).
    + destruct Hso as (? & ? & ? & ? & ? & ? & ? & ?). by split.
    + destruct Hse as (? & ? & ? & ? & ? & ? & ? & ?). by split.
  - exists c, sc. split; [done|]. split; [intros []; congruence|]. done.
  - exists p, ((str ++ [0]) :: map param_string ps). done.
  - by rewrite app_nil_r.
Qed.

(** ** Requests of one connection *)

(** between two requests of a connection that is kept open *)
Record kept_open (r : FCGX_Request) : Prop := {
  ko_fd : 0 <= ipcFd r;
  ko_keep : keepConnection r <> 0;
  ko_in : in_ r = None;
  ko_out : out r = None;
  ko_err : err r = None;
  ko_params : paramsPtr r = None
}.

(** [FCGX_Finish_r] has nothing to do between two requests *)
Lemma wp_Finish_kept fuel w (Q : unit -> World -> Prop) :
  kept_open (req w) -> Q tt w -> wp (FCGX_Finish_r fuel) Q w.
Proof.
  intros [Hfd Hk Hi Ho He Hp] HQ. unfold FCGX_Finish_r, get_req. wp_steps. rewrite Hi.
  replace (keepConnection (req w) =? 0) with false by lia. wp_steps.
  unfold FCGX_Free, get_req, upd_req. wp_steps. rewrite Hi, Ho, He, Hp. wp_steps.
  unfold FCGX_FreeStream, FreeParams, with_os. wp_steps.
  match goal with |- Q _ ?w1 => assert (w1 = w) as Hw end.
  { destruct w as [h r o f i l], r. cbn in *. by subst. }
  by rewrite Hw.
Qed.

(** accepting the request that an open connection carries *)
Lemma wp_Accept_r_any fuel v id role flags ps how w :
  let stale := requestId (req w) in
  libInitialized w = true -> shutdownNow (wos w) = false -> kept_open (req w) ->
  os_in (ipcFd (req w)) (wos w) = v -> no_values stale v -> few_pairs stale v ->
  request_of stale v = RequestRead id role flags ps how -> 2 * len v + 18 < Z.of_nat fuel ->
  wp (FCGX_Accept_r fuel) (fun r w' => r = 0 /\
    accepted_with w id role flags ps how (replies_of stale v) w') w.
Proof.
  intros stale Hinit Hs Hk Hin Hno Hfew Hreq Hf.
  unfold FCGX_Accept_r. wp_steps. rewrite Hinit. cbn [negb]. wp_step.
  apply wp_Finish_kept; [done|]. pose proof (len_nonneg v).
  destruct fuel as [|fuel]; [lia|]. rewrite loop_unfold. wp_step.
  apply (Accept_body_any (fun o => match o with Ret r w' => _ r w' | Fault _ => False end)
    (S fuel) v w Hin Hs (ko_fd _ Hk) Hno Hfew Hf). fold stale. rewrite Hreq.
  intros w' Hacc. cbv beta iota. by wp_step.
Qed.

Lemma wp_Accept_r_kept fuel id role flags precs ps rest w :
  libInitialized w = true -> shutdownNow (wos w) = false -> kept_open (req w) ->
  request_ok_wire id role flags precs ps ->
  os_in (ipcFd (req w)) (wos w) = request_wire id role flags precs rest ->
  2 * len (request_wire id role flags precs rest) + 18 < Z.of_nat fuel ->
  wp (FCGX_Accept_r fuel) (fun r w' => r = 0 /\ accepted w id role flags ps rest w') w.
Proof.
  intros Hinit Hs Hk Hok Hin Hf.
  assert (bytes (request_wire id role flags precs rest)) as Hb
    by (rewrite <- Hin; apply incoming_bytes).
  destruct (request_of_wire (requestId (req w)) id role flags precs ps Hok rest Hb)
    as (E & Er & Hno & Hfew).
  wp_use wp_Accept_r_any; [done|done|done|exact Hin|done|done|exact E|done|].
  intros r w'. by rewrite Er.
Qed.
End Response.
