(* ===== verification/Session.v ===== *)
(** * A session: an application that reads and writes

    Between [FCGX_Accept_r] and [FCGX_Finish_r] an application reads its input
    stream and writes to its output streams, and what it does next may depend on
    what it read.  A [session] is what it has of its request, as lists: the bytes
    to come, the bytes written, the exit status.  [act] is the effect of a deed on
    it and [answer] that of a whole application; [serving] relates a session to the
    streams and the connection, and every deed preserves it.  Reading may make the
    library send records on the connection that the application writes to; they end
    up between the records of the response ([asides]). *)

From S2P Require Import Prelude CString Protocol Dispatch Platform OsUnix Params Stream Writer.
From S2P Require Import Reader Source Reads Demux Begin Request Accept Response.
#[local] Open Scope Z_scope.

(** ** What an application does *)

Inductive deed :=
  | Write (op : app_op)
  | Read (op : read_op).

(** the next deed depends on the result of the last one, if it was a read *)
Inductive program :=
  | Stop
  | Do (d : deed) (k : option read_result -> program).

Section Application.
Context `{Platform}.
Variable fuel : nat.

Definition run_deed (d : deed) : M World (option read_result) :=
  match d with
  | Write op => run_op fuel op ;;; ret None
  | Read op =>
      r <- get_req ;;
      res <- on_stream (in_ r) (run_read fuel (FillBuffProc fuel) op) ;;
      ret (Some res)
  end.

Fixpoint run_program (a : program) : M World unit :=
  match a with
  | Stop => ret tt
  | Do d k => res <- run_deed d ;; run_program (k res)
  end.
End Application.

(** ** What it means *)

(** The input is a list reader, with the records that the library sends back while
    it is read and the error that its end records, 0 for none.  It is unknown when
    the server asks for variables in between. *)
Record session := mkSession {
  sn_in : option list_reader;
  sn_notes : list rec;
  sn_end : Z;
  sn_out : list Z;
  sn_err : list Z;
  sn_status : Z
}.

Definition sn_written (ss : session) (x : which) : list Z :=
  match x with Out => sn_out ss | Err => sn_err ss end.

Definition act (d : deed) (ss : session) : option (option read_result * session) :=
  match d with
  | Write op =>
      Some (None, mkSession (sn_in ss) (sn_notes ss) (sn_end ss)
                    (sn_out ss ++ op_bytes Out op) (sn_err ss ++ op_bytes Err op)
                    (op_status (sn_status ss) op))
  | Read op =>
      lr ← sn_in ss;
      let (res, lr') := list_read op lr in
      Some (Some res, mkSession (Some lr') (sn_notes ss) (sn_end ss) (sn_out ss) (sn_err ss) (sn_status ss))
  end.

Fixpoint answer (a : program) (ss : session) : option session :=
  match a with
  | Stop => Some ss
  | Do d k => '(res, ss') ← act d ss; answer (k res) ss'
  end.

Definition deed_ok (fuel : nat) (d : deed) : Prop :=
  match d with Write op => op_ok fuel op | Read op => read_ok op end.

(** the deeds that the application does in the session *)
Fixpoint program_ok (fuel : nat) (a : program) (ss : session) : Prop :=
  match a with
  | Stop => True
  | Do d k => deed_ok fuel d /\
      match act d ss with Some (res, ss') => program_ok fuel (k res) ss' | None => True end
  end.

(** the error that an end of the stream records *)
Definition end_error (e : ending) : option Z :=
  match e with
  | EndOfStream _ => Some 0
  | Broken status => Some status
  | _ => None
  end.

(** what a connection that carries [rest] after the parameters gives the request
    [id] to read, what is sent back meanwhile, and the error at the end *)
Definition input_of (id : Z) (rest : list Z) : option (list Z * list rec * Z) :=
  let d := run FCGI_STDIN id true false at_record rest in
  n ← end_error (dl_ending d);
  notes ← decode_all (dl_replies d);
  Some (dl_content d, notes, n).

Definition new_session (id : Z) (rest : list Z) (status : Z) : session :=
  match input_of id rest with
  | Some (c, notes, e) => mkSession (Some (Some c)) notes e [] [] status
  | None => mkSession None [] 0 [] [] status
  end.

(** A session is over when [rs] was sent: a complete response with some of the
    notices in between, with all of them when the input was read to its end. *)
Definition answered (id : Z) (ss : session) (rs : list rec) : Prop :=
  exists notes, complete_response id (sn_status ss) (sn_out ss) (sn_err ss) notes rs /\
    notes `prefix_of` sn_notes ss /\ (sn_in ss = Some None -> notes = sn_notes ss).

Lemma new_session_start id rest status :
  sn_status (new_session id rest status) = status /\ sn_out (new_session id rest status) = [] /\
  sn_err (new_session id rest status) = [].
Proof. unfold new_session. by destruct (input_of id rest) as [[[c notes] e]|]. Qed.

(** the application has read to the end of an input that broke off *)
Definition sn_failed (ss : session) : bool :=
  match sn_in ss with Some None => negb (sn_end ss =? 0) | _ => false end.

(** ** The input stream *)

Section Reading.
Context `{Reliable}.
Implicit Types (s : SState) (w : World).

(** the stream stands where the list reader stands, with [notes] to be sent on the
    way to its end, which records the error [e] *)
Definition reading (fuel : nat) (e : Z) (notes : list rec) (lr : list_reader) s : Prop :=
  reads_fuel fuel lr /\ len (os_in (ipcFd (rq s)) (os s)) + 1 < Z.of_nat fuel /\
  match lr with
  | None => isClosed (stm s) = true /\ FCGI_errno (stm s) = e /\ notes = []
  | Some c =>
      let id := requestId (rq s) in
      let begun := isBeginProcessed (rq s) in
      demux_base FCGI_STDIN id begun false s /\ len (beyond s) + 1 < Z.of_nat fuel /\
      FCGI_errno (stm s) = 0 /\ Forall notice notes /\
      exists how after, end_error how = Some e /\
        stream_src FCGI_STDIN id begun false (os_out (ipcFd (rq s)) (os s) ++ encode_all notes)
          how after s c s
  end.

Lemma beyond_bytes s : window_ok s -> bytes (beyond s).
Proof. intros []. apply bytes_app. split; [by apply bytes_slice|apply incoming_bytes]. Qed.

(** A source can start from any of its states: some of what it has to send was
    sent, the rest is to come. *)
Lemma stream_src_rebase t id begun eor e after s0 notes c s :
  demux_base t id begun eor s0 -> Forall notice notes ->
  stream_src t id begun eor (os_out (ipcFd (rq s0)) (os s0) ++ encode_all notes) e after s0 c s ->
  demux_base t id begun eor s /\ exists done left, notes = done ++ left /\
    os_out (ipcFd (rq s)) (os s) = os_out (ipcFd (rq s0)) (os s0) ++ encode_all done /\
    stream_src t id begun eor (os_out (ipcFd (rq s)) (os s) ++ encode_all left) e after s c s.
Proof.
  intros [] Hn [Hwin Hfr Hop Her Hsk Hst Hu (more & (Hc & Hp & (replies & Hrun & Hout) & Htl) & ->)].
  pose proof Hfr as [Hrq (_ & _ & [x Hx]) ? ? ? ? ? ?].
  destruct (run_notices t id begun eor (beyond s) (mkPhase [] (contentLen (data (stm s)))
    (paddingLen (data (stm s))) false)) as (left & Hr & Hleft); [by apply beyond_bytes|constructor|].
  rewrite Hrun in Hr. cbn in Hr. subst replies. rewrite Hrq, Hx, <- app_assoc in Hout.
  apply app_inv_head in Hout. symmetry in Hout.
  destruct (notices_before _ _ _ Hn Hleft Hout) as (done & -> & ->).
  split; [split; congruence|]. exists done, left. split; [done|]. split; [by rewrite Hrq|].
  split; [done|done|done|done|done|done|done|].
  exists more. split; [|done]. split; [done|]. split; [done|]. split; [|done]. by eexists.
Qed.

Lemma os_in_beyond s : len (os_in (ipcFd (rq s)) (os s)) <= len (beyond s).
Proof. unfold beyond. rewrite len_app. pose proof (len_nonneg (slice (buff (data (stm s)))
  (stop (stm s)) (buffStop (data (stm s))))). lia. Qed.

Lemma os_in_rview s : len (os_in (ipcFd (rq s)) (os s)) <= len (rview s).
Proof. unfold rview. rewrite len_app. pose proof (len_nonneg (slice (buff (data (stm s)))
  (rdNext (stm s)) (buffStop (data (stm s))))). lia. Qed.

(** a read gives the list reader's result and sends some of the notices, the last
    one all that are left *)
Lemma wp_reading fuel op e notes lr s :
  16 < Z.of_nat fuel -> read_ok op -> reading fuel e notes lr s ->
  wp (run_read fuel (FillBuffProc fuel) op) (fun r s' => r = fst (list_read op lr) /\
    exists now left, notes = now ++ left /\ Forall notice now /\
      reading fuel e left (snd (list_read op lr)) s' /\ rq s' = rq s /\
      link (ipcFd (rq s)) (os s) (os s') /\
      os_out (ipcFd (rq s)) (os s') = os_out (ipcFd (rq s)) (os s) ++ encode_all now) s.
Proof.
  intros Hf16 Hop (Hf & Hi & Hrd). destruct lr as [c|].
  2: { wp_use (wp_read_ended fuel (FillBuffProc fuel) op); [done|lia|apply Hrd|].
       intros r s' [-> ->]. split; [done|]. destruct Hrd as (Hcl & He & ->). exists [], [].
       split; [done|]. split; [done|]. split; [by destruct op|].
       split; [done|]. split; [done|]. by rewrite app_nil_r. }
  destruct Hrd as (Hb & Hl & Her0 & Hn & how & after & He & Hsrc).
  assert (len (beyond s) < Z.of_nat fuel) as Hl0 by lia.
  assert (ends_plainly how) as Hplain by by destruct how.
  pose (stream_source FCGI_STDIN _ _ false (os_out (ipcFd (rq s)) (os s) ++ encode_all notes) how
    after s fuel 1 (len (beyond s)) Hb Hplain Hf16 Hl0) as Hsource.
  pose proof (wp_run_read fuel _ _ _ (Source0 := Hsource) op (Some c) s Hop Hf) as Hread.
  wp_use Hread; [by split|].
  intros r s' (-> & Hat & Hf'). split; [done|].
  destruct (list_read op (Some c)) as [res [c'|]]; cbn [fst snd reads_at] in *.
  - destruct Hat as [Hat Hl']. pose proof Hat as [_ [Hrq Hlink _ _ _ _ _ _] _ Her _ _ _ _].
    destruct (stream_src_rebase _ _ _ _ _ _ _ _ _ _ Hb Hn Hat) as (Hb' & now & left & -> & Ho & Hat').
    apply Forall_app in Hn as [Hnow Hleft]. pose proof (os_in_beyond s') as Hi'.
    exists now, left. split; [done|]. split; [done|]. split; [|split_and!; [done|done|by rewrite Hrq in Ho]].
    split; [done|]. split; [lia|]. rewrite <- Hrq in Hb'. rewrite <- Hrq in Hat' at 1 2.
    split; [done|]. split; [lia|]. split; [congruence|]. split; [done|]. by exists how, after.
  - destruct Hat as [[_ [Hrq Hlink _ _ _ _ _ _] Hcl Ho Hhow] Hl']. rewrite Hrq in Ho.
    pose proof (os_in_rview s') as Hi'. exists notes, []. rewrite app_nil_r.
    split; [done|]. split; [done|]. split; [|done].
    split; [done|]. split; [lia|]. split; [done|]. split; [|done].
    destruct how; try done; injection He as <-; [by destruct Hhow as (-> & _)|].
    by rewrite Her0 in Hhow.
Qed.

(** The stream does not depend on what is sent on its connection, nor on the rest
    of the process. *)
Lemma reading_kept fuel e notes lr s r o :
  reading fuel e notes lr s -> requestId r = requestId (rq s) ->
  isBeginProcessed r = isBeginProcessed (rq s) -> ipcFd r = ipcFd (rq s) ->
  shutdownNow o = shutdownNow (os s) -> os_in (ipcFd r) o = os_in (ipcFd r) (os s) ->
  reading fuel e notes lr (mkSState (stm s) r o).
Proof.
  intros (Hf & Hi & Hrd) Hid Hbg Hfd Hsd Hin. split; [done|]. cbn [rq os].
  split; [by rewrite Hin, Hfd|]. destruct lr as [c|]; [|done].
  destruct Hrd as (Hb & Hl & Her0 & Hn & how & after & He & Hsrc). cbn [rq stm os]. rewrite Hid, Hbg.
  assert (beyond (mkSState (stm s) r o) = beyond s) as Hbey.
  { unfold beyond. cbn [rq stm os]. by rewrite Hin, Hfd. }
  split; [by destruct Hb|]. rewrite Hbey. split; [done|]. split; [done|]. split; [done|].
  exists how, after. split; [done|].
  destruct Hsrc as [[] Hfr Hop Her Hsk Hst Hu (more & (Hc & Hp & (replies & Hrun & Hout) & Htl) & ->)].
  apply app_inv_head in Hout as ->.
  split; try done; [split; try done; cbn; congruence|].
  exists more. split; [|done]. rewrite Hbey. split; [done|]. split; [done|]. split; [|done].
  by exists (encode_all notes).
Qed.

(** an accepted request's input *)
Lemma reading_start fuel v c notes e s :
  reader_at FCGI_STDIN v s -> isBeginProcessed (rq s) = true ->
  input_of (requestId (rq s)) v = Some (c, notes, e) ->
  FCGI_errno (stm s) = 0 -> 2 * len v + 2 < Z.of_nat fuel -> reading fuel e notes (Some c) s.
Proof.
  intros Hat Hbg Hin Her Hf. destruct (reader_at_src _ _ _ Hat) as (Hb & Hsrc & Hl).
  unfold input_of in Hin. rewrite Hbg in Hb, Hsrc.
  set (d := run FCGI_STDIN (requestId (rq s)) true false at_record v) in *.
  assert (len (dl_content d) <= len v) as Hle by apply run_content_len.
  assert (bytes v) as Hv by (rewrite <- (ra_view _ _ _ Hat); apply rview_bytes, Hat).
  destruct (run_notices FCGI_STDIN (requestId (rq s)) true false v at_record Hv) as (n & Hr & Hn);
    [constructor|]. fold d in Hr. rewrite Hr in Hin, Hsrc.
  rewrite decode_all_encode in Hin by (eapply Forall_impl; [exact Hn|]; by apply notice_ok).
  destruct (end_error (dl_ending d)) as [e'|] eqn:He; [|done]. cbn in Hin. injection Hin as <- <- <-.
  pose proof (len_nonneg v). pose proof (os_in_beyond s). split; [cbn; lia|]. split; [lia|].
  cbn zeta. rewrite Hbg. split; [done|]. split; [lia|]. split; [done|].
  split; [done|]. by exists (dl_ending d), v.
Qed.
End Reading.

(** ** The state of a session *)

Section Serving.
Context `{Reliable}.
Implicit Types (s : SState) (w : World) (ss : session).

(** The request of [w] is in the session [ss]: its output streams are at [addr]
    and its connection carries [base] and the records [recs]. *)
Record serving (fuel : nat) base recs (addr : which -> positive) ss w : Prop := {
  sv_resp : responding base recs (sn_written ss) addr w;
  sv_in : exists c st left, in_ (req w) = Some c /\ heap w !! c = Some st /\
          asides recs ++ left = sn_notes ss /\
          match sn_in ss with
          | None => FCGI_errno st = 0
          | Some lr => reading fuel (sn_end ss) left lr (sstate w st)
          end;
  sv_stat : appStatus (req w) = sn_status ss
}.

(** the input stream at [c] after a read, on which [notes] were sent *)
Lemma responding_read base recs acc addr w c st notes s' :
  responding base recs acc addr w -> in_ (req w) = Some c -> heap w !! c = Some st ->
  rq s' = req w -> link (ipcFd (req w)) (wos w) (os s') -> Forall notice notes ->
  os_out (ipcFd (req w)) (os s') = os_out (ipcFd (req w)) (wos w) ++ encode_all notes ->
  responding base (recs ++ notes) acc addr (put_stream c s' w).
Proof.
  intros [[Hid Hs] Hptr Hne Hst (c' & sc & Hc & Hca & Hhc) Hp Hnw Hw Hrs] Hin Hstc Hrq (Hstat & _) Hn Hout.
  rewrite Hc in Hin. injection Hin as ->. rewrite Hstc in Hhc. injection Hhc as ->.
  assert (shutdownNow (os s') = false) as Hs' by (unfold os_static, os_vars in Hstat; congruence).
  split; cbn; rewrite ?Hrq; try done.
  - by split; cbn; rewrite ?Hrq.
  - intros x. rewrite lookup_insert_ne by done. destruct (Hst x) as (sx & Hx & Ho).
    exists sx. split; [done|]. apply open_at_other; [by apply notices_content|done].
  - exists c, (stm s'). rewrite lookup_insert_eq. done.
  - by rewrite Hout, Hw, encode_all_app, app_assoc.
  - apply Forall_app. split; [done|]. eapply Forall_impl; [exact Hn|]. intros r Hr. by do 2 right.
Qed.

(** reading leaves the rest of the process alone *)
Lemma read_elsewhere c s' w :
  in_ (req w) = Some c -> rq s' = req w -> link (ipcFd (req w)) (wos w) (os s') ->
  elsewhere (ipcFd (req w)) w (put_stream c s' w).
Proof.
  intros Hin Hrq (Hs & Ho & _). split.
  - intros b st Hb Hn. cbn. rewrite lookup_insert_ne; [done|]. intros <-. apply Hn. by left.
  - intros b Hb. left. cbn in Hb. by rewrite Hrq in Hb.
  - done.
  - split; [exact (f_equal fst Hs)|done].
Qed.

(** Every deed has its meaning. *)
Lemma wp_run_deed fuel d res ss' base recs addr ss w :
  65536 < Z.of_nat fuel -> deed_ok fuel d -> serving fuel base recs addr ss w ->
  act d ss = Some (res, ss') ->
  wp (run_deed fuel d) (fun r w' => r = res /\ exists new,
    serving fuel base (recs ++ new) addr ss' w' /\ elsewhere (ipcFd (req w)) w w' /\
    req w' = set_appStatus (sn_status ss') (req w) /\ os_static (wos w') = os_static (wos w) /\
    (len (os_in (ipcFd (req w)) (wos w)) + 1 < Z.of_nat fuel ->
     len (os_in (ipcFd (req w)) (wos w')) + 1 < Z.of_nat fuel)) w.
Proof.
  intros Hf Hok [HR Hin Hst] Hact. destruct d as [op|op]; cbn [act run_deed deed_ok] in *.
  - injection Hact as <- <-. wp_step. wp_use (wp_run_op fuel op); [done|done|exact HR|].
    intros _ w' (new & Has & Hreq & Hew & Hkp & (Hstat & Hi & _) & HR'). wp_step. split; [done|].
    exists new. unfold after_op in Hreq. cbn [sn_status]. rewrite <- Hst.
    split; [|split; [done|split; [exact Hreq|split; [done|by rewrite Hi]]]].
    split; [eapply responding_ext; [exact HR'|by intros []]| |by rewrite Hreq].
    destruct Hin as (c & st & left & Hc & Hstc & Hleft & Hrd).
    destruct HR as [_ _ _ _ (c' & sc & Hc' & Hca & _) _ _ _ _].
    rewrite Hc in Hc'. injection Hc' as <-. exists c, st, left. rewrite Hkp by done.
    split; [by rewrite Hreq|]. split; [done|]. split; [by rewrite asides_app, Has, app_nil_r|].
    cbn [sn_in sn_end]. destruct (sn_in ss) as [lr|]; [|done]. unfold os_static, os_vars in Hstat.
    apply (reading_kept fuel _ _ lr (sstate w st)); rewrite ?Hreq; cbn; try done; congruence.
  - destruct (sn_in ss) as [lr|] eqn:Hss; [|done]. cbn in Hact.
    destruct Hin as (c & st & left & Hc & Hstc & Hleft & Hrd).
    destruct (list_read op lr) as [r lr'] eqn:Hread. injection Hact as <- <-.
    unfold get_req. wp_steps. rewrite Hc. eapply wp_on_stream; [exact Hstc|].
    wp_use wp_reading; [lia|exact Hok|exact Hrd|]. rewrite Hread. cbn [fst snd].
    intros r0 s' (-> & now & left' & -> & Hnow & Hrd' & Hrq & Hlk & Hout). cbn in Hrq, Hlk, Hout.
    wp_step. split; [done|]. exists now. cbn [sn_status]. rewrite <- Hst, set_appStatus_id.
    split; [|split; [by apply read_elsewhere|split; [done|split; [apply Hlk|]]]].
    2: { intros _. destruct Hrd' as (_ & Hi & _). by rewrite Hrq in Hi. }
    split; [eapply responding_ext; [by eapply responding_read|by intros []]| |cbn; by rewrite Hrq].
    exists c, (stm s'), left'. cbn. rewrite lookup_insert_eq, Hrq. split; [done|]. split; [done|].
    split; [by rewrite asides_app, (asides_notices now Hnow), <- app_assoc|]. by destruct s'.
Qed.

Lemma set_appStatus_twice a b r : set_appStatus a (set_appStatus b r) = set_appStatus a r.
Proof. by destruct r. Qed.

(** A program's meaning is [answer]. *)
Lemma wp_run_program fuel a ss' base recs addr ss w :
  65536 < Z.of_nat fuel -> program_ok fuel a ss -> serving fuel base recs addr ss w ->
  answer a ss = Some ss' ->
  wp (run_program fuel a) (fun _ w' => exists new,
    serving fuel base (recs ++ new) addr ss' w' /\
    req w' = set_appStatus (sn_status ss') (req w) /\ os_static (wos w') = os_static (wos w)) w.
Proof.
  intros Hf. revert recs ss w. induction a as [|d k IH]; intros recs ss w Hok Hsv Hans; cbn in *.
  - injection Hans as <-. wp_step. exists []. rewrite app_nil_r, <- (sv_stat _ _ _ _ _ _ Hsv).
    by rewrite set_appStatus_id.
  - destruct Hok as [Hd Hk]. destruct (act d ss) as [[res ss1]|] eqn:Hact; [|done]. cbn in Hans.
    wp_step. wp_use (wp_run_deed fuel d res ss1); [done|done|exact Hsv|done|].
    intros r w1 (-> & new1 & Hsv1 & _ & Hreq1 & Hst1 & _).
    wp_use (IH res); [exact Hk|exact Hsv1|done|]. intros _ w2 (new2 & Hsv2 & Hreq2 & Hst2).
    exists (new1 ++ new2). rewrite app_assoc. split; [done|].
    rewrite Hreq2, Hreq1, set_appStatus_twice. split; [done|congruence].
Qed.

(** an accepted request is in a new session *)
Lemma accepted_serving fuel w0 id role flags ps rest w :
  accepted w0 id role flags ps rest w -> 0 < id < 65536 -> shutdownNow (wos w0) = false ->
  2 * len rest + 2 < Z.of_nat fuel ->
  exists addr, serving fuel (os_out (ipcFd (req w)) (wos w)) [] addr
    (new_session id rest (appStatus (req w0))) w.
Proof.
  intros Hacc Hid Hs Hf. destruct (accepted_responding _ _ _ _ _ _ _ Hacc Hid Hs) as [addr HR].
  pose proof (ac_req _ _ _ _ _ _ _ _ Hacc) as (Hrid & _ & _ & _ & Hst & _ & _ & _ & Hbg).
  destruct (accepted_reader _ _ _ _ _ _ _ Hacc) as (c & st & Hc & Hstc & Her & Hat).
  exists addr. unfold new_session.
  destruct (input_of id rest) as [[[content notes] e]|] eqn:Hinp;
    (split; [eapply responding_ext; [exact HR|by intros []]| |done]).
  - exists c, st, notes. cbn [sn_in sn_notes sn_end]. do 3 (split; [done|]).
    apply (reading_start fuel rest); cbn; rewrite ?Hrid; done.
  - by exists c, st, [].
Qed.

(** ** One request from beginning to end *)

Definition serve fuel (a : program) : M World Z :=
  rc <- FCGX_Accept_r fuel ;;
  (when rc =? 0 do (run_program fuel a ;;; FCGX_Finish_r fuel)) ;;;
  ret rc.

(** [FCGX_Finish_r] finds an error exactly when the input was read to an end
    that broke off *)
Lemma serving_failed fuel base recs addr ss w :
  serving fuel base recs addr ss w -> in_failed w = sn_failed ss.
Proof.
  intros [_ (c & st & left & Hc & Hst & _ & Hin) _]. unfold in_failed, sn_failed. rewrite Hc. cbn. rewrite Hst.
  destruct (sn_in ss) as [[content|]|].
  - destruct Hin as (_ & _ & _ & _ & Her & _). cbn in Her. by rewrite Her.
  - destruct Hin as (_ & _ & _ & Her & _). cbn in Her. by rewrite Her.
  - by rewrite Hin.
Qed.

(** then its connection can be closed *)
Lemma serving_closable fuel base recs addr ss w :
  serving fuel base recs addr ss w -> sn_failed ss = true -> fd_ok (ipcFd (req w)) = true ->
  asyncIoInUse (aio (wos w)) = false -> closable fuel w.
Proof.
  intros [_ (c & st & left & Hc & Hst & _ & Hin) _] Hfail Hfd Has. unfold sn_failed in Hfail.
  destruct (sn_in ss) as [[content|]|]; [done| |done]. by destruct Hin as (_ & Hin & _).
Qed.

(** The records of a session, finished, are its answer. *)
Lemma serving_answered fuel base recs addr ss w id rs :
  serving fuel base recs addr ss w ->
  complete_response id (sn_status ss) (sn_out ss) (sn_err ss) (asides recs) rs -> answered id ss rs.
Proof.
  intros [_ (c & st & left & _ & _ & Hleft & Hin) _] Hresp. exists (asides recs).
  split; [done|]. split; [by exists left|]. intros Hend. rewrite Hend in Hin.
  destruct Hin as (_ & _ & _ & _ & ->). by rewrite app_nil_r in Hleft.
Qed.

(** the request after [serve]: at rest when the connection was closed *)
Definition left_by (ss : session) fd w : Prop :=
  if sn_failed ss then vacant (req w) /\ ipcFd (req w) = -1 /\ (fd ∉ opened (os_files (wos w)))
  else kept_open (req w).

(** finishing the request of a connection that the server asked to keep *)
Lemma wp_finish_session fuel base recs addr ss w :
  65536 < Z.of_nat fuel -> serving fuel base recs addr ss w -> 0 <= ipcFd (req w) ->
  keepConnection (req w) <> 0 ->
  (sn_failed ss = true -> fd_ok (ipcFd (req w)) = true /\ asyncIoInUse (aio (wos w)) = false) ->
  wp (FCGX_Finish_r fuel) (fun _ w' => left_by ss (ipcFd (req w)) w' /\ exists rs,
    os_out (ipcFd (req w)) (wos w') = base ++ encode_all rs /\
    answered (requestId (req w)) ss rs) w.
Proof.
  intros Hf Hsv Hfd Hkeep Hcl. pose proof Hsv as [HR _ Hst].
  assert (hangs_up w = sn_failed ss) as Hhang.
  { unfold hangs_up. rewrite (serving_failed _ _ _ _ _ _ Hsv). by replace (_ =? 0) with false by lia. }
  wp_use (wp_Finish_r fuel); [done|exact HR| |].
  { rewrite Hhang. intros Hfail. destruct (Hcl Hfail). by eapply serving_closable. }
  intros _ w' (c & rs & _ & _ & Hr & Hresp & Hout & _ & Hfiles). rewrite Hst in Hresp.
  split; [|exists rs; split; [done|by eapply serving_answered]]. unfold left_by. rewrite Hr, Hfiles, Hhang.
  destruct (sn_failed ss); cbn; [|done]. split; [done|]. split; [done|].
  rewrite elem_of_difference, elem_of_singleton. tauto.
Qed.

Lemma wp_serve fuel a id role flags precs ps rest ss w :
  libInitialized w = true -> shutdownNow (wos w) = false -> kept_open (req w) ->
  request_ok_wire id role flags precs ps ->
  os_in (ipcFd (req w)) (wos w) = request_wire id role flags precs rest ->
  2 * len (request_wire id role flags precs rest) + 18 < Z.of_nat fuel ->
  65536 < Z.of_nat fuel -> Z.land flags FCGI_KEEP_CONN <> 0 ->
  let start := new_session id rest (appStatus (req w)) in
  program_ok fuel a start -> answer a start = Some ss ->
  (sn_failed ss = true -> fd_ok (ipcFd (req w)) = true /\ asyncIoInUse (aio (wos w)) = false) ->
  wp (serve fuel a) (fun r w' => r = 0 /\ left_by ss (ipcFd (req w)) w' /\ exists wire rs,
    os_out (ipcFd (req w)) (wos w') = os_out (ipcFd (req w)) (wos w) ++ wire /\
    decode_all wire = Some rs /\
    answered id ss rs) w.
Proof.
  intros Hinit Hsys Hk Hok Hin Hf1 Hf2 Hkeep start Hprog Hans Hcl. unfold serve. wp_step.
  wp_use (wp_Accept_r_kept fuel id role flags precs ps rest); [done..|].
  intros rc w1 [-> Hacc]. wp_step. change (0 =? 0) with true. cbn match.
  pose proof (ac_req _ _ _ _ _ _ _ _ Hacc) as (Hid1 & _ & Hk1 & Hfd1 & _).
  pose proof (accepted_in_only _ _ _ _ _ _ _ Hacc) as (Hst1 & Ho1 & _).
  pose proof (rw_id _ _ _ _ _ Hok) as Hidr. pose proof (request_wire_rest id role flags precs rest).
  pose proof (len_nonneg rest).
  destruct (accepted_serving fuel _ _ _ _ _ _ _ Hacc Hidr Hsys) as [addr Hsv]; [lia|].
  wp_step. wp_use (wp_run_program fuel a ss); [done|exact Hprog|exact Hsv|done|].
  intros _ w2 (new & Hsv2 & Hr2 & Hst2). cbn [app] in Hsv2.
  assert (ipcFd (req w2) = ipcFd (req w)) as Hfd2 by by rewrite Hr2.
  assert (asyncIoInUse (aio (wos w2)) = asyncIoInUse (aio (wos w))) as Has2
    by (unfold os_static, os_vars in Hst1, Hst2; congruence).
  wp_use (wp_finish_session fuel); [done|exact Hsv2|rewrite Hfd2; apply Hk|rewrite Hr2; cbn; congruence| |].
  { rewrite Hfd2, Has2. exact Hcl. }
  intros _ w3 [Hleft (rs & Hout & Hresp)]. wp_step. rewrite Hfd2 in Hleft, Hout.
  rewrite Hr2 in Hresp. cbn in Hresp. rewrite Hid1 in Hresp. split; [done|]. split; [done|].
  exists (encode_all rs), rs. rewrite Hout, Ho1, Hfd1. split; [done|]. split; [|done].
  destruct Hresp as (notes & Hresp & _).
  apply decode_all_encode. eapply complete_response_ok; [|exact Hresp]. lia.
Qed.
End Serving.
