(* ===== verification/Retry.v ===== *)
(** * Connections that carry no request

    A connection whose input carries no request - its peer closes it too early,
    sends something else than records, an unknown role, or parameters that end
    inside a pair - is closed by [FCGX_Accept_r], which then accepts the next
    connection of the listening socket. *)

From S2P Require Import Prelude Protocol Platform Dispatch OsUnix Params Stream Reader Source.
From S2P Require Import NameValue Demux Begin Request Accept Response.
#[local] Open Scope Z_scope.

(** the plainest such input: less than a record header, or another protocol *)
Definition no_request (v : list Z) : Prop :=
  len v < 8 \/ exists b v', v = b :: v' /\ b <> FCGI_VERSION_1.

Lemma run_no_request t id begun v : no_request v -> exists status,
  run t id begun false at_record v = ending_only (Broken status).
Proof.
  intros Hno. unfold at_record. destruct (Z.ltb_spec (len v) 8) as [Hs|Hl].
  - exists FCGX_PROTOCOL_ERROR. rewrite <- (app_nil_r v).
    by rewrite run_header_part by (done || change (len []) with 0; lia).
  - destruct Hno as [?|(b & v' & Hv & Hb)]; [lia|]. exists FCGX_UNSUPPORTED_VERSION.
    assert (len (take 8 v) = 8) as Ht by (unfold len in *; rewrite length_take; lia).
    destruct (header_of_eight _ Ht) as (h & Hh). rewrite <- (take_drop 8 v).
    rewrite run_header_full with (h := h) by done. unfold interpret_header.
    assert (h_version h <> FCGI_VERSION_1) as Hver.
    { apply header_bytes_inv in Hh. subst v. unfold header_bytes in Hh. by injection Hh as -> _. }
    by rewrite (proj2 (Z.eqb_neq _ _) Hver).
Qed.

Lemma request_of_no_request stale v : no_request v ->
  request_of stale v = NoRequest /\ replies_of stale v = [] /\ no_values stale v /\
  few_pairs stale v.
Proof.
  intros Hno. destruct (run_no_request 0 stale false v Hno) as [status E].
  assert (request_head stale v = None) as Hh by (unfold request_head; by rewrite E).
  unfold request_of, replies_of, no_values, no_values_head, few_pairs, head_replies.
  by rewrite Hh, E.
Qed.

(** ** The next connection *)

(** the descriptor that the next connection gets *)
Definition lowest_free (fd : Z) (f : kernel_files) : Prop :=
  fd_ok fd = true /\ (fd ∉ opened f) /\ (forall i, 0 <= i < fd -> i ∈ opened f).

Section Listening.
Context `{PlatformLaws} {sock : Z} `{!ListenSocket sock}.
Implicit Types (o : OS).

Lemma wp_lock b o (Q : Z -> OS -> Prop) :
  (forall o', os_quiet o o' -> Q 0 o') -> wp (blocking_call (sys_setlk sock b)) Q o.
Proof.
  intros HQ. unfold blocking_call. destruct (ls_lock b (plat o)) as (k' & E & Hf & Hi & Ho).
  wp_steps. rewrite E. wp_steps. by apply HQ, os_quiet_plat.
Qed.

Lemma wp_AcquireLock fuel intr o (Q : Z -> OS -> Prop) :
  (forall o', os_quiet o o' -> Q 0 o') -> wp (AcquireLock (S fuel) sock intr) Q o.
Proof.
  intros HQ. unfold AcquireLock. rewrite loop_unfold. wp_step. wp_step. apply wp_lock.
  intros o' Hq. by wp_steps; apply HQ.
Qed.

Lemma wp_ReleaseLock fuel o (Q : Z -> OS -> Prop) :
  (forall o', os_quiet o o' -> Q 0 o') -> wp (ReleaseLock (S fuel) sock) Q o.
Proof.
  intros HQ. unfold ReleaseLock. rewrite loop_unfold. wp_step. wp_step. apply wp_lock.
  intros o' Hq. by wp_steps; apply HQ.
Qed.

Context (fd : Z) (wire : list Z) (q : list (list Z)).

(** the first client that waits is connected to [fd] *)
Record client_from o o' : Prop := {
  cf_vars : os_vars o' = os_vars o;
  cf_files : os_files o' =
    mkFiles ({[fd]} ∪ opened (os_files o)) (<[sock := q]> (waiting (os_files o)));
  cf_in : os_in fd o' = wire;
  cf_other : forall fd', fd' <> fd -> os_in fd' o' = os_in fd' o;
  cf_out : forall fd', os_out fd' o' = os_out fd' o
}.

Definition next_client o : Prop :=
  waiting (os_files o) !! sock = Some (wire :: q) /\ lowest_free fd (os_files o).

Lemma client_from_quiet o1 o2 o3 : os_quiet o1 o2 -> client_from o2 o3 -> client_from o1 o3.
Proof.
  intros (Hs & Hi & Ho) [Hv Hf Hin Hot Hou].
  pose proof (f_equal fst Hs) as Hs1. pose proof (f_equal snd Hs) as Hs2.
  cbn [fst snd os_static] in Hs1, Hs2. split; [congruence|by rewrite Hf, Hs2|done|..].
  - intros fd' Hne. by rewrite Hot, Hi.
  - intros fd'. by rewrite Hou, Ho.
Qed.

Lemma client_from_then o1 o2 o3 : client_from o1 o2 -> os_quiet o2 o3 -> client_from o1 o3.
Proof.
  intros [Hv Hf Hin Hot Hou] (Hs & Hi & Ho).
  pose proof (f_equal fst Hs) as Hs1. pose proof (f_equal snd Hs) as Hs2.
  cbn [fst snd os_static] in Hs1, Hs2. split; [congruence|by rewrite Hs2, Hf|by rewrite Hi|..].
  - intros fd' Hne. by rewrite Hi, Hot.
  - intros fd'. by rewrite Ho, Hou.
Qed.

Lemma next_client_quiet o o' : os_quiet o o' -> next_client o -> next_client o'.
Proof. intros (Hs & _). unfold next_client. by rewrite (f_equal snd Hs : os_files o' = os_files o). Qed.

Lemma wp_accept_client fuel intr v o : shutdownPending o = false -> next_client o ->
  wp (accept_client (S fuel) sock intr None v) (fun r o' =>
    client_from o o' /\ exists sa, sin_family sa = AF_INET /\ r = inr (Some (fd, sa))) o.
Proof.
  intros Hsd (Hw & Hfd & Hnot & Hlow). unfold accept_client, accept_retry, accept_call, syscall.
  rewrite loop_unfold. wp_steps. rewrite Hsd. wp_steps.
  destruct (ls_accept (plat o) wire q fd Hw Hfd Hnot Hlow) as (a & k1 & E1 & Hf1 & Hin1 & Hi1 & Ho1).
  rewrite E1. wp_steps.
  assert ((fd <? 0) = false) as Hfd0 by (unfold fd_ok in Hfd; lia). cbn [fst snd]. rewrite Hfd0.
  cbn [andb]. wp_steps.
  rewrite Hfd0. cbn [sin_family]. change (negb (AF_INET =? AF_INET)) with false. wp_steps.
  cbn [plat set_plat].
  destruct (ls_option fd k1) as (x & k2 & E2 & Hf2 & Hi2 & Ho2). rewrite E2. wp_steps.
  unfold ClientAddrOK. wp_steps. split; [|by exists (mkSockaddr AF_INET a)].
  split; unfold os_files, os_in, os_out; cbn; [done|congruence|congruence|..].
  - intros fd' Hne. by rewrite Hi2, Hi1.
  - intros fd'. by rewrite Ho2, Ho1.
Qed.

Lemma wp_OS_Accept_client fuel intr o : shutdownPending o = false -> next_client o ->
  wp (OS_Accept (S fuel) sock intr None) (fun r o' => r = fd /\ client_from o o') o.
Proof.
  intros Hsd Hnext. unfold OS_Accept. rewrite loop_unfold. wp_step. unfold accept_turn. wp_step.
  apply wp_AcquireLock. intros o1 Hq1. cbn [negb]. change (negb (0 =? 0)) with false.
  wp_steps. rewrite loop_unfold. wp_step.
  wp_use wp_accept_client; [destruct Hq1 as [Hs1 _]; unfold os_static, os_vars in Hs1; congruence|
    by eapply next_client_quiet|].
  intros r o2 [Hc2 (sa & Hsa & ->)]. wp_steps. apply wp_ReleaseLock.
  intros o3 Hq3. change (negb (0 =? 0)) with false. cbn [fst snd]. wp_steps.
  rewrite Hsa. change (negb (AF_INET =? AF_UNIX)) with true. wp_steps. split; [done|].
  by eapply client_from_then, Hq3; eapply client_from_quiet.
Qed.
End Listening.
#[global] Arguments client_from {_ _} _ _ _ _ _ _.
#[global] Arguments next_client {_ _} _ _ _ _ _.

(** ** From the broken connection to the next *)

Section Retry.
Context `{Reliable} {sock : Z} `{!ListenSocket sock}.
Implicit Types (w : World).

(** a worker that has no connection and listens on [sock] *)
Record unconnected w : Prop := {
  un_fd : ipcFd (req w) < 0;
  un_sock : listen_sock (req w) = sock;
  un_addrs : webServerAddressList w = None;
  un_pending : shutdownPending (wos w) = false
}.

(** with no connection open, the body starts by accepting one *)
Lemma Accept_body_accepts fuel fd wire q w :
  unconnected w -> next_client sock fd wire q (wos w) ->
  exists o, client_from sock fd wire q (wos w) o /\
    Accept_body (S fuel) w = Accept_body (S fuel) (set_req (set_ipcFd fd (req w)) (set_wos o w)).
Proof.
  intros [Hneg Hsock Haddr Hsd] Hnext.
  assert (0 <= fd) as Hfd by (destruct Hnext as (_ & Hok & _); unfold fd_ok in Hok; lia).
  assert (wp (accept_connection (S fuel)) (fun rc w2 => rc = None /\ exists o,
    client_from sock fd wire q (wos w) o /\ w2 = set_req (set_ipcFd fd (req w)) (set_wos o w)) w) as Hacc.
  { unfold accept_connection, get_req, upd_req. wp_steps.
    replace (ipcFd (req w) <? 0) with true by lia. wp_steps. rewrite Haddr, Hsock. apply wp_with_os.
    wp_use (wp_OS_Accept_client fd wire q); [done|done|].
    intros r o [-> Hc]. wp_steps. replace (fd <? 0) with false by lia. split; [done|]. by exists o. }
  apply wp_Ret in Hacc as (rc & w2 & E & -> & o & Hc & ->). exists o. split; [done|].
  unfold Accept_body. rewrite (bind_ret_eq _ _ _ _ _ E).
  set (w2 := set_req _ _).
  assert (accept_connection (S fuel) w2 = Ret None w2) as E2.
  { unfold accept_connection, bind, get_req, gets. change (ipcFd (req w2)) with fd.
    by replace (fd <? 0) with false by lia. }
  by rewrite (bind_ret_eq _ _ _ _ _ E2).
Qed.

(** the loop of [FCGX_Accept_r] accepts the next client and returns its request *)
Lemma wp_Accept_loop fuel n fd q id role flags precs ps rest w :
  let wire := request_wire id role flags precs rest in
  n <> O -> unconnected w -> shutdownNow (wos w) = false -> next_client sock fd wire q (wos w) ->
  request_ok_wire id role flags precs ps -> 2 * len wire + 18 < Z.of_nat fuel ->
  wp (loop n (fun _ : unit => Accept_body fuel) tt) (fun r w' => r = 0 /\ exists o,
    client_from sock fd wire q (wos w) o /\
    accepted (set_req (set_ipcFd fd (req w)) (set_wos o w)) id role flags ps rest w') w.
Proof.
  intros wire Hn Hun Hs Hnext Hok Hf. pose proof (len_nonneg wire).
  destruct n as [|n]; [done|]. destruct fuel as [|fuel]; [lia|]. rewrite loop_unfold. wp_step.
  destruct (Accept_body_accepts fuel fd wire q w Hun Hnext) as (o & Hc & E).
  unfold wp at 1. rewrite E. set (w2 := set_req _ _).
  pose proof (cf_vars _ _ _ _ _ Hc) as Hv. unfold os_vars in Hv.
  eapply wp_mono; [apply (wp_Accept_body (S fuel) id role flags precs ps rest w2 Hok)|];
    [cbn; congruence| |exact (cf_in _ _ _ _ _ Hc)|exact Hf|].
  { destruct Hnext as (_ & Hfd & _). unfold fd_ok in Hfd. cbn. lia. }
  intros r w' [-> Ha]. wp_step. split; [done|]. by exists o.
Qed.

(** what was sent on a connection that was given up *)
Lemma dropped_sent v w w' : dropped v w w' -> exists bs,
  bs `prefix_of` replies_of (requestId (req w)) v /\
  os_out (ipcFd (req w)) (wos w') = os_out (ipcFd (req w)) (wos w) ++ bs.
Proof.
  intros [_ _ _ _ (o1 & (_ & _ & [bs Hbs]) & (_ & Ho & _) & _) Hs]. exists bs.
  rewrite Ho in *. split; [|done]. rewrite Hbs in Hs. by apply prefix_app_inv in Hs.
Qed.

(** The connection [v] is dropped, and the request of the next one is accepted. *)
Lemma wp_Accept_r_retry fuel fd v q id role flags precs ps rest w :
  let stale := requestId (req w) in
  let wire := request_wire id role flags precs rest in
  libInitialized w = true -> shutdownNow (wos w) = false -> shutdownPending (wos w) = false ->
  asyncIoInUse (aio (wos w)) = false -> webServerAddressList w = None ->
  kept_open (req w) -> listen_sock (req w) = sock -> fd_ok (ipcFd (req w)) = true ->
  os_in (ipcFd (req w)) (wos w) = v -> request_of stale v = NoRequest -> no_values stale v ->
  few_pairs stale v -> 2 * len v + 18 < Z.of_nat fuel ->
  waiting (os_files (wos w)) !! sock = Some (wire :: q) ->
  lowest_free fd (forget (ipcFd (req w)) (os_files (wos w))) ->
  request_ok_wire id role flags precs ps -> 2 * len wire + 18 < Z.of_nat fuel ->
  wp (FCGX_Accept_r fuel) (fun r w' => r = 0 /\
    (exists bs, bs `prefix_of` replies_of stale v /\
       os_out (ipcFd (req w)) (wos w') = os_out (ipcFd (req w)) (wos w) ++ bs) /\
    (forall fd', fd' <> ipcFd (req w) -> os_out fd' (wos w') = os_out fd' (wos w)) /\
    exists w1, ipcFd (req w1) = fd /\ accepted w1 id role flags ps rest w') w.
Proof.
  intros stale wire Hinit Hs Hsd Has Haddr Hk Hsock Hfd Hin Hno Hval Hfew Hf Hw Hfree Hok Hf2.
  unfold FCGX_Accept_r. wp_steps. rewrite Hinit. cbn [negb]. wp_step.
  apply wp_Finish_kept; [done|].
  pose proof (len_nonneg v). destruct fuel as [|[|fuel]]; [lia..|]. rewrite loop_unfold. wp_step.
  apply (Accept_body_any (fun o => match o with Ret r w' => _ r w' | Fault _ => False end)
    (S (S fuel)) v w); try done; [apply Hk|].
  fold stale. rewrite Hno. split; [split; [by destruct Hk|done]|].
  intros w1 Hd. pose proof (dropped_sent _ _ _ Hd) as Hsent.
  destruct Hd as [_ [_ Hneg] (Hls & _) (_ & _ & Haddr1) Hos _].
  apply hung_up_vars in Hos as (Hv & Hfl & Hoth). unfold os_vars in Hv.
  wp_use (wp_Accept_loop (S (S fuel)) (S fuel) fd q id role flags precs ps rest); try done.
  { split; [lia|congruence..]. } { congruence. } { unfold next_client. by rewrite Hfl. }
  intros r w' (-> & o2 & Hc & Ha). split; [done|].
  destruct (accepted_in_only _ _ _ _ _ _ _ Ha) as (_ & Ho & _). cbn [wos set_req set_wos] in Ho.
  destruct Hc as [_ _ _ _ Hou].
  split; [|split; [|eexists; split; [|exact Ha]; done]].
  - destruct Hsent as (bs & Hbs & Hout). exists bs. split; [done|]. by rewrite Ho, Hou.
  - intros fd' Hne. rewrite Ho, Hou. by apply Hoth.
Qed.
End Retry.
#[global] Arguments unconnected {_} _ _.
