(* ===== verification/Server.v ===== *)
(** * A server of several workers

    A process may serve several requests at a time, each worker with an
    [FCGX_Request] of its own and all of them with one listening socket.  A
    [Process] is the requests, the heap of streams and the state below;
    [run_event] is a call that a worker makes, and a schedule is a list of such
    calls in any order.  [spec] is what the server promises: the clients that wait
    are handed, in order, to the workers that ask for one, a worker reads what its
    own client sent, and each client is answered with what its own worker wrote.
    [serves] relates the two, and every step of a schedule preserves it. *)

From S2P Require Import Prelude Protocol Dispatch Platform OsUnix Params Stream Writer Reader.
From S2P Require Import Source Reads NameValue Demux Begin Request Accept Response Session Retry.
#[local] Open Scope Z_scope.

(** ** The process *)

Section Process.
Context `{Platform}.

Record Process := mkProcess {
  workers : gmap nat FCGX_Request;
  pr_heap : gmap positive FCGX_Stream;
  pr_os : OS;
  pr_isFastCGI : Z;
  pr_libInitialized : bool;
  pr_addrs : option (list Z)
}.

(** what the functions of [fcgiapp.c] see when they are given the request [r] *)
Definition view (r : FCGX_Request) (p : Process) : World :=
  mkWorld (pr_heap p) r (pr_os p) (pr_isFastCGI p) (pr_libInitialized p) (pr_addrs p).

Definition put_view (i : nat) (w : World) (p : Process) : Process :=
  mkProcess (<[i := req w]> (workers p)) (heap w) (wos w) (isFastCGI w) (libInitialized w)
    (webServerAddressList w).

(** a call with the request of worker [i] *)
Definition on_request {A} (i : nat) (m : M World A) : M Process A :=
  p <- get ;;
  r <- of_option (workers p !! i) ;;
  zoom (view r) (put_view i) m.
End Process.

Inductive event :=
  | Accept (i : nat)
  | Op (i : nat) (d : deed)
  | Finish (i : nat).

(** what a call returns *)
Inductive outcome :=
  | Accepted (rc : Z)
  | Did (res : option read_result)
  | Finished.

Definition event_worker (e : event) : nat :=
  match e with Accept i | Op i _ | Finish i => i end.

Definition event_ok (fuel : nat) (e : event) : Prop :=
  match e with Op _ d => deed_ok fuel d | _ => True end.

Section Run.
Context `{Platform}.
Variable fuel : nat.

(** the call and its result *)
Definition run_event (e : event) : M Process outcome :=
  match e with
  | Accept i => rc <- on_request i (FCGX_Accept_r fuel) ;; ret (Accepted rc)
  | Op i d => res <- on_request i (run_deed fuel d) ;; ret (Did res)
  | Finish i => on_request i (FCGX_Finish_r fuel) ;;; ret Finished
  end.

Fixpoint run_events (es : list event) : M Process (list outcome) :=
  match es with
  | [] => ret []
  | e :: es' => x <- run_event e ;; xs <- run_events es' ;; ret (x :: xs)
  end.
End Run.

(** ** What the server promises *)

(** a client and the request it sends *)
Record client := mkClient {
  cl_id : Z;
  cl_role : Z;
  cl_flags : Z;
  cl_params : list rec;
  cl_pairs : list (list Z * list Z);
  cl_rest : list Z
}.

Definition client_wire (c : client) : list Z :=
  request_wire (cl_id c) (cl_role c) (cl_flags c) (cl_params c) (cl_rest c).

(** one request on a connection of its own *)
Record client_ok (fuel : nat) (c : client) : Prop := {
  ck_wire : request_ok_wire (cl_id c) (cl_role c) (cl_flags c) (cl_params c) (cl_pairs c);
  ck_close : Z.land (cl_flags c) FCGI_KEEP_CONN = 0;
  ck_fuel : 2 * len (client_wire c) + 18 < Z.of_nat fuel
}.

(** a client and the session that answered it *)
Record reply := mkReply {
  re_client : client;
  re_session : session
}.

(** A worker without a client, with the exit status that its request holds, or in
    a session with one *)
Inductive worker :=
  | Idle (status : Z)
  | Busy (c : client) (ss : session).

Definition wk_status (k : worker) : Z :=
  match k with Idle status => status | Busy _ ss => sn_status ss end.

Record spec := mkSpec {
  sp_queue : list client;
  sp_workers : gmap nat worker;
  sp_done : list reply
}.

(** the worker's client, when it has one, has been answered *)
Definition spec_finish (i : nat) (s : spec) : option spec :=
  k ← sp_workers s !! i;
  Some match k with
  | Idle _ => s
  | Busy c ss =>
      mkSpec (sp_queue s) (<[i := Idle (sn_status ss)]> (sp_workers s)) (sp_done s ++ [mkReply c ss])
  end.

(** the session of a worker with the status [status] and a new client *)
Definition start_session (c : client) (status : Z) : session :=
  new_session (cl_id c) (cl_rest c) status.

(** [None] when no client waits, or the worker has none, or reads an input that is
    not known *)
Definition spec_step (e : event) (s : spec) : option (outcome * spec) :=
  match e with
  | Accept i =>
      s ← spec_finish i s;
      k ← sp_workers s !! i;
      match sp_queue s with
      | [] => None
      | c :: q => Some (Accepted 0, mkSpec q (<[i := Busy c (start_session c (wk_status k))]> (sp_workers s))
                                      (sp_done s))
      end
  | Op i d =>
      k ← sp_workers s !! i;
      match k with
      | Idle _ => None
      | Busy c ss =>
          '(res, ss) ← act d ss;
          Some (Did res, mkSpec (sp_queue s) (<[i := Busy c ss]> (sp_workers s)) (sp_done s))
      end
  | Finish i => s ← spec_finish i s; Some (Finished, s)
  end.

Fixpoint spec_run (es : list event) (s : spec) : option (list outcome * spec) :=
  match es with
  | [] => Some ([], s)
  | e :: es' => '(x, s) ← spec_step e s; '(xs, s) ← spec_run es' s; Some (x :: xs, s)
  end.

(** ** The server keeps its promise *)

(** the response records sent on each connection that was closed, in order; a
    descriptor may have served several clients *)
Definition log := list (Z * list rec).

Definition logged (l : log) (fd : Z) : list Z :=
  concat (map (fun x => if fst x =? fd then encode_all (snd x) else []) l).

Lemma logged_app l l' fd : logged (l ++ l') fd = logged l fd ++ logged l' fd.
Proof. unfold logged. by rewrite map_app, concat_app. Qed.

Lemma logged_one fd' rs fd : logged [(fd', rs)] fd = if fd' =? fd then encode_all rs else [].
Proof. unfold logged. cbn. by rewrite app_nil_r. Qed.

(** the reply is what was sent *)
Definition sent_reply (x : Z * list rec) (a : reply) : Prop :=
  answered (cl_id (re_client a)) (re_session a) (snd x).

Definition is_idle (k : worker) : Prop := match k with Idle _ => True | Busy _ _ => False end.

Definition idle (x : nat * worker) : Prop := is_idle (snd x).

#[export] Instance idle_dec x : Decision (idle x).
Proof. unfold idle, is_idle. destruct (snd x); [left|right]; tauto. Defined.

Definition idle_count (s : spec) : nat := size (filter idle (sp_workers s)).

(** 1 for an idle worker *)
Definition idles (k : worker) : nat := match k with Idle _ => 1 | Busy _ _ => 0 end.

Lemma filter_idle_size i k (m : gmap nat worker) :
  size (filter idle (<[i := k]> m)) = (size (filter idle (delete i m)) + idles k)%nat.
Proof.
  rewrite map_filter_insert. destruct (decide (idle (i, k))) as [Hk|Hk].
  - rewrite <- insert_delete_eq, map_filter_delete.
    rewrite map_size_insert_None by apply lookup_delete_eq. destruct k; [cbn; lia|done].
  - destruct k; [by destruct Hk|cbn; lia].
Qed.

Lemma idle_update i k k' s s' : sp_workers s !! i = Some k ->
  sp_workers s' = <[i := k']> (sp_workers s) ->
  (idle_count s' + idles k = idle_count s + idles k')%nat.
Proof.
  intros Hi Hs. unfold idle_count. rewrite Hs, filter_idle_size.
  rewrite <- (insert_id (sp_workers s) i k Hi) at 2. rewrite filter_idle_size. lia.
Qed.

(** ** The table of descriptors *)

Lemma opened_accept fd (X : gset Z) : fd ∉ X -> size ({[fd]} ∪ X) = S (size X).
Proof. intros Hn. rewrite size_union by (by apply disjoint_singleton_l). by rewrite size_singleton. Qed.

Lemma opened_close fd (X : gset Z) : fd ∈ X -> size X = S (size (X ∖ {[fd]})).
Proof.
  intros Hin. rewrite <- (opened_accept fd (X ∖ {[fd]})).
  - f_equal. apply union_difference_singleton_L, Hin.
  - rewrite elem_of_difference, elem_of_singleton. tauto.
Qed.

(** a table that is not full has a free descriptor *)
Lemma lowest_free_exists f : Z.of_nat (size (opened f)) < FD_SETSIZE -> exists fd, lowest_free fd f.
Proof.
  intros Hsize.
  assert (forall n, (n <= 1024)%nat -> (exists fd, lowest_free fd f) \/
    forall i, 0 <= i < Z.of_nat n -> i ∈ opened f) as Hall.
  { induction n as [|n IH]; intros Hn; [right; lia|]. destruct IH as [?|Hlow]; [lia|by left|].
    destruct (decide (Z.of_nat n ∈ opened f)) as [Hin|Hout].
    - right. intros i Hi. destruct (decide (i = Z.of_nat n)) as [->|]; [done|]. apply Hlow. lia.
    - left. exists (Z.of_nat n). split; [unfold fd_ok, FD_SETSIZE; lia|done]. }
  destruct (Hall 1024%nat) as [?|Hfull]; [lia|done|].
  assert (list_to_set (Z.of_nat <$> seq 0 1024) ⊆ opened f) as Hsub%subseteq_size.
  { intros i (n & -> & Hn%elem_of_seq)%elem_of_list_to_set%list_elem_of_fmap. apply Hfull. lia. }
  rewrite size_list_to_set, length_fmap, length_seq in Hsub.
  - unfold FD_SETSIZE in Hsize. lia.
  - apply (NoDup_fmap_2 Z.of_nat), NoDup_seq.
Qed.

Section Refinement.
Context `{Reliable} {sock : Z} `{!ListenSocket sock}.
Context (fuel : nat) (base : Z -> list Z).
Implicit Types (p : Process) (w : World) (s : spec) (l : log).

(** a request between two clients *)
Definition at_rest (r : FCGX_Request) : Prop :=
  vacant r /\ ipcFd r = -1 /\ keepConnection r = 0.

(** the connection on which [out] was sent before is [c]'s, in the session [ss] *)
Definition busy (out : list Z) (c : client) (ss : session) w : Prop :=
  exists recs addr,
    serving fuel out recs addr ss w /\
    requestId (req w) = cl_id c /\ keepConnection (req w) = 0 /\ fd_ok (ipcFd (req w)) = true /\
    ipcFd (req w) ∈ opened (os_files (wos w)) /\
    len (os_in (ipcFd (req w)) (wos w)) + 1 < Z.of_nat fuel.

Record works l (k : worker) w : Prop := {
  wo_status : appStatus (req w) = wk_status k;
  wo_sock : listen_sock (req w) = sock;
  wo_job : match k with
           | Idle _ => at_rest (req w)
           | Busy c ss => busy (base (ipcFd (req w)) ++ logged l (ipcFd (req w))) c ss w
           end
}.

(** what the workers have in common *)
Record shared l s p : Prop := {
  sh_init : pr_libInitialized p = true;
  sh_addrs : pr_addrs p = None;
  sh_now : shutdownNow (pr_os p) = false;
  sh_pending : shutdownPending (pr_os p) = false;
  sh_aio : asyncIoInUse (aio (pr_os p)) = false;
  sh_queue : waiting (os_files (pr_os p)) !! sock = Some (map client_wire (sp_queue s));
  sh_clients : Forall (client_ok fuel) (sp_queue s);
  sh_room : Z.of_nat (size (opened (os_files (pr_os p))) + idle_count s) <= FD_SETSIZE;
  sh_done : Forall2 sent_reply l (sp_done s)
}.

(** two workers' streams and connections are different *)
Definition apart (r r' : FCGX_Request) : Prop :=
  (forall a, owns r a -> ~ owns r' a) /\ (0 <= ipcFd r -> ipcFd r <> ipcFd r').

Record serves l s p : Prop := {
  sv_shared : shared l s p;
  sv_dom : forall i, workers p !! i = None <-> sp_workers s !! i = None;
  sv_works : forall i r k, workers p !! i = Some r -> sp_workers s !! i = Some k -> works l k (view r p);
  sv_apart : forall i j r r', i <> j -> workers p !! i = Some r -> workers p !! j = Some r' -> apart r r';
  sv_quiet : forall fd, 0 <= fd -> (forall i r, workers p !! i = Some r -> ipcFd r <> fd) ->
             os_out fd (pr_os p) = base fd ++ logged l fd
}.

(** ** One worker's step, as the others see it *)

Lemma responding_kept out recs acc addr w w' :
  responding out recs acc addr w -> req w' = req w ->
  (forall a st, owns (req w) a -> heap w !! a = Some st -> heap w' !! a = Some st) ->
  shutdownNow (wos w') = shutdownNow (wos w) ->
  os_out (ipcFd (req w)) (wos w') = os_out (ipcFd (req w)) (wos w) ->
  responding out recs acc addr w'.
Proof.
  intros [[Hid Hs] Hptr Hne Hst (c & sc & Hc & Hca & Hhc) Hp Hnw Hw Hrs] Hr Hh Hsd Hout.
  split; rewrite ?Hr; try done.
  - split; [by rewrite Hr|congruence].
  - intros x. destruct (Hst x) as (st & Ha & Ho). exists st. split; [|done].
    apply Hh; [|done]. unfold owns. pose proof (Hptr x). destruct x; tauto.
  - exists c, sc. split; [done|]. split; [done|]. apply Hh; [by left|done].
  - by rewrite Hout.
Qed.

Lemma serving_kept out recs addr ss w w' :
  serving fuel out recs addr ss w -> req w' = req w ->
  (forall a st, owns (req w) a -> heap w !! a = Some st -> heap w' !! a = Some st) ->
  shutdownNow (wos w') = shutdownNow (wos w) ->
  os_in (ipcFd (req w)) (wos w') = os_in (ipcFd (req w)) (wos w) ->
  os_out (ipcFd (req w)) (wos w') = os_out (ipcFd (req w)) (wos w) ->
  serving fuel out recs addr ss w'.
Proof.
  intros [HR Hin Hst] Hr Hh Hsd Hi Ho. split; [by eapply responding_kept| |by rewrite Hr].
  destruct Hin as (c & st & left & Hc & Hstc & Hleft & Hrd).
  exists c, st, left. rewrite Hr. split; [done|]. split; [apply Hh; [by left|done]|]. split; [done|].
  destruct (sn_in ss) as [lr|]; [|done].
  apply (reading_kept fuel _ _ lr (sstate w st)); cbn; by rewrite ?Hr.
Qed.

(** the streams of a worker are allocated *)
Lemma works_owned l k w a : works l k w -> owns (req w) a -> is_Some (heap w !! a).
Proof.
  intros [_ _ Hj] Ha. destruct k as [st|c ss].
  2: { destruct Hj as (recs & addr & [[_ Hptr _ Hst (ci & sc & Hc & _ & Hhc) _ _ _ _] _ _] & _).
    pose proof (Hptr Out) as Ho. pose proof (Hptr Err) as He. cbn in Ho, He.
    destruct (Hst Out) as (so & Hso & _), (Hst Err) as (se & Hse & _).
    destruct Ha as [Ha|[Ha|Ha]]; [rewrite Hc in Ha|rewrite Ho in Ha|rewrite He in Ha];
      injection Ha as <-; eauto. }
  - destruct Hj as ((Hi & Ho & He & _) & _). unfold owns in Ha. rewrite Hi, Ho, He in Ha.
    by destruct Ha as [|[|]].
Qed.

(** Worker [j] does not notice a step of another one, from [w] to [w'], which
    uses the connection [fd]. *)
Lemma works_kept l l' k fd w w' r p i :
  works l k (view r p) -> heap w = pr_heap p -> wos w = pr_os p ->
  elsewhere fd w w' -> ipcFd r <> fd -> (forall a, owns r a -> ~ owns (req w) a) ->
  (forall fd', fd' <> fd -> fd' ∈ opened (os_files (wos w)) -> fd' ∈ opened (os_files (wos w'))) ->
  logged l' (ipcFd r) = logged l (ipcFd r) ->
  works l' k (view r (put_view i w' p)).
Proof.
  intros [Hst Hsock Hj] Hh Ho Hew Hne Hown Hopen Hlog.
  destruct Hew as [Hheap _ _ [Hv Hoth]]. destruct (Hoth _ Hne) as [Hin Hout].
  unfold os_vars in Hv. split; [done|done|]. cbn [req view] in *. rewrite Hlog.
  destruct k as [st|c ss]; [done|].
  destruct Hj as (recs & addr & HR & Hid & Hk & Hfd & Hop & Hf). exists recs, addr.
  cbn [req wos view put_view pr_os] in *. rewrite <- Ho in *.
  split; [|split_and!; try done; [by apply Hopen|by rewrite Hin]].
  eapply serving_kept; [exact HR|done|..]; cbn; rewrite <- ?Ho, <- ?Hh; try congruence.
  intros a st Ha Hl. apply Hheap; [done|]. by apply Hown.
Qed.
(** A step of worker [i], from [view r p] to [w'], which uses the connection [fd]:
    its own, or a new one. *)
Record worker_step i r fd l l' s s' p w' : Prop := {
  ws_fd : 0 <= fd;
  ws_elsewhere : elsewhere fd (view r p) w';
  ws_before : 0 <= ipcFd r -> ipcFd r = fd;
  ws_after : 0 <= ipcFd (req w') -> ipcFd (req w') = fd;
  ws_fresh : ipcFd r < 0 -> fd ∉ opened (os_files (pr_os p));
  ws_opened : forall fd', fd' <> fd -> fd' ∈ opened (os_files (pr_os p)) ->
              fd' ∈ opened (os_files (wos w'));
  ws_logged : forall fd', fd' <> fd -> logged l' fd' = logged l fd';
  ws_quiet : ipcFd (req w') <> fd -> os_out fd (wos w') = base fd ++ logged l' fd;
  ws_spec : exists k', sp_workers s' = <[i := k']> (sp_workers s) /\ works l' k' w';
  ws_shared : shared l' s' (put_view i w' p)
}.

(** the descriptor of a worker is in use *)
Lemma works_opened l k r p : works l k (view r p) -> 0 <= ipcFd r ->
  ipcFd r ∈ opened (os_files (pr_os p)).
Proof.
  intros [_ _ Hj] Hfd. destruct k as [st|c ss].
  - destruct Hj as (_ & Hneg & _). cbn in Hneg. lia.
  - by destruct Hj as (recs & addr & _ & _ & _ & _ & Hop & _).
Qed.

Lemma view_put i w p : view (req w) (put_view i w p) = w.
Proof. by destruct w. Qed.

Lemma serves_worker l s p i r : serves l s p -> workers p !! i = Some r ->
  exists k, sp_workers s !! i = Some k /\ works l k (view r p).
Proof.
  intros [_ Hdom Hw _ _] Hr. destruct (sp_workers s !! i) as [k|] eqn:Hk.
  - exists k. split; [done|]. by eapply Hw.
  - apply Hdom in Hk. congruence.
Qed.

(** the step leaves the other workers as they were *)
Lemma step_others i r fd l l' s s' p w' j r' k :
  serves l s p -> workers p !! i = Some r -> worker_step i r fd l l' s s' p w' ->
  j <> i -> workers p !! j = Some r' -> works l k (view r' p) ->
  ipcFd r' <> fd /\ works l' k (view r' (put_view i w' p)).
Proof.
  intros Hsv Hr [Hfd Hew Hbef _ Hnew Hop Hlog _ _ _] Hji Hr' Hk.
  assert (ipcFd r' <> fd) as Hne.
  { intros E. pose proof (sv_apart _ _ _ Hsv i j r r' (not_eq_sym Hji) Hr Hr') as [_ Hapart].
    destruct (Z.ltb_spec (ipcFd r) 0) as [Hn|Hp]; [|rewrite (Hbef Hp) in Hapart; by apply Hapart].
    destruct (Z.ltb_spec (ipcFd r') 0) as [Hn'|Hp'].
    - lia.
    - apply (Hnew Hn). rewrite <- E. by apply (works_opened l k). }
  split; [done|].
  refine (works_kept l l' k fd (view r p) w' r' p i Hk eq_refl eq_refl Hew Hne _ Hop (Hlog _ Hne)).
  intros a Ha Ha'. destruct (sv_apart _ _ _ Hsv j i r' r Hji Hr' Hr) as [Hown _]. by apply (Hown a).
Qed.
Lemma serves_step i r fd l l' s s' p w' :
  serves l s p -> workers p !! i = Some r -> worker_step i r fd l l' s s' p w' ->
  serves l' s' (put_view i w' p).
Proof.
  intros Hsv Hr Hstep. pose proof Hstep as [Hfd Hew _ Haft _ _ Hlog Hq (k' & Hsp & Hw') Hsh].
  assert (forall j r', j <> i -> workers p !! j = Some r' -> exists k,
    sp_workers s !! j = Some k /\ ipcFd r' <> fd /\ works l' k (view r' (put_view i w' p)) /\
    apart (req w') r' /\ apart r' (req w')) as Hothers.
  { intros j r' Hji Hr'. destruct (serves_worker _ _ _ _ _ Hsv Hr') as (k & Hk & Hw).
    destruct (step_others _ _ _ _ _ _ _ _ _ _ _ _ Hsv Hr Hstep Hji Hr' Hw) as [Hne Hw2].
    assert (forall a, owns (req w') a -> ~ owns r' a) as Hown.
    { intros a Ha Ha'. apply (ew_owns _ _ _ Hew) in Ha as [Ha|Ha].
      - destruct (sv_apart _ _ _ Hsv i j r r' (not_eq_sym Hji) Hr Hr') as [Hown _]. by apply (Hown a).
      - destruct (works_owned _ _ _ a Hw Ha') as [st Hst]. cbn in Hst, Ha. congruence. }
    exists k. split; [done|]. split; [done|]. split; [done|].
    split; (split; [intros a Ha Ha'; by apply (Hown a)|]); intros Hp E.
    - apply Hne. rewrite <- E. by apply Haft.
    - apply Hne. rewrite E in Hp |- *. by apply Haft. }
  split; [done|..].
  - intros j. cbn [put_view workers]. rewrite Hsp. destruct (decide (j = i)) as [->|Hji].
    + by rewrite !lookup_insert_eq.
    + rewrite !lookup_insert_ne by done. apply (sv_dom _ _ _ Hsv).
  - intros j r' k. cbn [put_view workers]. rewrite Hsp. destruct (decide (j = i)) as [->|Hji].
    + rewrite !lookup_insert_eq. intros [= <-] [= <-]. by rewrite view_put.
    + rewrite !lookup_insert_ne by done. intros Hr' Hk.
      destruct (Hothers j r' Hji Hr') as (k1 & Hk1 & _ & Hw & _). by rewrite Hk1 in Hk; simplify_eq.
  - intros j1 j2 r1 r2 Hj. cbn [put_view workers].
    destruct (decide (j1 = i)) as [->|Hj1], (decide (j2 = i)) as [->|Hj2]; [done|..];
      rewrite ?lookup_insert_eq, ?lookup_insert_ne by done.
    + intros [= <-] Hr2. by destruct (Hothers j2 r2 Hj2 Hr2) as (_ & _ & _ & _ & ? & _).
    + intros Hr1 [= <-]. by destruct (Hothers j1 r1 Hj1 Hr1) as (_ & _ & _ & _ & _ & ?).
    + by apply (sv_apart _ _ _ Hsv).
  - intros fd' Hfd' Hnone. cbn [put_view pr_os workers] in *.
    pose proof (Hnone i (req w') (lookup_insert_eq _ _ _)) as Hi.
    destruct (decide (fd' = fd)) as [->|Hne]; [by apply Hq|].
    rewrite Hlog by done. destruct (ew_os _ _ _ Hew) as [_ Hoth].
    destruct (Hoth fd' Hne) as [_ ->]. apply (sv_quiet _ _ _ Hsv); [done|].
    intros j r' Hr'. destruct (decide (j = i)) as [->|Hji].
    + rewrite Hr in Hr'. injection Hr' as <-. intros E. apply Hne.
      rewrite <- E. apply (ws_before _ _ _ _ _ _ _ _ _ Hstep). lia.
    + apply (Hnone j). by rewrite lookup_insert_ne.
Qed.
Lemma shared_step i r k k' l l' s s' p w' :
  shared l s p -> sp_workers s !! i = Some k -> sp_workers s' = <[i := k']> (sp_workers s) ->
  lib_kept (view r p) w' -> os_vars (wos w') = os_vars (pr_os p) ->
  waiting (os_files (wos w')) !! sock = Some (map client_wire (sp_queue s')) ->
  sp_queue s' `suffix_of` sp_queue s ->
  (size (opened (os_files (wos w'))) + idles k' <= size (opened (os_files (pr_os p))) + idles k)%nat ->
  Forall2 sent_reply l' (sp_done s') -> shared l' s' (put_view i w' p).
Proof.
  intros [Hinit Haddr Hnow Hpend Haio _ Hcl Hroom _] Hk Hs (_ & Hl & Ha) Hv Hq [q Hsuf] Hsize Hdone.
  pose proof (idle_update i k k' s s' Hk Hs). unfold os_vars in Hv.
  split; cbn in *; try done; try congruence.
  - rewrite Hsuf in Hcl. by apply Forall_app in Hcl as [_ Hcl].
  - lia.
Qed.

(** ** The three calls *)

(** what a busy worker does in its session *)
Lemma wp_op_worker i d x s s' l p r :
  65536 < Z.of_nat fuel -> deed_ok fuel d -> serves l s p -> workers p !! i = Some r ->
  spec_step (Op i d) s = Some (x, s') ->
  wp (run_deed fuel d) (fun res w' => Did res = x /\ serves l s' (put_view i w' p)) (view r p).
Proof.
  intros Hf Hok Hsv Hr Hspec. destruct (serves_worker _ _ _ _ _ Hsv Hr) as (k & Hk & Hw).
  cbn in Hspec. rewrite Hk in Hspec. cbn in Hspec. destruct Hw as [Hst Hsock Hj].
  destruct k as [st|c ss]; [done|]. destruct (act d ss) as [[res ss']|] eqn:Hact; [|done].
  cbn in Hspec. injection Hspec as <- <-.
  destruct Hj as (recs & addr & HR & Hid & Hkeep & Hfd & Hopn & Hin).
  wp_use (wp_run_deed fuel d res ss' _ _ _ _ _ Hf Hok HR Hact).
  intros res' w' (-> & new & HR' & Hew & Hreq & Hstat & Hfl). split; [done|]. cbn [req view] in *.
  assert (0 <= ipcFd r) as Hpos by (unfold fd_ok in Hfd; lia).
  assert (ipcFd (req w') = ipcFd r) as Hfd' by (by rewrite Hreq).
  assert (os_files (wos w') = os_files (pr_os p)) as Hfiles by exact (f_equal snd Hstat).
  eapply (serves_step i r (ipcFd r) l l s); [done|done|].
  split; try done; rewrite ?Hfiles; try done; [intros ?; lia|..].
  - exists (Busy c ss'). split; [done|]. split; cbn [wk_status].
    + by rewrite Hreq.
    + rewrite Hreq. exact Hsock.
    + rewrite Hfd'. exists (recs ++ new), addr. rewrite Hfiles, Hfd'. split; [exact HR'|].
      rewrite Hreq. split_and!; try done. by apply Hfl.
  - eapply (shared_step i r (Busy c ss)); [apply Hsv|done|done|apply Hew|exact (f_equal fst Hstat)|..];
      cbn [sp_queue sp_done]; rewrite ?Hfiles; try apply Hsv; done.
Qed.

(** the request of a worker after its client was answered *)
Lemma freed_at_rest r st : keepConnection r = 0 -> appStatus r = st ->
  at_rest (freed true (set_nWriters 0 r)) /\ appStatus (freed true (set_nWriters 0 r)) = st /\
  listen_sock (freed true (set_nWriters 0 r)) = listen_sock r.
Proof. done. Qed.

Lemma wp_finish_busy i c ss l s p r :
  65536 < Z.of_nat fuel -> serves l s p -> workers p !! i = Some r ->
  sp_workers s !! i = Some (Busy c ss) ->
  let s' := mkSpec (sp_queue s) (<[i := Idle (sn_status ss)]> (sp_workers s))
              (sp_done s ++ [mkReply c ss]) in
  wp (FCGX_Finish_r fuel) (fun _ w' => exists l', serves l' s' (put_view i w' p)) (view r p).
Proof.
  intros Hf Hsv Hr Hk s'. destruct (sv_works _ _ _ Hsv i r _ Hr Hk) as [Hst Hsock Hj].
  destruct Hj as (recs & addr & Hses & Hid & Hkeep & Hfd & Hopn & Hin). pose proof Hses as [HR _ _].
  pose proof (sv_shared _ _ _ Hsv) as Hsh.
  wp_use (wp_Finish_r fuel); [done|exact HR|by intros _; split; [|split; [apply Hsh|]]|].
  intros _ w' (a & rs & _ & _ & Hreq & Hresp & Hout & Hew & Hfiles). cbn [req wos view] in *.
  assert (hangs_up (view r p) = true) as Hhang by (unfold hangs_up; cbn in Hkeep |- *; by rewrite Hkeep).
  rewrite Hhang in Hreq, Hfiles.
  destruct (freed_at_rest r (sn_status ss) Hkeep Hst) as (Hrest & Hst' & Hsock').
  rewrite <- Hreq in Hrest, Hst', Hsock'. pose proof Hrest as (_ & Hneg & _).
  assert (0 <= ipcFd r) as Hpos by (unfold fd_ok in Hfd; lia).
  exists (l ++ [(ipcFd r, rs)]).
  assert (forall fd, logged (l ++ [(ipcFd r, rs)]) fd =
    logged l fd ++ if ipcFd r =? fd then encode_all rs else []) as Hlog.
  { intros fd. by rewrite logged_app, logged_one. }
  eapply (serves_step i r (ipcFd r) l _ s); [done|done|].
  split; try done; rewrite ?Hfiles; [intros ?; lia|intros ?; lia|..].
  - intros fd' Hne Hin'. cbn. by apply elem_of_difference; rewrite elem_of_singleton.
  - intros fd' Hne. rewrite Hlog. replace (ipcFd r =? fd') with false by lia. by rewrite app_nil_r.
  - intros _. by rewrite Hlog, Z.eqb_refl, app_assoc.
  - exists (Idle (sn_status ss)). split; [done|]. split; cbn; [done|congruence|done].
  - eapply (shared_step i r (Busy c ss)); [done|done|done|apply Hew|apply Hew|..]; cbn [sp_queue sp_done s'].
    + rewrite Hfiles. apply Hsh.
    + done.
    + rewrite Hfiles. cbn in Hopn |- *.
      rewrite (opened_close _ _ Hopn). lia.
    + apply Forall2_app; [apply Hsh|]. constructor; [|constructor].
      unfold sent_reply. cbn in Hst, Hid |- *. rewrite <- Hid. eapply serving_answered; [exact Hses|].
      by rewrite <- Hst.
Qed.
(** [FCGX_Finish_r] has nothing to do for a request at rest *)
Lemma wp_Finish_rest w (Q : unit -> World -> Prop) :
  at_rest (req w) -> Q tt w -> wp (FCGX_Finish_r fuel) Q w.
Proof.
  intros ((Hi & Ho & He & Hp) & Hfd & Hk) HQ. unfold FCGX_Finish_r, get_req. wp_steps.
  rewrite Hi, Hk. wp_steps. unfold FCGX_Free, get_req, upd_req. wp_steps.
  rewrite Hi, Ho, He, Hp, Hfd. unfold FCGX_FreeStream, FreeParams, with_os, OS_IpcClose, OS_Close.
  change (-1 =? -1) with true. change (0 =? 0) with true. wp_steps.
  match goal with |- Q _ ?w1 => assert (w1 = w) as Hw end.
  { destruct w as [h r o f i l], r. cbn in *. by subst. }
  by rewrite Hw.
Qed.

Lemma put_view_same i r p : workers p !! i = Some r -> put_view i (view r p) p = p.
Proof. intros Hr. unfold put_view. cbn. rewrite insert_id by done. by destruct p. Qed.

(** finishing leaves the worker without a client *)
Lemma wp_finish_worker i s s' l p r :
  65536 < Z.of_nat fuel -> serves l s p -> workers p !! i = Some r -> spec_finish i s = Some s' ->
  wp (FCGX_Finish_r fuel) (fun _ w' => (exists l', serves l' s' (put_view i w' p)) /\
    exists status, sp_workers s' !! i = Some (Idle status)) (view r p).
Proof.
  intros Hf Hsv Hr Hspec. destruct (serves_worker _ _ _ _ _ Hsv Hr) as (k & Hk & Hw).
  unfold spec_finish in Hspec. rewrite Hk in Hspec. cbn in Hspec. injection Hspec as <-.
  destruct k as [st|c ss].
  - apply wp_Finish_rest; [apply Hw|].
    rewrite put_view_same by done. split; [by exists l|by exists st].
  - wp_use (wp_finish_busy i c ss); [done|exact Hsv|done|done|].
    intros _ w' Hl. split; [exact Hl|]. eexists. cbn [sp_workers]. apply lookup_insert_eq.
Qed.

(** an accepted client's request is in its first session, on the connection [fd] of
    which [out] was sent before *)
Lemma accepted_busy w0 c fd out w :
  accepted w0 (cl_id c) (cl_role c) (cl_flags c) (cl_pairs c) (cl_rest c) w ->
  client_ok fuel c -> shutdownNow (wos w0) = false -> ipcFd (req w) = fd -> fd_ok fd = true ->
  os_out fd (wos w0) = out -> fd ∈ opened (os_files (wos w)) ->
  busy out c (start_session c (appStatus (req w0))) w.
Proof.
  intros Hacc [Hwire Hclose Hfc] Hsd Hfd Hok <- Hin. subst fd. pose proof (rw_id _ _ _ _ _ Hwire) as Hid.
  pose proof (ac_req _ _ _ _ _ _ _ _ Hacc) as (Hid' & _ & Hkeep & _).
  pose proof (request_wire_rest (cl_id c) (cl_role c) (cl_flags c) (cl_params c) (cl_rest c)) as Hle.
  unfold client_wire in Hfc. pose proof (len_nonneg (cl_rest c)).
  destruct (accepted_serving fuel _ _ _ _ _ _ _ Hacc Hid Hsd) as [addr HR]; [lia|].
  destruct (accepted_in_only _ _ _ _ _ _ _ Hacc) as (_ & Ho & _). rewrite Ho in HR.
  destruct (accepted_reader _ _ _ _ _ _ _ Hacc) as (a & st & _ & _ & _ & Hat).
  pose proof (os_in_rview (sstate w st)) as Hrest. rewrite (ra_view _ _ _ Hat) in Hrest. cbn in Hrest.
  exists [], addr. split; [exact HR|]. split_and!; try done; [congruence|lia].
Qed.

(** accepting a client on [fd] leaves other requests and connections alone *)
Lemma accepted_frame fd wire q w o id role flags ps rest w' :
  client_from sock fd wire q (wos w) o ->
  accepted (set_req (set_ipcFd fd (req w)) (set_wos o w)) id role flags ps rest w' ->
  os_files (wos w') = mkFiles ({[fd]} ∪ opened (os_files (wos w))) (<[sock := q]> (waiting (os_files (wos w)))) /\
  elsewhere fd w w'.
Proof.
  intros [Hv Hf Hi Ho Hu] Hacc. pose proof Hacc as [(_ & _ & _ & Hfd & _) _ _ _ _ (Hheap & Hnew & Hlib)].
  destruct (accepted_in_only _ _ _ _ _ _ _ Hacc) as (Hs & Huo & Hio).
  cbn in Hs, Huo, Hio, Hfd, Hheap, Hnew, Hlib. rewrite Hfd in Hio.
  split; [rewrite <- Hf; exact (f_equal snd Hs)|]. split; [| |exact Hlib|split].
  - intros a st Ha _. by eapply lookup_weaken.
  - intros a Ha. right. by apply Hnew.
  - rewrite <- Hv. exact (f_equal fst Hs).
  - intros fd' Hne. by rewrite Hio, Huo, Ho, Hu.
Qed.

(** a worker without a client gets the next one that waits *)
Lemma wp_accept_worker i status c q l s p r :
  65536 < Z.of_nat fuel -> serves l s p -> workers p !! i = Some r ->
  sp_workers s !! i = Some (Idle status) -> sp_queue s = c :: q ->
  let s' := mkSpec q (<[i := Busy c (start_session c status)]> (sp_workers s)) (sp_done s) in
  wp (loop fuel (fun _ : unit => Accept_body fuel) tt)
    (fun rc w' => rc = 0 /\ serves l s' (put_view i w' p)) (view r p).
Proof.
  intros Hf Hsv Hr Hk Hqueue s'. pose proof (sv_shared _ _ _ Hsv) as Hsh.
  destruct (sv_works _ _ _ Hsv i r _ Hr Hk) as [Hst Hsock Hj].
  destruct Hj as (_ & Hneg & _). cbn in Hneg, Hst, Hsock.
  pose proof (sh_queue _ _ _ Hsh) as Hq. rewrite Hqueue in Hq. cbn [map] in Hq.
  pose proof (sh_clients _ _ _ Hsh) as Hcl. rewrite Hqueue, Forall_cons in Hcl.
  destruct Hcl as [Hcok _]. pose proof Hcok as [Hwire Hclose Hfc].
  pose proof (sh_room _ _ _ Hsh) as Hroom.
  destruct (lowest_free_exists (os_files (pr_os p))) as [fd Hfree].
  { pose proof (idle_update i _ (Busy c (start_session c status)) s s' Hk eq_refl).
    cbn [idles] in *. lia. }
  wp_use (wp_Accept_loop fuel fuel fd (map client_wire q) (cl_id c) (cl_role c) (cl_flags c)
    (cl_params c) (cl_pairs c) (cl_rest c)).
  { lia. } { split; [cbn; lia|done|apply Hsh|apply Hsh]. }
  { apply Hsh. } { by split. } { done. } { exact Hfc. }
  intros rc w' (-> & o & Hc & Hacc). split; [done|].
  destruct (accepted_frame _ _ _ _ _ _ _ _ _ _ _ Hc Hacc) as [Hfiles Hew]. cbn [wos view] in Hfiles.
  pose proof (ac_req _ _ _ _ _ _ _ _ Hacc) as (Hid & _ & Hkeep & Hfd & Hst' & _ & Hsock' & _).
  cbn in Hid, Hkeep, Hfd, Hst', Hsock'.
  destruct Hfree as (Hok & Hnot & _). assert (0 <= fd) as Hpos by (unfold fd_ok in Hok; lia).
  eapply (serves_step i r fd l l s); [done|done|].
  split; try done; rewrite ?Hfiles; [lia|..].
  - intros fd' _ Hin. cbn. apply elem_of_union. by right.
  - exists (Busy c (start_session c status)). split; [done|]. split.
    { cbn. unfold start_session. rewrite (proj1 (new_session_start _ _ _)). congruence. } { congruence. }
    rewrite Hfd. replace status with (appStatus r) by done.
    refine (accepted_busy _ c fd _ w' Hacc Hcok _ Hfd Hok _ _).
    + pose proof (cf_vars _ _ _ _ _ Hc) as Hv. unfold os_vars in Hv. destruct Hsh. cbn in *. congruence.
    + cbn. rewrite (cf_out _ _ _ _ _ Hc). apply (sv_quiet _ _ _ Hsv fd Hpos). intros j rj Hrj <-.
      destruct (serves_worker _ _ _ _ _ Hsv Hrj) as (kj & _ & Hwj). by apply Hnot, (works_opened l kj).
    + rewrite Hfiles. cbn. apply elem_of_union_l, elem_of_singleton. done.
  - eapply (shared_step i r (Idle status)); [done|done|done|apply Hew|apply Hew|..];
      cbn [sp_queue sp_done s'].
    + rewrite Hfiles. cbn. apply lookup_insert_eq.
    + rewrite Hqueue. by exists [c].
    + rewrite Hfiles. cbn [opened]. rewrite opened_accept by done. cbn. lia.
    + apply Hsh.
Qed.
(** ** Schedules *)

Lemma wp_on_request {A} i r (m : M World A) (Q : A -> Process -> Prop) p :
  workers p !! i = Some r -> wp m (fun x w' => Q x (put_view i w' p)) (view r p) ->
  wp (on_request i m) Q p.
Proof.
  intros Hr Hm. unfold on_request. wp_steps. eapply wp_of_option; [exact Hr|]. by apply wp_zoom.
Qed.

Lemma spec_step_worker e x s s' :
  spec_step e s = Some (x, s') -> is_Some (sp_workers s !! event_worker e).
Proof.
  destruct e as [i|i d|i]; cbn; unfold spec_finish; destruct (sp_workers s !! i); eauto; done.
Qed.

(** Every call that the specification allows returns what it says and keeps the
    promise. *)
Lemma wp_run_event e x s s' l p :
  65536 < Z.of_nat fuel -> event_ok fuel e -> serves l s p -> spec_step e s = Some (x, s') ->
  wp (run_event fuel e) (fun y p' => y = x /\ exists l', serves l' s' p') p.
Proof.
  intros Hf Hok Hsv Hspec. pose proof (spec_step_worker e x s s' Hspec) as [k0 Hk0].
  destruct (workers p !! event_worker e) as [r|] eqn:Hr.
  2: { apply (sv_dom _ _ _ Hsv) in Hr. congruence. }
  destruct e as [i|i d|i]; cbn [run_event event_worker event_ok] in *; wp_step.
  - eapply wp_on_request; [exact Hr|]. unfold FCGX_Accept_r. wp_steps.
    rewrite (sh_init _ _ _ (sv_shared _ _ _ Hsv) : libInitialized (view r p) = true). cbn [negb]. wp_step.
    cbn in Hspec. destruct (spec_finish i s) as [s1|] eqn:Hfin; [|done]. cbn in Hspec.
    wp_use (wp_finish_worker i s s1); [done|exact Hsv|done|done|].
    intros _ w1 [(l1 & Hsv1) (st & Hk)]. rewrite Hk in Hspec. cbn in Hspec.
    destruct (sp_queue s1) as [|c q] eqn:Hq; [done|]. injection Hspec as <- <-.
    rewrite <- (view_put i w1 p) at 1.
    wp_use (wp_accept_worker i st c q l1 s1 (put_view i w1 p) (req w1));
      [done|exact Hsv1|apply lookup_insert_eq|done|done|].
    intros rc w' [-> Hsv']. wp_step. split; [done|]. exists l1. unfold put_view in *. cbn in *.
    by rewrite insert_insert_eq in Hsv'.
  - eapply wp_on_request; [exact Hr|].
    wp_use (wp_op_worker i d x s s' l p r); [done|done|done|done|done|].
    intros res w' [<- Hsv']. wp_step. eauto.
  - eapply wp_on_request; [exact Hr|]. cbn in Hspec.
    destruct (spec_finish i s) as [s1|] eqn:Hfin; [|done]. injection Hspec as <- <-.
    wp_use (wp_finish_worker i s s1 l p r); [done|done|done|done|].
    intros _ w' [Hsv' _]. by wp_step.
Qed.

Lemma wp_run_events es xs s s' l p :
  65536 < Z.of_nat fuel -> Forall (event_ok fuel) es -> serves l s p ->
  spec_run es s = Some (xs, s') ->
  wp (run_events fuel es) (fun ys p' => ys = xs /\ exists l', serves l' s' p') p.
Proof.
  intros Hf. revert xs s l p. induction es as [|e es IH]; intros xs s l p Hok Hsv Hspec; cbn in *.
  { injection Hspec as <- <-. wp_step. eauto. }
  rewrite Forall_cons in Hok. destruct Hok as [He Hes].
  destruct (spec_step e s) as [[x s1]|] eqn:Hs1; [|done]. cbn in Hspec.
  destruct (spec_run es s1) as [[xs1 s2]|] eqn:Hs2; [|done]. injection Hspec as <- <-. wp_step.
  wp_use (wp_run_event e x s s1); [done|done|exact Hsv|done|]. intros y p1 (-> & l1 & Hsv1). wp_step.
  wp_use (IH xs1 s1); [done|exact Hsv1|exact Hs2|]. intros ys p2 [-> Hl2]. by wp_step.
Qed.
End Refinement.

(** ** No client is lost, or answered twice *)

Definition job_client (k : worker) : list client :=
  match k with Idle _ => [] | Busy c _ => [c] end.

(** the clients that are being served *)
Definition in_service (m : gmap nat worker) : list client :=
  map_to_list m ≫= (fun x => job_client (snd x)).

Definition all_clients (s : spec) : list client :=
  sp_queue s ++ in_service (sp_workers s) ++ map re_client (sp_done s).

Lemma in_service_delete m i k : m !! i = Some k ->
  in_service m ≡ₚ job_client k ++ in_service (delete i m).
Proof. intros Hi. unfold in_service. by rewrite <- (map_to_list_delete m i k Hi). Qed.

Lemma in_service_insert m i k : in_service (<[i := k]> m) ≡ₚ job_client k ++ in_service (delete i m).
Proof.
  rewrite (in_service_delete _ i k) by apply lookup_insert_eq. by rewrite delete_insert_eq.
Qed.

Lemma spec_finish_clients i s s' : spec_finish i s = Some s' ->
  all_clients s' ≡ₚ all_clients s /\ exists status, sp_workers s' !! i = Some (Idle status).
Proof.
  unfold spec_finish. destruct (sp_workers s !! i) as [[st|c ss]|] eqn:Hk; [..|done]; intros [= <-].
  - split; [done|]. by exists st.
  - unfold all_clients. cbn [sp_queue sp_workers sp_done]. rewrite in_service_insert.
    rewrite (in_service_delete (sp_workers s) i _ Hk), map_app. cbn. split.
    + f_equiv. rewrite app_assoc. symmetry. apply Permutation_cons_append.
    + eexists. by rewrite lookup_insert_eq.
Qed.

Lemma spec_step_clients e x s s' : spec_step e s = Some (x, s') -> all_clients s' ≡ₚ all_clients s.
Proof.
  destruct e as [i|i d|i]; cbn.
  - destruct (spec_finish i s) as [s1|] eqn:Hfin; [|done]. cbn.
    apply spec_finish_clients in Hfin as [<- (st & Hk)]. rewrite Hk. cbn.
    destruct (sp_queue s1) as [|c q] eqn:Hq; [done|]. intros [= <- <-].
    unfold all_clients. cbn [sp_queue sp_workers sp_done]. rewrite Hq, in_service_insert.
    rewrite (in_service_delete (sp_workers s1) i _ Hk). cbn. symmetry. apply Permutation_middle.
  - destruct (sp_workers s !! i) as [[st|c ss]|] eqn:Hk; [done| |done]. cbn.
    destruct (act d ss) as [[res ss']|]; [|done]. intros [= <- <-].
    unfold all_clients. cbn [sp_queue sp_workers sp_done]. rewrite in_service_insert.
    by rewrite (in_service_delete (sp_workers s) i _ Hk).
  - destruct (spec_finish i s) as [s1|] eqn:Hfin; [|done]. intros [= <- <-].
    by apply spec_finish_clients in Hfin as [-> _].
Qed.

Lemma spec_run_clients es xs s s' : spec_run es s = Some (xs, s') -> all_clients s' ≡ₚ all_clients s.
Proof.
  revert xs s. induction es as [|e es IH]; intros xs s; cbn; [by intros [= <- ->]|].
  destruct (spec_step e s) as [[x s1]|] eqn:Hs1; [|done]. cbn.
  destruct (spec_run es s1) as [[xs1 s2]|] eqn:Hs2; [|done]. intros [= <- <-].
  rewrite (IH xs1 s1 Hs2). by eapply spec_step_clients.
Qed.

Definition all_idle (s : spec) : Prop := map_Forall (fun _ => is_idle) (sp_workers s).

Lemma idle_in_service m : map_Forall (fun _ => is_idle) m -> in_service m = [].
Proof.
  intros Hidle. unfold in_service.
  assert (Forall (fun x : nat * worker => is_idle (snd x)) (map_to_list m)) as Hall.
  { apply Forall_forall. intros [i k] Hk%elem_of_map_to_list. by eapply Hidle. }
  induction Hall as [|[i [st|c ss]] l Hx _ IH]; [done|exact IH|done].
Qed.

Lemma idle_done s : all_idle s -> sp_queue s = [] -> all_clients s = map re_client (sp_done s).
Proof. intros Hidle Hq. unfold all_clients. by rewrite Hq, idle_in_service. Qed.

(** when no worker is busy, nothing but complete responses was sent *)
Lemma serves_idle `{Reliable} {sock : Z} `{!ListenSocket sock} fuel base l s (p : Process) fd :
  serves (sock := sock) fuel base l s p -> all_idle s -> 0 <= fd ->
  os_out fd (pr_os p) = base fd ++ logged l fd.
Proof.
  intros Hsv Hidle Hfd. apply (sv_quiet _ _ _ _ _ Hsv fd Hfd). intros i r Hi.
  destruct (serves_worker _ _ _ _ _ _ _ Hsv Hi) as (k & Hk & [_ _ Hj]).
  pose proof (Hidle i k Hk) as Hk'. destruct k as [st|c ss]; [|done].
  destruct Hj as (_ & Hneg & _). cbn in Hneg. lia.
Qed.

(** ** A server that starts *)

Section Start.
Context `{Reliable} {sock : Z} `{!ListenSocket sock}.
Implicit Types (p : Process).

(** the workers' requests are initialised, and the clients [queue] wait *)
Record ready (fuel : nat) (queue : list client) p : Prop := {
  rd_workers : map_Forall (fun _ r => at_rest r /\ listen_sock r = sock) (workers p);
  rd_init : pr_libInitialized p = true;
  rd_addrs : pr_addrs p = None;
  rd_now : shutdownNow (pr_os p) = false;
  rd_pending : shutdownPending (pr_os p) = false;
  rd_aio : asyncIoInUse (aio (pr_os p)) = false;
  rd_queue : waiting (os_files (pr_os p)) !! sock = Some (map client_wire queue);
  rd_clients : Forall (client_ok fuel) queue;
  rd_room : Z.of_nat (size (opened (os_files (pr_os p))) + size (workers p)) <= FD_SETSIZE
}.

Definition start_spec (queue : list client) p : spec :=
  mkSpec queue ((fun r => Idle (appStatus r)) <$> workers p) [].

Lemma start_idle queue p : all_idle (start_spec queue p).
Proof. intros i k. cbn. rewrite lookup_fmap. by intros (r & _ & ->)%fmap_Some. Qed.

Lemma ready_serves fuel queue p : ready fuel queue p ->
  serves (sock := sock) fuel (fun fd => os_out fd (pr_os p)) [] (start_spec queue p) p.
Proof.
  intros [Hw Hinit Ha Hn Hp Haio Hq Hc Hroom].
  assert (forall i r, workers p !! i = Some r -> at_rest r /\ listen_sock r = sock) as Hrest.
  { intros i r Hr. by apply (Hw i). }
  split.
  - split; try done. cbn. unfold idle_count.
    assert (filter idle (sp_workers (start_spec queue p)) = sp_workers (start_spec queue p)) as ->.
    { apply map_filter_id. intros i k Hk. unfold idle. cbn. by eapply start_idle. }
    cbn. by rewrite map_size_fmap.
  - intros i. cbn. by rewrite lookup_fmap, fmap_None.
  - intros i r k Hr. cbn. rewrite lookup_fmap, Hr. cbn. intros [= <-].
    destruct (Hrest i r Hr) as [Hat Hs]. by split.
  - intros i j r r' Hij Hr Hr'. destruct (Hrest i r Hr) as [((Hi & Ho & He & _) & Hfd & _) _].
    split; [intros a|lia]. unfold owns. rewrite Hi, Ho, He. by intros [|[|]].
  - intros fd _ _. cbn. by rewrite app_nil_r.
Qed.
End Start.
#[global] Arguments ready {_ _} _ _ _ _.
#[global] Arguments serves {_ _} _ _ _ _ _ _.
