(* ===== verification/Streambuf.v ===== *)
(** * The C++ stream buffer

    [fcgi_streambuf] of [fcgio.cpp]: a [std::streambuf] over an [FCGX_Stream],
    with an optional array of the caller's as its buffer.  What the class uses of
    its base class ([setg], [setp], [gbump], [pbump], [in_avail], and the base
    [xsgetn] and [xsputn], which act as repeated [sbumpc] and [sputc]) is
    modelled as the C++ standard describes it.  The get and the put area are the
    same array: its first byte is [eback()] and [pbase()]. *)

From S2P Require Import Prelude CString Protocol Platform OsUnix Params Stream Writer Reader.
From S2P Require Import Source Demux Request Accept Response.

Section State.
Context `{Platform}.

(** the pointers are offsets into [buf]; [epptr()] is [buf + bufsize] *)
Record fcgi_streambuf := mkBuf {
  fcgx : option positive;
  buf : list Z;
  bufsize : Z;
  gptr : Z;
  egptr : Z;
  pptr : Z
}.

Record BWorld := mkBWorld { sbuf : fcgi_streambuf; bworld : World }.

Definition set_sbuf (b : fcgi_streambuf) (x : BWorld) : BWorld := mkBWorld b (bworld x).
Definition set_bworld (w : World) (x : BWorld) : BWorld := mkBWorld (sbuf x) w.

Definition get_sbuf : M BWorld fcgi_streambuf := gets sbuf.
Definition upd_sbuf (f : fcgi_streambuf -> fcgi_streambuf) : M BWorld unit :=
  modify (fun x => set_sbuf (f (sbuf x)) x).

(** a call on the stream behind the buffer *)
Definition on_fcgx {A} (m : M SState A) : M BWorld A :=
  b <- get_sbuf ;; zoom bworld set_bworld (on_stream (fcgx b) m).

(** one-field updates *)
Definition set_fcgx (v : option positive) (b : fcgi_streambuf) : fcgi_streambuf :=
  mkBuf v (buf b) (bufsize b) (gptr b) (egptr b) (pptr b).
Definition set_buf (v : list Z) (b : fcgi_streambuf) : fcgi_streambuf :=
  mkBuf (fcgx b) v (bufsize b) (gptr b) (egptr b) (pptr b).
Definition set_bufsize (v : Z) (b : fcgi_streambuf) : fcgi_streambuf :=
  mkBuf (fcgx b) (buf b) v (gptr b) (egptr b) (pptr b).
Definition setg (g e : Z) (b : fcgi_streambuf) : fcgi_streambuf :=
  mkBuf (fcgx b) (buf b) (bufsize b) g e (pptr b).
Definition gbump (n : Z) (b : fcgi_streambuf) : fcgi_streambuf :=
  mkBuf (fcgx b) (buf b) (bufsize b) (gptr b + n) (egptr b) (pptr b).
Definition set_pptr (v : Z) (b : fcgi_streambuf) : fcgi_streambuf :=
  mkBuf (fcgx b) (buf b) (bufsize b) (gptr b) (egptr b) v.
Definition pbump (n : Z) (b : fcgi_streambuf) : fcgi_streambuf := set_pptr (pptr b + n) b.
End State.

Section Operations.
Context `{Platform}.
Variable fuel : nat.
Variable fill : M SState unit.

(** ** Construction *)

(** [setg(buf, buf, buf); setp(buf, buf + bufsize)] *)
Definition reset (b : fcgi_streambuf) : fcgi_streambuf := set_pptr 0 (setg 0 0 b).

(** [None] for the null result *)
Definition setbuf (b : list Z) (bs : Z) : M BWorld (option unit) :=
  sb <- get_sbuf ;;
  if negb (bufsize sb =? 0) then ret None
  else
    upd_sbuf (fun sb => reset (set_bufsize bs (set_buf b sb))) ;;;
    ret (Some tt).

Definition init (fs : option positive) (b : list Z) (bs : Z) : M BWorld unit :=
  upd_sbuf (fun sb => set_bufsize 0 (set_buf [] (set_fcgx fs sb))) ;;;
  _ <- setbuf b bs ;; ret tt.

Definition attach (fs : option positive) : M BWorld Z :=
  upd_sbuf (set_fcgx fs) ;;;
  sb <- get_sbuf ;;
  (when negb (bufsize sb =? 0) do upd_sbuf reset) ;;;
  ret 0.

(** the three constructors *)
Definition construct_buffered (fs : option positive) (b : list Z) (bs : Z) : M BWorld unit :=
  init fs b bs.
Definition construct_unattached (b : list Z) (bs : Z) : M BWorld unit := init None b bs.
Definition construct_unbuffered (fs : option positive) : M BWorld unit := init fs [] 0.

(** [fcgi_istream] and [fcgi_ostream]: the constructor and [attach] *)
Definition construct_stream (fs : option positive) : M BWorld unit :=
  construct_unbuffered None ;;; _ <- attach fs ;; ret tt.
Definition attach_stream (fs : option positive) : M BWorld unit := _ <- attach fs ;; ret tt.

(** ** Output *)

(** the put area is sent; [false] when that failed *)
Definition send_put_area : M BWorld bool :=
  sb <- get_sbuf ;;
  if negb (bufsize sb =? 0) then
    let plen := pptr sb in
    if negb (plen =? 0) then
      assert ((0 <=? plen) && (plen <=? INT_MAX)) ;;;
      n <- on_fcgx (FCGX_PutStr fuel (buf sb) plen) ;;
      if negb (n =? plen) then ret false
      else upd_sbuf (pbump (- plen)) ;;; ret true
    else ret true
  else ret true.

Definition overflow (c : Z) : M BWorld Z :=
  sent <- send_put_area ;;
  if negb sent then ret EOF
  else if negb (c =? EOF) then
    r <- on_fcgx (FCGX_PutChar fuel c) ;;
    if negb (r =? c) then ret EOF else ret 0
  else ret 0.

(** [~fcgi_streambuf] *)
Definition destroy : M BWorld unit := _ <- overflow EOF ;; ret tt.

Definition sync : M BWorld Z :=
  r <- overflow EOF ;;
  if negb (r =? 0) then ret EOF
  else
    r <- on_fcgx (FCGX_FFlush fuel) ;;
    if negb (r =? 0) then ret EOF else ret 0.

(** [streambuf::sputc]: the put area ends at [buf + bufsize] *)
Definition sputc (c : Z) : M BWorld Z :=
  sb <- get_sbuf ;;
  if pptr sb <? bufsize sb then
    buf' <- mem_write (buf sb) (pptr sb) [UCHAR c] ;;
    upd_sbuf (fun sb => pbump 1 (set_buf buf' sb)) ;;;
    ret (UCHAR c)
  else overflow (UCHAR c).

(** [streambuf::xsputn]: the number of characters written *)
Fixpoint base_xsputn (s : list Z) : M BWorld Z :=
  match s with
  | [] => ret 0
  | c :: s' =>
      r <- sputc c ;;
      if r =? EOF then ret 0 else n <- base_xsputn s' ;; ret (n + 1)
  end.

(** the characters written are the first [n] of [s] *)
Definition xsputn (s : list Z) (n : Z) : M BWorld Z :=
  if INT_MAX <? n then ret 0
  else
    sb <- get_sbuf ;;
    if negb (bufsize sb =? 0) then base_xsputn (take (Z.to_nat n) s)
    else on_fcgx (FCGX_PutStr fuel s n).

(** ** Input *)

(** [streambuf::in_avail], with the base class's [showmanyc] *)
Definition in_avail (sb : fcgi_streambuf) : Z :=
  if gptr sb <? egptr sb then egptr sb - gptr sb else 0.

Definition underflow : M BWorld Z :=
  sb <- get_sbuf ;;
  if negb (bufsize sb =? 0) then
    let current :=
      sb <- get_sbuf ;;
      c <- mem_read (buf sb) (gptr sb) 1 ;;
      match c with [c] => ret (UCHAR c) | _ => undef end in
    if in_avail sb =? 0 then
      assert ((0 <=? bufsize sb) && (bufsize sb <=? INT_MAX)) ;;;
      bs <- on_fcgx (FCGX_GetStr fuel fill (bufsize sb)) ;;
      buf' <- mem_write (buf sb) 0 bs ;;
      upd_sbuf (set_buf buf') ;;;
      let glen := len bs in
      if glen <=? 0 then ret EOF
      else upd_sbuf (setg 0 glen) ;;; current
    else current
  else on_fcgx (FCGX_GetChar fill).

Definition uflow : M BWorld Z :=
  rv <- underflow ;;
  sb <- get_sbuf ;;
  (when negb (bufsize sb =? 0) do upd_sbuf (gbump 1)) ;;;
  ret rv.

(** [streambuf::sbumpc] *)
Definition sbumpc : M BWorld Z :=
  sb <- get_sbuf ;;
  if gptr sb <? egptr sb then
    c <- mem_read (buf sb) (gptr sb) 1 ;;
    upd_sbuf (gbump 1) ;;;
    match c with [c] => ret (UCHAR c) | _ => undef end
  else uflow.

(** [streambuf::xsgetn]: the characters stored *)
Fixpoint base_xsgetn (n : nat) : M BWorld (list Z) :=
  match n with
  | O => ret []
  | S n' =>
      c <- sbumpc ;;
      if c =? EOF then ret [] else cs <- base_xsgetn n' ;; ret (UCHAR c :: cs)
  end.

Definition xsgetn (n : Z) : M BWorld (list Z) :=
  if INT_MAX <? n then ret []
  else
    sb <- get_sbuf ;;
    if negb (bufsize sb =? 0) then base_xsgetn (Z.to_nat n)
    else on_fcgx (FCGX_GetStr fuel fill n).
End Operations.

Lemma slice_first (m : list Z) a b y l : slice m a b = y :: l -> 0 <= a -> a < b -> b <= len m ->
  slice m a (a + 1) = [y].
Proof.
  intros E Ha Hb Hm. destruct (slice_cons m a b) as (z & Hz & E'); [done..|].
  destruct (slice_cons m a (a + 1)) as (z' & Hz' & ->); [lia..|].
  rewrite E in E'. injection E' as <- _. rewrite Hz in Hz'. injection Hz' as <-.
  by rewrite slice_empty by lia.
Qed.

(** ** Refinement: the buffer is invisible

    A buffered writer behaves as the stream behind it that has accepted the
    characters of the put area as well; a buffered reader as the stream behind
    it with the characters of the get area still to come. *)

Section Refinement.
Context `{Reliable}.
Implicit Types (x : BWorld) (b : fcgi_streambuf).

(** the stream behind the buffer is in a state that satisfies [P] *)
Definition behind (P : SState -> Prop) x : Prop :=
  exists p st, fcgx (sbuf x) = Some p /\ heap (bworld x) !! p = Some st /\
    P (sstate (bworld x) st).

Record buf_ok b : Prop := {
  bo_size : bufsize b = len (buf b);
  bo_max : bufsize b <= INT_MAX;
  bo_bytes : bytes (buf b)
}.

Lemma wp_on_fcgx {A} (P : SState -> Prop) (m : M SState A) (R : A -> SState -> Prop) x :
  behind P x -> (forall s, P s -> wp m R s) ->
  wp (on_fcgx m) (fun r x' => sbuf x' = sbuf x /\ behind (R r) x') x.
Proof.
  intros (p & st & Hp & Hst & HP) Hm. unfold on_fcgx, get_sbuf. wp_steps. rewrite Hp.
  eapply wp_on_stream; [exact Hst|]. wp_use Hm; [exact HP|]. intros r s' HR.
  split; [done|]. exists p, (stm s'). cbn. rewrite lookup_insert_eq. split_and!; try done.
  unfold sstate. cbn. by destruct s'.
Qed.

Lemma behind_buf (P : SState -> Prop) x b :
  fcgx b = fcgx (sbuf x) -> behind P x -> behind P (set_sbuf b x).
Proof. intros He (p & st & Hp & Hst & HP). exists p, st. cbn. by rewrite He. Qed.

Section Output.
Context (fuel : nat) (I B : list Z -> SState -> Prop) `{!Sink fuel I B}.

(** the abstract writer: what was accepted is in the stream or in the put area *)
Definition put_rep (acc : list Z) x : Prop :=
  let b := sbuf x in
  buf_ok b /\ bufsize b + 2 < Z.of_nat fuel /\ 0 <= pptr b <= bufsize b /\
  exists acc0, acc0 ++ slice (buf b) 0 (pptr b) = acc /\ behind (I acc0) x.

Lemma put_rep_sent acc x : buf_ok (sbuf x) -> bufsize (sbuf x) + 2 < Z.of_nat fuel ->
  0 <= bufsize (sbuf x) -> pptr (sbuf x) = 0 -> behind (I acc) x -> put_rep acc x.
Proof.
  intros Hok Hf Hb Hp HI. split_and!; try done; try lia. exists acc.
  rewrite Hp, slice_empty by lia. by rewrite app_nil_r.
Qed.

Lemma wp_send_put_area acc x : put_rep acc x ->
  wp (send_put_area fuel) (fun r x' => r = true /\ put_rep acc x' /\ behind (I acc) x' /\
    pptr (sbuf x') = 0) x.
Proof.
  intros (Hok & Hf & Hp & acc0 & <- & HI). pose proof Hok as [Hs Hm Hby].
  unfold send_put_area, get_sbuf. wp_steps.
  destruct (Z.eqb_spec (pptr (sbuf x)) 0) as [E|E].
  - assert (put_rep acc0 x) as Hrep by (apply put_rep_sent; done || lia).
    rewrite E, slice_empty, app_nil_r by lia. cbn [negb].
    destruct (negb (bufsize (sbuf x) =? 0)); by wp_steps.
  - replace (bufsize (sbuf x) =? 0) with false by lia. cbn [negb]. wp_steps.
    apply wp_assert; [lia|]. wp_step. wp_use @wp_on_fcgx; [exact HI| |].
    { intros s HIs. apply (wp_PutStr_ok fuel I B (buf (sbuf x)) _ acc0 s HIs); lia. }
    cbv beta. intros n x' [Hsb (p & st & Hpp & Hst & -> & HI')]. rewrite Z.eqb_refl. cbn [negb].
    unfold upd_sbuf. wp_steps.
    assert (behind (I (acc0 ++ slice (buf (sbuf x)) 0 (pptr (sbuf x))))
      (set_sbuf (pbump (- pptr (sbuf x)) (sbuf x')) x')) as Hbe.
    { apply behind_buf; [done|]. by exists p, st. }
    split; [done|]. split; [|split; [exact Hbe|cbn; rewrite Hsb; lia]].
    apply put_rep_sent; [cbn; rewrite Hsb; by split|cbn; rewrite Hsb; lia..|exact Hbe].
Qed.

Lemma wp_overflow c acc x : put_rep acc x -> c = EOF \/ is_byte c ->
  wp (overflow fuel c) (fun r x' => r = 0 /\
    put_rep (acc ++ if c =? EOF then [] else [c]) x' /\
    behind (I (acc ++ if c =? EOF then [] else [c])) x' /\ pptr (sbuf x') = 0) x.
Proof.
  intros Hrep Hc. unfold overflow. wp_step. wp_use wp_send_put_area; [exact Hrep|]. cbv beta.
  intros r x1 (-> & Hrep1 & HI & Hp0). cbn [negb].
  destruct (Z.eqb_spec c EOF) as [->|Hne]; cbn [negb]; [wp_steps; by rewrite app_nil_r|].
  destruct Hc as [?|Hc]; [done|]. destruct Hrep1 as (Hok & Hf & Hp & _).
  wp_step. wp_use @wp_on_fcgx; [exact HI| |].
  { intros s HIs. apply (wp_PutChar fuel I B c acc s HIs). }
  cbv beta. intros r x2 [Hsb (p & st & Hpp & Hst & Hr)].
  destruct Hr as [[-> HI']|[_ HB]]; [|by destruct no_fail; apply (sink_broken _ _ HB)].
  rewrite UCHAR_id, Z.eqb_refl in * by done. cbn [negb]. wp_step. split; [done|].
  assert (behind (I (acc ++ [c])) x2) as Hbe by (by exists p, st).
  split; [|split; [exact Hbe|by rewrite Hsb]].
  apply put_rep_sent; rewrite ?Hsb; try done; lia.
Qed.

Lemma wp_sputc c acc x : put_rep acc x -> is_byte c ->
  wp (sputc fuel c) (fun r x' => r <> EOF /\ put_rep (acc ++ [c]) x') x.
Proof.
  intros Hrep Hc. unfold sputc, get_sbuf. wp_steps. rewrite UCHAR_id by done.
  destruct (Z.ltb_spec (pptr (sbuf x)) (bufsize (sbuf x))) as [Hlt|Hge].
  - destruct Hrep as (Hok & Hf & Hp & acc0 & <- & HI). pose proof Hok as [Hs Hm Hby].
    assert (len [c] = 1) as Hlc by done. wp_step. apply wp_mem_write; [lia..|].
    unfold upd_sbuf. wp_steps. split; [unfold is_byte, EOF in *; lia|].
    assert (len (splice (buf (sbuf x)) (pptr (sbuf x)) [c]) = len (buf (sbuf x))) as Hl
      by (apply splice_len; lia).
    split_and!; cbn; try lia.
    + split; cbn; [by rewrite Hl|done|]. apply bytes_splice; [done|by constructor].
    + exists acc0. split; [|by apply behind_buf].
      cbn. rewrite (slice_app _ 0 (pptr (sbuf x)) (pptr (sbuf x) + 1)) by lia.
      rewrite <- app_assoc. f_equal. f_equal.
      * apply slice_splice_before; lia.
      * apply slice_splice_same; lia.
  - wp_use wp_overflow; [exact Hrep|by right|]. cbv beta. intros r x' (-> & Hr & _).
    split; [done|]. by replace (c =? EOF) with false in Hr by (unfold is_byte, EOF in *; lia).
Qed.

Lemma wp_base_xsputn s acc x : put_rep acc x -> bytes s ->
  wp (base_xsputn fuel s) (fun r x' => r = len s /\ put_rep (acc ++ s) x') x.
Proof.
  intros Hrep Hs. revert acc x Hrep. induction Hs as [|c s Hc Hs IH]; intros acc x Hrep.
  { cbn. wp_step. by rewrite app_nil_r. }
  cbn [base_xsputn]. wp_step. wp_use wp_sputc; [exact Hrep|done|]. cbv beta.
  intros r x' [Hr Hrep']. replace (r =? EOF) with false by lia. wp_step.
  wp_use IH; [exact Hrep'|]. cbv beta. intros n x'' [-> Hrep'']. wp_step.
  rewrite len_cons. split; [lia|]. by rewrite <- app_assoc in Hrep''.
Qed.

Lemma wp_xsputn s acc x : put_rep acc x -> bytes s -> len s <= INT_MAX ->
  len s + 2 < Z.of_nat fuel ->
  wp (xsputn fuel s (len s)) (fun r x' => r = len s /\ put_rep (acc ++ s) x') x.
Proof.
  intros Hrep Hs Hmax Hlf. unfold xsputn, get_sbuf.
  replace (INT_MAX <? len s) with false by lia. wp_steps.
  destruct (Z.eqb_spec (bufsize (sbuf x)) 0) as [E|E]; cbn [negb].
  - destruct Hrep as (Hok & Hf & Hp & acc0 & <- & HI). wp_use @wp_on_fcgx; [exact HI| |].
    { intros st HIs. pose proof (len_nonneg s).
      apply (wp_PutStr_ok fuel I B s (len s) acc0 st HIs); lia. }
    cbv beta. intros r x' [Hsb (p & st & Hpp & Hst & -> & HI')]. split; [done|].
    rewrite slice_full in HI'. assert (pptr (sbuf x) = 0) as Hp0 by lia.
    rewrite Hp0, slice_empty, app_nil_r by lia.
    apply put_rep_sent; rewrite ?Hsb; try done; try lia. by exists p, st.
  - replace (take (Z.to_nat (len s)) s) with s.
    2: { unfold len. by rewrite Nat2Z.id, take_ge by lia. }
    by apply wp_base_xsputn.
Qed.
End Output.

Section Input.
Context (fuel : nat) (fill : M SState unit) (I : list Z -> SState -> Prop) (E : SState -> Prop)
  `{!Source fill I E}.

(** the stream still has [c] to deliver; it may have met its end already *)
Definition stream_rep (c : list Z) (s : SState) : Prop := I c s \/ (c = [] /\ E s).

(** the abstract reader: what is to come is in the get area or in the stream *)
Definition get_rep (c : list Z) x : Prop :=
  let b := sbuf x in
  buf_ok b /\ 0 <= gptr b <= egptr b /\ egptr b <= bufsize b /\
  2 * len c + 2 < Z.of_nat fuel /\ bytes c /\
  exists c', slice (buf b) (gptr b) (egptr b) ++ c' = c /\ behind (stream_rep c') x.

Lemma wp_GetStr_rep n c s : stream_rep c s -> 0 < n <= INT_MAX ->
  2 * len c + 2 < Z.of_nat fuel ->
  wp (FCGX_GetStr fuel fill n) (fun r s' =>
    r = take (Z.to_nat n) c /\ stream_rep (drop (Z.to_nat n) c) s') s.
Proof.
  intros [HI|[-> HE]] Hn Hf.
  - wp_use (wp_GetStr fuel fill I E); [exact HI|lia|lia|]. cbv beta. intros r s'.
    replace (n <=? 0) with false by lia. intros [-> Hr]. split; [done|].
    destruct (Z.leb_spec n (len c)); [by left|]. right. split; [|done].
    apply drop_ge. unfold len in *. lia.
  - unfold FCGX_GetStr. sstep. rewrite (src_end _ HE). cbn [orb]. wp_step.
    rewrite take_nil, drop_nil. split; [done|by right].
Qed.

Lemma wp_GetChar_rep c s : stream_rep c s ->
  wp (FCGX_GetChar fill) (fun r s' =>
    match c with
    | y :: c' => r = y /\ is_byte y /\ stream_rep c' s'
    | [] => r = EOF /\ E s'
    end) s.
Proof.
  intros [HI|[-> HE]].
  - wp_use (wp_GetChar fill I E); [exact HI|]. cbv beta.
    intros r s' [(y & c' & -> & -> & Hy & HI' & _)|(-> & -> & HE)]; [|done].
    split; [done|]. split; [done|by left].
  - unfold FCGX_GetChar. sstep. rewrite (src_end _ HE). cbn [orb]. by wp_step.
Qed.

(** the get area is empty and is filled again *)
Lemma wp_fill_get c x : get_rep c x -> bufsize (sbuf x) <> 0 -> gptr (sbuf x) = egptr (sbuf x) ->
  wp (underflow fuel fill) (fun r x' => bufsize (sbuf x') = bufsize (sbuf x) /\
    match c with
    | y :: _ => r = y /\ get_rep c x' /\ gptr (sbuf x') < egptr (sbuf x')
    | [] => r = EOF /\ gptr (sbuf x') = gptr (sbuf x) /\ egptr (sbuf x') = egptr (sbuf x)
    end) x.
Proof.
  intros (Hok & Hg & He & Hf & Hbc & c' & <- & HI) Hb Hge. pose proof Hok as [Hs Hm Hby].
  rewrite Hge, slice_empty in Hf, Hbc |- * by lia. rewrite app_nil_l in Hf, Hbc |- *.
  unfold underflow, get_sbuf. wp_steps. replace (bufsize (sbuf x) =? 0) with false by lia.
  unfold in_avail. replace (gptr (sbuf x) <? egptr (sbuf x)) with false by lia.
  change (0 =? 0) with true. cbn [negb]. wp_steps. pose proof (len_nonneg (buf (sbuf x))).
  apply wp_assert; [lia|]. wp_step. wp_use @wp_on_fcgx; [exact HI| |].
  { intros s Hst. apply (wp_GetStr_rep (bufsize (sbuf x)) c' s Hst); lia. }
  cbv beta. intros bs x1 [Hsb (p & st & Hp & Hst & -> & Hrep)].
  set (bs := take (Z.to_nat (bufsize (sbuf x))) c') in *.
  assert (len bs <= len (buf (sbuf x)) /\ (len bs <= 0 -> c' = [])) as [Hlen Hnil].
  { unfold bs, len in *. rewrite length_take. split; [lia|]. intros. apply length_zero_iff_nil. lia. }
  wp_step. apply wp_mem_write; [lia|lia|]. unfold upd_sbuf. wp_steps.
  destruct (Z.leb_spec (len bs) 0) as [Hle|Hgt].
  - rewrite Hnil by done. wp_step. cbn. by rewrite Hsb.
  - wp_steps. cbn. pose proof (len_nonneg bs) as Hbn.
    assert (len (splice (buf (sbuf x)) 0 bs) = len (buf (sbuf x))) as Hls by (apply splice_len; lia).
    assert (slice (splice (buf (sbuf x)) 0 bs) 0 (len bs) = bs) as Hsl
      by (apply slice_splice_same; lia).
    destruct c' as [|y c'']; [unfold bs in Hgt; rewrite take_nil in Hgt; by change (len []) with 0 in Hgt|].
    assert (bs = y :: take (Z.to_nat (bufsize (sbuf x)) - 1) c'') as Ebs.
    { unfold bs. destruct (Z.to_nat (bufsize (sbuf x))) eqn:Ez; [lia|]. cbn. by rewrite Nat.sub_0_r. }
    apply wp_mem_read; cbn; [lia..|].
    rewrite (slice_first _ 0 (len bs) y _ (eq_trans Hsl Ebs)) by lia.
    wp_step. inversion Hbc as [|? ? Hy Hbc']; subst. rewrite UCHAR_id by done. cbn. split; [by rewrite Hsb|]. split; [done|].
    split; [|cbn; lia]. split_and!; cbn; try done; try lia.
    + split; cbn; rewrite ?Hsb; [lia|done|]. apply bytes_splice; [done|]. by apply Forall_take.
    + rewrite Hsb. lia.
    + exists (drop (Z.to_nat (bufsize (sbuf x))) (y :: c'')). split.
      * rewrite Hsl. unfold bs. apply take_drop.
      * apply behind_buf; [done|]. by exists p, st.
Qed.
(** one character is taken from the get area *)
Lemma get_rep_bump y c x : get_rep (y :: c) x -> gptr (sbuf x) < egptr (sbuf x) ->
  slice (buf (sbuf x)) (gptr (sbuf x)) (gptr (sbuf x) + 1) = [y] /\
  get_rep c (set_sbuf (gbump 1 (sbuf x)) x).
Proof.
  intros (Hok & Hg & He & Hf & Hbc & c' & Hc & HI) Hlt. pose proof Hok as [Hs Hm Hby].
  destruct (slice_cons (buf (sbuf x)) (gptr (sbuf x)) (egptr (sbuf x))) as (z & Hz & E1); [lia..|].
  rewrite E1 in Hc. injection Hc as -> <-.
  split; [by apply (slice_first _ _ (egptr (sbuf x)) y _ E1); lia|].
  rewrite len_cons in Hf. inversion Hbc; subst.
  split_and!; cbn; try done; try lia. exists c'. split; [done|]. by apply behind_buf.
Qed.

Lemma get_rep_byte y c x : get_rep (y :: c) x -> is_byte y.
Proof. intros (_ & _ & _ & _ & Hb & _). by inversion Hb. Qed.

Lemma wp_uflow c x : get_rep c x -> gptr (sbuf x) = egptr (sbuf x) ->
  wp (uflow fuel fill) (fun r x' =>
    match c with
    | y :: c' => r = y /\ get_rep c' x'
    | [] => r = EOF /\ (bufsize (sbuf x) <> 0 -> gptr (sbuf x') = egptr (sbuf x') + 1)
    end) x.
Proof.
  intros Hrep Hge. unfold uflow, get_sbuf, upd_sbuf. wp_step.
  destruct (Z.eqb_spec (bufsize (sbuf x)) 0) as [E0|Hne].
  - unfold underflow, get_sbuf. wp_steps. rewrite E0. change (negb (0 =? 0)) with false. cbn match.
    destruct Hrep as (Hok & Hg & He & Hf & Hbc & c' & <- & HI).
    rewrite Hge, slice_empty in Hf, Hbc |- * by lia. rewrite app_nil_l in *.
    wp_use @wp_on_fcgx; [exact HI| |].
    { intros s Hst. apply (wp_GetChar_rep c' s Hst). }
    cbv beta. intros r x1 [Hsb (p & st & Hp & Hst & Hr)]. wp_steps. rewrite Hsb, E0.
    change (negb (0 =? 0)) with false. cbn match. wp_steps.
    destruct c' as [|y c'']; [destruct Hr as [-> _]; by split|].
    destruct Hr as (-> & Hy & Hst'). split; [done|]. rewrite len_cons in Hf. inversion Hbc; subst.
    unfold get_rep. rewrite Hsb. split_and!; try done; try lia.
    exists c''. rewrite Hge, slice_empty by lia. split; [done|]. by exists p, st.
  - wp_use wp_fill_get; [exact Hrep|done|done|]. cbv beta. intros r x1 [Hb1 Hr]. wp_steps.
    replace (bufsize (sbuf x1) =? 0) with false by lia. cbn [negb]. wp_steps.
    destruct c as [|y c'].
    + destruct Hr as (-> & Hg & He). split; [done|]. intros _. cbn. lia.
    + destruct Hr as (-> & Hrep1 & Hlt). split; [done|]. by apply (get_rep_bump y c' x1 Hrep1).
Qed.

Lemma wp_sbumpc c x : get_rep c x ->
  wp (sbumpc fuel fill) (fun r x' =>
    match c with y :: c' => r = y /\ get_rep c' x' | [] => r = EOF end) x.
Proof.
  intros Hrep. unfold sbumpc, get_sbuf, upd_sbuf. wp_steps.
  destruct (Z.ltb_spec (gptr (sbuf x)) (egptr (sbuf x))) as [Hlt|Hge].
  - pose proof Hrep as ([Hs _ _] & Hg & He & _ & _ & c' & Hc & _).
    destruct c as [|y c2].
    { destruct (slice_cons (buf (sbuf x)) (gptr (sbuf x)) (egptr (sbuf x))) as (z & _ & E1); [lia..|].
      by rewrite E1 in Hc. }
    destruct (get_rep_bump y c2 x Hrep Hlt) as [E1 Hrep']. wp_step.
    apply wp_mem_read; [lia..|]. rewrite E1. wp_steps.
    rewrite UCHAR_id by by eapply get_rep_byte. by split.
  - wp_use wp_uflow; [exact Hrep|destruct Hrep as (_ & ? & _); lia|]. cbv beta.
    intros r x'. destruct c; [tauto|done].
Qed.

Lemma wp_base_xsgetn n c x : get_rep c x ->
  wp (base_xsgetn fuel fill n) (fun r x' => r = take n c /\
    ((n <= length c)%nat -> get_rep (drop n c) x')) x.
Proof.
  revert c x. induction n as [|n IH]; intros c x Hrep; cbn [base_xsgetn]; wp_step.
  { by rewrite drop_0. }
  wp_use wp_sbumpc; [exact Hrep|]. cbv beta. intros r x1. destruct c as [|y c].
  - intros ->. rewrite Z.eqb_refl. wp_step. split; [done|]. cbn. lia.
  - intros [-> Hrep1]. pose proof (get_rep_byte y c x Hrep) as Hy.
    replace (y =? EOF) with false by (unfold is_byte, EOF in *; lia). wp_step.
    wp_use IH; [exact Hrep1|]. cbv beta. intros cs x2 [-> Hrep2]. wp_step.
    rewrite UCHAR_id by done. split; [done|]. cbn. intros. apply Hrep2. lia.
Qed.

Lemma wp_xsgetn n c x : get_rep c x -> 0 < n <= INT_MAX ->
  wp (xsgetn fuel fill n) (fun r x' => r = take (Z.to_nat n) c /\
    (n <= len c -> get_rep (drop (Z.to_nat n) c) x')) x.
Proof.
  intros Hrep Hn. unfold xsgetn, get_sbuf. replace (INT_MAX <? n) with false by lia. wp_steps.
  destruct (Z.eqb_spec (bufsize (sbuf x)) 0) as [E0|Hne]; cbn [negb].
  - destruct Hrep as (Hok & Hg & He & Hf & Hbc & c' & <- & HI).
    rewrite slice_empty in Hf, Hbc |- * by lia. rewrite app_nil_l in *.
    wp_use @wp_on_fcgx; [exact HI| |].
    { intros s Hst. apply (wp_GetStr_rep n c' s Hst); lia. }
    cbv beta. intros r x1 [Hsb (p & st & Hp & Hst & -> & Hr)]. split; [done|]. intros _.
    unfold get_rep. rewrite Hsb. split_and!; try done; try lia.
    + unfold len in *. rewrite length_drop. lia.
    + by apply Forall_drop.
    + exists (drop (Z.to_nat n) c'). rewrite slice_empty by lia. split; [done|]. by exists p, st.
  - wp_use wp_base_xsgetn; [exact Hrep|]. cbv beta. intros r x1 [-> Hr]. split; [done|].
    intros Hle. apply Hr. unfold len in *. lia.
Qed.
End Input.

(** ** Programs over a stream buffer *)

Lemma wp_sync fuel s0 base acc x :
  65536 < Z.of_nat fuel -> put_rep fuel (open_writer s0 [] base) acc x ->
  wp (sync fuel) (fun r x' => r = 0 /\ put_rep fuel (open_writer s0 [] base) acc x' /\
    behind (fun s => open_writer s0 [] base acc s /\ pending (stm s) = []) x') x.
Proof.
  intros Hf Hrep. unfold sync. wp_step.
  pose proof (open_writer_sink fuel s0 [] base Hf) as Hsink.
  wp_use (wp_overflow fuel (open_writer s0 [] base) _ EOF acc); [exact Hrep|by left|]. cbv beta.
  intros r x1 (-> & (Hok & Hfb & Hp & _) & HI & Hp0). rewrite Z.eqb_refl, app_nil_r in *.
  cbn [negb]. wp_step. wp_use @wp_on_fcgx; [exact HI| |].
  { intros s Hs. by apply (wp_FFlush_sent fuel s0 [] base acc s). }
  cbv beta. intros r x2 [Hsb (p & st & Hpp & Hst & -> & Ho & Hpe)]. rewrite Z.eqb_refl. cbn [negb]. wp_step.
  split; [done|]. split; [|by exists p, st].
  apply put_rep_sent; rewrite ?Hsb; try done; try lia. by exists p, st.
Qed.

Inductive sb_op :=
  | Sputn (s : list Z)
  | Sputc (c : Z)
  | Pubsync.

Definition sb_op_bytes (op : sb_op) : list Z :=
  match op with Sputn s => s | Sputc c => [c] | Pubsync => [] end.

Definition sb_op_ok (fuel : nat) (op : sb_op) : Prop :=
  bytes (sb_op_bytes op) /\ len (sb_op_bytes op) <= INT_MAX /\
  len (sb_op_bytes op) + 2 < Z.of_nat fuel.

(** whether the operation succeeded *)
Definition run_sb_op (fuel : nat) (op : sb_op) : M BWorld bool :=
  match op with
  | Sputn s => n <- xsputn fuel s (len s) ;; ret (n =? len s)
  | Sputc c => r <- sputc fuel c ;; ret (negb (r =? EOF))
  | Pubsync => r <- sync fuel ;; ret (r =? 0)
  end.

Fixpoint run_sb_ops (fuel : nat) (ops : list sb_op) : M BWorld bool :=
  match ops with
  | [] => ret true
  | op :: ops' => ok <- run_sb_op fuel op ;; r <- run_sb_ops fuel ops' ;; ret (ok && r)
  end.

Lemma wp_run_sb_op fuel s0 base op acc x : 65536 < Z.of_nat fuel ->
  put_rep fuel (open_writer s0 [] base) acc x -> sb_op_ok fuel op ->
  wp (run_sb_op fuel op) (fun r x' => r = true /\
    put_rep fuel (open_writer s0 [] base) (acc ++ sb_op_bytes op) x') x.
Proof.
  intros Hf Hrep (Hb & Hm & Hl). pose proof (open_writer_sink fuel s0 [] base Hf) as Hsink.
  destruct op as [s|c|]; cbn [run_sb_op sb_op_bytes] in *; wp_step.
  - wp_use (wp_xsputn fuel (open_writer s0 [] base) _ s acc); [exact Hrep|done..|]. cbv beta.
    intros n x' [-> Hr]. wp_step. by rewrite Z.eqb_refl.
  - wp_use (wp_sputc fuel (open_writer s0 [] base) _ c acc); [exact Hrep|by inversion Hb|]. cbv beta.
    intros r x' [Hr Hrep']. wp_step. by replace (r =? EOF) with false by lia.
  - wp_use wp_sync; [exact Hf|exact Hrep|]. cbv beta. intros r x' (-> & Hr & _). wp_step.
    by rewrite app_nil_r.
Qed.

Lemma wp_run_sb_ops fuel s0 base ops acc x : 65536 < Z.of_nat fuel ->
  put_rep fuel (open_writer s0 [] base) acc x -> Forall (sb_op_ok fuel) ops ->
  wp (run_sb_ops fuel ops) (fun r x' => r = true /\
    put_rep fuel (open_writer s0 [] base) (acc ++ concat (map sb_op_bytes ops)) x') x.
Proof.
  intros Hf Hrep Hops. revert acc x Hrep.
  induction Hops as [|op ops Hop _ IH]; intros acc x Hrep; cbn [run_sb_ops map concat]; wp_step.
  { by rewrite app_nil_r. }
  wp_use wp_run_sb_op; [exact Hf|exact Hrep|exact Hop|]. cbv beta. intros r x' [-> Hr]. wp_step.
  wp_use IH; [exact Hr|]. cbv beta. intros r x'' [-> Hr']. wp_step.
  by rewrite app_assoc.
Qed.

Definition total (ns : list Z) : Z := foldr Z.add 0 ns.

(** blocks of the given sizes *)
Fixpoint blocks (ns : list Z) (c : list Z) : list (list Z) :=
  match ns with
  | [] => []
  | n :: ns' => take (Z.to_nat n) c :: blocks ns' (drop (Z.to_nat n) c)
  end.

Fixpoint read_blocks (fuel : nat) (fill : M SState unit) (ns : list Z) : M BWorld (list (list Z)) :=
  match ns with
  | [] => ret []
  | n :: ns' => b <- xsgetn fuel fill n ;; bs <- read_blocks fuel fill ns' ;; ret (b :: bs)
  end.

Lemma wp_read_blocks fuel fill I E `{!Source fill I E} ns c x :
  get_rep fuel I E c x -> Forall (fun n => 0 < n <= INT_MAX) ns ->
  total ns <= len c ->
  wp (read_blocks fuel fill ns) (fun r x' => r = blocks ns c /\
    get_rep fuel I E (drop (Z.to_nat (total ns)) c) x') x.
Proof.
  intros Hrep Hns. revert c x Hrep.
  induction Hns as [|n ns Hn Hns IH]; intros c x Hrep Hsum; cbn [read_blocks blocks] in *; wp_step.
  { by rewrite drop_0. }
  assert (0 <= total ns) as Hpos.
  { clear -Hns. unfold total. induction Hns; cbn; lia. }
  change (total (n :: ns)) with (n + total ns) in *.
  wp_use (wp_xsgetn fuel fill I E n); [exact Hrep|done|]. cbv beta. intros b x1 [-> Hr].
  specialize (Hr ltac:(lia)). wp_step. wp_use IH; [exact Hr|unfold len in *; rewrite length_drop; lia|].
  cbv beta. intros bs x2 [-> Hr2]. wp_step. split; [done|].
  rewrite drop_drop in Hr2. by replace (Z.to_nat (n + total ns)) with
    (Z.to_nat n + Z.to_nat (total ns))%nat by lia.
Qed.
End Refinement.
