(* ===== verification/Stdio.v ===== *)
(** * The stdio interface

    [fcgi_stdio.c]: an [FCGI_FILE] wraps either a stream of the C library or an
    [FCGX_Stream]; every operation looks at the two pointers in that order and
    has a default when both are null.  The C library's own streams are a
    parameter ([HostStdio]). *)

From Stdlib Require Import String.
From S2P Require Import Prelude CString Protocol Platform OsUnix Params Stream Writer Reader Format Request.
#[local] Open Scope Z_scope.

(** ** The C library's streams *)

(** the calls on a [FILE *], as data *)
Inductive host_call `{Floats} :=
  | Fclose | Fflush | Setvbuf (buf : option Z) (mode size : Z) | Setbuf (buf : option Z)
  | Fseek (offset whence : Z) | Ftell | Rewind | Fgetpos (pos : Z) | Fsetpos (pos : Z)
  | Fgetc | Ungetc (c : Z) | Fputc (c : Z) | Fputs (str : list Z)
  | Fwrite (bytes : list Z) (size nmemb : Z)
  | Feof | Ferror | Clearerr | Fileno | Pclose.

Class HostStdio `{Floats} := {
  host : Type;
  host_stdin : positive;
  host_stdout : positive;
  host_stderr : positive;
  h_call : host_call -> positive -> host -> Z * host;
  h_vfprintf : list Z -> list varg -> positive -> host -> (Z * list (Z * Z)) * host;
  h_fflush_all : host -> Z * host;
  h_fgets : Z -> positive -> host -> option (list Z) * host;
  h_fread : Z -> Z -> positive -> host -> (Z * list Z) * host;
  h_fopen : list Z -> list Z -> host -> option positive * host;
  h_freopen : list Z -> list Z -> positive -> host -> option positive * host;
  h_fdopen : Z -> list Z -> host -> option positive * host;
  h_popen : list Z -> list Z -> host -> option positive * host;
  h_tmpfile : host -> option positive * host;
  h_strerror : Z -> list Z
}.

Section State.
Context `{Platform} `{HostStdio}.

Record FCGI_FILE := mkFile {
  stdio_stream : option positive;
  fcgx_stream : option positive
}.

(** the address of an [FCGI_FILE]; the first three are the static
    [_fcgi_sF] *)
Definition FCGI_stdin : positive := 1.
Definition FCGI_stdout : positive := 2.
Definition FCGI_stderr : positive := 3.
Definition is_static (fp : positive) : bool := (fp <=? 3)%positive.

(** [environ] is [None] while it is the process's own *)
Record SWorld := mkSWorld {
  files : gmap positive FCGI_FILE;
  world : World;
  hstate : host;
  acceptCalled : bool;
  isCGI : bool;
  environ : option env_ptr;
  atexit_finish : bool
}.

(** one-field updates of [SWorld] *)
Definition set_files (v : gmap positive FCGI_FILE) (x : SWorld) : SWorld :=
  mkSWorld v (world x) (hstate x) (acceptCalled x) (isCGI x) (environ x) (atexit_finish x).
Definition set_world (v : World) (x : SWorld) : SWorld :=
  mkSWorld (files x) v (hstate x) (acceptCalled x) (isCGI x) (environ x) (atexit_finish x).
Definition set_hstate (v : host) (x : SWorld) : SWorld :=
  mkSWorld (files x) (world x) v (acceptCalled x) (isCGI x) (environ x) (atexit_finish x).
Definition set_acceptCalled (v : bool) (x : SWorld) : SWorld :=
  mkSWorld (files x) (world x) (hstate x) v (isCGI x) (environ x) (atexit_finish x).
Definition set_isCGI (v : bool) (x : SWorld) : SWorld :=
  mkSWorld (files x) (world x) (hstate x) (acceptCalled x) v (environ x) (atexit_finish x).
Definition set_environ (v : option env_ptr) (x : SWorld) : SWorld :=
  mkSWorld (files x) (world x) (hstate x) (acceptCalled x) (isCGI x) v (atexit_finish x).
Definition set_atexit_finish (v : bool) (x : SWorld) : SWorld :=
  mkSWorld (files x) (world x) (hstate x) (acceptCalled x) (isCGI x) (environ x) v.

Definition in_world {A} (m : M World A) : M SWorld A := zoom world set_world m.
Definition stream_op {A} (p : positive) (m : M SState A) : M SWorld A :=
  in_world (on_stream (Some p) m).
Definition host_op {A} (f : host -> A * host) : M SWorld A :=
  s <- get ;;
  let (a, h) := f (hstate s) in
  modify (set_hstate h) ;;; ret a.

(** the file at an address that must be valid *)
Definition file_at (fp : positive) : M SWorld FCGI_FILE :=
  s <- get ;; of_option (files s !! fp).
Definition set_file (fp : positive) (f : FCGI_FILE) : M SWorld unit :=
  _ <- file_at fp ;;
  modify (fun s => set_files (<[fp := f]> (files s)) s).
Definition free_file (fp : positive) : M SWorld unit :=
  _ <- file_at fp ;;
  modify (fun s => set_files (delete fp (files s)) s).

Definition SetErrno (e : Z) : M SWorld unit := in_world (with_os (modify (set_errno e))).

(** the test every wrapper makes *)
Definition dispatch {A} (fp : positive) (on_stdio on_fcgx : positive -> M SWorld A)
    (otherwise : M SWorld A) : M SWorld A :=
  f <- file_at fp ;;
  match stdio_stream f, fcgx_stream f with
  | Some h, _ => on_stdio h
  | None, Some p => on_fcgx p
  | None, None => otherwise
  end.
End State.

Section Operations.
Context `{Platform} `{HostStdio}.
Variable fuel : nat.

Let fill : M SState unit := FillBuffProc fuel.

(** ** Requests *)

Definition FCGI_Accept : M SWorld Z :=
  s <- get ;;
  done <- (if negb (acceptCalled s) then
             cgi <- in_world (FCGX_IsCGI) ;;
             modify (set_isCGI cgi) ;;;
             modify (set_acceptCalled true) ;;;
             modify (set_atexit_finish true) ;;; ret false
           else ret (isCGI s)) ;;
  if done : bool then ret EOF
  else
    s <- get ;;
    if isCGI s then
      set_file FCGI_stdin (mkFile (Some host_stdin) None) ;;;
      set_file FCGI_stdout (mkFile (Some host_stdout) None) ;;;
      set_file FCGI_stderr (mkFile (Some host_stderr) None) ;;;
      ret 0
    else
      r <- in_world (FCGX_Accept fuel) ;;
      let (acceptResult, ptrs) := r in
      if acceptResult <? 0 then ret acceptResult
      else
        ps <- of_option ptrs ;;
        let '(inp, out, error, envp) := ps in
        set_file FCGI_stdin (mkFile None inp) ;;;
        set_file FCGI_stdout (mkFile None out) ;;;
        set_file FCGI_stderr (mkFile None error) ;;;
        modify (set_environ (Some envp)) ;;;
        ret 0.

Definition FCGI_Environ : M SWorld (option env_ptr) := gets environ.

Definition clear_fcgx (fp : positive) : M SWorld unit :=
  f <- file_at fp ;; set_file fp (mkFile (stdio_stream f) None).

Definition FCGI_Finish : M SWorld unit :=
  s <- get ;;
  if negb (acceptCalled s) || isCGI s then ret tt
  else
    in_world (FCGX_Finish fuel) ;;;
    clear_fcgx FCGI_stdin ;;;
    clear_fcgx FCGI_stdout ;;;
    clear_fcgx FCGI_stderr ;;;
    modify (set_environ (Some EnvNull)).

Definition FCGI_StartFilterData : M SWorld Z :=
  f <- file_at FCGI_stdin ;;
  match stdio_stream f with
  | Some _ => ret (-1)
  | None => in_world (on_stream (fcgx_stream f) FCGX_StartFilterData)
  end.

Definition FCGI_SetExitStatus (status : Z) : M SWorld unit :=
  f <- file_at FCGI_stdin ;;
  match fcgx_stream f with
  | Some p => stream_op p (FCGX_SetExitStatus status)
  | None => ret tt
  end.

(** ** Opening and closing *)

(** [FCGI_OpenFromFILE(stream)]: a new [FCGI_FILE], or null *)
Definition FCGI_OpenFromFILE (stream : option positive) : M SWorld (option positive) :=
  match stream with
  | None => ret None
  | Some h =>
      s <- get ;;
      let o := wos (world s) in
      let (r, k) := sys_malloc 16 (plat o) in
      in_world (with_os (modify (set_plat k))) ;;;
      match r with
      | None => ret None
      | Some _ =>
          let fp := fresh (dom (files s)) in
          modify (fun s => set_files (<[fp := mkFile (Some h) None]> (files s)) s) ;;;
          ret (Some fp)
      end
  end.

(** the common part of [FCGI_fopen], [FCGI_tmpfile], [FCGI_fdopen] and
    [FCGI_popen]: wrap the file, or close it again *)
Definition wrap_file (file : option positive) (close : host_call) : M SWorld (option positive) :=
  fcgi_file <- FCGI_OpenFromFILE file ;;
  match file, fcgi_file with
  | Some h, None => _ <- host_op (h_call close h) ;; ret None
  | _, _ => ret fcgi_file
  end.

Definition FCGI_fopen (path mode : list Z) : M SWorld (option positive) :=
  file <- host_op (h_fopen path mode) ;; wrap_file file Fclose.

Definition FCGI_fclose (fp : positive) : M SWorld Z :=
  n <- dispatch fp
         (fun h => n <- host_op (h_call Fclose h) ;;
                   f <- file_at fp ;; set_file fp (mkFile None (fcgx_stream f)) ;;; ret n)
         (fun p => n <- stream_op p (FCGX_FClose fuel) ;;
                   set_file fp (mkFile None None) ;;; ret n)
         (ret EOF) ;;
  (when negb (is_static fp) do free_file fp) ;;;
  ret n.

Definition FCGI_fflush (fp : option positive) : M SWorld Z :=
  match fp with
  | None => host_op h_fflush_all
  | Some fp => dispatch fp (fun h => host_op (h_call Fflush h))
                           (fun p => stream_op p (FCGX_FFlush fuel)) (ret EOF)
  end.

Definition FCGI_freopen (path mode : list Z) (fp : positive) : M SWorld (option positive) :=
  dispatch fp
    (fun h => r <- host_op (h_freopen path mode h) ;;
              ret (match r with None => None | Some _ => Some fp end))
    (fun p => _ <- stream_op p (FCGX_FClose fuel) ;;
              r <- host_op (h_fopen path mode) ;;
              set_file fp (mkFile r (Some p)) ;;;
              match r with
              | None => ret None
              | Some _ => set_file fp (mkFile r None) ;;; ret (Some fp)
              end)
    (ret None).

Definition FCGI_setvbuf (fp : positive) (buf : option Z) (bufmode size : Z) : M SWorld Z :=
  f <- file_at fp ;;
  match stdio_stream f with
  | Some h => host_op (h_call (Setvbuf buf bufmode size) h)
  | None => ret (-1)
  end.

Definition FCGI_setbuf (fp : positive) (buf : option Z) : M SWorld unit :=
  f <- file_at fp ;;
  match stdio_stream f with
  | Some h => _ <- host_op (h_call (Setbuf buf) h) ;; ret tt
  | None => ret tt
  end.

(** ** Positioning: an [FCGX_Stream] cannot seek *)

Definition seek_op (fp : positive) (c : host_call) : M SWorld Z :=
  f <- file_at fp ;;
  match stdio_stream f with
  | Some h => host_op (h_call c h)
  | None => SetErrno ESPIPE ;;; ret (-1)
  end.

Definition FCGI_fseek (fp : positive) (offset whence : Z) : M SWorld Z :=
  seek_op fp (Fseek offset whence).
(** the [long] result is returned as an [int] *)
Definition FCGI_ftell (fp : positive) : M SWorld Z :=
  n <- seek_op fp Ftell ;; ret (INT n).
Definition FCGI_rewind (fp : positive) : M SWorld unit :=
  _ <- seek_op fp Rewind ;; ret tt.
Definition FCGI_fgetpos (fp : positive) (pos : Z) : M SWorld Z := seek_op fp (Fgetpos pos).
Definition FCGI_fsetpos (fp : positive) (pos : Z) : M SWorld Z := seek_op fp (Fsetpos pos).

(** ** Characters, lines and blocks *)

Definition FCGI_fgetc (fp : positive) : M SWorld Z :=
  dispatch fp (fun h => host_op (h_call Fgetc h))
              (fun p => stream_op p (FCGX_GetChar fill)) (ret EOF).

Definition FCGI_getchar : M SWorld Z := FCGI_fgetc FCGI_stdin.

Definition FCGI_ungetc (c : Z) (fp : positive) : M SWorld Z :=
  dispatch fp (fun h => host_op (h_call (Ungetc c) h))
              (fun p => stream_op p (FCGX_UnGetChar c)) (ret EOF).

(** the characters stored in [str], without the NUL; [None] for null *)
Definition FCGI_fgets (size : Z) (fp : positive) : M SWorld (option (list Z)) :=
  dispatch fp (fun h => host_op (h_fgets size h))
              (fun p => stream_op p (FCGX_GetLine fuel fill size)) (ret None).

(** [FCGI_gets(str)] for an object of [room] characters at [str]; the loop's
    variable is what was stored *)
Definition FCGI_gets (room : Z) : M SWorld (option (list Z)) :=
  r <- loop fuel (fun s : list Z =>
    c <- FCGI_getchar ;;
    if c =? 10 then ret (inr (Some s))
    else if c =? EOF then ret (inr (if bool_decide (s = []) then None else Some s))
    else if len s <? room then ret (inl (s ++ [UCHAR c])) else undef) [] ;;
  match r with
  | None => ret None
  | Some s => if len s <? room then ret (Some s) else undef
  end.

Definition FCGI_fputc (c : Z) (fp : positive) : M SWorld Z :=
  dispatch fp (fun h => host_op (h_call (Fputc c) h))
              (fun p => stream_op p (FCGX_PutChar fuel c)) (ret EOF).

Definition FCGI_putchar (c : Z) : M SWorld Z := FCGI_fputc c FCGI_stdout.

Definition FCGI_fputs (str : list Z) (fp : positive) : M SWorld Z :=
  dispatch fp (fun h => host_op (h_call (Fputs str) h))
              (fun p => stream_op p (FCGX_PutS fuel str)) (ret EOF).

Definition FCGI_puts (str : list Z) : M SWorld Z :=
  dispatch FCGI_stdout
    (fun h => n <- host_op (h_call (Fputs str) h) ;;
              if n <? 0 then ret n else host_op (h_call (Fputc 10) h))
    (fun p => n <- stream_op p (FCGX_PutS fuel str) ;;
              if n <? 0 then ret n else stream_op p (FCGX_PutChar fuel 10))
    (ret EOF).

Definition FCGI_perror (str : list Z) : M SWorld unit :=
  _ <- FCGI_fputs str FCGI_stderr ;;
  _ <- FCGI_fputs (c_str (chars ": ")) FCGI_stderr ;;
  s <- get ;;
  _ <- FCGI_fputs (h_strerror (errno (wos (world s)))) FCGI_stderr ;;
  ret tt.

(** ** Formatted output *)

(** the result and the stores through the pointers of ["%n"] *)
Definition vfprintf_op (fp : positive) (format : list Z) (ap : list varg) (closed : Z)
    : M SWorld (Z * list (Z * Z)) :=
  dispatch fp (fun h => host_op (h_vfprintf format ap h))
              (fun p => stream_op p (FCGX_VFPrintF fuel format ap)) (ret (closed, [])).

Definition FCGI_vfprintf (fp : positive) (format : list Z) (ap : list varg)
    : M SWorld (Z * list (Z * Z)) := vfprintf_op fp format ap EOF.
Definition FCGI_vprintf (format : list Z) (ap : list varg) : M SWorld (Z * list (Z * Z)) :=
  vfprintf_op FCGI_stdout format ap EOF.
Definition FCGI_fprintf (fp : positive) (format : list Z) (ap : list varg)
    : M SWorld (Z * list (Z * Z)) := vfprintf_op fp format ap 0.
Definition FCGI_printf (format : list Z) (ap : list varg) : M SWorld (Z * list (Z * Z)) :=
  FCGI_vfprintf FCGI_stdout format ap.

(** ** Blocks; [size_t] arithmetic wraps at 2^64 *)

Definition SIZE (z : Z) : Z := z mod 18446744073709551616.

(** the number of objects and the bytes stored *)
Definition FCGI_fread (size nmemb : Z) (fp : positive) : M SWorld (Z * list Z) :=
  dispatch fp
    (fun h => host_op (h_fread size nmemb h))
    (fun p =>
       if SIZE (size * nmemb) =? 0 then ret (0, [])
       else
         assert (SIZE (size * nmemb) <? INT_MAX) ;;;
         bs <- stream_op p (FCGX_GetStr fuel fill (INT (SIZE (size * nmemb)))) ;;
         assert (0 <=? len bs) ;;;
         ret (len bs / size, bs))
    (ret (SIZE EOF, [])).

Definition FCGI_fwrite (ptr : list Z) (size nmemb : Z) (fp : positive) : M SWorld Z :=
  dispatch fp
    (fun h => host_op (h_call (Fwrite ptr size nmemb) h))
    (fun p =>
       if SIZE (size * nmemb) =? 0 then ret 0
       else
         assert (SIZE (size * nmemb) <? INT_MAX) ;;;
         n <- stream_op p (FCGX_PutStr fuel ptr (INT (SIZE (size * nmemb)))) ;;
         assert (0 <=? n) ;;;
         ret (n / size))
    (ret (SIZE EOF)).

(** ** State of a file *)

Definition FCGI_feof (fp : positive) : M SWorld Z :=
  dispatch fp (fun h => host_op (h_call Feof h))
              (fun p => stream_op p FCGX_HasSeenEOF) (ret (-1)).

Definition FCGI_ferror (fp : positive) : M SWorld Z :=
  dispatch fp (fun h => host_op (h_call Ferror h))
              (fun p => stream_op p FCGX_GetError) (ret (-1)).

Definition FCGI_clearerr (fp : positive) : M SWorld unit :=
  dispatch fp (fun h => _ <- host_op (h_call Clearerr h) ;; ret tt)
              (fun p => stream_op p FCGX_ClearError) (ret tt).

Definition FCGI_tmpfile : M SWorld (option positive) :=
  file <- host_op h_tmpfile ;; wrap_file file Fclose.

Definition FCGI_fileno (fp : positive) : M SWorld Z :=
  f <- file_at fp ;;
  match stdio_stream f with
  | Some h => host_op (h_call Fileno h)
  | None => ret (-1)
  end.

Definition FCGI_fdopen (fd : Z) (mode : list Z) : M SWorld (option positive) :=
  file <- host_op (h_fdopen fd mode) ;; wrap_file file Fclose.

Definition FCGI_popen (cmd type : list Z) : M SWorld (option positive) :=
  file <- host_op (h_popen cmd type) ;; wrap_file file Pclose.

Definition FCGI_pclose (fp : positive) : M SWorld Z :=
  f <- file_at fp ;;
  n <- (match stdio_stream f, fcgx_stream f with
        | Some h, _ => n <- host_op (h_call Pclose h) ;;
                       set_file fp (mkFile None (fcgx_stream f)) ;;; ret (n, true)
        | None, Some _ => ret (EOF, false)
        | None, None => ret (EOF, true)
        end) ;;
  (when snd n && negb (is_static fp) do free_file fp) ;;;
  ret (fst n).
End Operations.
