(* ===== verification/StdioSpec.v ===== *)
(** * What the stdio interface guarantees

    A wrapper on a file that wraps an [FCGX_Stream] behaves as the operation on
    that stream ([wp_dispatch_stream]); [FCGI_gets] reads lines, and sequences of
    [FCGI_gets] and [FCGI_fread] read a list of bytes ([wp_each]); a closed file
    answers every operation with its default; [FCGI_Accept] makes the three
    static files the streams of the accepted request. *)

From Stdlib Require Import String.
From S2P Require Import Prelude CString Protocol Platform OsUnix Params Stream Writer Reader.
From S2P Require Import Source Reads NameValue Demux Begin Format Request Accept Response Stdio.
#[local] Open Scope Z_scope.

Section Lifting.
Context `{Reliable} `{HostStdio}.
Implicit Types (sw : SWorld) (fp p : positive).

(** the file wraps a stream in a state that satisfies [P] *)
Definition at_stream fp (P : SState -> Prop) sw : Prop :=
  exists p st, files sw !! fp = Some (mkFile None (Some p)) /\
    heap (world sw) !! p = Some st /\ P (sstate (world sw) st).

Lemma wp_file_op {A} fp p st (m : M SState A) (R : A -> SState -> Prop) sw :
  files sw !! fp = Some (mkFile None (Some p)) -> heap (world sw) !! p = Some st ->
  wp m R (sstate (world sw) st) ->
  wp (stream_op p m) (fun x sw' => at_stream fp (R x) sw') sw.
Proof.
  intros Hf Hp Hm. unfold stream_op, in_world. apply wp_zoom.
  eapply wp_on_stream; [exact Hp|]. wp_use Hm. intros x s' HR.
  exists p, (stm s'). split; [done|]. cbn. rewrite lookup_insert_eq. split; [done|].
  unfold sstate. cbn. by destruct s'.
Qed.

(** the wrapped operation, through the wrapper's test *)
Lemma wp_dispatch_stream {A} fp (P : SState -> Prop) (on_stdio : positive -> M SWorld A)
    (m : M SState A) otherwise (R : A -> SState -> Prop) sw :
  at_stream fp P sw -> (forall s, P s -> wp m R s) ->
  wp (dispatch fp on_stdio (fun p => stream_op p m) otherwise)
     (fun x sw' => at_stream fp (R x) sw') sw.
Proof.
  intros (p & st & Hf & Hp & HP) Hm. unfold dispatch, file_at. wp_steps.
  eapply wp_of_option; [exact Hf|]. cbn. eapply wp_file_op; [done..|]. by apply Hm.
Qed.

(** ** Lines *)

(** what is before the first newline, and what follows it *)
Fixpoint split_line (c : list Z) : list Z * option (list Z) :=
  match c with
  | [] => ([], None)
  | x :: c' => if x =? 10 then ([], Some c')
               else let (l, r) := split_line c' in (x :: l, r)
  end.

Section Lines.
Context (fuel : nat) (I : list Z -> SState -> Prop) (E : SState -> Prop)
  `{!Source (FillBuffProc fuel) I E}.

Lemma wp_getchar c sw : at_stream FCGI_stdin (I c) sw ->
  wp (FCGI_getchar fuel) (fun r sw' =>
    match c with
    | x :: c' => r = x /\ is_byte x /\ at_stream FCGI_stdin (I c') sw'
    | [] => r = EOF /\ at_stream FCGI_stdin E sw'
    end) sw.
Proof.
  intros Hat. unfold FCGI_getchar, FCGI_fgetc.
  wp_use @wp_dispatch_stream; [exact Hat| |].
  - intros s HI. apply (wp_GetChar (FillBuffProc fuel) I E). exact HI.
  - intros r sw' Hr. destruct c as [|x c'].
    + destruct Hr as (p & st & Hf & Hp & [(x & c' & [=] & _) | (_ & -> & HE)]).
      split; [done|]. by exists p, st.
    + destruct Hr as (p & st & Hf & Hp & [(x' & c'' & [= <- <-] & -> & Hx & HI & _) | ([=] & _)]).
      split; [done|]. split; [done|]. by exists p, st.
Qed.

(** [FCGI_gets] stores the next line without its newline, and returns null
    only at the end of the input; the line must fit in the caller's array. *)
Lemma wp_FCGI_gets c room sw :
  at_stream FCGI_stdin (I c) sw -> len (fst (split_line c)) < room ->
  len c + 1 < Z.of_nat fuel ->
  wp (FCGI_gets fuel room) (fun r sw' =>
    match split_line c with
    | (l, Some c') => r = Some l /\ at_stream FCGI_stdin (I c') sw'
    | (l, None) => r = (if bool_decide (l = []) then None else Some l) /\
                   at_stream FCGI_stdin E sw'
    end) sw.
Proof.
  intros Hat Hroom Hfuel. unfold FCGI_gets. wp_step. pose proof (len_nonneg c).
  apply (wp_mono _ (fun r sw' => (forall l, r = Some l -> len l < room) /\
    match split_line c with
    | (l, Some c') => r = Some l /\ at_stream FCGI_stdin (I c') sw'
    | (l, None) => r = (if bool_decide (l = []) then None else Some l) /\
                   at_stream FCGI_stdin E sw'
    end)).
  2: { intros [l|] sw' [Hl Hq]; [|by wp_step].
       replace (len l <? room) with true by (specialize (Hl l eq_refl); lia). by wp_step. }
  apply (wp_loop (fun n acc sw1 => exists c1, at_stream FCGI_stdin (I c1) sw1 /\
    n = length c1 /\ split_line c = (acc ++ fst (split_line c1), snd (split_line c1)))
    _ _ _ (length c)).
  2: unfold len in *; lia.
  2: { exists c. split; [done|]. split; [done|]. cbn. by destruct (split_line c). }
  intros n acc sw1 (c1 & Hc1 & -> & Hsplit). wp_step. wp_use wp_getchar; [exact Hc1|].
  rewrite Hsplit in Hroom |- *. cbn [fst] in Hroom. rewrite len_app in Hroom.
  intros r sw2. destruct c1 as [|x c1].
  - intros [-> HE]. change (EOF =? 10) with false. cbn match. rewrite Z.eqb_refl. wp_step.
    cbn [split_line fst snd] in *. rewrite app_nil_r in *. change (len []) with 0 in Hroom.
    split; [|done]. case_bool_decide; [done|]. intros l [= <-]. lia.
  - intros (-> & Hx & HI). cbn [split_line] in *.
    destruct (Z.eqb_spec x 10) as [->|Hne].
    + wp_step. cbn [fst snd] in *. rewrite app_nil_r. change (len []) with 0 in Hroom.
      split; [|done]. intros l [= <-]. lia.
    + replace (x =? EOF) with false by (unfold is_byte, EOF in *; lia).
      destruct (split_line c1) as [l r] eqn:E1. cbn [fst snd] in *. rewrite len_cons in Hroom.
      pose proof (len_nonneg l). replace (len acc <? room) with true by lia. wp_step.
      exists (length c1). split; [cbn; lia|]. exists c1. split; [done|]. split; [done|].
      rewrite E1, UCHAR_id by done. cbn. by rewrite <- app_assoc.
Qed.
End Lines.

(** ** Blocks *)

Lemma wp_fwrite fuel (I B : list Z -> SState -> Prop) `{!Sink fuel I B} fp acc ptr size nmemb sw :
  at_stream fp (I acc) sw -> 0 < size -> 0 < nmemb -> size * nmemb < INT_MAX ->
  size * nmemb <= len ptr -> size * nmemb + 2 < Z.of_nat fuel ->
  wp (FCGI_fwrite fuel ptr size nmemb fp) (fun r sw' =>
    r = nmemb /\ at_stream fp (I (acc ++ take (Z.to_nat (size * nmemb)) ptr)) sw') sw.
Proof.
  intros Hat Hs Hn Hmax Hlen Hfuel. assert (0 < size * nmemb) as Hpos by nia.
  destruct Hat as (p & st & Hf & Hp & HI). unfold FCGI_fwrite, dispatch, file_at. wp_steps.
  eapply wp_of_option; [exact Hf|]. cbn [stdio_stream fcgx_stream].
  assert (SIZE (size * nmemb) = size * nmemb) as ->.
  { unfold SIZE. apply Z.mod_small. unfold INT_MAX in *. lia. }
  replace (size * nmemb =? 0) with false by lia.
  wp_step. apply wp_assert; [lia|]. wp_step.
  rewrite INT_id by (unfold INT_MIN, INT_MAX in *; lia).
  eapply wp_mono; [eapply wp_file_op; [done|exact Hp|]|].
  { apply (wp_PutStr fuel I B); [exact HI|lia|lia|lia]. }
  cbv beta. intros r sw' (p' & st' & Hf' & Hp' & [[-> HI'] | (_ & k & _ & HB)]).
  2: { apply (sink_broken (fuel := fuel)) in HB as [_ HB]. by destruct no_fail. }
  wp_step. apply wp_assert; [lia|]. wp_step.
  split; [rewrite Z.mul_comm; by apply Z.div_mul; lia|].
  exists p', st'. split; [done|]. split; [done|].
  unfold slice in HI'. rewrite Z.sub_0_r in HI'. by change (drop (Z.to_nat 0) ptr) with ptr in HI'.
Qed.

Lemma wp_fread fuel I E `{!Source (FillBuffProc fuel) I E} fp c size nmemb sw :
  at_stream fp (I c) sw -> 0 < size -> 0 < nmemb -> size * nmemb < INT_MAX ->
  2 * len c + 2 < Z.of_nat fuel ->
  wp (FCGI_fread fuel size nmemb fp) (fun r sw' =>
    r = (Z.min (size * nmemb) (len c) / size, take (Z.to_nat (size * nmemb)) c) /\
    at_stream fp (fun s => if size * nmemb <=? len c
                           then I (drop (Z.to_nat (size * nmemb)) c) s else E s) sw') sw.
Proof.
  intros Hat Hs Hn Hmax Hfuel. assert (0 < size * nmemb) as Hpos by nia.
  destruct Hat as (p & st & Hf & Hp & HI). unfold FCGI_fread, dispatch, file_at. wp_steps.
  eapply wp_of_option; [exact Hf|]. cbn [stdio_stream fcgx_stream].
  assert (SIZE (size * nmemb) = size * nmemb) as ->.
  { unfold SIZE. apply Z.mod_small. unfold INT_MAX in *. lia. }
  replace (size * nmemb =? 0) with false by lia.
  wp_step. apply wp_assert; [lia|]. wp_step.
  rewrite INT_id by (unfold INT_MIN, INT_MAX in *; lia).
  eapply wp_mono; [eapply wp_file_op; [done|exact Hp|]|].
  { apply (wp_GetStr fuel (FillBuffProc fuel) I E); [exact HI|lia|lia]. }
  cbv beta. replace (size * nmemb <=? 0) with false by lia.
  intros bs sw' (p' & st' & Hf' & Hp' & -> & Hrest).
  wp_step. apply wp_assert; [pose proof (len_nonneg (take (Z.to_nat (size * nmemb)) c)); lia|].
  wp_step. split; [|by exists p', st'].
  f_equal. f_equal. unfold len. rewrite length_take. lia.
Qed.

(** ** Sequences of reads *)

(** what [FCGI_gets] and [FCGI_fread] make of the bytes to come; [None] when the end
    was seen *)
Definition list_gets (st : list_reader) : option (list Z) * list_reader :=
  match st with
  | None => (None, None)
  | Some c =>
      match split_line c with
      | (l, Some c') => (Some l, Some c')
      | (l, None) => (if bool_decide (l = []) then None else Some l, None)
      end
  end.

Definition list_fread (size nmemb : Z) (st : list_reader) : (Z * list Z) * list_reader :=
  match st with
  | None => ((0, []), None)
  | Some c =>
      let n := size * nmemb in
      ((Z.min n (len c) / size, take (Z.to_nat n) c),
       if n <=? len c then Some (drop (Z.to_nat n) c) else None)
  end.

(** the line that comes next fits in an array of [room] characters *)
Definition line_fits (room : Z) (st : list_reader) : Prop :=
  0 < room /\ match st with Some c => len (fst (split_line c)) < room | None => True end.

Definition block_ok (size nmemb : Z) : Prop :=
  0 < size /\ 0 < nmemb /\ size * nmemb < INT_MAX.

(** a command repeated over a list of arguments, on a file and on a list reader; [ok]
    is asked of every argument where the list reader then stands *)
Fixpoint each {S A B} (f : A -> M S B) (l : list A) : M S (list B) :=
  match l with
  | [] => ret []
  | a :: l => b <- f a ;; bs <- each f l ;; ret (b :: bs)
  end.

Fixpoint list_each {A B} (g : A -> list_reader -> B * list_reader) (l : list A)
    (st : list_reader) : list B * list_reader :=
  match l with
  | [] => ([], st)
  | a :: l => let (b, st) := g a st in let (bs, st) := list_each g l st in (b :: bs, st)
  end.

Fixpoint each_ok {A B} (ok : A -> list_reader -> Prop) (g : A -> list_reader -> B * list_reader)
    (l : list A) (st : list_reader) : Prop :=
  match l with
  | [] => True
  | a :: l => ok a st /\ each_ok ok g l (snd (g a st))
  end.

(** a read of standard input: a line or a block *)
Inductive stdin_read := Gets (room : Z) | Fread (size nmemb : Z).

Definition run_stdin_read fuel (op : stdin_read) : M SWorld (option (list Z) + Z * list Z) :=
  match op with
  | Gets room => r <- FCGI_gets fuel room ;; ret (inl r)
  | Fread size nmemb => r <- FCGI_fread fuel size nmemb FCGI_stdin ;; ret (inr r)
  end.

Definition list_stdin_read (op : stdin_read) (st : list_reader)
    : (option (list Z) + Z * list Z) * list_reader :=
  match op with
  | Gets _ => let (l, st) := list_gets st in (inl l, st)
  | Fread size nmemb => let (r, st) := list_fread size nmemb st in (inr r, st)
  end.

Definition stdin_read_ok (op : stdin_read) (st : list_reader) : Prop :=
  match op with
  | Gets room => line_fits room st
  | Fread size nmemb => block_ok size nmemb
  end.

Lemma split_line_len c : len (fst (split_line c)) +
  match snd (split_line c) with Some c' => len c' + 1 | None => 0 end = len c.
Proof.
  induction c as [|x c IH]; [done|]. cbn [split_line]. destruct (x =? 10).
  - cbn. unfold len. cbn. lia.
  - destruct (split_line c) as [l r]. cbn [fst snd] in *. rewrite !len_cons. lia.
Qed.

Section Sequences.
Context (fuel : nat) (I : list Z -> SState -> Prop) (E : SState -> Prop)
  `{!Source (FillBuffProc fuel) I E}.

(** a file whose stream stands where the list reader stands, with fuel for the rest *)
Definition file_reads fp (st : list_reader) sw : Prop :=
  at_stream fp (reads_at I E st) sw /\ reads_fuel fuel st.

Lemma wp_getchar_ended sw : at_stream FCGI_stdin E sw ->
  wp (FCGI_getchar fuel) (fun r sw' => r = EOF /\ at_stream FCGI_stdin E sw') sw.
Proof.
  intros Hat. unfold FCGI_getchar, FCGI_fgetc.
  wp_use @wp_dispatch_stream; [exact Hat| |].
  - intros s HE. apply (wp_GetChar_closed (FillBuffProc fuel) s (fun r s' => r = EOF /\ E s')).
    + by apply (src_end (Source := Source0)).
    + done.
  - intros r sw' (p & st & Hf & Hp & -> & HE). split; [done|]. by exists p, st.
Qed.

Lemma wp_gets_reads room st sw : line_fits room st -> file_reads FCGI_stdin st sw ->
  wp (FCGI_gets fuel room) (fun r sw' => r = fst (list_gets st) /\
    file_reads FCGI_stdin (snd (list_gets st)) sw') sw.
Proof.
  intros [Hr Hl] [Hat Hf]. destruct st as [c|]; cbn [reads_at reads_fuel list_gets fst snd] in *.
  - pose proof (split_line_len c). pose proof (len_nonneg (fst (split_line c))).
    pose proof (len_nonneg c). wp_use (wp_FCGI_gets fuel I E c room sw Hat Hl); [lia|].
    intros r sw'. unfold file_reads, reads_fuel. destruct (split_line c) as [l [c'|]];
      cbn [fst snd] in *; intros [-> Hat']; (split; [done|]); split; [done|lia|done|lia].
  - unfold FCGI_gets. wp_step.
    apply (wp_mono _ (fun r sw' => r = None /\ file_reads FCGI_stdin None sw')).
    2: { intros r sw' [-> Hs']. by wp_step. }
    apply (wp_loop (fun n acc sw1 => acc = [] /\ at_stream FCGI_stdin E sw1) _ _ _ 0); [|lia|done].
    intros n acc sw1 [-> Hat1]. wp_step. wp_use wp_getchar_ended; [done|]. intros r sw' [-> HE].
    change (EOF =? 10) with false. rewrite Z.eqb_refl. by wp_step.
Qed.

Lemma wp_fread_reads fp size nmemb st sw : block_ok size nmemb -> file_reads fp st sw ->
  wp (FCGI_fread fuel size nmemb fp) (fun r sw' => r = fst (list_fread size nmemb st) /\
    file_reads fp (snd (list_fread size nmemb st)) sw') sw.
Proof.
  intros (Hs & Hn & Hmax) [Hat Hf]. destruct st as [c|]; cbn [reads_at reads_fuel list_fread fst snd] in *.
  - wp_use (wp_fread fuel I E fp c size nmemb sw Hat Hs Hn Hmax Hf). intros r sw' [-> Hat'].
    split; [done|]. unfold file_reads, reads_fuel. destruct (Z.leb_spec (size * nmemb) (len c)).
    + split; [done|]. pose proof (len_nonneg (drop (Z.to_nat (size * nmemb)) c)).
      unfold len in *. rewrite length_drop in *. lia.
    + split; [done|]. pose proof (len_nonneg c). lia.
  - assert (0 < size * nmemb) by nia. unfold FCGI_fread.
    assert (SIZE (size * nmemb) = size * nmemb) as ->.
    { unfold SIZE. apply Z.mod_small. unfold INT_MAX in *. lia. }
    replace (size * nmemb =? 0) with false by lia.
    replace (size * nmemb <? INT_MAX) with true by lia.
    destruct Hat as (p & s & Hfp & Hp & HE). unfold dispatch, file_at. wp_steps.
    eapply wp_of_option; [exact Hfp|]. cbn [stdio_stream fcgx_stream]. wp_step. apply wp_assert; [done|].
    wp_step. eapply wp_mono; [eapply (wp_file_op fp p s _ (fun bs s' => bs = [] /\ E s')); [done|exact Hp|]|].
    { unfold FCGX_GetStr. sstep. rewrite (src_end (Source := Source0) _ HE). cbn [orb]. by sstep. }
    cbv beta. intros bs sw' (p' & s' & Hf' & Hp' & -> & HE').
    change (len []) with 0. wp_step. apply wp_assert; [done|]. wp_step.
    rewrite Z.div_0_l by lia. split; [done|]. split; [by exists p', s'|done].
Qed.

(** each command of a sequence takes its part of the list *)
Lemma wp_each {A B} (f : A -> M SWorld B) g ok fp l st sw :
  (forall a st sw, ok a st -> file_reads fp st sw ->
     wp (f a) (fun b sw' => b = fst (g a st) /\ file_reads fp (snd (g a st)) sw') sw) ->
  each_ok ok g l st -> file_reads fp st sw ->
  wp (each f l) (fun bs sw' => bs = fst (list_each g l st) /\
    file_reads fp (snd (list_each g l st)) sw') sw.
Proof.
  intros Hf. revert st sw. induction l as [|a l IH]; intros st sw; cbn [each each_ok list_each].
  - intros _ Hat. by wp_step.
  - intros [Ha Hl] Hat. wp_step. wp_use Hf; [exact Ha|exact Hat|]. intros b sw1 [-> Hat1].
    destruct (g a st) as [b st1]. cbn [fst snd] in *. wp_step. wp_use IH; [done|done|].
    intros bs sw2 [-> Hat2]. destruct (list_each g l st1). by wp_step.
Qed.

Lemma wp_stdin_read op st sw : stdin_read_ok op st -> file_reads FCGI_stdin st sw ->
  wp (run_stdin_read fuel op) (fun r sw' => r = fst (list_stdin_read op st) /\
    file_reads FCGI_stdin (snd (list_stdin_read op st)) sw') sw.
Proof.
  intros Hok Hat. destruct op as [room|size nmemb]; cbn [run_stdin_read list_stdin_read]; wp_step.
  - wp_use wp_gets_reads; [done|done|]. intros r sw'. destruct (list_gets st).
    intros [-> Hr]. by wp_step.
  - wp_use wp_fread_reads; [done|done|]. intros r sw'. destruct (list_fread _ _ st).
    intros [-> Hr]. by wp_step.
Qed.
End Sequences.

(** ** Closed files *)

(** every operation on a file whose two pointers are null answers with its
    default and changes nothing *)
Lemma dispatch_closed {A} fp (h g : positive -> M SWorld A) (a : A) sw :
  files sw !! fp = Some (mkFile None None) -> dispatch fp h g (ret a) sw = Ret a sw.
Proof. intros Hf. unfold dispatch, file_at, bind, get. rewrite Hf. done. Qed.

(** ** Accepting *)

Definition static_files sw : Prop :=
  is_Some (files sw !! FCGI_stdin) /\ is_Some (files sw !! FCGI_stdout) /\
  is_Some (files sw !! FCGI_stderr).

(** the process was started as a FastCGI server, which a first call finds
    out and a later one remembers *)
Definition fastcgi_server sw : Prop :=
  if acceptCalled sw then isCGI sw = false else isFastCGI (world sw) = 1.

Lemma wp_set_file fp f (Q : unit -> SWorld -> Prop) sw :
  is_Some (files sw !! fp) -> Q tt (set_files (<[fp := f]> (files sw)) sw) ->
  wp (set_file fp f) Q sw.
Proof.
  intros [x Hx] HQ. unfold set_file, file_at. wp_steps. eapply wp_of_option; [done|]. by wp_step.
Qed.

Lemma wp_FCGI_Accept fuel id role flags precs ps rest sw :
  fastcgi_server sw -> static_files sw -> libInitialized (world sw) = true ->
  shutdownNow (wos (world sw)) = false -> kept_open (req (world sw)) ->
  request_ok_wire id role flags precs ps ->
  os_in (ipcFd (req (world sw))) (wos (world sw)) = request_wire id role flags precs rest ->
  2 * len (request_wire id role flags precs rest) + 18 < Z.of_nat fuel ->
  wp (FCGI_Accept fuel) (fun r sw' => r = 0 /\
    accepted (world sw) id role flags ps rest (world sw') /\
    files sw' !! FCGI_stdin = Some (mkFile None (in_ (req (world sw')))) /\
    files sw' !! FCGI_stdout = Some (mkFile None (out (req (world sw')))) /\
    files sw' !! FCGI_stderr = Some (mkFile None (err (req (world sw')))) /\
    environ sw' = Some EnvParams /\ fastcgi_server sw' /\ acceptCalled sw' = true) sw.
Proof.
  intros Hfast (Hf1 & Hf2 & Hf3) Hinit Hs Hkept Hok Hin Hfuel. unfold FCGI_Accept. wp_step. wp_step.
  wp_step. eapply (wp_mono _ (fun r sw1 => r = false /\ world sw1 = world sw /\
    files sw1 = files sw /\ isCGI sw1 = false /\ acceptCalled sw1 = true)).
  { unfold fastcgi_server in Hfast. destruct (acceptCalled sw) eqn:Ecalled; cbn [negb].
    - by wp_step.
    - unfold in_world, FCGX_IsCGI. wp_step. apply wp_zoom. wp_step. wp_step. rewrite Hfast. wp_steps.
      split; [done|]. split; [|done]. by destruct sw. }
  intros r sw1 (-> & Hw & Hfl & Hcgi & Hcalled). wp_steps. rewrite Hcgi. wp_step.
  unfold in_world. apply wp_zoom. unfold FCGX_Accept. rewrite Hw. wp_steps. rewrite Hinit. wp_steps.
  change (negb (0 =? 0)) with false. cbn match. wp_step. wp_use wp_Accept_r_kept; [done..|exact Hok|exact Hin|exact Hfuel|].
  intros r w' [-> Hacc]. unfold get_req. wp_steps.
  change (0 <? 0) with false. cbn match. wp_step. eapply wp_of_option; [done|].
  assert (envp (req w') = EnvParams) as Henv by (by destruct (ac_env _ _ _ _ _ _ _ _ Hacc) as (? & ? & _ & ? & _)).
  cbv beta iota. wp_step. apply wp_set_file; [cbn; by rewrite Hfl|]. wp_step.
  apply wp_set_file; [cbn; by rewrite lookup_insert_ne, Hfl|]. wp_step.
  apply wp_set_file; [cbn; by rewrite !lookup_insert_ne, Hfl|]. wp_steps.
  split; [done|]. split; [done|]. cbn.
  rewrite lookup_insert_ne, lookup_insert_ne, lookup_insert_eq by done.
  rewrite lookup_insert_ne, lookup_insert_eq by done. rewrite lookup_insert_eq.
  rewrite Henv. split_and!; try done. unfold fastcgi_server. cbn. by rewrite Hcalled.
Qed.
End Lifting.
