(* ===== verification/Theorems.v ===== *)
(** * The properties of the library

    What the components guarantee, stated for the operations an application or
    a web server sees, each with a run on a concrete system where its
    hypotheses hold. *)

From Stdlib Require Import String.
From S2P Require Import Prelude CString Protocol Dispatch Platform Script OsUnix Params Stream Writer.
From S2P Require Import Reader Source Reads NameValue Demux Begin Request Accept Client Response Session Retry.
#[local] Open Scope Z_scope.

(** ** The systems used in the examples *)

Section Examples.
(** a request for one responder on descriptor 5, its environment in one
    padded record, three bytes of input in two records *)
Definition ex_pairs : list (list Z * list Z) :=
  [(chars "A", chars "BC"); (chars "LANG", []); (chars "A", chars "2")].
Definition ex_params : list rec := [mkRec FCGI_PARAMS 1 (encode_pairs ex_pairs) [0; 0]].
Definition ex_stdin : list rec :=
  [mkRec FCGI_STDIN 1 [10; 20] [0]; mkRec FCGI_STDIN 7 [99] []; mkRec FCGI_STDIN 1 [30] []].
Definition ex_rest : list Z :=
  encode_all ex_stdin ++ encode_rec (eof_rec FCGI_STDIN 1 [0; 0]) ++ [].
Definition ex_wire : list Z := request_wire 1 FCGI_RESPONDER 1 ex_params ex_rest.
Definition ex_request : FCGX_Request :=
  mkRequest 0 0 None None None EnvNull None 5 false 1 0 0 0 0.
Definition ex_os : OS := script_os (one_input 5 7 ex_wire).
Definition ex_world : World := mkWorld ∅ ex_request ex_os 1 true None.

Definition ex_ops : list app_op :=
  [PutStr Out (chars "hi"); PutStr Err (chars "!"); Flush Out; PutChar Out 10; SetExitStatus 3].

Lemma ex_world_kept : kept_open (req ex_world).
Proof. by split. Qed.

Lemma rec_ok_check r :
  is_byteb (r_type r) && (0 <=? r_id r) && (r_id r <? 65536)
  && (len (r_content r) <=? FCGI_MAX_LENGTH) && (len (r_padding r) <=? 255) = true ->
  rec_ok r.
Proof.
  rewrite !andb_true_iff. unfold rec_ok, is_byteb, is_byte.
  rewrite andb_true_iff. lia.
Qed.

Lemma ex_request_ok : request_ok_wire 1 FCGI_RESPONDER 1 ex_params ex_pairs.
Proof.
  split; try done.
  - repeat constructor; try done; by vm_compute.
  - apply (encode_pairs_wire ex_pairs). repeat constructor; by vm_compute.
Qed.

Lemma ex_pairs_ok : Forall pair_ok ex_pairs.
Proof. repeat constructor; done. Qed.

Lemma ex_stdin_ok : Forall (input_rec FCGI_STDIN 1) ex_stdin.
Proof.
  apply Forall_cons; split; [split; [by apply rec_ok_check|split; [done|by left]]|].
  apply Forall_cons; split; [split; [by apply rec_ok_check|split; [done|by right]]|].
  apply Forall_cons; split; [split; [by apply rec_ok_check|split; [done|by left]]|].
  constructor.
Qed.

Lemma ex_fuel n : n < 70000 -> n < Z.of_nat demo_fuel.
Proof. by rewrite demo_fuel_val. Qed.

Lemma ex_ops_ok : Forall (op_ok demo_fuel) ex_ops.
Proof. repeat constructor; cbn; try (by vm_compute); apply ex_fuel; by vm_compute. Qed.
End Examples.

(** a request that is being answered, with small buffers *)
Section Answering.
Definition ex_writer t : FCGX_Stream :=
  mkStream 32 8 32 None false false false 0 NullProc EmptyBuffProc_ptr
    (mkData (replicate 32 0) 32 4100 32 t false false 0 0 false false).
Definition ex_reader t : FCGX_Stream :=
  mkStream 0 0 0 (Some 0) true false false 0 FillBuffProc_ptr NullProc
    (mkData (replicate 32 0) 32 4100 0 t false false 0 0 false false).
Definition ex_heap : gmap positive FCGX_Stream :=
  <[1%positive := ex_reader FCGI_STDIN]> (<[2%positive := ex_writer FCGI_STDOUT]>
    (<[3%positive := ex_writer FCGI_STDERR]> ∅)).
Definition ex_addr (x : which) : positive :=
  match x with Out => 2%positive | Err => 3%positive end.
Definition ex_open_request (keep : Z) : FCGX_Request :=
  mkRequest 1 1 (Some 1%positive) (Some 2%positive) (Some 3%positive) EnvParams
    (Some (mkParams [Null] 1 0)) 5 true keep 0 2 0 0.
Definition ex_answering (keep : Z) : World :=
  mkWorld ex_heap (ex_open_request keep) ex_os 1 true None.

Lemma ex_writer_open t : is_byte t -> open_at 1 t [] [] (ex_writer t).
Proof. intros. split; try done. Qed.

Lemma ex_responding keep :
  responding (os_out 5 ex_os) [] (fun _ => []) ex_addr (ex_answering keep).
Proof.
  split; try done.
  - by intros [].
  - intros []; eexists; (split; [reflexivity|]); by apply ex_writer_open.
  - exists 1%positive, (ex_reader FCGI_STDIN). split; [done|]. split; [by intros []|]. done.
  - exists (mkParams [Null] 1 0), []. split; [done|]. by exists [].
Qed.

(** the output stream alone, and what it has accepted *)
Definition ex_out : SState := mkSState (ex_writer FCGI_STDOUT) (ex_open_request 1) ex_os.

Lemma ex_out_open : open_writer ex_out [] [] [] ex_out.
Proof.
  split; try done. exists []. split; [done|]. split; [constructor|]. done.
Qed.

(** a reader at the start of its records *)
Definition ex_input (ck : Z) : SState :=
  mkSState (ex_reader FCGI_STDIN) (ex_open_request 1) (script_os (one_input 5 ck ex_rest)).

Lemma ex_input_at ck : reader_at FCGI_STDIN ex_rest (ex_input ck).
Proof.
  split; try done. split; try done. apply bytes_check. reflexivity.
Qed.
End Answering.

(** ** Requests *)

Section Requests.
Context `{Reliable}.

(** C1. On a connection kept open, for any well-formed request and any application,
    whose every step may depend on what it read, accepting the request, running the
    application and finishing the request returns 0 and sends exactly one complete
    response: records that decode, that carry in order the bytes that the application
    writes to each stream when it reads the request's input as a list, with the end
    of both streams and one END_REQUEST with the exit status.  What the library sends
    back while the application reads - END_REQUEST for a second request, UNKNOWN_TYPE -
    lies between these records and does not disturb them.  The connection stays open, with no request, unless the application has read to an end where the input
    broke off: then it is closed and its descriptor is free. *)
Theorem serve_complete fuel a id role flags precs ps rest ss w :
  libInitialized w = true -> shutdownNow (wos w) = false -> kept_open (req w) ->
  request_ok_wire id role flags precs ps ->
  os_in (ipcFd (req w)) (wos w) = request_wire id role flags precs rest ->
  2 * len (request_wire id role flags precs rest) + 18 < Z.of_nat fuel ->
  65536 < Z.of_nat fuel -> Z.land flags FCGI_KEEP_CONN <> 0 ->
  let start := new_session id rest (appStatus (req w)) in
  program_ok fuel a start -> answer a start = Some ss ->
  (sn_failed ss = true -> fd_ok (ipcFd (req w)) = true /\ asyncIoInUse (aio (wos w)) = false) ->
  wp (serve fuel a) (fun r w' => r = 0 /\ left_by ss (ipcFd (req w)) w' /\ exists wire rs,
    os_out (ipcFd (req w)) (wos w') = os_out (ipcFd (req w)) (wos w) ++ wire /\
    decode_all wire = Some rs /\
    answered id ss rs) w.
Proof. intros. by eapply wp_serve. Qed.

(** the environment an accepted request shows to the application *)
Definition environment role (ps : list (list Z * list Z)) : list (list Z * list Z) :=
  (chars "FCGI_ROLE", role_name role) :: ps.

Lemma accepted_environment w0 id role flags ps rest w :
  accepted w0 id role flags ps rest w -> Forall pair_ok ps ->
  exists p, paramsPtr (req w) = Some p /\ envp (req w) = EnvParams /\
    forall name, no_nul name -> Forall (fun c => c <> 61) name ->
      FCGX_GetParam (Some (c_str name)) (Some (vec p)) =
      Some ((fun v => v ++ [0]) <$> env_lookup name (environment role ps)).
Proof.
  intros [_ (p & str & Hp & He & Hstr & Hpr) _ _ _] Hps.
  destruct (role_string_pair role str Hstr) as [E Hpair]. rewrite E in Hpr.
  exists p. split; [done|]. split; [done|].
  intros name Hn Hne. apply GetParam_env; [done|done|by constructor|exact Hpr].
Qed.

(** C4. [FCGX_Accept_r] returns the request as sent: its id, role and flags,
    and an environment in which [FCGX_GetParam] finds, for every name, the
    value of the first pair with that name among FCGI_ROLE and the pairs the
    server sent, and a null pointer for any other name. *)
Theorem accept_environment fuel id role flags precs ps rest w :
  libInitialized w = true -> shutdownNow (wos w) = false -> kept_open (req w) ->
  request_ok_wire id role flags precs ps -> Forall pair_ok ps ->
  os_in (ipcFd (req w)) (wos w) = request_wire id role flags precs rest ->
  2 * len (request_wire id role flags precs rest) + 18 < Z.of_nat fuel ->
  wp (FCGX_Accept_r fuel) (fun r w' => r = 0 /\
    requestId (req w') = id /\ Stream.role (req w') = role /\
    keepConnection (req w') = Z.land flags FCGI_KEEP_CONN /\
    exists p, paramsPtr (req w') = Some p /\ envp (req w') = EnvParams /\
      forall name, no_nul name -> Forall (fun c => c <> 61) name ->
        FCGX_GetParam (Some (c_str name)) (Some (vec p)) =
        Some ((fun v => v ++ [0]) <$> env_lookup name (environment role ps))) w.
Proof.
  intros Hinit Hs Hk Hok Hps Hin Hf.
  wp_use (wp_Accept_r_kept fuel id role flags precs ps rest); [done..|].
  intros r w' [-> Hacc]. pose proof (ac_req _ _ _ _ _ _ _ _ Hacc) as (Hid & Hrole & Hkeep & _).
  do 4 (split; [done|]). by eapply accepted_environment.
Qed.

(** C5. The input stream of an accepted request delivers the contents of the
    request's STDIN records, in order and without the records of other
    requests, however the connection's bytes arrive: [FCGX_GetStr] returns
    their first [n] bytes, or all of them when there are fewer. *)
Theorem accept_input fuel id role flags precs ps srecs pad rest n w :
  libInitialized w = true -> shutdownNow (wos w) = false -> kept_open (req w) ->
  request_ok_wire id role flags precs ps ->
  Forall (input_rec FCGI_STDIN id) srecs -> 0 < n <= INT_MAX ->
  let input := encode_all srecs ++ encode_rec (eof_rec FCGI_STDIN id pad) ++ rest in
  os_in (ipcFd (req w)) (wos w) = request_wire id role flags precs input ->
  2 * len (request_wire id role flags precs input) + 18 < Z.of_nat fuel ->
  wp (rc <- FCGX_Accept_r fuel ;;
      r <- get_req ;;
      str <- on_stream (in_ r) (FCGX_GetStr fuel (FillBuffProc fuel) n) ;;
      ret (rc, str)) (fun r w' =>
    r = (0, take (Z.to_nat n) (content_of FCGI_STDIN id srecs))) w.
Proof.
  intros Hinit Hs Hk Hok Hrs Hn input Hin Hf. wp_step.
  wp_use (wp_Accept_r_kept fuel id role flags precs ps input); [done..|].
  intros rc w1 [-> Hacc]. pose proof (ac_req _ _ _ _ _ _ _ _ Hacc) as (Hid & _).
  destruct (accepted_reader _ _ _ _ _ _ _ Hacc) as (a & st & Ha & Hst & _ & Hat).
  unfold get_req. wp_steps. rewrite Ha. eapply wp_on_stream; [exact Hst|].
  destruct (delivers_records FCGI_STDIN id srecs pad rest _ Hat) as [Hd Hpl];
    [done|done|apply Hok|done|].
  wp_use (wp_GetStr_delivers fuel FCGI_STDIN input (content_of FCGI_STDIN id srecs) n);
    [exact Hd|exact Hpl|done| |].
  { fold input. pose proof (request_wire_rest id role flags precs input). lia. }
  intros str s' [-> _]. by wp_steps.
Qed.

(** C6. In a process that listens on an Internet socket whose calls succeed and are
    not interrupted ([ListenSocket]), that is not asked to shut down and has neither
    a list of allowed addresses nor an asynchronous operation: when the input of a connection kept open carries no request and asks
    for no variables (no GET_VALUES record, [no_values]) - it is closed too early,
    no sequence of records, of another version, has content before the request
    begins, an unknown role, or parameters that end inside a pair -
    [FCGX_Accept_r] gives the connection up after at most the replies that
    [replies_of] names, accepts the client that waits next and whose request is
    well formed, on the lowest free descriptor, the closed one included, and returns
    its request and environment. *)
Theorem accept_next_connection sock `{!ListenSocket sock} fuel fd q id role flags precs ps rest w :
  let stale := requestId (req w) in
  let v := os_in (ipcFd (req w)) (wos w) in
  libInitialized w = true -> shutdownNow (wos w) = false -> shutdownPending (wos w) = false ->
  asyncIoInUse (aio (wos w)) = false -> webServerAddressList w = None ->
  kept_open (req w) -> listen_sock (req w) = sock -> fd_ok (ipcFd (req w)) = true ->
  request_of stale v = NoRequest -> no_values stale v -> len v < 1073741820 ->
  2 * len v + 18 < Z.of_nat fuel ->
  waiting (os_files (wos w)) !! sock = Some (request_wire id role flags precs rest :: q) ->
  lowest_free fd (forget (ipcFd (req w)) (os_files (wos w))) ->
  request_ok_wire id role flags precs ps -> Forall pair_ok ps ->
  2 * len (request_wire id role flags precs rest) + 18 < Z.of_nat fuel ->
  wp (FCGX_Accept_r fuel) (fun r w' => r = 0 /\
    (exists bs, bs `prefix_of` replies_of stale v /\
       os_out (ipcFd (req w)) (wos w') = os_out (ipcFd (req w)) (wos w) ++ bs) /\
    (forall fd', fd' <> ipcFd (req w) -> os_out fd' (wos w') = os_out fd' (wos w)) /\
    ipcFd (req w') = fd /\ requestId (req w') = id /\ Stream.role (req w') = role /\
    exists p, paramsPtr (req w') = Some p /\ envp (req w') = EnvParams /\
      forall name, no_nul name -> Forall (fun c => c <> 61) name ->
        FCGX_GetParam (Some (c_str name)) (Some (vec p)) =
        Some ((fun v => v ++ [0]) <$> env_lookup name (environment role ps))) w.
Proof.
  intros stale v ? ? ? ? ? ? ? ? ? ? Hl. intros.
  assert (few_pairs stale v) by (apply few_pairs_short; [apply incoming_bytes|done]).
  wp_use (wp_Accept_r_retry fuel fd v q id role flags precs ps rest); [done..|].
  intros r w' (-> & Hsent & Hout & w1 & Hfd & Hacc).
  pose proof (ac_req _ _ _ _ _ _ _ _ Hacc) as (Hid & Hrole & _ & Hip & _).
  split; [done|]. do 2 (split; [done|]). split; [congruence|]. do 2 (split; [done|]).
  by eapply accepted_environment.
Qed.

(** C7. On an open connection with any input that asks for no variables, one turn
    of [FCGX_Accept_r] agrees with [request_of]: it returns the request that the
    bytes carry, with its role, flags, environment and streams, and with the
    replies of the reference demultiplexer sent; or it closes the connection and
    frees the request, to go on with the next connection; or a pair too large for
    an [int] is undefined behaviour. *)
Theorem accept_any_input fuel w :
  let stale := requestId (req w) in
  let v := os_in (ipcFd (req w)) (wos w) in
  shutdownNow (wos w) = false -> asyncIoInUse (aio (wos w)) = false ->
  kept_open (req w) -> fd_ok (ipcFd (req w)) = true ->
  no_values stale v -> len v < 1073741820 -> 2 * len v + 18 < Z.of_nat fuel ->
  match request_of stale v, Accept_body fuel w with
  | RequestRead id role flags ps how, Ret r w' =>
      r = inr 0 /\ accepted_with w id role flags ps how (replies_of stale v) w'
  | NoRequest, Ret r w' => r = inl tt /\ dropped v w w'
  | PairOverflow, Fault f => f = UndefinedBehaviour
  | _, _ => False
  end.
Proof.
  intros stale v Hs Has Hk Hfd Hno Hl Hf.
  assert (few_pairs stale v) as Hfew by (apply few_pairs_short; [apply incoming_bytes|done]).
  apply (Accept_body_any (fun o => match request_of stale v, o with
    | RequestRead id role flags ps how, Ret r w' =>
        r = inr 0 /\ accepted_with w id role flags ps how (replies_of stale v) w'
    | NoRequest, Ret r w' => r = inl tt /\ dropped v w w'
    | PairOverflow, Fault f => f = UndefinedBehaviour
    | _, _ => False
    end) fuel v w); try done; [apply Hk|]. fold stale.
  destruct (request_of stale v); try done. by destruct Hk.
Qed.

(** C8. A request whose parameter stream breaks off between two pairs, because
    the connection is closed before the stream's empty record, is accepted as if
    its environment were complete; only the error of its input stream tells. *)
Theorem accept_broken_environment fuel id role flags precs ps w :
  let wire := encode_rec (begin_rec id role flags) ++ encode_all precs in
  libInitialized w = true -> shutdownNow (wos w) = false -> kept_open (req w) ->
  request_ok_wire id role flags precs ps ->
  os_in (ipcFd (req w)) (wos w) = wire -> 2 * len wire + 18 < Z.of_nat fuel ->
  wp (FCGX_Accept_r fuel) (fun r w' => r = 0 /\
    (exists p roleStr, paramsPtr (req w') = Some p /\ envp (req w') = EnvParams /\
       role_string role = Some roleStr /\
       params_repr p ((roleStr ++ [0]) :: map param_string ps)) /\
    exists a st, in_ (req w') = Some a /\ heap w' !! a = Some st /\
      FCGI_errno st = FCGX_PROTOCOL_ERROR) w.
Proof.
  intros wire Hinit Hs Hk Hok Hin Hf.
  assert (bytes wire) as Hb by (rewrite <- Hin; apply incoming_bytes).
  destruct (request_of_params (requestId (req w)) id role flags precs ps Hok (encode_all precs)
    (Broken FCGX_PROTOCOL_ERROR) Hb) as (E & _ & Hno & Hfew); [by eapply parameters_cut|done|].
  wp_use wp_Accept_r_any; [done|done|done|exact Hin|exact Hno|exact Hfew|exact E|exact Hf|].
  intros r w' [-> [_ Henv (a & st & v & Ha & Hst & _ & He) _ _]]. split; [done|]. split; [done|].
  by exists a, st.
Qed.
End Requests.

(** an application that writes what it reads, and a mark for each line feed *)
Fixpoint ex_echo (n : nat) : program :=
  match n with
  | O => Stop
  | S n =>
      Do (Read ReadChar) (fun res =>
        match res with
        | Some (GotChar c) =>
            if c =? EOF then Do (Write (SetExitStatus 3)) (fun _ => Stop)
            else if c =? 10 then Do (Write (PutStr Err (chars "!"))) (fun _ => ex_echo n)
            else Do (Write (PutChar Out c)) (fun _ => ex_echo n)
        | _ => Stop
        end)
  end.

(** the server begins a second request, and the connection breaks off inside a
    header *)
Definition ex_broken_rest : list Z :=
  encode_all ex_stdin ++ encode_rec (begin_rec 9 FCGI_RESPONDER 0) ++ [1; 5].
Definition ex_broken_off : World :=
  mkWorld ∅ ex_request
    (script_os (one_input 5 7 (request_wire 1 FCGI_RESPONDER 1 ex_params ex_broken_rest))) 1 true None.

Lemma serve_complete_witness :
  wp (serve demo_fuel (ex_echo 9)) (fun r w' => r = 0 /\
    (vacant (req w') /\ ipcFd (req w') = -1 /\ (5 ∉ opened (os_files (wos w')))) /\
    exists wire rs,
    os_out 5 (wos w') = os_out 5 (wos ex_broken_off) ++ wire /\
    decode_all wire = Some rs /\
    answered 1 (mkSession (Some None) [busy_rec 9] FCGX_PROTOCOL_ERROR [20; 30] (chars "!") 3) rs)
    ex_broken_off.
Proof.
  apply (serve_complete demo_fuel (ex_echo 9) 1 FCGI_RESPONDER 1 ex_params ex_pairs ex_broken_rest
    (mkSession (Some None) [busy_rec 9] FCGX_PROTOCOL_ERROR [20; 30] (chars "!") 3) ex_broken_off).
  - reflexivity.
  - reflexivity.
  - exact ex_world_kept.
  - exact ex_request_ok.
  - reflexivity.
  - apply ex_fuel. vm_compute. reflexivity.
  - apply ex_fuel. reflexivity.
  - discriminate.
  - assert (new_session 1 ex_broken_rest (appStatus (req ex_broken_off)) =
      mkSession (Some (Some [10; 20; 30])) [busy_rec 9] FCGX_PROTOCOL_ERROR [] [] 0) as -> by (vm_compute; reflexivity).
    repeat split; discriminate.
  - vm_compute. reflexivity.
  - intros _. split; reflexivity.
Defined.

Lemma accept_environment_witness :
  wp (FCGX_Accept_r demo_fuel) (fun r w' => r = 0 /\
    requestId (req w') = 1 /\ Stream.role (req w') = FCGI_RESPONDER /\
    keepConnection (req w') = 1 /\
    exists p, paramsPtr (req w') = Some p /\ envp (req w') = EnvParams /\
      forall name, no_nul name -> Forall (fun c => c <> 61) name ->
        FCGX_GetParam (Some (c_str name)) (Some (vec p)) =
        Some ((fun v => v ++ [0]) <$> env_lookup name (environment FCGI_RESPONDER ex_pairs)))
    ex_world.
Proof.
  apply (accept_environment demo_fuel 1 FCGI_RESPONDER 1 ex_params ex_pairs ex_rest ex_world).
  - reflexivity.
  - reflexivity.
  - exact ex_world_kept.
  - exact ex_request_ok.
  - exact ex_pairs_ok.
  - reflexivity.
  - apply ex_fuel. vm_compute. reflexivity.
Defined.

Lemma accept_input_witness :
  wp (rc <- FCGX_Accept_r demo_fuel ;;
      r <- get_req ;;
      str <- on_stream (in_ r) (FCGX_GetStr demo_fuel (FillBuffProc demo_fuel) 5) ;;
      ret (rc, str)) (fun r w' => r = (0, [10; 20; 30])) ex_world.
Proof.
  apply (accept_input demo_fuel 1 FCGI_RESPONDER 1 ex_params ex_pairs ex_stdin [0; 0] [] 5 ex_world).
  - reflexivity.
  - reflexivity.
  - exact ex_world_kept.
  - exact ex_request_ok.
  - exact ex_stdin_ok.
  - split; [reflexivity|discriminate].
  - reflexivity.
  - apply ex_fuel. vm_compute. reflexivity.
Defined.

(** a request whose first parameter claims a name and a value of 2^31 - 1 bytes
    each *)
Definition ex_overflow : list Z :=
  encode_rec (begin_rec 1 FCGI_RESPONDER 0) ++
  encode_rec (mkRec FCGI_PARAMS 1 (replicate 8 255) []).
Definition ex_overflow_world : World :=
  mkWorld ∅ ex_request (script_os (one_input 5 7 ex_overflow)) 1 true None.

Lemma accept_any_input_witness :
  request_of 0 (os_in 5 (wos ex_overflow_world)) = PairOverflow /\
  match Accept_body demo_fuel ex_overflow_world with
  | Ret _ _ => False
  | Fault f => f = UndefinedBehaviour
  end.
Proof.
  assert (request_of 0 (os_in 5 (wos ex_overflow_world)) = PairOverflow) as E
    by (vm_compute; reflexivity).
  split; [exact E|].
  assert (no_values 0 (os_in 5 (wos ex_overflow_world))) as Hno by (split; vm_compute; exact I).
  assert (2 * len (os_in 5 (wos ex_overflow_world)) + 18 < Z.of_nat demo_fuel) as Hf
    by (apply ex_fuel; vm_compute; reflexivity).
  assert (kept_open (req ex_overflow_world)) as Hk by (split; done).
  pose proof (accept_any_input demo_fuel ex_overflow_world eq_refl eq_refl Hk eq_refl Hno
    eq_refl Hf) as HT.
  cbv zeta in HT. change (requestId (req ex_overflow_world)) with 0 in HT.
  change (ipcFd (req ex_overflow_world)) with 5 in HT. rewrite E in HT. exact HT.
Defined.

(** the example's request, with the connection closed after the parameters' first
    record *)
Definition ex_half_world : World :=
  mkWorld ∅ ex_request (script_os (one_input 5 7
    (encode_rec (begin_rec 1 FCGI_RESPONDER 1) ++ encode_all ex_params))) 1 true None.

Lemma accept_broken_environment_witness :
  wp (FCGX_Accept_r demo_fuel) (fun r w' => r = 0 /\
    (exists p roleStr, paramsPtr (req w') = Some p /\ envp (req w') = EnvParams /\
       role_string FCGI_RESPONDER = Some roleStr /\
       params_repr p ((roleStr ++ [0]) :: map param_string ex_pairs)) /\
    exists a st, in_ (req w') = Some a /\ heap w' !! a = Some st /\
      FCGI_errno st = FCGX_PROTOCOL_ERROR) ex_half_world.
Proof.
  apply (accept_broken_environment demo_fuel 1 FCGI_RESPONDER 1 ex_params ex_pairs ex_half_world).
  - reflexivity.
  - reflexivity.
  - split; done.
  - exact ex_request_ok.
  - vm_compute. reflexivity.
  - apply ex_fuel. vm_compute. reflexivity.
Defined.

(** On descriptor 5 a request begins, another one is refused, and the connection
    is closed inside the first parameter. *)
Definition ex_broken : list Z :=
  encode_rec (begin_rec 1 FCGI_RESPONDER 0) ++ encode_rec (begin_rec 2 FCGI_RESPONDER 0) ++
  encode_rec (mkRec FCGI_PARAMS 1 [5; 1; 65] []).
Definition ex_broken_world : World :=
  mkWorld ∅ ex_request (script_os (mkScript {[5 := ex_broken]} ∅ 7 {[0 := [ex_wire; ex_wire]]}
    {[0; 1; 2; 3; 4; 5]})) 1 true None.

Lemma ex_lowest_free (X : gset Z) (W : gmap Z (list (list Z))) fd :
  bool_decide (fd_ok fd = true /\ (fd ∉ X) /\ Forall (fun n => Z.of_nat n ∈ X) (seq 0 (Z.to_nat fd))) = true ->
  lowest_free fd (mkFiles X W).
Proof.
  rewrite bool_decide_eq_true. intros (Hok & Hnot & Hall). split; [done|]. split; [done|].
  intros i Hi. rewrite Forall_forall in Hall. rewrite <- (Z2Nat.id i) by lia.
  apply Hall, elem_of_seq. lia.
Qed.

Lemma accept_next_connection_witness :
  wp (FCGX_Accept_r demo_fuel) (fun r w' => r = 0 /\
    (exists bs, bs `prefix_of` encode_rec (busy_rec 2) /\
       os_out 5 (wos w') = os_out 5 (wos ex_broken_world) ++ bs) /\
    (forall fd', fd' <> 5 -> os_out fd' (wos w') = os_out fd' (wos ex_broken_world)) /\
    ipcFd (req w') = 5 /\ requestId (req w') = 1 /\ Stream.role (req w') = FCGI_RESPONDER /\
    exists p, paramsPtr (req w') = Some p /\ envp (req w') = EnvParams /\
      forall name, no_nul name -> Forall (fun c => c <> 61) name ->
        FCGX_GetParam (Some (c_str name)) (Some (vec p)) =
        Some ((fun v => v ++ [0]) <$> env_lookup name (environment FCGI_RESPONDER ex_pairs)))
    ex_broken_world.
Proof.
  assert (replies_of 0 (os_in 5 (wos ex_broken_world)) = encode_rec (busy_rec 2)) as E
    by (vm_compute; reflexivity).
  rewrite <- E.
  apply (accept_next_connection 0 demo_fuel 5 [ex_wire] 1 FCGI_RESPONDER 1 ex_params ex_pairs
    ex_rest ex_broken_world).
  - reflexivity.
  - reflexivity.
  - reflexivity.
  - reflexivity.
  - reflexivity.
  - split; done.
  - reflexivity.
  - reflexivity.
  - vm_compute. reflexivity.
  - split; vm_compute; exact I.
  - reflexivity.
  - apply ex_fuel. reflexivity.
  - vm_compute. reflexivity.
  - apply ex_lowest_free. vm_compute. reflexivity.
  - exact ex_request_ok.
  - exact ex_pairs_ok.
  - apply ex_fuel. vm_compute. reflexivity.
Defined.

(** ** Answering *)

Section Answers.
Context `{Reliable}.

(** C9. Whatever the order in which an application writes to, and flushes, its
    two output streams, after every sequence of operations the connection
    carries complete records only, and for each stream the contents of its
    records followed by what its buffer holds are exactly the bytes written to
    it; nothing else of the request changes but its exit status, and no other
    stream, connection or variable of the library changes. *)
Theorem output_interleaving fuel ops base recs acc addr w :
  65536 < Z.of_nat fuel -> Forall (op_ok fuel) ops -> responding base recs acc addr w ->
  wp (run_ops fuel ops) (fun _ w' => exists new,
    req w' = after_ops ops (req w) /\ elsewhere (ipcFd (req w)) w w' /\
    out_only (ipcFd (req w)) (wos w) (wos w') /\
    responding base (recs ++ new) (fun x => acc x ++ ops_bytes x ops) addr w') w.
Proof. intros. by eapply wp_run_ops. Qed.

(** C10. [FCGX_Finish_r] sends what both streams still hold and a complete end
    of the response, frees the three streams and the parameters, each once,
    and closes the connection exactly when the server did not ask to keep it or
    the input stream has recorded an error; its descriptor is then free, and
    nothing of other requests changes. *)
Theorem finish_completes fuel base recs acc addr w :
  65536 < Z.of_nat fuel -> responding base recs acc addr w ->
  (hangs_up w = true -> closable fuel w) ->
  wp (FCGX_Finish_r fuel) (fun _ w' => exists c rs,
    in_ (req w) = Some c /\
    heap w' = delete (addr Err) (delete (addr Out) (delete c (heap w))) /\
    req w' = freed (hangs_up w) (set_nWriters 0 (req w)) /\
    complete_response (requestId (req w)) (appStatus (req w)) (acc Out) (acc Err) (asides recs) rs /\
    os_out (ipcFd (req w)) (wos w') = base ++ encode_all rs /\
    elsewhere (ipcFd (req w)) w w' /\
    os_files (wos w') = if hangs_up w then forget (ipcFd (req w)) (os_files (wos w))
                        else os_files (wos w)) w.
Proof. intros. by eapply wp_Finish_r. Qed.

(** C11. [FCGX_FFlush] on an open stream returns 0 with an empty buffer: the
    records sent carry everything the stream has accepted, each with data and
    padded to a multiple of eight bytes. *)
Theorem flush_sends_all fuel s0 base acc s :
  65536 < Z.of_nat fuel -> open_writer s0 [] base acc s ->
  wp (FCGX_FFlush fuel) (fun r s' => r = 0 /\ pending (stm s') = [] /\ exists rs,
    os_out (ipcFd (rq s')) (os s') = base ++ encode_all rs /\
    Forall (stream_rec (type (data (stm s'))) (requestId (rq s'))) rs /\
    content_of (type (data (stm s'))) (requestId (rq s')) rs = acc) s.
Proof.
  intros Hf HI. wp_use wp_FFlush_sent; [exact Hf|exact HI|]. cbv beta.
  intros r s' (-> & [_ _ _ _ _ _ (rs & Hout & Hrs & _ & Hacc)] & Hp).
  rewrite Hp, app_nil_r in Hacc. split; [done|]. split; [done|]. by exists rs.
Qed.

(** C12. [FCGX_FClose] sends what is pending, then the stream's end (omitted
    for an error stream that was never written to) and, for the last writer of
    the request, its END_REQUEST record; the stream is closed and accepts
    nothing more. *)
Theorem close_ends_stream fuel s0 prev base acc s :
  65536 < Z.of_nat fuel -> open_writer s0 prev base acc s ->
  wasFCloseCalled (stm s) = false ->
  wp (FCGX_FClose fuel) (fun r s' => r = 0 /\
    exists rs, Forall (stream_rec (type (data (stm s))) (requestId (rq s))) rs /\
      content_of (type (data (stm s))) (requestId (rq s)) rs = acc /\
      closed_writer s (base ++ encode_all (rs ++
        eof_recs (type (data (stm s))) (requestId (rq s)) (prev ++ acc) ++
        end_recs (requestId (rq s)) (appStatus (rq s)) (nWriters (rq s)))) s') s.
Proof. intros. by apply (wp_FClose fuel s0). Qed.
End Answers.

Lemma output_interleaving_witness :
  wp (run_ops demo_fuel ex_ops) (fun _ w' => exists new,
    req w' = after_ops ex_ops (ex_open_request 1) /\ elsewhere 5 (ex_answering 1) w' /\
    out_only 5 ex_os (wos w') /\
    responding (os_out 5 ex_os) ([] ++ new) (fun x => [] ++ ops_bytes x ex_ops) ex_addr w')
    (ex_answering 1).
Proof.
  apply (output_interleaving demo_fuel ex_ops).
  - apply ex_fuel. reflexivity.
  - exact ex_ops_ok.
  - exact (ex_responding 1).
Defined.

Lemma finish_completes_witness :
  wp (FCGX_Finish_r demo_fuel) (fun _ w' => exists c rs,
    in_ (ex_open_request 0) = Some c /\
    heap w' = delete 3%positive (delete 2%positive (delete c ex_heap)) /\
    req w' = freed true (set_nWriters 0 (ex_open_request 0)) /\
    complete_response 1 0 [] [] [] rs /\
    os_out 5 (wos w') = os_out 5 ex_os ++ encode_all rs /\ elsewhere 5 (ex_answering 0) w' /\
    os_files (wos w') = forget 5 (os_files ex_os)) (ex_answering 0).
Proof.
  apply (finish_completes demo_fuel (os_out 5 ex_os) [] (fun _ => []) ex_addr (ex_answering 0)).
  - apply ex_fuel. reflexivity.
  - exact (ex_responding 0).
  - intros _. split; [reflexivity|]. split; [reflexivity|].
    apply ex_fuel. vm_compute. reflexivity.
Defined.

Lemma flush_sends_all_witness :
  wp (FCGX_FFlush demo_fuel) (fun r s' => r = 0 /\ pending (stm s') = [] /\ exists rs,
    os_out (ipcFd (rq s')) (os s') = [] ++ encode_all rs /\
    Forall (stream_rec (type (data (stm s'))) (requestId (rq s'))) rs /\
    content_of (type (data (stm s'))) (requestId (rq s')) rs = []) ex_out.
Proof.
  apply (flush_sends_all demo_fuel ex_out).
  - apply ex_fuel. reflexivity.
  - exact ex_out_open.
Defined.

Lemma close_ends_stream_witness :
  wp (FCGX_FClose demo_fuel) (fun r s' => r = 0 /\
    exists rs, Forall (stream_rec FCGI_STDOUT 1) rs /\ content_of FCGI_STDOUT 1 rs = [] /\
      closed_writer ex_out ([] ++ encode_all (rs ++ eof_recs FCGI_STDOUT 1 ([] ++ []) ++
        end_recs 1 0 2)) s') ex_out.
Proof.
  apply (close_ends_stream demo_fuel ex_out [] [] [] ex_out).
  - apply ex_fuel. reflexivity.
  - exact ex_out_open.
  - reflexivity.
Defined.

(** ** Writing when the connection may fail *)

Section Writing.
Context `{PlatformLaws}.

(** C13. [FCGX_PutStr] either accepts all [n] bytes and returns [n], or, when a
    write fails, returns -1 on a stream that is closed with an error after a
    part of them, what was sent being the beginning of the records that carry
    what it accepted. *)
Theorem putstr_all_or_error fuel s0 prev base acc str n s :
  65536 < Z.of_nat fuel -> open_writer s0 prev base acc s ->
  0 <= n <= len str -> n <= INT_MAX -> n + 2 < Z.of_nat fuel ->
  wp (FCGX_PutStr fuel str n) (fun r s' =>
    (r = n /\ open_writer s0 prev base (acc ++ slice str 0 n) s') \/
    (r = -1 /\ exists k, 0 <= k <= n /\
       broken_writer s0 base (acc ++ slice str 0 k) s')) s.
Proof.
  intros Hf HI Hn Hmax Hf2.
  exact (wp_PutStr fuel _ _ (Hsink := open_writer_sink fuel s0 prev base Hf) str n acc s
           HI Hn Hmax Hf2).
Qed.

(** C14. [write_it_all] retries short writes until every byte is written, in
    order; it stops with -1 and [errno] set only when the kernel reports an
    error, after a prefix. *)
Theorem write_it_all_complete fuel fd bs o :
  shutdownNow o = false -> len bs <= INT_MAX -> (length bs < fuel)%nat ->
  wp (write_it_all fuel fd bs) (fun r o' => out_only fd o o' /\
    ((r = 0 /\ os_out fd o' = os_out fd o ++ bs) \/
     (r = -1 /\ 0 < errno o' /\ may_fail /\
      exists k, os_out fd o' = os_out fd o ++ slice bs 0 k))) o.
Proof. apply wp_write_it_all. Qed.
End Writing.

Lemma putstr_all_or_error_witness :
  wp (FCGX_PutStr demo_fuel (chars "hello") 5) (fun r s' =>
    (r = 5 /\ open_writer ex_out [] [] ([] ++ chars "hello") s') \/
    (r = -1 /\ exists k, 0 <= k <= 5 /\
       broken_writer ex_out [] ([] ++ slice (chars "hello") 0 k) s')) ex_out.
Proof.
  apply (putstr_all_or_error demo_fuel ex_out [] [] [] (chars "hello") 5).
  - apply ex_fuel. reflexivity.
  - exact ex_out_open.
  - split; discriminate.
  - discriminate.
  - apply ex_fuel. reflexivity.
Defined.

Lemma write_it_all_complete_witness :
  wp (write_it_all 10 5 [1; 2; 3]) (fun r o' => out_only 5 ex_os o' /\
    ((r = 0 /\ os_out 5 o' = os_out 5 ex_os ++ [1; 2; 3]) \/
     (r = -1 /\ 0 < errno o' /\ may_fail /\
      exists k, os_out 5 o' = os_out 5 ex_os ++ slice [1; 2; 3] 0 k))) ex_os.
Proof.
  apply (write_it_all_complete 10 5 [1; 2; 3] ex_os).
  - reflexivity.
  - discriminate.
  - cbn. lia.
Defined.

(** ** Reading *)

Section Reading.
Context `{Reliable}.
Implicit Types s : SState.

Lemma wp_run_reads_stream fuel t v c ops s :
  delivers t v c s -> asks_nothing t v s -> Forall read_ok ops ->
  2 * len v + 18 < Z.of_nat fuel ->
  wp (run_reads fuel (FillBuffProc fuel) ops) (fun rs s' =>
    rs = fst (list_reads ops (Some c)) /\
    match snd (list_reads ops (Some c)) with
    | Some _ => isClosed (stm s') = false /\ window_ok s' /\ rframe s s'
    | None => all_delivered t v s s'
    end) s.
Proof.
  intros Hd Hpl Hops Hf. pose proof (delivers_len _ _ _ _ Hd). pose proof (len_nonneg c).
  destruct (delivers_Source fuel t v c s Hd Hpl) as (I & Hsrc & HI & Hinv); [lia|lia|].
  wp_use (wp_run_reads fuel (FillBuffProc fuel) I _ ops (Some c)); [done|cbn; lia|exact HI|].
  intros rs s' [-> Hs']. split; [done|]. destruct (snd _) as [c'|]; [|done].
  by apply (Hinv c').
Qed.

(** C15. Whatever bytes a connection delivers - as long as no GET_VALUES record, and
    no BEGIN_REQUEST before the request has begun, comes before the stream's end
    ([asks_nothing]: the answer to GET_VALUES can be undefined behaviour) - and
    wherever they are cut into records and reads, a stream behaves like the list of
    bytes that the reference demultiplexer extracts: every sequence of [FCGX_GetChar], [FCGX_UnGetChar] of
    the byte just read, [FCGX_GetStr], [FCGX_GetLine] and [FCGX_HasSeenEOF] returns
    what the list reader returns.  Once the end was seen, every reply was sent, and
    the stream has an error exactly when it ended otherwise than with its empty
    record. *)
Theorem reads_refine fuel t v c ops s :
  delivers t v c s -> asks_nothing t v s -> Forall read_ok ops ->
  2 * len v + 18 < Z.of_nat fuel ->
  wp (run_reads fuel (FillBuffProc fuel) ops) (fun rs s' =>
    let (results, left) := list_reads ops (Some c) in
    rs = results /\
    (left = None -> isClosed (stm s') = true /\
       os_out (ipcFd (rq s')) (os s') =
         os_out (ipcFd (rq s)) (os s) ++ dl_replies (delivered t v s) /\
       match dl_ending (delivered t v s) with
       | Broken status => FCGI_errno (stm s') =
           (if FCGI_errno (stm s) =? 0 then status else FCGI_errno (stm s))
       | _ => FCGI_errno (stm s') = FCGI_errno (stm s)
       end)) s.
Proof.
  intros Hd Hpl Hops Hf. wp_use wp_run_reads_stream; [done..|]. intros rs s'.
  destruct (list_reads ops _) as [results [c'|]]; cbn [fst snd]; intros [-> Hs']; (split; [done|]);
    [done|]. intros _.
  destruct Hs' as [[_ _ Hc Ho Hhow] _]. split; [done|]. split; [done|].
  destruct (dl_ending _); tauto.
Qed.

(** C16. On any input in which no GET_VALUES record, and no BEGIN_REQUEST before
    the request has begun, comes before the stream's end ([asks_nothing]; the answer
    to GET_VALUES can overflow a buffer), a sequence of reads keeps the reader well
    formed: its pointers stay inside its buffer, what the buffer holds are bytes, its kind,
    its record type, its request and the rest of the process are unchanged, and no
    other connection is touched. *)
Theorem reads_wellformed fuel t v c ops s :
  delivers t v c s -> asks_nothing t v s -> Forall read_ok ops ->
  2 * len v + 18 < Z.of_nat fuel ->
  wp (run_reads fuel (FillBuffProc fuel) ops) (fun _ s' =>
    0 <= rdNext (stm s') <= buffStop (data (stm s')) /\
    buffStop (data (stm s')) <= bufflen (data (stm s')) <= len (buff (data (stm s'))) /\
    bytes (buff (data (stm s'))) /\
    isReader (stm s') = true /\ fillBuffProc (stm s') = FillBuffProc_ptr /\
    type (data (stm s')) = t /\ eorStop (data (stm s')) = false /\ rq s' = rq s /\
    link (ipcFd (rq s)) (os s) (os s')) s.
Proof.
  intros Hd Hpl Hops Hf. wp_use wp_run_reads_stream; [done..|]. intros rs s' [_ Hs'].
  assert (window_ok s' /\ rframe s s') as [[] []].
  { destruct (snd _); [tauto|]. by destruct Hs' as [[] _]. }
  destruct Hd as [[] _]. split_and!; lia || congruence || done.
Qed.

(** C17. What a client writes on a stream of its own, made by
    [FCGX_CreateWriter], with [FCGX_PutStr] and [FCGX_FClose], a reader of that
    record type gives back: however the records are cut and delivered, every
    sequence of reads returns what the list reader returns on the bytes
    written. *)
Theorem client_stream_roundtrip fuel fd id bufflen t garbage str o :
  is_byte t -> t <> FCGI_BEGIN_REQUEST -> 0 < id < 65536 -> (t = FCGI_STDERR -> str <> []) ->
  shutdownNow o = false -> len str <= INT_MAX -> len str + 2 < Z.of_nat fuel ->
  65536 < Z.of_nat fuel ->
  wp (send_stream fuel fd id bufflen t garbage str) (fun r o' => r = (len str, 0) /\
    exists wire, os_out fd o' = os_out fd o ++ wire /\
    forall fuel' ops rd, reader_at t wire rd -> requestId (rq rd) = id -> Forall read_ok ops ->
      2 * len wire + 18 < Z.of_nat fuel' ->
      wp (run_reads fuel' (FillBuffProc fuel') ops) (fun rs _ =>
        rs = fst (list_reads ops (Some str))) rd) o.
Proof.
  intros. wp_use wp_send_stream; [done..|]. intros r o' (-> & _ & wire & Ho & Hrun).
  split; [done|]. exists wire. split; [done|]. intros fuel' ops rd Hat Hid Hops Hf.
  assert (delivers t wire str rd /\ asks_nothing t wire rd) as [Hd Hpl].
  { unfold delivers, asks_nothing, delivered. by rewrite Hid, Hrun. }
  wp_use (wp_run_reads_stream fuel' t wire str ops rd Hd Hpl Hops Hf). by intros rs s' [-> _].
Qed.

(** C18. On any input in which no GET_VALUES record comes before the end of the
    parameters ([asks_nothing]: nor a BEGIN_REQUEST when no request has begun),
    [ReadParams] agrees with the reference parser: it returns 0 exactly when what the stream delivers is a sequence of whole pairs, -1 when
    it ends inside a pair, the vector holding one "name=value" string for each
    pair before that, in order, and a pair too large for an [int] is undefined
    behaviour. *)
Theorem readparams_any fuel v c p l s :
  delivers FCGI_PARAMS v c s -> asks_nothing FCGI_PARAMS v s -> vec_ok 30 p l ->
  Z.of_nat (length l) + len v < 536870911 -> 2 * len v + 18 < Z.of_nat fuel ->
  match parse_pairs c, ReadParams fuel (FillBuffProc fuel) p s with
  | (ps, Complete), Ret (r, p') _ => r = 0 /\ params_repr p' (l ++ map param_string ps)
  | (ps, Truncated), Ret (r, p') s' => r = -1 /\ params_repr p' (l ++ map param_string ps) /\
      FCGI_errno (stm s') <> 0
  | (_, TooLong), Fault f => f = UndefinedBehaviour
  | _, _ => False
  end.
Proof.
  intros Hd Hpl Hv Hl Hf. pose proof (delivers_len _ _ _ _ Hd). pose proof (len_nonneg c).
  destruct (delivers_Source fuel _ v c s Hd Hpl) as (I & Hsrc & HI & _); [lia|lia|].
  pose proof (delivers_bytes _ _ _ _ Hd) as Hb. pose proof (parse_pairs_count _ Hb).
  apply (ReadParams_any fuel (FillBuffProc fuel) I _ (fun o =>
    match parse_pairs c, o with
    | (ps, Complete), Ret (r, p') _ => r = 0 /\ params_repr p' (l ++ map param_string ps)
    | (ps, Truncated), Ret (r, p') s' => r = -1 /\ params_repr p' (l ++ map param_string ps) /\
        FCGI_errno (stm s') <> 0
    | (_, TooLong), Fault f => f = UndefinedBehaviour
    | _, _ => False
    end) 30 p l c); try done; [lia|lia|].
  unfold parsed_ok. destruct (parse_pairs c) as [ps []]; cbn [fst snd]; [..|done].
  - by intros p' s' [Hp _] _.
  - intros p' s' [Hp _] _. split; [done|]. split; [done|]. unfold refused. cbn.
    by destruct (Z.eqb_spec (FCGI_errno (stm s')) 0).
Qed.
End Reading.

(** the example's input: three bytes in two records of request 1, and a record of
    another request *)
Lemma ex_delivers ck : delivers FCGI_STDIN ex_rest [10; 20; 30] (ex_input ck).
Proof. by split; [exact (ex_input_at ck)|]. Qed.

Lemma ex_plain ck : asks_nothing FCGI_STDIN ex_rest (ex_input ck).
Proof. exact I. Qed.

Definition ex_reads : list read_op := [PeekChar; ReadStr 2; SeenEOF; ReadLine 80; SeenEOF; ReadChar].

Lemma ex_reads_ok : Forall read_ok ex_reads.
Proof. repeat constructor; by vm_compute. Qed.

Lemma reads_refine_witness :
  wp (run_reads demo_fuel (FillBuffProc demo_fuel) ex_reads) (fun rs s' =>
    rs = [GotChar 10; GotStr [10; 20]; GotEOF 0; GotLine (Some [30]); GotEOF EOF; GotChar EOF] /\
    (@None (list Z) = None -> isClosed (stm s') = true /\
       os_out (ipcFd (rq s')) (os s') = os_out 5 (os (ex_input 3)) ++ [] /\
       FCGI_errno (stm s') = 0)) (ex_input 3).
Proof.
  apply (reads_refine demo_fuel FCGI_STDIN ex_rest [10; 20; 30] ex_reads (ex_input 3)).
  - exact (ex_delivers 3).
  - exact (ex_plain 3).
  - exact ex_reads_ok.
  - apply ex_fuel. vm_compute. reflexivity.
Defined.

(** the same input, broken off after a record of a second request *)
Definition ex_cut : list Z :=
  encode_all ex_stdin ++ encode_rec (begin_rec 9 FCGI_RESPONDER 0) ++ [7].
Definition ex_cut_input : SState :=
  mkSState (ex_reader FCGI_STDIN) (ex_open_request 1) (script_os (one_input 5 3 ex_cut)).

Lemma ex_cut_delivers : delivers FCGI_STDIN ex_cut [10; 20; 30] ex_cut_input.
Proof. split; [|done]. split; try done. split; try done. apply bytes_check. reflexivity. Qed.

Lemma client_stream_roundtrip_witness :
  wp (send_stream demo_fuel 5 9 32 FCGI_STDIN (ex_open_request 0) (chars "hello"))
    (fun r o' => r = (5, 0) /\ exists wire, os_out 5 o' = os_out 5 ex_os ++ wire /\
    forall fuel' ops rd, reader_at FCGI_STDIN wire rd -> requestId (rq rd) = 9 ->
      Forall read_ok ops -> 2 * len wire + 18 < Z.of_nat fuel' ->
      wp (run_reads fuel' (FillBuffProc fuel') ops) (fun rs _ =>
        rs = fst (list_reads ops (Some (chars "hello")))) rd) ex_os.
Proof.
  apply (client_stream_roundtrip demo_fuel 5 9 32 FCGI_STDIN (ex_open_request 0) (chars "hello")
    ex_os).
  - split; [discriminate|reflexivity].
  - discriminate.
  - split; reflexivity.
  - discriminate.
  - reflexivity.
  - discriminate.
  - apply ex_fuel. reflexivity.
  - apply ex_fuel. reflexivity.
Defined.

Lemma reads_wellformed_witness :
  wp (run_reads demo_fuel (FillBuffProc demo_fuel) ex_reads) (fun _ s' =>
    0 <= rdNext (stm s') <= buffStop (data (stm s')) /\
    buffStop (data (stm s')) <= bufflen (data (stm s')) <= len (buff (data (stm s'))) /\
    bytes (buff (data (stm s'))) /\
    isReader (stm s') = true /\ fillBuffProc (stm s') = FillBuffProc_ptr /\
    type (data (stm s')) = FCGI_STDIN /\ eorStop (data (stm s')) = false /\
    rq s' = ex_open_request 1 /\ link 5 (os ex_cut_input) (os s')) ex_cut_input.
Proof.
  apply (reads_wellformed demo_fuel FCGI_STDIN ex_cut [10; 20; 30] ex_reads ex_cut_input).
  - exact ex_cut_delivers.
  - exact I.
  - exact ex_reads_ok.
  - apply ex_fuel. vm_compute. reflexivity.
Defined.

(** the parameter records of the example, broken off inside a fourth pair *)
Definition ex_cut_params : list Z :=
  encode_all ex_params ++ encode_rec (mkRec FCGI_PARAMS 1 [3; 1; 65; 66] []).
Definition ex_params_input : SState :=
  mkSState (ex_reader FCGI_PARAMS) (ex_open_request 1) (script_os (one_input 5 4 ex_cut_params)).

Lemma ex_params_delivers :
  delivers FCGI_PARAMS ex_cut_params (encode_pairs ex_pairs ++ [3; 1; 65; 66]) ex_params_input.
Proof. split; [|done]. split; try done. split; try done. apply bytes_check. reflexivity. Qed.

Lemma readparams_any_witness :
  match ReadParams demo_fuel (FillBuffProc demo_fuel) (mkParams (Null :: replicate 29 Undef) 30 0)
          ex_params_input with
  | Ret (r, p') s' => r = -1 /\ params_repr p' ([] ++ map param_string ex_pairs) /\
      FCGI_errno (stm s') <> 0
  | Fault _ => False
  end.
Proof.
  apply (readparams_any demo_fuel ex_cut_params (encode_pairs ex_pairs ++ [3; 1; 65; 66])
    (mkParams (Null :: replicate 29 Undef) 30 0) [] ex_params_input).
  - exact ex_params_delivers.
  - exact I.
  - split; [by exists (replicate 29 Undef)|discriminate].
  - reflexivity.
  - apply ex_fuel. vm_compute. reflexivity.
Defined.
