(* ===== verification/TheoremsServer.v ===== *)
(** * The properties of a server of several workers

    Theorems about schedules of calls that workers make with requests of their
    own on one listening socket, with a run of two workers and three clients; and what such a process never
    resets. *)

From Stdlib Require Import String.
From S2P Require Import Prelude CString Protocol Dispatch Platform Script OsUnix Params Stream Writer Reader.
From S2P Require Import Source Reads NameValue Demux Begin Request Accept Response Session Retry Server Theorems.
#[local] Open Scope Z_scope.

Section Server.
Context `{Reliable} (sock : Z) `{!ListenSocket sock}.

(** C2. A process whose workers share a listening socket refines [spec]: for every
    schedule of accepts, reads, writes, flushes and finishes that [spec] allows, in
    any interleaving, every call returns what [spec] says - an accept 0, a read the
    bytes of the worker's own client - and the process ends in a state that
    corresponds to the one [spec] reaches: each busy worker's connection carries
    complete records of its own client's response only, and each connection that
    was closed carried one complete response. *)
Theorem server_refines fuel queue es xs s p :
  ready sock fuel queue p -> 65536 < Z.of_nat fuel -> Forall (event_ok fuel) es ->
  spec_run es (start_spec queue p) = Some (xs, s) ->
  wp (run_events fuel es) (fun ys p' => ys = xs /\
    exists l, serves sock fuel (fun fd => os_out fd (pr_os p)) l s p') p.
Proof. intros Hr Hf Hes Hs. eapply wp_run_events; [done|done|by apply ready_serves|exact Hs]. Qed.

(** C3. When such a schedule ends with no client waiting and no worker busy, every
    client that waited has been answered exactly once: what was sent on each
    descriptor is the responses of the clients it served, in order, and each is a
    complete response with the bytes and the status that the client's own worker
    wrote between its accept and its finish, and at most the notices that the
    client's own input provokes in between. *)
Theorem server_answers_once fuel queue es xs s p :
  ready sock fuel queue p -> 65536 < Z.of_nat fuel -> Forall (event_ok fuel) es ->
  spec_run es (start_spec queue p) = Some (xs, s) -> all_idle s -> sp_queue s = [] ->
  wp (run_events fuel es) (fun _ p' => exists l : log,
    (forall fd, 0 <= fd -> os_out fd (pr_os p') = os_out fd (pr_os p) ++ logged l fd) /\
    Forall2 sent_reply l (sp_done s) /\ map re_client (sp_done s) ≡ₚ queue) p.
Proof.
  intros Hr Hf Hes Hs Hidle Hq.
  wp_use (wp_run_events fuel (fun fd => os_out fd (pr_os p)) es); [done|done|by apply ready_serves|exact Hs|].
  intros rcs p' [_ [l Hsv]]. exists l. split; [|split].
  - intros fd Hfd.
    by apply (serves_idle fuel (fun fd => os_out fd (pr_os p)) _ s).
  - apply Hsv.
  - rewrite <- (idle_done s Hidle Hq), (spec_run_clients _ _ _ _ Hs).
    unfold all_clients. cbn [start_spec sp_queue sp_done map].
    by rewrite (idle_in_service _ (start_idle queue p)), app_nil_r.
Qed.

(** a worker that sets the exit status for its first client only *)
Definition quiet_second (i : nat) (status : Z) : list event :=
  [Accept i; Op i (Write (SetExitStatus status)); Accept i; Finish i].

(** nothing was written *)
Definition silent (ss : session) (status : Z) : Prop :=
  sn_status ss = status /\ sn_out ss = [] /\ sn_err ss = [].

(** C19. The exit status is not reset between requests: a worker that sets a status
    for one client and none for the next reports the first client's status to
    both. *)
Theorem exit_status_carried fuel c1 c2 queue i status p :
  ready sock fuel (c1 :: c2 :: queue) p -> 65536 < Z.of_nat fuel -> is_Some (workers p !! i) ->
  wp (run_events fuel (quiet_second i status)) (fun _ p' =>
    exists fd1 fd2 rs1 rs2 notes1 notes2,
      complete_response (cl_id c1) status [] [] notes1 rs1 /\
      complete_response (cl_id c2) status [] [] notes2 rs2 /\
      forall fd, 0 <= fd ->
        os_out fd (pr_os p') = os_out fd (pr_os p) ++ logged [(fd1, rs1); (fd2, rs2)] fd) p.
Proof.
  intros Hr Hf [r Hi].
  assert (exists xs s ss1 ss2, spec_run (quiet_second i status)
    (start_spec (c1 :: c2 :: queue) p) = Some (xs, s) /\
    sp_done s = [mkReply c1 ss1; mkReply c2 ss2] /\ silent ss1 status /\ silent ss2 status /\ all_idle s)
    as (xs & s & ss1 & ss2 & Hs & Hdone & (Hs1 & Ho1 & He1) & (Hs2 & Ho2 & He2) & Hidle).
  { cbn. unfold spec_finish. cbn. rewrite lookup_fmap, Hi. cbn.
    repeat (rewrite lookup_insert_eq; cbn). rewrite lookup_fmap, Hi. cbn.
    repeat (rewrite lookup_insert_eq; cbn). eexists _, _, _, _. split; [done|]. split; [done|].
    unfold silent, start_session. cbn. split; [|split].
    - by destruct (new_session_start (cl_id c1) (cl_rest c1) (appStatus r)) as (_ & -> & ->).
    - apply new_session_start.
    - intros j k. cbn. rewrite lookup_insert. case_decide; [by intros [= <-]|].
      repeat (rewrite lookup_insert_ne by done). apply (start_idle [] p). }
  wp_use (wp_run_events fuel (fun fd => os_out fd (pr_os p)) (quiet_second i status));
    [done|by repeat constructor|by apply ready_serves|exact Hs|].
  intros ys p' [_ [l Hsv]]. pose proof (sh_done _ _ _ _ (sv_shared _ _ _ _ _ Hsv)) as Hl.
  rewrite Hdone in Hl. apply Forall2_cons_inv_r in Hl as ([fd1 rs1] & l1 & (n1 & Hrs1 & _) & Hl & ->).
  apply Forall2_cons_inv_r in Hl as ([fd2 rs2] & l2 & (n2 & Hrs2 & _) & Hl & ->).
  apply Forall2_nil_inv_r in Hl as ->. cbn in Hrs1, Hrs2.
  rewrite Hs1, Ho1, He1 in Hrs1. rewrite Hs2, Ho2, He2 in Hrs2.
  exists fd1, fd2, rs1, rs2, n1, n2. split; [exact Hrs1|]. split; [exact Hrs2|].
  intros fd Hfd. by apply (serves_idle fuel (fun fd => os_out fd (pr_os p)) _ s).
Qed.
End Server.

(** ** Runs *)

Definition ex_client id (params : list rec) ps (input : list Z) : client :=
  mkClient id FCGI_RESPONDER 0 params ps
    (encode_rec (mkRec FCGI_STDIN id input []) ++ encode_rec (eof_rec FCGI_STDIN id [])).

(** three clients, the first with an environment *)
Definition ex_alice : client := ex_client 1 ex_params ex_pairs (chars "xy").
Definition ex_bob : client := ex_client 2 [] [] (chars "z").
Definition ex_carol : client := ex_client 3 [] [] (chars "w").
Definition ex_queue : list client := [ex_alice; ex_bob; ex_carol].

(** two workers on descriptor 0 *)
Definition ex_fresh : FCGX_Request :=
  mkRequest 0 0 None None None EnvNull None (-1) false 0 0 0 0 0.
Definition ex_pool : Process :=
  mkProcess (<[1%nat := ex_fresh]> {[0%nat := ex_fresh]}) ∅
    (script_os (mkScript ∅ ∅ 7 {[0 := map client_wire ex_queue]} {[0; 1; 2]})) 1 true None.

Definition ex_schedule : list event :=
  [Accept 0; Accept 1; Op 0 (Write (PutStr Out (chars "a"))); Op 1 (Read ReadChar);
   Op 1 (Write (PutStr Out (chars "b"))); Op 0 (Read (ReadStr 5)); Op 0 (Write (PutChar Err 33));
   Op 1 (Write (Flush Out)); Op 1 (Read PeekChar); Finish 1; Accept 1;
   Op 1 (Write (SetExitStatus 3)); Finish 0; Op 1 (Write (PutStr Out (chars "c"))); Finish 1].

Definition ex_outcomes : list outcome :=
  [Accepted 0; Accepted 0; Did None; Did (Some (GotChar 122)); Did None;
   Did (Some (GotStr (chars "xy"))); Did None; Did None; Did (Some (GotChar EOF)); Finished;
   Accepted 0; Did None; Finished; Did None; Finished].

Lemma ex_client_ok id params ps input : 0 < id < 65536 -> Forall (input_rec FCGI_PARAMS id) params ->
  pairs_wire ps (content_of FCGI_PARAMS id params) -> Z.of_nat (length ps) < 536870910 ->
  2 * len (client_wire (ex_client id params ps input)) + 18 < 70000 ->
  client_ok demo_fuel (ex_client id params ps input).
Proof. intros. split; [by split|done|by rewrite demo_fuel_val]. Qed.

Lemma ex_pool_ready : ready 0 demo_fuel ex_queue ex_pool.
Proof.
  split; try reflexivity.
  - intros i r. cbn. rewrite lookup_insert, lookup_singleton. repeat case_decide; by intros [= <-].
  - apply Forall_cons. split; [apply ex_client_ok; try apply ex_request_ok; by vm_compute|].
    apply Forall_cons. split; [apply ex_client_ok; try constructor; by vm_compute|].
    apply Forall_cons. split; [apply ex_client_ok; try constructor; by vm_compute|].
    constructor.
  - by vm_compute.
Qed.

Lemma ex_schedule_ok : Forall (event_ok demo_fuel) ex_schedule.
Proof. repeat constructor; cbn; try (by vm_compute); apply ex_fuel; by vm_compute. Qed.

Definition ex_final : spec :=
  mkSpec [] (<[1%nat := Idle 3]> {[0%nat := Idle 0]})
    [mkReply ex_bob (mkSession (Some None) [] 0 (chars "b") [] 0);
     mkReply ex_alice (mkSession (Some None) [] 0 (chars "a") [33] 0);
     mkReply ex_carol (mkSession (Some (Some (chars "w"))) [] 0 (chars "c") [] 3)].

Lemma server_refines_witness :
  wp (run_events demo_fuel ex_schedule) (fun ys p' => ys = ex_outcomes /\
    exists l, serves 0 demo_fuel (fun fd => os_out fd (pr_os ex_pool)) l ex_final p') ex_pool.
Proof.
  apply (server_refines 0 demo_fuel ex_queue ex_schedule ex_outcomes ex_final ex_pool).
  - exact ex_pool_ready.
  - apply ex_fuel. reflexivity.
  - exact ex_schedule_ok.
  - vm_compute. reflexivity.
Defined.

Lemma server_answers_once_witness :
  wp (run_events demo_fuel ex_schedule) (fun _ p' => exists l : log,
    (forall fd, 0 <= fd -> os_out fd (pr_os p') = os_out fd (pr_os ex_pool) ++ logged l fd) /\
    Forall2 sent_reply l (sp_done ex_final) /\
    map re_client (sp_done ex_final) ≡ₚ ex_queue) ex_pool.
Proof.
  apply (server_answers_once 0 demo_fuel ex_queue ex_schedule ex_outcomes ex_final ex_pool).
  - exact ex_pool_ready.
  - apply ex_fuel. reflexivity.
  - exact ex_schedule_ok.
  - vm_compute. reflexivity.
  - apply map_Forall_to_list. vm_compute. repeat constructor.
  - reflexivity.
Defined.

Lemma exit_status_carried_witness :
  wp (run_events demo_fuel (quiet_second 1 7)) (fun _ p' =>
    exists fd1 fd2 rs1 rs2 notes1 notes2,
      complete_response 1 7 [] [] notes1 rs1 /\ complete_response 2 7 [] [] notes2 rs2 /\
      forall fd, 0 <= fd ->
        os_out fd (pr_os p') = os_out fd (pr_os ex_pool) ++ logged [(fd1, rs1); (fd2, rs2)] fd) ex_pool.
Proof.
  apply (exit_status_carried 0 demo_fuel ex_alice ex_bob [ex_carol] 1 7 ex_pool).
  - exact ex_pool_ready.
  - apply ex_fuel. reflexivity.
  - exists ex_fresh. reflexivity.
Defined.
