(* ===== verification/TheoremsIO.v ===== *)
(** * The properties of formatted output and of the stdio interface

    Theorems about [FCGX_VFPrintF] and the [FCGI_] wrappers, each with a run on
    a concrete system where its hypotheses hold. *)

From Stdlib Require Import String.
From S2P Require Import Prelude CString Protocol Platform Script OsUnix Params Stream Writer Reader.
From S2P Require Import Source NameValue Demux Begin Format Printing Request Accept Response.
From S2P Require Import Stdio StdioSpec Theorems.
#[local] Open Scope Z_scope.

(** ** Formatted output *)

Section Printf.
Context `{Reliable} `{Floats}.

(** C20. For a format made of literal text and plain ["%s"], ["%d"], ["%ld"],
    ["%u"], ["%c"] and ["%%"] conversions, [FCGX_VFPrintF] consumes the
    arguments in order, puts the literal text and the arguments' texts (numbers
    in decimal) on the stream in order, and returns how many bytes that is. *)
Theorem printf_prints fuel s0 prev base acc ps last s :
  65536 < Z.of_nat fuel -> open_writer s0 prev base acc s ->
  Forall piece_ok ps -> lit_ok last -> len (pieces_text ps last) < INT_MAX ->
  len (pieces_text ps last) + Z.of_nat (length ps) + 2 < Z.of_nat fuel ->
  wp (FCGX_VFPrintF fuel (c_str (pieces_fmt ps last)) (pieces_args ps)) (fun r s' =>
    r = (len (pieces_text ps last), []) /\
    open_writer s0 prev base (acc ++ pieces_text ps last) s') s.
Proof.
  intros Hf HI Hps Hlast Hmax Hfuel. pose proof (open_writer_sink fuel s0 prev base Hf) as Hsink.
  wp_use (wp_VFPrintF fuel (open_writer s0 prev base) (broken_writer s0 base) ps last acc); try done.
  intros r s' [Hok | [_ (t & u & _ & HB)]]; [done|].
  destruct no_fail. apply HB.
Qed.

(** C21. The slow path scans every conversion specification of every format,
    well-formed or not, without writing outside [fmtBuff] and without failing
    its assertion, as long as the arguments for up to two ['*'] are of type [int].
    The one exception, on which nothing is defined, is a width ['*'] whose argument
    is [INT_MIN]: its [abs] is not an [int]. *)
Theorem specifier_fits body percentPtr s :
  no_nul body -> 0 <= percentPtr < len body -> ints_left 2 s ->
  match scan_spec (c_str body) percentPtr s with
  | Ret (Some (b, p, _, _, _, _)) _ => len b < FMT_BUFFLEN /\ percentPtr < p <= len body + 1
  | Ret None _ => True
  | Fault f => f = UndefinedBehaviour /\ exists p z rest, percentPtr < p /\
      body !! Z.to_nat p = Some 42 /\ f_args s = VInt z :: rest /\ INT z = INT_MIN
  end.
Proof.
  intros Hb Hp Ha. pose proof (scan_spec_outcome body percentPtr s Hp Ha) as Ho.
  destruct (scan_spec _ _ _) as [[]|f]; [done..|].
  destruct Ho as (-> & p & Hlt & H42 & z & rest & Hz & Hm). split; [done|]. by exists p, z, rest.
Qed.

(** The exception is reached: ["%*d"] with a width of [INT_MIN] is undefined
    behaviour instead of being refused like every other width above 999999. *)
Lemma printf_star_INT_MIN fuel rest o :
  FCGX_VFPrintF (S fuel) (c_str (chars "%*d")) (VInt INT_MIN :: rest) o = Fault UndefinedBehaviour.
Proof. reflexivity. Qed.

(** A negative width is accepted and left out of the buffer's size: ["%*d"] with
    a width of -100 writes 101 bytes into the 100 of [buff]. *)
Lemma printf_negative_width fuel o :
  FCGX_VFPrintF (S fuel) (c_str (chars "%*d")) [VInt (-100); VInt 7] o = Fault UndefinedBehaviour.
Proof. vm_compute. reflexivity. Qed.

(** C22. A conversion with a field width of 100 characters or more overflows
    its buffer: ["%<w>d"] with an [int] is undefined behaviour for every such
    width that the function accepts. *)
Theorem printf_wide_field_overflows fuel w z o :
  100 <= w <= 999999 ->
  FCGX_VFPrintF (S fuel) (c_str (wide_fmt w)) [VInt z] o = Fault UndefinedBehaviour.
Proof. intros Hw. by apply VFPrintF_wide_field. Qed.
End Printf.

(** ** The stdio interface *)

Section StdioTheorems.
Context `{Reliable} `{HostStdio}.

(** C23. [FCGI_Accept] in a FastCGI server, on a connection kept open, returns
    0 with the request as sent; standard input, output and error become the
    request's streams and [environ] its environment. *)
Theorem stdio_accept fuel id role flags precs ps rest sw :
  fastcgi_server sw -> static_files sw -> libInitialized (world sw) = true ->
  shutdownNow (wos (world sw)) = false -> kept_open (req (world sw)) ->
  request_ok_wire id role flags precs ps ->
  os_in (ipcFd (req (world sw))) (wos (world sw)) = request_wire id role flags precs rest ->
  2 * len (request_wire id role flags precs rest) + 18 < Z.of_nat fuel ->
  wp (FCGI_Accept fuel) (fun r sw' => r = 0 /\
    accepted (world sw) id role flags ps rest (world sw') /\
    files sw' !! FCGI_stdin = Some (mkFile None (in_ (req (world sw')))) /\
    files sw' !! FCGI_stdout = Some (mkFile None (out (req (world sw')))) /\
    files sw' !! FCGI_stderr = Some (mkFile None (err (req (world sw')))) /\
    environ sw' = Some EnvParams /\ fastcgi_server sw' /\ acceptCalled sw' = true) sw.
Proof. intros. by eapply wp_FCGI_Accept. Qed.

(** a file whose input has no GET_VALUES record before its end *)
Lemma file_reads_delivered fuel t v c fp sw :
  at_stream fp (fun s => delivers t v c s /\ asks_nothing t v s) sw ->
  2 * len v + 18 < Z.of_nat fuel ->
  exists I E, Source (FillBuffProc fuel) I E /\ file_reads fuel I E fp (Some c) sw.
Proof.
  intros (p & st & Hf & Hp & Hd & Hpl) Hfuel.
  pose proof (delivers_len _ _ _ _ Hd). pose proof (len_nonneg c).
  destruct (delivers_Source fuel _ v c _ Hd Hpl) as (I & Hs & HI & _); [lia|lia|].
  exists I, (all_delivered t v (sstate (world sw) st)). split; [done|].
  split; [by exists p, st|cbn; lia].
Qed.

(** C24. On a standard input in which no GET_VALUES record, and no BEGIN_REQUEST
    before the request has begun, comes before the stream's end ([asks_nothing]),
    every sequence of [FCGI_gets] and [FCGI_fread] reads on where the one before
    stopped: [FCGI_gets] returns the next line of what the connection delivers
    without its newline, which is consumed, the last line also when the end comes
    instead of a newline, and null only at the end; [FCGI_fread] stores the next
    bytes; provided each line fits in the caller's array. *)
Theorem gets_line fuel v c ops sw :
  at_stream FCGI_stdin (fun s => delivers FCGI_STDIN v c s /\ asks_nothing FCGI_STDIN v s) sw ->
  2 * len v + 18 < Z.of_nat fuel ->
  each_ok stdin_read_ok list_stdin_read ops (Some c) ->
  wp (each (run_stdin_read fuel) ops) (fun rs _ =>
    rs = fst (list_each list_stdin_read ops (Some c))) sw.
Proof.
  intros Hat Hfuel Hops. destruct (file_reads_delivered fuel _ v c _ sw Hat Hfuel) as (I & E & Hs & Hr).
  wp_use (wp_each fuel I E (run_stdin_read fuel) list_stdin_read stdin_read_ok FCGI_stdin);
    [|done|done|].
  - intros op st sw1. by apply wp_stdin_read.
  - by intros rs sw' [-> _].
Qed.

(** C25. On a file whose stream gets no GET_VALUES record, and no BEGIN_REQUEST
    before the request has begun, before its end ([asks_nothing]), a sequence of
    [FCGI_fread] stores consecutive blocks of the bytes that the connection
    delivers: each call as many as it asks for, or as there are left, and it returns
    the number of whole objects among them. *)
Theorem fread_blocks fuel t v c fp blocks sw :
  at_stream fp (fun s => delivers t v c s /\ asks_nothing t v s) sw ->
  2 * len v + 18 < Z.of_nat fuel -> Forall (fun b => block_ok (fst b) (snd b)) blocks ->
  wp (each (fun b => FCGI_fread fuel (fst b) (snd b) fp) blocks) (fun rs _ =>
    rs = fst (list_each (fun b => list_fread (fst b) (snd b)) blocks (Some c))) sw.
Proof.
  intros Hat Hfuel Hb. destruct (file_reads_delivered fuel _ v c _ sw Hat Hfuel) as (I & E & Hs & Hr).
  wp_use (wp_each fuel I E (fun b => FCGI_fread fuel (fst b) (snd b) fp)
    (fun b => list_fread (fst b) (snd b)) (fun b _ => block_ok (fst b) (snd b)) fp); [| |done|].
  - intros b st sw1. by apply wp_fread_reads.
  - clear Hr. generalize (Some c). induction Hb; [done|]. by split.
  - by intros rs sw' [-> _].
Qed.

(** Every operation on a file that was closed, or never opened, answers
    with its default and changes nothing: EOF, null, or 0 for
    [FCGI_fprintf], whose answer differs from [FCGI_vfprintf]'s. *)
Lemma closed_file_defaults fuel fp c str format ap size nmemb sw :
  files sw !! fp = Some (mkFile None None) ->
  FCGI_fgetc fuel fp sw = Ret EOF sw /\
  FCGI_ungetc c fp sw = Ret EOF sw /\
  FCGI_fgets fuel size fp sw = Ret None sw /\
  FCGI_fputc fuel c fp sw = Ret EOF sw /\
  FCGI_fputs fuel str fp sw = Ret EOF sw /\
  FCGI_vfprintf fuel fp format ap sw = Ret (EOF, []) sw /\
  FCGI_fprintf fuel fp format ap sw = Ret (0, []) sw /\
  FCGI_fread fuel size nmemb fp sw = Ret (18446744073709551615, []) sw /\
  FCGI_fwrite fuel str size nmemb fp sw = Ret 18446744073709551615 sw /\
  FCGI_fflush fuel (Some fp) sw = Ret EOF sw /\
  FCGI_feof fp sw = Ret (-1) sw /\ FCGI_ferror fp sw = Ret (-1) sw /\
  (is_static fp = true -> FCGI_fclose fuel fp sw = Ret EOF sw).
Proof.
  intros Hf. split_and!; try by apply dispatch_closed.
  intros Hst. unfold FCGI_fclose, bind. rewrite dispatch_closed by done. by rewrite Hst.
Qed.

(** [FCGI_fwrite] on a stream that an error closed fails its assertion
    instead of returning a short count as [fwrite] does. *)
Lemma fwrite_error_aborts fuel fp p st ptr size nmemb sw :
  files sw !! fp = Some (mkFile None (Some p)) -> heap (world sw) !! p = Some st ->
  isClosed st = true -> wrNext st = stop st ->
  0 < size -> 0 < nmemb -> size * nmemb < INT_MAX ->
  FCGI_fwrite (S fuel) ptr size nmemb fp sw = Fault AssertionFailed.
Proof.
  intros Hf Hp Hc Hw Hs Hn Hmax. assert (0 < size * nmemb) by nia.
  unfold FCGI_fwrite, dispatch, file_at, bind, get. rewrite Hf. unfold of_option, ret.
  cbn [stdio_stream fcgx_stream].
  assert (SIZE (size * nmemb) = size * nmemb) as ->.
  { unfold SIZE. apply Z.mod_small. unfold INT_MAX in *. lia. }
  replace (size * nmemb =? 0) with false by lia.
  unfold assert. replace (size * nmemb <? INT_MAX) with true by lia. unfold ret.
  rewrite INT_id by (unfold INT_MIN, INT_MAX in *; lia).
  unfold stream_op, in_world, zoom, on_stream, bind, get, of_option, ret. rewrite Hp.
  unfold zoom, FCGX_PutStr, bind, get_stm, gets. cbn [stm].
  replace (size * nmemb <=? stop st - wrNext st) with false by lia.
  rewrite loop_unfold. unfold PutStr_body, bind, get_stm, gets. cbn [stm].
  rewrite Hw, Z.eqb_refl. cbn [negb andb]. unfold ret. cbn [stm]. by rewrite Hc.
Qed.
End StdioTheorems.

(** ** Runs *)

Section StdioExamples.
(** a C library whose streams answer 0, without floating-point conversions *)
Definition ex_floats : Floats := {|
  double := Empty_set; long_double := Empty_set;
  frexp_exp := fun _ => 0; to_double := fun d => d;
  text_double := fun _ _ => []; text_long_double := fun _ _ => [];
  text_pointer := fun _ _ => chars "(nil)" |}.
#[local] Existing Instance ex_floats.

Definition ex_stdio : HostStdio := {|
  host := unit;
  host_stdin := 11; host_stdout := 12; host_stderr := 13;
  h_call := fun _ _ h => (0, h);
  h_vfprintf := fun _ _ _ h => ((0, []), h);
  h_fflush_all := fun h => (0, h);
  h_fgets := fun _ _ h => (None, h);
  h_fread := fun _ _ _ h => ((0, []), h);
  h_fopen := fun _ _ h => (None, h);
  h_freopen := fun _ _ _ h => (None, h);
  h_fdopen := fun _ _ h => (None, h);
  h_popen := fun _ _ h => (None, h);
  h_tmpfile := fun h => (None, h);
  h_strerror := fun _ => c_str (chars "error") |}.
#[local] Existing Instance ex_stdio.

Definition ex_files (i o e : option positive) : gmap positive FCGI_FILE :=
  <[FCGI_stdin := mkFile None i]> (<[FCGI_stdout := mkFile None o]>
    (<[FCGI_stderr := mkFile None e]> ∅)).
Definition ex_sworld (fs : gmap positive FCGI_FILE) (w : World) : SWorld :=
  mkSWorld fs w tt true false None true.
(** between requests, and while one is answered *)
Definition ex_idle : SWorld := ex_sworld (ex_files None None None) ex_world.
Definition ex_busy (o : OS) : SWorld :=
  ex_sworld (ex_files (Some 1%positive) (Some 2%positive) (Some 3%positive))
    (mkWorld ex_heap (ex_open_request 1) o 1 true None).

Definition ex_pieces : list piece :=
  [(chars "n=", DInt (-42)); (chars " ", DStr (chars "abc")); ([], DPercent)].

Lemma lit_ok_check l : forallb (fun c => negb (c =? 0) && negb (c =? 37)) l = true -> lit_ok l.
Proof.
  intros H. rewrite List.forallb_forall in H.
  split; apply List.Forall_forall; intros c Hc; specialize (H c Hc); lia.
Qed.

Lemma ex_pieces_ok : Forall piece_ok ex_pieces.
Proof.
  repeat (apply Forall_cons; split; [split; [by apply lit_ok_check|]|]); try done.
  by repeat constructor.
Qed.

Lemma ex_busy_in : at_stream FCGI_stdin
    (fun s => delivers FCGI_STDIN ex_rest [10; 20; 30] s /\ asks_nothing FCGI_STDIN ex_rest s)
  (ex_busy (script_os (one_input 5 3 ex_rest))).
Proof. exists 1%positive, (ex_reader FCGI_STDIN). split_and!; try done. apply (ex_delivers 3). Qed.
End StdioExamples.

#[local] Existing Instance ex_floats.
#[local] Existing Instance ex_stdio.

Lemma printf_prints_witness :
  wp (FCGX_VFPrintF demo_fuel (c_str (chars "n=%d %s%%!"))
        [VInt (-42); VStr (Some (c_str (chars "abc")))]) (fun r s' =>
    r = (11, []) /\ open_writer ex_out [] [] (chars "n=-42 abc%!") s') ex_out.
Proof.
  apply (printf_prints demo_fuel ex_out [] [] [] ex_pieces (chars "!")).
  - apply ex_fuel. reflexivity.
  - exact ex_out_open.
  - exact ex_pieces_ok.
  - apply lit_ok_check. reflexivity.
  - reflexivity.
  - apply ex_fuel. reflexivity.
Defined.

Lemma specifier_fits_witness :
  match scan_spec (c_str (chars "%-+0*.*ld")) 0
          (mkFState ex_out [VInt (-999999); VInt INT_MIN; VLong 5] None [] 0) with
  | Ret (Some (b, p, _, _, _, _)) _ => len b < FMT_BUFFLEN /\ 0 < p <= 9 + 1
  | Ret None _ => True
  | Fault f => f = UndefinedBehaviour /\ exists p z rest, 0 < p /\
      chars "%-+0*.*ld" !! Z.to_nat p = Some 42 /\
      [VInt (-999999); VInt INT_MIN; VLong 5] = VInt z :: rest /\ INT z = INT_MIN
  end.
Proof.
  apply (specifier_fits (chars "%-+0*.*ld") 0
    (mkFState ex_out [VInt (-999999); VInt INT_MIN; VLong 5] None [] 0)).
  - repeat constructor; discriminate.
  - split; reflexivity.
  - exists [-999999; INT_MIN], [VLong 5]. split; reflexivity.
Defined.

Lemma printf_wide_field_overflows_witness :
  FCGX_VFPrintF (S 7) (c_str (chars "%100d")) [VInt 1] ex_out = Fault UndefinedBehaviour.
Proof. apply (printf_wide_field_overflows 7 100 1 ex_out). split; discriminate. Defined.

Lemma stdio_accept_witness :
  wp (FCGI_Accept demo_fuel) (fun r sw' => r = 0 /\
    accepted ex_world 1 FCGI_RESPONDER 1 ex_pairs ex_rest (world sw') /\
    files sw' !! FCGI_stdin = Some (mkFile None (in_ (req (world sw')))) /\
    files sw' !! FCGI_stdout = Some (mkFile None (out (req (world sw')))) /\
    files sw' !! FCGI_stderr = Some (mkFile None (err (req (world sw')))) /\
    environ sw' = Some EnvParams /\ fastcgi_server sw' /\ acceptCalled sw' = true) ex_idle.
Proof.
  apply (stdio_accept demo_fuel 1 FCGI_RESPONDER 1 ex_params ex_pairs ex_rest ex_idle).
  - reflexivity.
  - split; [|split]; eexists; reflexivity.
  - reflexivity.
  - reflexivity.
  - exact ex_world_kept.
  - exact ex_request_ok.
  - reflexivity.
  - apply ex_fuel. vm_compute. reflexivity.
Defined.

Lemma gets_line_witness :
  wp (each (run_stdin_read demo_fuel) [Gets 80; Fread 1 1; Gets 80; Gets 80]) (fun rs _ =>
    rs = [inl (Some []); inr (1, [20]); inl (Some [30]); inl None])
    (ex_busy (script_os (one_input 5 3 ex_rest))).
Proof.
  apply (gets_line demo_fuel ex_rest [10; 20; 30] [Gets 80; Fread 1 1; Gets 80; Gets 80]).
  - exact ex_busy_in.
  - apply ex_fuel. vm_compute. reflexivity.
  - repeat split.
Defined.

Lemma fread_blocks_witness :
  wp (each (fun b => FCGI_fread demo_fuel (fst b) (snd b) FCGI_stdin) [(1, 1); (2, 4); (2, 4)])
    (fun rs _ => rs = [(1, [10]); (1, [20; 30]); (0, [])])
    (ex_busy (script_os (one_input 5 3 ex_rest))).
Proof.
  apply (fread_blocks demo_fuel FCGI_STDIN ex_rest [10; 20; 30] FCGI_stdin [(1, 1); (2, 4); (2, 4)]).
  - exact ex_busy_in.
  - apply ex_fuel. vm_compute. reflexivity.
  - repeat constructor.
Defined.
