(* ===== verification/TheoremsOS.v ===== *)
(** * The properties of the protocol and of the operating-system layer

    Theorems about management records, the filter role, accepting and closing
    connections, the asynchronous table, starting a process and listening
    sockets, each with a run on a concrete system where its hypotheses hold. *)

From Stdlib Require Import String.
From S2P Require Import Prelude CString Protocol Dispatch Platform Script OsUnix Params Stream.
From S2P Require Import Writer Reader.
From S2P Require Import Source NameValue Demux Begin Mgmt Format Printing Sockets Spawn Request Accept Response.
From S2P Require Import Theorems.
#[local] Open Scope Z_scope.

(** ** Protocol *)

Section Records.
Context `{Reliable}.


(** C27. A GET_VALUES record that names known variables often enough for the
    answer to take more than 55 bytes makes the library write outside its
    64-byte array. *)
Theorem get_values_overflows fuel depth tail ps s :
  tail <> [] -> at_values tail fuel ps s -> 55 < len (encode_pairs (answers ps)) ->
  ProcessManagementRecord fuel (FillBuffProc_depth fuel (S depth)) FCGI_GET_VALUES s =
  Fault UndefinedBehaviour.
Proof. intros Ht Hat Hn. by apply (GetValues_overflow tail Ht fuel depth ps). Qed.

(** C28. For a filter request whose standard input ended with its empty record,
    [FCGX_StartFilterData] succeeds, and the stream then delivers what the
    reference demultiplexer extracts, as data, from everything that follows that
    record's header: its padding, if it has any, is taken for records. *)
Theorem filter_reads_data fuel v c rest n m s :
  delivers FCGI_STDIN v c s -> dl_ending (delivered FCGI_STDIN v s) = EndOfStream rest ->
  ends_plainly (dl_ending (delivered FCGI_DATA rest s)) ->
  2 * len v + 18 < Z.of_nat fuel -> Stream.role (rq s) = FCGI_FILTER ->
  len c < n -> n <= INT_MAX -> 0 < m <= INT_MAX ->
  wp (a <- FCGX_GetStr fuel (FillBuffProc fuel) n ;;
      r <- FCGX_StartFilterData ;;
      b <- FCGX_GetStr fuel (FillBuffProc fuel) m ;; ret (a, r, b)) (fun r _ =>
    r = (c, 0, take (Z.to_nat m) (dl_content (delivered FCGI_DATA rest s)))) s.
Proof.
  intros Hd Hend Hpl Hf Hrole Hn Hn2 Hm. pose proof (len_nonneg c). wp_step.
  wp_use wp_GetStr_delivers; [exact Hd|unfold asks_nothing; by rewrite Hend|lia|done|].
  intros a s1 [-> Hrest].
  destruct (Hrest Hn) as [[Hwin Hfr Hclosed _ Hhow] Hle]. rewrite Hend in Hhow.
  destruct Hhow as (_ & Hv & _). wp_step. destruct Hd as [[_ Hrd Hpr _ Hfc Hty _ _ _ _ _ _] _].
  unfold FCGX_StartFilterData. sstep.
  rewrite (rf_rq _ _ Hfr), Hrole, (rf_reader _ _ Hfr), Hrd, Hclosed, (rf_type _ _ Hfr), Hty.
  change (negb (FCGI_FILTER =? FCGI_FILTER) || _ || _ || _) with false. cbn match. wp_step.
  wp_use (wp_SetReaderType FCGI_DATA rest).
  { split; [done|..]; [by rewrite (rf_reader _ _ Hfr)|by rewrite (rf_proc _ _ Hfr)
      |by rewrite (rf_fclose _ _ Hfr)|done]. }
  intros _ s2 (Hat2 & Hrq2 & _). wp_steps.
  assert (delivered FCGI_DATA rest s2 = delivered FCGI_DATA rest s) as Hs2.
  { unfold delivered. by rewrite Hrq2, (rf_rq _ _ Hfr). }
  wp_use (wp_GetStr_delivers fuel FCGI_DATA rest (dl_content (delivered FCGI_DATA rest s)) m s2);
    [by split; [|rewrite Hs2]|unfold asks_nothing; by rewrite Hs2|done|rewrite <- Hv; lia|].
  intros b s3 [-> _]. wp_step. do 2 f_equal. apply take_ge. unfold len in *. lia.
Qed.
End Records.

(** ** The operating-system layer *)

Section System.
Context `{Reliable}.

(** C29. [ClientAddrOK] accepts a client exactly when the list of addresses is
    empty or one of its comma-separated parts is the client's address. *)
Theorem client_allowed addr parts o :
  Forall addr_part parts -> parts <> [] -> len (comma_join parts) < 1073741824 ->
  wp (ClientAddrOK addr (Some (c_str (comma_join parts)))) (fun r o' =>
    r = bool_decide (comma_join parts = []) ||
        existsb (fun a => inet_addr (c_str a) =? addr) parts) o.
Proof. apply wp_ClientAddrOK. Qed.

(** C30. [OS_AsyncRead] grows the table as needed and queues the operation in
    the descriptor's own entry, keeping every other entry, and adds the
    descriptor to the set that [OS_DoIo] waits for. *)
Theorem async_read_queues fuel fd offset buf n proc cd t o :
  table_ok o t -> fd_ok fd = true -> fd * 2 + 1 < Z.of_nat fuel ->
  (forall e, t !! Z.to_nat (AIO_RD_IX fd) = Some e -> inUse e = false) ->
  wp (OS_AsyncRead fuel fd offset buf n proc cd) (fun r o' => r = 0 /\ exists t',
    asyncIoTable (aio o') = Some t' /\
    t' !! Z.to_nat (AIO_RD_IX fd) = Some (mkAioInfo proc cd fd n offset buf true) /\
    (forall i e, i <> Z.to_nat (AIO_RD_IX fd) -> t !! i = Some e -> t' !! i = Some e) /\
    readFdSet (aio o') = {[fd]} ∪ readFdSet (aio o) /\
    maxFd (aio o') = Z.max (maxFd (aio o)) fd) o.
Proof. apply wp_OS_AsyncRead. Qed.

End System.

Section Closing.
Context `{PlatformLaws}.

(** C31. In a process without asynchronous operations, closing a connection shuts
    its sending side down and, when that succeeds, reads what the peer still sends,
    until all of it was read, nothing came for two seconds, or a call failed; then it
    closes the descriptor, with [close]'s result.  It terminates, takes back nothing
    that was sent, touches no other connection, and frees the descriptor unless a
    call failed. *)
Theorem close_keeps_output fuel fd o :
  fd_ok fd = true -> asyncIoInUse (aio o) = false ->
  len (os_in fd o) + 1 < Z.of_nat fuel ->
  wp (OS_Close fuel fd) (fun r o' => (exists rc o1 o2,
      syscall (sys_shutdown fd 1) o = Ret rc o1 /\
      (if rc =? 0 then input_drained fd o1 o2 else o2 = o1) /\
      syscall (sys_close fd) o2 = Ret r o') /\
    out_kept fd o o' /\ (fd ∈ opened (os_files o') -> may_fail)) o.
Proof. apply wp_OS_Close_drained. Qed.
End Closing.

Section Shutdown.
Context `{Platform}.

(** C32. When SIGUSR1 arrives while [accept] returns a Unix client that then sends
    nothing, [OS_Accept] drops the client but keeps its stale descriptor, and from
    then on loops forever without returning and without accepting again: for every
    amount of fuel the loop runs out of it, whatever a later [accept] would give. *)
Theorem accept_stale_socket sock fd Silent fail_on_intr addrs fuel o :
  fd_ok fd = true -> silent_client sock fd Silent ->
  shutdownPending o = false -> silent_arrival sock fd Silent (plat o) ->
  OS_Accept fuel sock fail_on_intr addrs o = Fault OutOfFuel.
Proof. intros. by eapply OS_Accept_stale. Qed.
End Shutdown.

Section Processes.
Context `{ProcessLaws}.

(** C34. [OS_SpawnChild] returns 0 to the caller, which keeps its descriptors, and
    the child becomes the application with its standard output and error closed,
    every other descriptor kept, and the listening socket moved to descriptor 0,
    unless [dup2] fails or it was there already: then the child has closed it, and no
    descriptor refers to it.  It never returns -1: when [fork] fails the calling
    process exits with the error's number, and when [execl] fails the child does. *)
Theorem spawn_child_listener appPath listenFd d o :
  fds o !! listenFd = Some d ->
  let forked := sys_fork (plat o) in
  match fst forked, OS_SpawnChild appPath listenFd o with
  | SysErr e, Fault f => f = ProcessExit e
  | SysOk pid, Ret (Caller r) o' => 0 < pid /\ r = 0 /\ fds o' = fds o
  | SysOk pid, Ret (Program p) o' => pid = 0 /\ p = appPath /\ forall i, fds o' !! i =
      if decide (i = 0) then
        if negb (listenFd =? 0) && listener_moved listenFd (snd forked) then Some d else None
      else if decide (i = 1 \/ i = 2 \/ i = listenFd) then None else fds o !! i
  | SysOk pid, Fault f => pid = 0 /\
      exists e k, f = ProcessExit e /\ fst (sys_execl appPath k) = Some e
  | _, _ => False
  end.
Proof.
  intros Hd forked. pose proof (OS_SpawnChild_outcome appPath listenFd d o Hd) as Ho.
  cbv zeta in Ho. fold forked in Ho. destruct (fst forked), (OS_SpawnChild appPath listenFd o) as [[r|p] o'|f]; try done.
  destruct Ho as (-> & -> & ->). do 2 (split; [done|]). intros i. apply spawned_fds_lookup.
Qed.
End Processes.

Section Paths.
Context `{SocketLaws}.

End Paths.

(** ** Runs *)

Section OsExamples.
(** a reader at the content of a GET_VALUES record *)
Definition ex_values_of (ps : list (list Z * list Z)) : SState :=
  mkSState
    (mkStream 0 0 0 (Some 0) true false false 0 FillBuffProc_ptr NullProc
      (mkData (replicate 32 0) 32 4100 0 FCGI_STDIN true false (len (encode_pairs ps)) 0 false false))
    (ex_open_request 1) (script_os (one_input 5 3 (encode_pairs ps ++ [1]))).

Definition ex_asked : list (list Z * list Z) :=
  [(FCGI_MPXS_CONNS, []); (chars "OTHER", []); (FCGI_MAX_REQS, [])].
Definition ex_asked_often : list (list Z * list Z) :=
  [(FCGI_MPXS_CONNS, []); (FCGI_MAX_CONNS, []); (FCGI_MAX_REQS, []); (FCGI_MAX_REQS, [])].

Lemma pair_ok_check kv :
  forallb (fun c => negb (c =? 0) && negb (c =? 61)) (fst kv)
  && forallb (fun c => negb (c =? 0)) (snd kv) = true -> pair_ok kv.
Proof.
  rewrite andb_true_iff, !List.forallb_forall. intros [H1 H2]. unfold pair_ok, no_nul.
  split_and!; apply List.Forall_forall; intros c Hc; (specialize (H1 c Hc) || specialize (H2 c Hc)); lia.
Qed.

Lemma ex_values_at ps : Forall pair_ok ps -> len (encode_pairs ps) < 10000 ->
  Forall (fun kv => len (fst kv) + len (snd kv) + 2 <= INT_MAX) ps ->
  Z.of_nat (length ps) < 100 ->
  sc_incoming 5 (one_input 5 3 (encode_pairs ps ++ [1])) = encode_pairs ps ++ [1] ->
  at_values [1] demo_fuel ps (ex_values_of ps).
Proof.
  intros Hps Hl Hs Hc Hin. pose proof (len_nonneg (encode_pairs ps)).
  assert (rview (ex_values_of ps) = encode_pairs ps ++ [1]) as Hv.
  { unfold rview, os_in. cbn. exact Hin. }
  split; try done; [| |rewrite Hv, len_app, demo_fuel_val; change (len [1]) with 1; lia|lia].
  - split; try done. split; try done. apply bytes_check. reflexivity.
  - exists (encode_pairs ps), []. split; [by apply encode_pairs_wire|]. by rewrite Hv.
Qed.

Lemma ex_asked_at : at_values [1] demo_fuel ex_asked (ex_values_of ex_asked).
Proof.
  apply ex_values_at.
  - repeat (apply Forall_cons; split; [by apply pair_ok_check|]). constructor.
  - by vm_compute.
  - repeat constructor; vm_compute; discriminate.
  - by vm_compute.
  - by vm_compute.
Qed.

Lemma ex_asked_often_at : at_values [1] demo_fuel ex_asked_often (ex_values_of ex_asked_often).
Proof.
  apply ex_values_at.
  - repeat (apply Forall_cons; split; [by apply pair_ok_check|]). constructor.
  - by vm_compute.
  - repeat constructor; vm_compute; discriminate.
  - by vm_compute.
  - by vm_compute.
Qed.

(** a filter request: standard input, then data *)
Definition ex_data : list rec :=
  [mkRec FCGI_DATA 1 [7; 8] [0]; mkRec FCGI_DATA 1 [9] []].
Definition ex_data_wire : list Z :=
  encode_all ex_data ++ encode_rec (eof_rec FCGI_DATA 1 [0]) ++ [].
Definition ex_filter : SState :=
  mkSState (ex_reader FCGI_STDIN) (set_role FCGI_FILTER (ex_open_request 1))
    (script_os (one_input 5 4
      (encode_all ex_stdin ++ encode_rec (eof_rec FCGI_STDIN 1 []) ++ ex_data_wire))).

Definition ex_filter_wire : list Z :=
  encode_all ex_stdin ++ encode_rec (eof_rec FCGI_STDIN 1 []) ++ ex_data_wire.

Lemma ex_filter_delivers : delivers FCGI_STDIN ex_filter_wire [10; 20; 30] ex_filter.
Proof. split; [|done]. split; try done. split; try done. apply bytes_check. reflexivity. Qed.

(** an asynchronous table of 16 entries *)
Definition ex_table : list AioInfo := replicate 16 aio_zero.
Definition ex_async : OS :=
  set_aio (set_asyncIoTable (Some ex_table) script_aio) (script_os (one_input 5 3 [])).

(** a kernel on which a silent Unix client arrives together with SIGUSR1: its state
    tells whether the client still waits, is connected as descriptor 7, or was closed,
    after which [select] and [close] report EBADF; every later [accept] gives an
    Internet client *)
Inductive silent_state := ClientWaits | ClientOpen | ClientClosed.

Definition EBADF : Z := 9.

Definition silent_platform : Platform := {|
  pst := silent_state;
  sys_read fd n k := (IoOk [], k);
  sys_write fd bs k := (SysOk (len bs), k);
  sys_malloc n k := (Some (4100, fun _ => 0), k);
  stack_fill k i := 0;
  sys_accept fd k :=
    match k with
    | ClientWaits => ((SysOk 7, mkSockaddr AF_UNIX 0, true), ClientOpen)
    | _ => ((SysOk 8, mkSockaddr AF_INET 0, false), k)
    end;
  sys_close fd k :=
    match k with
    | ClientOpen => (SysOk 0, ClientClosed)
    | _ => (SysErr EBADF, k)
    end;
  sys_shutdown fd how k := (SysOk 0, k);
  sys_select n R W t k :=
    match k with
    | ClientClosed => ((SysErr EBADF, R, W), k)
    | _ => ((SysOk 0, ∅, ∅), k)
    end;
  sys_setsockopt fd k := (SysOk 0, k);
  sys_setlk fd lock k := ((SysOk 0, false), k);
  sys_getpeername fd k := (SysErr ENOTCONN, k);
  sys_fcntl_getfl fd k := (SysOk 0, k);
  sys_fcntl_setfl fd v k := (SysOk 0, k);
  sys_sigdefault sig k := true;
  sys_sigaction sig k := k;
  sys_getenv name k := None;
  inet_addr s := 0
|}.
Definition silent_os : @OS silent_platform :=
  mkOS (H := silent_platform) 0 false false false script_aio ClientWaits.

Lemma silent_example : @silent_client silent_platform 0 7 (fun k => k <> ClientWaits).
Proof.
  split.
  - intros b k Hk. by exists k.
  - intros [] Hk; [done|..].
    + exists (SysOk 0), ∅, ∅, ClientOpen. split; [done|]. split; [done|]. apply not_elem_of_empty.
    + by exists (SysErr EBADF), {[7]}, ∅, ClientClosed.
  - intros [] r k' Hk; by intros [= <- <-].
Qed.

(** a kernel whose state is its table of descriptors, in the child of a fork *)
Definition child_platform : Platform := {|
  pst := gmap Z Z;
  sys_read fd n k := (IoOk [], k);
  sys_write fd bs k := (SysOk (len bs), k);
  sys_malloc n k := (Some (4100, fun _ => 0), k);
  stack_fill k i := 0;
  sys_accept fd k := ((SysErr 9, mkSockaddr AF_UNIX 0, false), k);
  sys_close fd k := (SysOk 0, delete fd k);
  sys_shutdown fd how k := (SysOk 0, k);
  sys_select n R W t k := ((SysOk 0, ∅, ∅), k);
  sys_setsockopt fd k := (SysOk 0, k);
  sys_setlk fd lock k := ((SysOk 0, false), k);
  sys_getpeername fd k := (SysErr ENOTCONN, k);
  sys_fcntl_getfl fd k := (SysOk 0, k);
  sys_fcntl_setfl fd v k := (SysOk 0, k);
  sys_sigdefault sig k := true;
  sys_sigaction sig k := k;
  sys_getenv name k := None;
  inet_addr s := 0
|}.
Definition child_processes : @Processes child_platform := {|
  sys_fork k := (SysOk 0, k : @pst child_platform);
  sys_dup2 old new k := (SysOk new, match (k : gmap Z Z) !! old with
                                    | Some d => <[new := d]> (k : gmap Z Z)
                                    | None => k
                                    end);
  sys_execl p k := (None, k)
|}.
#[local] Program Instance child_laws : @ProcessLaws child_platform child_processes := {
  descriptors := (fun k => k) : @pst child_platform -> gmap Z Z
}.
Solve Obligations with (cbn; intros; simplify_eq; by simplify_option_eq).

Definition child_os : @OS child_platform :=
  mkOS (H := child_platform) 0 false false false script_aio
    ({[ 0 := 10; 1 := 11; 2 := 12; 5 := 15; 7 := 17 ]} : gmap Z Z).

(** a kernel whose state is its table of sockets, in which descriptor 0 is free *)
Definition listen_platform : Platform := {|
  pst := gmap Z (option sock_address * option Z);
  sys_read fd n k := (IoOk [], k);
  sys_write fd bs k := (SysOk (len bs), k);
  sys_malloc n k := (Some (4100, fun _ => 0), k);
  stack_fill k i := 0;
  sys_accept fd k := ((SysErr 9, mkSockaddr AF_UNIX 0, false), k);
  sys_close fd k := (SysOk 0, k);
  sys_shutdown fd how k := (SysOk 0, k);
  sys_select n R W t k := ((SysOk 0, ∅, ∅), k);
  sys_setsockopt fd k := (SysOk 0, k);
  sys_setlk fd lock k := ((SysOk 0, false), k);
  sys_getpeername fd k := (SysErr ENOTCONN, k);
  sys_fcntl_getfl fd k := (SysOk 0, k);
  sys_fcntl_setfl fd v k := (SysOk 0, k);
  sys_sigdefault sig k := true;
  sys_sigaction sig k := k;
  sys_getenv name k := None;
  inet_addr s := 0
|}.
Definition socket_at (k : gmap Z (option sock_address * option Z)) (s : Z) :=
  default (None, None) (k !! s).
Definition listen_sockets : @Sockets listen_platform := {|
  sys_socket dom k := (SysOk 0, <[0 := (None, None)]> k) : sysret * @pst listen_platform;
  sys_bind s sa k := (SysOk 0, <[s := (Some sa, snd (socket_at k s))]> k)
    : sysret * @pst listen_platform;
  sys_listen s n k := (SysOk 0, <[s := (fst (socket_at k s), Some n)]> k)
    : sysret * @pst listen_platform;
  sys_connect s sa k := (SysErr 111, k);
  sys_unlink p k := (SysErr 2, k);
  gethostbyname h k := (None, k)
|}.
#[local] Program Instance listen_laws : @SocketLaws listen_platform listen_sockets := {
  bound := (fun k s => fst (socket_at k s)) : @pst listen_platform -> Z -> option sock_address;
  listening := (fun k s => snd (socket_at k s)) : @pst listen_platform -> Z -> option Z
}.
Solve Obligations with (cbn; unfold socket_at; intros; simplify_eq; by rewrite lookup_insert_eq).

Definition listen_world : @World listen_platform :=
  @mkWorld listen_platform ∅ ex_request
    (mkOS (H := listen_platform) 0 false false false script_aio
      (∅ : gmap Z (option sock_address * option Z))) 0 true None.
End OsExamples.


Lemma get_values_overflows_witness :
  ProcessManagementRecord demo_fuel (FillBuffProc_depth demo_fuel 1) FCGI_GET_VALUES
    (ex_values_of ex_asked_often) = Fault UndefinedBehaviour.
Proof.
  apply (get_values_overflows demo_fuel 0 [1] ex_asked_often (ex_values_of ex_asked_often)).
  - discriminate.
  - exact ex_asked_often_at.
  - vm_compute. reflexivity.
Defined.

Lemma filter_reads_data_witness :
  wp (a <- FCGX_GetStr demo_fuel (FillBuffProc demo_fuel) 9 ;;
      r <- FCGX_StartFilterData ;;
      b <- FCGX_GetStr demo_fuel (FillBuffProc demo_fuel) 2 ;; ret (a, r, b)) (fun r _ =>
    r = ([10; 20; 30], 0, [7; 8])) ex_filter.
Proof.
  apply (filter_reads_data demo_fuel ex_filter_wire [10; 20; 30] ex_data_wire 9 2 ex_filter).
  - exact ex_filter_delivers.
  - vm_compute. reflexivity.
  - exact I.
  - apply ex_fuel. vm_compute. reflexivity.
  - reflexivity.
  - reflexivity.
  - discriminate.
  - split; [reflexivity|discriminate].
Defined.

Lemma client_allowed_witness :
  wp (ClientAddrOK 0 (Some (c_str (chars "1.2.3.4,5.6.7.8")))) (fun r _ => r = true) ex_os.
Proof.
  apply (client_allowed 0 [chars "1.2.3.4"; chars "5.6.7.8"] ex_os).
  - repeat constructor; discriminate.
  - discriminate.
  - reflexivity.
Defined.

Lemma async_read_queues_witness :
  wp (OS_AsyncRead demo_fuel 20 0 64 100 (Some 8) 9) (fun r o' => r = 0 /\ exists t',
    asyncIoTable (aio o') = Some t' /\
    t' !! 40%nat = Some (mkAioInfo (Some 8) 9 20 100 0 64 true) /\
    (forall i e, i <> 40%nat -> ex_table !! i = Some e -> t' !! i = Some e) /\
    readFdSet (aio o') = {[20]} ∪ readFdSet (aio ex_async) /\
    maxFd (aio o') = 20) ex_async.
Proof.
  apply (async_read_queues demo_fuel 20 0 64 100 (Some 8) 9 ex_table ex_async).
  - split; [reflexivity|]. split; [reflexivity|discriminate].
  - reflexivity.
  - apply ex_fuel. reflexivity.
  - discriminate.
Defined.

Lemma close_keeps_output_witness :
  wp (OS_Close demo_fuel 5) (fun r o' => (exists rc o1 o2,
      syscall (sys_shutdown 5 1) (script_os (one_input 5 3 [1; 2])) = Ret rc o1 /\
      (if rc =? 0 then input_drained 5 o1 o2 else o2 = o1) /\
      syscall (sys_close 5) o2 = Ret r o') /\
    out_kept 5 (script_os (one_input 5 3 [1; 2])) o' /\ (5 ∈ opened (os_files o') -> may_fail))
    (script_os (one_input 5 3 [1; 2])).
Proof.
  apply (close_keeps_output demo_fuel 5 (script_os (one_input 5 3 [1; 2]))).
  - reflexivity.
  - reflexivity.
  - apply ex_fuel. reflexivity.
Defined.

Lemma accept_stale_socket_witness :
  @OS_Accept silent_platform 1000 0 false None silent_os = Fault OutOfFuel.
Proof.
  apply (@accept_stale_socket silent_platform 0 7 (fun k => k <> ClientWaits) false None 1000
    silent_os).
  - reflexivity.
  - exact silent_example.
  - reflexivity.
  - exists ClientWaits, 0, ClientOpen. split; [reflexivity|]. split; [reflexivity|discriminate].
Defined.


Lemma spawn_child_listener_witness :
  exists o', @OS_SpawnChild child_platform child_processes (chars "app") 5 child_os =
    Ret (Program (chars "app")) o' /\
  (0 = 0 /\ chars "app" = chars "app" /\ forall i, (plat o' : gmap Z Z) !! i =
      if decide (i = 0) then
        if negb (5 =? 0) && @listener_moved child_platform child_processes 5 (plat child_os)
        then Some 15 else None
      else if decide (i = 1 \/ i = 2 \/ i = 5) then None else (plat child_os : gmap Z Z) !! i).
Proof.
  eexists. split; [reflexivity|].
  refine (@spawn_child_listener child_platform child_processes child_laws (chars "app") 5 15
    child_os _).
  reflexivity.
Defined.
