(* ===== verification/TheoremsCxx.v ===== *)
(** * The properties of the C++ stream buffer

    A [fcgi_streambuf], with a buffer of any size or none, is invisible between
    its user and the stream behind it; each theorem with a run on a concrete
    system where its hypotheses hold. *)

From Stdlib Require Import String.
From S2P Require Import Prelude CString Protocol Platform Script OsUnix Params Stream Writer Reader.
From S2P Require Import Source NameValue Demux Begin Request Accept Response Streambuf Theorems.
#[local] Open Scope Z_scope.

Section Cxx.
Context `{Reliable}.

(** C35. A program that writes through a [fcgi_streambuf], character by
    character, in blocks, with flushes in between, and flushes it at the end
    succeeds at every operation and has sent exactly the characters it wrote, in
    order, as records of the stream, whatever the size of the buffer, the one
    without a buffer included: the buffered stream refines the list of
    characters written. *)
Theorem streambuf_writes fuel s0 base ops x :
  65536 < Z.of_nat fuel -> put_rep fuel (open_writer s0 [] base) [] x ->
  Forall (sb_op_ok fuel) ops ->
  wp (ok <- run_sb_ops fuel ops ;; r <- sync fuel ;; ret (ok, r)) (fun r x' =>
    r = (true, 0) /\
    behind (fun s' => exists rs,
      os_out (ipcFd (rq s')) (os s') = base ++ encode_all rs /\
      Forall (stream_rec (type (data (stm s'))) (requestId (rq s'))) rs /\
      content_of (type (data (stm s'))) (requestId (rq s')) rs =
      concat (map sb_op_bytes ops)) x') x.
Proof.
  intros Hf Hrep Hops. wp_step. wp_use wp_run_sb_ops; [exact Hf|exact Hrep|exact Hops|].
  cbv beta. intros ok x1 [-> Hr]. wp_step. wp_use wp_sync; [exact Hf|exact Hr|]. cbv beta.
  intros r x2 (-> & _ & p & st & Hp & Hst & [_ _ _ _ _ _ (rs & Hout & Hrs & _ & Hacc)] & Hpe).
  wp_step. split; [done|]. exists p, st. split; [done|]. split; [done|].
  exists rs. by rewrite Hpe, app_nil_r in Hacc.
Qed.

(** C36. Reading blocks of any sizes through a fresh [fcgi_streambuf], buffered
    or not, gives the consecutive parts of what the connection delivers, for as long
    as there is enough of it, on any input in which no GET_VALUES record, and no
    BEGIN_REQUEST before the request has begun, comes before the stream's end
    ([asks_nothing]). *)
Theorem streambuf_reads fuel t v c ns x :
  behind (fun s => delivers t v c s /\ asks_nothing t v s) x -> 2 * len v + 18 < Z.of_nat fuel -> buf_ok (sbuf x) ->
  gptr (sbuf x) = 0 -> egptr (sbuf x) = 0 ->
  Forall (fun n => 0 < n <= INT_MAX) ns -> total ns <= len c ->
  wp (read_blocks fuel (FillBuffProc fuel) ns) (fun r _ => r = blocks ns c) x.
Proof.
  intros (p & st & Hp & Hst & Hd & Hpl) Hfuel Hok Hg He Hns Htot.
  pose proof (delivers_len _ _ _ _ Hd). pose proof (len_nonneg c).
  pose proof (delivers_bytes _ _ _ _ Hd) as Hby.
  destruct (delivers_Source fuel _ v c _ Hd Hpl) as (I & Hs & HI & _); [lia|lia|].
  set (E := all_delivered t v _) in Hs.
  wp_use (wp_read_blocks fuel (FillBuffProc fuel) I E ns c).
  - split_and!; try done; try lia.
    { destruct Hok as [-> _ _]. rewrite He. apply len_nonneg. }
    exists c. rewrite Hg, He, slice_empty by lia. split; [done|].
    exists p, st. split; [done|]. split; [done|]. by left.
  - done.
  - done.
  - cbv beta. by intros r x' [-> _].
Qed.
End Cxx.

(** ** Runs *)

Section CxxExamples.
Definition ex_buf (p : positive) (n : nat) : fcgi_streambuf :=
  mkBuf (Some p) (replicate n 0) (Z.of_nat n) 0 0 0.
Definition ex_bworld (p : positive) (n : nat) (o : OS) : BWorld :=
  mkBWorld (ex_buf p n) (mkWorld ex_heap (ex_open_request 1) o 1 true None).
Definition ex_sb_ops : list sb_op := [Sputn (chars "hel"); Sputc 108; Pubsync; Sputn (chars "o")].

Lemma ex_buf_ok p n : Z.of_nat n <= INT_MAX -> buf_ok (ex_buf p n).
Proof.
  intros Hn. split; cbn; [unfold len; by rewrite length_replicate|done|].
  by apply Forall_replicate.
Qed.
End CxxExamples.

Lemma streambuf_writes_witness :
  wp (ok <- run_sb_ops demo_fuel ex_sb_ops ;; r <- sync demo_fuel ;; ret (ok, r)) (fun r x' =>
    r = (true, 0) /\
    behind (fun s' => exists rs,
      os_out (ipcFd (rq s')) (os s') = [] ++ encode_all rs /\
      Forall (stream_rec (type (data (stm s'))) (requestId (rq s'))) rs /\
      content_of (type (data (stm s'))) (requestId (rq s')) rs = chars "hello") x')
    (ex_bworld 2 2 ex_os).
Proof.
  apply (streambuf_writes demo_fuel ex_out [] ex_sb_ops).
  - apply ex_fuel. reflexivity.
  - split; [apply ex_buf_ok; discriminate|]. split; [apply ex_fuel; reflexivity|].
    split; [split; discriminate|]. exists []. split; [reflexivity|].
    exists 2%positive, (ex_writer FCGI_STDOUT). split; [reflexivity|]. split; [reflexivity|].
    exact ex_out_open.
  - repeat (apply Forall_cons; split;
      [split; [by apply bytes_check|split; [discriminate|apply ex_fuel; reflexivity]]|]).
    constructor.
Defined.

Lemma streambuf_reads_witness :
  wp (read_blocks demo_fuel (FillBuffProc demo_fuel) [1; 2]) (fun r _ => r = [[10]; [20; 30]])
    (ex_bworld 1 2 (script_os (one_input 5 3 ex_rest))).
Proof.
  apply (streambuf_reads demo_fuel FCGI_STDIN ex_rest [10; 20; 30] [1; 2]).
  - exists 1%positive, (ex_reader FCGI_STDIN). split; [reflexivity|]. split; [reflexivity|].
    exact (conj (ex_delivers 3) (ex_plain 3)).
  - apply ex_fuel. vm_compute. reflexivity.
  - apply ex_buf_ok. discriminate.
  - reflexivity.
  - reflexivity.
  - repeat constructor; discriminate.
  - discriminate.
Defined.
