(* ===== verification/TheoremsWin.v ===== *)
(** * The properties of the Windows layer

    The descriptor table and the completions of asynchronous operations over
    everything the program can do, the address filter, listening on a pipe and
    connecting to a port, each with a run on a concrete system where its
    hypotheses hold. *)

From Stdlib Require Import String.
From S2P Require Import Prelude CString Platform Format Printing Sockets Win32 Win32Spec.
#[local] Open Scope Z_scope.

(** runs the next command of a sequence, which returns *)
Ltac run_ret :=
  match goal with |- bind ?m _ ?s = _ => rewrite (bind_ret_eq m _ s _ _ eq_refl) end.

Section Windows.
Context `{Win32Api}.

Section Reachable.
Variable fuel : nat.
Variable call : Z -> Z -> Z -> M WOS unit.
Context (call_keeps : forall p cd n, keeps table_ok (call p cd n)).

(** C37. In every state the program can reach, by any sequence of operations
    with any answers of Win32, the descriptor table has its 128 entries, no
    entry is a file, holds a path or shares its offset with another process, and
    no entry's instance number has changed since the program started. *)
Theorem win_table_invariant o : reachable fuel call o ->
  length (fdTable o) = 128%nat /\
  forall i e, fdTable o !! i = Some e -> path e = None /\ hMapMutex e = 0 /\ instance e = 0 /\
    type e <> FD_FILE_SYNC /\ type e <> FD_FILE_ASYNC.
Proof.
  intros Ho. destruct (reachable_table_ok fuel call call_keeps o Ho) as ((Hl & He) & _).
  split; [done|]. intros i e Hi. destruct (Forall_lookup_1 _ _ _ _ He Hi). tauto.
Qed.

(** C38. In every reachable state, the completion of an asynchronous operation
    calls its procedure, whatever became of the descriptor meanwhile: the
    instance number that should not match after a close always matches, so a
    completion that arrives after the descriptor was closed is delivered too. *)
Theorem stale_completion_delivered o p req fd bytes ms last k :
  reachable fuel call o -> requests o !! p = Some req -> fd_valid fd = true ->
  0 <= ms < 4294967295 ->
  GetQueuedCompletionStatus (hIoCompPort o) ms (wplat o) = ((true, bytes, fd, Some p), k) ->
  DoIo_turn call None (ms, last) o =
  (call (ov_procPtr req) (ov_clientData req) (INT bytes) ;;;
   modify (fun o => set_requests (delete p (requests o)) o) ;;;
   now <- api ftime ;;
   ret (inl (ms - (now - last), now))) (set_wplat k o).
Proof.
  intros Ho Hp Hfd Hms Hk.
  destruct (reachable_table_ok fuel call call_keeps o Ho) as ((Hl & He) & Hr & _).
  assert (0 <= fd < 128) as Hfd' by (unfold fd_valid, WIN32_OPEN_MAX in Hfd; lia).
  destruct (lookup_lt_is_Some_2 (fdTable o) (Z.to_nat fd)) as [e Hfe]; [lia|].
  unfold DoIo_turn. replace (0 <=? ms) with true by lia.
  replace (ms <? 4294967295) with true by lia. cbn [negb andb].
  do 2 run_ret.
  rewrite (bind_ret_eq (api (GetQueuedCompletionStatus (hIoCompPort o) ms)) _ _
    (true, bytes, fd, Some p) (set_wplat k o)) by (unfold api, bind, get; by rewrite Hk).
  cbn [negb andb]. set (o1 := set_wplat k o). rewrite Hfd.
  do 4 run_ret.
  change (requests o1) with (requests o). rewrite Hp.
  run_ret.
  rewrite (bind_ret_eq (fd_entry fd) _ _ e o1) by (unfold fd_entry, bind, gets;
    change (fdTable o1) with (fdTable o);
    replace (0 <=? fd) with true by lia; by rewrite Hfe).
  rewrite (Hr p req Hp), (eo_instance _ (Forall_lookup_1 _ _ _ _ He Hfe)). done.
Qed.
End Reachable.

(** The address filter is defined for every list, and an address it accepts
    is an element of the list: it occurs there between separators or the ends of
    the string. *)
Lemma addr_filter_sound ip l : no_nul l -> no_nul ip -> ip <> [] ->
  exists b, addr_listed ip (c_str l) = Some b /\
    (b = true -> exists pre post, l = pre ++ ip ++ post /\
       separated (last pre) /\ separated (head post)).
Proof.
  intros Hl Hip Hne. destruct (addr_listed_defined ip l Hl Hip Hne) as [b Hb].
  exists b. split; [done|]. intros ->. by apply addr_listed_sound.
Qed.

(** C39. A listener that [OS_CreateLocalIpcFd] creates for a bind path without a
    port gets a type that [OS_Accept] does not know: whatever Win32 answers,
    [OS_Accept] then returns -1. *)
Theorem pipe_listener_never_accepts bindPath backlog fuel sock intr addrs fd o o' :
  no_nul bindPath -> Forall (fun c => c <> 58) bindPath ->
  OS_CreateLocalIpcFd (c_str bindPath) backlog o = Ret fd o' -> 0 <= fd ->
  wp (OS_Accept fuel sock intr addrs) (fun r _ => r = -1) o'.
Proof.
  intros Hn Hc E Hfd. apply wp_accept_pipe.
  pose proof (wlp_create_pipe (c_str bindPath) backlog o (strchr_nul _ 58 [] Hn Hc ltac:(done))) as Hp.
  unfold wlp in Hp. rewrite E in Hp. by apply Hp.
Qed.

(** C40. [OS_FcgiConnect] to [":port"] takes the result of [connect] the wrong
    way round: when the connection is made it closes the socket and returns -1
    with the table as it was; when it is refused it returns a descriptor for the
    unconnected socket, if the table has room. *)
Theorem connect_inverted p s rc o :
  0 < p < 65536 -> returns Socket s -> 0 < s <= INT_MAX ->
  (forall a q, returns (Connect s a q) rc) -> returns (Closesocket s) 0 ->
  (forall h k, exists hp, fst (win_gethostbyname h k) = Some hp /\ h_addr_list hp <> []) ->
  length (fdTable o) = 128%nat ->
  wp (OS_FcgiConnect (c_str (58 :: digits false 10 p))) (fun fd o' =>
    if (rc =? 0) || (new_index (fdTable o) s (-1) =? -1) then fd = -1 /\ fdTable o' = fdTable o
    else 0 <= fd /\ exists e,
      fdTable o' !! Z.to_nat fd = Some e /\ type e = FD_SOCKET_SYNC /\ fid e = s) o.
Proof. apply wp_connect_port. Qed.
End Windows.

(** ** Runs *)

(** a Win32 on which everything succeeds; its state is the completions to come *)
Definition ex_win : Win32Api := {|
  wst := list (Z * positive);
  win c k := ((match c with
               | Socket => 9 | CreateFile _ => 7 | CreateNamedPipe _ => 7
               | CreateIoCompletionPort _ _ _ => 5 | CreateMutex => 6
               | Bind _ _ _ | Listen _ _ | Connect _ _ _ | Closesocket _ | Shutdown _ _
               | WSAStartup | WaitForSingleObject _ | Select _ _ => 0
               | _ => 1
               end, false), k);
  ReadFile h n k := (Some [], k);
  WriteFile h bs k := (Some (len bs), k);
  recv s n k := (Some [], k);
  GetQueuedCompletionStatus port ms k :=
    match k with
    | [] => ((false, 0, 0, None), [])
    | (fd, p) :: k' => ((true, 12, fd, Some p), k')
    end;
  WSAAccept s f k := (11, k);
  DuplicateHandle h k := (Some h, k);
  win_gethostbyname h k := (Some (mkHostent AF_INET [16777343]), k);
  win_malloc n k := (Some 1%positive, k);
  win_getenv name k := None;
  GetLastError k := 0;
  ftime k := (0, k);
  inet_ntoa a := c_str (chars "1.2.3.4")
|}.

(** a pipe is opened, a read is started and the pipe closed *)
Definition ex_win_start : @WOS ex_win := @win_init ex_win ∅ [(7, 1%positive)].
Definition ex_win_ops : list win_op :=
  [FcgiConnect (c_str (chars "app")); AsyncRead 7 0 64 100 8 9; Close 7].
Definition ex_call (p cd n : Z) : M (@WOS ex_win) unit := ret tt.

Fixpoint run_win_ops (ops : list win_op) : M (@WOS ex_win) unit :=
  match ops with
  | [] => ret tt
  | op :: ops' => _ <- @run_win_op ex_win 10 ex_call op ;; run_win_ops ops'
  end.

Definition ex_win_end : @WOS ex_win :=
  match run_win_ops ex_win_ops ex_win_start with Ret _ o => o | Fault _ => ex_win_start end.

Lemma run_win_ops_steps ops o o' : run_win_ops ops o = Ret tt o' ->
  rtc (@win_step ex_win 10 ex_call) o o'.
Proof.
  revert o. induction ops as [|op ops IH]; intros o; cbn [run_win_ops].
  - intros [= <-]. apply rtc_refl.
  - unfold bind. destruct (run_win_op 10 ex_call op o) as [[] o1|] eqn:E; [|done].
    intros Hr. apply (rtc_l _ _ o1); [by exists op|by apply IH].
Qed.

Lemma ex_win_reachable : @reachable ex_win 10 ex_call ex_win_end.
Proof.
  exists ∅, [(7, 1%positive)]. apply (run_win_ops_steps ex_win_ops). vm_compute. reflexivity.
Qed.

Lemma ex_call_keeps p cd n : keeps table_ok (ex_call p cd n).
Proof. apply keeps_ret. Qed.

Lemma win_table_invariant_witness :
  length (fdTable ex_win_end) = 128%nat /\
  forall i e, fdTable ex_win_end !! i = Some e ->
    path e = None /\ hMapMutex e = 0 /\ instance e = 0 /\
    type e <> FD_FILE_SYNC /\ type e <> FD_FILE_ASYNC.
Proof.
  apply (@win_table_invariant ex_win 10 ex_call ex_call_keeps). exact ex_win_reachable.
Defined.

Lemma stale_completion_delivered_witness :
  (type <$> fdTable ex_win_end !! 7%nat) = Some FD_UNUSED /\
  @DoIo_turn ex_win ex_call None (1000, 0) ex_win_end =
  (ex_call 8 9 12 ;;;
   modify (fun o => @set_requests ex_win (delete 1%positive (requests o)) o) ;;;
   now <- @api ex_win _ ftime ;;
   ret (inl (1000 - (now - 0), now))) (@set_wplat ex_win ([] : list (Z * positive)) ex_win_end).
Proof.
  split; [vm_compute; reflexivity|].
  apply (@stale_completion_delivered ex_win 10 ex_call ex_call_keeps ex_win_end 1
    (mkReq 0 0 0 8 9 0) 7 12).
  - exact ex_win_reachable.
  - vm_compute. reflexivity.
  - reflexivity.
  - split; [discriminate|reflexivity].
  - vm_compute. reflexivity.
Defined.

Lemma pipe_listener_never_accepts_witness :
  exists o', OS_CreateLocalIpcFd (c_str (chars "app")) 5 ex_win_start = Ret 7 o' /\
    wp (OS_Accept 10 0 false None) (fun r _ => r = -1) o'.
Proof.
  eexists. split; [vm_compute; reflexivity|].
  apply (@pipe_listener_never_accepts ex_win (chars "app") 5 10 0 false None 7 ex_win_start).
  - repeat constructor; discriminate.
  - repeat constructor; discriminate.
  - vm_compute. reflexivity.
  - discriminate.
Defined.

Lemma connect_inverted_witness :
  wp (@OS_FcgiConnect ex_win (c_str (58 :: digits false 10 8080))) (fun fd o' =>
    fd = -1 /\ fdTable o' = fdTable ex_win_start) ex_win_start.
Proof.
  apply (@connect_inverted ex_win 8080 9 0 ex_win_start).
  - split; reflexivity.
  - intros k. exists k. reflexivity.
  - split; [reflexivity|discriminate].
  - intros a q k. exists k. reflexivity.
  - intros k. exists k. reflexivity.
  - intros h k. eexists. split; [reflexivity|discriminate].
  - reflexivity.
Defined.
